(** * Threefish (crypto/threefish): a shallow embedding and its properties

    The Go package [threefish] implements the tweakable block cipher
    Threefish for 256, 512 and 1024 bit blocks.  This file embeds the
    package in Rocq and proves the properties of its key schedule, tweak
    schedule, round engine and facade.

    Modelling conventions.
    - A [uint64] is a [Z]; every arithmetic operation writes its
      wrap-around out ([add64], [sub64], [shl64]).  A value is a valid
      [uint64] when it satisfies [word].
    - A slice is a list; [index] and [store] panic out of range as Go does.
      A fixed-size array is a list whose length is an invariant of the
      struct ([wf_threefish]); constant indices into it are read with [arr].
    - A nil-able slice whose nil-ness the code inspects is an [option].
    - A call either returns ([Done]), returns an [os.Error] ([Failed]) or
      panics ([Panic]).
    - A Go [string] is a [string]; [strconv.Itoa] is the decimal printer of
      the standard library.
    - Local variables that the unrolled rounds mutate are a tuple; every
      source line of the round functions is one function on that tuple and
      [run] executes the lines in order. *)

From Stdlib Require Import ZArith List Lia Bool Setoid Morphisms.
From coqutil Require Import Byte Word.LittleEndianList.
From Stdlib Require String DecimalString DecimalZ DecimalPos.
Import (notations) Stdlib.Strings.String.
Import ListNotations.
Local Open Scope Z_scope.

(** ** uint64 arithmetic *)

Definition add64 (x y : Z) : Z := (x + y) mod 2 ^ 64.
Definition sub64 (x y : Z) : Z := (x - y) mod 2 ^ 64.
Definition shl64 (x n : Z) : Z := Z.shiftl x n mod 2 ^ 64.
Definition shr64 (x n : Z) : Z := Z.shiftr x n.
Definition or64 (x y : Z) : Z := Z.lor x y.
Definition xor64 (x y : Z) : Z := Z.lxor x y.

Declare Scope u64_scope.
Delimit Scope u64_scope with u64.
Infix "+'" := add64 (at level 50, left associativity) : u64_scope.
Infix "-'" := sub64 (at level 50, left associativity) : u64_scope.
Infix "|'" := or64 (at level 50, left associativity) : u64_scope.
Infix "^'" := xor64 (at level 50, left associativity) : u64_scope.
Infix "<<'" := shl64 (at level 40, left associativity) : u64_scope.
Infix ">>'" := shr64 (at level 40, left associativity) : u64_scope.
Local Open Scope u64_scope.

(** The values a [uint64] variable can hold. *)
Definition word (x : Z) : Prop := 0 <= x < 2 ^ 64.

Definition shift_ok (r : Z) : bool := (0 <? r) && (r <? 64).

(** ** Outcomes of a call *)

Inductive os_Error : Type :=
| KeySizeError (k : Z).

Inductive outcome (A : Type) : Type :=
| Done (a : A)
| Failed (e : os_Error)
| Panic.
Arguments Done {A} a.
Arguments Failed {A} e.
Arguments Panic {A}.

Definition bind {A B : Type} (m : outcome A) (f : A -> outcome B) : outcome B :=
  match m with
  | Done a => f a
  | Failed e => Failed e
  | Panic => Panic
  end.

Notation "x <- m ;; k" := (bind m (fun x => k))
  (at level 61, m at next level, right associativity).
Notation "' p <- m ;; k" := (bind m (fun x => let 'p := x in k))
  (at level 61, p pattern, m at next level, right associativity).

(** ** Slices and arrays *)

(** [l[i]] on a slice: panics when [i] is out of range. *)
Definition index {A : Type} (l : list A) (i : nat) : outcome A :=
  match nth_error l i with
  | Some x => Done x
  | None => Panic
  end.

(** [l[i] = v] on a slice: panics when [i] is out of range. *)
Fixpoint store {A : Type} (l : list A) (i : nat) (v : A) : outcome (list A) :=
  match l, i with
  | [], _ => Panic
  | _ :: t, O => Done (v :: t)
  | h :: t, S j => t' <- store t j v ;; Done (h :: t')
  end.

(** [a[i]] on a fixed-size array with a constant index. *)
Definition arr (a : list Z) (i : nat) : Z := nth i a 0.

(** [l[lo:hi]]: panics unless [lo <= hi <= len(l)]. *)
Definition slice {A : Type} (l : list A) (lo hi : nat) : outcome (list A) :=
  if (lo <=? hi)%nat && (hi <=? length l)%nat
  then Done (firstn (hi - lo) (skipn lo l))
  else Panic.

(** Writing [sub] through the view [l[lo:hi]] of [l]. *)
Definition write_slice {A : Type} (l : list A) (lo hi : nat) (sub : list A) : list A :=
  firstn lo l ++ sub ++ skipn hi l.

Definition len {A : Type} (l : list A) : Z := Z.of_nat (length l).

(** Straight-line code on a tuple of local variables. *)
Definition run {St : Type} (lines : list (St -> St)) (s : St) : St :=
  fold_left (fun s line => line s) lines s.

(** ** encoding/binary.LittleEndian *)

Definition Uint64 (b : list byte) : outcome Z :=
  match b with
  | b0 :: b1 :: b2 :: b3 :: b4 :: b5 :: b6 :: b7 :: _ =>
      Done (byte.unsigned b0 |' (byte.unsigned b1 <<' 8) |' (byte.unsigned b2 <<' 16)
            |' (byte.unsigned b3 <<' 24) |' (byte.unsigned b4 <<' 32)
            |' (byte.unsigned b5 <<' 40) |' (byte.unsigned b6 <<' 48)
            |' (byte.unsigned b7 <<' 56))
  | _ => Panic
  end.

Definition PutUint64 (b : list byte) (v : Z) : outcome (list byte) :=
  match b with
  | _ :: _ :: _ :: _ :: _ :: _ :: _ :: _ :: rest =>
      Done (byte.of_Z v :: byte.of_Z (v >>' 8) :: byte.of_Z (v >>' 16)
            :: byte.of_Z (v >>' 24) :: byte.of_Z (v >>' 32) :: byte.of_Z (v >>' 40)
            :: byte.of_Z (v >>' 48) :: byte.of_Z (v >>' 56) :: rest)
  | _ => Panic
  end.

(** ** Key and tweak schedule *)

Definition KEY_SCHEDULE_CONST : Z := 0x1BD11BDAA9FC1A22.
Definition EXPANDED_TWEAK_SIZE : nat := 3.

(** The three structs [threefish256], [threefish512] and [threefish1024]
    have the same fields and differ in the lengths of their arrays. *)
Record threefish : Type := mk_threefish {
  expanedTweak : list Z;
  expanedKey : list Z;
  tmpData1 : list Z;
  tmpData2 : list Z
}.

Definition with_expanedTweak (tf : threefish) (t : list Z) : threefish :=
  mk_threefish t (expanedKey tf) (tmpData1 tf) (tmpData2 tf).
Definition with_expanedKey (tf : threefish) (k : list Z) : threefish :=
  mk_threefish (expanedTweak tf) k (tmpData1 tf) (tmpData2 tf).
Definition with_tmpData (tf : threefish) (t1 t2 : list Z) : threefish :=
  mk_threefish (expanedTweak tf) (expanedKey tf) t1 t2.

(** Lengths of the arrays of a variant with [n] words per block. *)
Definition wf_threefish (n : nat) (tf : threefish) : Prop :=
  length (expanedTweak tf) = EXPANDED_TWEAK_SIZE /\
  length (expanedKey tf) = S n /\
  length (tmpData1 tf) = n /\
  length (tmpData2 tf) = n.

(** [new(threefishN)]: the zero value. *)
Definition new_threefish (n : nat) : threefish :=
  mk_threefish (repeat 0 EXPANDED_TWEAK_SIZE) (repeat 0 (S n)) (repeat 0 n) (repeat 0 n).

(** [setTweak(tweak, expTweak)]; the result is the new content of
    [expTweak]. *)
Definition setTweak (tweak : option (list Z)) (expTweak : list Z) : outcome (list Z) :=
  match tweak with
  | Some tweak =>
      x <- index tweak 0 ;; expTweak <- store expTweak 0 x ;;
      x <- index tweak 1 ;; expTweak <- store expTweak 1 x ;;
      x <- index tweak 0 ;; y <- index tweak 1 ;;
      expTweak <- store expTweak 2 (x ^' y) ;;
      Done expTweak
  | None => Done expTweak
  end.

(** The loop of [setKey]: [n] more iterations from index [i]. *)
Fixpoint setKey_loop (n i : nat) (key expKey : list Z) (parity : Z)
  : outcome (nat * list Z * Z) :=
  match n with
  | O => Done (i, expKey, parity)
  | S n' =>
      x <- index key i ;; expKey <- store expKey i x ;;
      x <- index key i ;;
      let parity := parity ^' x in
      setKey_loop n' (S i) key expKey parity
  end.

(** [setKey(key, expKey)]; the result is the new content of [expKey]. *)
Definition setKey (key expKey : list Z) : outcome (list Z) :=
  let parity := KEY_SCHEDULE_CONST in
  '(i, expKey, parity) <- setKey_loop (length expKey - 1) 0 key expKey parity ;;
  store expKey i parity.

(** ** Round engine *)

Definition CIPHER_SIZE_256 : Z := 256.
Definition CIPHER_QWORDS_256 : nat := Z.to_nat (CIPHER_SIZE_256 / 64).
Definition EXPANDED_KEY_SIZE_256 : nat := CIPHER_QWORDS_256 + 1.

Definition CIPHER_SIZE_512 : Z := 512.
Definition CIPHER_QWORDS_512 : nat := Z.to_nat (CIPHER_SIZE_512 / 64).
Definition EXPANDED_KEY_SIZE_512 : nat := CIPHER_QWORDS_512 + 1.

Definition CIPHER_SIZE_1024 : Z := 1024.
Definition CIPHER_QWORDS_1024 : nat := Z.to_nat (CIPHER_SIZE_1024 / 64).
Definition EXPANDED_KEY_SIZE_1024 : nat := CIPHER_QWORDS_1024 + 1.

(** *** Threefish-256: the unrolled rounds, one function a source line *)

(** The local variables [b0] .. [b3] of [encrypt] and [decrypt]. *)
Inductive locals4 : Type :=
| Locals4 (b0 b1 b2 b3 : Z).

Definition threefish256_encrypt_rounds (k0 k1 k2 k3 k4 t0 t1 t2 : Z) : list (locals4 -> locals4) := [
  (* round 0 *)
  (fun '(Locals4 b0 b1 b2 b3) => let b1 := b1 +' (k1 +' t0) in let b0 := b0 +' (b1 +' k0) in let b1 := ((b1 <<' 14) |' (b1 >>' (64 - 14))) ^' b0 in (Locals4 b0 b1 b2 b3));
  (fun '(Locals4 b0 b1 b2 b3) => let b3 := b3 +' k3 in let b2 := b2 +' (b3 +' k2 +' t1) in let b3 := ((b3 <<' 16) |' (b3 >>' (64 - 16))) ^' b2 in (Locals4 b0 b1 b2 b3));
  (* round 1 *)
  (fun '(Locals4 b0 b1 b2 b3) => let b0 := b0 +' b3 in let b3 := ((b3 <<' 52) |' (b3 >>' (64 - 52))) ^' b0 in (Locals4 b0 b1 b2 b3));
  (fun '(Locals4 b0 b1 b2 b3) => let b2 := b2 +' b1 in let b1 := ((b1 <<' 57) |' (b1 >>' (64 - 57))) ^' b2 in (Locals4 b0 b1 b2 b3));
  (* round 2 *)
  (fun '(Locals4 b0 b1 b2 b3) => let b0 := b0 +' b1 in let b1 := ((b1 <<' 23) |' (b1 >>' (64 - 23))) ^' b0 in (Locals4 b0 b1 b2 b3));
  (fun '(Locals4 b0 b1 b2 b3) => let b2 := b2 +' b3 in let b3 := ((b3 <<' 40) |' (b3 >>' (64 - 40))) ^' b2 in (Locals4 b0 b1 b2 b3));
  (* round 3 *)
  (fun '(Locals4 b0 b1 b2 b3) => let b0 := b0 +' b3 in let b3 := ((b3 <<' 5) |' (b3 >>' (64 - 5))) ^' b0 in (Locals4 b0 b1 b2 b3));
  (fun '(Locals4 b0 b1 b2 b3) => let b2 := b2 +' b1 in let b1 := ((b1 <<' 37) |' (b1 >>' (64 - 37))) ^' b2 in (Locals4 b0 b1 b2 b3));
  (* round 4 *)
  (fun '(Locals4 b0 b1 b2 b3) => let b1 := b1 +' (k2 +' t1) in let b0 := b0 +' (b1 +' k1) in let b1 := ((b1 <<' 25) |' (b1 >>' (64 - 25))) ^' b0 in (Locals4 b0 b1 b2 b3));
  (fun '(Locals4 b0 b1 b2 b3) => let b3 := b3 +' (k4 +' 1) in let b2 := b2 +' (b3 +' k3 +' t2) in let b3 := ((b3 <<' 33) |' (b3 >>' (64 - 33))) ^' b2 in (Locals4 b0 b1 b2 b3));
  (* round 5 *)
  (fun '(Locals4 b0 b1 b2 b3) => let b0 := b0 +' b3 in let b3 := ((b3 <<' 46) |' (b3 >>' (64 - 46))) ^' b0 in (Locals4 b0 b1 b2 b3));
  (fun '(Locals4 b0 b1 b2 b3) => let b2 := b2 +' b1 in let b1 := ((b1 <<' 12) |' (b1 >>' (64 - 12))) ^' b2 in (Locals4 b0 b1 b2 b3));
  (* round 6 *)
  (fun '(Locals4 b0 b1 b2 b3) => let b0 := b0 +' b1 in let b1 := ((b1 <<' 58) |' (b1 >>' (64 - 58))) ^' b0 in (Locals4 b0 b1 b2 b3));
  (fun '(Locals4 b0 b1 b2 b3) => let b2 := b2 +' b3 in let b3 := ((b3 <<' 22) |' (b3 >>' (64 - 22))) ^' b2 in (Locals4 b0 b1 b2 b3));
  (* round 7 *)
  (fun '(Locals4 b0 b1 b2 b3) => let b0 := b0 +' b3 in let b3 := ((b3 <<' 32) |' (b3 >>' (64 - 32))) ^' b0 in (Locals4 b0 b1 b2 b3));
  (fun '(Locals4 b0 b1 b2 b3) => let b2 := b2 +' b1 in let b1 := ((b1 <<' 32) |' (b1 >>' (64 - 32))) ^' b2 in (Locals4 b0 b1 b2 b3));
  (* round 8 *)
  (fun '(Locals4 b0 b1 b2 b3) => let b1 := b1 +' (k3 +' t2) in let b0 := b0 +' (b1 +' k2) in let b1 := ((b1 <<' 14) |' (b1 >>' (64 - 14))) ^' b0 in (Locals4 b0 b1 b2 b3));
  (fun '(Locals4 b0 b1 b2 b3) => let b3 := b3 +' (k0 +' 2) in let b2 := b2 +' (b3 +' k4 +' t0) in let b3 := ((b3 <<' 16) |' (b3 >>' (64 - 16))) ^' b2 in (Locals4 b0 b1 b2 b3));
  (* round 9 *)
  (fun '(Locals4 b0 b1 b2 b3) => let b0 := b0 +' b3 in let b3 := ((b3 <<' 52) |' (b3 >>' (64 - 52))) ^' b0 in (Locals4 b0 b1 b2 b3));
  (fun '(Locals4 b0 b1 b2 b3) => let b2 := b2 +' b1 in let b1 := ((b1 <<' 57) |' (b1 >>' (64 - 57))) ^' b2 in (Locals4 b0 b1 b2 b3));
  (* round 10 *)
  (fun '(Locals4 b0 b1 b2 b3) => let b0 := b0 +' b1 in let b1 := ((b1 <<' 23) |' (b1 >>' (64 - 23))) ^' b0 in (Locals4 b0 b1 b2 b3));
  (fun '(Locals4 b0 b1 b2 b3) => let b2 := b2 +' b3 in let b3 := ((b3 <<' 40) |' (b3 >>' (64 - 40))) ^' b2 in (Locals4 b0 b1 b2 b3));
  (* round 11 *)
  (fun '(Locals4 b0 b1 b2 b3) => let b0 := b0 +' b3 in let b3 := ((b3 <<' 5) |' (b3 >>' (64 - 5))) ^' b0 in (Locals4 b0 b1 b2 b3));
  (fun '(Locals4 b0 b1 b2 b3) => let b2 := b2 +' b1 in let b1 := ((b1 <<' 37) |' (b1 >>' (64 - 37))) ^' b2 in (Locals4 b0 b1 b2 b3));
  (* round 12 *)
  (fun '(Locals4 b0 b1 b2 b3) => let b1 := b1 +' (k4 +' t0) in let b0 := b0 +' (b1 +' k3) in let b1 := ((b1 <<' 25) |' (b1 >>' (64 - 25))) ^' b0 in (Locals4 b0 b1 b2 b3));
  (fun '(Locals4 b0 b1 b2 b3) => let b3 := b3 +' (k1 +' 3) in let b2 := b2 +' (b3 +' k0 +' t1) in let b3 := ((b3 <<' 33) |' (b3 >>' (64 - 33))) ^' b2 in (Locals4 b0 b1 b2 b3));
  (* round 13 *)
  (fun '(Locals4 b0 b1 b2 b3) => let b0 := b0 +' b3 in let b3 := ((b3 <<' 46) |' (b3 >>' (64 - 46))) ^' b0 in (Locals4 b0 b1 b2 b3));
  (fun '(Locals4 b0 b1 b2 b3) => let b2 := b2 +' b1 in let b1 := ((b1 <<' 12) |' (b1 >>' (64 - 12))) ^' b2 in (Locals4 b0 b1 b2 b3));
  (* round 14 *)
  (fun '(Locals4 b0 b1 b2 b3) => let b0 := b0 +' b1 in let b1 := ((b1 <<' 58) |' (b1 >>' (64 - 58))) ^' b0 in (Locals4 b0 b1 b2 b3));
  (fun '(Locals4 b0 b1 b2 b3) => let b2 := b2 +' b3 in let b3 := ((b3 <<' 22) |' (b3 >>' (64 - 22))) ^' b2 in (Locals4 b0 b1 b2 b3));
  (* round 15 *)
  (fun '(Locals4 b0 b1 b2 b3) => let b0 := b0 +' b3 in let b3 := ((b3 <<' 32) |' (b3 >>' (64 - 32))) ^' b0 in (Locals4 b0 b1 b2 b3));
  (fun '(Locals4 b0 b1 b2 b3) => let b2 := b2 +' b1 in let b1 := ((b1 <<' 32) |' (b1 >>' (64 - 32))) ^' b2 in (Locals4 b0 b1 b2 b3));
  (* round 16 *)
  (fun '(Locals4 b0 b1 b2 b3) => let b1 := b1 +' (k0 +' t1) in let b0 := b0 +' (b1 +' k4) in let b1 := ((b1 <<' 14) |' (b1 >>' (64 - 14))) ^' b0 in (Locals4 b0 b1 b2 b3));
  (fun '(Locals4 b0 b1 b2 b3) => let b3 := b3 +' (k2 +' 4) in let b2 := b2 +' (b3 +' k1 +' t2) in let b3 := ((b3 <<' 16) |' (b3 >>' (64 - 16))) ^' b2 in (Locals4 b0 b1 b2 b3));
  (* round 17 *)
  (fun '(Locals4 b0 b1 b2 b3) => let b0 := b0 +' b3 in let b3 := ((b3 <<' 52) |' (b3 >>' (64 - 52))) ^' b0 in (Locals4 b0 b1 b2 b3));
  (fun '(Locals4 b0 b1 b2 b3) => let b2 := b2 +' b1 in let b1 := ((b1 <<' 57) |' (b1 >>' (64 - 57))) ^' b2 in (Locals4 b0 b1 b2 b3));
  (* round 18 *)
  (fun '(Locals4 b0 b1 b2 b3) => let b0 := b0 +' b1 in let b1 := ((b1 <<' 23) |' (b1 >>' (64 - 23))) ^' b0 in (Locals4 b0 b1 b2 b3));
  (fun '(Locals4 b0 b1 b2 b3) => let b2 := b2 +' b3 in let b3 := ((b3 <<' 40) |' (b3 >>' (64 - 40))) ^' b2 in (Locals4 b0 b1 b2 b3));
  (* round 19 *)
  (fun '(Locals4 b0 b1 b2 b3) => let b0 := b0 +' b3 in let b3 := ((b3 <<' 5) |' (b3 >>' (64 - 5))) ^' b0 in (Locals4 b0 b1 b2 b3));
  (fun '(Locals4 b0 b1 b2 b3) => let b2 := b2 +' b1 in let b1 := ((b1 <<' 37) |' (b1 >>' (64 - 37))) ^' b2 in (Locals4 b0 b1 b2 b3));
  (* round 20 *)
  (fun '(Locals4 b0 b1 b2 b3) => let b1 := b1 +' (k1 +' t2) in let b0 := b0 +' (b1 +' k0) in let b1 := ((b1 <<' 25) |' (b1 >>' (64 - 25))) ^' b0 in (Locals4 b0 b1 b2 b3));
  (fun '(Locals4 b0 b1 b2 b3) => let b3 := b3 +' (k3 +' 5) in let b2 := b2 +' (b3 +' k2 +' t0) in let b3 := ((b3 <<' 33) |' (b3 >>' (64 - 33))) ^' b2 in (Locals4 b0 b1 b2 b3));
  (* round 21 *)
  (fun '(Locals4 b0 b1 b2 b3) => let b0 := b0 +' b3 in let b3 := ((b3 <<' 46) |' (b3 >>' (64 - 46))) ^' b0 in (Locals4 b0 b1 b2 b3));
  (fun '(Locals4 b0 b1 b2 b3) => let b2 := b2 +' b1 in let b1 := ((b1 <<' 12) |' (b1 >>' (64 - 12))) ^' b2 in (Locals4 b0 b1 b2 b3));
  (* round 22 *)
  (fun '(Locals4 b0 b1 b2 b3) => let b0 := b0 +' b1 in let b1 := ((b1 <<' 58) |' (b1 >>' (64 - 58))) ^' b0 in (Locals4 b0 b1 b2 b3));
  (fun '(Locals4 b0 b1 b2 b3) => let b2 := b2 +' b3 in let b3 := ((b3 <<' 22) |' (b3 >>' (64 - 22))) ^' b2 in (Locals4 b0 b1 b2 b3));
  (* round 23 *)
  (fun '(Locals4 b0 b1 b2 b3) => let b0 := b0 +' b3 in let b3 := ((b3 <<' 32) |' (b3 >>' (64 - 32))) ^' b0 in (Locals4 b0 b1 b2 b3));
  (fun '(Locals4 b0 b1 b2 b3) => let b2 := b2 +' b1 in let b1 := ((b1 <<' 32) |' (b1 >>' (64 - 32))) ^' b2 in (Locals4 b0 b1 b2 b3));
  (* round 24 *)
  (fun '(Locals4 b0 b1 b2 b3) => let b1 := b1 +' (k2 +' t0) in let b0 := b0 +' (b1 +' k1) in let b1 := ((b1 <<' 14) |' (b1 >>' (64 - 14))) ^' b0 in (Locals4 b0 b1 b2 b3));
  (fun '(Locals4 b0 b1 b2 b3) => let b3 := b3 +' (k4 +' 6) in let b2 := b2 +' (b3 +' k3 +' t1) in let b3 := ((b3 <<' 16) |' (b3 >>' (64 - 16))) ^' b2 in (Locals4 b0 b1 b2 b3));
  (* round 25 *)
  (fun '(Locals4 b0 b1 b2 b3) => let b0 := b0 +' b3 in let b3 := ((b3 <<' 52) |' (b3 >>' (64 - 52))) ^' b0 in (Locals4 b0 b1 b2 b3));
  (fun '(Locals4 b0 b1 b2 b3) => let b2 := b2 +' b1 in let b1 := ((b1 <<' 57) |' (b1 >>' (64 - 57))) ^' b2 in (Locals4 b0 b1 b2 b3));
  (* round 26 *)
  (fun '(Locals4 b0 b1 b2 b3) => let b0 := b0 +' b1 in let b1 := ((b1 <<' 23) |' (b1 >>' (64 - 23))) ^' b0 in (Locals4 b0 b1 b2 b3));
  (fun '(Locals4 b0 b1 b2 b3) => let b2 := b2 +' b3 in let b3 := ((b3 <<' 40) |' (b3 >>' (64 - 40))) ^' b2 in (Locals4 b0 b1 b2 b3));
  (* round 27 *)
  (fun '(Locals4 b0 b1 b2 b3) => let b0 := b0 +' b3 in let b3 := ((b3 <<' 5) |' (b3 >>' (64 - 5))) ^' b0 in (Locals4 b0 b1 b2 b3));
  (fun '(Locals4 b0 b1 b2 b3) => let b2 := b2 +' b1 in let b1 := ((b1 <<' 37) |' (b1 >>' (64 - 37))) ^' b2 in (Locals4 b0 b1 b2 b3));
  (* round 28 *)
  (fun '(Locals4 b0 b1 b2 b3) => let b1 := b1 +' (k3 +' t1) in let b0 := b0 +' (b1 +' k2) in let b1 := ((b1 <<' 25) |' (b1 >>' (64 - 25))) ^' b0 in (Locals4 b0 b1 b2 b3));
  (fun '(Locals4 b0 b1 b2 b3) => let b3 := b3 +' (k0 +' 7) in let b2 := b2 +' (b3 +' k4 +' t2) in let b3 := ((b3 <<' 33) |' (b3 >>' (64 - 33))) ^' b2 in (Locals4 b0 b1 b2 b3));
  (* round 29 *)
  (fun '(Locals4 b0 b1 b2 b3) => let b0 := b0 +' b3 in let b3 := ((b3 <<' 46) |' (b3 >>' (64 - 46))) ^' b0 in (Locals4 b0 b1 b2 b3));
  (fun '(Locals4 b0 b1 b2 b3) => let b2 := b2 +' b1 in let b1 := ((b1 <<' 12) |' (b1 >>' (64 - 12))) ^' b2 in (Locals4 b0 b1 b2 b3));
  (* round 30 *)
  (fun '(Locals4 b0 b1 b2 b3) => let b0 := b0 +' b1 in let b1 := ((b1 <<' 58) |' (b1 >>' (64 - 58))) ^' b0 in (Locals4 b0 b1 b2 b3));
  (fun '(Locals4 b0 b1 b2 b3) => let b2 := b2 +' b3 in let b3 := ((b3 <<' 22) |' (b3 >>' (64 - 22))) ^' b2 in (Locals4 b0 b1 b2 b3));
  (* round 31 *)
  (fun '(Locals4 b0 b1 b2 b3) => let b0 := b0 +' b3 in let b3 := ((b3 <<' 32) |' (b3 >>' (64 - 32))) ^' b0 in (Locals4 b0 b1 b2 b3));
  (fun '(Locals4 b0 b1 b2 b3) => let b2 := b2 +' b1 in let b1 := ((b1 <<' 32) |' (b1 >>' (64 - 32))) ^' b2 in (Locals4 b0 b1 b2 b3));
  (* round 32 *)
  (fun '(Locals4 b0 b1 b2 b3) => let b1 := b1 +' (k4 +' t2) in let b0 := b0 +' (b1 +' k3) in let b1 := ((b1 <<' 14) |' (b1 >>' (64 - 14))) ^' b0 in (Locals4 b0 b1 b2 b3));
  (fun '(Locals4 b0 b1 b2 b3) => let b3 := b3 +' (k1 +' 8) in let b2 := b2 +' (b3 +' k0 +' t0) in let b3 := ((b3 <<' 16) |' (b3 >>' (64 - 16))) ^' b2 in (Locals4 b0 b1 b2 b3));
  (* round 33 *)
  (fun '(Locals4 b0 b1 b2 b3) => let b0 := b0 +' b3 in let b3 := ((b3 <<' 52) |' (b3 >>' (64 - 52))) ^' b0 in (Locals4 b0 b1 b2 b3));
  (fun '(Locals4 b0 b1 b2 b3) => let b2 := b2 +' b1 in let b1 := ((b1 <<' 57) |' (b1 >>' (64 - 57))) ^' b2 in (Locals4 b0 b1 b2 b3));
  (* round 34 *)
  (fun '(Locals4 b0 b1 b2 b3) => let b0 := b0 +' b1 in let b1 := ((b1 <<' 23) |' (b1 >>' (64 - 23))) ^' b0 in (Locals4 b0 b1 b2 b3));
  (fun '(Locals4 b0 b1 b2 b3) => let b2 := b2 +' b3 in let b3 := ((b3 <<' 40) |' (b3 >>' (64 - 40))) ^' b2 in (Locals4 b0 b1 b2 b3));
  (* round 35 *)
  (fun '(Locals4 b0 b1 b2 b3) => let b0 := b0 +' b3 in let b3 := ((b3 <<' 5) |' (b3 >>' (64 - 5))) ^' b0 in (Locals4 b0 b1 b2 b3));
  (fun '(Locals4 b0 b1 b2 b3) => let b2 := b2 +' b1 in let b1 := ((b1 <<' 37) |' (b1 >>' (64 - 37))) ^' b2 in (Locals4 b0 b1 b2 b3));
  (* round 36 *)
  (fun '(Locals4 b0 b1 b2 b3) => let b1 := b1 +' (k0 +' t0) in let b0 := b0 +' (b1 +' k4) in let b1 := ((b1 <<' 25) |' (b1 >>' (64 - 25))) ^' b0 in (Locals4 b0 b1 b2 b3));
  (fun '(Locals4 b0 b1 b2 b3) => let b3 := b3 +' (k2 +' 9) in let b2 := b2 +' (b3 +' k1 +' t1) in let b3 := ((b3 <<' 33) |' (b3 >>' (64 - 33))) ^' b2 in (Locals4 b0 b1 b2 b3));
  (* round 37 *)
  (fun '(Locals4 b0 b1 b2 b3) => let b0 := b0 +' b3 in let b3 := ((b3 <<' 46) |' (b3 >>' (64 - 46))) ^' b0 in (Locals4 b0 b1 b2 b3));
  (fun '(Locals4 b0 b1 b2 b3) => let b2 := b2 +' b1 in let b1 := ((b1 <<' 12) |' (b1 >>' (64 - 12))) ^' b2 in (Locals4 b0 b1 b2 b3));
  (* round 38 *)
  (fun '(Locals4 b0 b1 b2 b3) => let b0 := b0 +' b1 in let b1 := ((b1 <<' 58) |' (b1 >>' (64 - 58))) ^' b0 in (Locals4 b0 b1 b2 b3));
  (fun '(Locals4 b0 b1 b2 b3) => let b2 := b2 +' b3 in let b3 := ((b3 <<' 22) |' (b3 >>' (64 - 22))) ^' b2 in (Locals4 b0 b1 b2 b3));
  (* round 39 *)
  (fun '(Locals4 b0 b1 b2 b3) => let b0 := b0 +' b3 in let b3 := ((b3 <<' 32) |' (b3 >>' (64 - 32))) ^' b0 in (Locals4 b0 b1 b2 b3));
  (fun '(Locals4 b0 b1 b2 b3) => let b2 := b2 +' b1 in let b1 := ((b1 <<' 32) |' (b1 >>' (64 - 32))) ^' b2 in (Locals4 b0 b1 b2 b3));
  (* round 40 *)
  (fun '(Locals4 b0 b1 b2 b3) => let b1 := b1 +' (k1 +' t1) in let b0 := b0 +' (b1 +' k0) in let b1 := ((b1 <<' 14) |' (b1 >>' (64 - 14))) ^' b0 in (Locals4 b0 b1 b2 b3));
  (fun '(Locals4 b0 b1 b2 b3) => let b3 := b3 +' (k3 +' 10) in let b2 := b2 +' (b3 +' k2 +' t2) in let b3 := ((b3 <<' 16) |' (b3 >>' (64 - 16))) ^' b2 in (Locals4 b0 b1 b2 b3));
  (* round 41 *)
  (fun '(Locals4 b0 b1 b2 b3) => let b0 := b0 +' b3 in let b3 := ((b3 <<' 52) |' (b3 >>' (64 - 52))) ^' b0 in (Locals4 b0 b1 b2 b3));
  (fun '(Locals4 b0 b1 b2 b3) => let b2 := b2 +' b1 in let b1 := ((b1 <<' 57) |' (b1 >>' (64 - 57))) ^' b2 in (Locals4 b0 b1 b2 b3));
  (* round 42 *)
  (fun '(Locals4 b0 b1 b2 b3) => let b0 := b0 +' b1 in let b1 := ((b1 <<' 23) |' (b1 >>' (64 - 23))) ^' b0 in (Locals4 b0 b1 b2 b3));
  (fun '(Locals4 b0 b1 b2 b3) => let b2 := b2 +' b3 in let b3 := ((b3 <<' 40) |' (b3 >>' (64 - 40))) ^' b2 in (Locals4 b0 b1 b2 b3));
  (* round 43 *)
  (fun '(Locals4 b0 b1 b2 b3) => let b0 := b0 +' b3 in let b3 := ((b3 <<' 5) |' (b3 >>' (64 - 5))) ^' b0 in (Locals4 b0 b1 b2 b3));
  (fun '(Locals4 b0 b1 b2 b3) => let b2 := b2 +' b1 in let b1 := ((b1 <<' 37) |' (b1 >>' (64 - 37))) ^' b2 in (Locals4 b0 b1 b2 b3));
  (* round 44 *)
  (fun '(Locals4 b0 b1 b2 b3) => let b1 := b1 +' (k2 +' t2) in let b0 := b0 +' (b1 +' k1) in let b1 := ((b1 <<' 25) |' (b1 >>' (64 - 25))) ^' b0 in (Locals4 b0 b1 b2 b3));
  (fun '(Locals4 b0 b1 b2 b3) => let b3 := b3 +' (k4 +' 11) in let b2 := b2 +' (b3 +' k3 +' t0) in let b3 := ((b3 <<' 33) |' (b3 >>' (64 - 33))) ^' b2 in (Locals4 b0 b1 b2 b3));
  (* round 45 *)
  (fun '(Locals4 b0 b1 b2 b3) => let b0 := b0 +' b3 in let b3 := ((b3 <<' 46) |' (b3 >>' (64 - 46))) ^' b0 in (Locals4 b0 b1 b2 b3));
  (fun '(Locals4 b0 b1 b2 b3) => let b2 := b2 +' b1 in let b1 := ((b1 <<' 12) |' (b1 >>' (64 - 12))) ^' b2 in (Locals4 b0 b1 b2 b3));
  (* round 46 *)
  (fun '(Locals4 b0 b1 b2 b3) => let b0 := b0 +' b1 in let b1 := ((b1 <<' 58) |' (b1 >>' (64 - 58))) ^' b0 in (Locals4 b0 b1 b2 b3));
  (fun '(Locals4 b0 b1 b2 b3) => let b2 := b2 +' b3 in let b3 := ((b3 <<' 22) |' (b3 >>' (64 - 22))) ^' b2 in (Locals4 b0 b1 b2 b3));
  (* round 47 *)
  (fun '(Locals4 b0 b1 b2 b3) => let b0 := b0 +' b3 in let b3 := ((b3 <<' 32) |' (b3 >>' (64 - 32))) ^' b0 in (Locals4 b0 b1 b2 b3));
  (fun '(Locals4 b0 b1 b2 b3) => let b2 := b2 +' b1 in let b1 := ((b1 <<' 32) |' (b1 >>' (64 - 32))) ^' b2 in (Locals4 b0 b1 b2 b3));
  (* round 48 *)
  (fun '(Locals4 b0 b1 b2 b3) => let b1 := b1 +' (k3 +' t0) in let b0 := b0 +' (b1 +' k2) in let b1 := ((b1 <<' 14) |' (b1 >>' (64 - 14))) ^' b0 in (Locals4 b0 b1 b2 b3));
  (fun '(Locals4 b0 b1 b2 b3) => let b3 := b3 +' (k0 +' 12) in let b2 := b2 +' (b3 +' k4 +' t1) in let b3 := ((b3 <<' 16) |' (b3 >>' (64 - 16))) ^' b2 in (Locals4 b0 b1 b2 b3));
  (* round 49 *)
  (fun '(Locals4 b0 b1 b2 b3) => let b0 := b0 +' b3 in let b3 := ((b3 <<' 52) |' (b3 >>' (64 - 52))) ^' b0 in (Locals4 b0 b1 b2 b3));
  (fun '(Locals4 b0 b1 b2 b3) => let b2 := b2 +' b1 in let b1 := ((b1 <<' 57) |' (b1 >>' (64 - 57))) ^' b2 in (Locals4 b0 b1 b2 b3));
  (* round 50 *)
  (fun '(Locals4 b0 b1 b2 b3) => let b0 := b0 +' b1 in let b1 := ((b1 <<' 23) |' (b1 >>' (64 - 23))) ^' b0 in (Locals4 b0 b1 b2 b3));
  (fun '(Locals4 b0 b1 b2 b3) => let b2 := b2 +' b3 in let b3 := ((b3 <<' 40) |' (b3 >>' (64 - 40))) ^' b2 in (Locals4 b0 b1 b2 b3));
  (* round 51 *)
  (fun '(Locals4 b0 b1 b2 b3) => let b0 := b0 +' b3 in let b3 := ((b3 <<' 5) |' (b3 >>' (64 - 5))) ^' b0 in (Locals4 b0 b1 b2 b3));
  (fun '(Locals4 b0 b1 b2 b3) => let b2 := b2 +' b1 in let b1 := ((b1 <<' 37) |' (b1 >>' (64 - 37))) ^' b2 in (Locals4 b0 b1 b2 b3));
  (* round 52 *)
  (fun '(Locals4 b0 b1 b2 b3) => let b1 := b1 +' (k4 +' t1) in let b0 := b0 +' (b1 +' k3) in let b1 := ((b1 <<' 25) |' (b1 >>' (64 - 25))) ^' b0 in (Locals4 b0 b1 b2 b3));
  (fun '(Locals4 b0 b1 b2 b3) => let b3 := b3 +' (k1 +' 13) in let b2 := b2 +' (b3 +' k0 +' t2) in let b3 := ((b3 <<' 33) |' (b3 >>' (64 - 33))) ^' b2 in (Locals4 b0 b1 b2 b3));
  (* round 53 *)
  (fun '(Locals4 b0 b1 b2 b3) => let b0 := b0 +' b3 in let b3 := ((b3 <<' 46) |' (b3 >>' (64 - 46))) ^' b0 in (Locals4 b0 b1 b2 b3));
  (fun '(Locals4 b0 b1 b2 b3) => let b2 := b2 +' b1 in let b1 := ((b1 <<' 12) |' (b1 >>' (64 - 12))) ^' b2 in (Locals4 b0 b1 b2 b3));
  (* round 54 *)
  (fun '(Locals4 b0 b1 b2 b3) => let b0 := b0 +' b1 in let b1 := ((b1 <<' 58) |' (b1 >>' (64 - 58))) ^' b0 in (Locals4 b0 b1 b2 b3));
  (fun '(Locals4 b0 b1 b2 b3) => let b2 := b2 +' b3 in let b3 := ((b3 <<' 22) |' (b3 >>' (64 - 22))) ^' b2 in (Locals4 b0 b1 b2 b3));
  (* round 55 *)
  (fun '(Locals4 b0 b1 b2 b3) => let b0 := b0 +' b3 in let b3 := ((b3 <<' 32) |' (b3 >>' (64 - 32))) ^' b0 in (Locals4 b0 b1 b2 b3));
  (fun '(Locals4 b0 b1 b2 b3) => let b2 := b2 +' b1 in let b1 := ((b1 <<' 32) |' (b1 >>' (64 - 32))) ^' b2 in (Locals4 b0 b1 b2 b3));
  (* round 56 *)
  (fun '(Locals4 b0 b1 b2 b3) => let b1 := b1 +' (k0 +' t2) in let b0 := b0 +' (b1 +' k4) in let b1 := ((b1 <<' 14) |' (b1 >>' (64 - 14))) ^' b0 in (Locals4 b0 b1 b2 b3));
  (fun '(Locals4 b0 b1 b2 b3) => let b3 := b3 +' (k2 +' 14) in let b2 := b2 +' (b3 +' k1 +' t0) in let b3 := ((b3 <<' 16) |' (b3 >>' (64 - 16))) ^' b2 in (Locals4 b0 b1 b2 b3));
  (* round 57 *)
  (fun '(Locals4 b0 b1 b2 b3) => let b0 := b0 +' b3 in let b3 := ((b3 <<' 52) |' (b3 >>' (64 - 52))) ^' b0 in (Locals4 b0 b1 b2 b3));
  (fun '(Locals4 b0 b1 b2 b3) => let b2 := b2 +' b1 in let b1 := ((b1 <<' 57) |' (b1 >>' (64 - 57))) ^' b2 in (Locals4 b0 b1 b2 b3));
  (* round 58 *)
  (fun '(Locals4 b0 b1 b2 b3) => let b0 := b0 +' b1 in let b1 := ((b1 <<' 23) |' (b1 >>' (64 - 23))) ^' b0 in (Locals4 b0 b1 b2 b3));
  (fun '(Locals4 b0 b1 b2 b3) => let b2 := b2 +' b3 in let b3 := ((b3 <<' 40) |' (b3 >>' (64 - 40))) ^' b2 in (Locals4 b0 b1 b2 b3));
  (* round 59 *)
  (fun '(Locals4 b0 b1 b2 b3) => let b0 := b0 +' b3 in let b3 := ((b3 <<' 5) |' (b3 >>' (64 - 5))) ^' b0 in (Locals4 b0 b1 b2 b3));
  (fun '(Locals4 b0 b1 b2 b3) => let b2 := b2 +' b1 in let b1 := ((b1 <<' 37) |' (b1 >>' (64 - 37))) ^' b2 in (Locals4 b0 b1 b2 b3));
  (* round 60 *)
  (fun '(Locals4 b0 b1 b2 b3) => let b1 := b1 +' (k1 +' t0) in let b0 := b0 +' (b1 +' k0) in let b1 := ((b1 <<' 25) |' (b1 >>' (64 - 25))) ^' b0 in (Locals4 b0 b1 b2 b3));
  (fun '(Locals4 b0 b1 b2 b3) => let b3 := b3 +' (k3 +' 15) in let b2 := b2 +' (b3 +' k2 +' t1) in let b3 := ((b3 <<' 33) |' (b3 >>' (64 - 33))) ^' b2 in (Locals4 b0 b1 b2 b3));
  (* round 61 *)
  (fun '(Locals4 b0 b1 b2 b3) => let b0 := b0 +' b3 in let b3 := ((b3 <<' 46) |' (b3 >>' (64 - 46))) ^' b0 in (Locals4 b0 b1 b2 b3));
  (fun '(Locals4 b0 b1 b2 b3) => let b2 := b2 +' b1 in let b1 := ((b1 <<' 12) |' (b1 >>' (64 - 12))) ^' b2 in (Locals4 b0 b1 b2 b3));
  (* round 62 *)
  (fun '(Locals4 b0 b1 b2 b3) => let b0 := b0 +' b1 in let b1 := ((b1 <<' 58) |' (b1 >>' (64 - 58))) ^' b0 in (Locals4 b0 b1 b2 b3));
  (fun '(Locals4 b0 b1 b2 b3) => let b2 := b2 +' b3 in let b3 := ((b3 <<' 22) |' (b3 >>' (64 - 22))) ^' b2 in (Locals4 b0 b1 b2 b3));
  (* round 63 *)
  (fun '(Locals4 b0 b1 b2 b3) => let b0 := b0 +' b3 in let b3 := ((b3 <<' 32) |' (b3 >>' (64 - 32))) ^' b0 in (Locals4 b0 b1 b2 b3));
  (fun '(Locals4 b0 b1 b2 b3) => let b2 := b2 +' b1 in let b1 := ((b1 <<' 32) |' (b1 >>' (64 - 32))) ^' b2 in (Locals4 b0 b1 b2 b3));
  (* round 64 *)
  (fun '(Locals4 b0 b1 b2 b3) => let b1 := b1 +' (k2 +' t1) in let b0 := b0 +' (b1 +' k1) in let b1 := ((b1 <<' 14) |' (b1 >>' (64 - 14))) ^' b0 in (Locals4 b0 b1 b2 b3));
  (fun '(Locals4 b0 b1 b2 b3) => let b3 := b3 +' (k4 +' 16) in let b2 := b2 +' (b3 +' k3 +' t2) in let b3 := ((b3 <<' 16) |' (b3 >>' (64 - 16))) ^' b2 in (Locals4 b0 b1 b2 b3));
  (* round 65 *)
  (fun '(Locals4 b0 b1 b2 b3) => let b0 := b0 +' b3 in let b3 := ((b3 <<' 52) |' (b3 >>' (64 - 52))) ^' b0 in (Locals4 b0 b1 b2 b3));
  (fun '(Locals4 b0 b1 b2 b3) => let b2 := b2 +' b1 in let b1 := ((b1 <<' 57) |' (b1 >>' (64 - 57))) ^' b2 in (Locals4 b0 b1 b2 b3));
  (* round 66 *)
  (fun '(Locals4 b0 b1 b2 b3) => let b0 := b0 +' b1 in let b1 := ((b1 <<' 23) |' (b1 >>' (64 - 23))) ^' b0 in (Locals4 b0 b1 b2 b3));
  (fun '(Locals4 b0 b1 b2 b3) => let b2 := b2 +' b3 in let b3 := ((b3 <<' 40) |' (b3 >>' (64 - 40))) ^' b2 in (Locals4 b0 b1 b2 b3));
  (* round 67 *)
  (fun '(Locals4 b0 b1 b2 b3) => let b0 := b0 +' b3 in let b3 := ((b3 <<' 5) |' (b3 >>' (64 - 5))) ^' b0 in (Locals4 b0 b1 b2 b3));
  (fun '(Locals4 b0 b1 b2 b3) => let b2 := b2 +' b1 in let b1 := ((b1 <<' 37) |' (b1 >>' (64 - 37))) ^' b2 in (Locals4 b0 b1 b2 b3));
  (* round 68 *)
  (fun '(Locals4 b0 b1 b2 b3) => let b1 := b1 +' (k3 +' t2) in let b0 := b0 +' (b1 +' k2) in let b1 := ((b1 <<' 25) |' (b1 >>' (64 - 25))) ^' b0 in (Locals4 b0 b1 b2 b3));
  (fun '(Locals4 b0 b1 b2 b3) => let b3 := b3 +' (k0 +' 17) in let b2 := b2 +' (b3 +' k4 +' t0) in let b3 := ((b3 <<' 33) |' (b3 >>' (64 - 33))) ^' b2 in (Locals4 b0 b1 b2 b3));
  (* round 69 *)
  (fun '(Locals4 b0 b1 b2 b3) => let b0 := b0 +' b3 in let b3 := ((b3 <<' 46) |' (b3 >>' (64 - 46))) ^' b0 in (Locals4 b0 b1 b2 b3));
  (fun '(Locals4 b0 b1 b2 b3) => let b2 := b2 +' b1 in let b1 := ((b1 <<' 12) |' (b1 >>' (64 - 12))) ^' b2 in (Locals4 b0 b1 b2 b3));
  (* round 70 *)
  (fun '(Locals4 b0 b1 b2 b3) => let b0 := b0 +' b1 in let b1 := ((b1 <<' 58) |' (b1 >>' (64 - 58))) ^' b0 in (Locals4 b0 b1 b2 b3));
  (fun '(Locals4 b0 b1 b2 b3) => let b2 := b2 +' b3 in let b3 := ((b3 <<' 22) |' (b3 >>' (64 - 22))) ^' b2 in (Locals4 b0 b1 b2 b3));
  (* round 71 *)
  (fun '(Locals4 b0 b1 b2 b3) => let b0 := b0 +' b3 in let b3 := ((b3 <<' 32) |' (b3 >>' (64 - 32))) ^' b0 in (Locals4 b0 b1 b2 b3));
  (fun '(Locals4 b0 b1 b2 b3) => let b2 := b2 +' b1 in let b1 := ((b1 <<' 32) |' (b1 >>' (64 - 32))) ^' b2 in (Locals4 b0 b1 b2 b3))
].

Definition threefish256_encrypt (tf : threefish) (input output : list Z) : outcome (list Z) :=
  b0 <- index input 0 ;;
  b1 <- index input 1 ;;
  b2 <- index input 2 ;;
  b3 <- index input 3 ;;
  let k0 := arr (expanedKey tf) 0 in
  let k1 := arr (expanedKey tf) 1 in
  let k2 := arr (expanedKey tf) 2 in
  let k3 := arr (expanedKey tf) 3 in
  let k4 := arr (expanedKey tf) 4 in
  let t0 := arr (expanedTweak tf) 0 in
  let t1 := arr (expanedTweak tf) 1 in
  let t2 := arr (expanedTweak tf) 2 in
  let '(Locals4 b0 b1 b2 b3) := run (threefish256_encrypt_rounds k0 k1 k2 k3 k4 t0 t1 t2) (Locals4 b0 b1 b2 b3) in
  output <- store output 0 (b0 +' k3) ;;
  output <- store output 1 (b1 +' k4 +' t0) ;;
  output <- store output 2 (b2 +' k0 +' t1) ;;
  output <- store output 3 (b3 +' k1 +' 18) ;;
  Done output.

Definition threefish256_decrypt_rounds (k0 k1 k2 k3 k4 t0 t1 t2 : Z) : list (locals4 -> locals4) := [
  (* inverse of round 71 *)
  (fun '(Locals4 b0 b1 b2 b3) => let tmp := b3 ^' b0 in let b3 := (tmp >>' 32) |' (tmp <<' (64 - 32)) in let b0 := b0 -' b3 in (Locals4 b0 b1 b2 b3));
  (fun '(Locals4 b0 b1 b2 b3) => let tmp := b1 ^' b2 in let b1 := (tmp >>' 32) |' (tmp <<' (64 - 32)) in let b2 := b2 -' b1 in (Locals4 b0 b1 b2 b3));
  (* inverse of round 70 *)
  (fun '(Locals4 b0 b1 b2 b3) => let tmp := b1 ^' b0 in let b1 := (tmp >>' 58) |' (tmp <<' (64 - 58)) in let b0 := b0 -' b1 in (Locals4 b0 b1 b2 b3));
  (fun '(Locals4 b0 b1 b2 b3) => let tmp := b3 ^' b2 in let b3 := (tmp >>' 22) |' (tmp <<' (64 - 22)) in let b2 := b2 -' b3 in (Locals4 b0 b1 b2 b3));
  (* inverse of round 69 *)
  (fun '(Locals4 b0 b1 b2 b3) => let tmp := b3 ^' b0 in let b3 := (tmp >>' 46) |' (tmp <<' (64 - 46)) in let b0 := b0 -' b3 in (Locals4 b0 b1 b2 b3));
  (fun '(Locals4 b0 b1 b2 b3) => let tmp := b1 ^' b2 in let b1 := (tmp >>' 12) |' (tmp <<' (64 - 12)) in let b2 := b2 -' b1 in (Locals4 b0 b1 b2 b3));
  (* inverse of round 68 *)
  (fun '(Locals4 b0 b1 b2 b3) => let tmp := b1 ^' b0 in let b1 := (tmp >>' 25) |' (tmp <<' (64 - 25)) in let b0 := b0 -' (b1 +' k2) in let b1 := b1 -' (k3 +' t2) in (Locals4 b0 b1 b2 b3));
  (fun '(Locals4 b0 b1 b2 b3) => let tmp := b3 ^' b2 in let b3 := (tmp >>' 33) |' (tmp <<' (64 - 33)) in let b2 := b2 -' (b3 +' k4 +' t0) in let b3 := b3 -' (k0 +' 17) in (Locals4 b0 b1 b2 b3));
  (* inverse of round 67 *)
  (fun '(Locals4 b0 b1 b2 b3) => let tmp := b3 ^' b0 in let b3 := (tmp >>' 5) |' (tmp <<' (64 - 5)) in let b0 := b0 -' b3 in (Locals4 b0 b1 b2 b3));
  (fun '(Locals4 b0 b1 b2 b3) => let tmp := b1 ^' b2 in let b1 := (tmp >>' 37) |' (tmp <<' (64 - 37)) in let b2 := b2 -' b1 in (Locals4 b0 b1 b2 b3));
  (* inverse of round 66 *)
  (fun '(Locals4 b0 b1 b2 b3) => let tmp := b1 ^' b0 in let b1 := (tmp >>' 23) |' (tmp <<' (64 - 23)) in let b0 := b0 -' b1 in (Locals4 b0 b1 b2 b3));
  (fun '(Locals4 b0 b1 b2 b3) => let tmp := b3 ^' b2 in let b3 := (tmp >>' 40) |' (tmp <<' (64 - 40)) in let b2 := b2 -' b3 in (Locals4 b0 b1 b2 b3));
  (* inverse of round 65 *)
  (fun '(Locals4 b0 b1 b2 b3) => let tmp := b3 ^' b0 in let b3 := (tmp >>' 52) |' (tmp <<' (64 - 52)) in let b0 := b0 -' b3 in (Locals4 b0 b1 b2 b3));
  (fun '(Locals4 b0 b1 b2 b3) => let tmp := b1 ^' b2 in let b1 := (tmp >>' 57) |' (tmp <<' (64 - 57)) in let b2 := b2 -' b1 in (Locals4 b0 b1 b2 b3));
  (* inverse of round 64 *)
  (fun '(Locals4 b0 b1 b2 b3) => let tmp := b1 ^' b0 in let b1 := (tmp >>' 14) |' (tmp <<' (64 - 14)) in let b0 := b0 -' (b1 +' k1) in let b1 := b1 -' (k2 +' t1) in (Locals4 b0 b1 b2 b3));
  (fun '(Locals4 b0 b1 b2 b3) => let tmp := b3 ^' b2 in let b3 := (tmp >>' 16) |' (tmp <<' (64 - 16)) in let b2 := b2 -' (b3 +' k3 +' t2) in let b3 := b3 -' (k4 +' 16) in (Locals4 b0 b1 b2 b3));
  (* inverse of round 63 *)
  (fun '(Locals4 b0 b1 b2 b3) => let tmp := b3 ^' b0 in let b3 := (tmp >>' 32) |' (tmp <<' (64 - 32)) in let b0 := b0 -' b3 in (Locals4 b0 b1 b2 b3));
  (fun '(Locals4 b0 b1 b2 b3) => let tmp := b1 ^' b2 in let b1 := (tmp >>' 32) |' (tmp <<' (64 - 32)) in let b2 := b2 -' b1 in (Locals4 b0 b1 b2 b3));
  (* inverse of round 62 *)
  (fun '(Locals4 b0 b1 b2 b3) => let tmp := b1 ^' b0 in let b1 := (tmp >>' 58) |' (tmp <<' (64 - 58)) in let b0 := b0 -' b1 in (Locals4 b0 b1 b2 b3));
  (fun '(Locals4 b0 b1 b2 b3) => let tmp := b3 ^' b2 in let b3 := (tmp >>' 22) |' (tmp <<' (64 - 22)) in let b2 := b2 -' b3 in (Locals4 b0 b1 b2 b3));
  (* inverse of round 61 *)
  (fun '(Locals4 b0 b1 b2 b3) => let tmp := b3 ^' b0 in let b3 := (tmp >>' 46) |' (tmp <<' (64 - 46)) in let b0 := b0 -' b3 in (Locals4 b0 b1 b2 b3));
  (fun '(Locals4 b0 b1 b2 b3) => let tmp := b1 ^' b2 in let b1 := (tmp >>' 12) |' (tmp <<' (64 - 12)) in let b2 := b2 -' b1 in (Locals4 b0 b1 b2 b3));
  (* inverse of round 60 *)
  (fun '(Locals4 b0 b1 b2 b3) => let tmp := b1 ^' b0 in let b1 := (tmp >>' 25) |' (tmp <<' (64 - 25)) in let b0 := b0 -' (b1 +' k0) in let b1 := b1 -' (k1 +' t0) in (Locals4 b0 b1 b2 b3));
  (fun '(Locals4 b0 b1 b2 b3) => let tmp := b3 ^' b2 in let b3 := (tmp >>' 33) |' (tmp <<' (64 - 33)) in let b2 := b2 -' (b3 +' k2 +' t1) in let b3 := b3 -' (k3 +' 15) in (Locals4 b0 b1 b2 b3));
  (* inverse of round 59 *)
  (fun '(Locals4 b0 b1 b2 b3) => let tmp := b3 ^' b0 in let b3 := (tmp >>' 5) |' (tmp <<' (64 - 5)) in let b0 := b0 -' b3 in (Locals4 b0 b1 b2 b3));
  (fun '(Locals4 b0 b1 b2 b3) => let tmp := b1 ^' b2 in let b1 := (tmp >>' 37) |' (tmp <<' (64 - 37)) in let b2 := b2 -' b1 in (Locals4 b0 b1 b2 b3));
  (* inverse of round 58 *)
  (fun '(Locals4 b0 b1 b2 b3) => let tmp := b1 ^' b0 in let b1 := (tmp >>' 23) |' (tmp <<' (64 - 23)) in let b0 := b0 -' b1 in (Locals4 b0 b1 b2 b3));
  (fun '(Locals4 b0 b1 b2 b3) => let tmp := b3 ^' b2 in let b3 := (tmp >>' 40) |' (tmp <<' (64 - 40)) in let b2 := b2 -' b3 in (Locals4 b0 b1 b2 b3));
  (* inverse of round 57 *)
  (fun '(Locals4 b0 b1 b2 b3) => let tmp := b3 ^' b0 in let b3 := (tmp >>' 52) |' (tmp <<' (64 - 52)) in let b0 := b0 -' b3 in (Locals4 b0 b1 b2 b3));
  (fun '(Locals4 b0 b1 b2 b3) => let tmp := b1 ^' b2 in let b1 := (tmp >>' 57) |' (tmp <<' (64 - 57)) in let b2 := b2 -' b1 in (Locals4 b0 b1 b2 b3));
  (* inverse of round 56 *)
  (fun '(Locals4 b0 b1 b2 b3) => let tmp := b1 ^' b0 in let b1 := (tmp >>' 14) |' (tmp <<' (64 - 14)) in let b0 := b0 -' (b1 +' k4) in let b1 := b1 -' (k0 +' t2) in (Locals4 b0 b1 b2 b3));
  (fun '(Locals4 b0 b1 b2 b3) => let tmp := b3 ^' b2 in let b3 := (tmp >>' 16) |' (tmp <<' (64 - 16)) in let b2 := b2 -' (b3 +' k1 +' t0) in let b3 := b3 -' (k2 +' 14) in (Locals4 b0 b1 b2 b3));
  (* inverse of round 55 *)
  (fun '(Locals4 b0 b1 b2 b3) => let tmp := b3 ^' b0 in let b3 := (tmp >>' 32) |' (tmp <<' (64 - 32)) in let b0 := b0 -' b3 in (Locals4 b0 b1 b2 b3));
  (fun '(Locals4 b0 b1 b2 b3) => let tmp := b1 ^' b2 in let b1 := (tmp >>' 32) |' (tmp <<' (64 - 32)) in let b2 := b2 -' b1 in (Locals4 b0 b1 b2 b3));
  (* inverse of round 54 *)
  (fun '(Locals4 b0 b1 b2 b3) => let tmp := b1 ^' b0 in let b1 := (tmp >>' 58) |' (tmp <<' (64 - 58)) in let b0 := b0 -' b1 in (Locals4 b0 b1 b2 b3));
  (fun '(Locals4 b0 b1 b2 b3) => let tmp := b3 ^' b2 in let b3 := (tmp >>' 22) |' (tmp <<' (64 - 22)) in let b2 := b2 -' b3 in (Locals4 b0 b1 b2 b3));
  (* inverse of round 53 *)
  (fun '(Locals4 b0 b1 b2 b3) => let tmp := b3 ^' b0 in let b3 := (tmp >>' 46) |' (tmp <<' (64 - 46)) in let b0 := b0 -' b3 in (Locals4 b0 b1 b2 b3));
  (fun '(Locals4 b0 b1 b2 b3) => let tmp := b1 ^' b2 in let b1 := (tmp >>' 12) |' (tmp <<' (64 - 12)) in let b2 := b2 -' b1 in (Locals4 b0 b1 b2 b3));
  (* inverse of round 52 *)
  (fun '(Locals4 b0 b1 b2 b3) => let tmp := b1 ^' b0 in let b1 := (tmp >>' 25) |' (tmp <<' (64 - 25)) in let b0 := b0 -' (b1 +' k3) in let b1 := b1 -' (k4 +' t1) in (Locals4 b0 b1 b2 b3));
  (fun '(Locals4 b0 b1 b2 b3) => let tmp := b3 ^' b2 in let b3 := (tmp >>' 33) |' (tmp <<' (64 - 33)) in let b2 := b2 -' (b3 +' k0 +' t2) in let b3 := b3 -' (k1 +' 13) in (Locals4 b0 b1 b2 b3));
  (* inverse of round 51 *)
  (fun '(Locals4 b0 b1 b2 b3) => let tmp := b3 ^' b0 in let b3 := (tmp >>' 5) |' (tmp <<' (64 - 5)) in let b0 := b0 -' b3 in (Locals4 b0 b1 b2 b3));
  (fun '(Locals4 b0 b1 b2 b3) => let tmp := b1 ^' b2 in let b1 := (tmp >>' 37) |' (tmp <<' (64 - 37)) in let b2 := b2 -' b1 in (Locals4 b0 b1 b2 b3));
  (* inverse of round 50 *)
  (fun '(Locals4 b0 b1 b2 b3) => let tmp := b1 ^' b0 in let b1 := (tmp >>' 23) |' (tmp <<' (64 - 23)) in let b0 := b0 -' b1 in (Locals4 b0 b1 b2 b3));
  (fun '(Locals4 b0 b1 b2 b3) => let tmp := b3 ^' b2 in let b3 := (tmp >>' 40) |' (tmp <<' (64 - 40)) in let b2 := b2 -' b3 in (Locals4 b0 b1 b2 b3));
  (* inverse of round 49 *)
  (fun '(Locals4 b0 b1 b2 b3) => let tmp := b3 ^' b0 in let b3 := (tmp >>' 52) |' (tmp <<' (64 - 52)) in let b0 := b0 -' b3 in (Locals4 b0 b1 b2 b3));
  (fun '(Locals4 b0 b1 b2 b3) => let tmp := b1 ^' b2 in let b1 := (tmp >>' 57) |' (tmp <<' (64 - 57)) in let b2 := b2 -' b1 in (Locals4 b0 b1 b2 b3));
  (* inverse of round 48 *)
  (fun '(Locals4 b0 b1 b2 b3) => let tmp := b1 ^' b0 in let b1 := (tmp >>' 14) |' (tmp <<' (64 - 14)) in let b0 := b0 -' (b1 +' k2) in let b1 := b1 -' (k3 +' t0) in (Locals4 b0 b1 b2 b3));
  (fun '(Locals4 b0 b1 b2 b3) => let tmp := b3 ^' b2 in let b3 := (tmp >>' 16) |' (tmp <<' (64 - 16)) in let b2 := b2 -' (b3 +' k4 +' t1) in let b3 := b3 -' (k0 +' 12) in (Locals4 b0 b1 b2 b3));
  (* inverse of round 47 *)
  (fun '(Locals4 b0 b1 b2 b3) => let tmp := b3 ^' b0 in let b3 := (tmp >>' 32) |' (tmp <<' (64 - 32)) in let b0 := b0 -' b3 in (Locals4 b0 b1 b2 b3));
  (fun '(Locals4 b0 b1 b2 b3) => let tmp := b1 ^' b2 in let b1 := (tmp >>' 32) |' (tmp <<' (64 - 32)) in let b2 := b2 -' b1 in (Locals4 b0 b1 b2 b3));
  (* inverse of round 46 *)
  (fun '(Locals4 b0 b1 b2 b3) => let tmp := b1 ^' b0 in let b1 := (tmp >>' 58) |' (tmp <<' (64 - 58)) in let b0 := b0 -' b1 in (Locals4 b0 b1 b2 b3));
  (fun '(Locals4 b0 b1 b2 b3) => let tmp := b3 ^' b2 in let b3 := (tmp >>' 22) |' (tmp <<' (64 - 22)) in let b2 := b2 -' b3 in (Locals4 b0 b1 b2 b3));
  (* inverse of round 45 *)
  (fun '(Locals4 b0 b1 b2 b3) => let tmp := b3 ^' b0 in let b3 := (tmp >>' 46) |' (tmp <<' (64 - 46)) in let b0 := b0 -' b3 in (Locals4 b0 b1 b2 b3));
  (fun '(Locals4 b0 b1 b2 b3) => let tmp := b1 ^' b2 in let b1 := (tmp >>' 12) |' (tmp <<' (64 - 12)) in let b2 := b2 -' b1 in (Locals4 b0 b1 b2 b3));
  (* inverse of round 44 *)
  (fun '(Locals4 b0 b1 b2 b3) => let tmp := b1 ^' b0 in let b1 := (tmp >>' 25) |' (tmp <<' (64 - 25)) in let b0 := b0 -' (b1 +' k1) in let b1 := b1 -' (k2 +' t2) in (Locals4 b0 b1 b2 b3));
  (fun '(Locals4 b0 b1 b2 b3) => let tmp := b3 ^' b2 in let b3 := (tmp >>' 33) |' (tmp <<' (64 - 33)) in let b2 := b2 -' (b3 +' k3 +' t0) in let b3 := b3 -' (k4 +' 11) in (Locals4 b0 b1 b2 b3));
  (* inverse of round 43 *)
  (fun '(Locals4 b0 b1 b2 b3) => let tmp := b3 ^' b0 in let b3 := (tmp >>' 5) |' (tmp <<' (64 - 5)) in let b0 := b0 -' b3 in (Locals4 b0 b1 b2 b3));
  (fun '(Locals4 b0 b1 b2 b3) => let tmp := b1 ^' b2 in let b1 := (tmp >>' 37) |' (tmp <<' (64 - 37)) in let b2 := b2 -' b1 in (Locals4 b0 b1 b2 b3));
  (* inverse of round 42 *)
  (fun '(Locals4 b0 b1 b2 b3) => let tmp := b1 ^' b0 in let b1 := (tmp >>' 23) |' (tmp <<' (64 - 23)) in let b0 := b0 -' b1 in (Locals4 b0 b1 b2 b3));
  (fun '(Locals4 b0 b1 b2 b3) => let tmp := b3 ^' b2 in let b3 := (tmp >>' 40) |' (tmp <<' (64 - 40)) in let b2 := b2 -' b3 in (Locals4 b0 b1 b2 b3));
  (* inverse of round 41 *)
  (fun '(Locals4 b0 b1 b2 b3) => let tmp := b3 ^' b0 in let b3 := (tmp >>' 52) |' (tmp <<' (64 - 52)) in let b0 := b0 -' b3 in (Locals4 b0 b1 b2 b3));
  (fun '(Locals4 b0 b1 b2 b3) => let tmp := b1 ^' b2 in let b1 := (tmp >>' 57) |' (tmp <<' (64 - 57)) in let b2 := b2 -' b1 in (Locals4 b0 b1 b2 b3));
  (* inverse of round 40 *)
  (fun '(Locals4 b0 b1 b2 b3) => let tmp := b1 ^' b0 in let b1 := (tmp >>' 14) |' (tmp <<' (64 - 14)) in let b0 := b0 -' (b1 +' k0) in let b1 := b1 -' (k1 +' t1) in (Locals4 b0 b1 b2 b3));
  (fun '(Locals4 b0 b1 b2 b3) => let tmp := b3 ^' b2 in let b3 := (tmp >>' 16) |' (tmp <<' (64 - 16)) in let b2 := b2 -' (b3 +' k2 +' t2) in let b3 := b3 -' (k3 +' 10) in (Locals4 b0 b1 b2 b3));
  (* inverse of round 39 *)
  (fun '(Locals4 b0 b1 b2 b3) => let tmp := b3 ^' b0 in let b3 := (tmp >>' 32) |' (tmp <<' (64 - 32)) in let b0 := b0 -' b3 in (Locals4 b0 b1 b2 b3));
  (fun '(Locals4 b0 b1 b2 b3) => let tmp := b1 ^' b2 in let b1 := (tmp >>' 32) |' (tmp <<' (64 - 32)) in let b2 := b2 -' b1 in (Locals4 b0 b1 b2 b3));
  (* inverse of round 38 *)
  (fun '(Locals4 b0 b1 b2 b3) => let tmp := b1 ^' b0 in let b1 := (tmp >>' 58) |' (tmp <<' (64 - 58)) in let b0 := b0 -' b1 in (Locals4 b0 b1 b2 b3));
  (fun '(Locals4 b0 b1 b2 b3) => let tmp := b3 ^' b2 in let b3 := (tmp >>' 22) |' (tmp <<' (64 - 22)) in let b2 := b2 -' b3 in (Locals4 b0 b1 b2 b3));
  (* inverse of round 37 *)
  (fun '(Locals4 b0 b1 b2 b3) => let tmp := b3 ^' b0 in let b3 := (tmp >>' 46) |' (tmp <<' (64 - 46)) in let b0 := b0 -' b3 in (Locals4 b0 b1 b2 b3));
  (fun '(Locals4 b0 b1 b2 b3) => let tmp := b1 ^' b2 in let b1 := (tmp >>' 12) |' (tmp <<' (64 - 12)) in let b2 := b2 -' b1 in (Locals4 b0 b1 b2 b3));
  (* inverse of round 36 *)
  (fun '(Locals4 b0 b1 b2 b3) => let tmp := b1 ^' b0 in let b1 := (tmp >>' 25) |' (tmp <<' (64 - 25)) in let b0 := b0 -' (b1 +' k4) in let b1 := b1 -' (k0 +' t0) in (Locals4 b0 b1 b2 b3));
  (fun '(Locals4 b0 b1 b2 b3) => let tmp := b3 ^' b2 in let b3 := (tmp >>' 33) |' (tmp <<' (64 - 33)) in let b2 := b2 -' (b3 +' k1 +' t1) in let b3 := b3 -' (k2 +' 9) in (Locals4 b0 b1 b2 b3));
  (* inverse of round 35 *)
  (fun '(Locals4 b0 b1 b2 b3) => let tmp := b3 ^' b0 in let b3 := (tmp >>' 5) |' (tmp <<' (64 - 5)) in let b0 := b0 -' b3 in (Locals4 b0 b1 b2 b3));
  (fun '(Locals4 b0 b1 b2 b3) => let tmp := b1 ^' b2 in let b1 := (tmp >>' 37) |' (tmp <<' (64 - 37)) in let b2 := b2 -' b1 in (Locals4 b0 b1 b2 b3));
  (* inverse of round 34 *)
  (fun '(Locals4 b0 b1 b2 b3) => let tmp := b1 ^' b0 in let b1 := (tmp >>' 23) |' (tmp <<' (64 - 23)) in let b0 := b0 -' b1 in (Locals4 b0 b1 b2 b3));
  (fun '(Locals4 b0 b1 b2 b3) => let tmp := b3 ^' b2 in let b3 := (tmp >>' 40) |' (tmp <<' (64 - 40)) in let b2 := b2 -' b3 in (Locals4 b0 b1 b2 b3));
  (* inverse of round 33 *)
  (fun '(Locals4 b0 b1 b2 b3) => let tmp := b3 ^' b0 in let b3 := (tmp >>' 52) |' (tmp <<' (64 - 52)) in let b0 := b0 -' b3 in (Locals4 b0 b1 b2 b3));
  (fun '(Locals4 b0 b1 b2 b3) => let tmp := b1 ^' b2 in let b1 := (tmp >>' 57) |' (tmp <<' (64 - 57)) in let b2 := b2 -' b1 in (Locals4 b0 b1 b2 b3));
  (* inverse of round 32 *)
  (fun '(Locals4 b0 b1 b2 b3) => let tmp := b1 ^' b0 in let b1 := (tmp >>' 14) |' (tmp <<' (64 - 14)) in let b0 := b0 -' (b1 +' k3) in let b1 := b1 -' (k4 +' t2) in (Locals4 b0 b1 b2 b3));
  (fun '(Locals4 b0 b1 b2 b3) => let tmp := b3 ^' b2 in let b3 := (tmp >>' 16) |' (tmp <<' (64 - 16)) in let b2 := b2 -' (b3 +' k0 +' t0) in let b3 := b3 -' (k1 +' 8) in (Locals4 b0 b1 b2 b3));
  (* inverse of round 31 *)
  (fun '(Locals4 b0 b1 b2 b3) => let tmp := b3 ^' b0 in let b3 := (tmp >>' 32) |' (tmp <<' (64 - 32)) in let b0 := b0 -' b3 in (Locals4 b0 b1 b2 b3));
  (fun '(Locals4 b0 b1 b2 b3) => let tmp := b1 ^' b2 in let b1 := (tmp >>' 32) |' (tmp <<' (64 - 32)) in let b2 := b2 -' b1 in (Locals4 b0 b1 b2 b3));
  (* inverse of round 30 *)
  (fun '(Locals4 b0 b1 b2 b3) => let tmp := b1 ^' b0 in let b1 := (tmp >>' 58) |' (tmp <<' (64 - 58)) in let b0 := b0 -' b1 in (Locals4 b0 b1 b2 b3));
  (fun '(Locals4 b0 b1 b2 b3) => let tmp := b3 ^' b2 in let b3 := (tmp >>' 22) |' (tmp <<' (64 - 22)) in let b2 := b2 -' b3 in (Locals4 b0 b1 b2 b3));
  (* inverse of round 29 *)
  (fun '(Locals4 b0 b1 b2 b3) => let tmp := b3 ^' b0 in let b3 := (tmp >>' 46) |' (tmp <<' (64 - 46)) in let b0 := b0 -' b3 in (Locals4 b0 b1 b2 b3));
  (fun '(Locals4 b0 b1 b2 b3) => let tmp := b1 ^' b2 in let b1 := (tmp >>' 12) |' (tmp <<' (64 - 12)) in let b2 := b2 -' b1 in (Locals4 b0 b1 b2 b3));
  (* inverse of round 28 *)
  (fun '(Locals4 b0 b1 b2 b3) => let tmp := b1 ^' b0 in let b1 := (tmp >>' 25) |' (tmp <<' (64 - 25)) in let b0 := b0 -' (b1 +' k2) in let b1 := b1 -' (k3 +' t1) in (Locals4 b0 b1 b2 b3));
  (fun '(Locals4 b0 b1 b2 b3) => let tmp := b3 ^' b2 in let b3 := (tmp >>' 33) |' (tmp <<' (64 - 33)) in let b2 := b2 -' (b3 +' k4 +' t2) in let b3 := b3 -' (k0 +' 7) in (Locals4 b0 b1 b2 b3));
  (* inverse of round 27 *)
  (fun '(Locals4 b0 b1 b2 b3) => let tmp := b3 ^' b0 in let b3 := (tmp >>' 5) |' (tmp <<' (64 - 5)) in let b0 := b0 -' b3 in (Locals4 b0 b1 b2 b3));
  (fun '(Locals4 b0 b1 b2 b3) => let tmp := b1 ^' b2 in let b1 := (tmp >>' 37) |' (tmp <<' (64 - 37)) in let b2 := b2 -' b1 in (Locals4 b0 b1 b2 b3));
  (* inverse of round 26 *)
  (fun '(Locals4 b0 b1 b2 b3) => let tmp := b1 ^' b0 in let b1 := (tmp >>' 23) |' (tmp <<' (64 - 23)) in let b0 := b0 -' b1 in (Locals4 b0 b1 b2 b3));
  (fun '(Locals4 b0 b1 b2 b3) => let tmp := b3 ^' b2 in let b3 := (tmp >>' 40) |' (tmp <<' (64 - 40)) in let b2 := b2 -' b3 in (Locals4 b0 b1 b2 b3));
  (* inverse of round 25 *)
  (fun '(Locals4 b0 b1 b2 b3) => let tmp := b3 ^' b0 in let b3 := (tmp >>' 52) |' (tmp <<' (64 - 52)) in let b0 := b0 -' b3 in (Locals4 b0 b1 b2 b3));
  (fun '(Locals4 b0 b1 b2 b3) => let tmp := b1 ^' b2 in let b1 := (tmp >>' 57) |' (tmp <<' (64 - 57)) in let b2 := b2 -' b1 in (Locals4 b0 b1 b2 b3));
  (* inverse of round 24 *)
  (fun '(Locals4 b0 b1 b2 b3) => let tmp := b1 ^' b0 in let b1 := (tmp >>' 14) |' (tmp <<' (64 - 14)) in let b0 := b0 -' (b1 +' k1) in let b1 := b1 -' (k2 +' t0) in (Locals4 b0 b1 b2 b3));
  (fun '(Locals4 b0 b1 b2 b3) => let tmp := b3 ^' b2 in let b3 := (tmp >>' 16) |' (tmp <<' (64 - 16)) in let b2 := b2 -' (b3 +' k3 +' t1) in let b3 := b3 -' (k4 +' 6) in (Locals4 b0 b1 b2 b3));
  (* inverse of round 23 *)
  (fun '(Locals4 b0 b1 b2 b3) => let tmp := b3 ^' b0 in let b3 := (tmp >>' 32) |' (tmp <<' (64 - 32)) in let b0 := b0 -' b3 in (Locals4 b0 b1 b2 b3));
  (fun '(Locals4 b0 b1 b2 b3) => let tmp := b1 ^' b2 in let b1 := (tmp >>' 32) |' (tmp <<' (64 - 32)) in let b2 := b2 -' b1 in (Locals4 b0 b1 b2 b3));
  (* inverse of round 22 *)
  (fun '(Locals4 b0 b1 b2 b3) => let tmp := b1 ^' b0 in let b1 := (tmp >>' 58) |' (tmp <<' (64 - 58)) in let b0 := b0 -' b1 in (Locals4 b0 b1 b2 b3));
  (fun '(Locals4 b0 b1 b2 b3) => let tmp := b3 ^' b2 in let b3 := (tmp >>' 22) |' (tmp <<' (64 - 22)) in let b2 := b2 -' b3 in (Locals4 b0 b1 b2 b3));
  (* inverse of round 21 *)
  (fun '(Locals4 b0 b1 b2 b3) => let tmp := b3 ^' b0 in let b3 := (tmp >>' 46) |' (tmp <<' (64 - 46)) in let b0 := b0 -' b3 in (Locals4 b0 b1 b2 b3));
  (fun '(Locals4 b0 b1 b2 b3) => let tmp := b1 ^' b2 in let b1 := (tmp >>' 12) |' (tmp <<' (64 - 12)) in let b2 := b2 -' b1 in (Locals4 b0 b1 b2 b3));
  (* inverse of round 20 *)
  (fun '(Locals4 b0 b1 b2 b3) => let tmp := b1 ^' b0 in let b1 := (tmp >>' 25) |' (tmp <<' (64 - 25)) in let b0 := b0 -' (b1 +' k0) in let b1 := b1 -' (k1 +' t2) in (Locals4 b0 b1 b2 b3));
  (fun '(Locals4 b0 b1 b2 b3) => let tmp := b3 ^' b2 in let b3 := (tmp >>' 33) |' (tmp <<' (64 - 33)) in let b2 := b2 -' (b3 +' k2 +' t0) in let b3 := b3 -' (k3 +' 5) in (Locals4 b0 b1 b2 b3));
  (* inverse of round 19 *)
  (fun '(Locals4 b0 b1 b2 b3) => let tmp := b3 ^' b0 in let b3 := (tmp >>' 5) |' (tmp <<' (64 - 5)) in let b0 := b0 -' b3 in (Locals4 b0 b1 b2 b3));
  (fun '(Locals4 b0 b1 b2 b3) => let tmp := b1 ^' b2 in let b1 := (tmp >>' 37) |' (tmp <<' (64 - 37)) in let b2 := b2 -' b1 in (Locals4 b0 b1 b2 b3));
  (* inverse of round 18 *)
  (fun '(Locals4 b0 b1 b2 b3) => let tmp := b1 ^' b0 in let b1 := (tmp >>' 23) |' (tmp <<' (64 - 23)) in let b0 := b0 -' b1 in (Locals4 b0 b1 b2 b3));
  (fun '(Locals4 b0 b1 b2 b3) => let tmp := b3 ^' b2 in let b3 := (tmp >>' 40) |' (tmp <<' (64 - 40)) in let b2 := b2 -' b3 in (Locals4 b0 b1 b2 b3));
  (* inverse of round 17 *)
  (fun '(Locals4 b0 b1 b2 b3) => let tmp := b3 ^' b0 in let b3 := (tmp >>' 52) |' (tmp <<' (64 - 52)) in let b0 := b0 -' b3 in (Locals4 b0 b1 b2 b3));
  (fun '(Locals4 b0 b1 b2 b3) => let tmp := b1 ^' b2 in let b1 := (tmp >>' 57) |' (tmp <<' (64 - 57)) in let b2 := b2 -' b1 in (Locals4 b0 b1 b2 b3));
  (* inverse of round 16 *)
  (fun '(Locals4 b0 b1 b2 b3) => let tmp := b1 ^' b0 in let b1 := (tmp >>' 14) |' (tmp <<' (64 - 14)) in let b0 := b0 -' (b1 +' k4) in let b1 := b1 -' (k0 +' t1) in (Locals4 b0 b1 b2 b3));
  (fun '(Locals4 b0 b1 b2 b3) => let tmp := b3 ^' b2 in let b3 := (tmp >>' 16) |' (tmp <<' (64 - 16)) in let b2 := b2 -' (b3 +' k1 +' t2) in let b3 := b3 -' (k2 +' 4) in (Locals4 b0 b1 b2 b3));
  (* inverse of round 15 *)
  (fun '(Locals4 b0 b1 b2 b3) => let tmp := b3 ^' b0 in let b3 := (tmp >>' 32) |' (tmp <<' (64 - 32)) in let b0 := b0 -' b3 in (Locals4 b0 b1 b2 b3));
  (fun '(Locals4 b0 b1 b2 b3) => let tmp := b1 ^' b2 in let b1 := (tmp >>' 32) |' (tmp <<' (64 - 32)) in let b2 := b2 -' b1 in (Locals4 b0 b1 b2 b3));
  (* inverse of round 14 *)
  (fun '(Locals4 b0 b1 b2 b3) => let tmp := b1 ^' b0 in let b1 := (tmp >>' 58) |' (tmp <<' (64 - 58)) in let b0 := b0 -' b1 in (Locals4 b0 b1 b2 b3));
  (fun '(Locals4 b0 b1 b2 b3) => let tmp := b3 ^' b2 in let b3 := (tmp >>' 22) |' (tmp <<' (64 - 22)) in let b2 := b2 -' b3 in (Locals4 b0 b1 b2 b3));
  (* inverse of round 13 *)
  (fun '(Locals4 b0 b1 b2 b3) => let tmp := b3 ^' b0 in let b3 := (tmp >>' 46) |' (tmp <<' (64 - 46)) in let b0 := b0 -' b3 in (Locals4 b0 b1 b2 b3));
  (fun '(Locals4 b0 b1 b2 b3) => let tmp := b1 ^' b2 in let b1 := (tmp >>' 12) |' (tmp <<' (64 - 12)) in let b2 := b2 -' b1 in (Locals4 b0 b1 b2 b3));
  (* inverse of round 12 *)
  (fun '(Locals4 b0 b1 b2 b3) => let tmp := b1 ^' b0 in let b1 := (tmp >>' 25) |' (tmp <<' (64 - 25)) in let b0 := b0 -' (b1 +' k3) in let b1 := b1 -' (k4 +' t0) in (Locals4 b0 b1 b2 b3));
  (fun '(Locals4 b0 b1 b2 b3) => let tmp := b3 ^' b2 in let b3 := (tmp >>' 33) |' (tmp <<' (64 - 33)) in let b2 := b2 -' (b3 +' k0 +' t1) in let b3 := b3 -' (k1 +' 3) in (Locals4 b0 b1 b2 b3));
  (* inverse of round 11 *)
  (fun '(Locals4 b0 b1 b2 b3) => let tmp := b3 ^' b0 in let b3 := (tmp >>' 5) |' (tmp <<' (64 - 5)) in let b0 := b0 -' b3 in (Locals4 b0 b1 b2 b3));
  (fun '(Locals4 b0 b1 b2 b3) => let tmp := b1 ^' b2 in let b1 := (tmp >>' 37) |' (tmp <<' (64 - 37)) in let b2 := b2 -' b1 in (Locals4 b0 b1 b2 b3));
  (* inverse of round 10 *)
  (fun '(Locals4 b0 b1 b2 b3) => let tmp := b1 ^' b0 in let b1 := (tmp >>' 23) |' (tmp <<' (64 - 23)) in let b0 := b0 -' b1 in (Locals4 b0 b1 b2 b3));
  (fun '(Locals4 b0 b1 b2 b3) => let tmp := b3 ^' b2 in let b3 := (tmp >>' 40) |' (tmp <<' (64 - 40)) in let b2 := b2 -' b3 in (Locals4 b0 b1 b2 b3));
  (* inverse of round 9 *)
  (fun '(Locals4 b0 b1 b2 b3) => let tmp := b3 ^' b0 in let b3 := (tmp >>' 52) |' (tmp <<' (64 - 52)) in let b0 := b0 -' b3 in (Locals4 b0 b1 b2 b3));
  (fun '(Locals4 b0 b1 b2 b3) => let tmp := b1 ^' b2 in let b1 := (tmp >>' 57) |' (tmp <<' (64 - 57)) in let b2 := b2 -' b1 in (Locals4 b0 b1 b2 b3));
  (* inverse of round 8 *)
  (fun '(Locals4 b0 b1 b2 b3) => let tmp := b1 ^' b0 in let b1 := (tmp >>' 14) |' (tmp <<' (64 - 14)) in let b0 := b0 -' (b1 +' k2) in let b1 := b1 -' (k3 +' t2) in (Locals4 b0 b1 b2 b3));
  (fun '(Locals4 b0 b1 b2 b3) => let tmp := b3 ^' b2 in let b3 := (tmp >>' 16) |' (tmp <<' (64 - 16)) in let b2 := b2 -' (b3 +' k4 +' t0) in let b3 := b3 -' (k0 +' 2) in (Locals4 b0 b1 b2 b3));
  (* inverse of round 7 *)
  (fun '(Locals4 b0 b1 b2 b3) => let tmp := b3 ^' b0 in let b3 := (tmp >>' 32) |' (tmp <<' (64 - 32)) in let b0 := b0 -' b3 in (Locals4 b0 b1 b2 b3));
  (fun '(Locals4 b0 b1 b2 b3) => let tmp := b1 ^' b2 in let b1 := (tmp >>' 32) |' (tmp <<' (64 - 32)) in let b2 := b2 -' b1 in (Locals4 b0 b1 b2 b3));
  (* inverse of round 6 *)
  (fun '(Locals4 b0 b1 b2 b3) => let tmp := b1 ^' b0 in let b1 := (tmp >>' 58) |' (tmp <<' (64 - 58)) in let b0 := b0 -' b1 in (Locals4 b0 b1 b2 b3));
  (fun '(Locals4 b0 b1 b2 b3) => let tmp := b3 ^' b2 in let b3 := (tmp >>' 22) |' (tmp <<' (64 - 22)) in let b2 := b2 -' b3 in (Locals4 b0 b1 b2 b3));
  (* inverse of round 5 *)
  (fun '(Locals4 b0 b1 b2 b3) => let tmp := b3 ^' b0 in let b3 := (tmp >>' 46) |' (tmp <<' (64 - 46)) in let b0 := b0 -' b3 in (Locals4 b0 b1 b2 b3));
  (fun '(Locals4 b0 b1 b2 b3) => let tmp := b1 ^' b2 in let b1 := (tmp >>' 12) |' (tmp <<' (64 - 12)) in let b2 := b2 -' b1 in (Locals4 b0 b1 b2 b3));
  (* inverse of round 4 *)
  (fun '(Locals4 b0 b1 b2 b3) => let tmp := b1 ^' b0 in let b1 := (tmp >>' 25) |' (tmp <<' (64 - 25)) in let b0 := b0 -' (b1 +' k1) in let b1 := b1 -' (k2 +' t1) in (Locals4 b0 b1 b2 b3));
  (fun '(Locals4 b0 b1 b2 b3) => let tmp := b3 ^' b2 in let b3 := (tmp >>' 33) |' (tmp <<' (64 - 33)) in let b2 := b2 -' (b3 +' k3 +' t2) in let b3 := b3 -' (k4 +' 1) in (Locals4 b0 b1 b2 b3));
  (* inverse of round 3 *)
  (fun '(Locals4 b0 b1 b2 b3) => let tmp := b3 ^' b0 in let b3 := (tmp >>' 5) |' (tmp <<' (64 - 5)) in let b0 := b0 -' b3 in (Locals4 b0 b1 b2 b3));
  (fun '(Locals4 b0 b1 b2 b3) => let tmp := b1 ^' b2 in let b1 := (tmp >>' 37) |' (tmp <<' (64 - 37)) in let b2 := b2 -' b1 in (Locals4 b0 b1 b2 b3));
  (* inverse of round 2 *)
  (fun '(Locals4 b0 b1 b2 b3) => let tmp := b1 ^' b0 in let b1 := (tmp >>' 23) |' (tmp <<' (64 - 23)) in let b0 := b0 -' b1 in (Locals4 b0 b1 b2 b3));
  (fun '(Locals4 b0 b1 b2 b3) => let tmp := b3 ^' b2 in let b3 := (tmp >>' 40) |' (tmp <<' (64 - 40)) in let b2 := b2 -' b3 in (Locals4 b0 b1 b2 b3));
  (* inverse of round 1 *)
  (fun '(Locals4 b0 b1 b2 b3) => let tmp := b3 ^' b0 in let b3 := (tmp >>' 52) |' (tmp <<' (64 - 52)) in let b0 := b0 -' b3 in (Locals4 b0 b1 b2 b3));
  (fun '(Locals4 b0 b1 b2 b3) => let tmp := b1 ^' b2 in let b1 := (tmp >>' 57) |' (tmp <<' (64 - 57)) in let b2 := b2 -' b1 in (Locals4 b0 b1 b2 b3));
  (* inverse of round 0 *)
  (fun '(Locals4 b0 b1 b2 b3) => let tmp := b1 ^' b0 in let b1 := (tmp >>' 14) |' (tmp <<' (64 - 14)) in let b0 := b0 -' (b1 +' k0) in let b1 := b1 -' (k1 +' t0) in (Locals4 b0 b1 b2 b3));
  (fun '(Locals4 b0 b1 b2 b3) => let tmp := b3 ^' b2 in let b3 := (tmp >>' 16) |' (tmp <<' (64 - 16)) in let b2 := b2 -' (b3 +' k2 +' t1) in let b3 := b3 -' k3 in (Locals4 b0 b1 b2 b3))
].

Definition threefish256_decrypt (tf : threefish) (input output : list Z) : outcome (list Z) :=
  b0 <- index input 0 ;;
  b1 <- index input 1 ;;
  b2 <- index input 2 ;;
  b3 <- index input 3 ;;
  let k0 := arr (expanedKey tf) 0 in
  let k1 := arr (expanedKey tf) 1 in
  let k2 := arr (expanedKey tf) 2 in
  let k3 := arr (expanedKey tf) 3 in
  let k4 := arr (expanedKey tf) 4 in
  let t0 := arr (expanedTweak tf) 0 in
  let t1 := arr (expanedTweak tf) 1 in
  let t2 := arr (expanedTweak tf) 2 in
  let b0 := b0 -' k3 in
  let b1 := b1 -' (k4 +' t0) in
  let b2 := b2 -' (k0 +' t1) in
  let b3 := b3 -' (k1 +' 18) in
  let '(Locals4 b0 b1 b2 b3) := run (threefish256_decrypt_rounds k0 k1 k2 k3 k4 t0 t1 t2) (Locals4 b0 b1 b2 b3) in
  output <- store output 0 (b0) ;;
  output <- store output 1 (b1) ;;
  output <- store output 2 (b2) ;;
  output <- store output 3 (b3) ;;
  Done output.
(** *** Threefish-512 *)

(** The local variables [b0] .. [b7] of [encrypt] and [decrypt]. *)
Inductive locals8 : Type :=
| Locals8 (b0 b1 b2 b3 b4 b5 b6 b7 : Z).

Definition threefish512_encrypt_rounds (k0 k1 k2 k3 k4 k5 k6 k7 k8 t0 t1 t2 : Z) : list (locals8 -> locals8) := [
  (* round 0 *)
  (fun '(Locals8 b0 b1 b2 b3 b4 b5 b6 b7) => let b1 := b1 +' k1 in let b0 := b0 +' (b1 +' k0) in let b1 := ((b1 <<' 46) |' (b1 >>' (64 - 46))) ^' b0 in (Locals8 b0 b1 b2 b3 b4 b5 b6 b7));
  (fun '(Locals8 b0 b1 b2 b3 b4 b5 b6 b7) => let b3 := b3 +' k3 in let b2 := b2 +' (b3 +' k2) in let b3 := ((b3 <<' 36) |' (b3 >>' (64 - 36))) ^' b2 in (Locals8 b0 b1 b2 b3 b4 b5 b6 b7));
  (fun '(Locals8 b0 b1 b2 b3 b4 b5 b6 b7) => let b5 := b5 +' (k5 +' t0) in let b4 := b4 +' (b5 +' k4) in let b5 := ((b5 <<' 19) |' (b5 >>' (64 - 19))) ^' b4 in (Locals8 b0 b1 b2 b3 b4 b5 b6 b7));
  (fun '(Locals8 b0 b1 b2 b3 b4 b5 b6 b7) => let b7 := b7 +' k7 in let b6 := b6 +' (b7 +' k6 +' t1) in let b7 := ((b7 <<' 37) |' (b7 >>' (64 - 37))) ^' b6 in (Locals8 b0 b1 b2 b3 b4 b5 b6 b7));
  (* round 1 *)
  (fun '(Locals8 b0 b1 b2 b3 b4 b5 b6 b7) => let b2 := b2 +' b1 in let b1 := ((b1 <<' 33) |' (b1 >>' (64 - 33))) ^' b2 in (Locals8 b0 b1 b2 b3 b4 b5 b6 b7));
  (fun '(Locals8 b0 b1 b2 b3 b4 b5 b6 b7) => let b4 := b4 +' b7 in let b7 := ((b7 <<' 27) |' (b7 >>' (64 - 27))) ^' b4 in (Locals8 b0 b1 b2 b3 b4 b5 b6 b7));
  (fun '(Locals8 b0 b1 b2 b3 b4 b5 b6 b7) => let b6 := b6 +' b5 in let b5 := ((b5 <<' 14) |' (b5 >>' (64 - 14))) ^' b6 in (Locals8 b0 b1 b2 b3 b4 b5 b6 b7));
  (fun '(Locals8 b0 b1 b2 b3 b4 b5 b6 b7) => let b0 := b0 +' b3 in let b3 := ((b3 <<' 42) |' (b3 >>' (64 - 42))) ^' b0 in (Locals8 b0 b1 b2 b3 b4 b5 b6 b7));
  (* round 2 *)
  (fun '(Locals8 b0 b1 b2 b3 b4 b5 b6 b7) => let b4 := b4 +' b1 in let b1 := ((b1 <<' 17) |' (b1 >>' (64 - 17))) ^' b4 in (Locals8 b0 b1 b2 b3 b4 b5 b6 b7));
  (fun '(Locals8 b0 b1 b2 b3 b4 b5 b6 b7) => let b6 := b6 +' b3 in let b3 := ((b3 <<' 49) |' (b3 >>' (64 - 49))) ^' b6 in (Locals8 b0 b1 b2 b3 b4 b5 b6 b7));
  (fun '(Locals8 b0 b1 b2 b3 b4 b5 b6 b7) => let b0 := b0 +' b5 in let b5 := ((b5 <<' 36) |' (b5 >>' (64 - 36))) ^' b0 in (Locals8 b0 b1 b2 b3 b4 b5 b6 b7));
  (fun '(Locals8 b0 b1 b2 b3 b4 b5 b6 b7) => let b2 := b2 +' b7 in let b7 := ((b7 <<' 39) |' (b7 >>' (64 - 39))) ^' b2 in (Locals8 b0 b1 b2 b3 b4 b5 b6 b7));
  (* round 3 *)
  (fun '(Locals8 b0 b1 b2 b3 b4 b5 b6 b7) => let b6 := b6 +' b1 in let b1 := ((b1 <<' 44) |' (b1 >>' (64 - 44))) ^' b6 in (Locals8 b0 b1 b2 b3 b4 b5 b6 b7));
  (fun '(Locals8 b0 b1 b2 b3 b4 b5 b6 b7) => let b0 := b0 +' b7 in let b7 := ((b7 <<' 9) |' (b7 >>' (64 - 9))) ^' b0 in (Locals8 b0 b1 b2 b3 b4 b5 b6 b7));
  (fun '(Locals8 b0 b1 b2 b3 b4 b5 b6 b7) => let b2 := b2 +' b5 in let b5 := ((b5 <<' 54) |' (b5 >>' (64 - 54))) ^' b2 in (Locals8 b0 b1 b2 b3 b4 b5 b6 b7));
  (fun '(Locals8 b0 b1 b2 b3 b4 b5 b6 b7) => let b4 := b4 +' b3 in let b3 := ((b3 <<' 56) |' (b3 >>' (64 - 56))) ^' b4 in (Locals8 b0 b1 b2 b3 b4 b5 b6 b7));
  (* round 4 *)
  (fun '(Locals8 b0 b1 b2 b3 b4 b5 b6 b7) => let b1 := b1 +' k2 in let b0 := b0 +' (b1 +' k1) in let b1 := ((b1 <<' 39) |' (b1 >>' (64 - 39))) ^' b0 in (Locals8 b0 b1 b2 b3 b4 b5 b6 b7));
  (fun '(Locals8 b0 b1 b2 b3 b4 b5 b6 b7) => let b3 := b3 +' k4 in let b2 := b2 +' (b3 +' k3) in let b3 := ((b3 <<' 30) |' (b3 >>' (64 - 30))) ^' b2 in (Locals8 b0 b1 b2 b3 b4 b5 b6 b7));
  (fun '(Locals8 b0 b1 b2 b3 b4 b5 b6 b7) => let b5 := b5 +' (k6 +' t1) in let b4 := b4 +' (b5 +' k5) in let b5 := ((b5 <<' 34) |' (b5 >>' (64 - 34))) ^' b4 in (Locals8 b0 b1 b2 b3 b4 b5 b6 b7));
  (fun '(Locals8 b0 b1 b2 b3 b4 b5 b6 b7) => let b7 := b7 +' (k8 +' 1) in let b6 := b6 +' (b7 +' k7 +' t2) in let b7 := ((b7 <<' 24) |' (b7 >>' (64 - 24))) ^' b6 in (Locals8 b0 b1 b2 b3 b4 b5 b6 b7));
  (* round 5 *)
  (fun '(Locals8 b0 b1 b2 b3 b4 b5 b6 b7) => let b2 := b2 +' b1 in let b1 := ((b1 <<' 13) |' (b1 >>' (64 - 13))) ^' b2 in (Locals8 b0 b1 b2 b3 b4 b5 b6 b7));
  (fun '(Locals8 b0 b1 b2 b3 b4 b5 b6 b7) => let b4 := b4 +' b7 in let b7 := ((b7 <<' 50) |' (b7 >>' (64 - 50))) ^' b4 in (Locals8 b0 b1 b2 b3 b4 b5 b6 b7));
  (fun '(Locals8 b0 b1 b2 b3 b4 b5 b6 b7) => let b6 := b6 +' b5 in let b5 := ((b5 <<' 10) |' (b5 >>' (64 - 10))) ^' b6 in (Locals8 b0 b1 b2 b3 b4 b5 b6 b7));
  (fun '(Locals8 b0 b1 b2 b3 b4 b5 b6 b7) => let b0 := b0 +' b3 in let b3 := ((b3 <<' 17) |' (b3 >>' (64 - 17))) ^' b0 in (Locals8 b0 b1 b2 b3 b4 b5 b6 b7));
  (* round 6 *)
  (fun '(Locals8 b0 b1 b2 b3 b4 b5 b6 b7) => let b4 := b4 +' b1 in let b1 := ((b1 <<' 25) |' (b1 >>' (64 - 25))) ^' b4 in (Locals8 b0 b1 b2 b3 b4 b5 b6 b7));
  (fun '(Locals8 b0 b1 b2 b3 b4 b5 b6 b7) => let b6 := b6 +' b3 in let b3 := ((b3 <<' 29) |' (b3 >>' (64 - 29))) ^' b6 in (Locals8 b0 b1 b2 b3 b4 b5 b6 b7));
  (fun '(Locals8 b0 b1 b2 b3 b4 b5 b6 b7) => let b0 := b0 +' b5 in let b5 := ((b5 <<' 39) |' (b5 >>' (64 - 39))) ^' b0 in (Locals8 b0 b1 b2 b3 b4 b5 b6 b7));
  (fun '(Locals8 b0 b1 b2 b3 b4 b5 b6 b7) => let b2 := b2 +' b7 in let b7 := ((b7 <<' 43) |' (b7 >>' (64 - 43))) ^' b2 in (Locals8 b0 b1 b2 b3 b4 b5 b6 b7));
  (* round 7 *)
  (fun '(Locals8 b0 b1 b2 b3 b4 b5 b6 b7) => let b6 := b6 +' b1 in let b1 := ((b1 <<' 8) |' (b1 >>' (64 - 8))) ^' b6 in (Locals8 b0 b1 b2 b3 b4 b5 b6 b7));
  (fun '(Locals8 b0 b1 b2 b3 b4 b5 b6 b7) => let b0 := b0 +' b7 in let b7 := ((b7 <<' 35) |' (b7 >>' (64 - 35))) ^' b0 in (Locals8 b0 b1 b2 b3 b4 b5 b6 b7));
  (fun '(Locals8 b0 b1 b2 b3 b4 b5 b6 b7) => let b2 := b2 +' b5 in let b5 := ((b5 <<' 56) |' (b5 >>' (64 - 56))) ^' b2 in (Locals8 b0 b1 b2 b3 b4 b5 b6 b7));
  (fun '(Locals8 b0 b1 b2 b3 b4 b5 b6 b7) => let b4 := b4 +' b3 in let b3 := ((b3 <<' 22) |' (b3 >>' (64 - 22))) ^' b4 in (Locals8 b0 b1 b2 b3 b4 b5 b6 b7));
  (* round 8 *)
  (fun '(Locals8 b0 b1 b2 b3 b4 b5 b6 b7) => let b1 := b1 +' k3 in let b0 := b0 +' (b1 +' k2) in let b1 := ((b1 <<' 46) |' (b1 >>' (64 - 46))) ^' b0 in (Locals8 b0 b1 b2 b3 b4 b5 b6 b7));
  (fun '(Locals8 b0 b1 b2 b3 b4 b5 b6 b7) => let b3 := b3 +' k5 in let b2 := b2 +' (b3 +' k4) in let b3 := ((b3 <<' 36) |' (b3 >>' (64 - 36))) ^' b2 in (Locals8 b0 b1 b2 b3 b4 b5 b6 b7));
  (fun '(Locals8 b0 b1 b2 b3 b4 b5 b6 b7) => let b5 := b5 +' (k7 +' t2) in let b4 := b4 +' (b5 +' k6) in let b5 := ((b5 <<' 19) |' (b5 >>' (64 - 19))) ^' b4 in (Locals8 b0 b1 b2 b3 b4 b5 b6 b7));
  (fun '(Locals8 b0 b1 b2 b3 b4 b5 b6 b7) => let b7 := b7 +' (k0 +' 2) in let b6 := b6 +' (b7 +' k8 +' t0) in let b7 := ((b7 <<' 37) |' (b7 >>' (64 - 37))) ^' b6 in (Locals8 b0 b1 b2 b3 b4 b5 b6 b7));
  (* round 9 *)
  (fun '(Locals8 b0 b1 b2 b3 b4 b5 b6 b7) => let b2 := b2 +' b1 in let b1 := ((b1 <<' 33) |' (b1 >>' (64 - 33))) ^' b2 in (Locals8 b0 b1 b2 b3 b4 b5 b6 b7));
  (fun '(Locals8 b0 b1 b2 b3 b4 b5 b6 b7) => let b4 := b4 +' b7 in let b7 := ((b7 <<' 27) |' (b7 >>' (64 - 27))) ^' b4 in (Locals8 b0 b1 b2 b3 b4 b5 b6 b7));
  (fun '(Locals8 b0 b1 b2 b3 b4 b5 b6 b7) => let b6 := b6 +' b5 in let b5 := ((b5 <<' 14) |' (b5 >>' (64 - 14))) ^' b6 in (Locals8 b0 b1 b2 b3 b4 b5 b6 b7));
  (fun '(Locals8 b0 b1 b2 b3 b4 b5 b6 b7) => let b0 := b0 +' b3 in let b3 := ((b3 <<' 42) |' (b3 >>' (64 - 42))) ^' b0 in (Locals8 b0 b1 b2 b3 b4 b5 b6 b7));
  (* round 10 *)
  (fun '(Locals8 b0 b1 b2 b3 b4 b5 b6 b7) => let b4 := b4 +' b1 in let b1 := ((b1 <<' 17) |' (b1 >>' (64 - 17))) ^' b4 in (Locals8 b0 b1 b2 b3 b4 b5 b6 b7));
  (fun '(Locals8 b0 b1 b2 b3 b4 b5 b6 b7) => let b6 := b6 +' b3 in let b3 := ((b3 <<' 49) |' (b3 >>' (64 - 49))) ^' b6 in (Locals8 b0 b1 b2 b3 b4 b5 b6 b7));
  (fun '(Locals8 b0 b1 b2 b3 b4 b5 b6 b7) => let b0 := b0 +' b5 in let b5 := ((b5 <<' 36) |' (b5 >>' (64 - 36))) ^' b0 in (Locals8 b0 b1 b2 b3 b4 b5 b6 b7));
  (fun '(Locals8 b0 b1 b2 b3 b4 b5 b6 b7) => let b2 := b2 +' b7 in let b7 := ((b7 <<' 39) |' (b7 >>' (64 - 39))) ^' b2 in (Locals8 b0 b1 b2 b3 b4 b5 b6 b7));
  (* round 11 *)
  (fun '(Locals8 b0 b1 b2 b3 b4 b5 b6 b7) => let b6 := b6 +' b1 in let b1 := ((b1 <<' 44) |' (b1 >>' (64 - 44))) ^' b6 in (Locals8 b0 b1 b2 b3 b4 b5 b6 b7));
  (fun '(Locals8 b0 b1 b2 b3 b4 b5 b6 b7) => let b0 := b0 +' b7 in let b7 := ((b7 <<' 9) |' (b7 >>' (64 - 9))) ^' b0 in (Locals8 b0 b1 b2 b3 b4 b5 b6 b7));
  (fun '(Locals8 b0 b1 b2 b3 b4 b5 b6 b7) => let b2 := b2 +' b5 in let b5 := ((b5 <<' 54) |' (b5 >>' (64 - 54))) ^' b2 in (Locals8 b0 b1 b2 b3 b4 b5 b6 b7));
  (fun '(Locals8 b0 b1 b2 b3 b4 b5 b6 b7) => let b4 := b4 +' b3 in let b3 := ((b3 <<' 56) |' (b3 >>' (64 - 56))) ^' b4 in (Locals8 b0 b1 b2 b3 b4 b5 b6 b7));
  (* round 12 *)
  (fun '(Locals8 b0 b1 b2 b3 b4 b5 b6 b7) => let b1 := b1 +' k4 in let b0 := b0 +' (b1 +' k3) in let b1 := ((b1 <<' 39) |' (b1 >>' (64 - 39))) ^' b0 in (Locals8 b0 b1 b2 b3 b4 b5 b6 b7));
  (fun '(Locals8 b0 b1 b2 b3 b4 b5 b6 b7) => let b3 := b3 +' k6 in let b2 := b2 +' (b3 +' k5) in let b3 := ((b3 <<' 30) |' (b3 >>' (64 - 30))) ^' b2 in (Locals8 b0 b1 b2 b3 b4 b5 b6 b7));
  (fun '(Locals8 b0 b1 b2 b3 b4 b5 b6 b7) => let b5 := b5 +' (k8 +' t0) in let b4 := b4 +' (b5 +' k7) in let b5 := ((b5 <<' 34) |' (b5 >>' (64 - 34))) ^' b4 in (Locals8 b0 b1 b2 b3 b4 b5 b6 b7));
  (fun '(Locals8 b0 b1 b2 b3 b4 b5 b6 b7) => let b7 := b7 +' (k1 +' 3) in let b6 := b6 +' (b7 +' k0 +' t1) in let b7 := ((b7 <<' 24) |' (b7 >>' (64 - 24))) ^' b6 in (Locals8 b0 b1 b2 b3 b4 b5 b6 b7));
  (* round 13 *)
  (fun '(Locals8 b0 b1 b2 b3 b4 b5 b6 b7) => let b2 := b2 +' b1 in let b1 := ((b1 <<' 13) |' (b1 >>' (64 - 13))) ^' b2 in (Locals8 b0 b1 b2 b3 b4 b5 b6 b7));
  (fun '(Locals8 b0 b1 b2 b3 b4 b5 b6 b7) => let b4 := b4 +' b7 in let b7 := ((b7 <<' 50) |' (b7 >>' (64 - 50))) ^' b4 in (Locals8 b0 b1 b2 b3 b4 b5 b6 b7));
  (fun '(Locals8 b0 b1 b2 b3 b4 b5 b6 b7) => let b6 := b6 +' b5 in let b5 := ((b5 <<' 10) |' (b5 >>' (64 - 10))) ^' b6 in (Locals8 b0 b1 b2 b3 b4 b5 b6 b7));
  (fun '(Locals8 b0 b1 b2 b3 b4 b5 b6 b7) => let b0 := b0 +' b3 in let b3 := ((b3 <<' 17) |' (b3 >>' (64 - 17))) ^' b0 in (Locals8 b0 b1 b2 b3 b4 b5 b6 b7));
  (* round 14 *)
  (fun '(Locals8 b0 b1 b2 b3 b4 b5 b6 b7) => let b4 := b4 +' b1 in let b1 := ((b1 <<' 25) |' (b1 >>' (64 - 25))) ^' b4 in (Locals8 b0 b1 b2 b3 b4 b5 b6 b7));
  (fun '(Locals8 b0 b1 b2 b3 b4 b5 b6 b7) => let b6 := b6 +' b3 in let b3 := ((b3 <<' 29) |' (b3 >>' (64 - 29))) ^' b6 in (Locals8 b0 b1 b2 b3 b4 b5 b6 b7));
  (fun '(Locals8 b0 b1 b2 b3 b4 b5 b6 b7) => let b0 := b0 +' b5 in let b5 := ((b5 <<' 39) |' (b5 >>' (64 - 39))) ^' b0 in (Locals8 b0 b1 b2 b3 b4 b5 b6 b7));
  (fun '(Locals8 b0 b1 b2 b3 b4 b5 b6 b7) => let b2 := b2 +' b7 in let b7 := ((b7 <<' 43) |' (b7 >>' (64 - 43))) ^' b2 in (Locals8 b0 b1 b2 b3 b4 b5 b6 b7));
  (* round 15 *)
  (fun '(Locals8 b0 b1 b2 b3 b4 b5 b6 b7) => let b6 := b6 +' b1 in let b1 := ((b1 <<' 8) |' (b1 >>' (64 - 8))) ^' b6 in (Locals8 b0 b1 b2 b3 b4 b5 b6 b7));
  (fun '(Locals8 b0 b1 b2 b3 b4 b5 b6 b7) => let b0 := b0 +' b7 in let b7 := ((b7 <<' 35) |' (b7 >>' (64 - 35))) ^' b0 in (Locals8 b0 b1 b2 b3 b4 b5 b6 b7));
  (fun '(Locals8 b0 b1 b2 b3 b4 b5 b6 b7) => let b2 := b2 +' b5 in let b5 := ((b5 <<' 56) |' (b5 >>' (64 - 56))) ^' b2 in (Locals8 b0 b1 b2 b3 b4 b5 b6 b7));
  (fun '(Locals8 b0 b1 b2 b3 b4 b5 b6 b7) => let b4 := b4 +' b3 in let b3 := ((b3 <<' 22) |' (b3 >>' (64 - 22))) ^' b4 in (Locals8 b0 b1 b2 b3 b4 b5 b6 b7));
  (* round 16 *)
  (fun '(Locals8 b0 b1 b2 b3 b4 b5 b6 b7) => let b1 := b1 +' k5 in let b0 := b0 +' (b1 +' k4) in let b1 := ((b1 <<' 46) |' (b1 >>' (64 - 46))) ^' b0 in (Locals8 b0 b1 b2 b3 b4 b5 b6 b7));
  (fun '(Locals8 b0 b1 b2 b3 b4 b5 b6 b7) => let b3 := b3 +' k7 in let b2 := b2 +' (b3 +' k6) in let b3 := ((b3 <<' 36) |' (b3 >>' (64 - 36))) ^' b2 in (Locals8 b0 b1 b2 b3 b4 b5 b6 b7));
  (fun '(Locals8 b0 b1 b2 b3 b4 b5 b6 b7) => let b5 := b5 +' (k0 +' t1) in let b4 := b4 +' (b5 +' k8) in let b5 := ((b5 <<' 19) |' (b5 >>' (64 - 19))) ^' b4 in (Locals8 b0 b1 b2 b3 b4 b5 b6 b7));
  (fun '(Locals8 b0 b1 b2 b3 b4 b5 b6 b7) => let b7 := b7 +' (k2 +' 4) in let b6 := b6 +' (b7 +' k1 +' t2) in let b7 := ((b7 <<' 37) |' (b7 >>' (64 - 37))) ^' b6 in (Locals8 b0 b1 b2 b3 b4 b5 b6 b7));
  (* round 17 *)
  (fun '(Locals8 b0 b1 b2 b3 b4 b5 b6 b7) => let b2 := b2 +' b1 in let b1 := ((b1 <<' 33) |' (b1 >>' (64 - 33))) ^' b2 in (Locals8 b0 b1 b2 b3 b4 b5 b6 b7));
  (fun '(Locals8 b0 b1 b2 b3 b4 b5 b6 b7) => let b4 := b4 +' b7 in let b7 := ((b7 <<' 27) |' (b7 >>' (64 - 27))) ^' b4 in (Locals8 b0 b1 b2 b3 b4 b5 b6 b7));
  (fun '(Locals8 b0 b1 b2 b3 b4 b5 b6 b7) => let b6 := b6 +' b5 in let b5 := ((b5 <<' 14) |' (b5 >>' (64 - 14))) ^' b6 in (Locals8 b0 b1 b2 b3 b4 b5 b6 b7));
  (fun '(Locals8 b0 b1 b2 b3 b4 b5 b6 b7) => let b0 := b0 +' b3 in let b3 := ((b3 <<' 42) |' (b3 >>' (64 - 42))) ^' b0 in (Locals8 b0 b1 b2 b3 b4 b5 b6 b7));
  (* round 18 *)
  (fun '(Locals8 b0 b1 b2 b3 b4 b5 b6 b7) => let b4 := b4 +' b1 in let b1 := ((b1 <<' 17) |' (b1 >>' (64 - 17))) ^' b4 in (Locals8 b0 b1 b2 b3 b4 b5 b6 b7));
  (fun '(Locals8 b0 b1 b2 b3 b4 b5 b6 b7) => let b6 := b6 +' b3 in let b3 := ((b3 <<' 49) |' (b3 >>' (64 - 49))) ^' b6 in (Locals8 b0 b1 b2 b3 b4 b5 b6 b7));
  (fun '(Locals8 b0 b1 b2 b3 b4 b5 b6 b7) => let b0 := b0 +' b5 in let b5 := ((b5 <<' 36) |' (b5 >>' (64 - 36))) ^' b0 in (Locals8 b0 b1 b2 b3 b4 b5 b6 b7));
  (fun '(Locals8 b0 b1 b2 b3 b4 b5 b6 b7) => let b2 := b2 +' b7 in let b7 := ((b7 <<' 39) |' (b7 >>' (64 - 39))) ^' b2 in (Locals8 b0 b1 b2 b3 b4 b5 b6 b7));
  (* round 19 *)
  (fun '(Locals8 b0 b1 b2 b3 b4 b5 b6 b7) => let b6 := b6 +' b1 in let b1 := ((b1 <<' 44) |' (b1 >>' (64 - 44))) ^' b6 in (Locals8 b0 b1 b2 b3 b4 b5 b6 b7));
  (fun '(Locals8 b0 b1 b2 b3 b4 b5 b6 b7) => let b0 := b0 +' b7 in let b7 := ((b7 <<' 9) |' (b7 >>' (64 - 9))) ^' b0 in (Locals8 b0 b1 b2 b3 b4 b5 b6 b7));
  (fun '(Locals8 b0 b1 b2 b3 b4 b5 b6 b7) => let b2 := b2 +' b5 in let b5 := ((b5 <<' 54) |' (b5 >>' (64 - 54))) ^' b2 in (Locals8 b0 b1 b2 b3 b4 b5 b6 b7));
  (fun '(Locals8 b0 b1 b2 b3 b4 b5 b6 b7) => let b4 := b4 +' b3 in let b3 := ((b3 <<' 56) |' (b3 >>' (64 - 56))) ^' b4 in (Locals8 b0 b1 b2 b3 b4 b5 b6 b7));
  (* round 20 *)
  (fun '(Locals8 b0 b1 b2 b3 b4 b5 b6 b7) => let b1 := b1 +' k6 in let b0 := b0 +' (b1 +' k5) in let b1 := ((b1 <<' 39) |' (b1 >>' (64 - 39))) ^' b0 in (Locals8 b0 b1 b2 b3 b4 b5 b6 b7));
  (fun '(Locals8 b0 b1 b2 b3 b4 b5 b6 b7) => let b3 := b3 +' k8 in let b2 := b2 +' (b3 +' k7) in let b3 := ((b3 <<' 30) |' (b3 >>' (64 - 30))) ^' b2 in (Locals8 b0 b1 b2 b3 b4 b5 b6 b7));
  (fun '(Locals8 b0 b1 b2 b3 b4 b5 b6 b7) => let b5 := b5 +' (k1 +' t2) in let b4 := b4 +' (b5 +' k0) in let b5 := ((b5 <<' 34) |' (b5 >>' (64 - 34))) ^' b4 in (Locals8 b0 b1 b2 b3 b4 b5 b6 b7));
  (fun '(Locals8 b0 b1 b2 b3 b4 b5 b6 b7) => let b7 := b7 +' (k3 +' 5) in let b6 := b6 +' (b7 +' k2 +' t0) in let b7 := ((b7 <<' 24) |' (b7 >>' (64 - 24))) ^' b6 in (Locals8 b0 b1 b2 b3 b4 b5 b6 b7));
  (* round 21 *)
  (fun '(Locals8 b0 b1 b2 b3 b4 b5 b6 b7) => let b2 := b2 +' b1 in let b1 := ((b1 <<' 13) |' (b1 >>' (64 - 13))) ^' b2 in (Locals8 b0 b1 b2 b3 b4 b5 b6 b7));
  (fun '(Locals8 b0 b1 b2 b3 b4 b5 b6 b7) => let b4 := b4 +' b7 in let b7 := ((b7 <<' 50) |' (b7 >>' (64 - 50))) ^' b4 in (Locals8 b0 b1 b2 b3 b4 b5 b6 b7));
  (fun '(Locals8 b0 b1 b2 b3 b4 b5 b6 b7) => let b6 := b6 +' b5 in let b5 := ((b5 <<' 10) |' (b5 >>' (64 - 10))) ^' b6 in (Locals8 b0 b1 b2 b3 b4 b5 b6 b7));
  (fun '(Locals8 b0 b1 b2 b3 b4 b5 b6 b7) => let b0 := b0 +' b3 in let b3 := ((b3 <<' 17) |' (b3 >>' (64 - 17))) ^' b0 in (Locals8 b0 b1 b2 b3 b4 b5 b6 b7));
  (* round 22 *)
  (fun '(Locals8 b0 b1 b2 b3 b4 b5 b6 b7) => let b4 := b4 +' b1 in let b1 := ((b1 <<' 25) |' (b1 >>' (64 - 25))) ^' b4 in (Locals8 b0 b1 b2 b3 b4 b5 b6 b7));
  (fun '(Locals8 b0 b1 b2 b3 b4 b5 b6 b7) => let b6 := b6 +' b3 in let b3 := ((b3 <<' 29) |' (b3 >>' (64 - 29))) ^' b6 in (Locals8 b0 b1 b2 b3 b4 b5 b6 b7));
  (fun '(Locals8 b0 b1 b2 b3 b4 b5 b6 b7) => let b0 := b0 +' b5 in let b5 := ((b5 <<' 39) |' (b5 >>' (64 - 39))) ^' b0 in (Locals8 b0 b1 b2 b3 b4 b5 b6 b7));
  (fun '(Locals8 b0 b1 b2 b3 b4 b5 b6 b7) => let b2 := b2 +' b7 in let b7 := ((b7 <<' 43) |' (b7 >>' (64 - 43))) ^' b2 in (Locals8 b0 b1 b2 b3 b4 b5 b6 b7));
  (* round 23 *)
  (fun '(Locals8 b0 b1 b2 b3 b4 b5 b6 b7) => let b6 := b6 +' b1 in let b1 := ((b1 <<' 8) |' (b1 >>' (64 - 8))) ^' b6 in (Locals8 b0 b1 b2 b3 b4 b5 b6 b7));
  (fun '(Locals8 b0 b1 b2 b3 b4 b5 b6 b7) => let b0 := b0 +' b7 in let b7 := ((b7 <<' 35) |' (b7 >>' (64 - 35))) ^' b0 in (Locals8 b0 b1 b2 b3 b4 b5 b6 b7));
  (fun '(Locals8 b0 b1 b2 b3 b4 b5 b6 b7) => let b2 := b2 +' b5 in let b5 := ((b5 <<' 56) |' (b5 >>' (64 - 56))) ^' b2 in (Locals8 b0 b1 b2 b3 b4 b5 b6 b7));
  (fun '(Locals8 b0 b1 b2 b3 b4 b5 b6 b7) => let b4 := b4 +' b3 in let b3 := ((b3 <<' 22) |' (b3 >>' (64 - 22))) ^' b4 in (Locals8 b0 b1 b2 b3 b4 b5 b6 b7));
  (* round 24 *)
  (fun '(Locals8 b0 b1 b2 b3 b4 b5 b6 b7) => let b1 := b1 +' k7 in let b0 := b0 +' (b1 +' k6) in let b1 := ((b1 <<' 46) |' (b1 >>' (64 - 46))) ^' b0 in (Locals8 b0 b1 b2 b3 b4 b5 b6 b7));
  (fun '(Locals8 b0 b1 b2 b3 b4 b5 b6 b7) => let b3 := b3 +' k0 in let b2 := b2 +' (b3 +' k8) in let b3 := ((b3 <<' 36) |' (b3 >>' (64 - 36))) ^' b2 in (Locals8 b0 b1 b2 b3 b4 b5 b6 b7));
  (fun '(Locals8 b0 b1 b2 b3 b4 b5 b6 b7) => let b5 := b5 +' (k2 +' t0) in let b4 := b4 +' (b5 +' k1) in let b5 := ((b5 <<' 19) |' (b5 >>' (64 - 19))) ^' b4 in (Locals8 b0 b1 b2 b3 b4 b5 b6 b7));
  (fun '(Locals8 b0 b1 b2 b3 b4 b5 b6 b7) => let b7 := b7 +' (k4 +' 6) in let b6 := b6 +' (b7 +' k3 +' t1) in let b7 := ((b7 <<' 37) |' (b7 >>' (64 - 37))) ^' b6 in (Locals8 b0 b1 b2 b3 b4 b5 b6 b7));
  (* round 25 *)
  (fun '(Locals8 b0 b1 b2 b3 b4 b5 b6 b7) => let b2 := b2 +' b1 in let b1 := ((b1 <<' 33) |' (b1 >>' (64 - 33))) ^' b2 in (Locals8 b0 b1 b2 b3 b4 b5 b6 b7));
  (fun '(Locals8 b0 b1 b2 b3 b4 b5 b6 b7) => let b4 := b4 +' b7 in let b7 := ((b7 <<' 27) |' (b7 >>' (64 - 27))) ^' b4 in (Locals8 b0 b1 b2 b3 b4 b5 b6 b7));
  (fun '(Locals8 b0 b1 b2 b3 b4 b5 b6 b7) => let b6 := b6 +' b5 in let b5 := ((b5 <<' 14) |' (b5 >>' (64 - 14))) ^' b6 in (Locals8 b0 b1 b2 b3 b4 b5 b6 b7));
  (fun '(Locals8 b0 b1 b2 b3 b4 b5 b6 b7) => let b0 := b0 +' b3 in let b3 := ((b3 <<' 42) |' (b3 >>' (64 - 42))) ^' b0 in (Locals8 b0 b1 b2 b3 b4 b5 b6 b7));
  (* round 26 *)
  (fun '(Locals8 b0 b1 b2 b3 b4 b5 b6 b7) => let b4 := b4 +' b1 in let b1 := ((b1 <<' 17) |' (b1 >>' (64 - 17))) ^' b4 in (Locals8 b0 b1 b2 b3 b4 b5 b6 b7));
  (fun '(Locals8 b0 b1 b2 b3 b4 b5 b6 b7) => let b6 := b6 +' b3 in let b3 := ((b3 <<' 49) |' (b3 >>' (64 - 49))) ^' b6 in (Locals8 b0 b1 b2 b3 b4 b5 b6 b7));
  (fun '(Locals8 b0 b1 b2 b3 b4 b5 b6 b7) => let b0 := b0 +' b5 in let b5 := ((b5 <<' 36) |' (b5 >>' (64 - 36))) ^' b0 in (Locals8 b0 b1 b2 b3 b4 b5 b6 b7));
  (fun '(Locals8 b0 b1 b2 b3 b4 b5 b6 b7) => let b2 := b2 +' b7 in let b7 := ((b7 <<' 39) |' (b7 >>' (64 - 39))) ^' b2 in (Locals8 b0 b1 b2 b3 b4 b5 b6 b7));
  (* round 27 *)
  (fun '(Locals8 b0 b1 b2 b3 b4 b5 b6 b7) => let b6 := b6 +' b1 in let b1 := ((b1 <<' 44) |' (b1 >>' (64 - 44))) ^' b6 in (Locals8 b0 b1 b2 b3 b4 b5 b6 b7));
  (fun '(Locals8 b0 b1 b2 b3 b4 b5 b6 b7) => let b0 := b0 +' b7 in let b7 := ((b7 <<' 9) |' (b7 >>' (64 - 9))) ^' b0 in (Locals8 b0 b1 b2 b3 b4 b5 b6 b7));
  (fun '(Locals8 b0 b1 b2 b3 b4 b5 b6 b7) => let b2 := b2 +' b5 in let b5 := ((b5 <<' 54) |' (b5 >>' (64 - 54))) ^' b2 in (Locals8 b0 b1 b2 b3 b4 b5 b6 b7));
  (fun '(Locals8 b0 b1 b2 b3 b4 b5 b6 b7) => let b4 := b4 +' b3 in let b3 := ((b3 <<' 56) |' (b3 >>' (64 - 56))) ^' b4 in (Locals8 b0 b1 b2 b3 b4 b5 b6 b7));
  (* round 28 *)
  (fun '(Locals8 b0 b1 b2 b3 b4 b5 b6 b7) => let b1 := b1 +' k8 in let b0 := b0 +' (b1 +' k7) in let b1 := ((b1 <<' 39) |' (b1 >>' (64 - 39))) ^' b0 in (Locals8 b0 b1 b2 b3 b4 b5 b6 b7));
  (fun '(Locals8 b0 b1 b2 b3 b4 b5 b6 b7) => let b3 := b3 +' k1 in let b2 := b2 +' (b3 +' k0) in let b3 := ((b3 <<' 30) |' (b3 >>' (64 - 30))) ^' b2 in (Locals8 b0 b1 b2 b3 b4 b5 b6 b7));
  (fun '(Locals8 b0 b1 b2 b3 b4 b5 b6 b7) => let b5 := b5 +' (k3 +' t1) in let b4 := b4 +' (b5 +' k2) in let b5 := ((b5 <<' 34) |' (b5 >>' (64 - 34))) ^' b4 in (Locals8 b0 b1 b2 b3 b4 b5 b6 b7));
  (fun '(Locals8 b0 b1 b2 b3 b4 b5 b6 b7) => let b7 := b7 +' (k5 +' 7) in let b6 := b6 +' (b7 +' k4 +' t2) in let b7 := ((b7 <<' 24) |' (b7 >>' (64 - 24))) ^' b6 in (Locals8 b0 b1 b2 b3 b4 b5 b6 b7));
  (* round 29 *)
  (fun '(Locals8 b0 b1 b2 b3 b4 b5 b6 b7) => let b2 := b2 +' b1 in let b1 := ((b1 <<' 13) |' (b1 >>' (64 - 13))) ^' b2 in (Locals8 b0 b1 b2 b3 b4 b5 b6 b7));
  (fun '(Locals8 b0 b1 b2 b3 b4 b5 b6 b7) => let b4 := b4 +' b7 in let b7 := ((b7 <<' 50) |' (b7 >>' (64 - 50))) ^' b4 in (Locals8 b0 b1 b2 b3 b4 b5 b6 b7));
  (fun '(Locals8 b0 b1 b2 b3 b4 b5 b6 b7) => let b6 := b6 +' b5 in let b5 := ((b5 <<' 10) |' (b5 >>' (64 - 10))) ^' b6 in (Locals8 b0 b1 b2 b3 b4 b5 b6 b7));
  (fun '(Locals8 b0 b1 b2 b3 b4 b5 b6 b7) => let b0 := b0 +' b3 in let b3 := ((b3 <<' 17) |' (b3 >>' (64 - 17))) ^' b0 in (Locals8 b0 b1 b2 b3 b4 b5 b6 b7));
  (* round 30 *)
  (fun '(Locals8 b0 b1 b2 b3 b4 b5 b6 b7) => let b4 := b4 +' b1 in let b1 := ((b1 <<' 25) |' (b1 >>' (64 - 25))) ^' b4 in (Locals8 b0 b1 b2 b3 b4 b5 b6 b7));
  (fun '(Locals8 b0 b1 b2 b3 b4 b5 b6 b7) => let b6 := b6 +' b3 in let b3 := ((b3 <<' 29) |' (b3 >>' (64 - 29))) ^' b6 in (Locals8 b0 b1 b2 b3 b4 b5 b6 b7));
  (fun '(Locals8 b0 b1 b2 b3 b4 b5 b6 b7) => let b0 := b0 +' b5 in let b5 := ((b5 <<' 39) |' (b5 >>' (64 - 39))) ^' b0 in (Locals8 b0 b1 b2 b3 b4 b5 b6 b7));
  (fun '(Locals8 b0 b1 b2 b3 b4 b5 b6 b7) => let b2 := b2 +' b7 in let b7 := ((b7 <<' 43) |' (b7 >>' (64 - 43))) ^' b2 in (Locals8 b0 b1 b2 b3 b4 b5 b6 b7));
  (* round 31 *)
  (fun '(Locals8 b0 b1 b2 b3 b4 b5 b6 b7) => let b6 := b6 +' b1 in let b1 := ((b1 <<' 8) |' (b1 >>' (64 - 8))) ^' b6 in (Locals8 b0 b1 b2 b3 b4 b5 b6 b7));
  (fun '(Locals8 b0 b1 b2 b3 b4 b5 b6 b7) => let b0 := b0 +' b7 in let b7 := ((b7 <<' 35) |' (b7 >>' (64 - 35))) ^' b0 in (Locals8 b0 b1 b2 b3 b4 b5 b6 b7));
  (fun '(Locals8 b0 b1 b2 b3 b4 b5 b6 b7) => let b2 := b2 +' b5 in let b5 := ((b5 <<' 56) |' (b5 >>' (64 - 56))) ^' b2 in (Locals8 b0 b1 b2 b3 b4 b5 b6 b7));
  (fun '(Locals8 b0 b1 b2 b3 b4 b5 b6 b7) => let b4 := b4 +' b3 in let b3 := ((b3 <<' 22) |' (b3 >>' (64 - 22))) ^' b4 in (Locals8 b0 b1 b2 b3 b4 b5 b6 b7));
  (* round 32 *)
  (fun '(Locals8 b0 b1 b2 b3 b4 b5 b6 b7) => let b1 := b1 +' k0 in let b0 := b0 +' (b1 +' k8) in let b1 := ((b1 <<' 46) |' (b1 >>' (64 - 46))) ^' b0 in (Locals8 b0 b1 b2 b3 b4 b5 b6 b7));
  (fun '(Locals8 b0 b1 b2 b3 b4 b5 b6 b7) => let b3 := b3 +' k2 in let b2 := b2 +' (b3 +' k1) in let b3 := ((b3 <<' 36) |' (b3 >>' (64 - 36))) ^' b2 in (Locals8 b0 b1 b2 b3 b4 b5 b6 b7));
  (fun '(Locals8 b0 b1 b2 b3 b4 b5 b6 b7) => let b5 := b5 +' (k4 +' t2) in let b4 := b4 +' (b5 +' k3) in let b5 := ((b5 <<' 19) |' (b5 >>' (64 - 19))) ^' b4 in (Locals8 b0 b1 b2 b3 b4 b5 b6 b7));
  (fun '(Locals8 b0 b1 b2 b3 b4 b5 b6 b7) => let b7 := b7 +' (k6 +' 8) in let b6 := b6 +' (b7 +' k5 +' t0) in let b7 := ((b7 <<' 37) |' (b7 >>' (64 - 37))) ^' b6 in (Locals8 b0 b1 b2 b3 b4 b5 b6 b7));
  (* round 33 *)
  (fun '(Locals8 b0 b1 b2 b3 b4 b5 b6 b7) => let b2 := b2 +' b1 in let b1 := ((b1 <<' 33) |' (b1 >>' (64 - 33))) ^' b2 in (Locals8 b0 b1 b2 b3 b4 b5 b6 b7));
  (fun '(Locals8 b0 b1 b2 b3 b4 b5 b6 b7) => let b4 := b4 +' b7 in let b7 := ((b7 <<' 27) |' (b7 >>' (64 - 27))) ^' b4 in (Locals8 b0 b1 b2 b3 b4 b5 b6 b7));
  (fun '(Locals8 b0 b1 b2 b3 b4 b5 b6 b7) => let b6 := b6 +' b5 in let b5 := ((b5 <<' 14) |' (b5 >>' (64 - 14))) ^' b6 in (Locals8 b0 b1 b2 b3 b4 b5 b6 b7));
  (fun '(Locals8 b0 b1 b2 b3 b4 b5 b6 b7) => let b0 := b0 +' b3 in let b3 := ((b3 <<' 42) |' (b3 >>' (64 - 42))) ^' b0 in (Locals8 b0 b1 b2 b3 b4 b5 b6 b7));
  (* round 34 *)
  (fun '(Locals8 b0 b1 b2 b3 b4 b5 b6 b7) => let b4 := b4 +' b1 in let b1 := ((b1 <<' 17) |' (b1 >>' (64 - 17))) ^' b4 in (Locals8 b0 b1 b2 b3 b4 b5 b6 b7));
  (fun '(Locals8 b0 b1 b2 b3 b4 b5 b6 b7) => let b6 := b6 +' b3 in let b3 := ((b3 <<' 49) |' (b3 >>' (64 - 49))) ^' b6 in (Locals8 b0 b1 b2 b3 b4 b5 b6 b7));
  (fun '(Locals8 b0 b1 b2 b3 b4 b5 b6 b7) => let b0 := b0 +' b5 in let b5 := ((b5 <<' 36) |' (b5 >>' (64 - 36))) ^' b0 in (Locals8 b0 b1 b2 b3 b4 b5 b6 b7));
  (fun '(Locals8 b0 b1 b2 b3 b4 b5 b6 b7) => let b2 := b2 +' b7 in let b7 := ((b7 <<' 39) |' (b7 >>' (64 - 39))) ^' b2 in (Locals8 b0 b1 b2 b3 b4 b5 b6 b7));
  (* round 35 *)
  (fun '(Locals8 b0 b1 b2 b3 b4 b5 b6 b7) => let b6 := b6 +' b1 in let b1 := ((b1 <<' 44) |' (b1 >>' (64 - 44))) ^' b6 in (Locals8 b0 b1 b2 b3 b4 b5 b6 b7));
  (fun '(Locals8 b0 b1 b2 b3 b4 b5 b6 b7) => let b0 := b0 +' b7 in let b7 := ((b7 <<' 9) |' (b7 >>' (64 - 9))) ^' b0 in (Locals8 b0 b1 b2 b3 b4 b5 b6 b7));
  (fun '(Locals8 b0 b1 b2 b3 b4 b5 b6 b7) => let b2 := b2 +' b5 in let b5 := ((b5 <<' 54) |' (b5 >>' (64 - 54))) ^' b2 in (Locals8 b0 b1 b2 b3 b4 b5 b6 b7));
  (fun '(Locals8 b0 b1 b2 b3 b4 b5 b6 b7) => let b4 := b4 +' b3 in let b3 := ((b3 <<' 56) |' (b3 >>' (64 - 56))) ^' b4 in (Locals8 b0 b1 b2 b3 b4 b5 b6 b7));
  (* round 36 *)
  (fun '(Locals8 b0 b1 b2 b3 b4 b5 b6 b7) => let b1 := b1 +' k1 in let b0 := b0 +' (b1 +' k0) in let b1 := ((b1 <<' 39) |' (b1 >>' (64 - 39))) ^' b0 in (Locals8 b0 b1 b2 b3 b4 b5 b6 b7));
  (fun '(Locals8 b0 b1 b2 b3 b4 b5 b6 b7) => let b3 := b3 +' k3 in let b2 := b2 +' (b3 +' k2) in let b3 := ((b3 <<' 30) |' (b3 >>' (64 - 30))) ^' b2 in (Locals8 b0 b1 b2 b3 b4 b5 b6 b7));
  (fun '(Locals8 b0 b1 b2 b3 b4 b5 b6 b7) => let b5 := b5 +' (k5 +' t0) in let b4 := b4 +' (b5 +' k4) in let b5 := ((b5 <<' 34) |' (b5 >>' (64 - 34))) ^' b4 in (Locals8 b0 b1 b2 b3 b4 b5 b6 b7));
  (fun '(Locals8 b0 b1 b2 b3 b4 b5 b6 b7) => let b7 := b7 +' (k7 +' 9) in let b6 := b6 +' (b7 +' k6 +' t1) in let b7 := ((b7 <<' 24) |' (b7 >>' (64 - 24))) ^' b6 in (Locals8 b0 b1 b2 b3 b4 b5 b6 b7));
  (* round 37 *)
  (fun '(Locals8 b0 b1 b2 b3 b4 b5 b6 b7) => let b2 := b2 +' b1 in let b1 := ((b1 <<' 13) |' (b1 >>' (64 - 13))) ^' b2 in (Locals8 b0 b1 b2 b3 b4 b5 b6 b7));
  (fun '(Locals8 b0 b1 b2 b3 b4 b5 b6 b7) => let b4 := b4 +' b7 in let b7 := ((b7 <<' 50) |' (b7 >>' (64 - 50))) ^' b4 in (Locals8 b0 b1 b2 b3 b4 b5 b6 b7));
  (fun '(Locals8 b0 b1 b2 b3 b4 b5 b6 b7) => let b6 := b6 +' b5 in let b5 := ((b5 <<' 10) |' (b5 >>' (64 - 10))) ^' b6 in (Locals8 b0 b1 b2 b3 b4 b5 b6 b7));
  (fun '(Locals8 b0 b1 b2 b3 b4 b5 b6 b7) => let b0 := b0 +' b3 in let b3 := ((b3 <<' 17) |' (b3 >>' (64 - 17))) ^' b0 in (Locals8 b0 b1 b2 b3 b4 b5 b6 b7));
  (* round 38 *)
  (fun '(Locals8 b0 b1 b2 b3 b4 b5 b6 b7) => let b4 := b4 +' b1 in let b1 := ((b1 <<' 25) |' (b1 >>' (64 - 25))) ^' b4 in (Locals8 b0 b1 b2 b3 b4 b5 b6 b7));
  (fun '(Locals8 b0 b1 b2 b3 b4 b5 b6 b7) => let b6 := b6 +' b3 in let b3 := ((b3 <<' 29) |' (b3 >>' (64 - 29))) ^' b6 in (Locals8 b0 b1 b2 b3 b4 b5 b6 b7));
  (fun '(Locals8 b0 b1 b2 b3 b4 b5 b6 b7) => let b0 := b0 +' b5 in let b5 := ((b5 <<' 39) |' (b5 >>' (64 - 39))) ^' b0 in (Locals8 b0 b1 b2 b3 b4 b5 b6 b7));
  (fun '(Locals8 b0 b1 b2 b3 b4 b5 b6 b7) => let b2 := b2 +' b7 in let b7 := ((b7 <<' 43) |' (b7 >>' (64 - 43))) ^' b2 in (Locals8 b0 b1 b2 b3 b4 b5 b6 b7));
  (* round 39 *)
  (fun '(Locals8 b0 b1 b2 b3 b4 b5 b6 b7) => let b6 := b6 +' b1 in let b1 := ((b1 <<' 8) |' (b1 >>' (64 - 8))) ^' b6 in (Locals8 b0 b1 b2 b3 b4 b5 b6 b7));
  (fun '(Locals8 b0 b1 b2 b3 b4 b5 b6 b7) => let b0 := b0 +' b7 in let b7 := ((b7 <<' 35) |' (b7 >>' (64 - 35))) ^' b0 in (Locals8 b0 b1 b2 b3 b4 b5 b6 b7));
  (fun '(Locals8 b0 b1 b2 b3 b4 b5 b6 b7) => let b2 := b2 +' b5 in let b5 := ((b5 <<' 56) |' (b5 >>' (64 - 56))) ^' b2 in (Locals8 b0 b1 b2 b3 b4 b5 b6 b7));
  (fun '(Locals8 b0 b1 b2 b3 b4 b5 b6 b7) => let b4 := b4 +' b3 in let b3 := ((b3 <<' 22) |' (b3 >>' (64 - 22))) ^' b4 in (Locals8 b0 b1 b2 b3 b4 b5 b6 b7));
  (* round 40 *)
  (fun '(Locals8 b0 b1 b2 b3 b4 b5 b6 b7) => let b1 := b1 +' k2 in let b0 := b0 +' (b1 +' k1) in let b1 := ((b1 <<' 46) |' (b1 >>' (64 - 46))) ^' b0 in (Locals8 b0 b1 b2 b3 b4 b5 b6 b7));
  (fun '(Locals8 b0 b1 b2 b3 b4 b5 b6 b7) => let b3 := b3 +' k4 in let b2 := b2 +' (b3 +' k3) in let b3 := ((b3 <<' 36) |' (b3 >>' (64 - 36))) ^' b2 in (Locals8 b0 b1 b2 b3 b4 b5 b6 b7));
  (fun '(Locals8 b0 b1 b2 b3 b4 b5 b6 b7) => let b5 := b5 +' (k6 +' t1) in let b4 := b4 +' (b5 +' k5) in let b5 := ((b5 <<' 19) |' (b5 >>' (64 - 19))) ^' b4 in (Locals8 b0 b1 b2 b3 b4 b5 b6 b7));
  (fun '(Locals8 b0 b1 b2 b3 b4 b5 b6 b7) => let b7 := b7 +' (k8 +' 10) in let b6 := b6 +' (b7 +' k7 +' t2) in let b7 := ((b7 <<' 37) |' (b7 >>' (64 - 37))) ^' b6 in (Locals8 b0 b1 b2 b3 b4 b5 b6 b7));
  (* round 41 *)
  (fun '(Locals8 b0 b1 b2 b3 b4 b5 b6 b7) => let b2 := b2 +' b1 in let b1 := ((b1 <<' 33) |' (b1 >>' (64 - 33))) ^' b2 in (Locals8 b0 b1 b2 b3 b4 b5 b6 b7));
  (fun '(Locals8 b0 b1 b2 b3 b4 b5 b6 b7) => let b4 := b4 +' b7 in let b7 := ((b7 <<' 27) |' (b7 >>' (64 - 27))) ^' b4 in (Locals8 b0 b1 b2 b3 b4 b5 b6 b7));
  (fun '(Locals8 b0 b1 b2 b3 b4 b5 b6 b7) => let b6 := b6 +' b5 in let b5 := ((b5 <<' 14) |' (b5 >>' (64 - 14))) ^' b6 in (Locals8 b0 b1 b2 b3 b4 b5 b6 b7));
  (fun '(Locals8 b0 b1 b2 b3 b4 b5 b6 b7) => let b0 := b0 +' b3 in let b3 := ((b3 <<' 42) |' (b3 >>' (64 - 42))) ^' b0 in (Locals8 b0 b1 b2 b3 b4 b5 b6 b7));
  (* round 42 *)
  (fun '(Locals8 b0 b1 b2 b3 b4 b5 b6 b7) => let b4 := b4 +' b1 in let b1 := ((b1 <<' 17) |' (b1 >>' (64 - 17))) ^' b4 in (Locals8 b0 b1 b2 b3 b4 b5 b6 b7));
  (fun '(Locals8 b0 b1 b2 b3 b4 b5 b6 b7) => let b6 := b6 +' b3 in let b3 := ((b3 <<' 49) |' (b3 >>' (64 - 49))) ^' b6 in (Locals8 b0 b1 b2 b3 b4 b5 b6 b7));
  (fun '(Locals8 b0 b1 b2 b3 b4 b5 b6 b7) => let b0 := b0 +' b5 in let b5 := ((b5 <<' 36) |' (b5 >>' (64 - 36))) ^' b0 in (Locals8 b0 b1 b2 b3 b4 b5 b6 b7));
  (fun '(Locals8 b0 b1 b2 b3 b4 b5 b6 b7) => let b2 := b2 +' b7 in let b7 := ((b7 <<' 39) |' (b7 >>' (64 - 39))) ^' b2 in (Locals8 b0 b1 b2 b3 b4 b5 b6 b7));
  (* round 43 *)
  (fun '(Locals8 b0 b1 b2 b3 b4 b5 b6 b7) => let b6 := b6 +' b1 in let b1 := ((b1 <<' 44) |' (b1 >>' (64 - 44))) ^' b6 in (Locals8 b0 b1 b2 b3 b4 b5 b6 b7));
  (fun '(Locals8 b0 b1 b2 b3 b4 b5 b6 b7) => let b0 := b0 +' b7 in let b7 := ((b7 <<' 9) |' (b7 >>' (64 - 9))) ^' b0 in (Locals8 b0 b1 b2 b3 b4 b5 b6 b7));
  (fun '(Locals8 b0 b1 b2 b3 b4 b5 b6 b7) => let b2 := b2 +' b5 in let b5 := ((b5 <<' 54) |' (b5 >>' (64 - 54))) ^' b2 in (Locals8 b0 b1 b2 b3 b4 b5 b6 b7));
  (fun '(Locals8 b0 b1 b2 b3 b4 b5 b6 b7) => let b4 := b4 +' b3 in let b3 := ((b3 <<' 56) |' (b3 >>' (64 - 56))) ^' b4 in (Locals8 b0 b1 b2 b3 b4 b5 b6 b7));
  (* round 44 *)
  (fun '(Locals8 b0 b1 b2 b3 b4 b5 b6 b7) => let b1 := b1 +' k3 in let b0 := b0 +' (b1 +' k2) in let b1 := ((b1 <<' 39) |' (b1 >>' (64 - 39))) ^' b0 in (Locals8 b0 b1 b2 b3 b4 b5 b6 b7));
  (fun '(Locals8 b0 b1 b2 b3 b4 b5 b6 b7) => let b3 := b3 +' k5 in let b2 := b2 +' (b3 +' k4) in let b3 := ((b3 <<' 30) |' (b3 >>' (64 - 30))) ^' b2 in (Locals8 b0 b1 b2 b3 b4 b5 b6 b7));
  (fun '(Locals8 b0 b1 b2 b3 b4 b5 b6 b7) => let b5 := b5 +' (k7 +' t2) in let b4 := b4 +' (b5 +' k6) in let b5 := ((b5 <<' 34) |' (b5 >>' (64 - 34))) ^' b4 in (Locals8 b0 b1 b2 b3 b4 b5 b6 b7));
  (fun '(Locals8 b0 b1 b2 b3 b4 b5 b6 b7) => let b7 := b7 +' (k0 +' 11) in let b6 := b6 +' (b7 +' k8 +' t0) in let b7 := ((b7 <<' 24) |' (b7 >>' (64 - 24))) ^' b6 in (Locals8 b0 b1 b2 b3 b4 b5 b6 b7));
  (* round 45 *)
  (fun '(Locals8 b0 b1 b2 b3 b4 b5 b6 b7) => let b2 := b2 +' b1 in let b1 := ((b1 <<' 13) |' (b1 >>' (64 - 13))) ^' b2 in (Locals8 b0 b1 b2 b3 b4 b5 b6 b7));
  (fun '(Locals8 b0 b1 b2 b3 b4 b5 b6 b7) => let b4 := b4 +' b7 in let b7 := ((b7 <<' 50) |' (b7 >>' (64 - 50))) ^' b4 in (Locals8 b0 b1 b2 b3 b4 b5 b6 b7));
  (fun '(Locals8 b0 b1 b2 b3 b4 b5 b6 b7) => let b6 := b6 +' b5 in let b5 := ((b5 <<' 10) |' (b5 >>' (64 - 10))) ^' b6 in (Locals8 b0 b1 b2 b3 b4 b5 b6 b7));
  (fun '(Locals8 b0 b1 b2 b3 b4 b5 b6 b7) => let b0 := b0 +' b3 in let b3 := ((b3 <<' 17) |' (b3 >>' (64 - 17))) ^' b0 in (Locals8 b0 b1 b2 b3 b4 b5 b6 b7));
  (* round 46 *)
  (fun '(Locals8 b0 b1 b2 b3 b4 b5 b6 b7) => let b4 := b4 +' b1 in let b1 := ((b1 <<' 25) |' (b1 >>' (64 - 25))) ^' b4 in (Locals8 b0 b1 b2 b3 b4 b5 b6 b7));
  (fun '(Locals8 b0 b1 b2 b3 b4 b5 b6 b7) => let b6 := b6 +' b3 in let b3 := ((b3 <<' 29) |' (b3 >>' (64 - 29))) ^' b6 in (Locals8 b0 b1 b2 b3 b4 b5 b6 b7));
  (fun '(Locals8 b0 b1 b2 b3 b4 b5 b6 b7) => let b0 := b0 +' b5 in let b5 := ((b5 <<' 39) |' (b5 >>' (64 - 39))) ^' b0 in (Locals8 b0 b1 b2 b3 b4 b5 b6 b7));
  (fun '(Locals8 b0 b1 b2 b3 b4 b5 b6 b7) => let b2 := b2 +' b7 in let b7 := ((b7 <<' 43) |' (b7 >>' (64 - 43))) ^' b2 in (Locals8 b0 b1 b2 b3 b4 b5 b6 b7));
  (* round 47 *)
  (fun '(Locals8 b0 b1 b2 b3 b4 b5 b6 b7) => let b6 := b6 +' b1 in let b1 := ((b1 <<' 8) |' (b1 >>' (64 - 8))) ^' b6 in (Locals8 b0 b1 b2 b3 b4 b5 b6 b7));
  (fun '(Locals8 b0 b1 b2 b3 b4 b5 b6 b7) => let b0 := b0 +' b7 in let b7 := ((b7 <<' 35) |' (b7 >>' (64 - 35))) ^' b0 in (Locals8 b0 b1 b2 b3 b4 b5 b6 b7));
  (fun '(Locals8 b0 b1 b2 b3 b4 b5 b6 b7) => let b2 := b2 +' b5 in let b5 := ((b5 <<' 56) |' (b5 >>' (64 - 56))) ^' b2 in (Locals8 b0 b1 b2 b3 b4 b5 b6 b7));
  (fun '(Locals8 b0 b1 b2 b3 b4 b5 b6 b7) => let b4 := b4 +' b3 in let b3 := ((b3 <<' 22) |' (b3 >>' (64 - 22))) ^' b4 in (Locals8 b0 b1 b2 b3 b4 b5 b6 b7));
  (* round 48 *)
  (fun '(Locals8 b0 b1 b2 b3 b4 b5 b6 b7) => let b1 := b1 +' k4 in let b0 := b0 +' (b1 +' k3) in let b1 := ((b1 <<' 46) |' (b1 >>' (64 - 46))) ^' b0 in (Locals8 b0 b1 b2 b3 b4 b5 b6 b7));
  (fun '(Locals8 b0 b1 b2 b3 b4 b5 b6 b7) => let b3 := b3 +' k6 in let b2 := b2 +' (b3 +' k5) in let b3 := ((b3 <<' 36) |' (b3 >>' (64 - 36))) ^' b2 in (Locals8 b0 b1 b2 b3 b4 b5 b6 b7));
  (fun '(Locals8 b0 b1 b2 b3 b4 b5 b6 b7) => let b5 := b5 +' (k8 +' t0) in let b4 := b4 +' (b5 +' k7) in let b5 := ((b5 <<' 19) |' (b5 >>' (64 - 19))) ^' b4 in (Locals8 b0 b1 b2 b3 b4 b5 b6 b7));
  (fun '(Locals8 b0 b1 b2 b3 b4 b5 b6 b7) => let b7 := b7 +' (k1 +' 12) in let b6 := b6 +' (b7 +' k0 +' t1) in let b7 := ((b7 <<' 37) |' (b7 >>' (64 - 37))) ^' b6 in (Locals8 b0 b1 b2 b3 b4 b5 b6 b7));
  (* round 49 *)
  (fun '(Locals8 b0 b1 b2 b3 b4 b5 b6 b7) => let b2 := b2 +' b1 in let b1 := ((b1 <<' 33) |' (b1 >>' (64 - 33))) ^' b2 in (Locals8 b0 b1 b2 b3 b4 b5 b6 b7));
  (fun '(Locals8 b0 b1 b2 b3 b4 b5 b6 b7) => let b4 := b4 +' b7 in let b7 := ((b7 <<' 27) |' (b7 >>' (64 - 27))) ^' b4 in (Locals8 b0 b1 b2 b3 b4 b5 b6 b7));
  (fun '(Locals8 b0 b1 b2 b3 b4 b5 b6 b7) => let b6 := b6 +' b5 in let b5 := ((b5 <<' 14) |' (b5 >>' (64 - 14))) ^' b6 in (Locals8 b0 b1 b2 b3 b4 b5 b6 b7));
  (fun '(Locals8 b0 b1 b2 b3 b4 b5 b6 b7) => let b0 := b0 +' b3 in let b3 := ((b3 <<' 42) |' (b3 >>' (64 - 42))) ^' b0 in (Locals8 b0 b1 b2 b3 b4 b5 b6 b7));
  (* round 50 *)
  (fun '(Locals8 b0 b1 b2 b3 b4 b5 b6 b7) => let b4 := b4 +' b1 in let b1 := ((b1 <<' 17) |' (b1 >>' (64 - 17))) ^' b4 in (Locals8 b0 b1 b2 b3 b4 b5 b6 b7));
  (fun '(Locals8 b0 b1 b2 b3 b4 b5 b6 b7) => let b6 := b6 +' b3 in let b3 := ((b3 <<' 49) |' (b3 >>' (64 - 49))) ^' b6 in (Locals8 b0 b1 b2 b3 b4 b5 b6 b7));
  (fun '(Locals8 b0 b1 b2 b3 b4 b5 b6 b7) => let b0 := b0 +' b5 in let b5 := ((b5 <<' 36) |' (b5 >>' (64 - 36))) ^' b0 in (Locals8 b0 b1 b2 b3 b4 b5 b6 b7));
  (fun '(Locals8 b0 b1 b2 b3 b4 b5 b6 b7) => let b2 := b2 +' b7 in let b7 := ((b7 <<' 39) |' (b7 >>' (64 - 39))) ^' b2 in (Locals8 b0 b1 b2 b3 b4 b5 b6 b7));
  (* round 51 *)
  (fun '(Locals8 b0 b1 b2 b3 b4 b5 b6 b7) => let b6 := b6 +' b1 in let b1 := ((b1 <<' 44) |' (b1 >>' (64 - 44))) ^' b6 in (Locals8 b0 b1 b2 b3 b4 b5 b6 b7));
  (fun '(Locals8 b0 b1 b2 b3 b4 b5 b6 b7) => let b0 := b0 +' b7 in let b7 := ((b7 <<' 9) |' (b7 >>' (64 - 9))) ^' b0 in (Locals8 b0 b1 b2 b3 b4 b5 b6 b7));
  (fun '(Locals8 b0 b1 b2 b3 b4 b5 b6 b7) => let b2 := b2 +' b5 in let b5 := ((b5 <<' 54) |' (b5 >>' (64 - 54))) ^' b2 in (Locals8 b0 b1 b2 b3 b4 b5 b6 b7));
  (fun '(Locals8 b0 b1 b2 b3 b4 b5 b6 b7) => let b4 := b4 +' b3 in let b3 := ((b3 <<' 56) |' (b3 >>' (64 - 56))) ^' b4 in (Locals8 b0 b1 b2 b3 b4 b5 b6 b7));
  (* round 52 *)
  (fun '(Locals8 b0 b1 b2 b3 b4 b5 b6 b7) => let b1 := b1 +' k5 in let b0 := b0 +' (b1 +' k4) in let b1 := ((b1 <<' 39) |' (b1 >>' (64 - 39))) ^' b0 in (Locals8 b0 b1 b2 b3 b4 b5 b6 b7));
  (fun '(Locals8 b0 b1 b2 b3 b4 b5 b6 b7) => let b3 := b3 +' k7 in let b2 := b2 +' (b3 +' k6) in let b3 := ((b3 <<' 30) |' (b3 >>' (64 - 30))) ^' b2 in (Locals8 b0 b1 b2 b3 b4 b5 b6 b7));
  (fun '(Locals8 b0 b1 b2 b3 b4 b5 b6 b7) => let b5 := b5 +' (k0 +' t1) in let b4 := b4 +' (b5 +' k8) in let b5 := ((b5 <<' 34) |' (b5 >>' (64 - 34))) ^' b4 in (Locals8 b0 b1 b2 b3 b4 b5 b6 b7));
  (fun '(Locals8 b0 b1 b2 b3 b4 b5 b6 b7) => let b7 := b7 +' (k2 +' 13) in let b6 := b6 +' (b7 +' k1 +' t2) in let b7 := ((b7 <<' 24) |' (b7 >>' (64 - 24))) ^' b6 in (Locals8 b0 b1 b2 b3 b4 b5 b6 b7));
  (* round 53 *)
  (fun '(Locals8 b0 b1 b2 b3 b4 b5 b6 b7) => let b2 := b2 +' b1 in let b1 := ((b1 <<' 13) |' (b1 >>' (64 - 13))) ^' b2 in (Locals8 b0 b1 b2 b3 b4 b5 b6 b7));
  (fun '(Locals8 b0 b1 b2 b3 b4 b5 b6 b7) => let b4 := b4 +' b7 in let b7 := ((b7 <<' 50) |' (b7 >>' (64 - 50))) ^' b4 in (Locals8 b0 b1 b2 b3 b4 b5 b6 b7));
  (fun '(Locals8 b0 b1 b2 b3 b4 b5 b6 b7) => let b6 := b6 +' b5 in let b5 := ((b5 <<' 10) |' (b5 >>' (64 - 10))) ^' b6 in (Locals8 b0 b1 b2 b3 b4 b5 b6 b7));
  (fun '(Locals8 b0 b1 b2 b3 b4 b5 b6 b7) => let b0 := b0 +' b3 in let b3 := ((b3 <<' 17) |' (b3 >>' (64 - 17))) ^' b0 in (Locals8 b0 b1 b2 b3 b4 b5 b6 b7));
  (* round 54 *)
  (fun '(Locals8 b0 b1 b2 b3 b4 b5 b6 b7) => let b4 := b4 +' b1 in let b1 := ((b1 <<' 25) |' (b1 >>' (64 - 25))) ^' b4 in (Locals8 b0 b1 b2 b3 b4 b5 b6 b7));
  (fun '(Locals8 b0 b1 b2 b3 b4 b5 b6 b7) => let b6 := b6 +' b3 in let b3 := ((b3 <<' 29) |' (b3 >>' (64 - 29))) ^' b6 in (Locals8 b0 b1 b2 b3 b4 b5 b6 b7));
  (fun '(Locals8 b0 b1 b2 b3 b4 b5 b6 b7) => let b0 := b0 +' b5 in let b5 := ((b5 <<' 39) |' (b5 >>' (64 - 39))) ^' b0 in (Locals8 b0 b1 b2 b3 b4 b5 b6 b7));
  (fun '(Locals8 b0 b1 b2 b3 b4 b5 b6 b7) => let b2 := b2 +' b7 in let b7 := ((b7 <<' 43) |' (b7 >>' (64 - 43))) ^' b2 in (Locals8 b0 b1 b2 b3 b4 b5 b6 b7));
  (* round 55 *)
  (fun '(Locals8 b0 b1 b2 b3 b4 b5 b6 b7) => let b6 := b6 +' b1 in let b1 := ((b1 <<' 8) |' (b1 >>' (64 - 8))) ^' b6 in (Locals8 b0 b1 b2 b3 b4 b5 b6 b7));
  (fun '(Locals8 b0 b1 b2 b3 b4 b5 b6 b7) => let b0 := b0 +' b7 in let b7 := ((b7 <<' 35) |' (b7 >>' (64 - 35))) ^' b0 in (Locals8 b0 b1 b2 b3 b4 b5 b6 b7));
  (fun '(Locals8 b0 b1 b2 b3 b4 b5 b6 b7) => let b2 := b2 +' b5 in let b5 := ((b5 <<' 56) |' (b5 >>' (64 - 56))) ^' b2 in (Locals8 b0 b1 b2 b3 b4 b5 b6 b7));
  (fun '(Locals8 b0 b1 b2 b3 b4 b5 b6 b7) => let b4 := b4 +' b3 in let b3 := ((b3 <<' 22) |' (b3 >>' (64 - 22))) ^' b4 in (Locals8 b0 b1 b2 b3 b4 b5 b6 b7));
  (* round 56 *)
  (fun '(Locals8 b0 b1 b2 b3 b4 b5 b6 b7) => let b1 := b1 +' k6 in let b0 := b0 +' (b1 +' k5) in let b1 := ((b1 <<' 46) |' (b1 >>' (64 - 46))) ^' b0 in (Locals8 b0 b1 b2 b3 b4 b5 b6 b7));
  (fun '(Locals8 b0 b1 b2 b3 b4 b5 b6 b7) => let b3 := b3 +' k8 in let b2 := b2 +' (b3 +' k7) in let b3 := ((b3 <<' 36) |' (b3 >>' (64 - 36))) ^' b2 in (Locals8 b0 b1 b2 b3 b4 b5 b6 b7));
  (fun '(Locals8 b0 b1 b2 b3 b4 b5 b6 b7) => let b5 := b5 +' (k1 +' t2) in let b4 := b4 +' (b5 +' k0) in let b5 := ((b5 <<' 19) |' (b5 >>' (64 - 19))) ^' b4 in (Locals8 b0 b1 b2 b3 b4 b5 b6 b7));
  (fun '(Locals8 b0 b1 b2 b3 b4 b5 b6 b7) => let b7 := b7 +' (k3 +' 14) in let b6 := b6 +' (b7 +' k2 +' t0) in let b7 := ((b7 <<' 37) |' (b7 >>' (64 - 37))) ^' b6 in (Locals8 b0 b1 b2 b3 b4 b5 b6 b7));
  (* round 57 *)
  (fun '(Locals8 b0 b1 b2 b3 b4 b5 b6 b7) => let b2 := b2 +' b1 in let b1 := ((b1 <<' 33) |' (b1 >>' (64 - 33))) ^' b2 in (Locals8 b0 b1 b2 b3 b4 b5 b6 b7));
  (fun '(Locals8 b0 b1 b2 b3 b4 b5 b6 b7) => let b4 := b4 +' b7 in let b7 := ((b7 <<' 27) |' (b7 >>' (64 - 27))) ^' b4 in (Locals8 b0 b1 b2 b3 b4 b5 b6 b7));
  (fun '(Locals8 b0 b1 b2 b3 b4 b5 b6 b7) => let b6 := b6 +' b5 in let b5 := ((b5 <<' 14) |' (b5 >>' (64 - 14))) ^' b6 in (Locals8 b0 b1 b2 b3 b4 b5 b6 b7));
  (fun '(Locals8 b0 b1 b2 b3 b4 b5 b6 b7) => let b0 := b0 +' b3 in let b3 := ((b3 <<' 42) |' (b3 >>' (64 - 42))) ^' b0 in (Locals8 b0 b1 b2 b3 b4 b5 b6 b7));
  (* round 58 *)
  (fun '(Locals8 b0 b1 b2 b3 b4 b5 b6 b7) => let b4 := b4 +' b1 in let b1 := ((b1 <<' 17) |' (b1 >>' (64 - 17))) ^' b4 in (Locals8 b0 b1 b2 b3 b4 b5 b6 b7));
  (fun '(Locals8 b0 b1 b2 b3 b4 b5 b6 b7) => let b6 := b6 +' b3 in let b3 := ((b3 <<' 49) |' (b3 >>' (64 - 49))) ^' b6 in (Locals8 b0 b1 b2 b3 b4 b5 b6 b7));
  (fun '(Locals8 b0 b1 b2 b3 b4 b5 b6 b7) => let b0 := b0 +' b5 in let b5 := ((b5 <<' 36) |' (b5 >>' (64 - 36))) ^' b0 in (Locals8 b0 b1 b2 b3 b4 b5 b6 b7));
  (fun '(Locals8 b0 b1 b2 b3 b4 b5 b6 b7) => let b2 := b2 +' b7 in let b7 := ((b7 <<' 39) |' (b7 >>' (64 - 39))) ^' b2 in (Locals8 b0 b1 b2 b3 b4 b5 b6 b7));
  (* round 59 *)
  (fun '(Locals8 b0 b1 b2 b3 b4 b5 b6 b7) => let b6 := b6 +' b1 in let b1 := ((b1 <<' 44) |' (b1 >>' (64 - 44))) ^' b6 in (Locals8 b0 b1 b2 b3 b4 b5 b6 b7));
  (fun '(Locals8 b0 b1 b2 b3 b4 b5 b6 b7) => let b0 := b0 +' b7 in let b7 := ((b7 <<' 9) |' (b7 >>' (64 - 9))) ^' b0 in (Locals8 b0 b1 b2 b3 b4 b5 b6 b7));
  (fun '(Locals8 b0 b1 b2 b3 b4 b5 b6 b7) => let b2 := b2 +' b5 in let b5 := ((b5 <<' 54) |' (b5 >>' (64 - 54))) ^' b2 in (Locals8 b0 b1 b2 b3 b4 b5 b6 b7));
  (fun '(Locals8 b0 b1 b2 b3 b4 b5 b6 b7) => let b4 := b4 +' b3 in let b3 := ((b3 <<' 56) |' (b3 >>' (64 - 56))) ^' b4 in (Locals8 b0 b1 b2 b3 b4 b5 b6 b7));
  (* round 60 *)
  (fun '(Locals8 b0 b1 b2 b3 b4 b5 b6 b7) => let b1 := b1 +' k7 in let b0 := b0 +' (b1 +' k6) in let b1 := ((b1 <<' 39) |' (b1 >>' (64 - 39))) ^' b0 in (Locals8 b0 b1 b2 b3 b4 b5 b6 b7));
  (fun '(Locals8 b0 b1 b2 b3 b4 b5 b6 b7) => let b3 := b3 +' k0 in let b2 := b2 +' (b3 +' k8) in let b3 := ((b3 <<' 30) |' (b3 >>' (64 - 30))) ^' b2 in (Locals8 b0 b1 b2 b3 b4 b5 b6 b7));
  (fun '(Locals8 b0 b1 b2 b3 b4 b5 b6 b7) => let b5 := b5 +' (k2 +' t0) in let b4 := b4 +' (b5 +' k1) in let b5 := ((b5 <<' 34) |' (b5 >>' (64 - 34))) ^' b4 in (Locals8 b0 b1 b2 b3 b4 b5 b6 b7));
  (fun '(Locals8 b0 b1 b2 b3 b4 b5 b6 b7) => let b7 := b7 +' (k4 +' 15) in let b6 := b6 +' (b7 +' k3 +' t1) in let b7 := ((b7 <<' 24) |' (b7 >>' (64 - 24))) ^' b6 in (Locals8 b0 b1 b2 b3 b4 b5 b6 b7));
  (* round 61 *)
  (fun '(Locals8 b0 b1 b2 b3 b4 b5 b6 b7) => let b2 := b2 +' b1 in let b1 := ((b1 <<' 13) |' (b1 >>' (64 - 13))) ^' b2 in (Locals8 b0 b1 b2 b3 b4 b5 b6 b7));
  (fun '(Locals8 b0 b1 b2 b3 b4 b5 b6 b7) => let b4 := b4 +' b7 in let b7 := ((b7 <<' 50) |' (b7 >>' (64 - 50))) ^' b4 in (Locals8 b0 b1 b2 b3 b4 b5 b6 b7));
  (fun '(Locals8 b0 b1 b2 b3 b4 b5 b6 b7) => let b6 := b6 +' b5 in let b5 := ((b5 <<' 10) |' (b5 >>' (64 - 10))) ^' b6 in (Locals8 b0 b1 b2 b3 b4 b5 b6 b7));
  (fun '(Locals8 b0 b1 b2 b3 b4 b5 b6 b7) => let b0 := b0 +' b3 in let b3 := ((b3 <<' 17) |' (b3 >>' (64 - 17))) ^' b0 in (Locals8 b0 b1 b2 b3 b4 b5 b6 b7));
  (* round 62 *)
  (fun '(Locals8 b0 b1 b2 b3 b4 b5 b6 b7) => let b4 := b4 +' b1 in let b1 := ((b1 <<' 25) |' (b1 >>' (64 - 25))) ^' b4 in (Locals8 b0 b1 b2 b3 b4 b5 b6 b7));
  (fun '(Locals8 b0 b1 b2 b3 b4 b5 b6 b7) => let b6 := b6 +' b3 in let b3 := ((b3 <<' 29) |' (b3 >>' (64 - 29))) ^' b6 in (Locals8 b0 b1 b2 b3 b4 b5 b6 b7));
  (fun '(Locals8 b0 b1 b2 b3 b4 b5 b6 b7) => let b0 := b0 +' b5 in let b5 := ((b5 <<' 39) |' (b5 >>' (64 - 39))) ^' b0 in (Locals8 b0 b1 b2 b3 b4 b5 b6 b7));
  (fun '(Locals8 b0 b1 b2 b3 b4 b5 b6 b7) => let b2 := b2 +' b7 in let b7 := ((b7 <<' 43) |' (b7 >>' (64 - 43))) ^' b2 in (Locals8 b0 b1 b2 b3 b4 b5 b6 b7));
  (* round 63 *)
  (fun '(Locals8 b0 b1 b2 b3 b4 b5 b6 b7) => let b6 := b6 +' b1 in let b1 := ((b1 <<' 8) |' (b1 >>' (64 - 8))) ^' b6 in (Locals8 b0 b1 b2 b3 b4 b5 b6 b7));
  (fun '(Locals8 b0 b1 b2 b3 b4 b5 b6 b7) => let b0 := b0 +' b7 in let b7 := ((b7 <<' 35) |' (b7 >>' (64 - 35))) ^' b0 in (Locals8 b0 b1 b2 b3 b4 b5 b6 b7));
  (fun '(Locals8 b0 b1 b2 b3 b4 b5 b6 b7) => let b2 := b2 +' b5 in let b5 := ((b5 <<' 56) |' (b5 >>' (64 - 56))) ^' b2 in (Locals8 b0 b1 b2 b3 b4 b5 b6 b7));
  (fun '(Locals8 b0 b1 b2 b3 b4 b5 b6 b7) => let b4 := b4 +' b3 in let b3 := ((b3 <<' 22) |' (b3 >>' (64 - 22))) ^' b4 in (Locals8 b0 b1 b2 b3 b4 b5 b6 b7));
  (* round 64 *)
  (fun '(Locals8 b0 b1 b2 b3 b4 b5 b6 b7) => let b1 := b1 +' k8 in let b0 := b0 +' (b1 +' k7) in let b1 := ((b1 <<' 46) |' (b1 >>' (64 - 46))) ^' b0 in (Locals8 b0 b1 b2 b3 b4 b5 b6 b7));
  (fun '(Locals8 b0 b1 b2 b3 b4 b5 b6 b7) => let b3 := b3 +' k1 in let b2 := b2 +' (b3 +' k0) in let b3 := ((b3 <<' 36) |' (b3 >>' (64 - 36))) ^' b2 in (Locals8 b0 b1 b2 b3 b4 b5 b6 b7));
  (fun '(Locals8 b0 b1 b2 b3 b4 b5 b6 b7) => let b5 := b5 +' (k3 +' t1) in let b4 := b4 +' (b5 +' k2) in let b5 := ((b5 <<' 19) |' (b5 >>' (64 - 19))) ^' b4 in (Locals8 b0 b1 b2 b3 b4 b5 b6 b7));
  (fun '(Locals8 b0 b1 b2 b3 b4 b5 b6 b7) => let b7 := b7 +' (k5 +' 16) in let b6 := b6 +' (b7 +' k4 +' t2) in let b7 := ((b7 <<' 37) |' (b7 >>' (64 - 37))) ^' b6 in (Locals8 b0 b1 b2 b3 b4 b5 b6 b7));
  (* round 65 *)
  (fun '(Locals8 b0 b1 b2 b3 b4 b5 b6 b7) => let b2 := b2 +' b1 in let b1 := ((b1 <<' 33) |' (b1 >>' (64 - 33))) ^' b2 in (Locals8 b0 b1 b2 b3 b4 b5 b6 b7));
  (fun '(Locals8 b0 b1 b2 b3 b4 b5 b6 b7) => let b4 := b4 +' b7 in let b7 := ((b7 <<' 27) |' (b7 >>' (64 - 27))) ^' b4 in (Locals8 b0 b1 b2 b3 b4 b5 b6 b7));
  (fun '(Locals8 b0 b1 b2 b3 b4 b5 b6 b7) => let b6 := b6 +' b5 in let b5 := ((b5 <<' 14) |' (b5 >>' (64 - 14))) ^' b6 in (Locals8 b0 b1 b2 b3 b4 b5 b6 b7));
  (fun '(Locals8 b0 b1 b2 b3 b4 b5 b6 b7) => let b0 := b0 +' b3 in let b3 := ((b3 <<' 42) |' (b3 >>' (64 - 42))) ^' b0 in (Locals8 b0 b1 b2 b3 b4 b5 b6 b7));
  (* round 66 *)
  (fun '(Locals8 b0 b1 b2 b3 b4 b5 b6 b7) => let b4 := b4 +' b1 in let b1 := ((b1 <<' 17) |' (b1 >>' (64 - 17))) ^' b4 in (Locals8 b0 b1 b2 b3 b4 b5 b6 b7));
  (fun '(Locals8 b0 b1 b2 b3 b4 b5 b6 b7) => let b6 := b6 +' b3 in let b3 := ((b3 <<' 49) |' (b3 >>' (64 - 49))) ^' b6 in (Locals8 b0 b1 b2 b3 b4 b5 b6 b7));
  (fun '(Locals8 b0 b1 b2 b3 b4 b5 b6 b7) => let b0 := b0 +' b5 in let b5 := ((b5 <<' 36) |' (b5 >>' (64 - 36))) ^' b0 in (Locals8 b0 b1 b2 b3 b4 b5 b6 b7));
  (fun '(Locals8 b0 b1 b2 b3 b4 b5 b6 b7) => let b2 := b2 +' b7 in let b7 := ((b7 <<' 39) |' (b7 >>' (64 - 39))) ^' b2 in (Locals8 b0 b1 b2 b3 b4 b5 b6 b7));
  (* round 67 *)
  (fun '(Locals8 b0 b1 b2 b3 b4 b5 b6 b7) => let b6 := b6 +' b1 in let b1 := ((b1 <<' 44) |' (b1 >>' (64 - 44))) ^' b6 in (Locals8 b0 b1 b2 b3 b4 b5 b6 b7));
  (fun '(Locals8 b0 b1 b2 b3 b4 b5 b6 b7) => let b0 := b0 +' b7 in let b7 := ((b7 <<' 9) |' (b7 >>' (64 - 9))) ^' b0 in (Locals8 b0 b1 b2 b3 b4 b5 b6 b7));
  (fun '(Locals8 b0 b1 b2 b3 b4 b5 b6 b7) => let b2 := b2 +' b5 in let b5 := ((b5 <<' 54) |' (b5 >>' (64 - 54))) ^' b2 in (Locals8 b0 b1 b2 b3 b4 b5 b6 b7));
  (fun '(Locals8 b0 b1 b2 b3 b4 b5 b6 b7) => let b4 := b4 +' b3 in let b3 := ((b3 <<' 56) |' (b3 >>' (64 - 56))) ^' b4 in (Locals8 b0 b1 b2 b3 b4 b5 b6 b7));
  (* round 68 *)
  (fun '(Locals8 b0 b1 b2 b3 b4 b5 b6 b7) => let b1 := b1 +' k0 in let b0 := b0 +' (b1 +' k8) in let b1 := ((b1 <<' 39) |' (b1 >>' (64 - 39))) ^' b0 in (Locals8 b0 b1 b2 b3 b4 b5 b6 b7));
  (fun '(Locals8 b0 b1 b2 b3 b4 b5 b6 b7) => let b3 := b3 +' k2 in let b2 := b2 +' (b3 +' k1) in let b3 := ((b3 <<' 30) |' (b3 >>' (64 - 30))) ^' b2 in (Locals8 b0 b1 b2 b3 b4 b5 b6 b7));
  (fun '(Locals8 b0 b1 b2 b3 b4 b5 b6 b7) => let b5 := b5 +' (k4 +' t2) in let b4 := b4 +' (b5 +' k3) in let b5 := ((b5 <<' 34) |' (b5 >>' (64 - 34))) ^' b4 in (Locals8 b0 b1 b2 b3 b4 b5 b6 b7));
  (fun '(Locals8 b0 b1 b2 b3 b4 b5 b6 b7) => let b7 := b7 +' (k6 +' 17) in let b6 := b6 +' (b7 +' k5 +' t0) in let b7 := ((b7 <<' 24) |' (b7 >>' (64 - 24))) ^' b6 in (Locals8 b0 b1 b2 b3 b4 b5 b6 b7));
  (* round 69 *)
  (fun '(Locals8 b0 b1 b2 b3 b4 b5 b6 b7) => let b2 := b2 +' b1 in let b1 := ((b1 <<' 13) |' (b1 >>' (64 - 13))) ^' b2 in (Locals8 b0 b1 b2 b3 b4 b5 b6 b7));
  (fun '(Locals8 b0 b1 b2 b3 b4 b5 b6 b7) => let b4 := b4 +' b7 in let b7 := ((b7 <<' 50) |' (b7 >>' (64 - 50))) ^' b4 in (Locals8 b0 b1 b2 b3 b4 b5 b6 b7));
  (fun '(Locals8 b0 b1 b2 b3 b4 b5 b6 b7) => let b6 := b6 +' b5 in let b5 := ((b5 <<' 10) |' (b5 >>' (64 - 10))) ^' b6 in (Locals8 b0 b1 b2 b3 b4 b5 b6 b7));
  (fun '(Locals8 b0 b1 b2 b3 b4 b5 b6 b7) => let b0 := b0 +' b3 in let b3 := ((b3 <<' 17) |' (b3 >>' (64 - 17))) ^' b0 in (Locals8 b0 b1 b2 b3 b4 b5 b6 b7));
  (* round 70 *)
  (fun '(Locals8 b0 b1 b2 b3 b4 b5 b6 b7) => let b4 := b4 +' b1 in let b1 := ((b1 <<' 25) |' (b1 >>' (64 - 25))) ^' b4 in (Locals8 b0 b1 b2 b3 b4 b5 b6 b7));
  (fun '(Locals8 b0 b1 b2 b3 b4 b5 b6 b7) => let b6 := b6 +' b3 in let b3 := ((b3 <<' 29) |' (b3 >>' (64 - 29))) ^' b6 in (Locals8 b0 b1 b2 b3 b4 b5 b6 b7));
  (fun '(Locals8 b0 b1 b2 b3 b4 b5 b6 b7) => let b0 := b0 +' b5 in let b5 := ((b5 <<' 39) |' (b5 >>' (64 - 39))) ^' b0 in (Locals8 b0 b1 b2 b3 b4 b5 b6 b7));
  (fun '(Locals8 b0 b1 b2 b3 b4 b5 b6 b7) => let b2 := b2 +' b7 in let b7 := ((b7 <<' 43) |' (b7 >>' (64 - 43))) ^' b2 in (Locals8 b0 b1 b2 b3 b4 b5 b6 b7));
  (* round 71 *)
  (fun '(Locals8 b0 b1 b2 b3 b4 b5 b6 b7) => let b6 := b6 +' b1 in let b1 := ((b1 <<' 8) |' (b1 >>' (64 - 8))) ^' b6 in (Locals8 b0 b1 b2 b3 b4 b5 b6 b7));
  (fun '(Locals8 b0 b1 b2 b3 b4 b5 b6 b7) => let b0 := b0 +' b7 in let b7 := ((b7 <<' 35) |' (b7 >>' (64 - 35))) ^' b0 in (Locals8 b0 b1 b2 b3 b4 b5 b6 b7));
  (fun '(Locals8 b0 b1 b2 b3 b4 b5 b6 b7) => let b2 := b2 +' b5 in let b5 := ((b5 <<' 56) |' (b5 >>' (64 - 56))) ^' b2 in (Locals8 b0 b1 b2 b3 b4 b5 b6 b7));
  (fun '(Locals8 b0 b1 b2 b3 b4 b5 b6 b7) => let b4 := b4 +' b3 in let b3 := ((b3 <<' 22) |' (b3 >>' (64 - 22))) ^' b4 in (Locals8 b0 b1 b2 b3 b4 b5 b6 b7))
].

Definition threefish512_encrypt (tf : threefish) (input output : list Z) : outcome (list Z) :=
  b0 <- index input 0 ;;
  b1 <- index input 1 ;;
  b2 <- index input 2 ;;
  b3 <- index input 3 ;;
  b4 <- index input 4 ;;
  b5 <- index input 5 ;;
  b6 <- index input 6 ;;
  b7 <- index input 7 ;;
  let k0 := arr (expanedKey tf) 0 in
  let k1 := arr (expanedKey tf) 1 in
  let k2 := arr (expanedKey tf) 2 in
  let k3 := arr (expanedKey tf) 3 in
  let k4 := arr (expanedKey tf) 4 in
  let k5 := arr (expanedKey tf) 5 in
  let k6 := arr (expanedKey tf) 6 in
  let k7 := arr (expanedKey tf) 7 in
  let k8 := arr (expanedKey tf) 8 in
  let t0 := arr (expanedTweak tf) 0 in
  let t1 := arr (expanedTweak tf) 1 in
  let t2 := arr (expanedTweak tf) 2 in
  let '(Locals8 b0 b1 b2 b3 b4 b5 b6 b7) := run (threefish512_encrypt_rounds k0 k1 k2 k3 k4 k5 k6 k7 k8 t0 t1 t2) (Locals8 b0 b1 b2 b3 b4 b5 b6 b7) in
  output <- store output 0 (b0 +' k0) ;;
  output <- store output 1 (b1 +' k1) ;;
  output <- store output 2 (b2 +' k2) ;;
  output <- store output 3 (b3 +' k3) ;;
  output <- store output 4 (b4 +' k4) ;;
  output <- store output 5 (b5 +' k5 +' t0) ;;
  output <- store output 6 (b6 +' k6 +' t1) ;;
  output <- store output 7 (b7 +' k7 +' 18) ;;
  Done output.

Definition threefish512_decrypt_rounds (k0 k1 k2 k3 k4 k5 k6 k7 k8 t0 t1 t2 : Z) : list (locals8 -> locals8) := [
  (* inverse of round 71 *)
  (fun '(Locals8 b0 b1 b2 b3 b4 b5 b6 b7) => let tmp := b3 ^' b4 in let b3 := (tmp >>' 22) |' (tmp <<' (64 - 22)) in let b4 := b4 -' b3 in (Locals8 b0 b1 b2 b3 b4 b5 b6 b7));
  (fun '(Locals8 b0 b1 b2 b3 b4 b5 b6 b7) => let tmp := b5 ^' b2 in let b5 := (tmp >>' 56) |' (tmp <<' (64 - 56)) in let b2 := b2 -' b5 in (Locals8 b0 b1 b2 b3 b4 b5 b6 b7));
  (fun '(Locals8 b0 b1 b2 b3 b4 b5 b6 b7) => let tmp := b7 ^' b0 in let b7 := (tmp >>' 35) |' (tmp <<' (64 - 35)) in let b0 := b0 -' b7 in (Locals8 b0 b1 b2 b3 b4 b5 b6 b7));
  (fun '(Locals8 b0 b1 b2 b3 b4 b5 b6 b7) => let tmp := b1 ^' b6 in let b1 := (tmp >>' 8) |' (tmp <<' (64 - 8)) in let b6 := b6 -' b1 in (Locals8 b0 b1 b2 b3 b4 b5 b6 b7));
  (* inverse of round 70 *)
  (fun '(Locals8 b0 b1 b2 b3 b4 b5 b6 b7) => let tmp := b7 ^' b2 in let b7 := (tmp >>' 43) |' (tmp <<' (64 - 43)) in let b2 := b2 -' b7 in (Locals8 b0 b1 b2 b3 b4 b5 b6 b7));
  (fun '(Locals8 b0 b1 b2 b3 b4 b5 b6 b7) => let tmp := b5 ^' b0 in let b5 := (tmp >>' 39) |' (tmp <<' (64 - 39)) in let b0 := b0 -' b5 in (Locals8 b0 b1 b2 b3 b4 b5 b6 b7));
  (fun '(Locals8 b0 b1 b2 b3 b4 b5 b6 b7) => let tmp := b3 ^' b6 in let b3 := (tmp >>' 29) |' (tmp <<' (64 - 29)) in let b6 := b6 -' b3 in (Locals8 b0 b1 b2 b3 b4 b5 b6 b7));
  (fun '(Locals8 b0 b1 b2 b3 b4 b5 b6 b7) => let tmp := b1 ^' b4 in let b1 := (tmp >>' 25) |' (tmp <<' (64 - 25)) in let b4 := b4 -' b1 in (Locals8 b0 b1 b2 b3 b4 b5 b6 b7));
  (* inverse of round 69 *)
  (fun '(Locals8 b0 b1 b2 b3 b4 b5 b6 b7) => let tmp := b3 ^' b0 in let b3 := (tmp >>' 17) |' (tmp <<' (64 - 17)) in let b0 := b0 -' b3 in (Locals8 b0 b1 b2 b3 b4 b5 b6 b7));
  (fun '(Locals8 b0 b1 b2 b3 b4 b5 b6 b7) => let tmp := b5 ^' b6 in let b5 := (tmp >>' 10) |' (tmp <<' (64 - 10)) in let b6 := b6 -' b5 in (Locals8 b0 b1 b2 b3 b4 b5 b6 b7));
  (fun '(Locals8 b0 b1 b2 b3 b4 b5 b6 b7) => let tmp := b7 ^' b4 in let b7 := (tmp >>' 50) |' (tmp <<' (64 - 50)) in let b4 := b4 -' b7 in (Locals8 b0 b1 b2 b3 b4 b5 b6 b7));
  (fun '(Locals8 b0 b1 b2 b3 b4 b5 b6 b7) => let tmp := b1 ^' b2 in let b1 := (tmp >>' 13) |' (tmp <<' (64 - 13)) in let b2 := b2 -' b1 in (Locals8 b0 b1 b2 b3 b4 b5 b6 b7));
  (* inverse of round 68 *)
  (fun '(Locals8 b0 b1 b2 b3 b4 b5 b6 b7) => let tmp := b7 ^' b6 in let b7 := (tmp >>' 24) |' (tmp <<' (64 - 24)) in let b6 := b6 -' (b7 +' k5 +' t0) in let b7 := b7 -' (k6 +' 17) in (Locals8 b0 b1 b2 b3 b4 b5 b6 b7));
  (fun '(Locals8 b0 b1 b2 b3 b4 b5 b6 b7) => let tmp := b5 ^' b4 in let b5 := (tmp >>' 34) |' (tmp <<' (64 - 34)) in let b4 := b4 -' (b5 +' k3) in let b5 := b5 -' (k4 +' t2) in (Locals8 b0 b1 b2 b3 b4 b5 b6 b7));
  (fun '(Locals8 b0 b1 b2 b3 b4 b5 b6 b7) => let tmp := b3 ^' b2 in let b3 := (tmp >>' 30) |' (tmp <<' (64 - 30)) in let b2 := b2 -' (b3 +' k1) in let b3 := b3 -' k2 in (Locals8 b0 b1 b2 b3 b4 b5 b6 b7));
  (fun '(Locals8 b0 b1 b2 b3 b4 b5 b6 b7) => let tmp := b1 ^' b0 in let b1 := (tmp >>' 39) |' (tmp <<' (64 - 39)) in let b0 := b0 -' (b1 +' k8) in let b1 := b1 -' k0 in (Locals8 b0 b1 b2 b3 b4 b5 b6 b7));
  (* inverse of round 67 *)
  (fun '(Locals8 b0 b1 b2 b3 b4 b5 b6 b7) => let tmp := b3 ^' b4 in let b3 := (tmp >>' 56) |' (tmp <<' (64 - 56)) in let b4 := b4 -' b3 in (Locals8 b0 b1 b2 b3 b4 b5 b6 b7));
  (fun '(Locals8 b0 b1 b2 b3 b4 b5 b6 b7) => let tmp := b5 ^' b2 in let b5 := (tmp >>' 54) |' (tmp <<' (64 - 54)) in let b2 := b2 -' b5 in (Locals8 b0 b1 b2 b3 b4 b5 b6 b7));
  (fun '(Locals8 b0 b1 b2 b3 b4 b5 b6 b7) => let tmp := b7 ^' b0 in let b7 := (tmp >>' 9) |' (tmp <<' (64 - 9)) in let b0 := b0 -' b7 in (Locals8 b0 b1 b2 b3 b4 b5 b6 b7));
  (fun '(Locals8 b0 b1 b2 b3 b4 b5 b6 b7) => let tmp := b1 ^' b6 in let b1 := (tmp >>' 44) |' (tmp <<' (64 - 44)) in let b6 := b6 -' b1 in (Locals8 b0 b1 b2 b3 b4 b5 b6 b7));
  (* inverse of round 66 *)
  (fun '(Locals8 b0 b1 b2 b3 b4 b5 b6 b7) => let tmp := b7 ^' b2 in let b7 := (tmp >>' 39) |' (tmp <<' (64 - 39)) in let b2 := b2 -' b7 in (Locals8 b0 b1 b2 b3 b4 b5 b6 b7));
  (fun '(Locals8 b0 b1 b2 b3 b4 b5 b6 b7) => let tmp := b5 ^' b0 in let b5 := (tmp >>' 36) |' (tmp <<' (64 - 36)) in let b0 := b0 -' b5 in (Locals8 b0 b1 b2 b3 b4 b5 b6 b7));
  (fun '(Locals8 b0 b1 b2 b3 b4 b5 b6 b7) => let tmp := b3 ^' b6 in let b3 := (tmp >>' 49) |' (tmp <<' (64 - 49)) in let b6 := b6 -' b3 in (Locals8 b0 b1 b2 b3 b4 b5 b6 b7));
  (fun '(Locals8 b0 b1 b2 b3 b4 b5 b6 b7) => let tmp := b1 ^' b4 in let b1 := (tmp >>' 17) |' (tmp <<' (64 - 17)) in let b4 := b4 -' b1 in (Locals8 b0 b1 b2 b3 b4 b5 b6 b7));
  (* inverse of round 65 *)
  (fun '(Locals8 b0 b1 b2 b3 b4 b5 b6 b7) => let tmp := b3 ^' b0 in let b3 := (tmp >>' 42) |' (tmp <<' (64 - 42)) in let b0 := b0 -' b3 in (Locals8 b0 b1 b2 b3 b4 b5 b6 b7));
  (fun '(Locals8 b0 b1 b2 b3 b4 b5 b6 b7) => let tmp := b5 ^' b6 in let b5 := (tmp >>' 14) |' (tmp <<' (64 - 14)) in let b6 := b6 -' b5 in (Locals8 b0 b1 b2 b3 b4 b5 b6 b7));
  (fun '(Locals8 b0 b1 b2 b3 b4 b5 b6 b7) => let tmp := b7 ^' b4 in let b7 := (tmp >>' 27) |' (tmp <<' (64 - 27)) in let b4 := b4 -' b7 in (Locals8 b0 b1 b2 b3 b4 b5 b6 b7));
  (fun '(Locals8 b0 b1 b2 b3 b4 b5 b6 b7) => let tmp := b1 ^' b2 in let b1 := (tmp >>' 33) |' (tmp <<' (64 - 33)) in let b2 := b2 -' b1 in (Locals8 b0 b1 b2 b3 b4 b5 b6 b7));
  (* inverse of round 64 *)
  (fun '(Locals8 b0 b1 b2 b3 b4 b5 b6 b7) => let tmp := b7 ^' b6 in let b7 := (tmp >>' 37) |' (tmp <<' (64 - 37)) in let b6 := b6 -' (b7 +' k4 +' t2) in let b7 := b7 -' (k5 +' 16) in (Locals8 b0 b1 b2 b3 b4 b5 b6 b7));
  (fun '(Locals8 b0 b1 b2 b3 b4 b5 b6 b7) => let tmp := b5 ^' b4 in let b5 := (tmp >>' 19) |' (tmp <<' (64 - 19)) in let b4 := b4 -' (b5 +' k2) in let b5 := b5 -' (k3 +' t1) in (Locals8 b0 b1 b2 b3 b4 b5 b6 b7));
  (fun '(Locals8 b0 b1 b2 b3 b4 b5 b6 b7) => let tmp := b3 ^' b2 in let b3 := (tmp >>' 36) |' (tmp <<' (64 - 36)) in let b2 := b2 -' (b3 +' k0) in let b3 := b3 -' k1 in (Locals8 b0 b1 b2 b3 b4 b5 b6 b7));
  (fun '(Locals8 b0 b1 b2 b3 b4 b5 b6 b7) => let tmp := b1 ^' b0 in let b1 := (tmp >>' 46) |' (tmp <<' (64 - 46)) in let b0 := b0 -' (b1 +' k7) in let b1 := b1 -' k8 in (Locals8 b0 b1 b2 b3 b4 b5 b6 b7));
  (* inverse of round 63 *)
  (fun '(Locals8 b0 b1 b2 b3 b4 b5 b6 b7) => let tmp := b3 ^' b4 in let b3 := (tmp >>' 22) |' (tmp <<' (64 - 22)) in let b4 := b4 -' b3 in (Locals8 b0 b1 b2 b3 b4 b5 b6 b7));
  (fun '(Locals8 b0 b1 b2 b3 b4 b5 b6 b7) => let tmp := b5 ^' b2 in let b5 := (tmp >>' 56) |' (tmp <<' (64 - 56)) in let b2 := b2 -' b5 in (Locals8 b0 b1 b2 b3 b4 b5 b6 b7));
  (fun '(Locals8 b0 b1 b2 b3 b4 b5 b6 b7) => let tmp := b7 ^' b0 in let b7 := (tmp >>' 35) |' (tmp <<' (64 - 35)) in let b0 := b0 -' b7 in (Locals8 b0 b1 b2 b3 b4 b5 b6 b7));
  (fun '(Locals8 b0 b1 b2 b3 b4 b5 b6 b7) => let tmp := b1 ^' b6 in let b1 := (tmp >>' 8) |' (tmp <<' (64 - 8)) in let b6 := b6 -' b1 in (Locals8 b0 b1 b2 b3 b4 b5 b6 b7));
  (* inverse of round 62 *)
  (fun '(Locals8 b0 b1 b2 b3 b4 b5 b6 b7) => let tmp := b7 ^' b2 in let b7 := (tmp >>' 43) |' (tmp <<' (64 - 43)) in let b2 := b2 -' b7 in (Locals8 b0 b1 b2 b3 b4 b5 b6 b7));
  (fun '(Locals8 b0 b1 b2 b3 b4 b5 b6 b7) => let tmp := b5 ^' b0 in let b5 := (tmp >>' 39) |' (tmp <<' (64 - 39)) in let b0 := b0 -' b5 in (Locals8 b0 b1 b2 b3 b4 b5 b6 b7));
  (fun '(Locals8 b0 b1 b2 b3 b4 b5 b6 b7) => let tmp := b3 ^' b6 in let b3 := (tmp >>' 29) |' (tmp <<' (64 - 29)) in let b6 := b6 -' b3 in (Locals8 b0 b1 b2 b3 b4 b5 b6 b7));
  (fun '(Locals8 b0 b1 b2 b3 b4 b5 b6 b7) => let tmp := b1 ^' b4 in let b1 := (tmp >>' 25) |' (tmp <<' (64 - 25)) in let b4 := b4 -' b1 in (Locals8 b0 b1 b2 b3 b4 b5 b6 b7));
  (* inverse of round 61 *)
  (fun '(Locals8 b0 b1 b2 b3 b4 b5 b6 b7) => let tmp := b3 ^' b0 in let b3 := (tmp >>' 17) |' (tmp <<' (64 - 17)) in let b0 := b0 -' b3 in (Locals8 b0 b1 b2 b3 b4 b5 b6 b7));
  (fun '(Locals8 b0 b1 b2 b3 b4 b5 b6 b7) => let tmp := b5 ^' b6 in let b5 := (tmp >>' 10) |' (tmp <<' (64 - 10)) in let b6 := b6 -' b5 in (Locals8 b0 b1 b2 b3 b4 b5 b6 b7));
  (fun '(Locals8 b0 b1 b2 b3 b4 b5 b6 b7) => let tmp := b7 ^' b4 in let b7 := (tmp >>' 50) |' (tmp <<' (64 - 50)) in let b4 := b4 -' b7 in (Locals8 b0 b1 b2 b3 b4 b5 b6 b7));
  (fun '(Locals8 b0 b1 b2 b3 b4 b5 b6 b7) => let tmp := b1 ^' b2 in let b1 := (tmp >>' 13) |' (tmp <<' (64 - 13)) in let b2 := b2 -' b1 in (Locals8 b0 b1 b2 b3 b4 b5 b6 b7));
  (* inverse of round 60 *)
  (fun '(Locals8 b0 b1 b2 b3 b4 b5 b6 b7) => let tmp := b7 ^' b6 in let b7 := (tmp >>' 24) |' (tmp <<' (64 - 24)) in let b6 := b6 -' (b7 +' k3 +' t1) in let b7 := b7 -' (k4 +' 15) in (Locals8 b0 b1 b2 b3 b4 b5 b6 b7));
  (fun '(Locals8 b0 b1 b2 b3 b4 b5 b6 b7) => let tmp := b5 ^' b4 in let b5 := (tmp >>' 34) |' (tmp <<' (64 - 34)) in let b4 := b4 -' (b5 +' k1) in let b5 := b5 -' (k2 +' t0) in (Locals8 b0 b1 b2 b3 b4 b5 b6 b7));
  (fun '(Locals8 b0 b1 b2 b3 b4 b5 b6 b7) => let tmp := b3 ^' b2 in let b3 := (tmp >>' 30) |' (tmp <<' (64 - 30)) in let b2 := b2 -' (b3 +' k8) in let b3 := b3 -' k0 in (Locals8 b0 b1 b2 b3 b4 b5 b6 b7));
  (fun '(Locals8 b0 b1 b2 b3 b4 b5 b6 b7) => let tmp := b1 ^' b0 in let b1 := (tmp >>' 39) |' (tmp <<' (64 - 39)) in let b0 := b0 -' (b1 +' k6) in let b1 := b1 -' k7 in (Locals8 b0 b1 b2 b3 b4 b5 b6 b7));
  (* inverse of round 59 *)
  (fun '(Locals8 b0 b1 b2 b3 b4 b5 b6 b7) => let tmp := b3 ^' b4 in let b3 := (tmp >>' 56) |' (tmp <<' (64 - 56)) in let b4 := b4 -' b3 in (Locals8 b0 b1 b2 b3 b4 b5 b6 b7));
  (fun '(Locals8 b0 b1 b2 b3 b4 b5 b6 b7) => let tmp := b5 ^' b2 in let b5 := (tmp >>' 54) |' (tmp <<' (64 - 54)) in let b2 := b2 -' b5 in (Locals8 b0 b1 b2 b3 b4 b5 b6 b7));
  (fun '(Locals8 b0 b1 b2 b3 b4 b5 b6 b7) => let tmp := b7 ^' b0 in let b7 := (tmp >>' 9) |' (tmp <<' (64 - 9)) in let b0 := b0 -' b7 in (Locals8 b0 b1 b2 b3 b4 b5 b6 b7));
  (fun '(Locals8 b0 b1 b2 b3 b4 b5 b6 b7) => let tmp := b1 ^' b6 in let b1 := (tmp >>' 44) |' (tmp <<' (64 - 44)) in let b6 := b6 -' b1 in (Locals8 b0 b1 b2 b3 b4 b5 b6 b7));
  (* inverse of round 58 *)
  (fun '(Locals8 b0 b1 b2 b3 b4 b5 b6 b7) => let tmp := b7 ^' b2 in let b7 := (tmp >>' 39) |' (tmp <<' (64 - 39)) in let b2 := b2 -' b7 in (Locals8 b0 b1 b2 b3 b4 b5 b6 b7));
  (fun '(Locals8 b0 b1 b2 b3 b4 b5 b6 b7) => let tmp := b5 ^' b0 in let b5 := (tmp >>' 36) |' (tmp <<' (64 - 36)) in let b0 := b0 -' b5 in (Locals8 b0 b1 b2 b3 b4 b5 b6 b7));
  (fun '(Locals8 b0 b1 b2 b3 b4 b5 b6 b7) => let tmp := b3 ^' b6 in let b3 := (tmp >>' 49) |' (tmp <<' (64 - 49)) in let b6 := b6 -' b3 in (Locals8 b0 b1 b2 b3 b4 b5 b6 b7));
  (fun '(Locals8 b0 b1 b2 b3 b4 b5 b6 b7) => let tmp := b1 ^' b4 in let b1 := (tmp >>' 17) |' (tmp <<' (64 - 17)) in let b4 := b4 -' b1 in (Locals8 b0 b1 b2 b3 b4 b5 b6 b7));
  (* inverse of round 57 *)
  (fun '(Locals8 b0 b1 b2 b3 b4 b5 b6 b7) => let tmp := b3 ^' b0 in let b3 := (tmp >>' 42) |' (tmp <<' (64 - 42)) in let b0 := b0 -' b3 in (Locals8 b0 b1 b2 b3 b4 b5 b6 b7));
  (fun '(Locals8 b0 b1 b2 b3 b4 b5 b6 b7) => let tmp := b5 ^' b6 in let b5 := (tmp >>' 14) |' (tmp <<' (64 - 14)) in let b6 := b6 -' b5 in (Locals8 b0 b1 b2 b3 b4 b5 b6 b7));
  (fun '(Locals8 b0 b1 b2 b3 b4 b5 b6 b7) => let tmp := b7 ^' b4 in let b7 := (tmp >>' 27) |' (tmp <<' (64 - 27)) in let b4 := b4 -' b7 in (Locals8 b0 b1 b2 b3 b4 b5 b6 b7));
  (fun '(Locals8 b0 b1 b2 b3 b4 b5 b6 b7) => let tmp := b1 ^' b2 in let b1 := (tmp >>' 33) |' (tmp <<' (64 - 33)) in let b2 := b2 -' b1 in (Locals8 b0 b1 b2 b3 b4 b5 b6 b7));
  (* inverse of round 56 *)
  (fun '(Locals8 b0 b1 b2 b3 b4 b5 b6 b7) => let tmp := b7 ^' b6 in let b7 := (tmp >>' 37) |' (tmp <<' (64 - 37)) in let b6 := b6 -' (b7 +' k2 +' t0) in let b7 := b7 -' (k3 +' 14) in (Locals8 b0 b1 b2 b3 b4 b5 b6 b7));
  (fun '(Locals8 b0 b1 b2 b3 b4 b5 b6 b7) => let tmp := b5 ^' b4 in let b5 := (tmp >>' 19) |' (tmp <<' (64 - 19)) in let b4 := b4 -' (b5 +' k0) in let b5 := b5 -' (k1 +' t2) in (Locals8 b0 b1 b2 b3 b4 b5 b6 b7));
  (fun '(Locals8 b0 b1 b2 b3 b4 b5 b6 b7) => let tmp := b3 ^' b2 in let b3 := (tmp >>' 36) |' (tmp <<' (64 - 36)) in let b2 := b2 -' (b3 +' k7) in let b3 := b3 -' k8 in (Locals8 b0 b1 b2 b3 b4 b5 b6 b7));
  (fun '(Locals8 b0 b1 b2 b3 b4 b5 b6 b7) => let tmp := b1 ^' b0 in let b1 := (tmp >>' 46) |' (tmp <<' (64 - 46)) in let b0 := b0 -' (b1 +' k5) in let b1 := b1 -' k6 in (Locals8 b0 b1 b2 b3 b4 b5 b6 b7));
  (* inverse of round 55 *)
  (fun '(Locals8 b0 b1 b2 b3 b4 b5 b6 b7) => let tmp := b3 ^' b4 in let b3 := (tmp >>' 22) |' (tmp <<' (64 - 22)) in let b4 := b4 -' b3 in (Locals8 b0 b1 b2 b3 b4 b5 b6 b7));
  (fun '(Locals8 b0 b1 b2 b3 b4 b5 b6 b7) => let tmp := b5 ^' b2 in let b5 := (tmp >>' 56) |' (tmp <<' (64 - 56)) in let b2 := b2 -' b5 in (Locals8 b0 b1 b2 b3 b4 b5 b6 b7));
  (fun '(Locals8 b0 b1 b2 b3 b4 b5 b6 b7) => let tmp := b7 ^' b0 in let b7 := (tmp >>' 35) |' (tmp <<' (64 - 35)) in let b0 := b0 -' b7 in (Locals8 b0 b1 b2 b3 b4 b5 b6 b7));
  (fun '(Locals8 b0 b1 b2 b3 b4 b5 b6 b7) => let tmp := b1 ^' b6 in let b1 := (tmp >>' 8) |' (tmp <<' (64 - 8)) in let b6 := b6 -' b1 in (Locals8 b0 b1 b2 b3 b4 b5 b6 b7));
  (* inverse of round 54 *)
  (fun '(Locals8 b0 b1 b2 b3 b4 b5 b6 b7) => let tmp := b7 ^' b2 in let b7 := (tmp >>' 43) |' (tmp <<' (64 - 43)) in let b2 := b2 -' b7 in (Locals8 b0 b1 b2 b3 b4 b5 b6 b7));
  (fun '(Locals8 b0 b1 b2 b3 b4 b5 b6 b7) => let tmp := b5 ^' b0 in let b5 := (tmp >>' 39) |' (tmp <<' (64 - 39)) in let b0 := b0 -' b5 in (Locals8 b0 b1 b2 b3 b4 b5 b6 b7));
  (fun '(Locals8 b0 b1 b2 b3 b4 b5 b6 b7) => let tmp := b3 ^' b6 in let b3 := (tmp >>' 29) |' (tmp <<' (64 - 29)) in let b6 := b6 -' b3 in (Locals8 b0 b1 b2 b3 b4 b5 b6 b7));
  (fun '(Locals8 b0 b1 b2 b3 b4 b5 b6 b7) => let tmp := b1 ^' b4 in let b1 := (tmp >>' 25) |' (tmp <<' (64 - 25)) in let b4 := b4 -' b1 in (Locals8 b0 b1 b2 b3 b4 b5 b6 b7));
  (* inverse of round 53 *)
  (fun '(Locals8 b0 b1 b2 b3 b4 b5 b6 b7) => let tmp := b3 ^' b0 in let b3 := (tmp >>' 17) |' (tmp <<' (64 - 17)) in let b0 := b0 -' b3 in (Locals8 b0 b1 b2 b3 b4 b5 b6 b7));
  (fun '(Locals8 b0 b1 b2 b3 b4 b5 b6 b7) => let tmp := b5 ^' b6 in let b5 := (tmp >>' 10) |' (tmp <<' (64 - 10)) in let b6 := b6 -' b5 in (Locals8 b0 b1 b2 b3 b4 b5 b6 b7));
  (fun '(Locals8 b0 b1 b2 b3 b4 b5 b6 b7) => let tmp := b7 ^' b4 in let b7 := (tmp >>' 50) |' (tmp <<' (64 - 50)) in let b4 := b4 -' b7 in (Locals8 b0 b1 b2 b3 b4 b5 b6 b7));
  (fun '(Locals8 b0 b1 b2 b3 b4 b5 b6 b7) => let tmp := b1 ^' b2 in let b1 := (tmp >>' 13) |' (tmp <<' (64 - 13)) in let b2 := b2 -' b1 in (Locals8 b0 b1 b2 b3 b4 b5 b6 b7));
  (* inverse of round 52 *)
  (fun '(Locals8 b0 b1 b2 b3 b4 b5 b6 b7) => let tmp := b7 ^' b6 in let b7 := (tmp >>' 24) |' (tmp <<' (64 - 24)) in let b6 := b6 -' (b7 +' k1 +' t2) in let b7 := b7 -' (k2 +' 13) in (Locals8 b0 b1 b2 b3 b4 b5 b6 b7));
  (fun '(Locals8 b0 b1 b2 b3 b4 b5 b6 b7) => let tmp := b5 ^' b4 in let b5 := (tmp >>' 34) |' (tmp <<' (64 - 34)) in let b4 := b4 -' (b5 +' k8) in let b5 := b5 -' (k0 +' t1) in (Locals8 b0 b1 b2 b3 b4 b5 b6 b7));
  (fun '(Locals8 b0 b1 b2 b3 b4 b5 b6 b7) => let tmp := b3 ^' b2 in let b3 := (tmp >>' 30) |' (tmp <<' (64 - 30)) in let b2 := b2 -' (b3 +' k6) in let b3 := b3 -' k7 in (Locals8 b0 b1 b2 b3 b4 b5 b6 b7));
  (fun '(Locals8 b0 b1 b2 b3 b4 b5 b6 b7) => let tmp := b1 ^' b0 in let b1 := (tmp >>' 39) |' (tmp <<' (64 - 39)) in let b0 := b0 -' (b1 +' k4) in let b1 := b1 -' k5 in (Locals8 b0 b1 b2 b3 b4 b5 b6 b7));
  (* inverse of round 51 *)
  (fun '(Locals8 b0 b1 b2 b3 b4 b5 b6 b7) => let tmp := b3 ^' b4 in let b3 := (tmp >>' 56) |' (tmp <<' (64 - 56)) in let b4 := b4 -' b3 in (Locals8 b0 b1 b2 b3 b4 b5 b6 b7));
  (fun '(Locals8 b0 b1 b2 b3 b4 b5 b6 b7) => let tmp := b5 ^' b2 in let b5 := (tmp >>' 54) |' (tmp <<' (64 - 54)) in let b2 := b2 -' b5 in (Locals8 b0 b1 b2 b3 b4 b5 b6 b7));
  (fun '(Locals8 b0 b1 b2 b3 b4 b5 b6 b7) => let tmp := b7 ^' b0 in let b7 := (tmp >>' 9) |' (tmp <<' (64 - 9)) in let b0 := b0 -' b7 in (Locals8 b0 b1 b2 b3 b4 b5 b6 b7));
  (fun '(Locals8 b0 b1 b2 b3 b4 b5 b6 b7) => let tmp := b1 ^' b6 in let b1 := (tmp >>' 44) |' (tmp <<' (64 - 44)) in let b6 := b6 -' b1 in (Locals8 b0 b1 b2 b3 b4 b5 b6 b7));
  (* inverse of round 50 *)
  (fun '(Locals8 b0 b1 b2 b3 b4 b5 b6 b7) => let tmp := b7 ^' b2 in let b7 := (tmp >>' 39) |' (tmp <<' (64 - 39)) in let b2 := b2 -' b7 in (Locals8 b0 b1 b2 b3 b4 b5 b6 b7));
  (fun '(Locals8 b0 b1 b2 b3 b4 b5 b6 b7) => let tmp := b5 ^' b0 in let b5 := (tmp >>' 36) |' (tmp <<' (64 - 36)) in let b0 := b0 -' b5 in (Locals8 b0 b1 b2 b3 b4 b5 b6 b7));
  (fun '(Locals8 b0 b1 b2 b3 b4 b5 b6 b7) => let tmp := b3 ^' b6 in let b3 := (tmp >>' 49) |' (tmp <<' (64 - 49)) in let b6 := b6 -' b3 in (Locals8 b0 b1 b2 b3 b4 b5 b6 b7));
  (fun '(Locals8 b0 b1 b2 b3 b4 b5 b6 b7) => let tmp := b1 ^' b4 in let b1 := (tmp >>' 17) |' (tmp <<' (64 - 17)) in let b4 := b4 -' b1 in (Locals8 b0 b1 b2 b3 b4 b5 b6 b7));
  (* inverse of round 49 *)
  (fun '(Locals8 b0 b1 b2 b3 b4 b5 b6 b7) => let tmp := b3 ^' b0 in let b3 := (tmp >>' 42) |' (tmp <<' (64 - 42)) in let b0 := b0 -' b3 in (Locals8 b0 b1 b2 b3 b4 b5 b6 b7));
  (fun '(Locals8 b0 b1 b2 b3 b4 b5 b6 b7) => let tmp := b5 ^' b6 in let b5 := (tmp >>' 14) |' (tmp <<' (64 - 14)) in let b6 := b6 -' b5 in (Locals8 b0 b1 b2 b3 b4 b5 b6 b7));
  (fun '(Locals8 b0 b1 b2 b3 b4 b5 b6 b7) => let tmp := b7 ^' b4 in let b7 := (tmp >>' 27) |' (tmp <<' (64 - 27)) in let b4 := b4 -' b7 in (Locals8 b0 b1 b2 b3 b4 b5 b6 b7));
  (fun '(Locals8 b0 b1 b2 b3 b4 b5 b6 b7) => let tmp := b1 ^' b2 in let b1 := (tmp >>' 33) |' (tmp <<' (64 - 33)) in let b2 := b2 -' b1 in (Locals8 b0 b1 b2 b3 b4 b5 b6 b7));
  (* inverse of round 48 *)
  (fun '(Locals8 b0 b1 b2 b3 b4 b5 b6 b7) => let tmp := b7 ^' b6 in let b7 := (tmp >>' 37) |' (tmp <<' (64 - 37)) in let b6 := b6 -' (b7 +' k0 +' t1) in let b7 := b7 -' (k1 +' 12) in (Locals8 b0 b1 b2 b3 b4 b5 b6 b7));
  (fun '(Locals8 b0 b1 b2 b3 b4 b5 b6 b7) => let tmp := b5 ^' b4 in let b5 := (tmp >>' 19) |' (tmp <<' (64 - 19)) in let b4 := b4 -' (b5 +' k7) in let b5 := b5 -' (k8 +' t0) in (Locals8 b0 b1 b2 b3 b4 b5 b6 b7));
  (fun '(Locals8 b0 b1 b2 b3 b4 b5 b6 b7) => let tmp := b3 ^' b2 in let b3 := (tmp >>' 36) |' (tmp <<' (64 - 36)) in let b2 := b2 -' (b3 +' k5) in let b3 := b3 -' k6 in (Locals8 b0 b1 b2 b3 b4 b5 b6 b7));
  (fun '(Locals8 b0 b1 b2 b3 b4 b5 b6 b7) => let tmp := b1 ^' b0 in let b1 := (tmp >>' 46) |' (tmp <<' (64 - 46)) in let b0 := b0 -' (b1 +' k3) in let b1 := b1 -' k4 in (Locals8 b0 b1 b2 b3 b4 b5 b6 b7));
  (* inverse of round 47 *)
  (fun '(Locals8 b0 b1 b2 b3 b4 b5 b6 b7) => let tmp := b3 ^' b4 in let b3 := (tmp >>' 22) |' (tmp <<' (64 - 22)) in let b4 := b4 -' b3 in (Locals8 b0 b1 b2 b3 b4 b5 b6 b7));
  (fun '(Locals8 b0 b1 b2 b3 b4 b5 b6 b7) => let tmp := b5 ^' b2 in let b5 := (tmp >>' 56) |' (tmp <<' (64 - 56)) in let b2 := b2 -' b5 in (Locals8 b0 b1 b2 b3 b4 b5 b6 b7));
  (fun '(Locals8 b0 b1 b2 b3 b4 b5 b6 b7) => let tmp := b7 ^' b0 in let b7 := (tmp >>' 35) |' (tmp <<' (64 - 35)) in let b0 := b0 -' b7 in (Locals8 b0 b1 b2 b3 b4 b5 b6 b7));
  (fun '(Locals8 b0 b1 b2 b3 b4 b5 b6 b7) => let tmp := b1 ^' b6 in let b1 := (tmp >>' 8) |' (tmp <<' (64 - 8)) in let b6 := b6 -' b1 in (Locals8 b0 b1 b2 b3 b4 b5 b6 b7));
  (* inverse of round 46 *)
  (fun '(Locals8 b0 b1 b2 b3 b4 b5 b6 b7) => let tmp := b7 ^' b2 in let b7 := (tmp >>' 43) |' (tmp <<' (64 - 43)) in let b2 := b2 -' b7 in (Locals8 b0 b1 b2 b3 b4 b5 b6 b7));
  (fun '(Locals8 b0 b1 b2 b3 b4 b5 b6 b7) => let tmp := b5 ^' b0 in let b5 := (tmp >>' 39) |' (tmp <<' (64 - 39)) in let b0 := b0 -' b5 in (Locals8 b0 b1 b2 b3 b4 b5 b6 b7));
  (fun '(Locals8 b0 b1 b2 b3 b4 b5 b6 b7) => let tmp := b3 ^' b6 in let b3 := (tmp >>' 29) |' (tmp <<' (64 - 29)) in let b6 := b6 -' b3 in (Locals8 b0 b1 b2 b3 b4 b5 b6 b7));
  (fun '(Locals8 b0 b1 b2 b3 b4 b5 b6 b7) => let tmp := b1 ^' b4 in let b1 := (tmp >>' 25) |' (tmp <<' (64 - 25)) in let b4 := b4 -' b1 in (Locals8 b0 b1 b2 b3 b4 b5 b6 b7));
  (* inverse of round 45 *)
  (fun '(Locals8 b0 b1 b2 b3 b4 b5 b6 b7) => let tmp := b3 ^' b0 in let b3 := (tmp >>' 17) |' (tmp <<' (64 - 17)) in let b0 := b0 -' b3 in (Locals8 b0 b1 b2 b3 b4 b5 b6 b7));
  (fun '(Locals8 b0 b1 b2 b3 b4 b5 b6 b7) => let tmp := b5 ^' b6 in let b5 := (tmp >>' 10) |' (tmp <<' (64 - 10)) in let b6 := b6 -' b5 in (Locals8 b0 b1 b2 b3 b4 b5 b6 b7));
  (fun '(Locals8 b0 b1 b2 b3 b4 b5 b6 b7) => let tmp := b7 ^' b4 in let b7 := (tmp >>' 50) |' (tmp <<' (64 - 50)) in let b4 := b4 -' b7 in (Locals8 b0 b1 b2 b3 b4 b5 b6 b7));
  (fun '(Locals8 b0 b1 b2 b3 b4 b5 b6 b7) => let tmp := b1 ^' b2 in let b1 := (tmp >>' 13) |' (tmp <<' (64 - 13)) in let b2 := b2 -' b1 in (Locals8 b0 b1 b2 b3 b4 b5 b6 b7));
  (* inverse of round 44 *)
  (fun '(Locals8 b0 b1 b2 b3 b4 b5 b6 b7) => let tmp := b7 ^' b6 in let b7 := (tmp >>' 24) |' (tmp <<' (64 - 24)) in let b6 := b6 -' (b7 +' k8 +' t0) in let b7 := b7 -' (k0 +' 11) in (Locals8 b0 b1 b2 b3 b4 b5 b6 b7));
  (fun '(Locals8 b0 b1 b2 b3 b4 b5 b6 b7) => let tmp := b5 ^' b4 in let b5 := (tmp >>' 34) |' (tmp <<' (64 - 34)) in let b4 := b4 -' (b5 +' k6) in let b5 := b5 -' (k7 +' t2) in (Locals8 b0 b1 b2 b3 b4 b5 b6 b7));
  (fun '(Locals8 b0 b1 b2 b3 b4 b5 b6 b7) => let tmp := b3 ^' b2 in let b3 := (tmp >>' 30) |' (tmp <<' (64 - 30)) in let b2 := b2 -' (b3 +' k4) in let b3 := b3 -' k5 in (Locals8 b0 b1 b2 b3 b4 b5 b6 b7));
  (fun '(Locals8 b0 b1 b2 b3 b4 b5 b6 b7) => let tmp := b1 ^' b0 in let b1 := (tmp >>' 39) |' (tmp <<' (64 - 39)) in let b0 := b0 -' (b1 +' k2) in let b1 := b1 -' k3 in (Locals8 b0 b1 b2 b3 b4 b5 b6 b7));
  (* inverse of round 43 *)
  (fun '(Locals8 b0 b1 b2 b3 b4 b5 b6 b7) => let tmp := b3 ^' b4 in let b3 := (tmp >>' 56) |' (tmp <<' (64 - 56)) in let b4 := b4 -' b3 in (Locals8 b0 b1 b2 b3 b4 b5 b6 b7));
  (fun '(Locals8 b0 b1 b2 b3 b4 b5 b6 b7) => let tmp := b5 ^' b2 in let b5 := (tmp >>' 54) |' (tmp <<' (64 - 54)) in let b2 := b2 -' b5 in (Locals8 b0 b1 b2 b3 b4 b5 b6 b7));
  (fun '(Locals8 b0 b1 b2 b3 b4 b5 b6 b7) => let tmp := b7 ^' b0 in let b7 := (tmp >>' 9) |' (tmp <<' (64 - 9)) in let b0 := b0 -' b7 in (Locals8 b0 b1 b2 b3 b4 b5 b6 b7));
  (fun '(Locals8 b0 b1 b2 b3 b4 b5 b6 b7) => let tmp := b1 ^' b6 in let b1 := (tmp >>' 44) |' (tmp <<' (64 - 44)) in let b6 := b6 -' b1 in (Locals8 b0 b1 b2 b3 b4 b5 b6 b7));
  (* inverse of round 42 *)
  (fun '(Locals8 b0 b1 b2 b3 b4 b5 b6 b7) => let tmp := b7 ^' b2 in let b7 := (tmp >>' 39) |' (tmp <<' (64 - 39)) in let b2 := b2 -' b7 in (Locals8 b0 b1 b2 b3 b4 b5 b6 b7));
  (fun '(Locals8 b0 b1 b2 b3 b4 b5 b6 b7) => let tmp := b5 ^' b0 in let b5 := (tmp >>' 36) |' (tmp <<' (64 - 36)) in let b0 := b0 -' b5 in (Locals8 b0 b1 b2 b3 b4 b5 b6 b7));
  (fun '(Locals8 b0 b1 b2 b3 b4 b5 b6 b7) => let tmp := b3 ^' b6 in let b3 := (tmp >>' 49) |' (tmp <<' (64 - 49)) in let b6 := b6 -' b3 in (Locals8 b0 b1 b2 b3 b4 b5 b6 b7));
  (fun '(Locals8 b0 b1 b2 b3 b4 b5 b6 b7) => let tmp := b1 ^' b4 in let b1 := (tmp >>' 17) |' (tmp <<' (64 - 17)) in let b4 := b4 -' b1 in (Locals8 b0 b1 b2 b3 b4 b5 b6 b7));
  (* inverse of round 41 *)
  (fun '(Locals8 b0 b1 b2 b3 b4 b5 b6 b7) => let tmp := b3 ^' b0 in let b3 := (tmp >>' 42) |' (tmp <<' (64 - 42)) in let b0 := b0 -' b3 in (Locals8 b0 b1 b2 b3 b4 b5 b6 b7));
  (fun '(Locals8 b0 b1 b2 b3 b4 b5 b6 b7) => let tmp := b5 ^' b6 in let b5 := (tmp >>' 14) |' (tmp <<' (64 - 14)) in let b6 := b6 -' b5 in (Locals8 b0 b1 b2 b3 b4 b5 b6 b7));
  (fun '(Locals8 b0 b1 b2 b3 b4 b5 b6 b7) => let tmp := b7 ^' b4 in let b7 := (tmp >>' 27) |' (tmp <<' (64 - 27)) in let b4 := b4 -' b7 in (Locals8 b0 b1 b2 b3 b4 b5 b6 b7));
  (fun '(Locals8 b0 b1 b2 b3 b4 b5 b6 b7) => let tmp := b1 ^' b2 in let b1 := (tmp >>' 33) |' (tmp <<' (64 - 33)) in let b2 := b2 -' b1 in (Locals8 b0 b1 b2 b3 b4 b5 b6 b7));
  (* inverse of round 40 *)
  (fun '(Locals8 b0 b1 b2 b3 b4 b5 b6 b7) => let tmp := b7 ^' b6 in let b7 := (tmp >>' 37) |' (tmp <<' (64 - 37)) in let b6 := b6 -' (b7 +' k7 +' t2) in let b7 := b7 -' (k8 +' 10) in (Locals8 b0 b1 b2 b3 b4 b5 b6 b7));
  (fun '(Locals8 b0 b1 b2 b3 b4 b5 b6 b7) => let tmp := b5 ^' b4 in let b5 := (tmp >>' 19) |' (tmp <<' (64 - 19)) in let b4 := b4 -' (b5 +' k5) in let b5 := b5 -' (k6 +' t1) in (Locals8 b0 b1 b2 b3 b4 b5 b6 b7));
  (fun '(Locals8 b0 b1 b2 b3 b4 b5 b6 b7) => let tmp := b3 ^' b2 in let b3 := (tmp >>' 36) |' (tmp <<' (64 - 36)) in let b2 := b2 -' (b3 +' k3) in let b3 := b3 -' k4 in (Locals8 b0 b1 b2 b3 b4 b5 b6 b7));
  (fun '(Locals8 b0 b1 b2 b3 b4 b5 b6 b7) => let tmp := b1 ^' b0 in let b1 := (tmp >>' 46) |' (tmp <<' (64 - 46)) in let b0 := b0 -' (b1 +' k1) in let b1 := b1 -' k2 in (Locals8 b0 b1 b2 b3 b4 b5 b6 b7));
  (* inverse of round 39 *)
  (fun '(Locals8 b0 b1 b2 b3 b4 b5 b6 b7) => let tmp := b3 ^' b4 in let b3 := (tmp >>' 22) |' (tmp <<' (64 - 22)) in let b4 := b4 -' b3 in (Locals8 b0 b1 b2 b3 b4 b5 b6 b7));
  (fun '(Locals8 b0 b1 b2 b3 b4 b5 b6 b7) => let tmp := b5 ^' b2 in let b5 := (tmp >>' 56) |' (tmp <<' (64 - 56)) in let b2 := b2 -' b5 in (Locals8 b0 b1 b2 b3 b4 b5 b6 b7));
  (fun '(Locals8 b0 b1 b2 b3 b4 b5 b6 b7) => let tmp := b7 ^' b0 in let b7 := (tmp >>' 35) |' (tmp <<' (64 - 35)) in let b0 := b0 -' b7 in (Locals8 b0 b1 b2 b3 b4 b5 b6 b7));
  (fun '(Locals8 b0 b1 b2 b3 b4 b5 b6 b7) => let tmp := b1 ^' b6 in let b1 := (tmp >>' 8) |' (tmp <<' (64 - 8)) in let b6 := b6 -' b1 in (Locals8 b0 b1 b2 b3 b4 b5 b6 b7));
  (* inverse of round 38 *)
  (fun '(Locals8 b0 b1 b2 b3 b4 b5 b6 b7) => let tmp := b7 ^' b2 in let b7 := (tmp >>' 43) |' (tmp <<' (64 - 43)) in let b2 := b2 -' b7 in (Locals8 b0 b1 b2 b3 b4 b5 b6 b7));
  (fun '(Locals8 b0 b1 b2 b3 b4 b5 b6 b7) => let tmp := b5 ^' b0 in let b5 := (tmp >>' 39) |' (tmp <<' (64 - 39)) in let b0 := b0 -' b5 in (Locals8 b0 b1 b2 b3 b4 b5 b6 b7));
  (fun '(Locals8 b0 b1 b2 b3 b4 b5 b6 b7) => let tmp := b3 ^' b6 in let b3 := (tmp >>' 29) |' (tmp <<' (64 - 29)) in let b6 := b6 -' b3 in (Locals8 b0 b1 b2 b3 b4 b5 b6 b7));
  (fun '(Locals8 b0 b1 b2 b3 b4 b5 b6 b7) => let tmp := b1 ^' b4 in let b1 := (tmp >>' 25) |' (tmp <<' (64 - 25)) in let b4 := b4 -' b1 in (Locals8 b0 b1 b2 b3 b4 b5 b6 b7));
  (* inverse of round 37 *)
  (fun '(Locals8 b0 b1 b2 b3 b4 b5 b6 b7) => let tmp := b3 ^' b0 in let b3 := (tmp >>' 17) |' (tmp <<' (64 - 17)) in let b0 := b0 -' b3 in (Locals8 b0 b1 b2 b3 b4 b5 b6 b7));
  (fun '(Locals8 b0 b1 b2 b3 b4 b5 b6 b7) => let tmp := b5 ^' b6 in let b5 := (tmp >>' 10) |' (tmp <<' (64 - 10)) in let b6 := b6 -' b5 in (Locals8 b0 b1 b2 b3 b4 b5 b6 b7));
  (fun '(Locals8 b0 b1 b2 b3 b4 b5 b6 b7) => let tmp := b7 ^' b4 in let b7 := (tmp >>' 50) |' (tmp <<' (64 - 50)) in let b4 := b4 -' b7 in (Locals8 b0 b1 b2 b3 b4 b5 b6 b7));
  (fun '(Locals8 b0 b1 b2 b3 b4 b5 b6 b7) => let tmp := b1 ^' b2 in let b1 := (tmp >>' 13) |' (tmp <<' (64 - 13)) in let b2 := b2 -' b1 in (Locals8 b0 b1 b2 b3 b4 b5 b6 b7));
  (* inverse of round 36 *)
  (fun '(Locals8 b0 b1 b2 b3 b4 b5 b6 b7) => let tmp := b7 ^' b6 in let b7 := (tmp >>' 24) |' (tmp <<' (64 - 24)) in let b6 := b6 -' (b7 +' k6 +' t1) in let b7 := b7 -' (k7 +' 9) in (Locals8 b0 b1 b2 b3 b4 b5 b6 b7));
  (fun '(Locals8 b0 b1 b2 b3 b4 b5 b6 b7) => let tmp := b5 ^' b4 in let b5 := (tmp >>' 34) |' (tmp <<' (64 - 34)) in let b4 := b4 -' (b5 +' k4) in let b5 := b5 -' (k5 +' t0) in (Locals8 b0 b1 b2 b3 b4 b5 b6 b7));
  (fun '(Locals8 b0 b1 b2 b3 b4 b5 b6 b7) => let tmp := b3 ^' b2 in let b3 := (tmp >>' 30) |' (tmp <<' (64 - 30)) in let b2 := b2 -' (b3 +' k2) in let b3 := b3 -' k3 in (Locals8 b0 b1 b2 b3 b4 b5 b6 b7));
  (fun '(Locals8 b0 b1 b2 b3 b4 b5 b6 b7) => let tmp := b1 ^' b0 in let b1 := (tmp >>' 39) |' (tmp <<' (64 - 39)) in let b0 := b0 -' (b1 +' k0) in let b1 := b1 -' k1 in (Locals8 b0 b1 b2 b3 b4 b5 b6 b7));
  (* inverse of round 35 *)
  (fun '(Locals8 b0 b1 b2 b3 b4 b5 b6 b7) => let tmp := b3 ^' b4 in let b3 := (tmp >>' 56) |' (tmp <<' (64 - 56)) in let b4 := b4 -' b3 in (Locals8 b0 b1 b2 b3 b4 b5 b6 b7));
  (fun '(Locals8 b0 b1 b2 b3 b4 b5 b6 b7) => let tmp := b5 ^' b2 in let b5 := (tmp >>' 54) |' (tmp <<' (64 - 54)) in let b2 := b2 -' b5 in (Locals8 b0 b1 b2 b3 b4 b5 b6 b7));
  (fun '(Locals8 b0 b1 b2 b3 b4 b5 b6 b7) => let tmp := b7 ^' b0 in let b7 := (tmp >>' 9) |' (tmp <<' (64 - 9)) in let b0 := b0 -' b7 in (Locals8 b0 b1 b2 b3 b4 b5 b6 b7));
  (fun '(Locals8 b0 b1 b2 b3 b4 b5 b6 b7) => let tmp := b1 ^' b6 in let b1 := (tmp >>' 44) |' (tmp <<' (64 - 44)) in let b6 := b6 -' b1 in (Locals8 b0 b1 b2 b3 b4 b5 b6 b7));
  (* inverse of round 34 *)
  (fun '(Locals8 b0 b1 b2 b3 b4 b5 b6 b7) => let tmp := b7 ^' b2 in let b7 := (tmp >>' 39) |' (tmp <<' (64 - 39)) in let b2 := b2 -' b7 in (Locals8 b0 b1 b2 b3 b4 b5 b6 b7));
  (fun '(Locals8 b0 b1 b2 b3 b4 b5 b6 b7) => let tmp := b5 ^' b0 in let b5 := (tmp >>' 36) |' (tmp <<' (64 - 36)) in let b0 := b0 -' b5 in (Locals8 b0 b1 b2 b3 b4 b5 b6 b7));
  (fun '(Locals8 b0 b1 b2 b3 b4 b5 b6 b7) => let tmp := b3 ^' b6 in let b3 := (tmp >>' 49) |' (tmp <<' (64 - 49)) in let b6 := b6 -' b3 in (Locals8 b0 b1 b2 b3 b4 b5 b6 b7));
  (fun '(Locals8 b0 b1 b2 b3 b4 b5 b6 b7) => let tmp := b1 ^' b4 in let b1 := (tmp >>' 17) |' (tmp <<' (64 - 17)) in let b4 := b4 -' b1 in (Locals8 b0 b1 b2 b3 b4 b5 b6 b7));
  (* inverse of round 33 *)
  (fun '(Locals8 b0 b1 b2 b3 b4 b5 b6 b7) => let tmp := b3 ^' b0 in let b3 := (tmp >>' 42) |' (tmp <<' (64 - 42)) in let b0 := b0 -' b3 in (Locals8 b0 b1 b2 b3 b4 b5 b6 b7));
  (fun '(Locals8 b0 b1 b2 b3 b4 b5 b6 b7) => let tmp := b5 ^' b6 in let b5 := (tmp >>' 14) |' (tmp <<' (64 - 14)) in let b6 := b6 -' b5 in (Locals8 b0 b1 b2 b3 b4 b5 b6 b7));
  (fun '(Locals8 b0 b1 b2 b3 b4 b5 b6 b7) => let tmp := b7 ^' b4 in let b7 := (tmp >>' 27) |' (tmp <<' (64 - 27)) in let b4 := b4 -' b7 in (Locals8 b0 b1 b2 b3 b4 b5 b6 b7));
  (fun '(Locals8 b0 b1 b2 b3 b4 b5 b6 b7) => let tmp := b1 ^' b2 in let b1 := (tmp >>' 33) |' (tmp <<' (64 - 33)) in let b2 := b2 -' b1 in (Locals8 b0 b1 b2 b3 b4 b5 b6 b7));
  (* inverse of round 32 *)
  (fun '(Locals8 b0 b1 b2 b3 b4 b5 b6 b7) => let tmp := b7 ^' b6 in let b7 := (tmp >>' 37) |' (tmp <<' (64 - 37)) in let b6 := b6 -' (b7 +' k5 +' t0) in let b7 := b7 -' (k6 +' 8) in (Locals8 b0 b1 b2 b3 b4 b5 b6 b7));
  (fun '(Locals8 b0 b1 b2 b3 b4 b5 b6 b7) => let tmp := b5 ^' b4 in let b5 := (tmp >>' 19) |' (tmp <<' (64 - 19)) in let b4 := b4 -' (b5 +' k3) in let b5 := b5 -' (k4 +' t2) in (Locals8 b0 b1 b2 b3 b4 b5 b6 b7));
  (fun '(Locals8 b0 b1 b2 b3 b4 b5 b6 b7) => let tmp := b3 ^' b2 in let b3 := (tmp >>' 36) |' (tmp <<' (64 - 36)) in let b2 := b2 -' (b3 +' k1) in let b3 := b3 -' k2 in (Locals8 b0 b1 b2 b3 b4 b5 b6 b7));
  (fun '(Locals8 b0 b1 b2 b3 b4 b5 b6 b7) => let tmp := b1 ^' b0 in let b1 := (tmp >>' 46) |' (tmp <<' (64 - 46)) in let b0 := b0 -' (b1 +' k8) in let b1 := b1 -' k0 in (Locals8 b0 b1 b2 b3 b4 b5 b6 b7));
  (* inverse of round 31 *)
  (fun '(Locals8 b0 b1 b2 b3 b4 b5 b6 b7) => let tmp := b3 ^' b4 in let b3 := (tmp >>' 22) |' (tmp <<' (64 - 22)) in let b4 := b4 -' b3 in (Locals8 b0 b1 b2 b3 b4 b5 b6 b7));
  (fun '(Locals8 b0 b1 b2 b3 b4 b5 b6 b7) => let tmp := b5 ^' b2 in let b5 := (tmp >>' 56) |' (tmp <<' (64 - 56)) in let b2 := b2 -' b5 in (Locals8 b0 b1 b2 b3 b4 b5 b6 b7));
  (fun '(Locals8 b0 b1 b2 b3 b4 b5 b6 b7) => let tmp := b7 ^' b0 in let b7 := (tmp >>' 35) |' (tmp <<' (64 - 35)) in let b0 := b0 -' b7 in (Locals8 b0 b1 b2 b3 b4 b5 b6 b7));
  (fun '(Locals8 b0 b1 b2 b3 b4 b5 b6 b7) => let tmp := b1 ^' b6 in let b1 := (tmp >>' 8) |' (tmp <<' (64 - 8)) in let b6 := b6 -' b1 in (Locals8 b0 b1 b2 b3 b4 b5 b6 b7));
  (* inverse of round 30 *)
  (fun '(Locals8 b0 b1 b2 b3 b4 b5 b6 b7) => let tmp := b7 ^' b2 in let b7 := (tmp >>' 43) |' (tmp <<' (64 - 43)) in let b2 := b2 -' b7 in (Locals8 b0 b1 b2 b3 b4 b5 b6 b7));
  (fun '(Locals8 b0 b1 b2 b3 b4 b5 b6 b7) => let tmp := b5 ^' b0 in let b5 := (tmp >>' 39) |' (tmp <<' (64 - 39)) in let b0 := b0 -' b5 in (Locals8 b0 b1 b2 b3 b4 b5 b6 b7));
  (fun '(Locals8 b0 b1 b2 b3 b4 b5 b6 b7) => let tmp := b3 ^' b6 in let b3 := (tmp >>' 29) |' (tmp <<' (64 - 29)) in let b6 := b6 -' b3 in (Locals8 b0 b1 b2 b3 b4 b5 b6 b7));
  (fun '(Locals8 b0 b1 b2 b3 b4 b5 b6 b7) => let tmp := b1 ^' b4 in let b1 := (tmp >>' 25) |' (tmp <<' (64 - 25)) in let b4 := b4 -' b1 in (Locals8 b0 b1 b2 b3 b4 b5 b6 b7));
  (* inverse of round 29 *)
  (fun '(Locals8 b0 b1 b2 b3 b4 b5 b6 b7) => let tmp := b3 ^' b0 in let b3 := (tmp >>' 17) |' (tmp <<' (64 - 17)) in let b0 := b0 -' b3 in (Locals8 b0 b1 b2 b3 b4 b5 b6 b7));
  (fun '(Locals8 b0 b1 b2 b3 b4 b5 b6 b7) => let tmp := b5 ^' b6 in let b5 := (tmp >>' 10) |' (tmp <<' (64 - 10)) in let b6 := b6 -' b5 in (Locals8 b0 b1 b2 b3 b4 b5 b6 b7));
  (fun '(Locals8 b0 b1 b2 b3 b4 b5 b6 b7) => let tmp := b7 ^' b4 in let b7 := (tmp >>' 50) |' (tmp <<' (64 - 50)) in let b4 := b4 -' b7 in (Locals8 b0 b1 b2 b3 b4 b5 b6 b7));
  (fun '(Locals8 b0 b1 b2 b3 b4 b5 b6 b7) => let tmp := b1 ^' b2 in let b1 := (tmp >>' 13) |' (tmp <<' (64 - 13)) in let b2 := b2 -' b1 in (Locals8 b0 b1 b2 b3 b4 b5 b6 b7));
  (* inverse of round 28 *)
  (fun '(Locals8 b0 b1 b2 b3 b4 b5 b6 b7) => let tmp := b7 ^' b6 in let b7 := (tmp >>' 24) |' (tmp <<' (64 - 24)) in let b6 := b6 -' (b7 +' k4 +' t2) in let b7 := b7 -' (k5 +' 7) in (Locals8 b0 b1 b2 b3 b4 b5 b6 b7));
  (fun '(Locals8 b0 b1 b2 b3 b4 b5 b6 b7) => let tmp := b5 ^' b4 in let b5 := (tmp >>' 34) |' (tmp <<' (64 - 34)) in let b4 := b4 -' (b5 +' k2) in let b5 := b5 -' (k3 +' t1) in (Locals8 b0 b1 b2 b3 b4 b5 b6 b7));
  (fun '(Locals8 b0 b1 b2 b3 b4 b5 b6 b7) => let tmp := b3 ^' b2 in let b3 := (tmp >>' 30) |' (tmp <<' (64 - 30)) in let b2 := b2 -' (b3 +' k0) in let b3 := b3 -' k1 in (Locals8 b0 b1 b2 b3 b4 b5 b6 b7));
  (fun '(Locals8 b0 b1 b2 b3 b4 b5 b6 b7) => let tmp := b1 ^' b0 in let b1 := (tmp >>' 39) |' (tmp <<' (64 - 39)) in let b0 := b0 -' (b1 +' k7) in let b1 := b1 -' k8 in (Locals8 b0 b1 b2 b3 b4 b5 b6 b7));
  (* inverse of round 27 *)
  (fun '(Locals8 b0 b1 b2 b3 b4 b5 b6 b7) => let tmp := b3 ^' b4 in let b3 := (tmp >>' 56) |' (tmp <<' (64 - 56)) in let b4 := b4 -' b3 in (Locals8 b0 b1 b2 b3 b4 b5 b6 b7));
  (fun '(Locals8 b0 b1 b2 b3 b4 b5 b6 b7) => let tmp := b5 ^' b2 in let b5 := (tmp >>' 54) |' (tmp <<' (64 - 54)) in let b2 := b2 -' b5 in (Locals8 b0 b1 b2 b3 b4 b5 b6 b7));
  (fun '(Locals8 b0 b1 b2 b3 b4 b5 b6 b7) => let tmp := b7 ^' b0 in let b7 := (tmp >>' 9) |' (tmp <<' (64 - 9)) in let b0 := b0 -' b7 in (Locals8 b0 b1 b2 b3 b4 b5 b6 b7));
  (fun '(Locals8 b0 b1 b2 b3 b4 b5 b6 b7) => let tmp := b1 ^' b6 in let b1 := (tmp >>' 44) |' (tmp <<' (64 - 44)) in let b6 := b6 -' b1 in (Locals8 b0 b1 b2 b3 b4 b5 b6 b7));
  (* inverse of round 26 *)
  (fun '(Locals8 b0 b1 b2 b3 b4 b5 b6 b7) => let tmp := b7 ^' b2 in let b7 := (tmp >>' 39) |' (tmp <<' (64 - 39)) in let b2 := b2 -' b7 in (Locals8 b0 b1 b2 b3 b4 b5 b6 b7));
  (fun '(Locals8 b0 b1 b2 b3 b4 b5 b6 b7) => let tmp := b5 ^' b0 in let b5 := (tmp >>' 36) |' (tmp <<' (64 - 36)) in let b0 := b0 -' b5 in (Locals8 b0 b1 b2 b3 b4 b5 b6 b7));
  (fun '(Locals8 b0 b1 b2 b3 b4 b5 b6 b7) => let tmp := b3 ^' b6 in let b3 := (tmp >>' 49) |' (tmp <<' (64 - 49)) in let b6 := b6 -' b3 in (Locals8 b0 b1 b2 b3 b4 b5 b6 b7));
  (fun '(Locals8 b0 b1 b2 b3 b4 b5 b6 b7) => let tmp := b1 ^' b4 in let b1 := (tmp >>' 17) |' (tmp <<' (64 - 17)) in let b4 := b4 -' b1 in (Locals8 b0 b1 b2 b3 b4 b5 b6 b7));
  (* inverse of round 25 *)
  (fun '(Locals8 b0 b1 b2 b3 b4 b5 b6 b7) => let tmp := b3 ^' b0 in let b3 := (tmp >>' 42) |' (tmp <<' (64 - 42)) in let b0 := b0 -' b3 in (Locals8 b0 b1 b2 b3 b4 b5 b6 b7));
  (fun '(Locals8 b0 b1 b2 b3 b4 b5 b6 b7) => let tmp := b5 ^' b6 in let b5 := (tmp >>' 14) |' (tmp <<' (64 - 14)) in let b6 := b6 -' b5 in (Locals8 b0 b1 b2 b3 b4 b5 b6 b7));
  (fun '(Locals8 b0 b1 b2 b3 b4 b5 b6 b7) => let tmp := b7 ^' b4 in let b7 := (tmp >>' 27) |' (tmp <<' (64 - 27)) in let b4 := b4 -' b7 in (Locals8 b0 b1 b2 b3 b4 b5 b6 b7));
  (fun '(Locals8 b0 b1 b2 b3 b4 b5 b6 b7) => let tmp := b1 ^' b2 in let b1 := (tmp >>' 33) |' (tmp <<' (64 - 33)) in let b2 := b2 -' b1 in (Locals8 b0 b1 b2 b3 b4 b5 b6 b7));
  (* inverse of round 24 *)
  (fun '(Locals8 b0 b1 b2 b3 b4 b5 b6 b7) => let tmp := b7 ^' b6 in let b7 := (tmp >>' 37) |' (tmp <<' (64 - 37)) in let b6 := b6 -' (b7 +' k3 +' t1) in let b7 := b7 -' (k4 +' 6) in (Locals8 b0 b1 b2 b3 b4 b5 b6 b7));
  (fun '(Locals8 b0 b1 b2 b3 b4 b5 b6 b7) => let tmp := b5 ^' b4 in let b5 := (tmp >>' 19) |' (tmp <<' (64 - 19)) in let b4 := b4 -' (b5 +' k1) in let b5 := b5 -' (k2 +' t0) in (Locals8 b0 b1 b2 b3 b4 b5 b6 b7));
  (fun '(Locals8 b0 b1 b2 b3 b4 b5 b6 b7) => let tmp := b3 ^' b2 in let b3 := (tmp >>' 36) |' (tmp <<' (64 - 36)) in let b2 := b2 -' (b3 +' k8) in let b3 := b3 -' k0 in (Locals8 b0 b1 b2 b3 b4 b5 b6 b7));
  (fun '(Locals8 b0 b1 b2 b3 b4 b5 b6 b7) => let tmp := b1 ^' b0 in let b1 := (tmp >>' 46) |' (tmp <<' (64 - 46)) in let b0 := b0 -' (b1 +' k6) in let b1 := b1 -' k7 in (Locals8 b0 b1 b2 b3 b4 b5 b6 b7));
  (* inverse of round 23 *)
  (fun '(Locals8 b0 b1 b2 b3 b4 b5 b6 b7) => let tmp := b3 ^' b4 in let b3 := (tmp >>' 22) |' (tmp <<' (64 - 22)) in let b4 := b4 -' b3 in (Locals8 b0 b1 b2 b3 b4 b5 b6 b7));
  (fun '(Locals8 b0 b1 b2 b3 b4 b5 b6 b7) => let tmp := b5 ^' b2 in let b5 := (tmp >>' 56) |' (tmp <<' (64 - 56)) in let b2 := b2 -' b5 in (Locals8 b0 b1 b2 b3 b4 b5 b6 b7));
  (fun '(Locals8 b0 b1 b2 b3 b4 b5 b6 b7) => let tmp := b7 ^' b0 in let b7 := (tmp >>' 35) |' (tmp <<' (64 - 35)) in let b0 := b0 -' b7 in (Locals8 b0 b1 b2 b3 b4 b5 b6 b7));
  (fun '(Locals8 b0 b1 b2 b3 b4 b5 b6 b7) => let tmp := b1 ^' b6 in let b1 := (tmp >>' 8) |' (tmp <<' (64 - 8)) in let b6 := b6 -' b1 in (Locals8 b0 b1 b2 b3 b4 b5 b6 b7));
  (* inverse of round 22 *)
  (fun '(Locals8 b0 b1 b2 b3 b4 b5 b6 b7) => let tmp := b7 ^' b2 in let b7 := (tmp >>' 43) |' (tmp <<' (64 - 43)) in let b2 := b2 -' b7 in (Locals8 b0 b1 b2 b3 b4 b5 b6 b7));
  (fun '(Locals8 b0 b1 b2 b3 b4 b5 b6 b7) => let tmp := b5 ^' b0 in let b5 := (tmp >>' 39) |' (tmp <<' (64 - 39)) in let b0 := b0 -' b5 in (Locals8 b0 b1 b2 b3 b4 b5 b6 b7));
  (fun '(Locals8 b0 b1 b2 b3 b4 b5 b6 b7) => let tmp := b3 ^' b6 in let b3 := (tmp >>' 29) |' (tmp <<' (64 - 29)) in let b6 := b6 -' b3 in (Locals8 b0 b1 b2 b3 b4 b5 b6 b7));
  (fun '(Locals8 b0 b1 b2 b3 b4 b5 b6 b7) => let tmp := b1 ^' b4 in let b1 := (tmp >>' 25) |' (tmp <<' (64 - 25)) in let b4 := b4 -' b1 in (Locals8 b0 b1 b2 b3 b4 b5 b6 b7));
  (* inverse of round 21 *)
  (fun '(Locals8 b0 b1 b2 b3 b4 b5 b6 b7) => let tmp := b3 ^' b0 in let b3 := (tmp >>' 17) |' (tmp <<' (64 - 17)) in let b0 := b0 -' b3 in (Locals8 b0 b1 b2 b3 b4 b5 b6 b7));
  (fun '(Locals8 b0 b1 b2 b3 b4 b5 b6 b7) => let tmp := b5 ^' b6 in let b5 := (tmp >>' 10) |' (tmp <<' (64 - 10)) in let b6 := b6 -' b5 in (Locals8 b0 b1 b2 b3 b4 b5 b6 b7));
  (fun '(Locals8 b0 b1 b2 b3 b4 b5 b6 b7) => let tmp := b7 ^' b4 in let b7 := (tmp >>' 50) |' (tmp <<' (64 - 50)) in let b4 := b4 -' b7 in (Locals8 b0 b1 b2 b3 b4 b5 b6 b7));
  (fun '(Locals8 b0 b1 b2 b3 b4 b5 b6 b7) => let tmp := b1 ^' b2 in let b1 := (tmp >>' 13) |' (tmp <<' (64 - 13)) in let b2 := b2 -' b1 in (Locals8 b0 b1 b2 b3 b4 b5 b6 b7));
  (* inverse of round 20 *)
  (fun '(Locals8 b0 b1 b2 b3 b4 b5 b6 b7) => let tmp := b7 ^' b6 in let b7 := (tmp >>' 24) |' (tmp <<' (64 - 24)) in let b6 := b6 -' (b7 +' k2 +' t0) in let b7 := b7 -' (k3 +' 5) in (Locals8 b0 b1 b2 b3 b4 b5 b6 b7));
  (fun '(Locals8 b0 b1 b2 b3 b4 b5 b6 b7) => let tmp := b5 ^' b4 in let b5 := (tmp >>' 34) |' (tmp <<' (64 - 34)) in let b4 := b4 -' (b5 +' k0) in let b5 := b5 -' (k1 +' t2) in (Locals8 b0 b1 b2 b3 b4 b5 b6 b7));
  (fun '(Locals8 b0 b1 b2 b3 b4 b5 b6 b7) => let tmp := b3 ^' b2 in let b3 := (tmp >>' 30) |' (tmp <<' (64 - 30)) in let b2 := b2 -' (b3 +' k7) in let b3 := b3 -' k8 in (Locals8 b0 b1 b2 b3 b4 b5 b6 b7));
  (fun '(Locals8 b0 b1 b2 b3 b4 b5 b6 b7) => let tmp := b1 ^' b0 in let b1 := (tmp >>' 39) |' (tmp <<' (64 - 39)) in let b0 := b0 -' (b1 +' k5) in let b1 := b1 -' k6 in (Locals8 b0 b1 b2 b3 b4 b5 b6 b7));
  (* inverse of round 19 *)
  (fun '(Locals8 b0 b1 b2 b3 b4 b5 b6 b7) => let tmp := b3 ^' b4 in let b3 := (tmp >>' 56) |' (tmp <<' (64 - 56)) in let b4 := b4 -' b3 in (Locals8 b0 b1 b2 b3 b4 b5 b6 b7));
  (fun '(Locals8 b0 b1 b2 b3 b4 b5 b6 b7) => let tmp := b5 ^' b2 in let b5 := (tmp >>' 54) |' (tmp <<' (64 - 54)) in let b2 := b2 -' b5 in (Locals8 b0 b1 b2 b3 b4 b5 b6 b7));
  (fun '(Locals8 b0 b1 b2 b3 b4 b5 b6 b7) => let tmp := b7 ^' b0 in let b7 := (tmp >>' 9) |' (tmp <<' (64 - 9)) in let b0 := b0 -' b7 in (Locals8 b0 b1 b2 b3 b4 b5 b6 b7));
  (fun '(Locals8 b0 b1 b2 b3 b4 b5 b6 b7) => let tmp := b1 ^' b6 in let b1 := (tmp >>' 44) |' (tmp <<' (64 - 44)) in let b6 := b6 -' b1 in (Locals8 b0 b1 b2 b3 b4 b5 b6 b7));
  (* inverse of round 18 *)
  (fun '(Locals8 b0 b1 b2 b3 b4 b5 b6 b7) => let tmp := b7 ^' b2 in let b7 := (tmp >>' 39) |' (tmp <<' (64 - 39)) in let b2 := b2 -' b7 in (Locals8 b0 b1 b2 b3 b4 b5 b6 b7));
  (fun '(Locals8 b0 b1 b2 b3 b4 b5 b6 b7) => let tmp := b5 ^' b0 in let b5 := (tmp >>' 36) |' (tmp <<' (64 - 36)) in let b0 := b0 -' b5 in (Locals8 b0 b1 b2 b3 b4 b5 b6 b7));
  (fun '(Locals8 b0 b1 b2 b3 b4 b5 b6 b7) => let tmp := b3 ^' b6 in let b3 := (tmp >>' 49) |' (tmp <<' (64 - 49)) in let b6 := b6 -' b3 in (Locals8 b0 b1 b2 b3 b4 b5 b6 b7));
  (fun '(Locals8 b0 b1 b2 b3 b4 b5 b6 b7) => let tmp := b1 ^' b4 in let b1 := (tmp >>' 17) |' (tmp <<' (64 - 17)) in let b4 := b4 -' b1 in (Locals8 b0 b1 b2 b3 b4 b5 b6 b7));
  (* inverse of round 17 *)
  (fun '(Locals8 b0 b1 b2 b3 b4 b5 b6 b7) => let tmp := b3 ^' b0 in let b3 := (tmp >>' 42) |' (tmp <<' (64 - 42)) in let b0 := b0 -' b3 in (Locals8 b0 b1 b2 b3 b4 b5 b6 b7));
  (fun '(Locals8 b0 b1 b2 b3 b4 b5 b6 b7) => let tmp := b5 ^' b6 in let b5 := (tmp >>' 14) |' (tmp <<' (64 - 14)) in let b6 := b6 -' b5 in (Locals8 b0 b1 b2 b3 b4 b5 b6 b7));
  (fun '(Locals8 b0 b1 b2 b3 b4 b5 b6 b7) => let tmp := b7 ^' b4 in let b7 := (tmp >>' 27) |' (tmp <<' (64 - 27)) in let b4 := b4 -' b7 in (Locals8 b0 b1 b2 b3 b4 b5 b6 b7));
  (fun '(Locals8 b0 b1 b2 b3 b4 b5 b6 b7) => let tmp := b1 ^' b2 in let b1 := (tmp >>' 33) |' (tmp <<' (64 - 33)) in let b2 := b2 -' b1 in (Locals8 b0 b1 b2 b3 b4 b5 b6 b7));
  (* inverse of round 16 *)
  (fun '(Locals8 b0 b1 b2 b3 b4 b5 b6 b7) => let tmp := b7 ^' b6 in let b7 := (tmp >>' 37) |' (tmp <<' (64 - 37)) in let b6 := b6 -' (b7 +' k1 +' t2) in let b7 := b7 -' (k2 +' 4) in (Locals8 b0 b1 b2 b3 b4 b5 b6 b7));
  (fun '(Locals8 b0 b1 b2 b3 b4 b5 b6 b7) => let tmp := b5 ^' b4 in let b5 := (tmp >>' 19) |' (tmp <<' (64 - 19)) in let b4 := b4 -' (b5 +' k8) in let b5 := b5 -' (k0 +' t1) in (Locals8 b0 b1 b2 b3 b4 b5 b6 b7));
  (fun '(Locals8 b0 b1 b2 b3 b4 b5 b6 b7) => let tmp := b3 ^' b2 in let b3 := (tmp >>' 36) |' (tmp <<' (64 - 36)) in let b2 := b2 -' (b3 +' k6) in let b3 := b3 -' k7 in (Locals8 b0 b1 b2 b3 b4 b5 b6 b7));
  (fun '(Locals8 b0 b1 b2 b3 b4 b5 b6 b7) => let tmp := b1 ^' b0 in let b1 := (tmp >>' 46) |' (tmp <<' (64 - 46)) in let b0 := b0 -' (b1 +' k4) in let b1 := b1 -' k5 in (Locals8 b0 b1 b2 b3 b4 b5 b6 b7));
  (* inverse of round 15 *)
  (fun '(Locals8 b0 b1 b2 b3 b4 b5 b6 b7) => let tmp := b3 ^' b4 in let b3 := (tmp >>' 22) |' (tmp <<' (64 - 22)) in let b4 := b4 -' b3 in (Locals8 b0 b1 b2 b3 b4 b5 b6 b7));
  (fun '(Locals8 b0 b1 b2 b3 b4 b5 b6 b7) => let tmp := b5 ^' b2 in let b5 := (tmp >>' 56) |' (tmp <<' (64 - 56)) in let b2 := b2 -' b5 in (Locals8 b0 b1 b2 b3 b4 b5 b6 b7));
  (fun '(Locals8 b0 b1 b2 b3 b4 b5 b6 b7) => let tmp := b7 ^' b0 in let b7 := (tmp >>' 35) |' (tmp <<' (64 - 35)) in let b0 := b0 -' b7 in (Locals8 b0 b1 b2 b3 b4 b5 b6 b7));
  (fun '(Locals8 b0 b1 b2 b3 b4 b5 b6 b7) => let tmp := b1 ^' b6 in let b1 := (tmp >>' 8) |' (tmp <<' (64 - 8)) in let b6 := b6 -' b1 in (Locals8 b0 b1 b2 b3 b4 b5 b6 b7));
  (* inverse of round 14 *)
  (fun '(Locals8 b0 b1 b2 b3 b4 b5 b6 b7) => let tmp := b7 ^' b2 in let b7 := (tmp >>' 43) |' (tmp <<' (64 - 43)) in let b2 := b2 -' b7 in (Locals8 b0 b1 b2 b3 b4 b5 b6 b7));
  (fun '(Locals8 b0 b1 b2 b3 b4 b5 b6 b7) => let tmp := b5 ^' b0 in let b5 := (tmp >>' 39) |' (tmp <<' (64 - 39)) in let b0 := b0 -' b5 in (Locals8 b0 b1 b2 b3 b4 b5 b6 b7));
  (fun '(Locals8 b0 b1 b2 b3 b4 b5 b6 b7) => let tmp := b3 ^' b6 in let b3 := (tmp >>' 29) |' (tmp <<' (64 - 29)) in let b6 := b6 -' b3 in (Locals8 b0 b1 b2 b3 b4 b5 b6 b7));
  (fun '(Locals8 b0 b1 b2 b3 b4 b5 b6 b7) => let tmp := b1 ^' b4 in let b1 := (tmp >>' 25) |' (tmp <<' (64 - 25)) in let b4 := b4 -' b1 in (Locals8 b0 b1 b2 b3 b4 b5 b6 b7));
  (* inverse of round 13 *)
  (fun '(Locals8 b0 b1 b2 b3 b4 b5 b6 b7) => let tmp := b3 ^' b0 in let b3 := (tmp >>' 17) |' (tmp <<' (64 - 17)) in let b0 := b0 -' b3 in (Locals8 b0 b1 b2 b3 b4 b5 b6 b7));
  (fun '(Locals8 b0 b1 b2 b3 b4 b5 b6 b7) => let tmp := b5 ^' b6 in let b5 := (tmp >>' 10) |' (tmp <<' (64 - 10)) in let b6 := b6 -' b5 in (Locals8 b0 b1 b2 b3 b4 b5 b6 b7));
  (fun '(Locals8 b0 b1 b2 b3 b4 b5 b6 b7) => let tmp := b7 ^' b4 in let b7 := (tmp >>' 50) |' (tmp <<' (64 - 50)) in let b4 := b4 -' b7 in (Locals8 b0 b1 b2 b3 b4 b5 b6 b7));
  (fun '(Locals8 b0 b1 b2 b3 b4 b5 b6 b7) => let tmp := b1 ^' b2 in let b1 := (tmp >>' 13) |' (tmp <<' (64 - 13)) in let b2 := b2 -' b1 in (Locals8 b0 b1 b2 b3 b4 b5 b6 b7));
  (* inverse of round 12 *)
  (fun '(Locals8 b0 b1 b2 b3 b4 b5 b6 b7) => let tmp := b7 ^' b6 in let b7 := (tmp >>' 24) |' (tmp <<' (64 - 24)) in let b6 := b6 -' (b7 +' k0 +' t1) in let b7 := b7 -' (k1 +' 3) in (Locals8 b0 b1 b2 b3 b4 b5 b6 b7));
  (fun '(Locals8 b0 b1 b2 b3 b4 b5 b6 b7) => let tmp := b5 ^' b4 in let b5 := (tmp >>' 34) |' (tmp <<' (64 - 34)) in let b4 := b4 -' (b5 +' k7) in let b5 := b5 -' (k8 +' t0) in (Locals8 b0 b1 b2 b3 b4 b5 b6 b7));
  (fun '(Locals8 b0 b1 b2 b3 b4 b5 b6 b7) => let tmp := b3 ^' b2 in let b3 := (tmp >>' 30) |' (tmp <<' (64 - 30)) in let b2 := b2 -' (b3 +' k5) in let b3 := b3 -' k6 in (Locals8 b0 b1 b2 b3 b4 b5 b6 b7));
  (fun '(Locals8 b0 b1 b2 b3 b4 b5 b6 b7) => let tmp := b1 ^' b0 in let b1 := (tmp >>' 39) |' (tmp <<' (64 - 39)) in let b0 := b0 -' (b1 +' k3) in let b1 := b1 -' k4 in (Locals8 b0 b1 b2 b3 b4 b5 b6 b7));
  (* inverse of round 11 *)
  (fun '(Locals8 b0 b1 b2 b3 b4 b5 b6 b7) => let tmp := b3 ^' b4 in let b3 := (tmp >>' 56) |' (tmp <<' (64 - 56)) in let b4 := b4 -' b3 in (Locals8 b0 b1 b2 b3 b4 b5 b6 b7));
  (fun '(Locals8 b0 b1 b2 b3 b4 b5 b6 b7) => let tmp := b5 ^' b2 in let b5 := (tmp >>' 54) |' (tmp <<' (64 - 54)) in let b2 := b2 -' b5 in (Locals8 b0 b1 b2 b3 b4 b5 b6 b7));
  (fun '(Locals8 b0 b1 b2 b3 b4 b5 b6 b7) => let tmp := b7 ^' b0 in let b7 := (tmp >>' 9) |' (tmp <<' (64 - 9)) in let b0 := b0 -' b7 in (Locals8 b0 b1 b2 b3 b4 b5 b6 b7));
  (fun '(Locals8 b0 b1 b2 b3 b4 b5 b6 b7) => let tmp := b1 ^' b6 in let b1 := (tmp >>' 44) |' (tmp <<' (64 - 44)) in let b6 := b6 -' b1 in (Locals8 b0 b1 b2 b3 b4 b5 b6 b7));
  (* inverse of round 10 *)
  (fun '(Locals8 b0 b1 b2 b3 b4 b5 b6 b7) => let tmp := b7 ^' b2 in let b7 := (tmp >>' 39) |' (tmp <<' (64 - 39)) in let b2 := b2 -' b7 in (Locals8 b0 b1 b2 b3 b4 b5 b6 b7));
  (fun '(Locals8 b0 b1 b2 b3 b4 b5 b6 b7) => let tmp := b5 ^' b0 in let b5 := (tmp >>' 36) |' (tmp <<' (64 - 36)) in let b0 := b0 -' b5 in (Locals8 b0 b1 b2 b3 b4 b5 b6 b7));
  (fun '(Locals8 b0 b1 b2 b3 b4 b5 b6 b7) => let tmp := b3 ^' b6 in let b3 := (tmp >>' 49) |' (tmp <<' (64 - 49)) in let b6 := b6 -' b3 in (Locals8 b0 b1 b2 b3 b4 b5 b6 b7));
  (fun '(Locals8 b0 b1 b2 b3 b4 b5 b6 b7) => let tmp := b1 ^' b4 in let b1 := (tmp >>' 17) |' (tmp <<' (64 - 17)) in let b4 := b4 -' b1 in (Locals8 b0 b1 b2 b3 b4 b5 b6 b7));
  (* inverse of round 9 *)
  (fun '(Locals8 b0 b1 b2 b3 b4 b5 b6 b7) => let tmp := b3 ^' b0 in let b3 := (tmp >>' 42) |' (tmp <<' (64 - 42)) in let b0 := b0 -' b3 in (Locals8 b0 b1 b2 b3 b4 b5 b6 b7));
  (fun '(Locals8 b0 b1 b2 b3 b4 b5 b6 b7) => let tmp := b5 ^' b6 in let b5 := (tmp >>' 14) |' (tmp <<' (64 - 14)) in let b6 := b6 -' b5 in (Locals8 b0 b1 b2 b3 b4 b5 b6 b7));
  (fun '(Locals8 b0 b1 b2 b3 b4 b5 b6 b7) => let tmp := b7 ^' b4 in let b7 := (tmp >>' 27) |' (tmp <<' (64 - 27)) in let b4 := b4 -' b7 in (Locals8 b0 b1 b2 b3 b4 b5 b6 b7));
  (fun '(Locals8 b0 b1 b2 b3 b4 b5 b6 b7) => let tmp := b1 ^' b2 in let b1 := (tmp >>' 33) |' (tmp <<' (64 - 33)) in let b2 := b2 -' b1 in (Locals8 b0 b1 b2 b3 b4 b5 b6 b7));
  (* inverse of round 8 *)
  (fun '(Locals8 b0 b1 b2 b3 b4 b5 b6 b7) => let tmp := b7 ^' b6 in let b7 := (tmp >>' 37) |' (tmp <<' (64 - 37)) in let b6 := b6 -' (b7 +' k8 +' t0) in let b7 := b7 -' (k0 +' 2) in (Locals8 b0 b1 b2 b3 b4 b5 b6 b7));
  (fun '(Locals8 b0 b1 b2 b3 b4 b5 b6 b7) => let tmp := b5 ^' b4 in let b5 := (tmp >>' 19) |' (tmp <<' (64 - 19)) in let b4 := b4 -' (b5 +' k6) in let b5 := b5 -' (k7 +' t2) in (Locals8 b0 b1 b2 b3 b4 b5 b6 b7));
  (fun '(Locals8 b0 b1 b2 b3 b4 b5 b6 b7) => let tmp := b3 ^' b2 in let b3 := (tmp >>' 36) |' (tmp <<' (64 - 36)) in let b2 := b2 -' (b3 +' k4) in let b3 := b3 -' k5 in (Locals8 b0 b1 b2 b3 b4 b5 b6 b7));
  (fun '(Locals8 b0 b1 b2 b3 b4 b5 b6 b7) => let tmp := b1 ^' b0 in let b1 := (tmp >>' 46) |' (tmp <<' (64 - 46)) in let b0 := b0 -' (b1 +' k2) in let b1 := b1 -' k3 in (Locals8 b0 b1 b2 b3 b4 b5 b6 b7));
  (* inverse of round 7 *)
  (fun '(Locals8 b0 b1 b2 b3 b4 b5 b6 b7) => let tmp := b3 ^' b4 in let b3 := (tmp >>' 22) |' (tmp <<' (64 - 22)) in let b4 := b4 -' b3 in (Locals8 b0 b1 b2 b3 b4 b5 b6 b7));
  (fun '(Locals8 b0 b1 b2 b3 b4 b5 b6 b7) => let tmp := b5 ^' b2 in let b5 := (tmp >>' 56) |' (tmp <<' (64 - 56)) in let b2 := b2 -' b5 in (Locals8 b0 b1 b2 b3 b4 b5 b6 b7));
  (fun '(Locals8 b0 b1 b2 b3 b4 b5 b6 b7) => let tmp := b7 ^' b0 in let b7 := (tmp >>' 35) |' (tmp <<' (64 - 35)) in let b0 := b0 -' b7 in (Locals8 b0 b1 b2 b3 b4 b5 b6 b7));
  (fun '(Locals8 b0 b1 b2 b3 b4 b5 b6 b7) => let tmp := b1 ^' b6 in let b1 := (tmp >>' 8) |' (tmp <<' (64 - 8)) in let b6 := b6 -' b1 in (Locals8 b0 b1 b2 b3 b4 b5 b6 b7));
  (* inverse of round 6 *)
  (fun '(Locals8 b0 b1 b2 b3 b4 b5 b6 b7) => let tmp := b7 ^' b2 in let b7 := (tmp >>' 43) |' (tmp <<' (64 - 43)) in let b2 := b2 -' b7 in (Locals8 b0 b1 b2 b3 b4 b5 b6 b7));
  (fun '(Locals8 b0 b1 b2 b3 b4 b5 b6 b7) => let tmp := b5 ^' b0 in let b5 := (tmp >>' 39) |' (tmp <<' (64 - 39)) in let b0 := b0 -' b5 in (Locals8 b0 b1 b2 b3 b4 b5 b6 b7));
  (fun '(Locals8 b0 b1 b2 b3 b4 b5 b6 b7) => let tmp := b3 ^' b6 in let b3 := (tmp >>' 29) |' (tmp <<' (64 - 29)) in let b6 := b6 -' b3 in (Locals8 b0 b1 b2 b3 b4 b5 b6 b7));
  (fun '(Locals8 b0 b1 b2 b3 b4 b5 b6 b7) => let tmp := b1 ^' b4 in let b1 := (tmp >>' 25) |' (tmp <<' (64 - 25)) in let b4 := b4 -' b1 in (Locals8 b0 b1 b2 b3 b4 b5 b6 b7));
  (* inverse of round 5 *)
  (fun '(Locals8 b0 b1 b2 b3 b4 b5 b6 b7) => let tmp := b3 ^' b0 in let b3 := (tmp >>' 17) |' (tmp <<' (64 - 17)) in let b0 := b0 -' b3 in (Locals8 b0 b1 b2 b3 b4 b5 b6 b7));
  (fun '(Locals8 b0 b1 b2 b3 b4 b5 b6 b7) => let tmp := b5 ^' b6 in let b5 := (tmp >>' 10) |' (tmp <<' (64 - 10)) in let b6 := b6 -' b5 in (Locals8 b0 b1 b2 b3 b4 b5 b6 b7));
  (fun '(Locals8 b0 b1 b2 b3 b4 b5 b6 b7) => let tmp := b7 ^' b4 in let b7 := (tmp >>' 50) |' (tmp <<' (64 - 50)) in let b4 := b4 -' b7 in (Locals8 b0 b1 b2 b3 b4 b5 b6 b7));
  (fun '(Locals8 b0 b1 b2 b3 b4 b5 b6 b7) => let tmp := b1 ^' b2 in let b1 := (tmp >>' 13) |' (tmp <<' (64 - 13)) in let b2 := b2 -' b1 in (Locals8 b0 b1 b2 b3 b4 b5 b6 b7));
  (* inverse of round 4 *)
  (fun '(Locals8 b0 b1 b2 b3 b4 b5 b6 b7) => let tmp := b7 ^' b6 in let b7 := (tmp >>' 24) |' (tmp <<' (64 - 24)) in let b6 := b6 -' (b7 +' k7 +' t2) in let b7 := b7 -' (k8 +' 1) in (Locals8 b0 b1 b2 b3 b4 b5 b6 b7));
  (fun '(Locals8 b0 b1 b2 b3 b4 b5 b6 b7) => let tmp := b5 ^' b4 in let b5 := (tmp >>' 34) |' (tmp <<' (64 - 34)) in let b4 := b4 -' (b5 +' k5) in let b5 := b5 -' (k6 +' t1) in (Locals8 b0 b1 b2 b3 b4 b5 b6 b7));
  (fun '(Locals8 b0 b1 b2 b3 b4 b5 b6 b7) => let tmp := b3 ^' b2 in let b3 := (tmp >>' 30) |' (tmp <<' (64 - 30)) in let b2 := b2 -' (b3 +' k3) in let b3 := b3 -' k4 in (Locals8 b0 b1 b2 b3 b4 b5 b6 b7));
  (fun '(Locals8 b0 b1 b2 b3 b4 b5 b6 b7) => let tmp := b1 ^' b0 in let b1 := (tmp >>' 39) |' (tmp <<' (64 - 39)) in let b0 := b0 -' (b1 +' k1) in let b1 := b1 -' k2 in (Locals8 b0 b1 b2 b3 b4 b5 b6 b7));
  (* inverse of round 3 *)
  (fun '(Locals8 b0 b1 b2 b3 b4 b5 b6 b7) => let tmp := b3 ^' b4 in let b3 := (tmp >>' 56) |' (tmp <<' (64 - 56)) in let b4 := b4 -' b3 in (Locals8 b0 b1 b2 b3 b4 b5 b6 b7));
  (fun '(Locals8 b0 b1 b2 b3 b4 b5 b6 b7) => let tmp := b5 ^' b2 in let b5 := (tmp >>' 54) |' (tmp <<' (64 - 54)) in let b2 := b2 -' b5 in (Locals8 b0 b1 b2 b3 b4 b5 b6 b7));
  (fun '(Locals8 b0 b1 b2 b3 b4 b5 b6 b7) => let tmp := b7 ^' b0 in let b7 := (tmp >>' 9) |' (tmp <<' (64 - 9)) in let b0 := b0 -' b7 in (Locals8 b0 b1 b2 b3 b4 b5 b6 b7));
  (fun '(Locals8 b0 b1 b2 b3 b4 b5 b6 b7) => let tmp := b1 ^' b6 in let b1 := (tmp >>' 44) |' (tmp <<' (64 - 44)) in let b6 := b6 -' b1 in (Locals8 b0 b1 b2 b3 b4 b5 b6 b7));
  (* inverse of round 2 *)
  (fun '(Locals8 b0 b1 b2 b3 b4 b5 b6 b7) => let tmp := b7 ^' b2 in let b7 := (tmp >>' 39) |' (tmp <<' (64 - 39)) in let b2 := b2 -' b7 in (Locals8 b0 b1 b2 b3 b4 b5 b6 b7));
  (fun '(Locals8 b0 b1 b2 b3 b4 b5 b6 b7) => let tmp := b5 ^' b0 in let b5 := (tmp >>' 36) |' (tmp <<' (64 - 36)) in let b0 := b0 -' b5 in (Locals8 b0 b1 b2 b3 b4 b5 b6 b7));
  (fun '(Locals8 b0 b1 b2 b3 b4 b5 b6 b7) => let tmp := b3 ^' b6 in let b3 := (tmp >>' 49) |' (tmp <<' (64 - 49)) in let b6 := b6 -' b3 in (Locals8 b0 b1 b2 b3 b4 b5 b6 b7));
  (fun '(Locals8 b0 b1 b2 b3 b4 b5 b6 b7) => let tmp := b1 ^' b4 in let b1 := (tmp >>' 17) |' (tmp <<' (64 - 17)) in let b4 := b4 -' b1 in (Locals8 b0 b1 b2 b3 b4 b5 b6 b7));
  (* inverse of round 1 *)
  (fun '(Locals8 b0 b1 b2 b3 b4 b5 b6 b7) => let tmp := b3 ^' b0 in let b3 := (tmp >>' 42) |' (tmp <<' (64 - 42)) in let b0 := b0 -' b3 in (Locals8 b0 b1 b2 b3 b4 b5 b6 b7));
  (fun '(Locals8 b0 b1 b2 b3 b4 b5 b6 b7) => let tmp := b5 ^' b6 in let b5 := (tmp >>' 14) |' (tmp <<' (64 - 14)) in let b6 := b6 -' b5 in (Locals8 b0 b1 b2 b3 b4 b5 b6 b7));
  (fun '(Locals8 b0 b1 b2 b3 b4 b5 b6 b7) => let tmp := b7 ^' b4 in let b7 := (tmp >>' 27) |' (tmp <<' (64 - 27)) in let b4 := b4 -' b7 in (Locals8 b0 b1 b2 b3 b4 b5 b6 b7));
  (fun '(Locals8 b0 b1 b2 b3 b4 b5 b6 b7) => let tmp := b1 ^' b2 in let b1 := (tmp >>' 33) |' (tmp <<' (64 - 33)) in let b2 := b2 -' b1 in (Locals8 b0 b1 b2 b3 b4 b5 b6 b7));
  (* inverse of round 0 *)
  (fun '(Locals8 b0 b1 b2 b3 b4 b5 b6 b7) => let tmp := b7 ^' b6 in let b7 := (tmp >>' 37) |' (tmp <<' (64 - 37)) in let b6 := b6 -' (b7 +' k6 +' t1) in let b7 := b7 -' k7 in (Locals8 b0 b1 b2 b3 b4 b5 b6 b7));
  (fun '(Locals8 b0 b1 b2 b3 b4 b5 b6 b7) => let tmp := b5 ^' b4 in let b5 := (tmp >>' 19) |' (tmp <<' (64 - 19)) in let b4 := b4 -' (b5 +' k4) in let b5 := b5 -' (k5 +' t0) in (Locals8 b0 b1 b2 b3 b4 b5 b6 b7));
  (fun '(Locals8 b0 b1 b2 b3 b4 b5 b6 b7) => let tmp := b3 ^' b2 in let b3 := (tmp >>' 36) |' (tmp <<' (64 - 36)) in let b2 := b2 -' (b3 +' k2) in let b3 := b3 -' k3 in (Locals8 b0 b1 b2 b3 b4 b5 b6 b7));
  (fun '(Locals8 b0 b1 b2 b3 b4 b5 b6 b7) => let tmp := b1 ^' b0 in let b1 := (tmp >>' 46) |' (tmp <<' (64 - 46)) in let b0 := b0 -' (b1 +' k0) in let b1 := b1 -' k1 in (Locals8 b0 b1 b2 b3 b4 b5 b6 b7))
].

Definition threefish512_decrypt (tf : threefish) (input output : list Z) : outcome (list Z) :=
  b0 <- index input 0 ;;
  b1 <- index input 1 ;;
  b2 <- index input 2 ;;
  b3 <- index input 3 ;;
  b4 <- index input 4 ;;
  b5 <- index input 5 ;;
  b6 <- index input 6 ;;
  b7 <- index input 7 ;;
  let k0 := arr (expanedKey tf) 0 in
  let k1 := arr (expanedKey tf) 1 in
  let k2 := arr (expanedKey tf) 2 in
  let k3 := arr (expanedKey tf) 3 in
  let k4 := arr (expanedKey tf) 4 in
  let k5 := arr (expanedKey tf) 5 in
  let k6 := arr (expanedKey tf) 6 in
  let k7 := arr (expanedKey tf) 7 in
  let k8 := arr (expanedKey tf) 8 in
  let t0 := arr (expanedTweak tf) 0 in
  let t1 := arr (expanedTweak tf) 1 in
  let t2 := arr (expanedTweak tf) 2 in
  let b0 := b0 -' k0 in
  let b1 := b1 -' k1 in
  let b2 := b2 -' k2 in
  let b3 := b3 -' k3 in
  let b4 := b4 -' k4 in
  let b5 := b5 -' (k5 +' t0) in
  let b6 := b6 -' (k6 +' t1) in
  let b7 := b7 -' (k7 +' 18) in
  let '(Locals8 b0 b1 b2 b3 b4 b5 b6 b7) := run (threefish512_decrypt_rounds k0 k1 k2 k3 k4 k5 k6 k7 k8 t0 t1 t2) (Locals8 b0 b1 b2 b3 b4 b5 b6 b7) in
  output <- store output 7 (b7) ;;
  output <- store output 6 (b6) ;;
  output <- store output 5 (b5) ;;
  output <- store output 4 (b4) ;;
  output <- store output 3 (b3) ;;
  output <- store output 2 (b2) ;;
  output <- store output 1 (b1) ;;
  output <- store output 0 (b0) ;;
  Done output.
(** *** Threefish-1024 *)

(** The local variables [b0] .. [b15] of [encrypt] and [decrypt]. *)
Inductive locals16 : Type :=
| Locals16 (b0 b1 b2 b3 b4 b5 b6 b7 b8 b9 b10 b11 b12 b13 b14 b15 : Z).

Definition threefish1024_encrypt_rounds (k0 k1 k2 k3 k4 k5 k6 k7 k8 k9 k10 k11 k12 k13 k14 k15 k16 t0 t1 t2 : Z) : list (locals16 -> locals16) := [
  (* round 0 *)
  (fun '(Locals16 b0 b1 b2 b3 b4 b5 b6 b7 b8 b9 b10 b11 b12 b13 b14 b15) => let b1 := b1 +' k1 in let b0 := b0 +' (b1 +' k0) in let b1 := ((b1 <<' 24) |' (b1 >>' (64 - 24))) ^' b0 in (Locals16 b0 b1 b2 b3 b4 b5 b6 b7 b8 b9 b10 b11 b12 b13 b14 b15));
  (fun '(Locals16 b0 b1 b2 b3 b4 b5 b6 b7 b8 b9 b10 b11 b12 b13 b14 b15) => let b3 := b3 +' k3 in let b2 := b2 +' (b3 +' k2) in let b3 := ((b3 <<' 13) |' (b3 >>' (64 - 13))) ^' b2 in (Locals16 b0 b1 b2 b3 b4 b5 b6 b7 b8 b9 b10 b11 b12 b13 b14 b15));
  (fun '(Locals16 b0 b1 b2 b3 b4 b5 b6 b7 b8 b9 b10 b11 b12 b13 b14 b15) => let b5 := b5 +' k5 in let b4 := b4 +' (b5 +' k4) in let b5 := ((b5 <<' 8) |' (b5 >>' (64 - 8))) ^' b4 in (Locals16 b0 b1 b2 b3 b4 b5 b6 b7 b8 b9 b10 b11 b12 b13 b14 b15));
  (fun '(Locals16 b0 b1 b2 b3 b4 b5 b6 b7 b8 b9 b10 b11 b12 b13 b14 b15) => let b7 := b7 +' k7 in let b6 := b6 +' (b7 +' k6) in let b7 := ((b7 <<' 47) |' (b7 >>' (64 - 47))) ^' b6 in (Locals16 b0 b1 b2 b3 b4 b5 b6 b7 b8 b9 b10 b11 b12 b13 b14 b15));
  (fun '(Locals16 b0 b1 b2 b3 b4 b5 b6 b7 b8 b9 b10 b11 b12 b13 b14 b15) => let b9 := b9 +' k9 in let b8 := b8 +' (b9 +' k8) in let b9 := ((b9 <<' 8) |' (b9 >>' (64 - 8))) ^' b8 in (Locals16 b0 b1 b2 b3 b4 b5 b6 b7 b8 b9 b10 b11 b12 b13 b14 b15));
  (fun '(Locals16 b0 b1 b2 b3 b4 b5 b6 b7 b8 b9 b10 b11 b12 b13 b14 b15) => let b11 := b11 +' k11 in let b10 := b10 +' (b11 +' k10) in let b11 := ((b11 <<' 17) |' (b11 >>' (64 - 17))) ^' b10 in (Locals16 b0 b1 b2 b3 b4 b5 b6 b7 b8 b9 b10 b11 b12 b13 b14 b15));
  (fun '(Locals16 b0 b1 b2 b3 b4 b5 b6 b7 b8 b9 b10 b11 b12 b13 b14 b15) => let b13 := b13 +' (k13 +' t0) in let b12 := b12 +' (b13 +' k12) in let b13 := ((b13 <<' 22) |' (b13 >>' (64 - 22))) ^' b12 in (Locals16 b0 b1 b2 b3 b4 b5 b6 b7 b8 b9 b10 b11 b12 b13 b14 b15));
  (fun '(Locals16 b0 b1 b2 b3 b4 b5 b6 b7 b8 b9 b10 b11 b12 b13 b14 b15) => let b15 := b15 +' k15 in let b14 := b14 +' (b15 +' k14 +' t1) in let b15 := ((b15 <<' 37) |' (b15 >>' (64 - 37))) ^' b14 in (Locals16 b0 b1 b2 b3 b4 b5 b6 b7 b8 b9 b10 b11 b12 b13 b14 b15));
  (* round 1 *)
  (fun '(Locals16 b0 b1 b2 b3 b4 b5 b6 b7 b8 b9 b10 b11 b12 b13 b14 b15) => let b0 := b0 +' b9 in let b9 := ((b9 <<' 38) |' (b9 >>' (64 - 38))) ^' b0 in (Locals16 b0 b1 b2 b3 b4 b5 b6 b7 b8 b9 b10 b11 b12 b13 b14 b15));
  (fun '(Locals16 b0 b1 b2 b3 b4 b5 b6 b7 b8 b9 b10 b11 b12 b13 b14 b15) => let b2 := b2 +' b13 in let b13 := ((b13 <<' 19) |' (b13 >>' (64 - 19))) ^' b2 in (Locals16 b0 b1 b2 b3 b4 b5 b6 b7 b8 b9 b10 b11 b12 b13 b14 b15));
  (fun '(Locals16 b0 b1 b2 b3 b4 b5 b6 b7 b8 b9 b10 b11 b12 b13 b14 b15) => let b6 := b6 +' b11 in let b11 := ((b11 <<' 10) |' (b11 >>' (64 - 10))) ^' b6 in (Locals16 b0 b1 b2 b3 b4 b5 b6 b7 b8 b9 b10 b11 b12 b13 b14 b15));
  (fun '(Locals16 b0 b1 b2 b3 b4 b5 b6 b7 b8 b9 b10 b11 b12 b13 b14 b15) => let b4 := b4 +' b15 in let b15 := ((b15 <<' 55) |' (b15 >>' (64 - 55))) ^' b4 in (Locals16 b0 b1 b2 b3 b4 b5 b6 b7 b8 b9 b10 b11 b12 b13 b14 b15));
  (fun '(Locals16 b0 b1 b2 b3 b4 b5 b6 b7 b8 b9 b10 b11 b12 b13 b14 b15) => let b10 := b10 +' b7 in let b7 := ((b7 <<' 49) |' (b7 >>' (64 - 49))) ^' b10 in (Locals16 b0 b1 b2 b3 b4 b5 b6 b7 b8 b9 b10 b11 b12 b13 b14 b15));
  (fun '(Locals16 b0 b1 b2 b3 b4 b5 b6 b7 b8 b9 b10 b11 b12 b13 b14 b15) => let b12 := b12 +' b3 in let b3 := ((b3 <<' 18) |' (b3 >>' (64 - 18))) ^' b12 in (Locals16 b0 b1 b2 b3 b4 b5 b6 b7 b8 b9 b10 b11 b12 b13 b14 b15));
  (fun '(Locals16 b0 b1 b2 b3 b4 b5 b6 b7 b8 b9 b10 b11 b12 b13 b14 b15) => let b14 := b14 +' b5 in let b5 := ((b5 <<' 23) |' (b5 >>' (64 - 23))) ^' b14 in (Locals16 b0 b1 b2 b3 b4 b5 b6 b7 b8 b9 b10 b11 b12 b13 b14 b15));
  (fun '(Locals16 b0 b1 b2 b3 b4 b5 b6 b7 b8 b9 b10 b11 b12 b13 b14 b15) => let b8 := b8 +' b1 in let b1 := ((b1 <<' 52) |' (b1 >>' (64 - 52))) ^' b8 in (Locals16 b0 b1 b2 b3 b4 b5 b6 b7 b8 b9 b10 b11 b12 b13 b14 b15));
  (* round 2 *)
  (fun '(Locals16 b0 b1 b2 b3 b4 b5 b6 b7 b8 b9 b10 b11 b12 b13 b14 b15) => let b0 := b0 +' b7 in let b7 := ((b7 <<' 33) |' (b7 >>' (64 - 33))) ^' b0 in (Locals16 b0 b1 b2 b3 b4 b5 b6 b7 b8 b9 b10 b11 b12 b13 b14 b15));
  (fun '(Locals16 b0 b1 b2 b3 b4 b5 b6 b7 b8 b9 b10 b11 b12 b13 b14 b15) => let b2 := b2 +' b5 in let b5 := ((b5 <<' 4) |' (b5 >>' (64 - 4))) ^' b2 in (Locals16 b0 b1 b2 b3 b4 b5 b6 b7 b8 b9 b10 b11 b12 b13 b14 b15));
  (fun '(Locals16 b0 b1 b2 b3 b4 b5 b6 b7 b8 b9 b10 b11 b12 b13 b14 b15) => let b4 := b4 +' b3 in let b3 := ((b3 <<' 51) |' (b3 >>' (64 - 51))) ^' b4 in (Locals16 b0 b1 b2 b3 b4 b5 b6 b7 b8 b9 b10 b11 b12 b13 b14 b15));
  (fun '(Locals16 b0 b1 b2 b3 b4 b5 b6 b7 b8 b9 b10 b11 b12 b13 b14 b15) => let b6 := b6 +' b1 in let b1 := ((b1 <<' 13) |' (b1 >>' (64 - 13))) ^' b6 in (Locals16 b0 b1 b2 b3 b4 b5 b6 b7 b8 b9 b10 b11 b12 b13 b14 b15));
  (fun '(Locals16 b0 b1 b2 b3 b4 b5 b6 b7 b8 b9 b10 b11 b12 b13 b14 b15) => let b12 := b12 +' b15 in let b15 := ((b15 <<' 34) |' (b15 >>' (64 - 34))) ^' b12 in (Locals16 b0 b1 b2 b3 b4 b5 b6 b7 b8 b9 b10 b11 b12 b13 b14 b15));
  (fun '(Locals16 b0 b1 b2 b3 b4 b5 b6 b7 b8 b9 b10 b11 b12 b13 b14 b15) => let b14 := b14 +' b13 in let b13 := ((b13 <<' 41) |' (b13 >>' (64 - 41))) ^' b14 in (Locals16 b0 b1 b2 b3 b4 b5 b6 b7 b8 b9 b10 b11 b12 b13 b14 b15));
  (fun '(Locals16 b0 b1 b2 b3 b4 b5 b6 b7 b8 b9 b10 b11 b12 b13 b14 b15) => let b8 := b8 +' b11 in let b11 := ((b11 <<' 59) |' (b11 >>' (64 - 59))) ^' b8 in (Locals16 b0 b1 b2 b3 b4 b5 b6 b7 b8 b9 b10 b11 b12 b13 b14 b15));
  (fun '(Locals16 b0 b1 b2 b3 b4 b5 b6 b7 b8 b9 b10 b11 b12 b13 b14 b15) => let b10 := b10 +' b9 in let b9 := ((b9 <<' 17) |' (b9 >>' (64 - 17))) ^' b10 in (Locals16 b0 b1 b2 b3 b4 b5 b6 b7 b8 b9 b10 b11 b12 b13 b14 b15));
  (* round 3 *)
  (fun '(Locals16 b0 b1 b2 b3 b4 b5 b6 b7 b8 b9 b10 b11 b12 b13 b14 b15) => let b0 := b0 +' b15 in let b15 := ((b15 <<' 5) |' (b15 >>' (64 - 5))) ^' b0 in (Locals16 b0 b1 b2 b3 b4 b5 b6 b7 b8 b9 b10 b11 b12 b13 b14 b15));
  (fun '(Locals16 b0 b1 b2 b3 b4 b5 b6 b7 b8 b9 b10 b11 b12 b13 b14 b15) => let b2 := b2 +' b11 in let b11 := ((b11 <<' 20) |' (b11 >>' (64 - 20))) ^' b2 in (Locals16 b0 b1 b2 b3 b4 b5 b6 b7 b8 b9 b10 b11 b12 b13 b14 b15));
  (fun '(Locals16 b0 b1 b2 b3 b4 b5 b6 b7 b8 b9 b10 b11 b12 b13 b14 b15) => let b6 := b6 +' b13 in let b13 := ((b13 <<' 48) |' (b13 >>' (64 - 48))) ^' b6 in (Locals16 b0 b1 b2 b3 b4 b5 b6 b7 b8 b9 b10 b11 b12 b13 b14 b15));
  (fun '(Locals16 b0 b1 b2 b3 b4 b5 b6 b7 b8 b9 b10 b11 b12 b13 b14 b15) => let b4 := b4 +' b9 in let b9 := ((b9 <<' 41) |' (b9 >>' (64 - 41))) ^' b4 in (Locals16 b0 b1 b2 b3 b4 b5 b6 b7 b8 b9 b10 b11 b12 b13 b14 b15));
  (fun '(Locals16 b0 b1 b2 b3 b4 b5 b6 b7 b8 b9 b10 b11 b12 b13 b14 b15) => let b14 := b14 +' b1 in let b1 := ((b1 <<' 47) |' (b1 >>' (64 - 47))) ^' b14 in (Locals16 b0 b1 b2 b3 b4 b5 b6 b7 b8 b9 b10 b11 b12 b13 b14 b15));
  (fun '(Locals16 b0 b1 b2 b3 b4 b5 b6 b7 b8 b9 b10 b11 b12 b13 b14 b15) => let b8 := b8 +' b5 in let b5 := ((b5 <<' 28) |' (b5 >>' (64 - 28))) ^' b8 in (Locals16 b0 b1 b2 b3 b4 b5 b6 b7 b8 b9 b10 b11 b12 b13 b14 b15));
  (fun '(Locals16 b0 b1 b2 b3 b4 b5 b6 b7 b8 b9 b10 b11 b12 b13 b14 b15) => let b10 := b10 +' b3 in let b3 := ((b3 <<' 16) |' (b3 >>' (64 - 16))) ^' b10 in (Locals16 b0 b1 b2 b3 b4 b5 b6 b7 b8 b9 b10 b11 b12 b13 b14 b15));
  (fun '(Locals16 b0 b1 b2 b3 b4 b5 b6 b7 b8 b9 b10 b11 b12 b13 b14 b15) => let b12 := b12 +' b7 in let b7 := ((b7 <<' 25) |' (b7 >>' (64 - 25))) ^' b12 in (Locals16 b0 b1 b2 b3 b4 b5 b6 b7 b8 b9 b10 b11 b12 b13 b14 b15));
  (* round 4 *)
  (fun '(Locals16 b0 b1 b2 b3 b4 b5 b6 b7 b8 b9 b10 b11 b12 b13 b14 b15) => let b1 := b1 +' k2 in let b0 := b0 +' (b1 +' k1) in let b1 := ((b1 <<' 41) |' (b1 >>' (64 - 41))) ^' b0 in (Locals16 b0 b1 b2 b3 b4 b5 b6 b7 b8 b9 b10 b11 b12 b13 b14 b15));
  (fun '(Locals16 b0 b1 b2 b3 b4 b5 b6 b7 b8 b9 b10 b11 b12 b13 b14 b15) => let b3 := b3 +' k4 in let b2 := b2 +' (b3 +' k3) in let b3 := ((b3 <<' 9) |' (b3 >>' (64 - 9))) ^' b2 in (Locals16 b0 b1 b2 b3 b4 b5 b6 b7 b8 b9 b10 b11 b12 b13 b14 b15));
  (fun '(Locals16 b0 b1 b2 b3 b4 b5 b6 b7 b8 b9 b10 b11 b12 b13 b14 b15) => let b5 := b5 +' k6 in let b4 := b4 +' (b5 +' k5) in let b5 := ((b5 <<' 37) |' (b5 >>' (64 - 37))) ^' b4 in (Locals16 b0 b1 b2 b3 b4 b5 b6 b7 b8 b9 b10 b11 b12 b13 b14 b15));
  (fun '(Locals16 b0 b1 b2 b3 b4 b5 b6 b7 b8 b9 b10 b11 b12 b13 b14 b15) => let b7 := b7 +' k8 in let b6 := b6 +' (b7 +' k7) in let b7 := ((b7 <<' 31) |' (b7 >>' (64 - 31))) ^' b6 in (Locals16 b0 b1 b2 b3 b4 b5 b6 b7 b8 b9 b10 b11 b12 b13 b14 b15));
  (fun '(Locals16 b0 b1 b2 b3 b4 b5 b6 b7 b8 b9 b10 b11 b12 b13 b14 b15) => let b9 := b9 +' k10 in let b8 := b8 +' (b9 +' k9) in let b9 := ((b9 <<' 12) |' (b9 >>' (64 - 12))) ^' b8 in (Locals16 b0 b1 b2 b3 b4 b5 b6 b7 b8 b9 b10 b11 b12 b13 b14 b15));
  (fun '(Locals16 b0 b1 b2 b3 b4 b5 b6 b7 b8 b9 b10 b11 b12 b13 b14 b15) => let b11 := b11 +' k12 in let b10 := b10 +' (b11 +' k11) in let b11 := ((b11 <<' 47) |' (b11 >>' (64 - 47))) ^' b10 in (Locals16 b0 b1 b2 b3 b4 b5 b6 b7 b8 b9 b10 b11 b12 b13 b14 b15));
  (fun '(Locals16 b0 b1 b2 b3 b4 b5 b6 b7 b8 b9 b10 b11 b12 b13 b14 b15) => let b13 := b13 +' (k14 +' t1) in let b12 := b12 +' (b13 +' k13) in let b13 := ((b13 <<' 44) |' (b13 >>' (64 - 44))) ^' b12 in (Locals16 b0 b1 b2 b3 b4 b5 b6 b7 b8 b9 b10 b11 b12 b13 b14 b15));
  (fun '(Locals16 b0 b1 b2 b3 b4 b5 b6 b7 b8 b9 b10 b11 b12 b13 b14 b15) => let b15 := b15 +' (k16 +' 1) in let b14 := b14 +' (b15 +' k15 +' t2) in let b15 := ((b15 <<' 30) |' (b15 >>' (64 - 30))) ^' b14 in (Locals16 b0 b1 b2 b3 b4 b5 b6 b7 b8 b9 b10 b11 b12 b13 b14 b15));
  (* round 5 *)
  (fun '(Locals16 b0 b1 b2 b3 b4 b5 b6 b7 b8 b9 b10 b11 b12 b13 b14 b15) => let b0 := b0 +' b9 in let b9 := ((b9 <<' 16) |' (b9 >>' (64 - 16))) ^' b0 in (Locals16 b0 b1 b2 b3 b4 b5 b6 b7 b8 b9 b10 b11 b12 b13 b14 b15));
  (fun '(Locals16 b0 b1 b2 b3 b4 b5 b6 b7 b8 b9 b10 b11 b12 b13 b14 b15) => let b2 := b2 +' b13 in let b13 := ((b13 <<' 34) |' (b13 >>' (64 - 34))) ^' b2 in (Locals16 b0 b1 b2 b3 b4 b5 b6 b7 b8 b9 b10 b11 b12 b13 b14 b15));
  (fun '(Locals16 b0 b1 b2 b3 b4 b5 b6 b7 b8 b9 b10 b11 b12 b13 b14 b15) => let b6 := b6 +' b11 in let b11 := ((b11 <<' 56) |' (b11 >>' (64 - 56))) ^' b6 in (Locals16 b0 b1 b2 b3 b4 b5 b6 b7 b8 b9 b10 b11 b12 b13 b14 b15));
  (fun '(Locals16 b0 b1 b2 b3 b4 b5 b6 b7 b8 b9 b10 b11 b12 b13 b14 b15) => let b4 := b4 +' b15 in let b15 := ((b15 <<' 51) |' (b15 >>' (64 - 51))) ^' b4 in (Locals16 b0 b1 b2 b3 b4 b5 b6 b7 b8 b9 b10 b11 b12 b13 b14 b15));
  (fun '(Locals16 b0 b1 b2 b3 b4 b5 b6 b7 b8 b9 b10 b11 b12 b13 b14 b15) => let b10 := b10 +' b7 in let b7 := ((b7 <<' 4) |' (b7 >>' (64 - 4))) ^' b10 in (Locals16 b0 b1 b2 b3 b4 b5 b6 b7 b8 b9 b10 b11 b12 b13 b14 b15));
  (fun '(Locals16 b0 b1 b2 b3 b4 b5 b6 b7 b8 b9 b10 b11 b12 b13 b14 b15) => let b12 := b12 +' b3 in let b3 := ((b3 <<' 53) |' (b3 >>' (64 - 53))) ^' b12 in (Locals16 b0 b1 b2 b3 b4 b5 b6 b7 b8 b9 b10 b11 b12 b13 b14 b15));
  (fun '(Locals16 b0 b1 b2 b3 b4 b5 b6 b7 b8 b9 b10 b11 b12 b13 b14 b15) => let b14 := b14 +' b5 in let b5 := ((b5 <<' 42) |' (b5 >>' (64 - 42))) ^' b14 in (Locals16 b0 b1 b2 b3 b4 b5 b6 b7 b8 b9 b10 b11 b12 b13 b14 b15));
  (fun '(Locals16 b0 b1 b2 b3 b4 b5 b6 b7 b8 b9 b10 b11 b12 b13 b14 b15) => let b8 := b8 +' b1 in let b1 := ((b1 <<' 41) |' (b1 >>' (64 - 41))) ^' b8 in (Locals16 b0 b1 b2 b3 b4 b5 b6 b7 b8 b9 b10 b11 b12 b13 b14 b15));
  (* round 6 *)
  (fun '(Locals16 b0 b1 b2 b3 b4 b5 b6 b7 b8 b9 b10 b11 b12 b13 b14 b15) => let b0 := b0 +' b7 in let b7 := ((b7 <<' 31) |' (b7 >>' (64 - 31))) ^' b0 in (Locals16 b0 b1 b2 b3 b4 b5 b6 b7 b8 b9 b10 b11 b12 b13 b14 b15));
  (fun '(Locals16 b0 b1 b2 b3 b4 b5 b6 b7 b8 b9 b10 b11 b12 b13 b14 b15) => let b2 := b2 +' b5 in let b5 := ((b5 <<' 44) |' (b5 >>' (64 - 44))) ^' b2 in (Locals16 b0 b1 b2 b3 b4 b5 b6 b7 b8 b9 b10 b11 b12 b13 b14 b15));
  (fun '(Locals16 b0 b1 b2 b3 b4 b5 b6 b7 b8 b9 b10 b11 b12 b13 b14 b15) => let b4 := b4 +' b3 in let b3 := ((b3 <<' 47) |' (b3 >>' (64 - 47))) ^' b4 in (Locals16 b0 b1 b2 b3 b4 b5 b6 b7 b8 b9 b10 b11 b12 b13 b14 b15));
  (fun '(Locals16 b0 b1 b2 b3 b4 b5 b6 b7 b8 b9 b10 b11 b12 b13 b14 b15) => let b6 := b6 +' b1 in let b1 := ((b1 <<' 46) |' (b1 >>' (64 - 46))) ^' b6 in (Locals16 b0 b1 b2 b3 b4 b5 b6 b7 b8 b9 b10 b11 b12 b13 b14 b15));
  (fun '(Locals16 b0 b1 b2 b3 b4 b5 b6 b7 b8 b9 b10 b11 b12 b13 b14 b15) => let b12 := b12 +' b15 in let b15 := ((b15 <<' 19) |' (b15 >>' (64 - 19))) ^' b12 in (Locals16 b0 b1 b2 b3 b4 b5 b6 b7 b8 b9 b10 b11 b12 b13 b14 b15));
  (fun '(Locals16 b0 b1 b2 b3 b4 b5 b6 b7 b8 b9 b10 b11 b12 b13 b14 b15) => let b14 := b14 +' b13 in let b13 := ((b13 <<' 42) |' (b13 >>' (64 - 42))) ^' b14 in (Locals16 b0 b1 b2 b3 b4 b5 b6 b7 b8 b9 b10 b11 b12 b13 b14 b15));
  (fun '(Locals16 b0 b1 b2 b3 b4 b5 b6 b7 b8 b9 b10 b11 b12 b13 b14 b15) => let b8 := b8 +' b11 in let b11 := ((b11 <<' 44) |' (b11 >>' (64 - 44))) ^' b8 in (Locals16 b0 b1 b2 b3 b4 b5 b6 b7 b8 b9 b10 b11 b12 b13 b14 b15));
  (fun '(Locals16 b0 b1 b2 b3 b4 b5 b6 b7 b8 b9 b10 b11 b12 b13 b14 b15) => let b10 := b10 +' b9 in let b9 := ((b9 <<' 25) |' (b9 >>' (64 - 25))) ^' b10 in (Locals16 b0 b1 b2 b3 b4 b5 b6 b7 b8 b9 b10 b11 b12 b13 b14 b15));
  (* round 7 *)
  (fun '(Locals16 b0 b1 b2 b3 b4 b5 b6 b7 b8 b9 b10 b11 b12 b13 b14 b15) => let b0 := b0 +' b15 in let b15 := ((b15 <<' 9) |' (b15 >>' (64 - 9))) ^' b0 in (Locals16 b0 b1 b2 b3 b4 b5 b6 b7 b8 b9 b10 b11 b12 b13 b14 b15));
  (fun '(Locals16 b0 b1 b2 b3 b4 b5 b6 b7 b8 b9 b10 b11 b12 b13 b14 b15) => let b2 := b2 +' b11 in let b11 := ((b11 <<' 48) |' (b11 >>' (64 - 48))) ^' b2 in (Locals16 b0 b1 b2 b3 b4 b5 b6 b7 b8 b9 b10 b11 b12 b13 b14 b15));
  (fun '(Locals16 b0 b1 b2 b3 b4 b5 b6 b7 b8 b9 b10 b11 b12 b13 b14 b15) => let b6 := b6 +' b13 in let b13 := ((b13 <<' 35) |' (b13 >>' (64 - 35))) ^' b6 in (Locals16 b0 b1 b2 b3 b4 b5 b6 b7 b8 b9 b10 b11 b12 b13 b14 b15));
  (fun '(Locals16 b0 b1 b2 b3 b4 b5 b6 b7 b8 b9 b10 b11 b12 b13 b14 b15) => let b4 := b4 +' b9 in let b9 := ((b9 <<' 52) |' (b9 >>' (64 - 52))) ^' b4 in (Locals16 b0 b1 b2 b3 b4 b5 b6 b7 b8 b9 b10 b11 b12 b13 b14 b15));
  (fun '(Locals16 b0 b1 b2 b3 b4 b5 b6 b7 b8 b9 b10 b11 b12 b13 b14 b15) => let b14 := b14 +' b1 in let b1 := ((b1 <<' 23) |' (b1 >>' (64 - 23))) ^' b14 in (Locals16 b0 b1 b2 b3 b4 b5 b6 b7 b8 b9 b10 b11 b12 b13 b14 b15));
  (fun '(Locals16 b0 b1 b2 b3 b4 b5 b6 b7 b8 b9 b10 b11 b12 b13 b14 b15) => let b8 := b8 +' b5 in let b5 := ((b5 <<' 31) |' (b5 >>' (64 - 31))) ^' b8 in (Locals16 b0 b1 b2 b3 b4 b5 b6 b7 b8 b9 b10 b11 b12 b13 b14 b15));
  (fun '(Locals16 b0 b1 b2 b3 b4 b5 b6 b7 b8 b9 b10 b11 b12 b13 b14 b15) => let b10 := b10 +' b3 in let b3 := ((b3 <<' 37) |' (b3 >>' (64 - 37))) ^' b10 in (Locals16 b0 b1 b2 b3 b4 b5 b6 b7 b8 b9 b10 b11 b12 b13 b14 b15));
  (fun '(Locals16 b0 b1 b2 b3 b4 b5 b6 b7 b8 b9 b10 b11 b12 b13 b14 b15) => let b12 := b12 +' b7 in let b7 := ((b7 <<' 20) |' (b7 >>' (64 - 20))) ^' b12 in (Locals16 b0 b1 b2 b3 b4 b5 b6 b7 b8 b9 b10 b11 b12 b13 b14 b15));
  (* round 8 *)
  (fun '(Locals16 b0 b1 b2 b3 b4 b5 b6 b7 b8 b9 b10 b11 b12 b13 b14 b15) => let b1 := b1 +' k3 in let b0 := b0 +' (b1 +' k2) in let b1 := ((b1 <<' 24) |' (b1 >>' (64 - 24))) ^' b0 in (Locals16 b0 b1 b2 b3 b4 b5 b6 b7 b8 b9 b10 b11 b12 b13 b14 b15));
  (fun '(Locals16 b0 b1 b2 b3 b4 b5 b6 b7 b8 b9 b10 b11 b12 b13 b14 b15) => let b3 := b3 +' k5 in let b2 := b2 +' (b3 +' k4) in let b3 := ((b3 <<' 13) |' (b3 >>' (64 - 13))) ^' b2 in (Locals16 b0 b1 b2 b3 b4 b5 b6 b7 b8 b9 b10 b11 b12 b13 b14 b15));
  (fun '(Locals16 b0 b1 b2 b3 b4 b5 b6 b7 b8 b9 b10 b11 b12 b13 b14 b15) => let b5 := b5 +' k7 in let b4 := b4 +' (b5 +' k6) in let b5 := ((b5 <<' 8) |' (b5 >>' (64 - 8))) ^' b4 in (Locals16 b0 b1 b2 b3 b4 b5 b6 b7 b8 b9 b10 b11 b12 b13 b14 b15));
  (fun '(Locals16 b0 b1 b2 b3 b4 b5 b6 b7 b8 b9 b10 b11 b12 b13 b14 b15) => let b7 := b7 +' k9 in let b6 := b6 +' (b7 +' k8) in let b7 := ((b7 <<' 47) |' (b7 >>' (64 - 47))) ^' b6 in (Locals16 b0 b1 b2 b3 b4 b5 b6 b7 b8 b9 b10 b11 b12 b13 b14 b15));
  (fun '(Locals16 b0 b1 b2 b3 b4 b5 b6 b7 b8 b9 b10 b11 b12 b13 b14 b15) => let b9 := b9 +' k11 in let b8 := b8 +' (b9 +' k10) in let b9 := ((b9 <<' 8) |' (b9 >>' (64 - 8))) ^' b8 in (Locals16 b0 b1 b2 b3 b4 b5 b6 b7 b8 b9 b10 b11 b12 b13 b14 b15));
  (fun '(Locals16 b0 b1 b2 b3 b4 b5 b6 b7 b8 b9 b10 b11 b12 b13 b14 b15) => let b11 := b11 +' k13 in let b10 := b10 +' (b11 +' k12) in let b11 := ((b11 <<' 17) |' (b11 >>' (64 - 17))) ^' b10 in (Locals16 b0 b1 b2 b3 b4 b5 b6 b7 b8 b9 b10 b11 b12 b13 b14 b15));
  (fun '(Locals16 b0 b1 b2 b3 b4 b5 b6 b7 b8 b9 b10 b11 b12 b13 b14 b15) => let b13 := b13 +' (k15 +' t2) in let b12 := b12 +' (b13 +' k14) in let b13 := ((b13 <<' 22) |' (b13 >>' (64 - 22))) ^' b12 in (Locals16 b0 b1 b2 b3 b4 b5 b6 b7 b8 b9 b10 b11 b12 b13 b14 b15));
  (fun '(Locals16 b0 b1 b2 b3 b4 b5 b6 b7 b8 b9 b10 b11 b12 b13 b14 b15) => let b15 := b15 +' (k0 +' 2) in let b14 := b14 +' (b15 +' k16 +' t0) in let b15 := ((b15 <<' 37) |' (b15 >>' (64 - 37))) ^' b14 in (Locals16 b0 b1 b2 b3 b4 b5 b6 b7 b8 b9 b10 b11 b12 b13 b14 b15));
  (* round 9 *)
  (fun '(Locals16 b0 b1 b2 b3 b4 b5 b6 b7 b8 b9 b10 b11 b12 b13 b14 b15) => let b0 := b0 +' b9 in let b9 := ((b9 <<' 38) |' (b9 >>' (64 - 38))) ^' b0 in (Locals16 b0 b1 b2 b3 b4 b5 b6 b7 b8 b9 b10 b11 b12 b13 b14 b15));
  (fun '(Locals16 b0 b1 b2 b3 b4 b5 b6 b7 b8 b9 b10 b11 b12 b13 b14 b15) => let b2 := b2 +' b13 in let b13 := ((b13 <<' 19) |' (b13 >>' (64 - 19))) ^' b2 in (Locals16 b0 b1 b2 b3 b4 b5 b6 b7 b8 b9 b10 b11 b12 b13 b14 b15));
  (fun '(Locals16 b0 b1 b2 b3 b4 b5 b6 b7 b8 b9 b10 b11 b12 b13 b14 b15) => let b6 := b6 +' b11 in let b11 := ((b11 <<' 10) |' (b11 >>' (64 - 10))) ^' b6 in (Locals16 b0 b1 b2 b3 b4 b5 b6 b7 b8 b9 b10 b11 b12 b13 b14 b15));
  (fun '(Locals16 b0 b1 b2 b3 b4 b5 b6 b7 b8 b9 b10 b11 b12 b13 b14 b15) => let b4 := b4 +' b15 in let b15 := ((b15 <<' 55) |' (b15 >>' (64 - 55))) ^' b4 in (Locals16 b0 b1 b2 b3 b4 b5 b6 b7 b8 b9 b10 b11 b12 b13 b14 b15));
  (fun '(Locals16 b0 b1 b2 b3 b4 b5 b6 b7 b8 b9 b10 b11 b12 b13 b14 b15) => let b10 := b10 +' b7 in let b7 := ((b7 <<' 49) |' (b7 >>' (64 - 49))) ^' b10 in (Locals16 b0 b1 b2 b3 b4 b5 b6 b7 b8 b9 b10 b11 b12 b13 b14 b15));
  (fun '(Locals16 b0 b1 b2 b3 b4 b5 b6 b7 b8 b9 b10 b11 b12 b13 b14 b15) => let b12 := b12 +' b3 in let b3 := ((b3 <<' 18) |' (b3 >>' (64 - 18))) ^' b12 in (Locals16 b0 b1 b2 b3 b4 b5 b6 b7 b8 b9 b10 b11 b12 b13 b14 b15));
  (fun '(Locals16 b0 b1 b2 b3 b4 b5 b6 b7 b8 b9 b10 b11 b12 b13 b14 b15) => let b14 := b14 +' b5 in let b5 := ((b5 <<' 23) |' (b5 >>' (64 - 23))) ^' b14 in (Locals16 b0 b1 b2 b3 b4 b5 b6 b7 b8 b9 b10 b11 b12 b13 b14 b15));
  (fun '(Locals16 b0 b1 b2 b3 b4 b5 b6 b7 b8 b9 b10 b11 b12 b13 b14 b15) => let b8 := b8 +' b1 in let b1 := ((b1 <<' 52) |' (b1 >>' (64 - 52))) ^' b8 in (Locals16 b0 b1 b2 b3 b4 b5 b6 b7 b8 b9 b10 b11 b12 b13 b14 b15));
  (* round 10 *)
  (fun '(Locals16 b0 b1 b2 b3 b4 b5 b6 b7 b8 b9 b10 b11 b12 b13 b14 b15) => let b0 := b0 +' b7 in let b7 := ((b7 <<' 33) |' (b7 >>' (64 - 33))) ^' b0 in (Locals16 b0 b1 b2 b3 b4 b5 b6 b7 b8 b9 b10 b11 b12 b13 b14 b15));
  (fun '(Locals16 b0 b1 b2 b3 b4 b5 b6 b7 b8 b9 b10 b11 b12 b13 b14 b15) => let b2 := b2 +' b5 in let b5 := ((b5 <<' 4) |' (b5 >>' (64 - 4))) ^' b2 in (Locals16 b0 b1 b2 b3 b4 b5 b6 b7 b8 b9 b10 b11 b12 b13 b14 b15));
  (fun '(Locals16 b0 b1 b2 b3 b4 b5 b6 b7 b8 b9 b10 b11 b12 b13 b14 b15) => let b4 := b4 +' b3 in let b3 := ((b3 <<' 51) |' (b3 >>' (64 - 51))) ^' b4 in (Locals16 b0 b1 b2 b3 b4 b5 b6 b7 b8 b9 b10 b11 b12 b13 b14 b15));
  (fun '(Locals16 b0 b1 b2 b3 b4 b5 b6 b7 b8 b9 b10 b11 b12 b13 b14 b15) => let b6 := b6 +' b1 in let b1 := ((b1 <<' 13) |' (b1 >>' (64 - 13))) ^' b6 in (Locals16 b0 b1 b2 b3 b4 b5 b6 b7 b8 b9 b10 b11 b12 b13 b14 b15));
  (fun '(Locals16 b0 b1 b2 b3 b4 b5 b6 b7 b8 b9 b10 b11 b12 b13 b14 b15) => let b12 := b12 +' b15 in let b15 := ((b15 <<' 34) |' (b15 >>' (64 - 34))) ^' b12 in (Locals16 b0 b1 b2 b3 b4 b5 b6 b7 b8 b9 b10 b11 b12 b13 b14 b15));
  (fun '(Locals16 b0 b1 b2 b3 b4 b5 b6 b7 b8 b9 b10 b11 b12 b13 b14 b15) => let b14 := b14 +' b13 in let b13 := ((b13 <<' 41) |' (b13 >>' (64 - 41))) ^' b14 in (Locals16 b0 b1 b2 b3 b4 b5 b6 b7 b8 b9 b10 b11 b12 b13 b14 b15));
  (fun '(Locals16 b0 b1 b2 b3 b4 b5 b6 b7 b8 b9 b10 b11 b12 b13 b14 b15) => let b8 := b8 +' b11 in let b11 := ((b11 <<' 59) |' (b11 >>' (64 - 59))) ^' b8 in (Locals16 b0 b1 b2 b3 b4 b5 b6 b7 b8 b9 b10 b11 b12 b13 b14 b15));
  (fun '(Locals16 b0 b1 b2 b3 b4 b5 b6 b7 b8 b9 b10 b11 b12 b13 b14 b15) => let b10 := b10 +' b9 in let b9 := ((b9 <<' 17) |' (b9 >>' (64 - 17))) ^' b10 in (Locals16 b0 b1 b2 b3 b4 b5 b6 b7 b8 b9 b10 b11 b12 b13 b14 b15));
  (* round 11 *)
  (fun '(Locals16 b0 b1 b2 b3 b4 b5 b6 b7 b8 b9 b10 b11 b12 b13 b14 b15) => let b0 := b0 +' b15 in let b15 := ((b15 <<' 5) |' (b15 >>' (64 - 5))) ^' b0 in (Locals16 b0 b1 b2 b3 b4 b5 b6 b7 b8 b9 b10 b11 b12 b13 b14 b15));
  (fun '(Locals16 b0 b1 b2 b3 b4 b5 b6 b7 b8 b9 b10 b11 b12 b13 b14 b15) => let b2 := b2 +' b11 in let b11 := ((b11 <<' 20) |' (b11 >>' (64 - 20))) ^' b2 in (Locals16 b0 b1 b2 b3 b4 b5 b6 b7 b8 b9 b10 b11 b12 b13 b14 b15));
  (fun '(Locals16 b0 b1 b2 b3 b4 b5 b6 b7 b8 b9 b10 b11 b12 b13 b14 b15) => let b6 := b6 +' b13 in let b13 := ((b13 <<' 48) |' (b13 >>' (64 - 48))) ^' b6 in (Locals16 b0 b1 b2 b3 b4 b5 b6 b7 b8 b9 b10 b11 b12 b13 b14 b15));
  (fun '(Locals16 b0 b1 b2 b3 b4 b5 b6 b7 b8 b9 b10 b11 b12 b13 b14 b15) => let b4 := b4 +' b9 in let b9 := ((b9 <<' 41) |' (b9 >>' (64 - 41))) ^' b4 in (Locals16 b0 b1 b2 b3 b4 b5 b6 b7 b8 b9 b10 b11 b12 b13 b14 b15));
  (fun '(Locals16 b0 b1 b2 b3 b4 b5 b6 b7 b8 b9 b10 b11 b12 b13 b14 b15) => let b14 := b14 +' b1 in let b1 := ((b1 <<' 47) |' (b1 >>' (64 - 47))) ^' b14 in (Locals16 b0 b1 b2 b3 b4 b5 b6 b7 b8 b9 b10 b11 b12 b13 b14 b15));
  (fun '(Locals16 b0 b1 b2 b3 b4 b5 b6 b7 b8 b9 b10 b11 b12 b13 b14 b15) => let b8 := b8 +' b5 in let b5 := ((b5 <<' 28) |' (b5 >>' (64 - 28))) ^' b8 in (Locals16 b0 b1 b2 b3 b4 b5 b6 b7 b8 b9 b10 b11 b12 b13 b14 b15));
  (fun '(Locals16 b0 b1 b2 b3 b4 b5 b6 b7 b8 b9 b10 b11 b12 b13 b14 b15) => let b10 := b10 +' b3 in let b3 := ((b3 <<' 16) |' (b3 >>' (64 - 16))) ^' b10 in (Locals16 b0 b1 b2 b3 b4 b5 b6 b7 b8 b9 b10 b11 b12 b13 b14 b15));
  (fun '(Locals16 b0 b1 b2 b3 b4 b5 b6 b7 b8 b9 b10 b11 b12 b13 b14 b15) => let b12 := b12 +' b7 in let b7 := ((b7 <<' 25) |' (b7 >>' (64 - 25))) ^' b12 in (Locals16 b0 b1 b2 b3 b4 b5 b6 b7 b8 b9 b10 b11 b12 b13 b14 b15));
  (* round 12 *)
  (fun '(Locals16 b0 b1 b2 b3 b4 b5 b6 b7 b8 b9 b10 b11 b12 b13 b14 b15) => let b1 := b1 +' k4 in let b0 := b0 +' (b1 +' k3) in let b1 := ((b1 <<' 41) |' (b1 >>' (64 - 41))) ^' b0 in (Locals16 b0 b1 b2 b3 b4 b5 b6 b7 b8 b9 b10 b11 b12 b13 b14 b15));
  (fun '(Locals16 b0 b1 b2 b3 b4 b5 b6 b7 b8 b9 b10 b11 b12 b13 b14 b15) => let b3 := b3 +' k6 in let b2 := b2 +' (b3 +' k5) in let b3 := ((b3 <<' 9) |' (b3 >>' (64 - 9))) ^' b2 in (Locals16 b0 b1 b2 b3 b4 b5 b6 b7 b8 b9 b10 b11 b12 b13 b14 b15));
  (fun '(Locals16 b0 b1 b2 b3 b4 b5 b6 b7 b8 b9 b10 b11 b12 b13 b14 b15) => let b5 := b5 +' k8 in let b4 := b4 +' (b5 +' k7) in let b5 := ((b5 <<' 37) |' (b5 >>' (64 - 37))) ^' b4 in (Locals16 b0 b1 b2 b3 b4 b5 b6 b7 b8 b9 b10 b11 b12 b13 b14 b15));
  (fun '(Locals16 b0 b1 b2 b3 b4 b5 b6 b7 b8 b9 b10 b11 b12 b13 b14 b15) => let b7 := b7 +' k10 in let b6 := b6 +' (b7 +' k9) in let b7 := ((b7 <<' 31) |' (b7 >>' (64 - 31))) ^' b6 in (Locals16 b0 b1 b2 b3 b4 b5 b6 b7 b8 b9 b10 b11 b12 b13 b14 b15));
  (fun '(Locals16 b0 b1 b2 b3 b4 b5 b6 b7 b8 b9 b10 b11 b12 b13 b14 b15) => let b9 := b9 +' k12 in let b8 := b8 +' (b9 +' k11) in let b9 := ((b9 <<' 12) |' (b9 >>' (64 - 12))) ^' b8 in (Locals16 b0 b1 b2 b3 b4 b5 b6 b7 b8 b9 b10 b11 b12 b13 b14 b15));
  (fun '(Locals16 b0 b1 b2 b3 b4 b5 b6 b7 b8 b9 b10 b11 b12 b13 b14 b15) => let b11 := b11 +' k14 in let b10 := b10 +' (b11 +' k13) in let b11 := ((b11 <<' 47) |' (b11 >>' (64 - 47))) ^' b10 in (Locals16 b0 b1 b2 b3 b4 b5 b6 b7 b8 b9 b10 b11 b12 b13 b14 b15));
  (fun '(Locals16 b0 b1 b2 b3 b4 b5 b6 b7 b8 b9 b10 b11 b12 b13 b14 b15) => let b13 := b13 +' (k16 +' t0) in let b12 := b12 +' (b13 +' k15) in let b13 := ((b13 <<' 44) |' (b13 >>' (64 - 44))) ^' b12 in (Locals16 b0 b1 b2 b3 b4 b5 b6 b7 b8 b9 b10 b11 b12 b13 b14 b15));
  (fun '(Locals16 b0 b1 b2 b3 b4 b5 b6 b7 b8 b9 b10 b11 b12 b13 b14 b15) => let b15 := b15 +' (k1 +' 3) in let b14 := b14 +' (b15 +' k0 +' t1) in let b15 := ((b15 <<' 30) |' (b15 >>' (64 - 30))) ^' b14 in (Locals16 b0 b1 b2 b3 b4 b5 b6 b7 b8 b9 b10 b11 b12 b13 b14 b15));
  (* round 13 *)
  (fun '(Locals16 b0 b1 b2 b3 b4 b5 b6 b7 b8 b9 b10 b11 b12 b13 b14 b15) => let b0 := b0 +' b9 in let b9 := ((b9 <<' 16) |' (b9 >>' (64 - 16))) ^' b0 in (Locals16 b0 b1 b2 b3 b4 b5 b6 b7 b8 b9 b10 b11 b12 b13 b14 b15));
  (fun '(Locals16 b0 b1 b2 b3 b4 b5 b6 b7 b8 b9 b10 b11 b12 b13 b14 b15) => let b2 := b2 +' b13 in let b13 := ((b13 <<' 34) |' (b13 >>' (64 - 34))) ^' b2 in (Locals16 b0 b1 b2 b3 b4 b5 b6 b7 b8 b9 b10 b11 b12 b13 b14 b15));
  (fun '(Locals16 b0 b1 b2 b3 b4 b5 b6 b7 b8 b9 b10 b11 b12 b13 b14 b15) => let b6 := b6 +' b11 in let b11 := ((b11 <<' 56) |' (b11 >>' (64 - 56))) ^' b6 in (Locals16 b0 b1 b2 b3 b4 b5 b6 b7 b8 b9 b10 b11 b12 b13 b14 b15));
  (fun '(Locals16 b0 b1 b2 b3 b4 b5 b6 b7 b8 b9 b10 b11 b12 b13 b14 b15) => let b4 := b4 +' b15 in let b15 := ((b15 <<' 51) |' (b15 >>' (64 - 51))) ^' b4 in (Locals16 b0 b1 b2 b3 b4 b5 b6 b7 b8 b9 b10 b11 b12 b13 b14 b15));
  (fun '(Locals16 b0 b1 b2 b3 b4 b5 b6 b7 b8 b9 b10 b11 b12 b13 b14 b15) => let b10 := b10 +' b7 in let b7 := ((b7 <<' 4) |' (b7 >>' (64 - 4))) ^' b10 in (Locals16 b0 b1 b2 b3 b4 b5 b6 b7 b8 b9 b10 b11 b12 b13 b14 b15));
  (fun '(Locals16 b0 b1 b2 b3 b4 b5 b6 b7 b8 b9 b10 b11 b12 b13 b14 b15) => let b12 := b12 +' b3 in let b3 := ((b3 <<' 53) |' (b3 >>' (64 - 53))) ^' b12 in (Locals16 b0 b1 b2 b3 b4 b5 b6 b7 b8 b9 b10 b11 b12 b13 b14 b15));
  (fun '(Locals16 b0 b1 b2 b3 b4 b5 b6 b7 b8 b9 b10 b11 b12 b13 b14 b15) => let b14 := b14 +' b5 in let b5 := ((b5 <<' 42) |' (b5 >>' (64 - 42))) ^' b14 in (Locals16 b0 b1 b2 b3 b4 b5 b6 b7 b8 b9 b10 b11 b12 b13 b14 b15));
  (fun '(Locals16 b0 b1 b2 b3 b4 b5 b6 b7 b8 b9 b10 b11 b12 b13 b14 b15) => let b8 := b8 +' b1 in let b1 := ((b1 <<' 41) |' (b1 >>' (64 - 41))) ^' b8 in (Locals16 b0 b1 b2 b3 b4 b5 b6 b7 b8 b9 b10 b11 b12 b13 b14 b15));
  (* round 14 *)
  (fun '(Locals16 b0 b1 b2 b3 b4 b5 b6 b7 b8 b9 b10 b11 b12 b13 b14 b15) => let b0 := b0 +' b7 in let b7 := ((b7 <<' 31) |' (b7 >>' (64 - 31))) ^' b0 in (Locals16 b0 b1 b2 b3 b4 b5 b6 b7 b8 b9 b10 b11 b12 b13 b14 b15));
  (fun '(Locals16 b0 b1 b2 b3 b4 b5 b6 b7 b8 b9 b10 b11 b12 b13 b14 b15) => let b2 := b2 +' b5 in let b5 := ((b5 <<' 44) |' (b5 >>' (64 - 44))) ^' b2 in (Locals16 b0 b1 b2 b3 b4 b5 b6 b7 b8 b9 b10 b11 b12 b13 b14 b15));
  (fun '(Locals16 b0 b1 b2 b3 b4 b5 b6 b7 b8 b9 b10 b11 b12 b13 b14 b15) => let b4 := b4 +' b3 in let b3 := ((b3 <<' 47) |' (b3 >>' (64 - 47))) ^' b4 in (Locals16 b0 b1 b2 b3 b4 b5 b6 b7 b8 b9 b10 b11 b12 b13 b14 b15));
  (fun '(Locals16 b0 b1 b2 b3 b4 b5 b6 b7 b8 b9 b10 b11 b12 b13 b14 b15) => let b6 := b6 +' b1 in let b1 := ((b1 <<' 46) |' (b1 >>' (64 - 46))) ^' b6 in (Locals16 b0 b1 b2 b3 b4 b5 b6 b7 b8 b9 b10 b11 b12 b13 b14 b15));
  (fun '(Locals16 b0 b1 b2 b3 b4 b5 b6 b7 b8 b9 b10 b11 b12 b13 b14 b15) => let b12 := b12 +' b15 in let b15 := ((b15 <<' 19) |' (b15 >>' (64 - 19))) ^' b12 in (Locals16 b0 b1 b2 b3 b4 b5 b6 b7 b8 b9 b10 b11 b12 b13 b14 b15));
  (fun '(Locals16 b0 b1 b2 b3 b4 b5 b6 b7 b8 b9 b10 b11 b12 b13 b14 b15) => let b14 := b14 +' b13 in let b13 := ((b13 <<' 42) |' (b13 >>' (64 - 42))) ^' b14 in (Locals16 b0 b1 b2 b3 b4 b5 b6 b7 b8 b9 b10 b11 b12 b13 b14 b15));
  (fun '(Locals16 b0 b1 b2 b3 b4 b5 b6 b7 b8 b9 b10 b11 b12 b13 b14 b15) => let b8 := b8 +' b11 in let b11 := ((b11 <<' 44) |' (b11 >>' (64 - 44))) ^' b8 in (Locals16 b0 b1 b2 b3 b4 b5 b6 b7 b8 b9 b10 b11 b12 b13 b14 b15));
  (fun '(Locals16 b0 b1 b2 b3 b4 b5 b6 b7 b8 b9 b10 b11 b12 b13 b14 b15) => let b10 := b10 +' b9 in let b9 := ((b9 <<' 25) |' (b9 >>' (64 - 25))) ^' b10 in (Locals16 b0 b1 b2 b3 b4 b5 b6 b7 b8 b9 b10 b11 b12 b13 b14 b15));
  (* round 15 *)
  (fun '(Locals16 b0 b1 b2 b3 b4 b5 b6 b7 b8 b9 b10 b11 b12 b13 b14 b15) => let b0 := b0 +' b15 in let b15 := ((b15 <<' 9) |' (b15 >>' (64 - 9))) ^' b0 in (Locals16 b0 b1 b2 b3 b4 b5 b6 b7 b8 b9 b10 b11 b12 b13 b14 b15));
  (fun '(Locals16 b0 b1 b2 b3 b4 b5 b6 b7 b8 b9 b10 b11 b12 b13 b14 b15) => let b2 := b2 +' b11 in let b11 := ((b11 <<' 48) |' (b11 >>' (64 - 48))) ^' b2 in (Locals16 b0 b1 b2 b3 b4 b5 b6 b7 b8 b9 b10 b11 b12 b13 b14 b15));
  (fun '(Locals16 b0 b1 b2 b3 b4 b5 b6 b7 b8 b9 b10 b11 b12 b13 b14 b15) => let b6 := b6 +' b13 in let b13 := ((b13 <<' 35) |' (b13 >>' (64 - 35))) ^' b6 in (Locals16 b0 b1 b2 b3 b4 b5 b6 b7 b8 b9 b10 b11 b12 b13 b14 b15));
  (fun '(Locals16 b0 b1 b2 b3 b4 b5 b6 b7 b8 b9 b10 b11 b12 b13 b14 b15) => let b4 := b4 +' b9 in let b9 := ((b9 <<' 52) |' (b9 >>' (64 - 52))) ^' b4 in (Locals16 b0 b1 b2 b3 b4 b5 b6 b7 b8 b9 b10 b11 b12 b13 b14 b15));
  (fun '(Locals16 b0 b1 b2 b3 b4 b5 b6 b7 b8 b9 b10 b11 b12 b13 b14 b15) => let b14 := b14 +' b1 in let b1 := ((b1 <<' 23) |' (b1 >>' (64 - 23))) ^' b14 in (Locals16 b0 b1 b2 b3 b4 b5 b6 b7 b8 b9 b10 b11 b12 b13 b14 b15));
  (fun '(Locals16 b0 b1 b2 b3 b4 b5 b6 b7 b8 b9 b10 b11 b12 b13 b14 b15) => let b8 := b8 +' b5 in let b5 := ((b5 <<' 31) |' (b5 >>' (64 - 31))) ^' b8 in (Locals16 b0 b1 b2 b3 b4 b5 b6 b7 b8 b9 b10 b11 b12 b13 b14 b15));
  (fun '(Locals16 b0 b1 b2 b3 b4 b5 b6 b7 b8 b9 b10 b11 b12 b13 b14 b15) => let b10 := b10 +' b3 in let b3 := ((b3 <<' 37) |' (b3 >>' (64 - 37))) ^' b10 in (Locals16 b0 b1 b2 b3 b4 b5 b6 b7 b8 b9 b10 b11 b12 b13 b14 b15));
  (fun '(Locals16 b0 b1 b2 b3 b4 b5 b6 b7 b8 b9 b10 b11 b12 b13 b14 b15) => let b12 := b12 +' b7 in let b7 := ((b7 <<' 20) |' (b7 >>' (64 - 20))) ^' b12 in (Locals16 b0 b1 b2 b3 b4 b5 b6 b7 b8 b9 b10 b11 b12 b13 b14 b15));
  (* round 16 *)
  (fun '(Locals16 b0 b1 b2 b3 b4 b5 b6 b7 b8 b9 b10 b11 b12 b13 b14 b15) => let b1 := b1 +' k5 in let b0 := b0 +' (b1 +' k4) in let b1 := ((b1 <<' 24) |' (b1 >>' (64 - 24))) ^' b0 in (Locals16 b0 b1 b2 b3 b4 b5 b6 b7 b8 b9 b10 b11 b12 b13 b14 b15));
  (fun '(Locals16 b0 b1 b2 b3 b4 b5 b6 b7 b8 b9 b10 b11 b12 b13 b14 b15) => let b3 := b3 +' k7 in let b2 := b2 +' (b3 +' k6) in let b3 := ((b3 <<' 13) |' (b3 >>' (64 - 13))) ^' b2 in (Locals16 b0 b1 b2 b3 b4 b5 b6 b7 b8 b9 b10 b11 b12 b13 b14 b15));
  (fun '(Locals16 b0 b1 b2 b3 b4 b5 b6 b7 b8 b9 b10 b11 b12 b13 b14 b15) => let b5 := b5 +' k9 in let b4 := b4 +' (b5 +' k8) in let b5 := ((b5 <<' 8) |' (b5 >>' (64 - 8))) ^' b4 in (Locals16 b0 b1 b2 b3 b4 b5 b6 b7 b8 b9 b10 b11 b12 b13 b14 b15));
  (fun '(Locals16 b0 b1 b2 b3 b4 b5 b6 b7 b8 b9 b10 b11 b12 b13 b14 b15) => let b7 := b7 +' k11 in let b6 := b6 +' (b7 +' k10) in let b7 := ((b7 <<' 47) |' (b7 >>' (64 - 47))) ^' b6 in (Locals16 b0 b1 b2 b3 b4 b5 b6 b7 b8 b9 b10 b11 b12 b13 b14 b15));
  (fun '(Locals16 b0 b1 b2 b3 b4 b5 b6 b7 b8 b9 b10 b11 b12 b13 b14 b15) => let b9 := b9 +' k13 in let b8 := b8 +' (b9 +' k12) in let b9 := ((b9 <<' 8) |' (b9 >>' (64 - 8))) ^' b8 in (Locals16 b0 b1 b2 b3 b4 b5 b6 b7 b8 b9 b10 b11 b12 b13 b14 b15));
  (fun '(Locals16 b0 b1 b2 b3 b4 b5 b6 b7 b8 b9 b10 b11 b12 b13 b14 b15) => let b11 := b11 +' k15 in let b10 := b10 +' (b11 +' k14) in let b11 := ((b11 <<' 17) |' (b11 >>' (64 - 17))) ^' b10 in (Locals16 b0 b1 b2 b3 b4 b5 b6 b7 b8 b9 b10 b11 b12 b13 b14 b15));
  (fun '(Locals16 b0 b1 b2 b3 b4 b5 b6 b7 b8 b9 b10 b11 b12 b13 b14 b15) => let b13 := b13 +' (k0 +' t1) in let b12 := b12 +' (b13 +' k16) in let b13 := ((b13 <<' 22) |' (b13 >>' (64 - 22))) ^' b12 in (Locals16 b0 b1 b2 b3 b4 b5 b6 b7 b8 b9 b10 b11 b12 b13 b14 b15));
  (fun '(Locals16 b0 b1 b2 b3 b4 b5 b6 b7 b8 b9 b10 b11 b12 b13 b14 b15) => let b15 := b15 +' (k2 +' 4) in let b14 := b14 +' (b15 +' k1 +' t2) in let b15 := ((b15 <<' 37) |' (b15 >>' (64 - 37))) ^' b14 in (Locals16 b0 b1 b2 b3 b4 b5 b6 b7 b8 b9 b10 b11 b12 b13 b14 b15));
  (* round 17 *)
  (fun '(Locals16 b0 b1 b2 b3 b4 b5 b6 b7 b8 b9 b10 b11 b12 b13 b14 b15) => let b0 := b0 +' b9 in let b9 := ((b9 <<' 38) |' (b9 >>' (64 - 38))) ^' b0 in (Locals16 b0 b1 b2 b3 b4 b5 b6 b7 b8 b9 b10 b11 b12 b13 b14 b15));
  (fun '(Locals16 b0 b1 b2 b3 b4 b5 b6 b7 b8 b9 b10 b11 b12 b13 b14 b15) => let b2 := b2 +' b13 in let b13 := ((b13 <<' 19) |' (b13 >>' (64 - 19))) ^' b2 in (Locals16 b0 b1 b2 b3 b4 b5 b6 b7 b8 b9 b10 b11 b12 b13 b14 b15));
  (fun '(Locals16 b0 b1 b2 b3 b4 b5 b6 b7 b8 b9 b10 b11 b12 b13 b14 b15) => let b6 := b6 +' b11 in let b11 := ((b11 <<' 10) |' (b11 >>' (64 - 10))) ^' b6 in (Locals16 b0 b1 b2 b3 b4 b5 b6 b7 b8 b9 b10 b11 b12 b13 b14 b15));
  (fun '(Locals16 b0 b1 b2 b3 b4 b5 b6 b7 b8 b9 b10 b11 b12 b13 b14 b15) => let b4 := b4 +' b15 in let b15 := ((b15 <<' 55) |' (b15 >>' (64 - 55))) ^' b4 in (Locals16 b0 b1 b2 b3 b4 b5 b6 b7 b8 b9 b10 b11 b12 b13 b14 b15));
  (fun '(Locals16 b0 b1 b2 b3 b4 b5 b6 b7 b8 b9 b10 b11 b12 b13 b14 b15) => let b10 := b10 +' b7 in let b7 := ((b7 <<' 49) |' (b7 >>' (64 - 49))) ^' b10 in (Locals16 b0 b1 b2 b3 b4 b5 b6 b7 b8 b9 b10 b11 b12 b13 b14 b15));
  (fun '(Locals16 b0 b1 b2 b3 b4 b5 b6 b7 b8 b9 b10 b11 b12 b13 b14 b15) => let b12 := b12 +' b3 in let b3 := ((b3 <<' 18) |' (b3 >>' (64 - 18))) ^' b12 in (Locals16 b0 b1 b2 b3 b4 b5 b6 b7 b8 b9 b10 b11 b12 b13 b14 b15));
  (fun '(Locals16 b0 b1 b2 b3 b4 b5 b6 b7 b8 b9 b10 b11 b12 b13 b14 b15) => let b14 := b14 +' b5 in let b5 := ((b5 <<' 23) |' (b5 >>' (64 - 23))) ^' b14 in (Locals16 b0 b1 b2 b3 b4 b5 b6 b7 b8 b9 b10 b11 b12 b13 b14 b15));
  (fun '(Locals16 b0 b1 b2 b3 b4 b5 b6 b7 b8 b9 b10 b11 b12 b13 b14 b15) => let b8 := b8 +' b1 in let b1 := ((b1 <<' 52) |' (b1 >>' (64 - 52))) ^' b8 in (Locals16 b0 b1 b2 b3 b4 b5 b6 b7 b8 b9 b10 b11 b12 b13 b14 b15));
  (* round 18 *)
  (fun '(Locals16 b0 b1 b2 b3 b4 b5 b6 b7 b8 b9 b10 b11 b12 b13 b14 b15) => let b0 := b0 +' b7 in let b7 := ((b7 <<' 33) |' (b7 >>' (64 - 33))) ^' b0 in (Locals16 b0 b1 b2 b3 b4 b5 b6 b7 b8 b9 b10 b11 b12 b13 b14 b15));
  (fun '(Locals16 b0 b1 b2 b3 b4 b5 b6 b7 b8 b9 b10 b11 b12 b13 b14 b15) => let b2 := b2 +' b5 in let b5 := ((b5 <<' 4) |' (b5 >>' (64 - 4))) ^' b2 in (Locals16 b0 b1 b2 b3 b4 b5 b6 b7 b8 b9 b10 b11 b12 b13 b14 b15));
  (fun '(Locals16 b0 b1 b2 b3 b4 b5 b6 b7 b8 b9 b10 b11 b12 b13 b14 b15) => let b4 := b4 +' b3 in let b3 := ((b3 <<' 51) |' (b3 >>' (64 - 51))) ^' b4 in (Locals16 b0 b1 b2 b3 b4 b5 b6 b7 b8 b9 b10 b11 b12 b13 b14 b15));
  (fun '(Locals16 b0 b1 b2 b3 b4 b5 b6 b7 b8 b9 b10 b11 b12 b13 b14 b15) => let b6 := b6 +' b1 in let b1 := ((b1 <<' 13) |' (b1 >>' (64 - 13))) ^' b6 in (Locals16 b0 b1 b2 b3 b4 b5 b6 b7 b8 b9 b10 b11 b12 b13 b14 b15));
  (fun '(Locals16 b0 b1 b2 b3 b4 b5 b6 b7 b8 b9 b10 b11 b12 b13 b14 b15) => let b12 := b12 +' b15 in let b15 := ((b15 <<' 34) |' (b15 >>' (64 - 34))) ^' b12 in (Locals16 b0 b1 b2 b3 b4 b5 b6 b7 b8 b9 b10 b11 b12 b13 b14 b15));
  (fun '(Locals16 b0 b1 b2 b3 b4 b5 b6 b7 b8 b9 b10 b11 b12 b13 b14 b15) => let b14 := b14 +' b13 in let b13 := ((b13 <<' 41) |' (b13 >>' (64 - 41))) ^' b14 in (Locals16 b0 b1 b2 b3 b4 b5 b6 b7 b8 b9 b10 b11 b12 b13 b14 b15));
  (fun '(Locals16 b0 b1 b2 b3 b4 b5 b6 b7 b8 b9 b10 b11 b12 b13 b14 b15) => let b8 := b8 +' b11 in let b11 := ((b11 <<' 59) |' (b11 >>' (64 - 59))) ^' b8 in (Locals16 b0 b1 b2 b3 b4 b5 b6 b7 b8 b9 b10 b11 b12 b13 b14 b15));
  (fun '(Locals16 b0 b1 b2 b3 b4 b5 b6 b7 b8 b9 b10 b11 b12 b13 b14 b15) => let b10 := b10 +' b9 in let b9 := ((b9 <<' 17) |' (b9 >>' (64 - 17))) ^' b10 in (Locals16 b0 b1 b2 b3 b4 b5 b6 b7 b8 b9 b10 b11 b12 b13 b14 b15));
  (* round 19 *)
  (fun '(Locals16 b0 b1 b2 b3 b4 b5 b6 b7 b8 b9 b10 b11 b12 b13 b14 b15) => let b0 := b0 +' b15 in let b15 := ((b15 <<' 5) |' (b15 >>' (64 - 5))) ^' b0 in (Locals16 b0 b1 b2 b3 b4 b5 b6 b7 b8 b9 b10 b11 b12 b13 b14 b15));
  (fun '(Locals16 b0 b1 b2 b3 b4 b5 b6 b7 b8 b9 b10 b11 b12 b13 b14 b15) => let b2 := b2 +' b11 in let b11 := ((b11 <<' 20) |' (b11 >>' (64 - 20))) ^' b2 in (Locals16 b0 b1 b2 b3 b4 b5 b6 b7 b8 b9 b10 b11 b12 b13 b14 b15));
  (fun '(Locals16 b0 b1 b2 b3 b4 b5 b6 b7 b8 b9 b10 b11 b12 b13 b14 b15) => let b6 := b6 +' b13 in let b13 := ((b13 <<' 48) |' (b13 >>' (64 - 48))) ^' b6 in (Locals16 b0 b1 b2 b3 b4 b5 b6 b7 b8 b9 b10 b11 b12 b13 b14 b15));
  (fun '(Locals16 b0 b1 b2 b3 b4 b5 b6 b7 b8 b9 b10 b11 b12 b13 b14 b15) => let b4 := b4 +' b9 in let b9 := ((b9 <<' 41) |' (b9 >>' (64 - 41))) ^' b4 in (Locals16 b0 b1 b2 b3 b4 b5 b6 b7 b8 b9 b10 b11 b12 b13 b14 b15));
  (fun '(Locals16 b0 b1 b2 b3 b4 b5 b6 b7 b8 b9 b10 b11 b12 b13 b14 b15) => let b14 := b14 +' b1 in let b1 := ((b1 <<' 47) |' (b1 >>' (64 - 47))) ^' b14 in (Locals16 b0 b1 b2 b3 b4 b5 b6 b7 b8 b9 b10 b11 b12 b13 b14 b15));
  (fun '(Locals16 b0 b1 b2 b3 b4 b5 b6 b7 b8 b9 b10 b11 b12 b13 b14 b15) => let b8 := b8 +' b5 in let b5 := ((b5 <<' 28) |' (b5 >>' (64 - 28))) ^' b8 in (Locals16 b0 b1 b2 b3 b4 b5 b6 b7 b8 b9 b10 b11 b12 b13 b14 b15));
  (fun '(Locals16 b0 b1 b2 b3 b4 b5 b6 b7 b8 b9 b10 b11 b12 b13 b14 b15) => let b10 := b10 +' b3 in let b3 := ((b3 <<' 16) |' (b3 >>' (64 - 16))) ^' b10 in (Locals16 b0 b1 b2 b3 b4 b5 b6 b7 b8 b9 b10 b11 b12 b13 b14 b15));
  (fun '(Locals16 b0 b1 b2 b3 b4 b5 b6 b7 b8 b9 b10 b11 b12 b13 b14 b15) => let b12 := b12 +' b7 in let b7 := ((b7 <<' 25) |' (b7 >>' (64 - 25))) ^' b12 in (Locals16 b0 b1 b2 b3 b4 b5 b6 b7 b8 b9 b10 b11 b12 b13 b14 b15));
  (* round 20 *)
  (fun '(Locals16 b0 b1 b2 b3 b4 b5 b6 b7 b8 b9 b10 b11 b12 b13 b14 b15) => let b1 := b1 +' k6 in let b0 := b0 +' (b1 +' k5) in let b1 := ((b1 <<' 41) |' (b1 >>' (64 - 41))) ^' b0 in (Locals16 b0 b1 b2 b3 b4 b5 b6 b7 b8 b9 b10 b11 b12 b13 b14 b15));
  (fun '(Locals16 b0 b1 b2 b3 b4 b5 b6 b7 b8 b9 b10 b11 b12 b13 b14 b15) => let b3 := b3 +' k8 in let b2 := b2 +' (b3 +' k7) in let b3 := ((b3 <<' 9) |' (b3 >>' (64 - 9))) ^' b2 in (Locals16 b0 b1 b2 b3 b4 b5 b6 b7 b8 b9 b10 b11 b12 b13 b14 b15));
  (fun '(Locals16 b0 b1 b2 b3 b4 b5 b6 b7 b8 b9 b10 b11 b12 b13 b14 b15) => let b5 := b5 +' k10 in let b4 := b4 +' (b5 +' k9) in let b5 := ((b5 <<' 37) |' (b5 >>' (64 - 37))) ^' b4 in (Locals16 b0 b1 b2 b3 b4 b5 b6 b7 b8 b9 b10 b11 b12 b13 b14 b15));
  (fun '(Locals16 b0 b1 b2 b3 b4 b5 b6 b7 b8 b9 b10 b11 b12 b13 b14 b15) => let b7 := b7 +' k12 in let b6 := b6 +' (b7 +' k11) in let b7 := ((b7 <<' 31) |' (b7 >>' (64 - 31))) ^' b6 in (Locals16 b0 b1 b2 b3 b4 b5 b6 b7 b8 b9 b10 b11 b12 b13 b14 b15));
  (fun '(Locals16 b0 b1 b2 b3 b4 b5 b6 b7 b8 b9 b10 b11 b12 b13 b14 b15) => let b9 := b9 +' k14 in let b8 := b8 +' (b9 +' k13) in let b9 := ((b9 <<' 12) |' (b9 >>' (64 - 12))) ^' b8 in (Locals16 b0 b1 b2 b3 b4 b5 b6 b7 b8 b9 b10 b11 b12 b13 b14 b15));
  (fun '(Locals16 b0 b1 b2 b3 b4 b5 b6 b7 b8 b9 b10 b11 b12 b13 b14 b15) => let b11 := b11 +' k16 in let b10 := b10 +' (b11 +' k15) in let b11 := ((b11 <<' 47) |' (b11 >>' (64 - 47))) ^' b10 in (Locals16 b0 b1 b2 b3 b4 b5 b6 b7 b8 b9 b10 b11 b12 b13 b14 b15));
  (fun '(Locals16 b0 b1 b2 b3 b4 b5 b6 b7 b8 b9 b10 b11 b12 b13 b14 b15) => let b13 := b13 +' (k1 +' t2) in let b12 := b12 +' (b13 +' k0) in let b13 := ((b13 <<' 44) |' (b13 >>' (64 - 44))) ^' b12 in (Locals16 b0 b1 b2 b3 b4 b5 b6 b7 b8 b9 b10 b11 b12 b13 b14 b15));
  (fun '(Locals16 b0 b1 b2 b3 b4 b5 b6 b7 b8 b9 b10 b11 b12 b13 b14 b15) => let b15 := b15 +' (k3 +' 5) in let b14 := b14 +' (b15 +' k2 +' t0) in let b15 := ((b15 <<' 30) |' (b15 >>' (64 - 30))) ^' b14 in (Locals16 b0 b1 b2 b3 b4 b5 b6 b7 b8 b9 b10 b11 b12 b13 b14 b15));
  (* round 21 *)
  (fun '(Locals16 b0 b1 b2 b3 b4 b5 b6 b7 b8 b9 b10 b11 b12 b13 b14 b15) => let b0 := b0 +' b9 in let b9 := ((b9 <<' 16) |' (b9 >>' (64 - 16))) ^' b0 in (Locals16 b0 b1 b2 b3 b4 b5 b6 b7 b8 b9 b10 b11 b12 b13 b14 b15));
  (fun '(Locals16 b0 b1 b2 b3 b4 b5 b6 b7 b8 b9 b10 b11 b12 b13 b14 b15) => let b2 := b2 +' b13 in let b13 := ((b13 <<' 34) |' (b13 >>' (64 - 34))) ^' b2 in (Locals16 b0 b1 b2 b3 b4 b5 b6 b7 b8 b9 b10 b11 b12 b13 b14 b15));
  (fun '(Locals16 b0 b1 b2 b3 b4 b5 b6 b7 b8 b9 b10 b11 b12 b13 b14 b15) => let b6 := b6 +' b11 in let b11 := ((b11 <<' 56) |' (b11 >>' (64 - 56))) ^' b6 in (Locals16 b0 b1 b2 b3 b4 b5 b6 b7 b8 b9 b10 b11 b12 b13 b14 b15));
  (fun '(Locals16 b0 b1 b2 b3 b4 b5 b6 b7 b8 b9 b10 b11 b12 b13 b14 b15) => let b4 := b4 +' b15 in let b15 := ((b15 <<' 51) |' (b15 >>' (64 - 51))) ^' b4 in (Locals16 b0 b1 b2 b3 b4 b5 b6 b7 b8 b9 b10 b11 b12 b13 b14 b15));
  (fun '(Locals16 b0 b1 b2 b3 b4 b5 b6 b7 b8 b9 b10 b11 b12 b13 b14 b15) => let b10 := b10 +' b7 in let b7 := ((b7 <<' 4) |' (b7 >>' (64 - 4))) ^' b10 in (Locals16 b0 b1 b2 b3 b4 b5 b6 b7 b8 b9 b10 b11 b12 b13 b14 b15));
  (fun '(Locals16 b0 b1 b2 b3 b4 b5 b6 b7 b8 b9 b10 b11 b12 b13 b14 b15) => let b12 := b12 +' b3 in let b3 := ((b3 <<' 53) |' (b3 >>' (64 - 53))) ^' b12 in (Locals16 b0 b1 b2 b3 b4 b5 b6 b7 b8 b9 b10 b11 b12 b13 b14 b15));
  (fun '(Locals16 b0 b1 b2 b3 b4 b5 b6 b7 b8 b9 b10 b11 b12 b13 b14 b15) => let b14 := b14 +' b5 in let b5 := ((b5 <<' 42) |' (b5 >>' (64 - 42))) ^' b14 in (Locals16 b0 b1 b2 b3 b4 b5 b6 b7 b8 b9 b10 b11 b12 b13 b14 b15));
  (fun '(Locals16 b0 b1 b2 b3 b4 b5 b6 b7 b8 b9 b10 b11 b12 b13 b14 b15) => let b8 := b8 +' b1 in let b1 := ((b1 <<' 41) |' (b1 >>' (64 - 41))) ^' b8 in (Locals16 b0 b1 b2 b3 b4 b5 b6 b7 b8 b9 b10 b11 b12 b13 b14 b15));
  (* round 22 *)
  (fun '(Locals16 b0 b1 b2 b3 b4 b5 b6 b7 b8 b9 b10 b11 b12 b13 b14 b15) => let b0 := b0 +' b7 in let b7 := ((b7 <<' 31) |' (b7 >>' (64 - 31))) ^' b0 in (Locals16 b0 b1 b2 b3 b4 b5 b6 b7 b8 b9 b10 b11 b12 b13 b14 b15));
  (fun '(Locals16 b0 b1 b2 b3 b4 b5 b6 b7 b8 b9 b10 b11 b12 b13 b14 b15) => let b2 := b2 +' b5 in let b5 := ((b5 <<' 44) |' (b5 >>' (64 - 44))) ^' b2 in (Locals16 b0 b1 b2 b3 b4 b5 b6 b7 b8 b9 b10 b11 b12 b13 b14 b15));
  (fun '(Locals16 b0 b1 b2 b3 b4 b5 b6 b7 b8 b9 b10 b11 b12 b13 b14 b15) => let b4 := b4 +' b3 in let b3 := ((b3 <<' 47) |' (b3 >>' (64 - 47))) ^' b4 in (Locals16 b0 b1 b2 b3 b4 b5 b6 b7 b8 b9 b10 b11 b12 b13 b14 b15));
  (fun '(Locals16 b0 b1 b2 b3 b4 b5 b6 b7 b8 b9 b10 b11 b12 b13 b14 b15) => let b6 := b6 +' b1 in let b1 := ((b1 <<' 46) |' (b1 >>' (64 - 46))) ^' b6 in (Locals16 b0 b1 b2 b3 b4 b5 b6 b7 b8 b9 b10 b11 b12 b13 b14 b15));
  (fun '(Locals16 b0 b1 b2 b3 b4 b5 b6 b7 b8 b9 b10 b11 b12 b13 b14 b15) => let b12 := b12 +' b15 in let b15 := ((b15 <<' 19) |' (b15 >>' (64 - 19))) ^' b12 in (Locals16 b0 b1 b2 b3 b4 b5 b6 b7 b8 b9 b10 b11 b12 b13 b14 b15));
  (fun '(Locals16 b0 b1 b2 b3 b4 b5 b6 b7 b8 b9 b10 b11 b12 b13 b14 b15) => let b14 := b14 +' b13 in let b13 := ((b13 <<' 42) |' (b13 >>' (64 - 42))) ^' b14 in (Locals16 b0 b1 b2 b3 b4 b5 b6 b7 b8 b9 b10 b11 b12 b13 b14 b15));
  (fun '(Locals16 b0 b1 b2 b3 b4 b5 b6 b7 b8 b9 b10 b11 b12 b13 b14 b15) => let b8 := b8 +' b11 in let b11 := ((b11 <<' 44) |' (b11 >>' (64 - 44))) ^' b8 in (Locals16 b0 b1 b2 b3 b4 b5 b6 b7 b8 b9 b10 b11 b12 b13 b14 b15));
  (fun '(Locals16 b0 b1 b2 b3 b4 b5 b6 b7 b8 b9 b10 b11 b12 b13 b14 b15) => let b10 := b10 +' b9 in let b9 := ((b9 <<' 25) |' (b9 >>' (64 - 25))) ^' b10 in (Locals16 b0 b1 b2 b3 b4 b5 b6 b7 b8 b9 b10 b11 b12 b13 b14 b15));
  (* round 23 *)
  (fun '(Locals16 b0 b1 b2 b3 b4 b5 b6 b7 b8 b9 b10 b11 b12 b13 b14 b15) => let b0 := b0 +' b15 in let b15 := ((b15 <<' 9) |' (b15 >>' (64 - 9))) ^' b0 in (Locals16 b0 b1 b2 b3 b4 b5 b6 b7 b8 b9 b10 b11 b12 b13 b14 b15));
  (fun '(Locals16 b0 b1 b2 b3 b4 b5 b6 b7 b8 b9 b10 b11 b12 b13 b14 b15) => let b2 := b2 +' b11 in let b11 := ((b11 <<' 48) |' (b11 >>' (64 - 48))) ^' b2 in (Locals16 b0 b1 b2 b3 b4 b5 b6 b7 b8 b9 b10 b11 b12 b13 b14 b15));
  (fun '(Locals16 b0 b1 b2 b3 b4 b5 b6 b7 b8 b9 b10 b11 b12 b13 b14 b15) => let b6 := b6 +' b13 in let b13 := ((b13 <<' 35) |' (b13 >>' (64 - 35))) ^' b6 in (Locals16 b0 b1 b2 b3 b4 b5 b6 b7 b8 b9 b10 b11 b12 b13 b14 b15));
  (fun '(Locals16 b0 b1 b2 b3 b4 b5 b6 b7 b8 b9 b10 b11 b12 b13 b14 b15) => let b4 := b4 +' b9 in let b9 := ((b9 <<' 52) |' (b9 >>' (64 - 52))) ^' b4 in (Locals16 b0 b1 b2 b3 b4 b5 b6 b7 b8 b9 b10 b11 b12 b13 b14 b15));
  (fun '(Locals16 b0 b1 b2 b3 b4 b5 b6 b7 b8 b9 b10 b11 b12 b13 b14 b15) => let b14 := b14 +' b1 in let b1 := ((b1 <<' 23) |' (b1 >>' (64 - 23))) ^' b14 in (Locals16 b0 b1 b2 b3 b4 b5 b6 b7 b8 b9 b10 b11 b12 b13 b14 b15));
  (fun '(Locals16 b0 b1 b2 b3 b4 b5 b6 b7 b8 b9 b10 b11 b12 b13 b14 b15) => let b8 := b8 +' b5 in let b5 := ((b5 <<' 31) |' (b5 >>' (64 - 31))) ^' b8 in (Locals16 b0 b1 b2 b3 b4 b5 b6 b7 b8 b9 b10 b11 b12 b13 b14 b15));
  (fun '(Locals16 b0 b1 b2 b3 b4 b5 b6 b7 b8 b9 b10 b11 b12 b13 b14 b15) => let b10 := b10 +' b3 in let b3 := ((b3 <<' 37) |' (b3 >>' (64 - 37))) ^' b10 in (Locals16 b0 b1 b2 b3 b4 b5 b6 b7 b8 b9 b10 b11 b12 b13 b14 b15));
  (fun '(Locals16 b0 b1 b2 b3 b4 b5 b6 b7 b8 b9 b10 b11 b12 b13 b14 b15) => let b12 := b12 +' b7 in let b7 := ((b7 <<' 20) |' (b7 >>' (64 - 20))) ^' b12 in (Locals16 b0 b1 b2 b3 b4 b5 b6 b7 b8 b9 b10 b11 b12 b13 b14 b15));
  (* round 24 *)
  (fun '(Locals16 b0 b1 b2 b3 b4 b5 b6 b7 b8 b9 b10 b11 b12 b13 b14 b15) => let b1 := b1 +' k7 in let b0 := b0 +' (b1 +' k6) in let b1 := ((b1 <<' 24) |' (b1 >>' (64 - 24))) ^' b0 in (Locals16 b0 b1 b2 b3 b4 b5 b6 b7 b8 b9 b10 b11 b12 b13 b14 b15));
  (fun '(Locals16 b0 b1 b2 b3 b4 b5 b6 b7 b8 b9 b10 b11 b12 b13 b14 b15) => let b3 := b3 +' k9 in let b2 := b2 +' (b3 +' k8) in let b3 := ((b3 <<' 13) |' (b3 >>' (64 - 13))) ^' b2 in (Locals16 b0 b1 b2 b3 b4 b5 b6 b7 b8 b9 b10 b11 b12 b13 b14 b15));
  (fun '(Locals16 b0 b1 b2 b3 b4 b5 b6 b7 b8 b9 b10 b11 b12 b13 b14 b15) => let b5 := b5 +' k11 in let b4 := b4 +' (b5 +' k10) in let b5 := ((b5 <<' 8) |' (b5 >>' (64 - 8))) ^' b4 in (Locals16 b0 b1 b2 b3 b4 b5 b6 b7 b8 b9 b10 b11 b12 b13 b14 b15));
  (fun '(Locals16 b0 b1 b2 b3 b4 b5 b6 b7 b8 b9 b10 b11 b12 b13 b14 b15) => let b7 := b7 +' k13 in let b6 := b6 +' (b7 +' k12) in let b7 := ((b7 <<' 47) |' (b7 >>' (64 - 47))) ^' b6 in (Locals16 b0 b1 b2 b3 b4 b5 b6 b7 b8 b9 b10 b11 b12 b13 b14 b15));
  (fun '(Locals16 b0 b1 b2 b3 b4 b5 b6 b7 b8 b9 b10 b11 b12 b13 b14 b15) => let b9 := b9 +' k15 in let b8 := b8 +' (b9 +' k14) in let b9 := ((b9 <<' 8) |' (b9 >>' (64 - 8))) ^' b8 in (Locals16 b0 b1 b2 b3 b4 b5 b6 b7 b8 b9 b10 b11 b12 b13 b14 b15));
  (fun '(Locals16 b0 b1 b2 b3 b4 b5 b6 b7 b8 b9 b10 b11 b12 b13 b14 b15) => let b11 := b11 +' k0 in let b10 := b10 +' (b11 +' k16) in let b11 := ((b11 <<' 17) |' (b11 >>' (64 - 17))) ^' b10 in (Locals16 b0 b1 b2 b3 b4 b5 b6 b7 b8 b9 b10 b11 b12 b13 b14 b15));
  (fun '(Locals16 b0 b1 b2 b3 b4 b5 b6 b7 b8 b9 b10 b11 b12 b13 b14 b15) => let b13 := b13 +' (k2 +' t0) in let b12 := b12 +' (b13 +' k1) in let b13 := ((b13 <<' 22) |' (b13 >>' (64 - 22))) ^' b12 in (Locals16 b0 b1 b2 b3 b4 b5 b6 b7 b8 b9 b10 b11 b12 b13 b14 b15));
  (fun '(Locals16 b0 b1 b2 b3 b4 b5 b6 b7 b8 b9 b10 b11 b12 b13 b14 b15) => let b15 := b15 +' (k4 +' 6) in let b14 := b14 +' (b15 +' k3 +' t1) in let b15 := ((b15 <<' 37) |' (b15 >>' (64 - 37))) ^' b14 in (Locals16 b0 b1 b2 b3 b4 b5 b6 b7 b8 b9 b10 b11 b12 b13 b14 b15));
  (* round 25 *)
  (fun '(Locals16 b0 b1 b2 b3 b4 b5 b6 b7 b8 b9 b10 b11 b12 b13 b14 b15) => let b0 := b0 +' b9 in let b9 := ((b9 <<' 38) |' (b9 >>' (64 - 38))) ^' b0 in (Locals16 b0 b1 b2 b3 b4 b5 b6 b7 b8 b9 b10 b11 b12 b13 b14 b15));
  (fun '(Locals16 b0 b1 b2 b3 b4 b5 b6 b7 b8 b9 b10 b11 b12 b13 b14 b15) => let b2 := b2 +' b13 in let b13 := ((b13 <<' 19) |' (b13 >>' (64 - 19))) ^' b2 in (Locals16 b0 b1 b2 b3 b4 b5 b6 b7 b8 b9 b10 b11 b12 b13 b14 b15));
  (fun '(Locals16 b0 b1 b2 b3 b4 b5 b6 b7 b8 b9 b10 b11 b12 b13 b14 b15) => let b6 := b6 +' b11 in let b11 := ((b11 <<' 10) |' (b11 >>' (64 - 10))) ^' b6 in (Locals16 b0 b1 b2 b3 b4 b5 b6 b7 b8 b9 b10 b11 b12 b13 b14 b15));
  (fun '(Locals16 b0 b1 b2 b3 b4 b5 b6 b7 b8 b9 b10 b11 b12 b13 b14 b15) => let b4 := b4 +' b15 in let b15 := ((b15 <<' 55) |' (b15 >>' (64 - 55))) ^' b4 in (Locals16 b0 b1 b2 b3 b4 b5 b6 b7 b8 b9 b10 b11 b12 b13 b14 b15));
  (fun '(Locals16 b0 b1 b2 b3 b4 b5 b6 b7 b8 b9 b10 b11 b12 b13 b14 b15) => let b10 := b10 +' b7 in let b7 := ((b7 <<' 49) |' (b7 >>' (64 - 49))) ^' b10 in (Locals16 b0 b1 b2 b3 b4 b5 b6 b7 b8 b9 b10 b11 b12 b13 b14 b15));
  (fun '(Locals16 b0 b1 b2 b3 b4 b5 b6 b7 b8 b9 b10 b11 b12 b13 b14 b15) => let b12 := b12 +' b3 in let b3 := ((b3 <<' 18) |' (b3 >>' (64 - 18))) ^' b12 in (Locals16 b0 b1 b2 b3 b4 b5 b6 b7 b8 b9 b10 b11 b12 b13 b14 b15));
  (fun '(Locals16 b0 b1 b2 b3 b4 b5 b6 b7 b8 b9 b10 b11 b12 b13 b14 b15) => let b14 := b14 +' b5 in let b5 := ((b5 <<' 23) |' (b5 >>' (64 - 23))) ^' b14 in (Locals16 b0 b1 b2 b3 b4 b5 b6 b7 b8 b9 b10 b11 b12 b13 b14 b15));
  (fun '(Locals16 b0 b1 b2 b3 b4 b5 b6 b7 b8 b9 b10 b11 b12 b13 b14 b15) => let b8 := b8 +' b1 in let b1 := ((b1 <<' 52) |' (b1 >>' (64 - 52))) ^' b8 in (Locals16 b0 b1 b2 b3 b4 b5 b6 b7 b8 b9 b10 b11 b12 b13 b14 b15));
  (* round 26 *)
  (fun '(Locals16 b0 b1 b2 b3 b4 b5 b6 b7 b8 b9 b10 b11 b12 b13 b14 b15) => let b0 := b0 +' b7 in let b7 := ((b7 <<' 33) |' (b7 >>' (64 - 33))) ^' b0 in (Locals16 b0 b1 b2 b3 b4 b5 b6 b7 b8 b9 b10 b11 b12 b13 b14 b15));
  (fun '(Locals16 b0 b1 b2 b3 b4 b5 b6 b7 b8 b9 b10 b11 b12 b13 b14 b15) => let b2 := b2 +' b5 in let b5 := ((b5 <<' 4) |' (b5 >>' (64 - 4))) ^' b2 in (Locals16 b0 b1 b2 b3 b4 b5 b6 b7 b8 b9 b10 b11 b12 b13 b14 b15));
  (fun '(Locals16 b0 b1 b2 b3 b4 b5 b6 b7 b8 b9 b10 b11 b12 b13 b14 b15) => let b4 := b4 +' b3 in let b3 := ((b3 <<' 51) |' (b3 >>' (64 - 51))) ^' b4 in (Locals16 b0 b1 b2 b3 b4 b5 b6 b7 b8 b9 b10 b11 b12 b13 b14 b15));
  (fun '(Locals16 b0 b1 b2 b3 b4 b5 b6 b7 b8 b9 b10 b11 b12 b13 b14 b15) => let b6 := b6 +' b1 in let b1 := ((b1 <<' 13) |' (b1 >>' (64 - 13))) ^' b6 in (Locals16 b0 b1 b2 b3 b4 b5 b6 b7 b8 b9 b10 b11 b12 b13 b14 b15));
  (fun '(Locals16 b0 b1 b2 b3 b4 b5 b6 b7 b8 b9 b10 b11 b12 b13 b14 b15) => let b12 := b12 +' b15 in let b15 := ((b15 <<' 34) |' (b15 >>' (64 - 34))) ^' b12 in (Locals16 b0 b1 b2 b3 b4 b5 b6 b7 b8 b9 b10 b11 b12 b13 b14 b15));
  (fun '(Locals16 b0 b1 b2 b3 b4 b5 b6 b7 b8 b9 b10 b11 b12 b13 b14 b15) => let b14 := b14 +' b13 in let b13 := ((b13 <<' 41) |' (b13 >>' (64 - 41))) ^' b14 in (Locals16 b0 b1 b2 b3 b4 b5 b6 b7 b8 b9 b10 b11 b12 b13 b14 b15));
  (fun '(Locals16 b0 b1 b2 b3 b4 b5 b6 b7 b8 b9 b10 b11 b12 b13 b14 b15) => let b8 := b8 +' b11 in let b11 := ((b11 <<' 59) |' (b11 >>' (64 - 59))) ^' b8 in (Locals16 b0 b1 b2 b3 b4 b5 b6 b7 b8 b9 b10 b11 b12 b13 b14 b15));
  (fun '(Locals16 b0 b1 b2 b3 b4 b5 b6 b7 b8 b9 b10 b11 b12 b13 b14 b15) => let b10 := b10 +' b9 in let b9 := ((b9 <<' 17) |' (b9 >>' (64 - 17))) ^' b10 in (Locals16 b0 b1 b2 b3 b4 b5 b6 b7 b8 b9 b10 b11 b12 b13 b14 b15));
  (* round 27 *)
  (fun '(Locals16 b0 b1 b2 b3 b4 b5 b6 b7 b8 b9 b10 b11 b12 b13 b14 b15) => let b0 := b0 +' b15 in let b15 := ((b15 <<' 5) |' (b15 >>' (64 - 5))) ^' b0 in (Locals16 b0 b1 b2 b3 b4 b5 b6 b7 b8 b9 b10 b11 b12 b13 b14 b15));
  (fun '(Locals16 b0 b1 b2 b3 b4 b5 b6 b7 b8 b9 b10 b11 b12 b13 b14 b15) => let b2 := b2 +' b11 in let b11 := ((b11 <<' 20) |' (b11 >>' (64 - 20))) ^' b2 in (Locals16 b0 b1 b2 b3 b4 b5 b6 b7 b8 b9 b10 b11 b12 b13 b14 b15));
  (fun '(Locals16 b0 b1 b2 b3 b4 b5 b6 b7 b8 b9 b10 b11 b12 b13 b14 b15) => let b6 := b6 +' b13 in let b13 := ((b13 <<' 48) |' (b13 >>' (64 - 48))) ^' b6 in (Locals16 b0 b1 b2 b3 b4 b5 b6 b7 b8 b9 b10 b11 b12 b13 b14 b15));
  (fun '(Locals16 b0 b1 b2 b3 b4 b5 b6 b7 b8 b9 b10 b11 b12 b13 b14 b15) => let b4 := b4 +' b9 in let b9 := ((b9 <<' 41) |' (b9 >>' (64 - 41))) ^' b4 in (Locals16 b0 b1 b2 b3 b4 b5 b6 b7 b8 b9 b10 b11 b12 b13 b14 b15));
  (fun '(Locals16 b0 b1 b2 b3 b4 b5 b6 b7 b8 b9 b10 b11 b12 b13 b14 b15) => let b14 := b14 +' b1 in let b1 := ((b1 <<' 47) |' (b1 >>' (64 - 47))) ^' b14 in (Locals16 b0 b1 b2 b3 b4 b5 b6 b7 b8 b9 b10 b11 b12 b13 b14 b15));
  (fun '(Locals16 b0 b1 b2 b3 b4 b5 b6 b7 b8 b9 b10 b11 b12 b13 b14 b15) => let b8 := b8 +' b5 in let b5 := ((b5 <<' 28) |' (b5 >>' (64 - 28))) ^' b8 in (Locals16 b0 b1 b2 b3 b4 b5 b6 b7 b8 b9 b10 b11 b12 b13 b14 b15));
  (fun '(Locals16 b0 b1 b2 b3 b4 b5 b6 b7 b8 b9 b10 b11 b12 b13 b14 b15) => let b10 := b10 +' b3 in let b3 := ((b3 <<' 16) |' (b3 >>' (64 - 16))) ^' b10 in (Locals16 b0 b1 b2 b3 b4 b5 b6 b7 b8 b9 b10 b11 b12 b13 b14 b15));
  (fun '(Locals16 b0 b1 b2 b3 b4 b5 b6 b7 b8 b9 b10 b11 b12 b13 b14 b15) => let b12 := b12 +' b7 in let b7 := ((b7 <<' 25) |' (b7 >>' (64 - 25))) ^' b12 in (Locals16 b0 b1 b2 b3 b4 b5 b6 b7 b8 b9 b10 b11 b12 b13 b14 b15));
  (* round 28 *)
  (fun '(Locals16 b0 b1 b2 b3 b4 b5 b6 b7 b8 b9 b10 b11 b12 b13 b14 b15) => let b1 := b1 +' k8 in let b0 := b0 +' (b1 +' k7) in let b1 := ((b1 <<' 41) |' (b1 >>' (64 - 41))) ^' b0 in (Locals16 b0 b1 b2 b3 b4 b5 b6 b7 b8 b9 b10 b11 b12 b13 b14 b15));
  (fun '(Locals16 b0 b1 b2 b3 b4 b5 b6 b7 b8 b9 b10 b11 b12 b13 b14 b15) => let b3 := b3 +' k10 in let b2 := b2 +' (b3 +' k9) in let b3 := ((b3 <<' 9) |' (b3 >>' (64 - 9))) ^' b2 in (Locals16 b0 b1 b2 b3 b4 b5 b6 b7 b8 b9 b10 b11 b12 b13 b14 b15));
  (fun '(Locals16 b0 b1 b2 b3 b4 b5 b6 b7 b8 b9 b10 b11 b12 b13 b14 b15) => let b5 := b5 +' k12 in let b4 := b4 +' (b5 +' k11) in let b5 := ((b5 <<' 37) |' (b5 >>' (64 - 37))) ^' b4 in (Locals16 b0 b1 b2 b3 b4 b5 b6 b7 b8 b9 b10 b11 b12 b13 b14 b15));
  (fun '(Locals16 b0 b1 b2 b3 b4 b5 b6 b7 b8 b9 b10 b11 b12 b13 b14 b15) => let b7 := b7 +' k14 in let b6 := b6 +' (b7 +' k13) in let b7 := ((b7 <<' 31) |' (b7 >>' (64 - 31))) ^' b6 in (Locals16 b0 b1 b2 b3 b4 b5 b6 b7 b8 b9 b10 b11 b12 b13 b14 b15));
  (fun '(Locals16 b0 b1 b2 b3 b4 b5 b6 b7 b8 b9 b10 b11 b12 b13 b14 b15) => let b9 := b9 +' k16 in let b8 := b8 +' (b9 +' k15) in let b9 := ((b9 <<' 12) |' (b9 >>' (64 - 12))) ^' b8 in (Locals16 b0 b1 b2 b3 b4 b5 b6 b7 b8 b9 b10 b11 b12 b13 b14 b15));
  (fun '(Locals16 b0 b1 b2 b3 b4 b5 b6 b7 b8 b9 b10 b11 b12 b13 b14 b15) => let b11 := b11 +' k1 in let b10 := b10 +' (b11 +' k0) in let b11 := ((b11 <<' 47) |' (b11 >>' (64 - 47))) ^' b10 in (Locals16 b0 b1 b2 b3 b4 b5 b6 b7 b8 b9 b10 b11 b12 b13 b14 b15));
  (fun '(Locals16 b0 b1 b2 b3 b4 b5 b6 b7 b8 b9 b10 b11 b12 b13 b14 b15) => let b13 := b13 +' (k3 +' t1) in let b12 := b12 +' (b13 +' k2) in let b13 := ((b13 <<' 44) |' (b13 >>' (64 - 44))) ^' b12 in (Locals16 b0 b1 b2 b3 b4 b5 b6 b7 b8 b9 b10 b11 b12 b13 b14 b15));
  (fun '(Locals16 b0 b1 b2 b3 b4 b5 b6 b7 b8 b9 b10 b11 b12 b13 b14 b15) => let b15 := b15 +' (k5 +' 7) in let b14 := b14 +' (b15 +' k4 +' t2) in let b15 := ((b15 <<' 30) |' (b15 >>' (64 - 30))) ^' b14 in (Locals16 b0 b1 b2 b3 b4 b5 b6 b7 b8 b9 b10 b11 b12 b13 b14 b15));
  (* round 29 *)
  (fun '(Locals16 b0 b1 b2 b3 b4 b5 b6 b7 b8 b9 b10 b11 b12 b13 b14 b15) => let b0 := b0 +' b9 in let b9 := ((b9 <<' 16) |' (b9 >>' (64 - 16))) ^' b0 in (Locals16 b0 b1 b2 b3 b4 b5 b6 b7 b8 b9 b10 b11 b12 b13 b14 b15));
  (fun '(Locals16 b0 b1 b2 b3 b4 b5 b6 b7 b8 b9 b10 b11 b12 b13 b14 b15) => let b2 := b2 +' b13 in let b13 := ((b13 <<' 34) |' (b13 >>' (64 - 34))) ^' b2 in (Locals16 b0 b1 b2 b3 b4 b5 b6 b7 b8 b9 b10 b11 b12 b13 b14 b15));
  (fun '(Locals16 b0 b1 b2 b3 b4 b5 b6 b7 b8 b9 b10 b11 b12 b13 b14 b15) => let b6 := b6 +' b11 in let b11 := ((b11 <<' 56) |' (b11 >>' (64 - 56))) ^' b6 in (Locals16 b0 b1 b2 b3 b4 b5 b6 b7 b8 b9 b10 b11 b12 b13 b14 b15));
  (fun '(Locals16 b0 b1 b2 b3 b4 b5 b6 b7 b8 b9 b10 b11 b12 b13 b14 b15) => let b4 := b4 +' b15 in let b15 := ((b15 <<' 51) |' (b15 >>' (64 - 51))) ^' b4 in (Locals16 b0 b1 b2 b3 b4 b5 b6 b7 b8 b9 b10 b11 b12 b13 b14 b15));
  (fun '(Locals16 b0 b1 b2 b3 b4 b5 b6 b7 b8 b9 b10 b11 b12 b13 b14 b15) => let b10 := b10 +' b7 in let b7 := ((b7 <<' 4) |' (b7 >>' (64 - 4))) ^' b10 in (Locals16 b0 b1 b2 b3 b4 b5 b6 b7 b8 b9 b10 b11 b12 b13 b14 b15));
  (fun '(Locals16 b0 b1 b2 b3 b4 b5 b6 b7 b8 b9 b10 b11 b12 b13 b14 b15) => let b12 := b12 +' b3 in let b3 := ((b3 <<' 53) |' (b3 >>' (64 - 53))) ^' b12 in (Locals16 b0 b1 b2 b3 b4 b5 b6 b7 b8 b9 b10 b11 b12 b13 b14 b15));
  (fun '(Locals16 b0 b1 b2 b3 b4 b5 b6 b7 b8 b9 b10 b11 b12 b13 b14 b15) => let b14 := b14 +' b5 in let b5 := ((b5 <<' 42) |' (b5 >>' (64 - 42))) ^' b14 in (Locals16 b0 b1 b2 b3 b4 b5 b6 b7 b8 b9 b10 b11 b12 b13 b14 b15));
  (fun '(Locals16 b0 b1 b2 b3 b4 b5 b6 b7 b8 b9 b10 b11 b12 b13 b14 b15) => let b8 := b8 +' b1 in let b1 := ((b1 <<' 41) |' (b1 >>' (64 - 41))) ^' b8 in (Locals16 b0 b1 b2 b3 b4 b5 b6 b7 b8 b9 b10 b11 b12 b13 b14 b15));
  (* round 30 *)
  (fun '(Locals16 b0 b1 b2 b3 b4 b5 b6 b7 b8 b9 b10 b11 b12 b13 b14 b15) => let b0 := b0 +' b7 in let b7 := ((b7 <<' 31) |' (b7 >>' (64 - 31))) ^' b0 in (Locals16 b0 b1 b2 b3 b4 b5 b6 b7 b8 b9 b10 b11 b12 b13 b14 b15));
  (fun '(Locals16 b0 b1 b2 b3 b4 b5 b6 b7 b8 b9 b10 b11 b12 b13 b14 b15) => let b2 := b2 +' b5 in let b5 := ((b5 <<' 44) |' (b5 >>' (64 - 44))) ^' b2 in (Locals16 b0 b1 b2 b3 b4 b5 b6 b7 b8 b9 b10 b11 b12 b13 b14 b15));
  (fun '(Locals16 b0 b1 b2 b3 b4 b5 b6 b7 b8 b9 b10 b11 b12 b13 b14 b15) => let b4 := b4 +' b3 in let b3 := ((b3 <<' 47) |' (b3 >>' (64 - 47))) ^' b4 in (Locals16 b0 b1 b2 b3 b4 b5 b6 b7 b8 b9 b10 b11 b12 b13 b14 b15));
  (fun '(Locals16 b0 b1 b2 b3 b4 b5 b6 b7 b8 b9 b10 b11 b12 b13 b14 b15) => let b6 := b6 +' b1 in let b1 := ((b1 <<' 46) |' (b1 >>' (64 - 46))) ^' b6 in (Locals16 b0 b1 b2 b3 b4 b5 b6 b7 b8 b9 b10 b11 b12 b13 b14 b15));
  (fun '(Locals16 b0 b1 b2 b3 b4 b5 b6 b7 b8 b9 b10 b11 b12 b13 b14 b15) => let b12 := b12 +' b15 in let b15 := ((b15 <<' 19) |' (b15 >>' (64 - 19))) ^' b12 in (Locals16 b0 b1 b2 b3 b4 b5 b6 b7 b8 b9 b10 b11 b12 b13 b14 b15));
  (fun '(Locals16 b0 b1 b2 b3 b4 b5 b6 b7 b8 b9 b10 b11 b12 b13 b14 b15) => let b14 := b14 +' b13 in let b13 := ((b13 <<' 42) |' (b13 >>' (64 - 42))) ^' b14 in (Locals16 b0 b1 b2 b3 b4 b5 b6 b7 b8 b9 b10 b11 b12 b13 b14 b15));
  (fun '(Locals16 b0 b1 b2 b3 b4 b5 b6 b7 b8 b9 b10 b11 b12 b13 b14 b15) => let b8 := b8 +' b11 in let b11 := ((b11 <<' 44) |' (b11 >>' (64 - 44))) ^' b8 in (Locals16 b0 b1 b2 b3 b4 b5 b6 b7 b8 b9 b10 b11 b12 b13 b14 b15));
  (fun '(Locals16 b0 b1 b2 b3 b4 b5 b6 b7 b8 b9 b10 b11 b12 b13 b14 b15) => let b10 := b10 +' b9 in let b9 := ((b9 <<' 25) |' (b9 >>' (64 - 25))) ^' b10 in (Locals16 b0 b1 b2 b3 b4 b5 b6 b7 b8 b9 b10 b11 b12 b13 b14 b15));
  (* round 31 *)
  (fun '(Locals16 b0 b1 b2 b3 b4 b5 b6 b7 b8 b9 b10 b11 b12 b13 b14 b15) => let b0 := b0 +' b15 in let b15 := ((b15 <<' 9) |' (b15 >>' (64 - 9))) ^' b0 in (Locals16 b0 b1 b2 b3 b4 b5 b6 b7 b8 b9 b10 b11 b12 b13 b14 b15));
  (fun '(Locals16 b0 b1 b2 b3 b4 b5 b6 b7 b8 b9 b10 b11 b12 b13 b14 b15) => let b2 := b2 +' b11 in let b11 := ((b11 <<' 48) |' (b11 >>' (64 - 48))) ^' b2 in (Locals16 b0 b1 b2 b3 b4 b5 b6 b7 b8 b9 b10 b11 b12 b13 b14 b15));
  (fun '(Locals16 b0 b1 b2 b3 b4 b5 b6 b7 b8 b9 b10 b11 b12 b13 b14 b15) => let b6 := b6 +' b13 in let b13 := ((b13 <<' 35) |' (b13 >>' (64 - 35))) ^' b6 in (Locals16 b0 b1 b2 b3 b4 b5 b6 b7 b8 b9 b10 b11 b12 b13 b14 b15));
  (fun '(Locals16 b0 b1 b2 b3 b4 b5 b6 b7 b8 b9 b10 b11 b12 b13 b14 b15) => let b4 := b4 +' b9 in let b9 := ((b9 <<' 52) |' (b9 >>' (64 - 52))) ^' b4 in (Locals16 b0 b1 b2 b3 b4 b5 b6 b7 b8 b9 b10 b11 b12 b13 b14 b15));
  (fun '(Locals16 b0 b1 b2 b3 b4 b5 b6 b7 b8 b9 b10 b11 b12 b13 b14 b15) => let b14 := b14 +' b1 in let b1 := ((b1 <<' 23) |' (b1 >>' (64 - 23))) ^' b14 in (Locals16 b0 b1 b2 b3 b4 b5 b6 b7 b8 b9 b10 b11 b12 b13 b14 b15));
  (fun '(Locals16 b0 b1 b2 b3 b4 b5 b6 b7 b8 b9 b10 b11 b12 b13 b14 b15) => let b8 := b8 +' b5 in let b5 := ((b5 <<' 31) |' (b5 >>' (64 - 31))) ^' b8 in (Locals16 b0 b1 b2 b3 b4 b5 b6 b7 b8 b9 b10 b11 b12 b13 b14 b15));
  (fun '(Locals16 b0 b1 b2 b3 b4 b5 b6 b7 b8 b9 b10 b11 b12 b13 b14 b15) => let b10 := b10 +' b3 in let b3 := ((b3 <<' 37) |' (b3 >>' (64 - 37))) ^' b10 in (Locals16 b0 b1 b2 b3 b4 b5 b6 b7 b8 b9 b10 b11 b12 b13 b14 b15));
  (fun '(Locals16 b0 b1 b2 b3 b4 b5 b6 b7 b8 b9 b10 b11 b12 b13 b14 b15) => let b12 := b12 +' b7 in let b7 := ((b7 <<' 20) |' (b7 >>' (64 - 20))) ^' b12 in (Locals16 b0 b1 b2 b3 b4 b5 b6 b7 b8 b9 b10 b11 b12 b13 b14 b15));
  (* round 32 *)
  (fun '(Locals16 b0 b1 b2 b3 b4 b5 b6 b7 b8 b9 b10 b11 b12 b13 b14 b15) => let b1 := b1 +' k9 in let b0 := b0 +' (b1 +' k8) in let b1 := ((b1 <<' 24) |' (b1 >>' (64 - 24))) ^' b0 in (Locals16 b0 b1 b2 b3 b4 b5 b6 b7 b8 b9 b10 b11 b12 b13 b14 b15));
  (fun '(Locals16 b0 b1 b2 b3 b4 b5 b6 b7 b8 b9 b10 b11 b12 b13 b14 b15) => let b3 := b3 +' k11 in let b2 := b2 +' (b3 +' k10) in let b3 := ((b3 <<' 13) |' (b3 >>' (64 - 13))) ^' b2 in (Locals16 b0 b1 b2 b3 b4 b5 b6 b7 b8 b9 b10 b11 b12 b13 b14 b15));
  (fun '(Locals16 b0 b1 b2 b3 b4 b5 b6 b7 b8 b9 b10 b11 b12 b13 b14 b15) => let b5 := b5 +' k13 in let b4 := b4 +' (b5 +' k12) in let b5 := ((b5 <<' 8) |' (b5 >>' (64 - 8))) ^' b4 in (Locals16 b0 b1 b2 b3 b4 b5 b6 b7 b8 b9 b10 b11 b12 b13 b14 b15));
  (fun '(Locals16 b0 b1 b2 b3 b4 b5 b6 b7 b8 b9 b10 b11 b12 b13 b14 b15) => let b7 := b7 +' k15 in let b6 := b6 +' (b7 +' k14) in let b7 := ((b7 <<' 47) |' (b7 >>' (64 - 47))) ^' b6 in (Locals16 b0 b1 b2 b3 b4 b5 b6 b7 b8 b9 b10 b11 b12 b13 b14 b15));
  (fun '(Locals16 b0 b1 b2 b3 b4 b5 b6 b7 b8 b9 b10 b11 b12 b13 b14 b15) => let b9 := b9 +' k0 in let b8 := b8 +' (b9 +' k16) in let b9 := ((b9 <<' 8) |' (b9 >>' (64 - 8))) ^' b8 in (Locals16 b0 b1 b2 b3 b4 b5 b6 b7 b8 b9 b10 b11 b12 b13 b14 b15));
  (fun '(Locals16 b0 b1 b2 b3 b4 b5 b6 b7 b8 b9 b10 b11 b12 b13 b14 b15) => let b11 := b11 +' k2 in let b10 := b10 +' (b11 +' k1) in let b11 := ((b11 <<' 17) |' (b11 >>' (64 - 17))) ^' b10 in (Locals16 b0 b1 b2 b3 b4 b5 b6 b7 b8 b9 b10 b11 b12 b13 b14 b15));
  (fun '(Locals16 b0 b1 b2 b3 b4 b5 b6 b7 b8 b9 b10 b11 b12 b13 b14 b15) => let b13 := b13 +' (k4 +' t2) in let b12 := b12 +' (b13 +' k3) in let b13 := ((b13 <<' 22) |' (b13 >>' (64 - 22))) ^' b12 in (Locals16 b0 b1 b2 b3 b4 b5 b6 b7 b8 b9 b10 b11 b12 b13 b14 b15));
  (fun '(Locals16 b0 b1 b2 b3 b4 b5 b6 b7 b8 b9 b10 b11 b12 b13 b14 b15) => let b15 := b15 +' (k6 +' 8) in let b14 := b14 +' (b15 +' k5 +' t0) in let b15 := ((b15 <<' 37) |' (b15 >>' (64 - 37))) ^' b14 in (Locals16 b0 b1 b2 b3 b4 b5 b6 b7 b8 b9 b10 b11 b12 b13 b14 b15));
  (* round 33 *)
  (fun '(Locals16 b0 b1 b2 b3 b4 b5 b6 b7 b8 b9 b10 b11 b12 b13 b14 b15) => let b0 := b0 +' b9 in let b9 := ((b9 <<' 38) |' (b9 >>' (64 - 38))) ^' b0 in (Locals16 b0 b1 b2 b3 b4 b5 b6 b7 b8 b9 b10 b11 b12 b13 b14 b15));
  (fun '(Locals16 b0 b1 b2 b3 b4 b5 b6 b7 b8 b9 b10 b11 b12 b13 b14 b15) => let b2 := b2 +' b13 in let b13 := ((b13 <<' 19) |' (b13 >>' (64 - 19))) ^' b2 in (Locals16 b0 b1 b2 b3 b4 b5 b6 b7 b8 b9 b10 b11 b12 b13 b14 b15));
  (fun '(Locals16 b0 b1 b2 b3 b4 b5 b6 b7 b8 b9 b10 b11 b12 b13 b14 b15) => let b6 := b6 +' b11 in let b11 := ((b11 <<' 10) |' (b11 >>' (64 - 10))) ^' b6 in (Locals16 b0 b1 b2 b3 b4 b5 b6 b7 b8 b9 b10 b11 b12 b13 b14 b15));
  (fun '(Locals16 b0 b1 b2 b3 b4 b5 b6 b7 b8 b9 b10 b11 b12 b13 b14 b15) => let b4 := b4 +' b15 in let b15 := ((b15 <<' 55) |' (b15 >>' (64 - 55))) ^' b4 in (Locals16 b0 b1 b2 b3 b4 b5 b6 b7 b8 b9 b10 b11 b12 b13 b14 b15));
  (fun '(Locals16 b0 b1 b2 b3 b4 b5 b6 b7 b8 b9 b10 b11 b12 b13 b14 b15) => let b10 := b10 +' b7 in let b7 := ((b7 <<' 49) |' (b7 >>' (64 - 49))) ^' b10 in (Locals16 b0 b1 b2 b3 b4 b5 b6 b7 b8 b9 b10 b11 b12 b13 b14 b15));
  (fun '(Locals16 b0 b1 b2 b3 b4 b5 b6 b7 b8 b9 b10 b11 b12 b13 b14 b15) => let b12 := b12 +' b3 in let b3 := ((b3 <<' 18) |' (b3 >>' (64 - 18))) ^' b12 in (Locals16 b0 b1 b2 b3 b4 b5 b6 b7 b8 b9 b10 b11 b12 b13 b14 b15));
  (fun '(Locals16 b0 b1 b2 b3 b4 b5 b6 b7 b8 b9 b10 b11 b12 b13 b14 b15) => let b14 := b14 +' b5 in let b5 := ((b5 <<' 23) |' (b5 >>' (64 - 23))) ^' b14 in (Locals16 b0 b1 b2 b3 b4 b5 b6 b7 b8 b9 b10 b11 b12 b13 b14 b15));
  (fun '(Locals16 b0 b1 b2 b3 b4 b5 b6 b7 b8 b9 b10 b11 b12 b13 b14 b15) => let b8 := b8 +' b1 in let b1 := ((b1 <<' 52) |' (b1 >>' (64 - 52))) ^' b8 in (Locals16 b0 b1 b2 b3 b4 b5 b6 b7 b8 b9 b10 b11 b12 b13 b14 b15));
  (* round 34 *)
  (fun '(Locals16 b0 b1 b2 b3 b4 b5 b6 b7 b8 b9 b10 b11 b12 b13 b14 b15) => let b0 := b0 +' b7 in let b7 := ((b7 <<' 33) |' (b7 >>' (64 - 33))) ^' b0 in (Locals16 b0 b1 b2 b3 b4 b5 b6 b7 b8 b9 b10 b11 b12 b13 b14 b15));
  (fun '(Locals16 b0 b1 b2 b3 b4 b5 b6 b7 b8 b9 b10 b11 b12 b13 b14 b15) => let b2 := b2 +' b5 in let b5 := ((b5 <<' 4) |' (b5 >>' (64 - 4))) ^' b2 in (Locals16 b0 b1 b2 b3 b4 b5 b6 b7 b8 b9 b10 b11 b12 b13 b14 b15));
  (fun '(Locals16 b0 b1 b2 b3 b4 b5 b6 b7 b8 b9 b10 b11 b12 b13 b14 b15) => let b4 := b4 +' b3 in let b3 := ((b3 <<' 51) |' (b3 >>' (64 - 51))) ^' b4 in (Locals16 b0 b1 b2 b3 b4 b5 b6 b7 b8 b9 b10 b11 b12 b13 b14 b15));
  (fun '(Locals16 b0 b1 b2 b3 b4 b5 b6 b7 b8 b9 b10 b11 b12 b13 b14 b15) => let b6 := b6 +' b1 in let b1 := ((b1 <<' 13) |' (b1 >>' (64 - 13))) ^' b6 in (Locals16 b0 b1 b2 b3 b4 b5 b6 b7 b8 b9 b10 b11 b12 b13 b14 b15));
  (fun '(Locals16 b0 b1 b2 b3 b4 b5 b6 b7 b8 b9 b10 b11 b12 b13 b14 b15) => let b12 := b12 +' b15 in let b15 := ((b15 <<' 34) |' (b15 >>' (64 - 34))) ^' b12 in (Locals16 b0 b1 b2 b3 b4 b5 b6 b7 b8 b9 b10 b11 b12 b13 b14 b15));
  (fun '(Locals16 b0 b1 b2 b3 b4 b5 b6 b7 b8 b9 b10 b11 b12 b13 b14 b15) => let b14 := b14 +' b13 in let b13 := ((b13 <<' 41) |' (b13 >>' (64 - 41))) ^' b14 in (Locals16 b0 b1 b2 b3 b4 b5 b6 b7 b8 b9 b10 b11 b12 b13 b14 b15));
  (fun '(Locals16 b0 b1 b2 b3 b4 b5 b6 b7 b8 b9 b10 b11 b12 b13 b14 b15) => let b8 := b8 +' b11 in let b11 := ((b11 <<' 59) |' (b11 >>' (64 - 59))) ^' b8 in (Locals16 b0 b1 b2 b3 b4 b5 b6 b7 b8 b9 b10 b11 b12 b13 b14 b15));
  (fun '(Locals16 b0 b1 b2 b3 b4 b5 b6 b7 b8 b9 b10 b11 b12 b13 b14 b15) => let b10 := b10 +' b9 in let b9 := ((b9 <<' 17) |' (b9 >>' (64 - 17))) ^' b10 in (Locals16 b0 b1 b2 b3 b4 b5 b6 b7 b8 b9 b10 b11 b12 b13 b14 b15));
  (* round 35 *)
  (fun '(Locals16 b0 b1 b2 b3 b4 b5 b6 b7 b8 b9 b10 b11 b12 b13 b14 b15) => let b0 := b0 +' b15 in let b15 := ((b15 <<' 5) |' (b15 >>' (64 - 5))) ^' b0 in (Locals16 b0 b1 b2 b3 b4 b5 b6 b7 b8 b9 b10 b11 b12 b13 b14 b15));
  (fun '(Locals16 b0 b1 b2 b3 b4 b5 b6 b7 b8 b9 b10 b11 b12 b13 b14 b15) => let b2 := b2 +' b11 in let b11 := ((b11 <<' 20) |' (b11 >>' (64 - 20))) ^' b2 in (Locals16 b0 b1 b2 b3 b4 b5 b6 b7 b8 b9 b10 b11 b12 b13 b14 b15));
  (fun '(Locals16 b0 b1 b2 b3 b4 b5 b6 b7 b8 b9 b10 b11 b12 b13 b14 b15) => let b6 := b6 +' b13 in let b13 := ((b13 <<' 48) |' (b13 >>' (64 - 48))) ^' b6 in (Locals16 b0 b1 b2 b3 b4 b5 b6 b7 b8 b9 b10 b11 b12 b13 b14 b15));
  (fun '(Locals16 b0 b1 b2 b3 b4 b5 b6 b7 b8 b9 b10 b11 b12 b13 b14 b15) => let b4 := b4 +' b9 in let b9 := ((b9 <<' 41) |' (b9 >>' (64 - 41))) ^' b4 in (Locals16 b0 b1 b2 b3 b4 b5 b6 b7 b8 b9 b10 b11 b12 b13 b14 b15));
  (fun '(Locals16 b0 b1 b2 b3 b4 b5 b6 b7 b8 b9 b10 b11 b12 b13 b14 b15) => let b14 := b14 +' b1 in let b1 := ((b1 <<' 47) |' (b1 >>' (64 - 47))) ^' b14 in (Locals16 b0 b1 b2 b3 b4 b5 b6 b7 b8 b9 b10 b11 b12 b13 b14 b15));
  (fun '(Locals16 b0 b1 b2 b3 b4 b5 b6 b7 b8 b9 b10 b11 b12 b13 b14 b15) => let b8 := b8 +' b5 in let b5 := ((b5 <<' 28) |' (b5 >>' (64 - 28))) ^' b8 in (Locals16 b0 b1 b2 b3 b4 b5 b6 b7 b8 b9 b10 b11 b12 b13 b14 b15));
  (fun '(Locals16 b0 b1 b2 b3 b4 b5 b6 b7 b8 b9 b10 b11 b12 b13 b14 b15) => let b10 := b10 +' b3 in let b3 := ((b3 <<' 16) |' (b3 >>' (64 - 16))) ^' b10 in (Locals16 b0 b1 b2 b3 b4 b5 b6 b7 b8 b9 b10 b11 b12 b13 b14 b15));
  (fun '(Locals16 b0 b1 b2 b3 b4 b5 b6 b7 b8 b9 b10 b11 b12 b13 b14 b15) => let b12 := b12 +' b7 in let b7 := ((b7 <<' 25) |' (b7 >>' (64 - 25))) ^' b12 in (Locals16 b0 b1 b2 b3 b4 b5 b6 b7 b8 b9 b10 b11 b12 b13 b14 b15));
  (* round 36 *)
  (fun '(Locals16 b0 b1 b2 b3 b4 b5 b6 b7 b8 b9 b10 b11 b12 b13 b14 b15) => let b1 := b1 +' k10 in let b0 := b0 +' (b1 +' k9) in let b1 := ((b1 <<' 41) |' (b1 >>' (64 - 41))) ^' b0 in (Locals16 b0 b1 b2 b3 b4 b5 b6 b7 b8 b9 b10 b11 b12 b13 b14 b15));
  (fun '(Locals16 b0 b1 b2 b3 b4 b5 b6 b7 b8 b9 b10 b11 b12 b13 b14 b15) => let b3 := b3 +' k12 in let b2 := b2 +' (b3 +' k11) in let b3 := ((b3 <<' 9) |' (b3 >>' (64 - 9))) ^' b2 in (Locals16 b0 b1 b2 b3 b4 b5 b6 b7 b8 b9 b10 b11 b12 b13 b14 b15));
  (fun '(Locals16 b0 b1 b2 b3 b4 b5 b6 b7 b8 b9 b10 b11 b12 b13 b14 b15) => let b5 := b5 +' k14 in let b4 := b4 +' (b5 +' k13) in let b5 := ((b5 <<' 37) |' (b5 >>' (64 - 37))) ^' b4 in (Locals16 b0 b1 b2 b3 b4 b5 b6 b7 b8 b9 b10 b11 b12 b13 b14 b15));
  (fun '(Locals16 b0 b1 b2 b3 b4 b5 b6 b7 b8 b9 b10 b11 b12 b13 b14 b15) => let b7 := b7 +' k16 in let b6 := b6 +' (b7 +' k15) in let b7 := ((b7 <<' 31) |' (b7 >>' (64 - 31))) ^' b6 in (Locals16 b0 b1 b2 b3 b4 b5 b6 b7 b8 b9 b10 b11 b12 b13 b14 b15));
  (fun '(Locals16 b0 b1 b2 b3 b4 b5 b6 b7 b8 b9 b10 b11 b12 b13 b14 b15) => let b9 := b9 +' k1 in let b8 := b8 +' (b9 +' k0) in let b9 := ((b9 <<' 12) |' (b9 >>' (64 - 12))) ^' b8 in (Locals16 b0 b1 b2 b3 b4 b5 b6 b7 b8 b9 b10 b11 b12 b13 b14 b15));
  (fun '(Locals16 b0 b1 b2 b3 b4 b5 b6 b7 b8 b9 b10 b11 b12 b13 b14 b15) => let b11 := b11 +' k3 in let b10 := b10 +' (b11 +' k2) in let b11 := ((b11 <<' 47) |' (b11 >>' (64 - 47))) ^' b10 in (Locals16 b0 b1 b2 b3 b4 b5 b6 b7 b8 b9 b10 b11 b12 b13 b14 b15));
  (fun '(Locals16 b0 b1 b2 b3 b4 b5 b6 b7 b8 b9 b10 b11 b12 b13 b14 b15) => let b13 := b13 +' (k5 +' t0) in let b12 := b12 +' (b13 +' k4) in let b13 := ((b13 <<' 44) |' (b13 >>' (64 - 44))) ^' b12 in (Locals16 b0 b1 b2 b3 b4 b5 b6 b7 b8 b9 b10 b11 b12 b13 b14 b15));
  (fun '(Locals16 b0 b1 b2 b3 b4 b5 b6 b7 b8 b9 b10 b11 b12 b13 b14 b15) => let b15 := b15 +' (k7 +' 9) in let b14 := b14 +' (b15 +' k6 +' t1) in let b15 := ((b15 <<' 30) |' (b15 >>' (64 - 30))) ^' b14 in (Locals16 b0 b1 b2 b3 b4 b5 b6 b7 b8 b9 b10 b11 b12 b13 b14 b15));
  (* round 37 *)
  (fun '(Locals16 b0 b1 b2 b3 b4 b5 b6 b7 b8 b9 b10 b11 b12 b13 b14 b15) => let b0 := b0 +' b9 in let b9 := ((b9 <<' 16) |' (b9 >>' (64 - 16))) ^' b0 in (Locals16 b0 b1 b2 b3 b4 b5 b6 b7 b8 b9 b10 b11 b12 b13 b14 b15));
  (fun '(Locals16 b0 b1 b2 b3 b4 b5 b6 b7 b8 b9 b10 b11 b12 b13 b14 b15) => let b2 := b2 +' b13 in let b13 := ((b13 <<' 34) |' (b13 >>' (64 - 34))) ^' b2 in (Locals16 b0 b1 b2 b3 b4 b5 b6 b7 b8 b9 b10 b11 b12 b13 b14 b15));
  (fun '(Locals16 b0 b1 b2 b3 b4 b5 b6 b7 b8 b9 b10 b11 b12 b13 b14 b15) => let b6 := b6 +' b11 in let b11 := ((b11 <<' 56) |' (b11 >>' (64 - 56))) ^' b6 in (Locals16 b0 b1 b2 b3 b4 b5 b6 b7 b8 b9 b10 b11 b12 b13 b14 b15));
  (fun '(Locals16 b0 b1 b2 b3 b4 b5 b6 b7 b8 b9 b10 b11 b12 b13 b14 b15) => let b4 := b4 +' b15 in let b15 := ((b15 <<' 51) |' (b15 >>' (64 - 51))) ^' b4 in (Locals16 b0 b1 b2 b3 b4 b5 b6 b7 b8 b9 b10 b11 b12 b13 b14 b15));
  (fun '(Locals16 b0 b1 b2 b3 b4 b5 b6 b7 b8 b9 b10 b11 b12 b13 b14 b15) => let b10 := b10 +' b7 in let b7 := ((b7 <<' 4) |' (b7 >>' (64 - 4))) ^' b10 in (Locals16 b0 b1 b2 b3 b4 b5 b6 b7 b8 b9 b10 b11 b12 b13 b14 b15));
  (fun '(Locals16 b0 b1 b2 b3 b4 b5 b6 b7 b8 b9 b10 b11 b12 b13 b14 b15) => let b12 := b12 +' b3 in let b3 := ((b3 <<' 53) |' (b3 >>' (64 - 53))) ^' b12 in (Locals16 b0 b1 b2 b3 b4 b5 b6 b7 b8 b9 b10 b11 b12 b13 b14 b15));
  (fun '(Locals16 b0 b1 b2 b3 b4 b5 b6 b7 b8 b9 b10 b11 b12 b13 b14 b15) => let b14 := b14 +' b5 in let b5 := ((b5 <<' 42) |' (b5 >>' (64 - 42))) ^' b14 in (Locals16 b0 b1 b2 b3 b4 b5 b6 b7 b8 b9 b10 b11 b12 b13 b14 b15));
  (fun '(Locals16 b0 b1 b2 b3 b4 b5 b6 b7 b8 b9 b10 b11 b12 b13 b14 b15) => let b8 := b8 +' b1 in let b1 := ((b1 <<' 41) |' (b1 >>' (64 - 41))) ^' b8 in (Locals16 b0 b1 b2 b3 b4 b5 b6 b7 b8 b9 b10 b11 b12 b13 b14 b15));
  (* round 38 *)
  (fun '(Locals16 b0 b1 b2 b3 b4 b5 b6 b7 b8 b9 b10 b11 b12 b13 b14 b15) => let b0 := b0 +' b7 in let b7 := ((b7 <<' 31) |' (b7 >>' (64 - 31))) ^' b0 in (Locals16 b0 b1 b2 b3 b4 b5 b6 b7 b8 b9 b10 b11 b12 b13 b14 b15));
  (fun '(Locals16 b0 b1 b2 b3 b4 b5 b6 b7 b8 b9 b10 b11 b12 b13 b14 b15) => let b2 := b2 +' b5 in let b5 := ((b5 <<' 44) |' (b5 >>' (64 - 44))) ^' b2 in (Locals16 b0 b1 b2 b3 b4 b5 b6 b7 b8 b9 b10 b11 b12 b13 b14 b15));
  (fun '(Locals16 b0 b1 b2 b3 b4 b5 b6 b7 b8 b9 b10 b11 b12 b13 b14 b15) => let b4 := b4 +' b3 in let b3 := ((b3 <<' 47) |' (b3 >>' (64 - 47))) ^' b4 in (Locals16 b0 b1 b2 b3 b4 b5 b6 b7 b8 b9 b10 b11 b12 b13 b14 b15));
  (fun '(Locals16 b0 b1 b2 b3 b4 b5 b6 b7 b8 b9 b10 b11 b12 b13 b14 b15) => let b6 := b6 +' b1 in let b1 := ((b1 <<' 46) |' (b1 >>' (64 - 46))) ^' b6 in (Locals16 b0 b1 b2 b3 b4 b5 b6 b7 b8 b9 b10 b11 b12 b13 b14 b15));
  (fun '(Locals16 b0 b1 b2 b3 b4 b5 b6 b7 b8 b9 b10 b11 b12 b13 b14 b15) => let b12 := b12 +' b15 in let b15 := ((b15 <<' 19) |' (b15 >>' (64 - 19))) ^' b12 in (Locals16 b0 b1 b2 b3 b4 b5 b6 b7 b8 b9 b10 b11 b12 b13 b14 b15));
  (fun '(Locals16 b0 b1 b2 b3 b4 b5 b6 b7 b8 b9 b10 b11 b12 b13 b14 b15) => let b14 := b14 +' b13 in let b13 := ((b13 <<' 42) |' (b13 >>' (64 - 42))) ^' b14 in (Locals16 b0 b1 b2 b3 b4 b5 b6 b7 b8 b9 b10 b11 b12 b13 b14 b15));
  (fun '(Locals16 b0 b1 b2 b3 b4 b5 b6 b7 b8 b9 b10 b11 b12 b13 b14 b15) => let b8 := b8 +' b11 in let b11 := ((b11 <<' 44) |' (b11 >>' (64 - 44))) ^' b8 in (Locals16 b0 b1 b2 b3 b4 b5 b6 b7 b8 b9 b10 b11 b12 b13 b14 b15));
  (fun '(Locals16 b0 b1 b2 b3 b4 b5 b6 b7 b8 b9 b10 b11 b12 b13 b14 b15) => let b10 := b10 +' b9 in let b9 := ((b9 <<' 25) |' (b9 >>' (64 - 25))) ^' b10 in (Locals16 b0 b1 b2 b3 b4 b5 b6 b7 b8 b9 b10 b11 b12 b13 b14 b15));
  (* round 39 *)
  (fun '(Locals16 b0 b1 b2 b3 b4 b5 b6 b7 b8 b9 b10 b11 b12 b13 b14 b15) => let b0 := b0 +' b15 in let b15 := ((b15 <<' 9) |' (b15 >>' (64 - 9))) ^' b0 in (Locals16 b0 b1 b2 b3 b4 b5 b6 b7 b8 b9 b10 b11 b12 b13 b14 b15));
  (fun '(Locals16 b0 b1 b2 b3 b4 b5 b6 b7 b8 b9 b10 b11 b12 b13 b14 b15) => let b2 := b2 +' b11 in let b11 := ((b11 <<' 48) |' (b11 >>' (64 - 48))) ^' b2 in (Locals16 b0 b1 b2 b3 b4 b5 b6 b7 b8 b9 b10 b11 b12 b13 b14 b15));
  (fun '(Locals16 b0 b1 b2 b3 b4 b5 b6 b7 b8 b9 b10 b11 b12 b13 b14 b15) => let b6 := b6 +' b13 in let b13 := ((b13 <<' 35) |' (b13 >>' (64 - 35))) ^' b6 in (Locals16 b0 b1 b2 b3 b4 b5 b6 b7 b8 b9 b10 b11 b12 b13 b14 b15));
  (fun '(Locals16 b0 b1 b2 b3 b4 b5 b6 b7 b8 b9 b10 b11 b12 b13 b14 b15) => let b4 := b4 +' b9 in let b9 := ((b9 <<' 52) |' (b9 >>' (64 - 52))) ^' b4 in (Locals16 b0 b1 b2 b3 b4 b5 b6 b7 b8 b9 b10 b11 b12 b13 b14 b15));
  (fun '(Locals16 b0 b1 b2 b3 b4 b5 b6 b7 b8 b9 b10 b11 b12 b13 b14 b15) => let b14 := b14 +' b1 in let b1 := ((b1 <<' 23) |' (b1 >>' (64 - 23))) ^' b14 in (Locals16 b0 b1 b2 b3 b4 b5 b6 b7 b8 b9 b10 b11 b12 b13 b14 b15));
  (fun '(Locals16 b0 b1 b2 b3 b4 b5 b6 b7 b8 b9 b10 b11 b12 b13 b14 b15) => let b8 := b8 +' b5 in let b5 := ((b5 <<' 31) |' (b5 >>' (64 - 31))) ^' b8 in (Locals16 b0 b1 b2 b3 b4 b5 b6 b7 b8 b9 b10 b11 b12 b13 b14 b15));
  (fun '(Locals16 b0 b1 b2 b3 b4 b5 b6 b7 b8 b9 b10 b11 b12 b13 b14 b15) => let b10 := b10 +' b3 in let b3 := ((b3 <<' 37) |' (b3 >>' (64 - 37))) ^' b10 in (Locals16 b0 b1 b2 b3 b4 b5 b6 b7 b8 b9 b10 b11 b12 b13 b14 b15));
  (fun '(Locals16 b0 b1 b2 b3 b4 b5 b6 b7 b8 b9 b10 b11 b12 b13 b14 b15) => let b12 := b12 +' b7 in let b7 := ((b7 <<' 20) |' (b7 >>' (64 - 20))) ^' b12 in (Locals16 b0 b1 b2 b3 b4 b5 b6 b7 b8 b9 b10 b11 b12 b13 b14 b15));
  (* round 40 *)
  (fun '(Locals16 b0 b1 b2 b3 b4 b5 b6 b7 b8 b9 b10 b11 b12 b13 b14 b15) => let b1 := b1 +' k11 in let b0 := b0 +' (b1 +' k10) in let b1 := ((b1 <<' 24) |' (b1 >>' (64 - 24))) ^' b0 in (Locals16 b0 b1 b2 b3 b4 b5 b6 b7 b8 b9 b10 b11 b12 b13 b14 b15));
  (fun '(Locals16 b0 b1 b2 b3 b4 b5 b6 b7 b8 b9 b10 b11 b12 b13 b14 b15) => let b3 := b3 +' k13 in let b2 := b2 +' (b3 +' k12) in let b3 := ((b3 <<' 13) |' (b3 >>' (64 - 13))) ^' b2 in (Locals16 b0 b1 b2 b3 b4 b5 b6 b7 b8 b9 b10 b11 b12 b13 b14 b15));
  (fun '(Locals16 b0 b1 b2 b3 b4 b5 b6 b7 b8 b9 b10 b11 b12 b13 b14 b15) => let b5 := b5 +' k15 in let b4 := b4 +' (b5 +' k14) in let b5 := ((b5 <<' 8) |' (b5 >>' (64 - 8))) ^' b4 in (Locals16 b0 b1 b2 b3 b4 b5 b6 b7 b8 b9 b10 b11 b12 b13 b14 b15));
  (fun '(Locals16 b0 b1 b2 b3 b4 b5 b6 b7 b8 b9 b10 b11 b12 b13 b14 b15) => let b7 := b7 +' k0 in let b6 := b6 +' (b7 +' k16) in let b7 := ((b7 <<' 47) |' (b7 >>' (64 - 47))) ^' b6 in (Locals16 b0 b1 b2 b3 b4 b5 b6 b7 b8 b9 b10 b11 b12 b13 b14 b15));
  (fun '(Locals16 b0 b1 b2 b3 b4 b5 b6 b7 b8 b9 b10 b11 b12 b13 b14 b15) => let b9 := b9 +' k2 in let b8 := b8 +' (b9 +' k1) in let b9 := ((b9 <<' 8) |' (b9 >>' (64 - 8))) ^' b8 in (Locals16 b0 b1 b2 b3 b4 b5 b6 b7 b8 b9 b10 b11 b12 b13 b14 b15));
  (fun '(Locals16 b0 b1 b2 b3 b4 b5 b6 b7 b8 b9 b10 b11 b12 b13 b14 b15) => let b11 := b11 +' k4 in let b10 := b10 +' (b11 +' k3) in let b11 := ((b11 <<' 17) |' (b11 >>' (64 - 17))) ^' b10 in (Locals16 b0 b1 b2 b3 b4 b5 b6 b7 b8 b9 b10 b11 b12 b13 b14 b15));
  (fun '(Locals16 b0 b1 b2 b3 b4 b5 b6 b7 b8 b9 b10 b11 b12 b13 b14 b15) => let b13 := b13 +' (k6 +' t1) in let b12 := b12 +' (b13 +' k5) in let b13 := ((b13 <<' 22) |' (b13 >>' (64 - 22))) ^' b12 in (Locals16 b0 b1 b2 b3 b4 b5 b6 b7 b8 b9 b10 b11 b12 b13 b14 b15));
  (fun '(Locals16 b0 b1 b2 b3 b4 b5 b6 b7 b8 b9 b10 b11 b12 b13 b14 b15) => let b15 := b15 +' (k8 +' 10) in let b14 := b14 +' (b15 +' k7 +' t2) in let b15 := ((b15 <<' 37) |' (b15 >>' (64 - 37))) ^' b14 in (Locals16 b0 b1 b2 b3 b4 b5 b6 b7 b8 b9 b10 b11 b12 b13 b14 b15));
  (* round 41 *)
  (fun '(Locals16 b0 b1 b2 b3 b4 b5 b6 b7 b8 b9 b10 b11 b12 b13 b14 b15) => let b0 := b0 +' b9 in let b9 := ((b9 <<' 38) |' (b9 >>' (64 - 38))) ^' b0 in (Locals16 b0 b1 b2 b3 b4 b5 b6 b7 b8 b9 b10 b11 b12 b13 b14 b15));
  (fun '(Locals16 b0 b1 b2 b3 b4 b5 b6 b7 b8 b9 b10 b11 b12 b13 b14 b15) => let b2 := b2 +' b13 in let b13 := ((b13 <<' 19) |' (b13 >>' (64 - 19))) ^' b2 in (Locals16 b0 b1 b2 b3 b4 b5 b6 b7 b8 b9 b10 b11 b12 b13 b14 b15));
  (fun '(Locals16 b0 b1 b2 b3 b4 b5 b6 b7 b8 b9 b10 b11 b12 b13 b14 b15) => let b6 := b6 +' b11 in let b11 := ((b11 <<' 10) |' (b11 >>' (64 - 10))) ^' b6 in (Locals16 b0 b1 b2 b3 b4 b5 b6 b7 b8 b9 b10 b11 b12 b13 b14 b15));
  (fun '(Locals16 b0 b1 b2 b3 b4 b5 b6 b7 b8 b9 b10 b11 b12 b13 b14 b15) => let b4 := b4 +' b15 in let b15 := ((b15 <<' 55) |' (b15 >>' (64 - 55))) ^' b4 in (Locals16 b0 b1 b2 b3 b4 b5 b6 b7 b8 b9 b10 b11 b12 b13 b14 b15));
  (fun '(Locals16 b0 b1 b2 b3 b4 b5 b6 b7 b8 b9 b10 b11 b12 b13 b14 b15) => let b10 := b10 +' b7 in let b7 := ((b7 <<' 49) |' (b7 >>' (64 - 49))) ^' b10 in (Locals16 b0 b1 b2 b3 b4 b5 b6 b7 b8 b9 b10 b11 b12 b13 b14 b15));
  (fun '(Locals16 b0 b1 b2 b3 b4 b5 b6 b7 b8 b9 b10 b11 b12 b13 b14 b15) => let b12 := b12 +' b3 in let b3 := ((b3 <<' 18) |' (b3 >>' (64 - 18))) ^' b12 in (Locals16 b0 b1 b2 b3 b4 b5 b6 b7 b8 b9 b10 b11 b12 b13 b14 b15));
  (fun '(Locals16 b0 b1 b2 b3 b4 b5 b6 b7 b8 b9 b10 b11 b12 b13 b14 b15) => let b14 := b14 +' b5 in let b5 := ((b5 <<' 23) |' (b5 >>' (64 - 23))) ^' b14 in (Locals16 b0 b1 b2 b3 b4 b5 b6 b7 b8 b9 b10 b11 b12 b13 b14 b15));
  (fun '(Locals16 b0 b1 b2 b3 b4 b5 b6 b7 b8 b9 b10 b11 b12 b13 b14 b15) => let b8 := b8 +' b1 in let b1 := ((b1 <<' 52) |' (b1 >>' (64 - 52))) ^' b8 in (Locals16 b0 b1 b2 b3 b4 b5 b6 b7 b8 b9 b10 b11 b12 b13 b14 b15));
  (* round 42 *)
  (fun '(Locals16 b0 b1 b2 b3 b4 b5 b6 b7 b8 b9 b10 b11 b12 b13 b14 b15) => let b0 := b0 +' b7 in let b7 := ((b7 <<' 33) |' (b7 >>' (64 - 33))) ^' b0 in (Locals16 b0 b1 b2 b3 b4 b5 b6 b7 b8 b9 b10 b11 b12 b13 b14 b15));
  (fun '(Locals16 b0 b1 b2 b3 b4 b5 b6 b7 b8 b9 b10 b11 b12 b13 b14 b15) => let b2 := b2 +' b5 in let b5 := ((b5 <<' 4) |' (b5 >>' (64 - 4))) ^' b2 in (Locals16 b0 b1 b2 b3 b4 b5 b6 b7 b8 b9 b10 b11 b12 b13 b14 b15));
  (fun '(Locals16 b0 b1 b2 b3 b4 b5 b6 b7 b8 b9 b10 b11 b12 b13 b14 b15) => let b4 := b4 +' b3 in let b3 := ((b3 <<' 51) |' (b3 >>' (64 - 51))) ^' b4 in (Locals16 b0 b1 b2 b3 b4 b5 b6 b7 b8 b9 b10 b11 b12 b13 b14 b15));
  (fun '(Locals16 b0 b1 b2 b3 b4 b5 b6 b7 b8 b9 b10 b11 b12 b13 b14 b15) => let b6 := b6 +' b1 in let b1 := ((b1 <<' 13) |' (b1 >>' (64 - 13))) ^' b6 in (Locals16 b0 b1 b2 b3 b4 b5 b6 b7 b8 b9 b10 b11 b12 b13 b14 b15));
  (fun '(Locals16 b0 b1 b2 b3 b4 b5 b6 b7 b8 b9 b10 b11 b12 b13 b14 b15) => let b12 := b12 +' b15 in let b15 := ((b15 <<' 34) |' (b15 >>' (64 - 34))) ^' b12 in (Locals16 b0 b1 b2 b3 b4 b5 b6 b7 b8 b9 b10 b11 b12 b13 b14 b15));
  (fun '(Locals16 b0 b1 b2 b3 b4 b5 b6 b7 b8 b9 b10 b11 b12 b13 b14 b15) => let b14 := b14 +' b13 in let b13 := ((b13 <<' 41) |' (b13 >>' (64 - 41))) ^' b14 in (Locals16 b0 b1 b2 b3 b4 b5 b6 b7 b8 b9 b10 b11 b12 b13 b14 b15));
  (fun '(Locals16 b0 b1 b2 b3 b4 b5 b6 b7 b8 b9 b10 b11 b12 b13 b14 b15) => let b8 := b8 +' b11 in let b11 := ((b11 <<' 59) |' (b11 >>' (64 - 59))) ^' b8 in (Locals16 b0 b1 b2 b3 b4 b5 b6 b7 b8 b9 b10 b11 b12 b13 b14 b15));
  (fun '(Locals16 b0 b1 b2 b3 b4 b5 b6 b7 b8 b9 b10 b11 b12 b13 b14 b15) => let b10 := b10 +' b9 in let b9 := ((b9 <<' 17) |' (b9 >>' (64 - 17))) ^' b10 in (Locals16 b0 b1 b2 b3 b4 b5 b6 b7 b8 b9 b10 b11 b12 b13 b14 b15));
  (* round 43 *)
  (fun '(Locals16 b0 b1 b2 b3 b4 b5 b6 b7 b8 b9 b10 b11 b12 b13 b14 b15) => let b0 := b0 +' b15 in let b15 := ((b15 <<' 5) |' (b15 >>' (64 - 5))) ^' b0 in (Locals16 b0 b1 b2 b3 b4 b5 b6 b7 b8 b9 b10 b11 b12 b13 b14 b15));
  (fun '(Locals16 b0 b1 b2 b3 b4 b5 b6 b7 b8 b9 b10 b11 b12 b13 b14 b15) => let b2 := b2 +' b11 in let b11 := ((b11 <<' 20) |' (b11 >>' (64 - 20))) ^' b2 in (Locals16 b0 b1 b2 b3 b4 b5 b6 b7 b8 b9 b10 b11 b12 b13 b14 b15));
  (fun '(Locals16 b0 b1 b2 b3 b4 b5 b6 b7 b8 b9 b10 b11 b12 b13 b14 b15) => let b6 := b6 +' b13 in let b13 := ((b13 <<' 48) |' (b13 >>' (64 - 48))) ^' b6 in (Locals16 b0 b1 b2 b3 b4 b5 b6 b7 b8 b9 b10 b11 b12 b13 b14 b15));
  (fun '(Locals16 b0 b1 b2 b3 b4 b5 b6 b7 b8 b9 b10 b11 b12 b13 b14 b15) => let b4 := b4 +' b9 in let b9 := ((b9 <<' 41) |' (b9 >>' (64 - 41))) ^' b4 in (Locals16 b0 b1 b2 b3 b4 b5 b6 b7 b8 b9 b10 b11 b12 b13 b14 b15));
  (fun '(Locals16 b0 b1 b2 b3 b4 b5 b6 b7 b8 b9 b10 b11 b12 b13 b14 b15) => let b14 := b14 +' b1 in let b1 := ((b1 <<' 47) |' (b1 >>' (64 - 47))) ^' b14 in (Locals16 b0 b1 b2 b3 b4 b5 b6 b7 b8 b9 b10 b11 b12 b13 b14 b15));
  (fun '(Locals16 b0 b1 b2 b3 b4 b5 b6 b7 b8 b9 b10 b11 b12 b13 b14 b15) => let b8 := b8 +' b5 in let b5 := ((b5 <<' 28) |' (b5 >>' (64 - 28))) ^' b8 in (Locals16 b0 b1 b2 b3 b4 b5 b6 b7 b8 b9 b10 b11 b12 b13 b14 b15));
  (fun '(Locals16 b0 b1 b2 b3 b4 b5 b6 b7 b8 b9 b10 b11 b12 b13 b14 b15) => let b10 := b10 +' b3 in let b3 := ((b3 <<' 16) |' (b3 >>' (64 - 16))) ^' b10 in (Locals16 b0 b1 b2 b3 b4 b5 b6 b7 b8 b9 b10 b11 b12 b13 b14 b15));
  (fun '(Locals16 b0 b1 b2 b3 b4 b5 b6 b7 b8 b9 b10 b11 b12 b13 b14 b15) => let b12 := b12 +' b7 in let b7 := ((b7 <<' 25) |' (b7 >>' (64 - 25))) ^' b12 in (Locals16 b0 b1 b2 b3 b4 b5 b6 b7 b8 b9 b10 b11 b12 b13 b14 b15));
  (* round 44 *)
  (fun '(Locals16 b0 b1 b2 b3 b4 b5 b6 b7 b8 b9 b10 b11 b12 b13 b14 b15) => let b1 := b1 +' k12 in let b0 := b0 +' (b1 +' k11) in let b1 := ((b1 <<' 41) |' (b1 >>' (64 - 41))) ^' b0 in (Locals16 b0 b1 b2 b3 b4 b5 b6 b7 b8 b9 b10 b11 b12 b13 b14 b15));
  (fun '(Locals16 b0 b1 b2 b3 b4 b5 b6 b7 b8 b9 b10 b11 b12 b13 b14 b15) => let b3 := b3 +' k14 in let b2 := b2 +' (b3 +' k13) in let b3 := ((b3 <<' 9) |' (b3 >>' (64 - 9))) ^' b2 in (Locals16 b0 b1 b2 b3 b4 b5 b6 b7 b8 b9 b10 b11 b12 b13 b14 b15));
  (fun '(Locals16 b0 b1 b2 b3 b4 b5 b6 b7 b8 b9 b10 b11 b12 b13 b14 b15) => let b5 := b5 +' k16 in let b4 := b4 +' (b5 +' k15) in let b5 := ((b5 <<' 37) |' (b5 >>' (64 - 37))) ^' b4 in (Locals16 b0 b1 b2 b3 b4 b5 b6 b7 b8 b9 b10 b11 b12 b13 b14 b15));
  (fun '(Locals16 b0 b1 b2 b3 b4 b5 b6 b7 b8 b9 b10 b11 b12 b13 b14 b15) => let b7 := b7 +' k1 in let b6 := b6 +' (b7 +' k0) in let b7 := ((b7 <<' 31) |' (b7 >>' (64 - 31))) ^' b6 in (Locals16 b0 b1 b2 b3 b4 b5 b6 b7 b8 b9 b10 b11 b12 b13 b14 b15));
  (fun '(Locals16 b0 b1 b2 b3 b4 b5 b6 b7 b8 b9 b10 b11 b12 b13 b14 b15) => let b9 := b9 +' k3 in let b8 := b8 +' (b9 +' k2) in let b9 := ((b9 <<' 12) |' (b9 >>' (64 - 12))) ^' b8 in (Locals16 b0 b1 b2 b3 b4 b5 b6 b7 b8 b9 b10 b11 b12 b13 b14 b15));
  (fun '(Locals16 b0 b1 b2 b3 b4 b5 b6 b7 b8 b9 b10 b11 b12 b13 b14 b15) => let b11 := b11 +' k5 in let b10 := b10 +' (b11 +' k4) in let b11 := ((b11 <<' 47) |' (b11 >>' (64 - 47))) ^' b10 in (Locals16 b0 b1 b2 b3 b4 b5 b6 b7 b8 b9 b10 b11 b12 b13 b14 b15));
  (fun '(Locals16 b0 b1 b2 b3 b4 b5 b6 b7 b8 b9 b10 b11 b12 b13 b14 b15) => let b13 := b13 +' (k7 +' t2) in let b12 := b12 +' (b13 +' k6) in let b13 := ((b13 <<' 44) |' (b13 >>' (64 - 44))) ^' b12 in (Locals16 b0 b1 b2 b3 b4 b5 b6 b7 b8 b9 b10 b11 b12 b13 b14 b15));
  (fun '(Locals16 b0 b1 b2 b3 b4 b5 b6 b7 b8 b9 b10 b11 b12 b13 b14 b15) => let b15 := b15 +' (k9 +' 11) in let b14 := b14 +' (b15 +' k8 +' t0) in let b15 := ((b15 <<' 30) |' (b15 >>' (64 - 30))) ^' b14 in (Locals16 b0 b1 b2 b3 b4 b5 b6 b7 b8 b9 b10 b11 b12 b13 b14 b15));
  (* round 45 *)
  (fun '(Locals16 b0 b1 b2 b3 b4 b5 b6 b7 b8 b9 b10 b11 b12 b13 b14 b15) => let b0 := b0 +' b9 in let b9 := ((b9 <<' 16) |' (b9 >>' (64 - 16))) ^' b0 in (Locals16 b0 b1 b2 b3 b4 b5 b6 b7 b8 b9 b10 b11 b12 b13 b14 b15));
  (fun '(Locals16 b0 b1 b2 b3 b4 b5 b6 b7 b8 b9 b10 b11 b12 b13 b14 b15) => let b2 := b2 +' b13 in let b13 := ((b13 <<' 34) |' (b13 >>' (64 - 34))) ^' b2 in (Locals16 b0 b1 b2 b3 b4 b5 b6 b7 b8 b9 b10 b11 b12 b13 b14 b15));
  (fun '(Locals16 b0 b1 b2 b3 b4 b5 b6 b7 b8 b9 b10 b11 b12 b13 b14 b15) => let b6 := b6 +' b11 in let b11 := ((b11 <<' 56) |' (b11 >>' (64 - 56))) ^' b6 in (Locals16 b0 b1 b2 b3 b4 b5 b6 b7 b8 b9 b10 b11 b12 b13 b14 b15));
  (fun '(Locals16 b0 b1 b2 b3 b4 b5 b6 b7 b8 b9 b10 b11 b12 b13 b14 b15) => let b4 := b4 +' b15 in let b15 := ((b15 <<' 51) |' (b15 >>' (64 - 51))) ^' b4 in (Locals16 b0 b1 b2 b3 b4 b5 b6 b7 b8 b9 b10 b11 b12 b13 b14 b15));
  (fun '(Locals16 b0 b1 b2 b3 b4 b5 b6 b7 b8 b9 b10 b11 b12 b13 b14 b15) => let b10 := b10 +' b7 in let b7 := ((b7 <<' 4) |' (b7 >>' (64 - 4))) ^' b10 in (Locals16 b0 b1 b2 b3 b4 b5 b6 b7 b8 b9 b10 b11 b12 b13 b14 b15));
  (fun '(Locals16 b0 b1 b2 b3 b4 b5 b6 b7 b8 b9 b10 b11 b12 b13 b14 b15) => let b12 := b12 +' b3 in let b3 := ((b3 <<' 53) |' (b3 >>' (64 - 53))) ^' b12 in (Locals16 b0 b1 b2 b3 b4 b5 b6 b7 b8 b9 b10 b11 b12 b13 b14 b15));
  (fun '(Locals16 b0 b1 b2 b3 b4 b5 b6 b7 b8 b9 b10 b11 b12 b13 b14 b15) => let b14 := b14 +' b5 in let b5 := ((b5 <<' 42) |' (b5 >>' (64 - 42))) ^' b14 in (Locals16 b0 b1 b2 b3 b4 b5 b6 b7 b8 b9 b10 b11 b12 b13 b14 b15));
  (fun '(Locals16 b0 b1 b2 b3 b4 b5 b6 b7 b8 b9 b10 b11 b12 b13 b14 b15) => let b8 := b8 +' b1 in let b1 := ((b1 <<' 41) |' (b1 >>' (64 - 41))) ^' b8 in (Locals16 b0 b1 b2 b3 b4 b5 b6 b7 b8 b9 b10 b11 b12 b13 b14 b15));
  (* round 46 *)
  (fun '(Locals16 b0 b1 b2 b3 b4 b5 b6 b7 b8 b9 b10 b11 b12 b13 b14 b15) => let b0 := b0 +' b7 in let b7 := ((b7 <<' 31) |' (b7 >>' (64 - 31))) ^' b0 in (Locals16 b0 b1 b2 b3 b4 b5 b6 b7 b8 b9 b10 b11 b12 b13 b14 b15));
  (fun '(Locals16 b0 b1 b2 b3 b4 b5 b6 b7 b8 b9 b10 b11 b12 b13 b14 b15) => let b2 := b2 +' b5 in let b5 := ((b5 <<' 44) |' (b5 >>' (64 - 44))) ^' b2 in (Locals16 b0 b1 b2 b3 b4 b5 b6 b7 b8 b9 b10 b11 b12 b13 b14 b15));
  (fun '(Locals16 b0 b1 b2 b3 b4 b5 b6 b7 b8 b9 b10 b11 b12 b13 b14 b15) => let b4 := b4 +' b3 in let b3 := ((b3 <<' 47) |' (b3 >>' (64 - 47))) ^' b4 in (Locals16 b0 b1 b2 b3 b4 b5 b6 b7 b8 b9 b10 b11 b12 b13 b14 b15));
  (fun '(Locals16 b0 b1 b2 b3 b4 b5 b6 b7 b8 b9 b10 b11 b12 b13 b14 b15) => let b6 := b6 +' b1 in let b1 := ((b1 <<' 46) |' (b1 >>' (64 - 46))) ^' b6 in (Locals16 b0 b1 b2 b3 b4 b5 b6 b7 b8 b9 b10 b11 b12 b13 b14 b15));
  (fun '(Locals16 b0 b1 b2 b3 b4 b5 b6 b7 b8 b9 b10 b11 b12 b13 b14 b15) => let b12 := b12 +' b15 in let b15 := ((b15 <<' 19) |' (b15 >>' (64 - 19))) ^' b12 in (Locals16 b0 b1 b2 b3 b4 b5 b6 b7 b8 b9 b10 b11 b12 b13 b14 b15));
  (fun '(Locals16 b0 b1 b2 b3 b4 b5 b6 b7 b8 b9 b10 b11 b12 b13 b14 b15) => let b14 := b14 +' b13 in let b13 := ((b13 <<' 42) |' (b13 >>' (64 - 42))) ^' b14 in (Locals16 b0 b1 b2 b3 b4 b5 b6 b7 b8 b9 b10 b11 b12 b13 b14 b15));
  (fun '(Locals16 b0 b1 b2 b3 b4 b5 b6 b7 b8 b9 b10 b11 b12 b13 b14 b15) => let b8 := b8 +' b11 in let b11 := ((b11 <<' 44) |' (b11 >>' (64 - 44))) ^' b8 in (Locals16 b0 b1 b2 b3 b4 b5 b6 b7 b8 b9 b10 b11 b12 b13 b14 b15));
  (fun '(Locals16 b0 b1 b2 b3 b4 b5 b6 b7 b8 b9 b10 b11 b12 b13 b14 b15) => let b10 := b10 +' b9 in let b9 := ((b9 <<' 25) |' (b9 >>' (64 - 25))) ^' b10 in (Locals16 b0 b1 b2 b3 b4 b5 b6 b7 b8 b9 b10 b11 b12 b13 b14 b15));
  (* round 47 *)
  (fun '(Locals16 b0 b1 b2 b3 b4 b5 b6 b7 b8 b9 b10 b11 b12 b13 b14 b15) => let b0 := b0 +' b15 in let b15 := ((b15 <<' 9) |' (b15 >>' (64 - 9))) ^' b0 in (Locals16 b0 b1 b2 b3 b4 b5 b6 b7 b8 b9 b10 b11 b12 b13 b14 b15));
  (fun '(Locals16 b0 b1 b2 b3 b4 b5 b6 b7 b8 b9 b10 b11 b12 b13 b14 b15) => let b2 := b2 +' b11 in let b11 := ((b11 <<' 48) |' (b11 >>' (64 - 48))) ^' b2 in (Locals16 b0 b1 b2 b3 b4 b5 b6 b7 b8 b9 b10 b11 b12 b13 b14 b15));
  (fun '(Locals16 b0 b1 b2 b3 b4 b5 b6 b7 b8 b9 b10 b11 b12 b13 b14 b15) => let b6 := b6 +' b13 in let b13 := ((b13 <<' 35) |' (b13 >>' (64 - 35))) ^' b6 in (Locals16 b0 b1 b2 b3 b4 b5 b6 b7 b8 b9 b10 b11 b12 b13 b14 b15));
  (fun '(Locals16 b0 b1 b2 b3 b4 b5 b6 b7 b8 b9 b10 b11 b12 b13 b14 b15) => let b4 := b4 +' b9 in let b9 := ((b9 <<' 52) |' (b9 >>' (64 - 52))) ^' b4 in (Locals16 b0 b1 b2 b3 b4 b5 b6 b7 b8 b9 b10 b11 b12 b13 b14 b15));
  (fun '(Locals16 b0 b1 b2 b3 b4 b5 b6 b7 b8 b9 b10 b11 b12 b13 b14 b15) => let b14 := b14 +' b1 in let b1 := ((b1 <<' 23) |' (b1 >>' (64 - 23))) ^' b14 in (Locals16 b0 b1 b2 b3 b4 b5 b6 b7 b8 b9 b10 b11 b12 b13 b14 b15));
  (fun '(Locals16 b0 b1 b2 b3 b4 b5 b6 b7 b8 b9 b10 b11 b12 b13 b14 b15) => let b8 := b8 +' b5 in let b5 := ((b5 <<' 31) |' (b5 >>' (64 - 31))) ^' b8 in (Locals16 b0 b1 b2 b3 b4 b5 b6 b7 b8 b9 b10 b11 b12 b13 b14 b15));
  (fun '(Locals16 b0 b1 b2 b3 b4 b5 b6 b7 b8 b9 b10 b11 b12 b13 b14 b15) => let b10 := b10 +' b3 in let b3 := ((b3 <<' 37) |' (b3 >>' (64 - 37))) ^' b10 in (Locals16 b0 b1 b2 b3 b4 b5 b6 b7 b8 b9 b10 b11 b12 b13 b14 b15));
  (fun '(Locals16 b0 b1 b2 b3 b4 b5 b6 b7 b8 b9 b10 b11 b12 b13 b14 b15) => let b12 := b12 +' b7 in let b7 := ((b7 <<' 20) |' (b7 >>' (64 - 20))) ^' b12 in (Locals16 b0 b1 b2 b3 b4 b5 b6 b7 b8 b9 b10 b11 b12 b13 b14 b15));
  (* round 48 *)
  (fun '(Locals16 b0 b1 b2 b3 b4 b5 b6 b7 b8 b9 b10 b11 b12 b13 b14 b15) => let b1 := b1 +' k13 in let b0 := b0 +' (b1 +' k12) in let b1 := ((b1 <<' 24) |' (b1 >>' (64 - 24))) ^' b0 in (Locals16 b0 b1 b2 b3 b4 b5 b6 b7 b8 b9 b10 b11 b12 b13 b14 b15));
  (fun '(Locals16 b0 b1 b2 b3 b4 b5 b6 b7 b8 b9 b10 b11 b12 b13 b14 b15) => let b3 := b3 +' k15 in let b2 := b2 +' (b3 +' k14) in let b3 := ((b3 <<' 13) |' (b3 >>' (64 - 13))) ^' b2 in (Locals16 b0 b1 b2 b3 b4 b5 b6 b7 b8 b9 b10 b11 b12 b13 b14 b15));
  (fun '(Locals16 b0 b1 b2 b3 b4 b5 b6 b7 b8 b9 b10 b11 b12 b13 b14 b15) => let b5 := b5 +' k0 in let b4 := b4 +' (b5 +' k16) in let b5 := ((b5 <<' 8) |' (b5 >>' (64 - 8))) ^' b4 in (Locals16 b0 b1 b2 b3 b4 b5 b6 b7 b8 b9 b10 b11 b12 b13 b14 b15));
  (fun '(Locals16 b0 b1 b2 b3 b4 b5 b6 b7 b8 b9 b10 b11 b12 b13 b14 b15) => let b7 := b7 +' k2 in let b6 := b6 +' (b7 +' k1) in let b7 := ((b7 <<' 47) |' (b7 >>' (64 - 47))) ^' b6 in (Locals16 b0 b1 b2 b3 b4 b5 b6 b7 b8 b9 b10 b11 b12 b13 b14 b15));
  (fun '(Locals16 b0 b1 b2 b3 b4 b5 b6 b7 b8 b9 b10 b11 b12 b13 b14 b15) => let b9 := b9 +' k4 in let b8 := b8 +' (b9 +' k3) in let b9 := ((b9 <<' 8) |' (b9 >>' (64 - 8))) ^' b8 in (Locals16 b0 b1 b2 b3 b4 b5 b6 b7 b8 b9 b10 b11 b12 b13 b14 b15));
  (fun '(Locals16 b0 b1 b2 b3 b4 b5 b6 b7 b8 b9 b10 b11 b12 b13 b14 b15) => let b11 := b11 +' k6 in let b10 := b10 +' (b11 +' k5) in let b11 := ((b11 <<' 17) |' (b11 >>' (64 - 17))) ^' b10 in (Locals16 b0 b1 b2 b3 b4 b5 b6 b7 b8 b9 b10 b11 b12 b13 b14 b15));
  (fun '(Locals16 b0 b1 b2 b3 b4 b5 b6 b7 b8 b9 b10 b11 b12 b13 b14 b15) => let b13 := b13 +' (k8 +' t0) in let b12 := b12 +' (b13 +' k7) in let b13 := ((b13 <<' 22) |' (b13 >>' (64 - 22))) ^' b12 in (Locals16 b0 b1 b2 b3 b4 b5 b6 b7 b8 b9 b10 b11 b12 b13 b14 b15));
  (fun '(Locals16 b0 b1 b2 b3 b4 b5 b6 b7 b8 b9 b10 b11 b12 b13 b14 b15) => let b15 := b15 +' (k10 +' 12) in let b14 := b14 +' (b15 +' k9 +' t1) in let b15 := ((b15 <<' 37) |' (b15 >>' (64 - 37))) ^' b14 in (Locals16 b0 b1 b2 b3 b4 b5 b6 b7 b8 b9 b10 b11 b12 b13 b14 b15));
  (* round 49 *)
  (fun '(Locals16 b0 b1 b2 b3 b4 b5 b6 b7 b8 b9 b10 b11 b12 b13 b14 b15) => let b0 := b0 +' b9 in let b9 := ((b9 <<' 38) |' (b9 >>' (64 - 38))) ^' b0 in (Locals16 b0 b1 b2 b3 b4 b5 b6 b7 b8 b9 b10 b11 b12 b13 b14 b15));
  (fun '(Locals16 b0 b1 b2 b3 b4 b5 b6 b7 b8 b9 b10 b11 b12 b13 b14 b15) => let b2 := b2 +' b13 in let b13 := ((b13 <<' 19) |' (b13 >>' (64 - 19))) ^' b2 in (Locals16 b0 b1 b2 b3 b4 b5 b6 b7 b8 b9 b10 b11 b12 b13 b14 b15));
  (fun '(Locals16 b0 b1 b2 b3 b4 b5 b6 b7 b8 b9 b10 b11 b12 b13 b14 b15) => let b6 := b6 +' b11 in let b11 := ((b11 <<' 10) |' (b11 >>' (64 - 10))) ^' b6 in (Locals16 b0 b1 b2 b3 b4 b5 b6 b7 b8 b9 b10 b11 b12 b13 b14 b15));
  (fun '(Locals16 b0 b1 b2 b3 b4 b5 b6 b7 b8 b9 b10 b11 b12 b13 b14 b15) => let b4 := b4 +' b15 in let b15 := ((b15 <<' 55) |' (b15 >>' (64 - 55))) ^' b4 in (Locals16 b0 b1 b2 b3 b4 b5 b6 b7 b8 b9 b10 b11 b12 b13 b14 b15));
  (fun '(Locals16 b0 b1 b2 b3 b4 b5 b6 b7 b8 b9 b10 b11 b12 b13 b14 b15) => let b10 := b10 +' b7 in let b7 := ((b7 <<' 49) |' (b7 >>' (64 - 49))) ^' b10 in (Locals16 b0 b1 b2 b3 b4 b5 b6 b7 b8 b9 b10 b11 b12 b13 b14 b15));
  (fun '(Locals16 b0 b1 b2 b3 b4 b5 b6 b7 b8 b9 b10 b11 b12 b13 b14 b15) => let b12 := b12 +' b3 in let b3 := ((b3 <<' 18) |' (b3 >>' (64 - 18))) ^' b12 in (Locals16 b0 b1 b2 b3 b4 b5 b6 b7 b8 b9 b10 b11 b12 b13 b14 b15));
  (fun '(Locals16 b0 b1 b2 b3 b4 b5 b6 b7 b8 b9 b10 b11 b12 b13 b14 b15) => let b14 := b14 +' b5 in let b5 := ((b5 <<' 23) |' (b5 >>' (64 - 23))) ^' b14 in (Locals16 b0 b1 b2 b3 b4 b5 b6 b7 b8 b9 b10 b11 b12 b13 b14 b15));
  (fun '(Locals16 b0 b1 b2 b3 b4 b5 b6 b7 b8 b9 b10 b11 b12 b13 b14 b15) => let b8 := b8 +' b1 in let b1 := ((b1 <<' 52) |' (b1 >>' (64 - 52))) ^' b8 in (Locals16 b0 b1 b2 b3 b4 b5 b6 b7 b8 b9 b10 b11 b12 b13 b14 b15));
  (* round 50 *)
  (fun '(Locals16 b0 b1 b2 b3 b4 b5 b6 b7 b8 b9 b10 b11 b12 b13 b14 b15) => let b0 := b0 +' b7 in let b7 := ((b7 <<' 33) |' (b7 >>' (64 - 33))) ^' b0 in (Locals16 b0 b1 b2 b3 b4 b5 b6 b7 b8 b9 b10 b11 b12 b13 b14 b15));
  (fun '(Locals16 b0 b1 b2 b3 b4 b5 b6 b7 b8 b9 b10 b11 b12 b13 b14 b15) => let b2 := b2 +' b5 in let b5 := ((b5 <<' 4) |' (b5 >>' (64 - 4))) ^' b2 in (Locals16 b0 b1 b2 b3 b4 b5 b6 b7 b8 b9 b10 b11 b12 b13 b14 b15));
  (fun '(Locals16 b0 b1 b2 b3 b4 b5 b6 b7 b8 b9 b10 b11 b12 b13 b14 b15) => let b4 := b4 +' b3 in let b3 := ((b3 <<' 51) |' (b3 >>' (64 - 51))) ^' b4 in (Locals16 b0 b1 b2 b3 b4 b5 b6 b7 b8 b9 b10 b11 b12 b13 b14 b15));
  (fun '(Locals16 b0 b1 b2 b3 b4 b5 b6 b7 b8 b9 b10 b11 b12 b13 b14 b15) => let b6 := b6 +' b1 in let b1 := ((b1 <<' 13) |' (b1 >>' (64 - 13))) ^' b6 in (Locals16 b0 b1 b2 b3 b4 b5 b6 b7 b8 b9 b10 b11 b12 b13 b14 b15));
  (fun '(Locals16 b0 b1 b2 b3 b4 b5 b6 b7 b8 b9 b10 b11 b12 b13 b14 b15) => let b12 := b12 +' b15 in let b15 := ((b15 <<' 34) |' (b15 >>' (64 - 34))) ^' b12 in (Locals16 b0 b1 b2 b3 b4 b5 b6 b7 b8 b9 b10 b11 b12 b13 b14 b15));
  (fun '(Locals16 b0 b1 b2 b3 b4 b5 b6 b7 b8 b9 b10 b11 b12 b13 b14 b15) => let b14 := b14 +' b13 in let b13 := ((b13 <<' 41) |' (b13 >>' (64 - 41))) ^' b14 in (Locals16 b0 b1 b2 b3 b4 b5 b6 b7 b8 b9 b10 b11 b12 b13 b14 b15));
  (fun '(Locals16 b0 b1 b2 b3 b4 b5 b6 b7 b8 b9 b10 b11 b12 b13 b14 b15) => let b8 := b8 +' b11 in let b11 := ((b11 <<' 59) |' (b11 >>' (64 - 59))) ^' b8 in (Locals16 b0 b1 b2 b3 b4 b5 b6 b7 b8 b9 b10 b11 b12 b13 b14 b15));
  (fun '(Locals16 b0 b1 b2 b3 b4 b5 b6 b7 b8 b9 b10 b11 b12 b13 b14 b15) => let b10 := b10 +' b9 in let b9 := ((b9 <<' 17) |' (b9 >>' (64 - 17))) ^' b10 in (Locals16 b0 b1 b2 b3 b4 b5 b6 b7 b8 b9 b10 b11 b12 b13 b14 b15));
  (* round 51 *)
  (fun '(Locals16 b0 b1 b2 b3 b4 b5 b6 b7 b8 b9 b10 b11 b12 b13 b14 b15) => let b0 := b0 +' b15 in let b15 := ((b15 <<' 5) |' (b15 >>' (64 - 5))) ^' b0 in (Locals16 b0 b1 b2 b3 b4 b5 b6 b7 b8 b9 b10 b11 b12 b13 b14 b15));
  (fun '(Locals16 b0 b1 b2 b3 b4 b5 b6 b7 b8 b9 b10 b11 b12 b13 b14 b15) => let b2 := b2 +' b11 in let b11 := ((b11 <<' 20) |' (b11 >>' (64 - 20))) ^' b2 in (Locals16 b0 b1 b2 b3 b4 b5 b6 b7 b8 b9 b10 b11 b12 b13 b14 b15));
  (fun '(Locals16 b0 b1 b2 b3 b4 b5 b6 b7 b8 b9 b10 b11 b12 b13 b14 b15) => let b6 := b6 +' b13 in let b13 := ((b13 <<' 48) |' (b13 >>' (64 - 48))) ^' b6 in (Locals16 b0 b1 b2 b3 b4 b5 b6 b7 b8 b9 b10 b11 b12 b13 b14 b15));
  (fun '(Locals16 b0 b1 b2 b3 b4 b5 b6 b7 b8 b9 b10 b11 b12 b13 b14 b15) => let b4 := b4 +' b9 in let b9 := ((b9 <<' 41) |' (b9 >>' (64 - 41))) ^' b4 in (Locals16 b0 b1 b2 b3 b4 b5 b6 b7 b8 b9 b10 b11 b12 b13 b14 b15));
  (fun '(Locals16 b0 b1 b2 b3 b4 b5 b6 b7 b8 b9 b10 b11 b12 b13 b14 b15) => let b14 := b14 +' b1 in let b1 := ((b1 <<' 47) |' (b1 >>' (64 - 47))) ^' b14 in (Locals16 b0 b1 b2 b3 b4 b5 b6 b7 b8 b9 b10 b11 b12 b13 b14 b15));
  (fun '(Locals16 b0 b1 b2 b3 b4 b5 b6 b7 b8 b9 b10 b11 b12 b13 b14 b15) => let b8 := b8 +' b5 in let b5 := ((b5 <<' 28) |' (b5 >>' (64 - 28))) ^' b8 in (Locals16 b0 b1 b2 b3 b4 b5 b6 b7 b8 b9 b10 b11 b12 b13 b14 b15));
  (fun '(Locals16 b0 b1 b2 b3 b4 b5 b6 b7 b8 b9 b10 b11 b12 b13 b14 b15) => let b10 := b10 +' b3 in let b3 := ((b3 <<' 16) |' (b3 >>' (64 - 16))) ^' b10 in (Locals16 b0 b1 b2 b3 b4 b5 b6 b7 b8 b9 b10 b11 b12 b13 b14 b15));
  (fun '(Locals16 b0 b1 b2 b3 b4 b5 b6 b7 b8 b9 b10 b11 b12 b13 b14 b15) => let b12 := b12 +' b7 in let b7 := ((b7 <<' 25) |' (b7 >>' (64 - 25))) ^' b12 in (Locals16 b0 b1 b2 b3 b4 b5 b6 b7 b8 b9 b10 b11 b12 b13 b14 b15));
  (* round 52 *)
  (fun '(Locals16 b0 b1 b2 b3 b4 b5 b6 b7 b8 b9 b10 b11 b12 b13 b14 b15) => let b1 := b1 +' k14 in let b0 := b0 +' (b1 +' k13) in let b1 := ((b1 <<' 41) |' (b1 >>' (64 - 41))) ^' b0 in (Locals16 b0 b1 b2 b3 b4 b5 b6 b7 b8 b9 b10 b11 b12 b13 b14 b15));
  (fun '(Locals16 b0 b1 b2 b3 b4 b5 b6 b7 b8 b9 b10 b11 b12 b13 b14 b15) => let b3 := b3 +' k16 in let b2 := b2 +' (b3 +' k15) in let b3 := ((b3 <<' 9) |' (b3 >>' (64 - 9))) ^' b2 in (Locals16 b0 b1 b2 b3 b4 b5 b6 b7 b8 b9 b10 b11 b12 b13 b14 b15));
  (fun '(Locals16 b0 b1 b2 b3 b4 b5 b6 b7 b8 b9 b10 b11 b12 b13 b14 b15) => let b5 := b5 +' k1 in let b4 := b4 +' (b5 +' k0) in let b5 := ((b5 <<' 37) |' (b5 >>' (64 - 37))) ^' b4 in (Locals16 b0 b1 b2 b3 b4 b5 b6 b7 b8 b9 b10 b11 b12 b13 b14 b15));
  (fun '(Locals16 b0 b1 b2 b3 b4 b5 b6 b7 b8 b9 b10 b11 b12 b13 b14 b15) => let b7 := b7 +' k3 in let b6 := b6 +' (b7 +' k2) in let b7 := ((b7 <<' 31) |' (b7 >>' (64 - 31))) ^' b6 in (Locals16 b0 b1 b2 b3 b4 b5 b6 b7 b8 b9 b10 b11 b12 b13 b14 b15));
  (fun '(Locals16 b0 b1 b2 b3 b4 b5 b6 b7 b8 b9 b10 b11 b12 b13 b14 b15) => let b9 := b9 +' k5 in let b8 := b8 +' (b9 +' k4) in let b9 := ((b9 <<' 12) |' (b9 >>' (64 - 12))) ^' b8 in (Locals16 b0 b1 b2 b3 b4 b5 b6 b7 b8 b9 b10 b11 b12 b13 b14 b15));
  (fun '(Locals16 b0 b1 b2 b3 b4 b5 b6 b7 b8 b9 b10 b11 b12 b13 b14 b15) => let b11 := b11 +' k7 in let b10 := b10 +' (b11 +' k6) in let b11 := ((b11 <<' 47) |' (b11 >>' (64 - 47))) ^' b10 in (Locals16 b0 b1 b2 b3 b4 b5 b6 b7 b8 b9 b10 b11 b12 b13 b14 b15));
  (fun '(Locals16 b0 b1 b2 b3 b4 b5 b6 b7 b8 b9 b10 b11 b12 b13 b14 b15) => let b13 := b13 +' (k9 +' t1) in let b12 := b12 +' (b13 +' k8) in let b13 := ((b13 <<' 44) |' (b13 >>' (64 - 44))) ^' b12 in (Locals16 b0 b1 b2 b3 b4 b5 b6 b7 b8 b9 b10 b11 b12 b13 b14 b15));
  (fun '(Locals16 b0 b1 b2 b3 b4 b5 b6 b7 b8 b9 b10 b11 b12 b13 b14 b15) => let b15 := b15 +' (k11 +' 13) in let b14 := b14 +' (b15 +' k10 +' t2) in let b15 := ((b15 <<' 30) |' (b15 >>' (64 - 30))) ^' b14 in (Locals16 b0 b1 b2 b3 b4 b5 b6 b7 b8 b9 b10 b11 b12 b13 b14 b15));
  (* round 53 *)
  (fun '(Locals16 b0 b1 b2 b3 b4 b5 b6 b7 b8 b9 b10 b11 b12 b13 b14 b15) => let b0 := b0 +' b9 in let b9 := ((b9 <<' 16) |' (b9 >>' (64 - 16))) ^' b0 in (Locals16 b0 b1 b2 b3 b4 b5 b6 b7 b8 b9 b10 b11 b12 b13 b14 b15));
  (fun '(Locals16 b0 b1 b2 b3 b4 b5 b6 b7 b8 b9 b10 b11 b12 b13 b14 b15) => let b2 := b2 +' b13 in let b13 := ((b13 <<' 34) |' (b13 >>' (64 - 34))) ^' b2 in (Locals16 b0 b1 b2 b3 b4 b5 b6 b7 b8 b9 b10 b11 b12 b13 b14 b15));
  (fun '(Locals16 b0 b1 b2 b3 b4 b5 b6 b7 b8 b9 b10 b11 b12 b13 b14 b15) => let b6 := b6 +' b11 in let b11 := ((b11 <<' 56) |' (b11 >>' (64 - 56))) ^' b6 in (Locals16 b0 b1 b2 b3 b4 b5 b6 b7 b8 b9 b10 b11 b12 b13 b14 b15));
  (fun '(Locals16 b0 b1 b2 b3 b4 b5 b6 b7 b8 b9 b10 b11 b12 b13 b14 b15) => let b4 := b4 +' b15 in let b15 := ((b15 <<' 51) |' (b15 >>' (64 - 51))) ^' b4 in (Locals16 b0 b1 b2 b3 b4 b5 b6 b7 b8 b9 b10 b11 b12 b13 b14 b15));
  (fun '(Locals16 b0 b1 b2 b3 b4 b5 b6 b7 b8 b9 b10 b11 b12 b13 b14 b15) => let b10 := b10 +' b7 in let b7 := ((b7 <<' 4) |' (b7 >>' (64 - 4))) ^' b10 in (Locals16 b0 b1 b2 b3 b4 b5 b6 b7 b8 b9 b10 b11 b12 b13 b14 b15));
  (fun '(Locals16 b0 b1 b2 b3 b4 b5 b6 b7 b8 b9 b10 b11 b12 b13 b14 b15) => let b12 := b12 +' b3 in let b3 := ((b3 <<' 53) |' (b3 >>' (64 - 53))) ^' b12 in (Locals16 b0 b1 b2 b3 b4 b5 b6 b7 b8 b9 b10 b11 b12 b13 b14 b15));
  (fun '(Locals16 b0 b1 b2 b3 b4 b5 b6 b7 b8 b9 b10 b11 b12 b13 b14 b15) => let b14 := b14 +' b5 in let b5 := ((b5 <<' 42) |' (b5 >>' (64 - 42))) ^' b14 in (Locals16 b0 b1 b2 b3 b4 b5 b6 b7 b8 b9 b10 b11 b12 b13 b14 b15));
  (fun '(Locals16 b0 b1 b2 b3 b4 b5 b6 b7 b8 b9 b10 b11 b12 b13 b14 b15) => let b8 := b8 +' b1 in let b1 := ((b1 <<' 41) |' (b1 >>' (64 - 41))) ^' b8 in (Locals16 b0 b1 b2 b3 b4 b5 b6 b7 b8 b9 b10 b11 b12 b13 b14 b15));
  (* round 54 *)
  (fun '(Locals16 b0 b1 b2 b3 b4 b5 b6 b7 b8 b9 b10 b11 b12 b13 b14 b15) => let b0 := b0 +' b7 in let b7 := ((b7 <<' 31) |' (b7 >>' (64 - 31))) ^' b0 in (Locals16 b0 b1 b2 b3 b4 b5 b6 b7 b8 b9 b10 b11 b12 b13 b14 b15));
  (fun '(Locals16 b0 b1 b2 b3 b4 b5 b6 b7 b8 b9 b10 b11 b12 b13 b14 b15) => let b2 := b2 +' b5 in let b5 := ((b5 <<' 44) |' (b5 >>' (64 - 44))) ^' b2 in (Locals16 b0 b1 b2 b3 b4 b5 b6 b7 b8 b9 b10 b11 b12 b13 b14 b15));
  (fun '(Locals16 b0 b1 b2 b3 b4 b5 b6 b7 b8 b9 b10 b11 b12 b13 b14 b15) => let b4 := b4 +' b3 in let b3 := ((b3 <<' 47) |' (b3 >>' (64 - 47))) ^' b4 in (Locals16 b0 b1 b2 b3 b4 b5 b6 b7 b8 b9 b10 b11 b12 b13 b14 b15));
  (fun '(Locals16 b0 b1 b2 b3 b4 b5 b6 b7 b8 b9 b10 b11 b12 b13 b14 b15) => let b6 := b6 +' b1 in let b1 := ((b1 <<' 46) |' (b1 >>' (64 - 46))) ^' b6 in (Locals16 b0 b1 b2 b3 b4 b5 b6 b7 b8 b9 b10 b11 b12 b13 b14 b15));
  (fun '(Locals16 b0 b1 b2 b3 b4 b5 b6 b7 b8 b9 b10 b11 b12 b13 b14 b15) => let b12 := b12 +' b15 in let b15 := ((b15 <<' 19) |' (b15 >>' (64 - 19))) ^' b12 in (Locals16 b0 b1 b2 b3 b4 b5 b6 b7 b8 b9 b10 b11 b12 b13 b14 b15));
  (fun '(Locals16 b0 b1 b2 b3 b4 b5 b6 b7 b8 b9 b10 b11 b12 b13 b14 b15) => let b14 := b14 +' b13 in let b13 := ((b13 <<' 42) |' (b13 >>' (64 - 42))) ^' b14 in (Locals16 b0 b1 b2 b3 b4 b5 b6 b7 b8 b9 b10 b11 b12 b13 b14 b15));
  (fun '(Locals16 b0 b1 b2 b3 b4 b5 b6 b7 b8 b9 b10 b11 b12 b13 b14 b15) => let b8 := b8 +' b11 in let b11 := ((b11 <<' 44) |' (b11 >>' (64 - 44))) ^' b8 in (Locals16 b0 b1 b2 b3 b4 b5 b6 b7 b8 b9 b10 b11 b12 b13 b14 b15));
  (fun '(Locals16 b0 b1 b2 b3 b4 b5 b6 b7 b8 b9 b10 b11 b12 b13 b14 b15) => let b10 := b10 +' b9 in let b9 := ((b9 <<' 25) |' (b9 >>' (64 - 25))) ^' b10 in (Locals16 b0 b1 b2 b3 b4 b5 b6 b7 b8 b9 b10 b11 b12 b13 b14 b15));
  (* round 55 *)
  (fun '(Locals16 b0 b1 b2 b3 b4 b5 b6 b7 b8 b9 b10 b11 b12 b13 b14 b15) => let b0 := b0 +' b15 in let b15 := ((b15 <<' 9) |' (b15 >>' (64 - 9))) ^' b0 in (Locals16 b0 b1 b2 b3 b4 b5 b6 b7 b8 b9 b10 b11 b12 b13 b14 b15));
  (fun '(Locals16 b0 b1 b2 b3 b4 b5 b6 b7 b8 b9 b10 b11 b12 b13 b14 b15) => let b2 := b2 +' b11 in let b11 := ((b11 <<' 48) |' (b11 >>' (64 - 48))) ^' b2 in (Locals16 b0 b1 b2 b3 b4 b5 b6 b7 b8 b9 b10 b11 b12 b13 b14 b15));
  (fun '(Locals16 b0 b1 b2 b3 b4 b5 b6 b7 b8 b9 b10 b11 b12 b13 b14 b15) => let b6 := b6 +' b13 in let b13 := ((b13 <<' 35) |' (b13 >>' (64 - 35))) ^' b6 in (Locals16 b0 b1 b2 b3 b4 b5 b6 b7 b8 b9 b10 b11 b12 b13 b14 b15));
  (fun '(Locals16 b0 b1 b2 b3 b4 b5 b6 b7 b8 b9 b10 b11 b12 b13 b14 b15) => let b4 := b4 +' b9 in let b9 := ((b9 <<' 52) |' (b9 >>' (64 - 52))) ^' b4 in (Locals16 b0 b1 b2 b3 b4 b5 b6 b7 b8 b9 b10 b11 b12 b13 b14 b15));
  (fun '(Locals16 b0 b1 b2 b3 b4 b5 b6 b7 b8 b9 b10 b11 b12 b13 b14 b15) => let b14 := b14 +' b1 in let b1 := ((b1 <<' 23) |' (b1 >>' (64 - 23))) ^' b14 in (Locals16 b0 b1 b2 b3 b4 b5 b6 b7 b8 b9 b10 b11 b12 b13 b14 b15));
  (fun '(Locals16 b0 b1 b2 b3 b4 b5 b6 b7 b8 b9 b10 b11 b12 b13 b14 b15) => let b8 := b8 +' b5 in let b5 := ((b5 <<' 31) |' (b5 >>' (64 - 31))) ^' b8 in (Locals16 b0 b1 b2 b3 b4 b5 b6 b7 b8 b9 b10 b11 b12 b13 b14 b15));
  (fun '(Locals16 b0 b1 b2 b3 b4 b5 b6 b7 b8 b9 b10 b11 b12 b13 b14 b15) => let b10 := b10 +' b3 in let b3 := ((b3 <<' 37) |' (b3 >>' (64 - 37))) ^' b10 in (Locals16 b0 b1 b2 b3 b4 b5 b6 b7 b8 b9 b10 b11 b12 b13 b14 b15));
  (fun '(Locals16 b0 b1 b2 b3 b4 b5 b6 b7 b8 b9 b10 b11 b12 b13 b14 b15) => let b12 := b12 +' b7 in let b7 := ((b7 <<' 20) |' (b7 >>' (64 - 20))) ^' b12 in (Locals16 b0 b1 b2 b3 b4 b5 b6 b7 b8 b9 b10 b11 b12 b13 b14 b15));
  (* round 56 *)
  (fun '(Locals16 b0 b1 b2 b3 b4 b5 b6 b7 b8 b9 b10 b11 b12 b13 b14 b15) => let b1 := b1 +' k15 in let b0 := b0 +' (b1 +' k14) in let b1 := ((b1 <<' 24) |' (b1 >>' (64 - 24))) ^' b0 in (Locals16 b0 b1 b2 b3 b4 b5 b6 b7 b8 b9 b10 b11 b12 b13 b14 b15));
  (fun '(Locals16 b0 b1 b2 b3 b4 b5 b6 b7 b8 b9 b10 b11 b12 b13 b14 b15) => let b3 := b3 +' k0 in let b2 := b2 +' (b3 +' k16) in let b3 := ((b3 <<' 13) |' (b3 >>' (64 - 13))) ^' b2 in (Locals16 b0 b1 b2 b3 b4 b5 b6 b7 b8 b9 b10 b11 b12 b13 b14 b15));
  (fun '(Locals16 b0 b1 b2 b3 b4 b5 b6 b7 b8 b9 b10 b11 b12 b13 b14 b15) => let b5 := b5 +' k2 in let b4 := b4 +' (b5 +' k1) in let b5 := ((b5 <<' 8) |' (b5 >>' (64 - 8))) ^' b4 in (Locals16 b0 b1 b2 b3 b4 b5 b6 b7 b8 b9 b10 b11 b12 b13 b14 b15));
  (fun '(Locals16 b0 b1 b2 b3 b4 b5 b6 b7 b8 b9 b10 b11 b12 b13 b14 b15) => let b7 := b7 +' k4 in let b6 := b6 +' (b7 +' k3) in let b7 := ((b7 <<' 47) |' (b7 >>' (64 - 47))) ^' b6 in (Locals16 b0 b1 b2 b3 b4 b5 b6 b7 b8 b9 b10 b11 b12 b13 b14 b15));
  (fun '(Locals16 b0 b1 b2 b3 b4 b5 b6 b7 b8 b9 b10 b11 b12 b13 b14 b15) => let b9 := b9 +' k6 in let b8 := b8 +' (b9 +' k5) in let b9 := ((b9 <<' 8) |' (b9 >>' (64 - 8))) ^' b8 in (Locals16 b0 b1 b2 b3 b4 b5 b6 b7 b8 b9 b10 b11 b12 b13 b14 b15));
  (fun '(Locals16 b0 b1 b2 b3 b4 b5 b6 b7 b8 b9 b10 b11 b12 b13 b14 b15) => let b11 := b11 +' k8 in let b10 := b10 +' (b11 +' k7) in let b11 := ((b11 <<' 17) |' (b11 >>' (64 - 17))) ^' b10 in (Locals16 b0 b1 b2 b3 b4 b5 b6 b7 b8 b9 b10 b11 b12 b13 b14 b15));
  (fun '(Locals16 b0 b1 b2 b3 b4 b5 b6 b7 b8 b9 b10 b11 b12 b13 b14 b15) => let b13 := b13 +' (k10 +' t2) in let b12 := b12 +' (b13 +' k9) in let b13 := ((b13 <<' 22) |' (b13 >>' (64 - 22))) ^' b12 in (Locals16 b0 b1 b2 b3 b4 b5 b6 b7 b8 b9 b10 b11 b12 b13 b14 b15));
  (fun '(Locals16 b0 b1 b2 b3 b4 b5 b6 b7 b8 b9 b10 b11 b12 b13 b14 b15) => let b15 := b15 +' (k12 +' 14) in let b14 := b14 +' (b15 +' k11 +' t0) in let b15 := ((b15 <<' 37) |' (b15 >>' (64 - 37))) ^' b14 in (Locals16 b0 b1 b2 b3 b4 b5 b6 b7 b8 b9 b10 b11 b12 b13 b14 b15));
  (* round 57 *)
  (fun '(Locals16 b0 b1 b2 b3 b4 b5 b6 b7 b8 b9 b10 b11 b12 b13 b14 b15) => let b0 := b0 +' b9 in let b9 := ((b9 <<' 38) |' (b9 >>' (64 - 38))) ^' b0 in (Locals16 b0 b1 b2 b3 b4 b5 b6 b7 b8 b9 b10 b11 b12 b13 b14 b15));
  (fun '(Locals16 b0 b1 b2 b3 b4 b5 b6 b7 b8 b9 b10 b11 b12 b13 b14 b15) => let b2 := b2 +' b13 in let b13 := ((b13 <<' 19) |' (b13 >>' (64 - 19))) ^' b2 in (Locals16 b0 b1 b2 b3 b4 b5 b6 b7 b8 b9 b10 b11 b12 b13 b14 b15));
  (fun '(Locals16 b0 b1 b2 b3 b4 b5 b6 b7 b8 b9 b10 b11 b12 b13 b14 b15) => let b6 := b6 +' b11 in let b11 := ((b11 <<' 10) |' (b11 >>' (64 - 10))) ^' b6 in (Locals16 b0 b1 b2 b3 b4 b5 b6 b7 b8 b9 b10 b11 b12 b13 b14 b15));
  (fun '(Locals16 b0 b1 b2 b3 b4 b5 b6 b7 b8 b9 b10 b11 b12 b13 b14 b15) => let b4 := b4 +' b15 in let b15 := ((b15 <<' 55) |' (b15 >>' (64 - 55))) ^' b4 in (Locals16 b0 b1 b2 b3 b4 b5 b6 b7 b8 b9 b10 b11 b12 b13 b14 b15));
  (fun '(Locals16 b0 b1 b2 b3 b4 b5 b6 b7 b8 b9 b10 b11 b12 b13 b14 b15) => let b10 := b10 +' b7 in let b7 := ((b7 <<' 49) |' (b7 >>' (64 - 49))) ^' b10 in (Locals16 b0 b1 b2 b3 b4 b5 b6 b7 b8 b9 b10 b11 b12 b13 b14 b15));
  (fun '(Locals16 b0 b1 b2 b3 b4 b5 b6 b7 b8 b9 b10 b11 b12 b13 b14 b15) => let b12 := b12 +' b3 in let b3 := ((b3 <<' 18) |' (b3 >>' (64 - 18))) ^' b12 in (Locals16 b0 b1 b2 b3 b4 b5 b6 b7 b8 b9 b10 b11 b12 b13 b14 b15));
  (fun '(Locals16 b0 b1 b2 b3 b4 b5 b6 b7 b8 b9 b10 b11 b12 b13 b14 b15) => let b14 := b14 +' b5 in let b5 := ((b5 <<' 23) |' (b5 >>' (64 - 23))) ^' b14 in (Locals16 b0 b1 b2 b3 b4 b5 b6 b7 b8 b9 b10 b11 b12 b13 b14 b15));
  (fun '(Locals16 b0 b1 b2 b3 b4 b5 b6 b7 b8 b9 b10 b11 b12 b13 b14 b15) => let b8 := b8 +' b1 in let b1 := ((b1 <<' 52) |' (b1 >>' (64 - 52))) ^' b8 in (Locals16 b0 b1 b2 b3 b4 b5 b6 b7 b8 b9 b10 b11 b12 b13 b14 b15));
  (* round 58 *)
  (fun '(Locals16 b0 b1 b2 b3 b4 b5 b6 b7 b8 b9 b10 b11 b12 b13 b14 b15) => let b0 := b0 +' b7 in let b7 := ((b7 <<' 33) |' (b7 >>' (64 - 33))) ^' b0 in (Locals16 b0 b1 b2 b3 b4 b5 b6 b7 b8 b9 b10 b11 b12 b13 b14 b15));
  (fun '(Locals16 b0 b1 b2 b3 b4 b5 b6 b7 b8 b9 b10 b11 b12 b13 b14 b15) => let b2 := b2 +' b5 in let b5 := ((b5 <<' 4) |' (b5 >>' (64 - 4))) ^' b2 in (Locals16 b0 b1 b2 b3 b4 b5 b6 b7 b8 b9 b10 b11 b12 b13 b14 b15));
  (fun '(Locals16 b0 b1 b2 b3 b4 b5 b6 b7 b8 b9 b10 b11 b12 b13 b14 b15) => let b4 := b4 +' b3 in let b3 := ((b3 <<' 51) |' (b3 >>' (64 - 51))) ^' b4 in (Locals16 b0 b1 b2 b3 b4 b5 b6 b7 b8 b9 b10 b11 b12 b13 b14 b15));
  (fun '(Locals16 b0 b1 b2 b3 b4 b5 b6 b7 b8 b9 b10 b11 b12 b13 b14 b15) => let b6 := b6 +' b1 in let b1 := ((b1 <<' 13) |' (b1 >>' (64 - 13))) ^' b6 in (Locals16 b0 b1 b2 b3 b4 b5 b6 b7 b8 b9 b10 b11 b12 b13 b14 b15));
  (fun '(Locals16 b0 b1 b2 b3 b4 b5 b6 b7 b8 b9 b10 b11 b12 b13 b14 b15) => let b12 := b12 +' b15 in let b15 := ((b15 <<' 34) |' (b15 >>' (64 - 34))) ^' b12 in (Locals16 b0 b1 b2 b3 b4 b5 b6 b7 b8 b9 b10 b11 b12 b13 b14 b15));
  (fun '(Locals16 b0 b1 b2 b3 b4 b5 b6 b7 b8 b9 b10 b11 b12 b13 b14 b15) => let b14 := b14 +' b13 in let b13 := ((b13 <<' 41) |' (b13 >>' (64 - 41))) ^' b14 in (Locals16 b0 b1 b2 b3 b4 b5 b6 b7 b8 b9 b10 b11 b12 b13 b14 b15));
  (fun '(Locals16 b0 b1 b2 b3 b4 b5 b6 b7 b8 b9 b10 b11 b12 b13 b14 b15) => let b8 := b8 +' b11 in let b11 := ((b11 <<' 59) |' (b11 >>' (64 - 59))) ^' b8 in (Locals16 b0 b1 b2 b3 b4 b5 b6 b7 b8 b9 b10 b11 b12 b13 b14 b15));
  (fun '(Locals16 b0 b1 b2 b3 b4 b5 b6 b7 b8 b9 b10 b11 b12 b13 b14 b15) => let b10 := b10 +' b9 in let b9 := ((b9 <<' 17) |' (b9 >>' (64 - 17))) ^' b10 in (Locals16 b0 b1 b2 b3 b4 b5 b6 b7 b8 b9 b10 b11 b12 b13 b14 b15));
  (* round 59 *)
  (fun '(Locals16 b0 b1 b2 b3 b4 b5 b6 b7 b8 b9 b10 b11 b12 b13 b14 b15) => let b0 := b0 +' b15 in let b15 := ((b15 <<' 5) |' (b15 >>' (64 - 5))) ^' b0 in (Locals16 b0 b1 b2 b3 b4 b5 b6 b7 b8 b9 b10 b11 b12 b13 b14 b15));
  (fun '(Locals16 b0 b1 b2 b3 b4 b5 b6 b7 b8 b9 b10 b11 b12 b13 b14 b15) => let b2 := b2 +' b11 in let b11 := ((b11 <<' 20) |' (b11 >>' (64 - 20))) ^' b2 in (Locals16 b0 b1 b2 b3 b4 b5 b6 b7 b8 b9 b10 b11 b12 b13 b14 b15));
  (fun '(Locals16 b0 b1 b2 b3 b4 b5 b6 b7 b8 b9 b10 b11 b12 b13 b14 b15) => let b6 := b6 +' b13 in let b13 := ((b13 <<' 48) |' (b13 >>' (64 - 48))) ^' b6 in (Locals16 b0 b1 b2 b3 b4 b5 b6 b7 b8 b9 b10 b11 b12 b13 b14 b15));
  (fun '(Locals16 b0 b1 b2 b3 b4 b5 b6 b7 b8 b9 b10 b11 b12 b13 b14 b15) => let b4 := b4 +' b9 in let b9 := ((b9 <<' 41) |' (b9 >>' (64 - 41))) ^' b4 in (Locals16 b0 b1 b2 b3 b4 b5 b6 b7 b8 b9 b10 b11 b12 b13 b14 b15));
  (fun '(Locals16 b0 b1 b2 b3 b4 b5 b6 b7 b8 b9 b10 b11 b12 b13 b14 b15) => let b14 := b14 +' b1 in let b1 := ((b1 <<' 47) |' (b1 >>' (64 - 47))) ^' b14 in (Locals16 b0 b1 b2 b3 b4 b5 b6 b7 b8 b9 b10 b11 b12 b13 b14 b15));
  (fun '(Locals16 b0 b1 b2 b3 b4 b5 b6 b7 b8 b9 b10 b11 b12 b13 b14 b15) => let b8 := b8 +' b5 in let b5 := ((b5 <<' 28) |' (b5 >>' (64 - 28))) ^' b8 in (Locals16 b0 b1 b2 b3 b4 b5 b6 b7 b8 b9 b10 b11 b12 b13 b14 b15));
  (fun '(Locals16 b0 b1 b2 b3 b4 b5 b6 b7 b8 b9 b10 b11 b12 b13 b14 b15) => let b10 := b10 +' b3 in let b3 := ((b3 <<' 16) |' (b3 >>' (64 - 16))) ^' b10 in (Locals16 b0 b1 b2 b3 b4 b5 b6 b7 b8 b9 b10 b11 b12 b13 b14 b15));
  (fun '(Locals16 b0 b1 b2 b3 b4 b5 b6 b7 b8 b9 b10 b11 b12 b13 b14 b15) => let b12 := b12 +' b7 in let b7 := ((b7 <<' 25) |' (b7 >>' (64 - 25))) ^' b12 in (Locals16 b0 b1 b2 b3 b4 b5 b6 b7 b8 b9 b10 b11 b12 b13 b14 b15));
  (* round 60 *)
  (fun '(Locals16 b0 b1 b2 b3 b4 b5 b6 b7 b8 b9 b10 b11 b12 b13 b14 b15) => let b1 := b1 +' k16 in let b0 := b0 +' (b1 +' k15) in let b1 := ((b1 <<' 41) |' (b1 >>' (64 - 41))) ^' b0 in (Locals16 b0 b1 b2 b3 b4 b5 b6 b7 b8 b9 b10 b11 b12 b13 b14 b15));
  (fun '(Locals16 b0 b1 b2 b3 b4 b5 b6 b7 b8 b9 b10 b11 b12 b13 b14 b15) => let b3 := b3 +' k1 in let b2 := b2 +' (b3 +' k0) in let b3 := ((b3 <<' 9) |' (b3 >>' (64 - 9))) ^' b2 in (Locals16 b0 b1 b2 b3 b4 b5 b6 b7 b8 b9 b10 b11 b12 b13 b14 b15));
  (fun '(Locals16 b0 b1 b2 b3 b4 b5 b6 b7 b8 b9 b10 b11 b12 b13 b14 b15) => let b5 := b5 +' k3 in let b4 := b4 +' (b5 +' k2) in let b5 := ((b5 <<' 37) |' (b5 >>' (64 - 37))) ^' b4 in (Locals16 b0 b1 b2 b3 b4 b5 b6 b7 b8 b9 b10 b11 b12 b13 b14 b15));
  (fun '(Locals16 b0 b1 b2 b3 b4 b5 b6 b7 b8 b9 b10 b11 b12 b13 b14 b15) => let b7 := b7 +' k5 in let b6 := b6 +' (b7 +' k4) in let b7 := ((b7 <<' 31) |' (b7 >>' (64 - 31))) ^' b6 in (Locals16 b0 b1 b2 b3 b4 b5 b6 b7 b8 b9 b10 b11 b12 b13 b14 b15));
  (fun '(Locals16 b0 b1 b2 b3 b4 b5 b6 b7 b8 b9 b10 b11 b12 b13 b14 b15) => let b9 := b9 +' k7 in let b8 := b8 +' (b9 +' k6) in let b9 := ((b9 <<' 12) |' (b9 >>' (64 - 12))) ^' b8 in (Locals16 b0 b1 b2 b3 b4 b5 b6 b7 b8 b9 b10 b11 b12 b13 b14 b15));
  (fun '(Locals16 b0 b1 b2 b3 b4 b5 b6 b7 b8 b9 b10 b11 b12 b13 b14 b15) => let b11 := b11 +' k9 in let b10 := b10 +' (b11 +' k8) in let b11 := ((b11 <<' 47) |' (b11 >>' (64 - 47))) ^' b10 in (Locals16 b0 b1 b2 b3 b4 b5 b6 b7 b8 b9 b10 b11 b12 b13 b14 b15));
  (fun '(Locals16 b0 b1 b2 b3 b4 b5 b6 b7 b8 b9 b10 b11 b12 b13 b14 b15) => let b13 := b13 +' (k11 +' t0) in let b12 := b12 +' (b13 +' k10) in let b13 := ((b13 <<' 44) |' (b13 >>' (64 - 44))) ^' b12 in (Locals16 b0 b1 b2 b3 b4 b5 b6 b7 b8 b9 b10 b11 b12 b13 b14 b15));
  (fun '(Locals16 b0 b1 b2 b3 b4 b5 b6 b7 b8 b9 b10 b11 b12 b13 b14 b15) => let b15 := b15 +' (k13 +' 15) in let b14 := b14 +' (b15 +' k12 +' t1) in let b15 := ((b15 <<' 30) |' (b15 >>' (64 - 30))) ^' b14 in (Locals16 b0 b1 b2 b3 b4 b5 b6 b7 b8 b9 b10 b11 b12 b13 b14 b15));
  (* round 61 *)
  (fun '(Locals16 b0 b1 b2 b3 b4 b5 b6 b7 b8 b9 b10 b11 b12 b13 b14 b15) => let b0 := b0 +' b9 in let b9 := ((b9 <<' 16) |' (b9 >>' (64 - 16))) ^' b0 in (Locals16 b0 b1 b2 b3 b4 b5 b6 b7 b8 b9 b10 b11 b12 b13 b14 b15));
  (fun '(Locals16 b0 b1 b2 b3 b4 b5 b6 b7 b8 b9 b10 b11 b12 b13 b14 b15) => let b2 := b2 +' b13 in let b13 := ((b13 <<' 34) |' (b13 >>' (64 - 34))) ^' b2 in (Locals16 b0 b1 b2 b3 b4 b5 b6 b7 b8 b9 b10 b11 b12 b13 b14 b15));
  (fun '(Locals16 b0 b1 b2 b3 b4 b5 b6 b7 b8 b9 b10 b11 b12 b13 b14 b15) => let b6 := b6 +' b11 in let b11 := ((b11 <<' 56) |' (b11 >>' (64 - 56))) ^' b6 in (Locals16 b0 b1 b2 b3 b4 b5 b6 b7 b8 b9 b10 b11 b12 b13 b14 b15));
  (fun '(Locals16 b0 b1 b2 b3 b4 b5 b6 b7 b8 b9 b10 b11 b12 b13 b14 b15) => let b4 := b4 +' b15 in let b15 := ((b15 <<' 51) |' (b15 >>' (64 - 51))) ^' b4 in (Locals16 b0 b1 b2 b3 b4 b5 b6 b7 b8 b9 b10 b11 b12 b13 b14 b15));
  (fun '(Locals16 b0 b1 b2 b3 b4 b5 b6 b7 b8 b9 b10 b11 b12 b13 b14 b15) => let b10 := b10 +' b7 in let b7 := ((b7 <<' 4) |' (b7 >>' (64 - 4))) ^' b10 in (Locals16 b0 b1 b2 b3 b4 b5 b6 b7 b8 b9 b10 b11 b12 b13 b14 b15));
  (fun '(Locals16 b0 b1 b2 b3 b4 b5 b6 b7 b8 b9 b10 b11 b12 b13 b14 b15) => let b12 := b12 +' b3 in let b3 := ((b3 <<' 53) |' (b3 >>' (64 - 53))) ^' b12 in (Locals16 b0 b1 b2 b3 b4 b5 b6 b7 b8 b9 b10 b11 b12 b13 b14 b15));
  (fun '(Locals16 b0 b1 b2 b3 b4 b5 b6 b7 b8 b9 b10 b11 b12 b13 b14 b15) => let b14 := b14 +' b5 in let b5 := ((b5 <<' 42) |' (b5 >>' (64 - 42))) ^' b14 in (Locals16 b0 b1 b2 b3 b4 b5 b6 b7 b8 b9 b10 b11 b12 b13 b14 b15));
  (fun '(Locals16 b0 b1 b2 b3 b4 b5 b6 b7 b8 b9 b10 b11 b12 b13 b14 b15) => let b8 := b8 +' b1 in let b1 := ((b1 <<' 41) |' (b1 >>' (64 - 41))) ^' b8 in (Locals16 b0 b1 b2 b3 b4 b5 b6 b7 b8 b9 b10 b11 b12 b13 b14 b15));
  (* round 62 *)
  (fun '(Locals16 b0 b1 b2 b3 b4 b5 b6 b7 b8 b9 b10 b11 b12 b13 b14 b15) => let b0 := b0 +' b7 in let b7 := ((b7 <<' 31) |' (b7 >>' (64 - 31))) ^' b0 in (Locals16 b0 b1 b2 b3 b4 b5 b6 b7 b8 b9 b10 b11 b12 b13 b14 b15));
  (fun '(Locals16 b0 b1 b2 b3 b4 b5 b6 b7 b8 b9 b10 b11 b12 b13 b14 b15) => let b2 := b2 +' b5 in let b5 := ((b5 <<' 44) |' (b5 >>' (64 - 44))) ^' b2 in (Locals16 b0 b1 b2 b3 b4 b5 b6 b7 b8 b9 b10 b11 b12 b13 b14 b15));
  (fun '(Locals16 b0 b1 b2 b3 b4 b5 b6 b7 b8 b9 b10 b11 b12 b13 b14 b15) => let b4 := b4 +' b3 in let b3 := ((b3 <<' 47) |' (b3 >>' (64 - 47))) ^' b4 in (Locals16 b0 b1 b2 b3 b4 b5 b6 b7 b8 b9 b10 b11 b12 b13 b14 b15));
  (fun '(Locals16 b0 b1 b2 b3 b4 b5 b6 b7 b8 b9 b10 b11 b12 b13 b14 b15) => let b6 := b6 +' b1 in let b1 := ((b1 <<' 46) |' (b1 >>' (64 - 46))) ^' b6 in (Locals16 b0 b1 b2 b3 b4 b5 b6 b7 b8 b9 b10 b11 b12 b13 b14 b15));
  (fun '(Locals16 b0 b1 b2 b3 b4 b5 b6 b7 b8 b9 b10 b11 b12 b13 b14 b15) => let b12 := b12 +' b15 in let b15 := ((b15 <<' 19) |' (b15 >>' (64 - 19))) ^' b12 in (Locals16 b0 b1 b2 b3 b4 b5 b6 b7 b8 b9 b10 b11 b12 b13 b14 b15));
  (fun '(Locals16 b0 b1 b2 b3 b4 b5 b6 b7 b8 b9 b10 b11 b12 b13 b14 b15) => let b14 := b14 +' b13 in let b13 := ((b13 <<' 42) |' (b13 >>' (64 - 42))) ^' b14 in (Locals16 b0 b1 b2 b3 b4 b5 b6 b7 b8 b9 b10 b11 b12 b13 b14 b15));
  (fun '(Locals16 b0 b1 b2 b3 b4 b5 b6 b7 b8 b9 b10 b11 b12 b13 b14 b15) => let b8 := b8 +' b11 in let b11 := ((b11 <<' 44) |' (b11 >>' (64 - 44))) ^' b8 in (Locals16 b0 b1 b2 b3 b4 b5 b6 b7 b8 b9 b10 b11 b12 b13 b14 b15));
  (fun '(Locals16 b0 b1 b2 b3 b4 b5 b6 b7 b8 b9 b10 b11 b12 b13 b14 b15) => let b10 := b10 +' b9 in let b9 := ((b9 <<' 25) |' (b9 >>' (64 - 25))) ^' b10 in (Locals16 b0 b1 b2 b3 b4 b5 b6 b7 b8 b9 b10 b11 b12 b13 b14 b15));
  (* round 63 *)
  (fun '(Locals16 b0 b1 b2 b3 b4 b5 b6 b7 b8 b9 b10 b11 b12 b13 b14 b15) => let b0 := b0 +' b15 in let b15 := ((b15 <<' 9) |' (b15 >>' (64 - 9))) ^' b0 in (Locals16 b0 b1 b2 b3 b4 b5 b6 b7 b8 b9 b10 b11 b12 b13 b14 b15));
  (fun '(Locals16 b0 b1 b2 b3 b4 b5 b6 b7 b8 b9 b10 b11 b12 b13 b14 b15) => let b2 := b2 +' b11 in let b11 := ((b11 <<' 48) |' (b11 >>' (64 - 48))) ^' b2 in (Locals16 b0 b1 b2 b3 b4 b5 b6 b7 b8 b9 b10 b11 b12 b13 b14 b15));
  (fun '(Locals16 b0 b1 b2 b3 b4 b5 b6 b7 b8 b9 b10 b11 b12 b13 b14 b15) => let b6 := b6 +' b13 in let b13 := ((b13 <<' 35) |' (b13 >>' (64 - 35))) ^' b6 in (Locals16 b0 b1 b2 b3 b4 b5 b6 b7 b8 b9 b10 b11 b12 b13 b14 b15));
  (fun '(Locals16 b0 b1 b2 b3 b4 b5 b6 b7 b8 b9 b10 b11 b12 b13 b14 b15) => let b4 := b4 +' b9 in let b9 := ((b9 <<' 52) |' (b9 >>' (64 - 52))) ^' b4 in (Locals16 b0 b1 b2 b3 b4 b5 b6 b7 b8 b9 b10 b11 b12 b13 b14 b15));
  (fun '(Locals16 b0 b1 b2 b3 b4 b5 b6 b7 b8 b9 b10 b11 b12 b13 b14 b15) => let b14 := b14 +' b1 in let b1 := ((b1 <<' 23) |' (b1 >>' (64 - 23))) ^' b14 in (Locals16 b0 b1 b2 b3 b4 b5 b6 b7 b8 b9 b10 b11 b12 b13 b14 b15));
  (fun '(Locals16 b0 b1 b2 b3 b4 b5 b6 b7 b8 b9 b10 b11 b12 b13 b14 b15) => let b8 := b8 +' b5 in let b5 := ((b5 <<' 31) |' (b5 >>' (64 - 31))) ^' b8 in (Locals16 b0 b1 b2 b3 b4 b5 b6 b7 b8 b9 b10 b11 b12 b13 b14 b15));
  (fun '(Locals16 b0 b1 b2 b3 b4 b5 b6 b7 b8 b9 b10 b11 b12 b13 b14 b15) => let b10 := b10 +' b3 in let b3 := ((b3 <<' 37) |' (b3 >>' (64 - 37))) ^' b10 in (Locals16 b0 b1 b2 b3 b4 b5 b6 b7 b8 b9 b10 b11 b12 b13 b14 b15));
  (fun '(Locals16 b0 b1 b2 b3 b4 b5 b6 b7 b8 b9 b10 b11 b12 b13 b14 b15) => let b12 := b12 +' b7 in let b7 := ((b7 <<' 20) |' (b7 >>' (64 - 20))) ^' b12 in (Locals16 b0 b1 b2 b3 b4 b5 b6 b7 b8 b9 b10 b11 b12 b13 b14 b15));
  (* round 64 *)
  (fun '(Locals16 b0 b1 b2 b3 b4 b5 b6 b7 b8 b9 b10 b11 b12 b13 b14 b15) => let b1 := b1 +' k0 in let b0 := b0 +' (b1 +' k16) in let b1 := ((b1 <<' 24) |' (b1 >>' (64 - 24))) ^' b0 in (Locals16 b0 b1 b2 b3 b4 b5 b6 b7 b8 b9 b10 b11 b12 b13 b14 b15));
  (fun '(Locals16 b0 b1 b2 b3 b4 b5 b6 b7 b8 b9 b10 b11 b12 b13 b14 b15) => let b3 := b3 +' k2 in let b2 := b2 +' (b3 +' k1) in let b3 := ((b3 <<' 13) |' (b3 >>' (64 - 13))) ^' b2 in (Locals16 b0 b1 b2 b3 b4 b5 b6 b7 b8 b9 b10 b11 b12 b13 b14 b15));
  (fun '(Locals16 b0 b1 b2 b3 b4 b5 b6 b7 b8 b9 b10 b11 b12 b13 b14 b15) => let b5 := b5 +' k4 in let b4 := b4 +' (b5 +' k3) in let b5 := ((b5 <<' 8) |' (b5 >>' (64 - 8))) ^' b4 in (Locals16 b0 b1 b2 b3 b4 b5 b6 b7 b8 b9 b10 b11 b12 b13 b14 b15));
  (fun '(Locals16 b0 b1 b2 b3 b4 b5 b6 b7 b8 b9 b10 b11 b12 b13 b14 b15) => let b7 := b7 +' k6 in let b6 := b6 +' (b7 +' k5) in let b7 := ((b7 <<' 47) |' (b7 >>' (64 - 47))) ^' b6 in (Locals16 b0 b1 b2 b3 b4 b5 b6 b7 b8 b9 b10 b11 b12 b13 b14 b15));
  (fun '(Locals16 b0 b1 b2 b3 b4 b5 b6 b7 b8 b9 b10 b11 b12 b13 b14 b15) => let b9 := b9 +' k8 in let b8 := b8 +' (b9 +' k7) in let b9 := ((b9 <<' 8) |' (b9 >>' (64 - 8))) ^' b8 in (Locals16 b0 b1 b2 b3 b4 b5 b6 b7 b8 b9 b10 b11 b12 b13 b14 b15));
  (fun '(Locals16 b0 b1 b2 b3 b4 b5 b6 b7 b8 b9 b10 b11 b12 b13 b14 b15) => let b11 := b11 +' k10 in let b10 := b10 +' (b11 +' k9) in let b11 := ((b11 <<' 17) |' (b11 >>' (64 - 17))) ^' b10 in (Locals16 b0 b1 b2 b3 b4 b5 b6 b7 b8 b9 b10 b11 b12 b13 b14 b15));
  (fun '(Locals16 b0 b1 b2 b3 b4 b5 b6 b7 b8 b9 b10 b11 b12 b13 b14 b15) => let b13 := b13 +' (k12 +' t1) in let b12 := b12 +' (b13 +' k11) in let b13 := ((b13 <<' 22) |' (b13 >>' (64 - 22))) ^' b12 in (Locals16 b0 b1 b2 b3 b4 b5 b6 b7 b8 b9 b10 b11 b12 b13 b14 b15));
  (fun '(Locals16 b0 b1 b2 b3 b4 b5 b6 b7 b8 b9 b10 b11 b12 b13 b14 b15) => let b15 := b15 +' (k14 +' 16) in let b14 := b14 +' (b15 +' k13 +' t2) in let b15 := ((b15 <<' 37) |' (b15 >>' (64 - 37))) ^' b14 in (Locals16 b0 b1 b2 b3 b4 b5 b6 b7 b8 b9 b10 b11 b12 b13 b14 b15));
  (* round 65 *)
  (fun '(Locals16 b0 b1 b2 b3 b4 b5 b6 b7 b8 b9 b10 b11 b12 b13 b14 b15) => let b0 := b0 +' b9 in let b9 := ((b9 <<' 38) |' (b9 >>' (64 - 38))) ^' b0 in (Locals16 b0 b1 b2 b3 b4 b5 b6 b7 b8 b9 b10 b11 b12 b13 b14 b15));
  (fun '(Locals16 b0 b1 b2 b3 b4 b5 b6 b7 b8 b9 b10 b11 b12 b13 b14 b15) => let b2 := b2 +' b13 in let b13 := ((b13 <<' 19) |' (b13 >>' (64 - 19))) ^' b2 in (Locals16 b0 b1 b2 b3 b4 b5 b6 b7 b8 b9 b10 b11 b12 b13 b14 b15));
  (fun '(Locals16 b0 b1 b2 b3 b4 b5 b6 b7 b8 b9 b10 b11 b12 b13 b14 b15) => let b6 := b6 +' b11 in let b11 := ((b11 <<' 10) |' (b11 >>' (64 - 10))) ^' b6 in (Locals16 b0 b1 b2 b3 b4 b5 b6 b7 b8 b9 b10 b11 b12 b13 b14 b15));
  (fun '(Locals16 b0 b1 b2 b3 b4 b5 b6 b7 b8 b9 b10 b11 b12 b13 b14 b15) => let b4 := b4 +' b15 in let b15 := ((b15 <<' 55) |' (b15 >>' (64 - 55))) ^' b4 in (Locals16 b0 b1 b2 b3 b4 b5 b6 b7 b8 b9 b10 b11 b12 b13 b14 b15));
  (fun '(Locals16 b0 b1 b2 b3 b4 b5 b6 b7 b8 b9 b10 b11 b12 b13 b14 b15) => let b10 := b10 +' b7 in let b7 := ((b7 <<' 49) |' (b7 >>' (64 - 49))) ^' b10 in (Locals16 b0 b1 b2 b3 b4 b5 b6 b7 b8 b9 b10 b11 b12 b13 b14 b15));
  (fun '(Locals16 b0 b1 b2 b3 b4 b5 b6 b7 b8 b9 b10 b11 b12 b13 b14 b15) => let b12 := b12 +' b3 in let b3 := ((b3 <<' 18) |' (b3 >>' (64 - 18))) ^' b12 in (Locals16 b0 b1 b2 b3 b4 b5 b6 b7 b8 b9 b10 b11 b12 b13 b14 b15));
  (fun '(Locals16 b0 b1 b2 b3 b4 b5 b6 b7 b8 b9 b10 b11 b12 b13 b14 b15) => let b14 := b14 +' b5 in let b5 := ((b5 <<' 23) |' (b5 >>' (64 - 23))) ^' b14 in (Locals16 b0 b1 b2 b3 b4 b5 b6 b7 b8 b9 b10 b11 b12 b13 b14 b15));
  (fun '(Locals16 b0 b1 b2 b3 b4 b5 b6 b7 b8 b9 b10 b11 b12 b13 b14 b15) => let b8 := b8 +' b1 in let b1 := ((b1 <<' 52) |' (b1 >>' (64 - 52))) ^' b8 in (Locals16 b0 b1 b2 b3 b4 b5 b6 b7 b8 b9 b10 b11 b12 b13 b14 b15));
  (* round 66 *)
  (fun '(Locals16 b0 b1 b2 b3 b4 b5 b6 b7 b8 b9 b10 b11 b12 b13 b14 b15) => let b0 := b0 +' b7 in let b7 := ((b7 <<' 33) |' (b7 >>' (64 - 33))) ^' b0 in (Locals16 b0 b1 b2 b3 b4 b5 b6 b7 b8 b9 b10 b11 b12 b13 b14 b15));
  (fun '(Locals16 b0 b1 b2 b3 b4 b5 b6 b7 b8 b9 b10 b11 b12 b13 b14 b15) => let b2 := b2 +' b5 in let b5 := ((b5 <<' 4) |' (b5 >>' (64 - 4))) ^' b2 in (Locals16 b0 b1 b2 b3 b4 b5 b6 b7 b8 b9 b10 b11 b12 b13 b14 b15));
  (fun '(Locals16 b0 b1 b2 b3 b4 b5 b6 b7 b8 b9 b10 b11 b12 b13 b14 b15) => let b4 := b4 +' b3 in let b3 := ((b3 <<' 51) |' (b3 >>' (64 - 51))) ^' b4 in (Locals16 b0 b1 b2 b3 b4 b5 b6 b7 b8 b9 b10 b11 b12 b13 b14 b15));
  (fun '(Locals16 b0 b1 b2 b3 b4 b5 b6 b7 b8 b9 b10 b11 b12 b13 b14 b15) => let b6 := b6 +' b1 in let b1 := ((b1 <<' 13) |' (b1 >>' (64 - 13))) ^' b6 in (Locals16 b0 b1 b2 b3 b4 b5 b6 b7 b8 b9 b10 b11 b12 b13 b14 b15));
  (fun '(Locals16 b0 b1 b2 b3 b4 b5 b6 b7 b8 b9 b10 b11 b12 b13 b14 b15) => let b12 := b12 +' b15 in let b15 := ((b15 <<' 34) |' (b15 >>' (64 - 34))) ^' b12 in (Locals16 b0 b1 b2 b3 b4 b5 b6 b7 b8 b9 b10 b11 b12 b13 b14 b15));
  (fun '(Locals16 b0 b1 b2 b3 b4 b5 b6 b7 b8 b9 b10 b11 b12 b13 b14 b15) => let b14 := b14 +' b13 in let b13 := ((b13 <<' 41) |' (b13 >>' (64 - 41))) ^' b14 in (Locals16 b0 b1 b2 b3 b4 b5 b6 b7 b8 b9 b10 b11 b12 b13 b14 b15));
  (fun '(Locals16 b0 b1 b2 b3 b4 b5 b6 b7 b8 b9 b10 b11 b12 b13 b14 b15) => let b8 := b8 +' b11 in let b11 := ((b11 <<' 59) |' (b11 >>' (64 - 59))) ^' b8 in (Locals16 b0 b1 b2 b3 b4 b5 b6 b7 b8 b9 b10 b11 b12 b13 b14 b15));
  (fun '(Locals16 b0 b1 b2 b3 b4 b5 b6 b7 b8 b9 b10 b11 b12 b13 b14 b15) => let b10 := b10 +' b9 in let b9 := ((b9 <<' 17) |' (b9 >>' (64 - 17))) ^' b10 in (Locals16 b0 b1 b2 b3 b4 b5 b6 b7 b8 b9 b10 b11 b12 b13 b14 b15));
  (* round 67 *)
  (fun '(Locals16 b0 b1 b2 b3 b4 b5 b6 b7 b8 b9 b10 b11 b12 b13 b14 b15) => let b0 := b0 +' b15 in let b15 := ((b15 <<' 5) |' (b15 >>' (64 - 5))) ^' b0 in (Locals16 b0 b1 b2 b3 b4 b5 b6 b7 b8 b9 b10 b11 b12 b13 b14 b15));
  (fun '(Locals16 b0 b1 b2 b3 b4 b5 b6 b7 b8 b9 b10 b11 b12 b13 b14 b15) => let b2 := b2 +' b11 in let b11 := ((b11 <<' 20) |' (b11 >>' (64 - 20))) ^' b2 in (Locals16 b0 b1 b2 b3 b4 b5 b6 b7 b8 b9 b10 b11 b12 b13 b14 b15));
  (fun '(Locals16 b0 b1 b2 b3 b4 b5 b6 b7 b8 b9 b10 b11 b12 b13 b14 b15) => let b6 := b6 +' b13 in let b13 := ((b13 <<' 48) |' (b13 >>' (64 - 48))) ^' b6 in (Locals16 b0 b1 b2 b3 b4 b5 b6 b7 b8 b9 b10 b11 b12 b13 b14 b15));
  (fun '(Locals16 b0 b1 b2 b3 b4 b5 b6 b7 b8 b9 b10 b11 b12 b13 b14 b15) => let b4 := b4 +' b9 in let b9 := ((b9 <<' 41) |' (b9 >>' (64 - 41))) ^' b4 in (Locals16 b0 b1 b2 b3 b4 b5 b6 b7 b8 b9 b10 b11 b12 b13 b14 b15));
  (fun '(Locals16 b0 b1 b2 b3 b4 b5 b6 b7 b8 b9 b10 b11 b12 b13 b14 b15) => let b14 := b14 +' b1 in let b1 := ((b1 <<' 47) |' (b1 >>' (64 - 47))) ^' b14 in (Locals16 b0 b1 b2 b3 b4 b5 b6 b7 b8 b9 b10 b11 b12 b13 b14 b15));
  (fun '(Locals16 b0 b1 b2 b3 b4 b5 b6 b7 b8 b9 b10 b11 b12 b13 b14 b15) => let b8 := b8 +' b5 in let b5 := ((b5 <<' 28) |' (b5 >>' (64 - 28))) ^' b8 in (Locals16 b0 b1 b2 b3 b4 b5 b6 b7 b8 b9 b10 b11 b12 b13 b14 b15));
  (fun '(Locals16 b0 b1 b2 b3 b4 b5 b6 b7 b8 b9 b10 b11 b12 b13 b14 b15) => let b10 := b10 +' b3 in let b3 := ((b3 <<' 16) |' (b3 >>' (64 - 16))) ^' b10 in (Locals16 b0 b1 b2 b3 b4 b5 b6 b7 b8 b9 b10 b11 b12 b13 b14 b15));
  (fun '(Locals16 b0 b1 b2 b3 b4 b5 b6 b7 b8 b9 b10 b11 b12 b13 b14 b15) => let b12 := b12 +' b7 in let b7 := ((b7 <<' 25) |' (b7 >>' (64 - 25))) ^' b12 in (Locals16 b0 b1 b2 b3 b4 b5 b6 b7 b8 b9 b10 b11 b12 b13 b14 b15));
  (* round 68 *)
  (fun '(Locals16 b0 b1 b2 b3 b4 b5 b6 b7 b8 b9 b10 b11 b12 b13 b14 b15) => let b1 := b1 +' k1 in let b0 := b0 +' (b1 +' k0) in let b1 := ((b1 <<' 41) |' (b1 >>' (64 - 41))) ^' b0 in (Locals16 b0 b1 b2 b3 b4 b5 b6 b7 b8 b9 b10 b11 b12 b13 b14 b15));
  (fun '(Locals16 b0 b1 b2 b3 b4 b5 b6 b7 b8 b9 b10 b11 b12 b13 b14 b15) => let b3 := b3 +' k3 in let b2 := b2 +' (b3 +' k2) in let b3 := ((b3 <<' 9) |' (b3 >>' (64 - 9))) ^' b2 in (Locals16 b0 b1 b2 b3 b4 b5 b6 b7 b8 b9 b10 b11 b12 b13 b14 b15));
  (fun '(Locals16 b0 b1 b2 b3 b4 b5 b6 b7 b8 b9 b10 b11 b12 b13 b14 b15) => let b5 := b5 +' k5 in let b4 := b4 +' (b5 +' k4) in let b5 := ((b5 <<' 37) |' (b5 >>' (64 - 37))) ^' b4 in (Locals16 b0 b1 b2 b3 b4 b5 b6 b7 b8 b9 b10 b11 b12 b13 b14 b15));
  (fun '(Locals16 b0 b1 b2 b3 b4 b5 b6 b7 b8 b9 b10 b11 b12 b13 b14 b15) => let b7 := b7 +' k7 in let b6 := b6 +' (b7 +' k6) in let b7 := ((b7 <<' 31) |' (b7 >>' (64 - 31))) ^' b6 in (Locals16 b0 b1 b2 b3 b4 b5 b6 b7 b8 b9 b10 b11 b12 b13 b14 b15));
  (fun '(Locals16 b0 b1 b2 b3 b4 b5 b6 b7 b8 b9 b10 b11 b12 b13 b14 b15) => let b9 := b9 +' k9 in let b8 := b8 +' (b9 +' k8) in let b9 := ((b9 <<' 12) |' (b9 >>' (64 - 12))) ^' b8 in (Locals16 b0 b1 b2 b3 b4 b5 b6 b7 b8 b9 b10 b11 b12 b13 b14 b15));
  (fun '(Locals16 b0 b1 b2 b3 b4 b5 b6 b7 b8 b9 b10 b11 b12 b13 b14 b15) => let b11 := b11 +' k11 in let b10 := b10 +' (b11 +' k10) in let b11 := ((b11 <<' 47) |' (b11 >>' (64 - 47))) ^' b10 in (Locals16 b0 b1 b2 b3 b4 b5 b6 b7 b8 b9 b10 b11 b12 b13 b14 b15));
  (fun '(Locals16 b0 b1 b2 b3 b4 b5 b6 b7 b8 b9 b10 b11 b12 b13 b14 b15) => let b13 := b13 +' (k13 +' t2) in let b12 := b12 +' (b13 +' k12) in let b13 := ((b13 <<' 44) |' (b13 >>' (64 - 44))) ^' b12 in (Locals16 b0 b1 b2 b3 b4 b5 b6 b7 b8 b9 b10 b11 b12 b13 b14 b15));
  (fun '(Locals16 b0 b1 b2 b3 b4 b5 b6 b7 b8 b9 b10 b11 b12 b13 b14 b15) => let b15 := b15 +' (k15 +' 17) in let b14 := b14 +' (b15 +' k14 +' t0) in let b15 := ((b15 <<' 30) |' (b15 >>' (64 - 30))) ^' b14 in (Locals16 b0 b1 b2 b3 b4 b5 b6 b7 b8 b9 b10 b11 b12 b13 b14 b15));
  (* round 69 *)
  (fun '(Locals16 b0 b1 b2 b3 b4 b5 b6 b7 b8 b9 b10 b11 b12 b13 b14 b15) => let b0 := b0 +' b9 in let b9 := ((b9 <<' 16) |' (b9 >>' (64 - 16))) ^' b0 in (Locals16 b0 b1 b2 b3 b4 b5 b6 b7 b8 b9 b10 b11 b12 b13 b14 b15));
  (fun '(Locals16 b0 b1 b2 b3 b4 b5 b6 b7 b8 b9 b10 b11 b12 b13 b14 b15) => let b2 := b2 +' b13 in let b13 := ((b13 <<' 34) |' (b13 >>' (64 - 34))) ^' b2 in (Locals16 b0 b1 b2 b3 b4 b5 b6 b7 b8 b9 b10 b11 b12 b13 b14 b15));
  (fun '(Locals16 b0 b1 b2 b3 b4 b5 b6 b7 b8 b9 b10 b11 b12 b13 b14 b15) => let b6 := b6 +' b11 in let b11 := ((b11 <<' 56) |' (b11 >>' (64 - 56))) ^' b6 in (Locals16 b0 b1 b2 b3 b4 b5 b6 b7 b8 b9 b10 b11 b12 b13 b14 b15));
  (fun '(Locals16 b0 b1 b2 b3 b4 b5 b6 b7 b8 b9 b10 b11 b12 b13 b14 b15) => let b4 := b4 +' b15 in let b15 := ((b15 <<' 51) |' (b15 >>' (64 - 51))) ^' b4 in (Locals16 b0 b1 b2 b3 b4 b5 b6 b7 b8 b9 b10 b11 b12 b13 b14 b15));
  (fun '(Locals16 b0 b1 b2 b3 b4 b5 b6 b7 b8 b9 b10 b11 b12 b13 b14 b15) => let b10 := b10 +' b7 in let b7 := ((b7 <<' 4) |' (b7 >>' (64 - 4))) ^' b10 in (Locals16 b0 b1 b2 b3 b4 b5 b6 b7 b8 b9 b10 b11 b12 b13 b14 b15));
  (fun '(Locals16 b0 b1 b2 b3 b4 b5 b6 b7 b8 b9 b10 b11 b12 b13 b14 b15) => let b12 := b12 +' b3 in let b3 := ((b3 <<' 53) |' (b3 >>' (64 - 53))) ^' b12 in (Locals16 b0 b1 b2 b3 b4 b5 b6 b7 b8 b9 b10 b11 b12 b13 b14 b15));
  (fun '(Locals16 b0 b1 b2 b3 b4 b5 b6 b7 b8 b9 b10 b11 b12 b13 b14 b15) => let b14 := b14 +' b5 in let b5 := ((b5 <<' 42) |' (b5 >>' (64 - 42))) ^' b14 in (Locals16 b0 b1 b2 b3 b4 b5 b6 b7 b8 b9 b10 b11 b12 b13 b14 b15));
  (fun '(Locals16 b0 b1 b2 b3 b4 b5 b6 b7 b8 b9 b10 b11 b12 b13 b14 b15) => let b8 := b8 +' b1 in let b1 := ((b1 <<' 41) |' (b1 >>' (64 - 41))) ^' b8 in (Locals16 b0 b1 b2 b3 b4 b5 b6 b7 b8 b9 b10 b11 b12 b13 b14 b15));
  (* round 70 *)
  (fun '(Locals16 b0 b1 b2 b3 b4 b5 b6 b7 b8 b9 b10 b11 b12 b13 b14 b15) => let b0 := b0 +' b7 in let b7 := ((b7 <<' 31) |' (b7 >>' (64 - 31))) ^' b0 in (Locals16 b0 b1 b2 b3 b4 b5 b6 b7 b8 b9 b10 b11 b12 b13 b14 b15));
  (fun '(Locals16 b0 b1 b2 b3 b4 b5 b6 b7 b8 b9 b10 b11 b12 b13 b14 b15) => let b2 := b2 +' b5 in let b5 := ((b5 <<' 44) |' (b5 >>' (64 - 44))) ^' b2 in (Locals16 b0 b1 b2 b3 b4 b5 b6 b7 b8 b9 b10 b11 b12 b13 b14 b15));
  (fun '(Locals16 b0 b1 b2 b3 b4 b5 b6 b7 b8 b9 b10 b11 b12 b13 b14 b15) => let b4 := b4 +' b3 in let b3 := ((b3 <<' 47) |' (b3 >>' (64 - 47))) ^' b4 in (Locals16 b0 b1 b2 b3 b4 b5 b6 b7 b8 b9 b10 b11 b12 b13 b14 b15));
  (fun '(Locals16 b0 b1 b2 b3 b4 b5 b6 b7 b8 b9 b10 b11 b12 b13 b14 b15) => let b6 := b6 +' b1 in let b1 := ((b1 <<' 46) |' (b1 >>' (64 - 46))) ^' b6 in (Locals16 b0 b1 b2 b3 b4 b5 b6 b7 b8 b9 b10 b11 b12 b13 b14 b15));
  (fun '(Locals16 b0 b1 b2 b3 b4 b5 b6 b7 b8 b9 b10 b11 b12 b13 b14 b15) => let b12 := b12 +' b15 in let b15 := ((b15 <<' 19) |' (b15 >>' (64 - 19))) ^' b12 in (Locals16 b0 b1 b2 b3 b4 b5 b6 b7 b8 b9 b10 b11 b12 b13 b14 b15));
  (fun '(Locals16 b0 b1 b2 b3 b4 b5 b6 b7 b8 b9 b10 b11 b12 b13 b14 b15) => let b14 := b14 +' b13 in let b13 := ((b13 <<' 42) |' (b13 >>' (64 - 42))) ^' b14 in (Locals16 b0 b1 b2 b3 b4 b5 b6 b7 b8 b9 b10 b11 b12 b13 b14 b15));
  (fun '(Locals16 b0 b1 b2 b3 b4 b5 b6 b7 b8 b9 b10 b11 b12 b13 b14 b15) => let b8 := b8 +' b11 in let b11 := ((b11 <<' 44) |' (b11 >>' (64 - 44))) ^' b8 in (Locals16 b0 b1 b2 b3 b4 b5 b6 b7 b8 b9 b10 b11 b12 b13 b14 b15));
  (fun '(Locals16 b0 b1 b2 b3 b4 b5 b6 b7 b8 b9 b10 b11 b12 b13 b14 b15) => let b10 := b10 +' b9 in let b9 := ((b9 <<' 25) |' (b9 >>' (64 - 25))) ^' b10 in (Locals16 b0 b1 b2 b3 b4 b5 b6 b7 b8 b9 b10 b11 b12 b13 b14 b15));
  (* round 71 *)
  (fun '(Locals16 b0 b1 b2 b3 b4 b5 b6 b7 b8 b9 b10 b11 b12 b13 b14 b15) => let b0 := b0 +' b15 in let b15 := ((b15 <<' 9) |' (b15 >>' (64 - 9))) ^' b0 in (Locals16 b0 b1 b2 b3 b4 b5 b6 b7 b8 b9 b10 b11 b12 b13 b14 b15));
  (fun '(Locals16 b0 b1 b2 b3 b4 b5 b6 b7 b8 b9 b10 b11 b12 b13 b14 b15) => let b2 := b2 +' b11 in let b11 := ((b11 <<' 48) |' (b11 >>' (64 - 48))) ^' b2 in (Locals16 b0 b1 b2 b3 b4 b5 b6 b7 b8 b9 b10 b11 b12 b13 b14 b15));
  (fun '(Locals16 b0 b1 b2 b3 b4 b5 b6 b7 b8 b9 b10 b11 b12 b13 b14 b15) => let b6 := b6 +' b13 in let b13 := ((b13 <<' 35) |' (b13 >>' (64 - 35))) ^' b6 in (Locals16 b0 b1 b2 b3 b4 b5 b6 b7 b8 b9 b10 b11 b12 b13 b14 b15));
  (fun '(Locals16 b0 b1 b2 b3 b4 b5 b6 b7 b8 b9 b10 b11 b12 b13 b14 b15) => let b4 := b4 +' b9 in let b9 := ((b9 <<' 52) |' (b9 >>' (64 - 52))) ^' b4 in (Locals16 b0 b1 b2 b3 b4 b5 b6 b7 b8 b9 b10 b11 b12 b13 b14 b15));
  (fun '(Locals16 b0 b1 b2 b3 b4 b5 b6 b7 b8 b9 b10 b11 b12 b13 b14 b15) => let b14 := b14 +' b1 in let b1 := ((b1 <<' 23) |' (b1 >>' (64 - 23))) ^' b14 in (Locals16 b0 b1 b2 b3 b4 b5 b6 b7 b8 b9 b10 b11 b12 b13 b14 b15));
  (fun '(Locals16 b0 b1 b2 b3 b4 b5 b6 b7 b8 b9 b10 b11 b12 b13 b14 b15) => let b8 := b8 +' b5 in let b5 := ((b5 <<' 31) |' (b5 >>' (64 - 31))) ^' b8 in (Locals16 b0 b1 b2 b3 b4 b5 b6 b7 b8 b9 b10 b11 b12 b13 b14 b15));
  (fun '(Locals16 b0 b1 b2 b3 b4 b5 b6 b7 b8 b9 b10 b11 b12 b13 b14 b15) => let b10 := b10 +' b3 in let b3 := ((b3 <<' 37) |' (b3 >>' (64 - 37))) ^' b10 in (Locals16 b0 b1 b2 b3 b4 b5 b6 b7 b8 b9 b10 b11 b12 b13 b14 b15));
  (fun '(Locals16 b0 b1 b2 b3 b4 b5 b6 b7 b8 b9 b10 b11 b12 b13 b14 b15) => let b12 := b12 +' b7 in let b7 := ((b7 <<' 20) |' (b7 >>' (64 - 20))) ^' b12 in (Locals16 b0 b1 b2 b3 b4 b5 b6 b7 b8 b9 b10 b11 b12 b13 b14 b15));
  (* round 72 *)
  (fun '(Locals16 b0 b1 b2 b3 b4 b5 b6 b7 b8 b9 b10 b11 b12 b13 b14 b15) => let b1 := b1 +' k2 in let b0 := b0 +' (b1 +' k1) in let b1 := ((b1 <<' 24) |' (b1 >>' (64 - 24))) ^' b0 in (Locals16 b0 b1 b2 b3 b4 b5 b6 b7 b8 b9 b10 b11 b12 b13 b14 b15));
  (fun '(Locals16 b0 b1 b2 b3 b4 b5 b6 b7 b8 b9 b10 b11 b12 b13 b14 b15) => let b3 := b3 +' k4 in let b2 := b2 +' (b3 +' k3) in let b3 := ((b3 <<' 13) |' (b3 >>' (64 - 13))) ^' b2 in (Locals16 b0 b1 b2 b3 b4 b5 b6 b7 b8 b9 b10 b11 b12 b13 b14 b15));
  (fun '(Locals16 b0 b1 b2 b3 b4 b5 b6 b7 b8 b9 b10 b11 b12 b13 b14 b15) => let b5 := b5 +' k6 in let b4 := b4 +' (b5 +' k5) in let b5 := ((b5 <<' 8) |' (b5 >>' (64 - 8))) ^' b4 in (Locals16 b0 b1 b2 b3 b4 b5 b6 b7 b8 b9 b10 b11 b12 b13 b14 b15));
  (fun '(Locals16 b0 b1 b2 b3 b4 b5 b6 b7 b8 b9 b10 b11 b12 b13 b14 b15) => let b7 := b7 +' k8 in let b6 := b6 +' (b7 +' k7) in let b7 := ((b7 <<' 47) |' (b7 >>' (64 - 47))) ^' b6 in (Locals16 b0 b1 b2 b3 b4 b5 b6 b7 b8 b9 b10 b11 b12 b13 b14 b15));
  (fun '(Locals16 b0 b1 b2 b3 b4 b5 b6 b7 b8 b9 b10 b11 b12 b13 b14 b15) => let b9 := b9 +' k10 in let b8 := b8 +' (b9 +' k9) in let b9 := ((b9 <<' 8) |' (b9 >>' (64 - 8))) ^' b8 in (Locals16 b0 b1 b2 b3 b4 b5 b6 b7 b8 b9 b10 b11 b12 b13 b14 b15));
  (fun '(Locals16 b0 b1 b2 b3 b4 b5 b6 b7 b8 b9 b10 b11 b12 b13 b14 b15) => let b11 := b11 +' k12 in let b10 := b10 +' (b11 +' k11) in let b11 := ((b11 <<' 17) |' (b11 >>' (64 - 17))) ^' b10 in (Locals16 b0 b1 b2 b3 b4 b5 b6 b7 b8 b9 b10 b11 b12 b13 b14 b15));
  (fun '(Locals16 b0 b1 b2 b3 b4 b5 b6 b7 b8 b9 b10 b11 b12 b13 b14 b15) => let b13 := b13 +' (k14 +' t0) in let b12 := b12 +' (b13 +' k13) in let b13 := ((b13 <<' 22) |' (b13 >>' (64 - 22))) ^' b12 in (Locals16 b0 b1 b2 b3 b4 b5 b6 b7 b8 b9 b10 b11 b12 b13 b14 b15));
  (fun '(Locals16 b0 b1 b2 b3 b4 b5 b6 b7 b8 b9 b10 b11 b12 b13 b14 b15) => let b15 := b15 +' (k16 +' 18) in let b14 := b14 +' (b15 +' k15 +' t1) in let b15 := ((b15 <<' 37) |' (b15 >>' (64 - 37))) ^' b14 in (Locals16 b0 b1 b2 b3 b4 b5 b6 b7 b8 b9 b10 b11 b12 b13 b14 b15));
  (* round 73 *)
  (fun '(Locals16 b0 b1 b2 b3 b4 b5 b6 b7 b8 b9 b10 b11 b12 b13 b14 b15) => let b0 := b0 +' b9 in let b9 := ((b9 <<' 38) |' (b9 >>' (64 - 38))) ^' b0 in (Locals16 b0 b1 b2 b3 b4 b5 b6 b7 b8 b9 b10 b11 b12 b13 b14 b15));
  (fun '(Locals16 b0 b1 b2 b3 b4 b5 b6 b7 b8 b9 b10 b11 b12 b13 b14 b15) => let b2 := b2 +' b13 in let b13 := ((b13 <<' 19) |' (b13 >>' (64 - 19))) ^' b2 in (Locals16 b0 b1 b2 b3 b4 b5 b6 b7 b8 b9 b10 b11 b12 b13 b14 b15));
  (fun '(Locals16 b0 b1 b2 b3 b4 b5 b6 b7 b8 b9 b10 b11 b12 b13 b14 b15) => let b6 := b6 +' b11 in let b11 := ((b11 <<' 10) |' (b11 >>' (64 - 10))) ^' b6 in (Locals16 b0 b1 b2 b3 b4 b5 b6 b7 b8 b9 b10 b11 b12 b13 b14 b15));
  (fun '(Locals16 b0 b1 b2 b3 b4 b5 b6 b7 b8 b9 b10 b11 b12 b13 b14 b15) => let b4 := b4 +' b15 in let b15 := ((b15 <<' 55) |' (b15 >>' (64 - 55))) ^' b4 in (Locals16 b0 b1 b2 b3 b4 b5 b6 b7 b8 b9 b10 b11 b12 b13 b14 b15));
  (fun '(Locals16 b0 b1 b2 b3 b4 b5 b6 b7 b8 b9 b10 b11 b12 b13 b14 b15) => let b10 := b10 +' b7 in let b7 := ((b7 <<' 49) |' (b7 >>' (64 - 49))) ^' b10 in (Locals16 b0 b1 b2 b3 b4 b5 b6 b7 b8 b9 b10 b11 b12 b13 b14 b15));
  (fun '(Locals16 b0 b1 b2 b3 b4 b5 b6 b7 b8 b9 b10 b11 b12 b13 b14 b15) => let b12 := b12 +' b3 in let b3 := ((b3 <<' 18) |' (b3 >>' (64 - 18))) ^' b12 in (Locals16 b0 b1 b2 b3 b4 b5 b6 b7 b8 b9 b10 b11 b12 b13 b14 b15));
  (fun '(Locals16 b0 b1 b2 b3 b4 b5 b6 b7 b8 b9 b10 b11 b12 b13 b14 b15) => let b14 := b14 +' b5 in let b5 := ((b5 <<' 23) |' (b5 >>' (64 - 23))) ^' b14 in (Locals16 b0 b1 b2 b3 b4 b5 b6 b7 b8 b9 b10 b11 b12 b13 b14 b15));
  (fun '(Locals16 b0 b1 b2 b3 b4 b5 b6 b7 b8 b9 b10 b11 b12 b13 b14 b15) => let b8 := b8 +' b1 in let b1 := ((b1 <<' 52) |' (b1 >>' (64 - 52))) ^' b8 in (Locals16 b0 b1 b2 b3 b4 b5 b6 b7 b8 b9 b10 b11 b12 b13 b14 b15));
  (* round 74 *)
  (fun '(Locals16 b0 b1 b2 b3 b4 b5 b6 b7 b8 b9 b10 b11 b12 b13 b14 b15) => let b0 := b0 +' b7 in let b7 := ((b7 <<' 33) |' (b7 >>' (64 - 33))) ^' b0 in (Locals16 b0 b1 b2 b3 b4 b5 b6 b7 b8 b9 b10 b11 b12 b13 b14 b15));
  (fun '(Locals16 b0 b1 b2 b3 b4 b5 b6 b7 b8 b9 b10 b11 b12 b13 b14 b15) => let b2 := b2 +' b5 in let b5 := ((b5 <<' 4) |' (b5 >>' (64 - 4))) ^' b2 in (Locals16 b0 b1 b2 b3 b4 b5 b6 b7 b8 b9 b10 b11 b12 b13 b14 b15));
  (fun '(Locals16 b0 b1 b2 b3 b4 b5 b6 b7 b8 b9 b10 b11 b12 b13 b14 b15) => let b4 := b4 +' b3 in let b3 := ((b3 <<' 51) |' (b3 >>' (64 - 51))) ^' b4 in (Locals16 b0 b1 b2 b3 b4 b5 b6 b7 b8 b9 b10 b11 b12 b13 b14 b15));
  (fun '(Locals16 b0 b1 b2 b3 b4 b5 b6 b7 b8 b9 b10 b11 b12 b13 b14 b15) => let b6 := b6 +' b1 in let b1 := ((b1 <<' 13) |' (b1 >>' (64 - 13))) ^' b6 in (Locals16 b0 b1 b2 b3 b4 b5 b6 b7 b8 b9 b10 b11 b12 b13 b14 b15));
  (fun '(Locals16 b0 b1 b2 b3 b4 b5 b6 b7 b8 b9 b10 b11 b12 b13 b14 b15) => let b12 := b12 +' b15 in let b15 := ((b15 <<' 34) |' (b15 >>' (64 - 34))) ^' b12 in (Locals16 b0 b1 b2 b3 b4 b5 b6 b7 b8 b9 b10 b11 b12 b13 b14 b15));
  (fun '(Locals16 b0 b1 b2 b3 b4 b5 b6 b7 b8 b9 b10 b11 b12 b13 b14 b15) => let b14 := b14 +' b13 in let b13 := ((b13 <<' 41) |' (b13 >>' (64 - 41))) ^' b14 in (Locals16 b0 b1 b2 b3 b4 b5 b6 b7 b8 b9 b10 b11 b12 b13 b14 b15));
  (fun '(Locals16 b0 b1 b2 b3 b4 b5 b6 b7 b8 b9 b10 b11 b12 b13 b14 b15) => let b8 := b8 +' b11 in let b11 := ((b11 <<' 59) |' (b11 >>' (64 - 59))) ^' b8 in (Locals16 b0 b1 b2 b3 b4 b5 b6 b7 b8 b9 b10 b11 b12 b13 b14 b15));
  (fun '(Locals16 b0 b1 b2 b3 b4 b5 b6 b7 b8 b9 b10 b11 b12 b13 b14 b15) => let b10 := b10 +' b9 in let b9 := ((b9 <<' 17) |' (b9 >>' (64 - 17))) ^' b10 in (Locals16 b0 b1 b2 b3 b4 b5 b6 b7 b8 b9 b10 b11 b12 b13 b14 b15));
  (* round 75 *)
  (fun '(Locals16 b0 b1 b2 b3 b4 b5 b6 b7 b8 b9 b10 b11 b12 b13 b14 b15) => let b0 := b0 +' b15 in let b15 := ((b15 <<' 5) |' (b15 >>' (64 - 5))) ^' b0 in (Locals16 b0 b1 b2 b3 b4 b5 b6 b7 b8 b9 b10 b11 b12 b13 b14 b15));
  (fun '(Locals16 b0 b1 b2 b3 b4 b5 b6 b7 b8 b9 b10 b11 b12 b13 b14 b15) => let b2 := b2 +' b11 in let b11 := ((b11 <<' 20) |' (b11 >>' (64 - 20))) ^' b2 in (Locals16 b0 b1 b2 b3 b4 b5 b6 b7 b8 b9 b10 b11 b12 b13 b14 b15));
  (fun '(Locals16 b0 b1 b2 b3 b4 b5 b6 b7 b8 b9 b10 b11 b12 b13 b14 b15) => let b6 := b6 +' b13 in let b13 := ((b13 <<' 48) |' (b13 >>' (64 - 48))) ^' b6 in (Locals16 b0 b1 b2 b3 b4 b5 b6 b7 b8 b9 b10 b11 b12 b13 b14 b15));
  (fun '(Locals16 b0 b1 b2 b3 b4 b5 b6 b7 b8 b9 b10 b11 b12 b13 b14 b15) => let b4 := b4 +' b9 in let b9 := ((b9 <<' 41) |' (b9 >>' (64 - 41))) ^' b4 in (Locals16 b0 b1 b2 b3 b4 b5 b6 b7 b8 b9 b10 b11 b12 b13 b14 b15));
  (fun '(Locals16 b0 b1 b2 b3 b4 b5 b6 b7 b8 b9 b10 b11 b12 b13 b14 b15) => let b14 := b14 +' b1 in let b1 := ((b1 <<' 47) |' (b1 >>' (64 - 47))) ^' b14 in (Locals16 b0 b1 b2 b3 b4 b5 b6 b7 b8 b9 b10 b11 b12 b13 b14 b15));
  (fun '(Locals16 b0 b1 b2 b3 b4 b5 b6 b7 b8 b9 b10 b11 b12 b13 b14 b15) => let b8 := b8 +' b5 in let b5 := ((b5 <<' 28) |' (b5 >>' (64 - 28))) ^' b8 in (Locals16 b0 b1 b2 b3 b4 b5 b6 b7 b8 b9 b10 b11 b12 b13 b14 b15));
  (fun '(Locals16 b0 b1 b2 b3 b4 b5 b6 b7 b8 b9 b10 b11 b12 b13 b14 b15) => let b10 := b10 +' b3 in let b3 := ((b3 <<' 16) |' (b3 >>' (64 - 16))) ^' b10 in (Locals16 b0 b1 b2 b3 b4 b5 b6 b7 b8 b9 b10 b11 b12 b13 b14 b15));
  (fun '(Locals16 b0 b1 b2 b3 b4 b5 b6 b7 b8 b9 b10 b11 b12 b13 b14 b15) => let b12 := b12 +' b7 in let b7 := ((b7 <<' 25) |' (b7 >>' (64 - 25))) ^' b12 in (Locals16 b0 b1 b2 b3 b4 b5 b6 b7 b8 b9 b10 b11 b12 b13 b14 b15));
  (* round 76 *)
  (fun '(Locals16 b0 b1 b2 b3 b4 b5 b6 b7 b8 b9 b10 b11 b12 b13 b14 b15) => let b1 := b1 +' k3 in let b0 := b0 +' (b1 +' k2) in let b1 := ((b1 <<' 41) |' (b1 >>' (64 - 41))) ^' b0 in (Locals16 b0 b1 b2 b3 b4 b5 b6 b7 b8 b9 b10 b11 b12 b13 b14 b15));
  (fun '(Locals16 b0 b1 b2 b3 b4 b5 b6 b7 b8 b9 b10 b11 b12 b13 b14 b15) => let b3 := b3 +' k5 in let b2 := b2 +' (b3 +' k4) in let b3 := ((b3 <<' 9) |' (b3 >>' (64 - 9))) ^' b2 in (Locals16 b0 b1 b2 b3 b4 b5 b6 b7 b8 b9 b10 b11 b12 b13 b14 b15));
  (fun '(Locals16 b0 b1 b2 b3 b4 b5 b6 b7 b8 b9 b10 b11 b12 b13 b14 b15) => let b5 := b5 +' k7 in let b4 := b4 +' (b5 +' k6) in let b5 := ((b5 <<' 37) |' (b5 >>' (64 - 37))) ^' b4 in (Locals16 b0 b1 b2 b3 b4 b5 b6 b7 b8 b9 b10 b11 b12 b13 b14 b15));
  (fun '(Locals16 b0 b1 b2 b3 b4 b5 b6 b7 b8 b9 b10 b11 b12 b13 b14 b15) => let b7 := b7 +' k9 in let b6 := b6 +' (b7 +' k8) in let b7 := ((b7 <<' 31) |' (b7 >>' (64 - 31))) ^' b6 in (Locals16 b0 b1 b2 b3 b4 b5 b6 b7 b8 b9 b10 b11 b12 b13 b14 b15));
  (fun '(Locals16 b0 b1 b2 b3 b4 b5 b6 b7 b8 b9 b10 b11 b12 b13 b14 b15) => let b9 := b9 +' k11 in let b8 := b8 +' (b9 +' k10) in let b9 := ((b9 <<' 12) |' (b9 >>' (64 - 12))) ^' b8 in (Locals16 b0 b1 b2 b3 b4 b5 b6 b7 b8 b9 b10 b11 b12 b13 b14 b15));
  (fun '(Locals16 b0 b1 b2 b3 b4 b5 b6 b7 b8 b9 b10 b11 b12 b13 b14 b15) => let b11 := b11 +' k13 in let b10 := b10 +' (b11 +' k12) in let b11 := ((b11 <<' 47) |' (b11 >>' (64 - 47))) ^' b10 in (Locals16 b0 b1 b2 b3 b4 b5 b6 b7 b8 b9 b10 b11 b12 b13 b14 b15));
  (fun '(Locals16 b0 b1 b2 b3 b4 b5 b6 b7 b8 b9 b10 b11 b12 b13 b14 b15) => let b13 := b13 +' (k15 +' t1) in let b12 := b12 +' (b13 +' k14) in let b13 := ((b13 <<' 44) |' (b13 >>' (64 - 44))) ^' b12 in (Locals16 b0 b1 b2 b3 b4 b5 b6 b7 b8 b9 b10 b11 b12 b13 b14 b15));
  (fun '(Locals16 b0 b1 b2 b3 b4 b5 b6 b7 b8 b9 b10 b11 b12 b13 b14 b15) => let b15 := b15 +' (k0 +' 19) in let b14 := b14 +' (b15 +' k16 +' t2) in let b15 := ((b15 <<' 30) |' (b15 >>' (64 - 30))) ^' b14 in (Locals16 b0 b1 b2 b3 b4 b5 b6 b7 b8 b9 b10 b11 b12 b13 b14 b15));
  (* round 77 *)
  (fun '(Locals16 b0 b1 b2 b3 b4 b5 b6 b7 b8 b9 b10 b11 b12 b13 b14 b15) => let b0 := b0 +' b9 in let b9 := ((b9 <<' 16) |' (b9 >>' (64 - 16))) ^' b0 in (Locals16 b0 b1 b2 b3 b4 b5 b6 b7 b8 b9 b10 b11 b12 b13 b14 b15));
  (fun '(Locals16 b0 b1 b2 b3 b4 b5 b6 b7 b8 b9 b10 b11 b12 b13 b14 b15) => let b2 := b2 +' b13 in let b13 := ((b13 <<' 34) |' (b13 >>' (64 - 34))) ^' b2 in (Locals16 b0 b1 b2 b3 b4 b5 b6 b7 b8 b9 b10 b11 b12 b13 b14 b15));
  (fun '(Locals16 b0 b1 b2 b3 b4 b5 b6 b7 b8 b9 b10 b11 b12 b13 b14 b15) => let b6 := b6 +' b11 in let b11 := ((b11 <<' 56) |' (b11 >>' (64 - 56))) ^' b6 in (Locals16 b0 b1 b2 b3 b4 b5 b6 b7 b8 b9 b10 b11 b12 b13 b14 b15));
  (fun '(Locals16 b0 b1 b2 b3 b4 b5 b6 b7 b8 b9 b10 b11 b12 b13 b14 b15) => let b4 := b4 +' b15 in let b15 := ((b15 <<' 51) |' (b15 >>' (64 - 51))) ^' b4 in (Locals16 b0 b1 b2 b3 b4 b5 b6 b7 b8 b9 b10 b11 b12 b13 b14 b15));
  (fun '(Locals16 b0 b1 b2 b3 b4 b5 b6 b7 b8 b9 b10 b11 b12 b13 b14 b15) => let b10 := b10 +' b7 in let b7 := ((b7 <<' 4) |' (b7 >>' (64 - 4))) ^' b10 in (Locals16 b0 b1 b2 b3 b4 b5 b6 b7 b8 b9 b10 b11 b12 b13 b14 b15));
  (fun '(Locals16 b0 b1 b2 b3 b4 b5 b6 b7 b8 b9 b10 b11 b12 b13 b14 b15) => let b12 := b12 +' b3 in let b3 := ((b3 <<' 53) |' (b3 >>' (64 - 53))) ^' b12 in (Locals16 b0 b1 b2 b3 b4 b5 b6 b7 b8 b9 b10 b11 b12 b13 b14 b15));
  (fun '(Locals16 b0 b1 b2 b3 b4 b5 b6 b7 b8 b9 b10 b11 b12 b13 b14 b15) => let b14 := b14 +' b5 in let b5 := ((b5 <<' 42) |' (b5 >>' (64 - 42))) ^' b14 in (Locals16 b0 b1 b2 b3 b4 b5 b6 b7 b8 b9 b10 b11 b12 b13 b14 b15));
  (fun '(Locals16 b0 b1 b2 b3 b4 b5 b6 b7 b8 b9 b10 b11 b12 b13 b14 b15) => let b8 := b8 +' b1 in let b1 := ((b1 <<' 41) |' (b1 >>' (64 - 41))) ^' b8 in (Locals16 b0 b1 b2 b3 b4 b5 b6 b7 b8 b9 b10 b11 b12 b13 b14 b15));
  (* round 78 *)
  (fun '(Locals16 b0 b1 b2 b3 b4 b5 b6 b7 b8 b9 b10 b11 b12 b13 b14 b15) => let b0 := b0 +' b7 in let b7 := ((b7 <<' 31) |' (b7 >>' (64 - 31))) ^' b0 in (Locals16 b0 b1 b2 b3 b4 b5 b6 b7 b8 b9 b10 b11 b12 b13 b14 b15));
  (fun '(Locals16 b0 b1 b2 b3 b4 b5 b6 b7 b8 b9 b10 b11 b12 b13 b14 b15) => let b2 := b2 +' b5 in let b5 := ((b5 <<' 44) |' (b5 >>' (64 - 44))) ^' b2 in (Locals16 b0 b1 b2 b3 b4 b5 b6 b7 b8 b9 b10 b11 b12 b13 b14 b15));
  (fun '(Locals16 b0 b1 b2 b3 b4 b5 b6 b7 b8 b9 b10 b11 b12 b13 b14 b15) => let b4 := b4 +' b3 in let b3 := ((b3 <<' 47) |' (b3 >>' (64 - 47))) ^' b4 in (Locals16 b0 b1 b2 b3 b4 b5 b6 b7 b8 b9 b10 b11 b12 b13 b14 b15));
  (fun '(Locals16 b0 b1 b2 b3 b4 b5 b6 b7 b8 b9 b10 b11 b12 b13 b14 b15) => let b6 := b6 +' b1 in let b1 := ((b1 <<' 46) |' (b1 >>' (64 - 46))) ^' b6 in (Locals16 b0 b1 b2 b3 b4 b5 b6 b7 b8 b9 b10 b11 b12 b13 b14 b15));
  (fun '(Locals16 b0 b1 b2 b3 b4 b5 b6 b7 b8 b9 b10 b11 b12 b13 b14 b15) => let b12 := b12 +' b15 in let b15 := ((b15 <<' 19) |' (b15 >>' (64 - 19))) ^' b12 in (Locals16 b0 b1 b2 b3 b4 b5 b6 b7 b8 b9 b10 b11 b12 b13 b14 b15));
  (fun '(Locals16 b0 b1 b2 b3 b4 b5 b6 b7 b8 b9 b10 b11 b12 b13 b14 b15) => let b14 := b14 +' b13 in let b13 := ((b13 <<' 42) |' (b13 >>' (64 - 42))) ^' b14 in (Locals16 b0 b1 b2 b3 b4 b5 b6 b7 b8 b9 b10 b11 b12 b13 b14 b15));
  (fun '(Locals16 b0 b1 b2 b3 b4 b5 b6 b7 b8 b9 b10 b11 b12 b13 b14 b15) => let b8 := b8 +' b11 in let b11 := ((b11 <<' 44) |' (b11 >>' (64 - 44))) ^' b8 in (Locals16 b0 b1 b2 b3 b4 b5 b6 b7 b8 b9 b10 b11 b12 b13 b14 b15));
  (fun '(Locals16 b0 b1 b2 b3 b4 b5 b6 b7 b8 b9 b10 b11 b12 b13 b14 b15) => let b10 := b10 +' b9 in let b9 := ((b9 <<' 25) |' (b9 >>' (64 - 25))) ^' b10 in (Locals16 b0 b1 b2 b3 b4 b5 b6 b7 b8 b9 b10 b11 b12 b13 b14 b15));
  (* round 79 *)
  (fun '(Locals16 b0 b1 b2 b3 b4 b5 b6 b7 b8 b9 b10 b11 b12 b13 b14 b15) => let b0 := b0 +' b15 in let b15 := ((b15 <<' 9) |' (b15 >>' (64 - 9))) ^' b0 in (Locals16 b0 b1 b2 b3 b4 b5 b6 b7 b8 b9 b10 b11 b12 b13 b14 b15));
  (fun '(Locals16 b0 b1 b2 b3 b4 b5 b6 b7 b8 b9 b10 b11 b12 b13 b14 b15) => let b2 := b2 +' b11 in let b11 := ((b11 <<' 48) |' (b11 >>' (64 - 48))) ^' b2 in (Locals16 b0 b1 b2 b3 b4 b5 b6 b7 b8 b9 b10 b11 b12 b13 b14 b15));
  (fun '(Locals16 b0 b1 b2 b3 b4 b5 b6 b7 b8 b9 b10 b11 b12 b13 b14 b15) => let b6 := b6 +' b13 in let b13 := ((b13 <<' 35) |' (b13 >>' (64 - 35))) ^' b6 in (Locals16 b0 b1 b2 b3 b4 b5 b6 b7 b8 b9 b10 b11 b12 b13 b14 b15));
  (fun '(Locals16 b0 b1 b2 b3 b4 b5 b6 b7 b8 b9 b10 b11 b12 b13 b14 b15) => let b4 := b4 +' b9 in let b9 := ((b9 <<' 52) |' (b9 >>' (64 - 52))) ^' b4 in (Locals16 b0 b1 b2 b3 b4 b5 b6 b7 b8 b9 b10 b11 b12 b13 b14 b15));
  (fun '(Locals16 b0 b1 b2 b3 b4 b5 b6 b7 b8 b9 b10 b11 b12 b13 b14 b15) => let b14 := b14 +' b1 in let b1 := ((b1 <<' 23) |' (b1 >>' (64 - 23))) ^' b14 in (Locals16 b0 b1 b2 b3 b4 b5 b6 b7 b8 b9 b10 b11 b12 b13 b14 b15));
  (fun '(Locals16 b0 b1 b2 b3 b4 b5 b6 b7 b8 b9 b10 b11 b12 b13 b14 b15) => let b8 := b8 +' b5 in let b5 := ((b5 <<' 31) |' (b5 >>' (64 - 31))) ^' b8 in (Locals16 b0 b1 b2 b3 b4 b5 b6 b7 b8 b9 b10 b11 b12 b13 b14 b15));
  (fun '(Locals16 b0 b1 b2 b3 b4 b5 b6 b7 b8 b9 b10 b11 b12 b13 b14 b15) => let b10 := b10 +' b3 in let b3 := ((b3 <<' 37) |' (b3 >>' (64 - 37))) ^' b10 in (Locals16 b0 b1 b2 b3 b4 b5 b6 b7 b8 b9 b10 b11 b12 b13 b14 b15));
  (fun '(Locals16 b0 b1 b2 b3 b4 b5 b6 b7 b8 b9 b10 b11 b12 b13 b14 b15) => let b12 := b12 +' b7 in let b7 := ((b7 <<' 20) |' (b7 >>' (64 - 20))) ^' b12 in (Locals16 b0 b1 b2 b3 b4 b5 b6 b7 b8 b9 b10 b11 b12 b13 b14 b15))
].

Definition threefish1024_encrypt (tf : threefish) (input output : list Z) : outcome (list Z) :=
  b0 <- index input 0 ;;
  b1 <- index input 1 ;;
  b2 <- index input 2 ;;
  b3 <- index input 3 ;;
  b4 <- index input 4 ;;
  b5 <- index input 5 ;;
  b6 <- index input 6 ;;
  b7 <- index input 7 ;;
  b8 <- index input 8 ;;
  b9 <- index input 9 ;;
  b10 <- index input 10 ;;
  b11 <- index input 11 ;;
  b12 <- index input 12 ;;
  b13 <- index input 13 ;;
  b14 <- index input 14 ;;
  b15 <- index input 15 ;;
  let k0 := arr (expanedKey tf) 0 in
  let k1 := arr (expanedKey tf) 1 in
  let k2 := arr (expanedKey tf) 2 in
  let k3 := arr (expanedKey tf) 3 in
  let k4 := arr (expanedKey tf) 4 in
  let k5 := arr (expanedKey tf) 5 in
  let k6 := arr (expanedKey tf) 6 in
  let k7 := arr (expanedKey tf) 7 in
  let k8 := arr (expanedKey tf) 8 in
  let k9 := arr (expanedKey tf) 9 in
  let k10 := arr (expanedKey tf) 10 in
  let k11 := arr (expanedKey tf) 11 in
  let k12 := arr (expanedKey tf) 12 in
  let k13 := arr (expanedKey tf) 13 in
  let k14 := arr (expanedKey tf) 14 in
  let k15 := arr (expanedKey tf) 15 in
  let k16 := arr (expanedKey tf) 16 in
  let t0 := arr (expanedTweak tf) 0 in
  let t1 := arr (expanedTweak tf) 1 in
  let t2 := arr (expanedTweak tf) 2 in
  let '(Locals16 b0 b1 b2 b3 b4 b5 b6 b7 b8 b9 b10 b11 b12 b13 b14 b15) := run (threefish1024_encrypt_rounds k0 k1 k2 k3 k4 k5 k6 k7 k8 k9 k10 k11 k12 k13 k14 k15 k16 t0 t1 t2) (Locals16 b0 b1 b2 b3 b4 b5 b6 b7 b8 b9 b10 b11 b12 b13 b14 b15) in
  output <- store output 0 (b0 +' k3) ;;
  output <- store output 1 (b1 +' k4) ;;
  output <- store output 2 (b2 +' k5) ;;
  output <- store output 3 (b3 +' k6) ;;
  output <- store output 4 (b4 +' k7) ;;
  output <- store output 5 (b5 +' k8) ;;
  output <- store output 6 (b6 +' k9) ;;
  output <- store output 7 (b7 +' k10) ;;
  output <- store output 8 (b8 +' k11) ;;
  output <- store output 9 (b9 +' k12) ;;
  output <- store output 10 (b10 +' k13) ;;
  output <- store output 11 (b11 +' k14) ;;
  output <- store output 12 (b12 +' k15) ;;
  output <- store output 13 (b13 +' k16 +' t2) ;;
  output <- store output 14 (b14 +' k0 +' t0) ;;
  output <- store output 15 (b15 +' k1 +' 20) ;;
  Done output.

Definition threefish1024_decrypt_rounds (k0 k1 k2 k3 k4 k5 k6 k7 k8 k9 k10 k11 k12 k13 k14 k15 k16 t0 t1 t2 : Z) : list (locals16 -> locals16) := [
  (* inverse of round 79 *)
  (fun '(Locals16 b0 b1 b2 b3 b4 b5 b6 b7 b8 b9 b10 b11 b12 b13 b14 b15) => let tmp := b7 ^' b12 in let b7 := (tmp >>' 20) |' (tmp <<' (64 - 20)) in let b12 := b12 -' b7 in (Locals16 b0 b1 b2 b3 b4 b5 b6 b7 b8 b9 b10 b11 b12 b13 b14 b15));
  (fun '(Locals16 b0 b1 b2 b3 b4 b5 b6 b7 b8 b9 b10 b11 b12 b13 b14 b15) => let tmp := b3 ^' b10 in let b3 := (tmp >>' 37) |' (tmp <<' (64 - 37)) in let b10 := b10 -' b3 in (Locals16 b0 b1 b2 b3 b4 b5 b6 b7 b8 b9 b10 b11 b12 b13 b14 b15));
  (fun '(Locals16 b0 b1 b2 b3 b4 b5 b6 b7 b8 b9 b10 b11 b12 b13 b14 b15) => let tmp := b5 ^' b8 in let b5 := (tmp >>' 31) |' (tmp <<' (64 - 31)) in let b8 := b8 -' b5 in (Locals16 b0 b1 b2 b3 b4 b5 b6 b7 b8 b9 b10 b11 b12 b13 b14 b15));
  (fun '(Locals16 b0 b1 b2 b3 b4 b5 b6 b7 b8 b9 b10 b11 b12 b13 b14 b15) => let tmp := b1 ^' b14 in let b1 := (tmp >>' 23) |' (tmp <<' (64 - 23)) in let b14 := b14 -' b1 in (Locals16 b0 b1 b2 b3 b4 b5 b6 b7 b8 b9 b10 b11 b12 b13 b14 b15));
  (fun '(Locals16 b0 b1 b2 b3 b4 b5 b6 b7 b8 b9 b10 b11 b12 b13 b14 b15) => let tmp := b9 ^' b4 in let b9 := (tmp >>' 52) |' (tmp <<' (64 - 52)) in let b4 := b4 -' b9 in (Locals16 b0 b1 b2 b3 b4 b5 b6 b7 b8 b9 b10 b11 b12 b13 b14 b15));
  (fun '(Locals16 b0 b1 b2 b3 b4 b5 b6 b7 b8 b9 b10 b11 b12 b13 b14 b15) => let tmp := b13 ^' b6 in let b13 := (tmp >>' 35) |' (tmp <<' (64 - 35)) in let b6 := b6 -' b13 in (Locals16 b0 b1 b2 b3 b4 b5 b6 b7 b8 b9 b10 b11 b12 b13 b14 b15));
  (fun '(Locals16 b0 b1 b2 b3 b4 b5 b6 b7 b8 b9 b10 b11 b12 b13 b14 b15) => let tmp := b11 ^' b2 in let b11 := (tmp >>' 48) |' (tmp <<' (64 - 48)) in let b2 := b2 -' b11 in (Locals16 b0 b1 b2 b3 b4 b5 b6 b7 b8 b9 b10 b11 b12 b13 b14 b15));
  (fun '(Locals16 b0 b1 b2 b3 b4 b5 b6 b7 b8 b9 b10 b11 b12 b13 b14 b15) => let tmp := b15 ^' b0 in let b15 := (tmp >>' 9) |' (tmp <<' (64 - 9)) in let b0 := b0 -' b15 in (Locals16 b0 b1 b2 b3 b4 b5 b6 b7 b8 b9 b10 b11 b12 b13 b14 b15));
  (* inverse of round 78 *)
  (fun '(Locals16 b0 b1 b2 b3 b4 b5 b6 b7 b8 b9 b10 b11 b12 b13 b14 b15) => let tmp := b9 ^' b10 in let b9 := (tmp >>' 25) |' (tmp <<' (64 - 25)) in let b10 := b10 -' b9 in (Locals16 b0 b1 b2 b3 b4 b5 b6 b7 b8 b9 b10 b11 b12 b13 b14 b15));
  (fun '(Locals16 b0 b1 b2 b3 b4 b5 b6 b7 b8 b9 b10 b11 b12 b13 b14 b15) => let tmp := b11 ^' b8 in let b11 := (tmp >>' 44) |' (tmp <<' (64 - 44)) in let b8 := b8 -' b11 in (Locals16 b0 b1 b2 b3 b4 b5 b6 b7 b8 b9 b10 b11 b12 b13 b14 b15));
  (fun '(Locals16 b0 b1 b2 b3 b4 b5 b6 b7 b8 b9 b10 b11 b12 b13 b14 b15) => let tmp := b13 ^' b14 in let b13 := (tmp >>' 42) |' (tmp <<' (64 - 42)) in let b14 := b14 -' b13 in (Locals16 b0 b1 b2 b3 b4 b5 b6 b7 b8 b9 b10 b11 b12 b13 b14 b15));
  (fun '(Locals16 b0 b1 b2 b3 b4 b5 b6 b7 b8 b9 b10 b11 b12 b13 b14 b15) => let tmp := b15 ^' b12 in let b15 := (tmp >>' 19) |' (tmp <<' (64 - 19)) in let b12 := b12 -' b15 in (Locals16 b0 b1 b2 b3 b4 b5 b6 b7 b8 b9 b10 b11 b12 b13 b14 b15));
  (fun '(Locals16 b0 b1 b2 b3 b4 b5 b6 b7 b8 b9 b10 b11 b12 b13 b14 b15) => let tmp := b1 ^' b6 in let b1 := (tmp >>' 46) |' (tmp <<' (64 - 46)) in let b6 := b6 -' b1 in (Locals16 b0 b1 b2 b3 b4 b5 b6 b7 b8 b9 b10 b11 b12 b13 b14 b15));
  (fun '(Locals16 b0 b1 b2 b3 b4 b5 b6 b7 b8 b9 b10 b11 b12 b13 b14 b15) => let tmp := b3 ^' b4 in let b3 := (tmp >>' 47) |' (tmp <<' (64 - 47)) in let b4 := b4 -' b3 in (Locals16 b0 b1 b2 b3 b4 b5 b6 b7 b8 b9 b10 b11 b12 b13 b14 b15));
  (fun '(Locals16 b0 b1 b2 b3 b4 b5 b6 b7 b8 b9 b10 b11 b12 b13 b14 b15) => let tmp := b5 ^' b2 in let b5 := (tmp >>' 44) |' (tmp <<' (64 - 44)) in let b2 := b2 -' b5 in (Locals16 b0 b1 b2 b3 b4 b5 b6 b7 b8 b9 b10 b11 b12 b13 b14 b15));
  (fun '(Locals16 b0 b1 b2 b3 b4 b5 b6 b7 b8 b9 b10 b11 b12 b13 b14 b15) => let tmp := b7 ^' b0 in let b7 := (tmp >>' 31) |' (tmp <<' (64 - 31)) in let b0 := b0 -' b7 in (Locals16 b0 b1 b2 b3 b4 b5 b6 b7 b8 b9 b10 b11 b12 b13 b14 b15));
  (* inverse of round 77 *)
  (fun '(Locals16 b0 b1 b2 b3 b4 b5 b6 b7 b8 b9 b10 b11 b12 b13 b14 b15) => let tmp := b1 ^' b8 in let b1 := (tmp >>' 41) |' (tmp <<' (64 - 41)) in let b8 := b8 -' b1 in (Locals16 b0 b1 b2 b3 b4 b5 b6 b7 b8 b9 b10 b11 b12 b13 b14 b15));
  (fun '(Locals16 b0 b1 b2 b3 b4 b5 b6 b7 b8 b9 b10 b11 b12 b13 b14 b15) => let tmp := b5 ^' b14 in let b5 := (tmp >>' 42) |' (tmp <<' (64 - 42)) in let b14 := b14 -' b5 in (Locals16 b0 b1 b2 b3 b4 b5 b6 b7 b8 b9 b10 b11 b12 b13 b14 b15));
  (fun '(Locals16 b0 b1 b2 b3 b4 b5 b6 b7 b8 b9 b10 b11 b12 b13 b14 b15) => let tmp := b3 ^' b12 in let b3 := (tmp >>' 53) |' (tmp <<' (64 - 53)) in let b12 := b12 -' b3 in (Locals16 b0 b1 b2 b3 b4 b5 b6 b7 b8 b9 b10 b11 b12 b13 b14 b15));
  (fun '(Locals16 b0 b1 b2 b3 b4 b5 b6 b7 b8 b9 b10 b11 b12 b13 b14 b15) => let tmp := b7 ^' b10 in let b7 := (tmp >>' 4) |' (tmp <<' (64 - 4)) in let b10 := b10 -' b7 in (Locals16 b0 b1 b2 b3 b4 b5 b6 b7 b8 b9 b10 b11 b12 b13 b14 b15));
  (fun '(Locals16 b0 b1 b2 b3 b4 b5 b6 b7 b8 b9 b10 b11 b12 b13 b14 b15) => let tmp := b15 ^' b4 in let b15 := (tmp >>' 51) |' (tmp <<' (64 - 51)) in let b4 := b4 -' b15 in (Locals16 b0 b1 b2 b3 b4 b5 b6 b7 b8 b9 b10 b11 b12 b13 b14 b15));
  (fun '(Locals16 b0 b1 b2 b3 b4 b5 b6 b7 b8 b9 b10 b11 b12 b13 b14 b15) => let tmp := b11 ^' b6 in let b11 := (tmp >>' 56) |' (tmp <<' (64 - 56)) in let b6 := b6 -' b11 in (Locals16 b0 b1 b2 b3 b4 b5 b6 b7 b8 b9 b10 b11 b12 b13 b14 b15));
  (fun '(Locals16 b0 b1 b2 b3 b4 b5 b6 b7 b8 b9 b10 b11 b12 b13 b14 b15) => let tmp := b13 ^' b2 in let b13 := (tmp >>' 34) |' (tmp <<' (64 - 34)) in let b2 := b2 -' b13 in (Locals16 b0 b1 b2 b3 b4 b5 b6 b7 b8 b9 b10 b11 b12 b13 b14 b15));
  (fun '(Locals16 b0 b1 b2 b3 b4 b5 b6 b7 b8 b9 b10 b11 b12 b13 b14 b15) => let tmp := b9 ^' b0 in let b9 := (tmp >>' 16) |' (tmp <<' (64 - 16)) in let b0 := b0 -' b9 in (Locals16 b0 b1 b2 b3 b4 b5 b6 b7 b8 b9 b10 b11 b12 b13 b14 b15));
  (* inverse of round 76 *)
  (fun '(Locals16 b0 b1 b2 b3 b4 b5 b6 b7 b8 b9 b10 b11 b12 b13 b14 b15) => let tmp := b15 ^' b14 in let b15 := (tmp >>' 30) |' (tmp <<' (64 - 30)) in let b14 := b14 -' (b15 +' k16 +' t2) in let b15 := b15 -' (k0 +' 19) in (Locals16 b0 b1 b2 b3 b4 b5 b6 b7 b8 b9 b10 b11 b12 b13 b14 b15));
  (fun '(Locals16 b0 b1 b2 b3 b4 b5 b6 b7 b8 b9 b10 b11 b12 b13 b14 b15) => let tmp := b13 ^' b12 in let b13 := (tmp >>' 44) |' (tmp <<' (64 - 44)) in let b12 := b12 -' (b13 +' k14) in let b13 := b13 -' (k15 +' t1) in (Locals16 b0 b1 b2 b3 b4 b5 b6 b7 b8 b9 b10 b11 b12 b13 b14 b15));
  (fun '(Locals16 b0 b1 b2 b3 b4 b5 b6 b7 b8 b9 b10 b11 b12 b13 b14 b15) => let tmp := b11 ^' b10 in let b11 := (tmp >>' 47) |' (tmp <<' (64 - 47)) in let b10 := b10 -' (b11 +' k12) in let b11 := b11 -' k13 in (Locals16 b0 b1 b2 b3 b4 b5 b6 b7 b8 b9 b10 b11 b12 b13 b14 b15));
  (fun '(Locals16 b0 b1 b2 b3 b4 b5 b6 b7 b8 b9 b10 b11 b12 b13 b14 b15) => let tmp := b9 ^' b8 in let b9 := (tmp >>' 12) |' (tmp <<' (64 - 12)) in let b8 := b8 -' (b9 +' k10) in let b9 := b9 -' k11 in (Locals16 b0 b1 b2 b3 b4 b5 b6 b7 b8 b9 b10 b11 b12 b13 b14 b15));
  (fun '(Locals16 b0 b1 b2 b3 b4 b5 b6 b7 b8 b9 b10 b11 b12 b13 b14 b15) => let tmp := b7 ^' b6 in let b7 := (tmp >>' 31) |' (tmp <<' (64 - 31)) in let b6 := b6 -' (b7 +' k8) in let b7 := b7 -' k9 in (Locals16 b0 b1 b2 b3 b4 b5 b6 b7 b8 b9 b10 b11 b12 b13 b14 b15));
  (fun '(Locals16 b0 b1 b2 b3 b4 b5 b6 b7 b8 b9 b10 b11 b12 b13 b14 b15) => let tmp := b5 ^' b4 in let b5 := (tmp >>' 37) |' (tmp <<' (64 - 37)) in let b4 := b4 -' (b5 +' k6) in let b5 := b5 -' k7 in (Locals16 b0 b1 b2 b3 b4 b5 b6 b7 b8 b9 b10 b11 b12 b13 b14 b15));
  (fun '(Locals16 b0 b1 b2 b3 b4 b5 b6 b7 b8 b9 b10 b11 b12 b13 b14 b15) => let tmp := b3 ^' b2 in let b3 := (tmp >>' 9) |' (tmp <<' (64 - 9)) in let b2 := b2 -' (b3 +' k4) in let b3 := b3 -' k5 in (Locals16 b0 b1 b2 b3 b4 b5 b6 b7 b8 b9 b10 b11 b12 b13 b14 b15));
  (fun '(Locals16 b0 b1 b2 b3 b4 b5 b6 b7 b8 b9 b10 b11 b12 b13 b14 b15) => let tmp := b1 ^' b0 in let b1 := (tmp >>' 41) |' (tmp <<' (64 - 41)) in let b0 := b0 -' (b1 +' k2) in let b1 := b1 -' k3 in (Locals16 b0 b1 b2 b3 b4 b5 b6 b7 b8 b9 b10 b11 b12 b13 b14 b15));
  (* inverse of round 75 *)
  (fun '(Locals16 b0 b1 b2 b3 b4 b5 b6 b7 b8 b9 b10 b11 b12 b13 b14 b15) => let tmp := b7 ^' b12 in let b7 := (tmp >>' 25) |' (tmp <<' (64 - 25)) in let b12 := b12 -' b7 in (Locals16 b0 b1 b2 b3 b4 b5 b6 b7 b8 b9 b10 b11 b12 b13 b14 b15));
  (fun '(Locals16 b0 b1 b2 b3 b4 b5 b6 b7 b8 b9 b10 b11 b12 b13 b14 b15) => let tmp := b3 ^' b10 in let b3 := (tmp >>' 16) |' (tmp <<' (64 - 16)) in let b10 := b10 -' b3 in (Locals16 b0 b1 b2 b3 b4 b5 b6 b7 b8 b9 b10 b11 b12 b13 b14 b15));
  (fun '(Locals16 b0 b1 b2 b3 b4 b5 b6 b7 b8 b9 b10 b11 b12 b13 b14 b15) => let tmp := b5 ^' b8 in let b5 := (tmp >>' 28) |' (tmp <<' (64 - 28)) in let b8 := b8 -' b5 in (Locals16 b0 b1 b2 b3 b4 b5 b6 b7 b8 b9 b10 b11 b12 b13 b14 b15));
  (fun '(Locals16 b0 b1 b2 b3 b4 b5 b6 b7 b8 b9 b10 b11 b12 b13 b14 b15) => let tmp := b1 ^' b14 in let b1 := (tmp >>' 47) |' (tmp <<' (64 - 47)) in let b14 := b14 -' b1 in (Locals16 b0 b1 b2 b3 b4 b5 b6 b7 b8 b9 b10 b11 b12 b13 b14 b15));
  (fun '(Locals16 b0 b1 b2 b3 b4 b5 b6 b7 b8 b9 b10 b11 b12 b13 b14 b15) => let tmp := b9 ^' b4 in let b9 := (tmp >>' 41) |' (tmp <<' (64 - 41)) in let b4 := b4 -' b9 in (Locals16 b0 b1 b2 b3 b4 b5 b6 b7 b8 b9 b10 b11 b12 b13 b14 b15));
  (fun '(Locals16 b0 b1 b2 b3 b4 b5 b6 b7 b8 b9 b10 b11 b12 b13 b14 b15) => let tmp := b13 ^' b6 in let b13 := (tmp >>' 48) |' (tmp <<' (64 - 48)) in let b6 := b6 -' b13 in (Locals16 b0 b1 b2 b3 b4 b5 b6 b7 b8 b9 b10 b11 b12 b13 b14 b15));
  (fun '(Locals16 b0 b1 b2 b3 b4 b5 b6 b7 b8 b9 b10 b11 b12 b13 b14 b15) => let tmp := b11 ^' b2 in let b11 := (tmp >>' 20) |' (tmp <<' (64 - 20)) in let b2 := b2 -' b11 in (Locals16 b0 b1 b2 b3 b4 b5 b6 b7 b8 b9 b10 b11 b12 b13 b14 b15));
  (fun '(Locals16 b0 b1 b2 b3 b4 b5 b6 b7 b8 b9 b10 b11 b12 b13 b14 b15) => let tmp := b15 ^' b0 in let b15 := (tmp >>' 5) |' (tmp <<' (64 - 5)) in let b0 := b0 -' b15 in (Locals16 b0 b1 b2 b3 b4 b5 b6 b7 b8 b9 b10 b11 b12 b13 b14 b15));
  (* inverse of round 74 *)
  (fun '(Locals16 b0 b1 b2 b3 b4 b5 b6 b7 b8 b9 b10 b11 b12 b13 b14 b15) => let tmp := b9 ^' b10 in let b9 := (tmp >>' 17) |' (tmp <<' (64 - 17)) in let b10 := b10 -' b9 in (Locals16 b0 b1 b2 b3 b4 b5 b6 b7 b8 b9 b10 b11 b12 b13 b14 b15));
  (fun '(Locals16 b0 b1 b2 b3 b4 b5 b6 b7 b8 b9 b10 b11 b12 b13 b14 b15) => let tmp := b11 ^' b8 in let b11 := (tmp >>' 59) |' (tmp <<' (64 - 59)) in let b8 := b8 -' b11 in (Locals16 b0 b1 b2 b3 b4 b5 b6 b7 b8 b9 b10 b11 b12 b13 b14 b15));
  (fun '(Locals16 b0 b1 b2 b3 b4 b5 b6 b7 b8 b9 b10 b11 b12 b13 b14 b15) => let tmp := b13 ^' b14 in let b13 := (tmp >>' 41) |' (tmp <<' (64 - 41)) in let b14 := b14 -' b13 in (Locals16 b0 b1 b2 b3 b4 b5 b6 b7 b8 b9 b10 b11 b12 b13 b14 b15));
  (fun '(Locals16 b0 b1 b2 b3 b4 b5 b6 b7 b8 b9 b10 b11 b12 b13 b14 b15) => let tmp := b15 ^' b12 in let b15 := (tmp >>' 34) |' (tmp <<' (64 - 34)) in let b12 := b12 -' b15 in (Locals16 b0 b1 b2 b3 b4 b5 b6 b7 b8 b9 b10 b11 b12 b13 b14 b15));
  (fun '(Locals16 b0 b1 b2 b3 b4 b5 b6 b7 b8 b9 b10 b11 b12 b13 b14 b15) => let tmp := b1 ^' b6 in let b1 := (tmp >>' 13) |' (tmp <<' (64 - 13)) in let b6 := b6 -' b1 in (Locals16 b0 b1 b2 b3 b4 b5 b6 b7 b8 b9 b10 b11 b12 b13 b14 b15));
  (fun '(Locals16 b0 b1 b2 b3 b4 b5 b6 b7 b8 b9 b10 b11 b12 b13 b14 b15) => let tmp := b3 ^' b4 in let b3 := (tmp >>' 51) |' (tmp <<' (64 - 51)) in let b4 := b4 -' b3 in (Locals16 b0 b1 b2 b3 b4 b5 b6 b7 b8 b9 b10 b11 b12 b13 b14 b15));
  (fun '(Locals16 b0 b1 b2 b3 b4 b5 b6 b7 b8 b9 b10 b11 b12 b13 b14 b15) => let tmp := b5 ^' b2 in let b5 := (tmp >>' 4) |' (tmp <<' (64 - 4)) in let b2 := b2 -' b5 in (Locals16 b0 b1 b2 b3 b4 b5 b6 b7 b8 b9 b10 b11 b12 b13 b14 b15));
  (fun '(Locals16 b0 b1 b2 b3 b4 b5 b6 b7 b8 b9 b10 b11 b12 b13 b14 b15) => let tmp := b7 ^' b0 in let b7 := (tmp >>' 33) |' (tmp <<' (64 - 33)) in let b0 := b0 -' b7 in (Locals16 b0 b1 b2 b3 b4 b5 b6 b7 b8 b9 b10 b11 b12 b13 b14 b15));
  (* inverse of round 73 *)
  (fun '(Locals16 b0 b1 b2 b3 b4 b5 b6 b7 b8 b9 b10 b11 b12 b13 b14 b15) => let tmp := b1 ^' b8 in let b1 := (tmp >>' 52) |' (tmp <<' (64 - 52)) in let b8 := b8 -' b1 in (Locals16 b0 b1 b2 b3 b4 b5 b6 b7 b8 b9 b10 b11 b12 b13 b14 b15));
  (fun '(Locals16 b0 b1 b2 b3 b4 b5 b6 b7 b8 b9 b10 b11 b12 b13 b14 b15) => let tmp := b5 ^' b14 in let b5 := (tmp >>' 23) |' (tmp <<' (64 - 23)) in let b14 := b14 -' b5 in (Locals16 b0 b1 b2 b3 b4 b5 b6 b7 b8 b9 b10 b11 b12 b13 b14 b15));
  (fun '(Locals16 b0 b1 b2 b3 b4 b5 b6 b7 b8 b9 b10 b11 b12 b13 b14 b15) => let tmp := b3 ^' b12 in let b3 := (tmp >>' 18) |' (tmp <<' (64 - 18)) in let b12 := b12 -' b3 in (Locals16 b0 b1 b2 b3 b4 b5 b6 b7 b8 b9 b10 b11 b12 b13 b14 b15));
  (fun '(Locals16 b0 b1 b2 b3 b4 b5 b6 b7 b8 b9 b10 b11 b12 b13 b14 b15) => let tmp := b7 ^' b10 in let b7 := (tmp >>' 49) |' (tmp <<' (64 - 49)) in let b10 := b10 -' b7 in (Locals16 b0 b1 b2 b3 b4 b5 b6 b7 b8 b9 b10 b11 b12 b13 b14 b15));
  (fun '(Locals16 b0 b1 b2 b3 b4 b5 b6 b7 b8 b9 b10 b11 b12 b13 b14 b15) => let tmp := b15 ^' b4 in let b15 := (tmp >>' 55) |' (tmp <<' (64 - 55)) in let b4 := b4 -' b15 in (Locals16 b0 b1 b2 b3 b4 b5 b6 b7 b8 b9 b10 b11 b12 b13 b14 b15));
  (fun '(Locals16 b0 b1 b2 b3 b4 b5 b6 b7 b8 b9 b10 b11 b12 b13 b14 b15) => let tmp := b11 ^' b6 in let b11 := (tmp >>' 10) |' (tmp <<' (64 - 10)) in let b6 := b6 -' b11 in (Locals16 b0 b1 b2 b3 b4 b5 b6 b7 b8 b9 b10 b11 b12 b13 b14 b15));
  (fun '(Locals16 b0 b1 b2 b3 b4 b5 b6 b7 b8 b9 b10 b11 b12 b13 b14 b15) => let tmp := b13 ^' b2 in let b13 := (tmp >>' 19) |' (tmp <<' (64 - 19)) in let b2 := b2 -' b13 in (Locals16 b0 b1 b2 b3 b4 b5 b6 b7 b8 b9 b10 b11 b12 b13 b14 b15));
  (fun '(Locals16 b0 b1 b2 b3 b4 b5 b6 b7 b8 b9 b10 b11 b12 b13 b14 b15) => let tmp := b9 ^' b0 in let b9 := (tmp >>' 38) |' (tmp <<' (64 - 38)) in let b0 := b0 -' b9 in (Locals16 b0 b1 b2 b3 b4 b5 b6 b7 b8 b9 b10 b11 b12 b13 b14 b15));
  (* inverse of round 72 *)
  (fun '(Locals16 b0 b1 b2 b3 b4 b5 b6 b7 b8 b9 b10 b11 b12 b13 b14 b15) => let tmp := b15 ^' b14 in let b15 := (tmp >>' 37) |' (tmp <<' (64 - 37)) in let b14 := b14 -' (b15 +' k15 +' t1) in let b15 := b15 -' (k16 +' 18) in (Locals16 b0 b1 b2 b3 b4 b5 b6 b7 b8 b9 b10 b11 b12 b13 b14 b15));
  (fun '(Locals16 b0 b1 b2 b3 b4 b5 b6 b7 b8 b9 b10 b11 b12 b13 b14 b15) => let tmp := b13 ^' b12 in let b13 := (tmp >>' 22) |' (tmp <<' (64 - 22)) in let b12 := b12 -' (b13 +' k13) in let b13 := b13 -' (k14 +' t0) in (Locals16 b0 b1 b2 b3 b4 b5 b6 b7 b8 b9 b10 b11 b12 b13 b14 b15));
  (fun '(Locals16 b0 b1 b2 b3 b4 b5 b6 b7 b8 b9 b10 b11 b12 b13 b14 b15) => let tmp := b11 ^' b10 in let b11 := (tmp >>' 17) |' (tmp <<' (64 - 17)) in let b10 := b10 -' (b11 +' k11) in let b11 := b11 -' k12 in (Locals16 b0 b1 b2 b3 b4 b5 b6 b7 b8 b9 b10 b11 b12 b13 b14 b15));
  (fun '(Locals16 b0 b1 b2 b3 b4 b5 b6 b7 b8 b9 b10 b11 b12 b13 b14 b15) => let tmp := b9 ^' b8 in let b9 := (tmp >>' 8) |' (tmp <<' (64 - 8)) in let b8 := b8 -' (b9 +' k9) in let b9 := b9 -' k10 in (Locals16 b0 b1 b2 b3 b4 b5 b6 b7 b8 b9 b10 b11 b12 b13 b14 b15));
  (fun '(Locals16 b0 b1 b2 b3 b4 b5 b6 b7 b8 b9 b10 b11 b12 b13 b14 b15) => let tmp := b7 ^' b6 in let b7 := (tmp >>' 47) |' (tmp <<' (64 - 47)) in let b6 := b6 -' (b7 +' k7) in let b7 := b7 -' k8 in (Locals16 b0 b1 b2 b3 b4 b5 b6 b7 b8 b9 b10 b11 b12 b13 b14 b15));
  (fun '(Locals16 b0 b1 b2 b3 b4 b5 b6 b7 b8 b9 b10 b11 b12 b13 b14 b15) => let tmp := b5 ^' b4 in let b5 := (tmp >>' 8) |' (tmp <<' (64 - 8)) in let b4 := b4 -' (b5 +' k5) in let b5 := b5 -' k6 in (Locals16 b0 b1 b2 b3 b4 b5 b6 b7 b8 b9 b10 b11 b12 b13 b14 b15));
  (fun '(Locals16 b0 b1 b2 b3 b4 b5 b6 b7 b8 b9 b10 b11 b12 b13 b14 b15) => let tmp := b3 ^' b2 in let b3 := (tmp >>' 13) |' (tmp <<' (64 - 13)) in let b2 := b2 -' (b3 +' k3) in let b3 := b3 -' k4 in (Locals16 b0 b1 b2 b3 b4 b5 b6 b7 b8 b9 b10 b11 b12 b13 b14 b15));
  (fun '(Locals16 b0 b1 b2 b3 b4 b5 b6 b7 b8 b9 b10 b11 b12 b13 b14 b15) => let tmp := b1 ^' b0 in let b1 := (tmp >>' 24) |' (tmp <<' (64 - 24)) in let b0 := b0 -' (b1 +' k1) in let b1 := b1 -' k2 in (Locals16 b0 b1 b2 b3 b4 b5 b6 b7 b8 b9 b10 b11 b12 b13 b14 b15));
  (* inverse of round 71 *)
  (fun '(Locals16 b0 b1 b2 b3 b4 b5 b6 b7 b8 b9 b10 b11 b12 b13 b14 b15) => let tmp := b7 ^' b12 in let b7 := (tmp >>' 20) |' (tmp <<' (64 - 20)) in let b12 := b12 -' b7 in (Locals16 b0 b1 b2 b3 b4 b5 b6 b7 b8 b9 b10 b11 b12 b13 b14 b15));
  (fun '(Locals16 b0 b1 b2 b3 b4 b5 b6 b7 b8 b9 b10 b11 b12 b13 b14 b15) => let tmp := b3 ^' b10 in let b3 := (tmp >>' 37) |' (tmp <<' (64 - 37)) in let b10 := b10 -' b3 in (Locals16 b0 b1 b2 b3 b4 b5 b6 b7 b8 b9 b10 b11 b12 b13 b14 b15));
  (fun '(Locals16 b0 b1 b2 b3 b4 b5 b6 b7 b8 b9 b10 b11 b12 b13 b14 b15) => let tmp := b5 ^' b8 in let b5 := (tmp >>' 31) |' (tmp <<' (64 - 31)) in let b8 := b8 -' b5 in (Locals16 b0 b1 b2 b3 b4 b5 b6 b7 b8 b9 b10 b11 b12 b13 b14 b15));
  (fun '(Locals16 b0 b1 b2 b3 b4 b5 b6 b7 b8 b9 b10 b11 b12 b13 b14 b15) => let tmp := b1 ^' b14 in let b1 := (tmp >>' 23) |' (tmp <<' (64 - 23)) in let b14 := b14 -' b1 in (Locals16 b0 b1 b2 b3 b4 b5 b6 b7 b8 b9 b10 b11 b12 b13 b14 b15));
  (fun '(Locals16 b0 b1 b2 b3 b4 b5 b6 b7 b8 b9 b10 b11 b12 b13 b14 b15) => let tmp := b9 ^' b4 in let b9 := (tmp >>' 52) |' (tmp <<' (64 - 52)) in let b4 := b4 -' b9 in (Locals16 b0 b1 b2 b3 b4 b5 b6 b7 b8 b9 b10 b11 b12 b13 b14 b15));
  (fun '(Locals16 b0 b1 b2 b3 b4 b5 b6 b7 b8 b9 b10 b11 b12 b13 b14 b15) => let tmp := b13 ^' b6 in let b13 := (tmp >>' 35) |' (tmp <<' (64 - 35)) in let b6 := b6 -' b13 in (Locals16 b0 b1 b2 b3 b4 b5 b6 b7 b8 b9 b10 b11 b12 b13 b14 b15));
  (fun '(Locals16 b0 b1 b2 b3 b4 b5 b6 b7 b8 b9 b10 b11 b12 b13 b14 b15) => let tmp := b11 ^' b2 in let b11 := (tmp >>' 48) |' (tmp <<' (64 - 48)) in let b2 := b2 -' b11 in (Locals16 b0 b1 b2 b3 b4 b5 b6 b7 b8 b9 b10 b11 b12 b13 b14 b15));
  (fun '(Locals16 b0 b1 b2 b3 b4 b5 b6 b7 b8 b9 b10 b11 b12 b13 b14 b15) => let tmp := b15 ^' b0 in let b15 := (tmp >>' 9) |' (tmp <<' (64 - 9)) in let b0 := b0 -' b15 in (Locals16 b0 b1 b2 b3 b4 b5 b6 b7 b8 b9 b10 b11 b12 b13 b14 b15));
  (* inverse of round 70 *)
  (fun '(Locals16 b0 b1 b2 b3 b4 b5 b6 b7 b8 b9 b10 b11 b12 b13 b14 b15) => let tmp := b9 ^' b10 in let b9 := (tmp >>' 25) |' (tmp <<' (64 - 25)) in let b10 := b10 -' b9 in (Locals16 b0 b1 b2 b3 b4 b5 b6 b7 b8 b9 b10 b11 b12 b13 b14 b15));
  (fun '(Locals16 b0 b1 b2 b3 b4 b5 b6 b7 b8 b9 b10 b11 b12 b13 b14 b15) => let tmp := b11 ^' b8 in let b11 := (tmp >>' 44) |' (tmp <<' (64 - 44)) in let b8 := b8 -' b11 in (Locals16 b0 b1 b2 b3 b4 b5 b6 b7 b8 b9 b10 b11 b12 b13 b14 b15));
  (fun '(Locals16 b0 b1 b2 b3 b4 b5 b6 b7 b8 b9 b10 b11 b12 b13 b14 b15) => let tmp := b13 ^' b14 in let b13 := (tmp >>' 42) |' (tmp <<' (64 - 42)) in let b14 := b14 -' b13 in (Locals16 b0 b1 b2 b3 b4 b5 b6 b7 b8 b9 b10 b11 b12 b13 b14 b15));
  (fun '(Locals16 b0 b1 b2 b3 b4 b5 b6 b7 b8 b9 b10 b11 b12 b13 b14 b15) => let tmp := b15 ^' b12 in let b15 := (tmp >>' 19) |' (tmp <<' (64 - 19)) in let b12 := b12 -' b15 in (Locals16 b0 b1 b2 b3 b4 b5 b6 b7 b8 b9 b10 b11 b12 b13 b14 b15));
  (fun '(Locals16 b0 b1 b2 b3 b4 b5 b6 b7 b8 b9 b10 b11 b12 b13 b14 b15) => let tmp := b1 ^' b6 in let b1 := (tmp >>' 46) |' (tmp <<' (64 - 46)) in let b6 := b6 -' b1 in (Locals16 b0 b1 b2 b3 b4 b5 b6 b7 b8 b9 b10 b11 b12 b13 b14 b15));
  (fun '(Locals16 b0 b1 b2 b3 b4 b5 b6 b7 b8 b9 b10 b11 b12 b13 b14 b15) => let tmp := b3 ^' b4 in let b3 := (tmp >>' 47) |' (tmp <<' (64 - 47)) in let b4 := b4 -' b3 in (Locals16 b0 b1 b2 b3 b4 b5 b6 b7 b8 b9 b10 b11 b12 b13 b14 b15));
  (fun '(Locals16 b0 b1 b2 b3 b4 b5 b6 b7 b8 b9 b10 b11 b12 b13 b14 b15) => let tmp := b5 ^' b2 in let b5 := (tmp >>' 44) |' (tmp <<' (64 - 44)) in let b2 := b2 -' b5 in (Locals16 b0 b1 b2 b3 b4 b5 b6 b7 b8 b9 b10 b11 b12 b13 b14 b15));
  (fun '(Locals16 b0 b1 b2 b3 b4 b5 b6 b7 b8 b9 b10 b11 b12 b13 b14 b15) => let tmp := b7 ^' b0 in let b7 := (tmp >>' 31) |' (tmp <<' (64 - 31)) in let b0 := b0 -' b7 in (Locals16 b0 b1 b2 b3 b4 b5 b6 b7 b8 b9 b10 b11 b12 b13 b14 b15));
  (* inverse of round 69 *)
  (fun '(Locals16 b0 b1 b2 b3 b4 b5 b6 b7 b8 b9 b10 b11 b12 b13 b14 b15) => let tmp := b1 ^' b8 in let b1 := (tmp >>' 41) |' (tmp <<' (64 - 41)) in let b8 := b8 -' b1 in (Locals16 b0 b1 b2 b3 b4 b5 b6 b7 b8 b9 b10 b11 b12 b13 b14 b15));
  (fun '(Locals16 b0 b1 b2 b3 b4 b5 b6 b7 b8 b9 b10 b11 b12 b13 b14 b15) => let tmp := b5 ^' b14 in let b5 := (tmp >>' 42) |' (tmp <<' (64 - 42)) in let b14 := b14 -' b5 in (Locals16 b0 b1 b2 b3 b4 b5 b6 b7 b8 b9 b10 b11 b12 b13 b14 b15));
  (fun '(Locals16 b0 b1 b2 b3 b4 b5 b6 b7 b8 b9 b10 b11 b12 b13 b14 b15) => let tmp := b3 ^' b12 in let b3 := (tmp >>' 53) |' (tmp <<' (64 - 53)) in let b12 := b12 -' b3 in (Locals16 b0 b1 b2 b3 b4 b5 b6 b7 b8 b9 b10 b11 b12 b13 b14 b15));
  (fun '(Locals16 b0 b1 b2 b3 b4 b5 b6 b7 b8 b9 b10 b11 b12 b13 b14 b15) => let tmp := b7 ^' b10 in let b7 := (tmp >>' 4) |' (tmp <<' (64 - 4)) in let b10 := b10 -' b7 in (Locals16 b0 b1 b2 b3 b4 b5 b6 b7 b8 b9 b10 b11 b12 b13 b14 b15));
  (fun '(Locals16 b0 b1 b2 b3 b4 b5 b6 b7 b8 b9 b10 b11 b12 b13 b14 b15) => let tmp := b15 ^' b4 in let b15 := (tmp >>' 51) |' (tmp <<' (64 - 51)) in let b4 := b4 -' b15 in (Locals16 b0 b1 b2 b3 b4 b5 b6 b7 b8 b9 b10 b11 b12 b13 b14 b15));
  (fun '(Locals16 b0 b1 b2 b3 b4 b5 b6 b7 b8 b9 b10 b11 b12 b13 b14 b15) => let tmp := b11 ^' b6 in let b11 := (tmp >>' 56) |' (tmp <<' (64 - 56)) in let b6 := b6 -' b11 in (Locals16 b0 b1 b2 b3 b4 b5 b6 b7 b8 b9 b10 b11 b12 b13 b14 b15));
  (fun '(Locals16 b0 b1 b2 b3 b4 b5 b6 b7 b8 b9 b10 b11 b12 b13 b14 b15) => let tmp := b13 ^' b2 in let b13 := (tmp >>' 34) |' (tmp <<' (64 - 34)) in let b2 := b2 -' b13 in (Locals16 b0 b1 b2 b3 b4 b5 b6 b7 b8 b9 b10 b11 b12 b13 b14 b15));
  (fun '(Locals16 b0 b1 b2 b3 b4 b5 b6 b7 b8 b9 b10 b11 b12 b13 b14 b15) => let tmp := b9 ^' b0 in let b9 := (tmp >>' 16) |' (tmp <<' (64 - 16)) in let b0 := b0 -' b9 in (Locals16 b0 b1 b2 b3 b4 b5 b6 b7 b8 b9 b10 b11 b12 b13 b14 b15));
  (* inverse of round 68 *)
  (fun '(Locals16 b0 b1 b2 b3 b4 b5 b6 b7 b8 b9 b10 b11 b12 b13 b14 b15) => let tmp := b15 ^' b14 in let b15 := (tmp >>' 30) |' (tmp <<' (64 - 30)) in let b14 := b14 -' (b15 +' k14 +' t0) in let b15 := b15 -' (k15 +' 17) in (Locals16 b0 b1 b2 b3 b4 b5 b6 b7 b8 b9 b10 b11 b12 b13 b14 b15));
  (fun '(Locals16 b0 b1 b2 b3 b4 b5 b6 b7 b8 b9 b10 b11 b12 b13 b14 b15) => let tmp := b13 ^' b12 in let b13 := (tmp >>' 44) |' (tmp <<' (64 - 44)) in let b12 := b12 -' (b13 +' k12) in let b13 := b13 -' (k13 +' t2) in (Locals16 b0 b1 b2 b3 b4 b5 b6 b7 b8 b9 b10 b11 b12 b13 b14 b15));
  (fun '(Locals16 b0 b1 b2 b3 b4 b5 b6 b7 b8 b9 b10 b11 b12 b13 b14 b15) => let tmp := b11 ^' b10 in let b11 := (tmp >>' 47) |' (tmp <<' (64 - 47)) in let b10 := b10 -' (b11 +' k10) in let b11 := b11 -' k11 in (Locals16 b0 b1 b2 b3 b4 b5 b6 b7 b8 b9 b10 b11 b12 b13 b14 b15));
  (fun '(Locals16 b0 b1 b2 b3 b4 b5 b6 b7 b8 b9 b10 b11 b12 b13 b14 b15) => let tmp := b9 ^' b8 in let b9 := (tmp >>' 12) |' (tmp <<' (64 - 12)) in let b8 := b8 -' (b9 +' k8) in let b9 := b9 -' k9 in (Locals16 b0 b1 b2 b3 b4 b5 b6 b7 b8 b9 b10 b11 b12 b13 b14 b15));
  (fun '(Locals16 b0 b1 b2 b3 b4 b5 b6 b7 b8 b9 b10 b11 b12 b13 b14 b15) => let tmp := b7 ^' b6 in let b7 := (tmp >>' 31) |' (tmp <<' (64 - 31)) in let b6 := b6 -' (b7 +' k6) in let b7 := b7 -' k7 in (Locals16 b0 b1 b2 b3 b4 b5 b6 b7 b8 b9 b10 b11 b12 b13 b14 b15));
  (fun '(Locals16 b0 b1 b2 b3 b4 b5 b6 b7 b8 b9 b10 b11 b12 b13 b14 b15) => let tmp := b5 ^' b4 in let b5 := (tmp >>' 37) |' (tmp <<' (64 - 37)) in let b4 := b4 -' (b5 +' k4) in let b5 := b5 -' k5 in (Locals16 b0 b1 b2 b3 b4 b5 b6 b7 b8 b9 b10 b11 b12 b13 b14 b15));
  (fun '(Locals16 b0 b1 b2 b3 b4 b5 b6 b7 b8 b9 b10 b11 b12 b13 b14 b15) => let tmp := b3 ^' b2 in let b3 := (tmp >>' 9) |' (tmp <<' (64 - 9)) in let b2 := b2 -' (b3 +' k2) in let b3 := b3 -' k3 in (Locals16 b0 b1 b2 b3 b4 b5 b6 b7 b8 b9 b10 b11 b12 b13 b14 b15));
  (fun '(Locals16 b0 b1 b2 b3 b4 b5 b6 b7 b8 b9 b10 b11 b12 b13 b14 b15) => let tmp := b1 ^' b0 in let b1 := (tmp >>' 41) |' (tmp <<' (64 - 41)) in let b0 := b0 -' (b1 +' k0) in let b1 := b1 -' k1 in (Locals16 b0 b1 b2 b3 b4 b5 b6 b7 b8 b9 b10 b11 b12 b13 b14 b15));
  (* inverse of round 67 *)
  (fun '(Locals16 b0 b1 b2 b3 b4 b5 b6 b7 b8 b9 b10 b11 b12 b13 b14 b15) => let tmp := b7 ^' b12 in let b7 := (tmp >>' 25) |' (tmp <<' (64 - 25)) in let b12 := b12 -' b7 in (Locals16 b0 b1 b2 b3 b4 b5 b6 b7 b8 b9 b10 b11 b12 b13 b14 b15));
  (fun '(Locals16 b0 b1 b2 b3 b4 b5 b6 b7 b8 b9 b10 b11 b12 b13 b14 b15) => let tmp := b3 ^' b10 in let b3 := (tmp >>' 16) |' (tmp <<' (64 - 16)) in let b10 := b10 -' b3 in (Locals16 b0 b1 b2 b3 b4 b5 b6 b7 b8 b9 b10 b11 b12 b13 b14 b15));
  (fun '(Locals16 b0 b1 b2 b3 b4 b5 b6 b7 b8 b9 b10 b11 b12 b13 b14 b15) => let tmp := b5 ^' b8 in let b5 := (tmp >>' 28) |' (tmp <<' (64 - 28)) in let b8 := b8 -' b5 in (Locals16 b0 b1 b2 b3 b4 b5 b6 b7 b8 b9 b10 b11 b12 b13 b14 b15));
  (fun '(Locals16 b0 b1 b2 b3 b4 b5 b6 b7 b8 b9 b10 b11 b12 b13 b14 b15) => let tmp := b1 ^' b14 in let b1 := (tmp >>' 47) |' (tmp <<' (64 - 47)) in let b14 := b14 -' b1 in (Locals16 b0 b1 b2 b3 b4 b5 b6 b7 b8 b9 b10 b11 b12 b13 b14 b15));
  (fun '(Locals16 b0 b1 b2 b3 b4 b5 b6 b7 b8 b9 b10 b11 b12 b13 b14 b15) => let tmp := b9 ^' b4 in let b9 := (tmp >>' 41) |' (tmp <<' (64 - 41)) in let b4 := b4 -' b9 in (Locals16 b0 b1 b2 b3 b4 b5 b6 b7 b8 b9 b10 b11 b12 b13 b14 b15));
  (fun '(Locals16 b0 b1 b2 b3 b4 b5 b6 b7 b8 b9 b10 b11 b12 b13 b14 b15) => let tmp := b13 ^' b6 in let b13 := (tmp >>' 48) |' (tmp <<' (64 - 48)) in let b6 := b6 -' b13 in (Locals16 b0 b1 b2 b3 b4 b5 b6 b7 b8 b9 b10 b11 b12 b13 b14 b15));
  (fun '(Locals16 b0 b1 b2 b3 b4 b5 b6 b7 b8 b9 b10 b11 b12 b13 b14 b15) => let tmp := b11 ^' b2 in let b11 := (tmp >>' 20) |' (tmp <<' (64 - 20)) in let b2 := b2 -' b11 in (Locals16 b0 b1 b2 b3 b4 b5 b6 b7 b8 b9 b10 b11 b12 b13 b14 b15));
  (fun '(Locals16 b0 b1 b2 b3 b4 b5 b6 b7 b8 b9 b10 b11 b12 b13 b14 b15) => let tmp := b15 ^' b0 in let b15 := (tmp >>' 5) |' (tmp <<' (64 - 5)) in let b0 := b0 -' b15 in (Locals16 b0 b1 b2 b3 b4 b5 b6 b7 b8 b9 b10 b11 b12 b13 b14 b15));
  (* inverse of round 66 *)
  (fun '(Locals16 b0 b1 b2 b3 b4 b5 b6 b7 b8 b9 b10 b11 b12 b13 b14 b15) => let tmp := b9 ^' b10 in let b9 := (tmp >>' 17) |' (tmp <<' (64 - 17)) in let b10 := b10 -' b9 in (Locals16 b0 b1 b2 b3 b4 b5 b6 b7 b8 b9 b10 b11 b12 b13 b14 b15));
  (fun '(Locals16 b0 b1 b2 b3 b4 b5 b6 b7 b8 b9 b10 b11 b12 b13 b14 b15) => let tmp := b11 ^' b8 in let b11 := (tmp >>' 59) |' (tmp <<' (64 - 59)) in let b8 := b8 -' b11 in (Locals16 b0 b1 b2 b3 b4 b5 b6 b7 b8 b9 b10 b11 b12 b13 b14 b15));
  (fun '(Locals16 b0 b1 b2 b3 b4 b5 b6 b7 b8 b9 b10 b11 b12 b13 b14 b15) => let tmp := b13 ^' b14 in let b13 := (tmp >>' 41) |' (tmp <<' (64 - 41)) in let b14 := b14 -' b13 in (Locals16 b0 b1 b2 b3 b4 b5 b6 b7 b8 b9 b10 b11 b12 b13 b14 b15));
  (fun '(Locals16 b0 b1 b2 b3 b4 b5 b6 b7 b8 b9 b10 b11 b12 b13 b14 b15) => let tmp := b15 ^' b12 in let b15 := (tmp >>' 34) |' (tmp <<' (64 - 34)) in let b12 := b12 -' b15 in (Locals16 b0 b1 b2 b3 b4 b5 b6 b7 b8 b9 b10 b11 b12 b13 b14 b15));
  (fun '(Locals16 b0 b1 b2 b3 b4 b5 b6 b7 b8 b9 b10 b11 b12 b13 b14 b15) => let tmp := b1 ^' b6 in let b1 := (tmp >>' 13) |' (tmp <<' (64 - 13)) in let b6 := b6 -' b1 in (Locals16 b0 b1 b2 b3 b4 b5 b6 b7 b8 b9 b10 b11 b12 b13 b14 b15));
  (fun '(Locals16 b0 b1 b2 b3 b4 b5 b6 b7 b8 b9 b10 b11 b12 b13 b14 b15) => let tmp := b3 ^' b4 in let b3 := (tmp >>' 51) |' (tmp <<' (64 - 51)) in let b4 := b4 -' b3 in (Locals16 b0 b1 b2 b3 b4 b5 b6 b7 b8 b9 b10 b11 b12 b13 b14 b15));
  (fun '(Locals16 b0 b1 b2 b3 b4 b5 b6 b7 b8 b9 b10 b11 b12 b13 b14 b15) => let tmp := b5 ^' b2 in let b5 := (tmp >>' 4) |' (tmp <<' (64 - 4)) in let b2 := b2 -' b5 in (Locals16 b0 b1 b2 b3 b4 b5 b6 b7 b8 b9 b10 b11 b12 b13 b14 b15));
  (fun '(Locals16 b0 b1 b2 b3 b4 b5 b6 b7 b8 b9 b10 b11 b12 b13 b14 b15) => let tmp := b7 ^' b0 in let b7 := (tmp >>' 33) |' (tmp <<' (64 - 33)) in let b0 := b0 -' b7 in (Locals16 b0 b1 b2 b3 b4 b5 b6 b7 b8 b9 b10 b11 b12 b13 b14 b15));
  (* inverse of round 65 *)
  (fun '(Locals16 b0 b1 b2 b3 b4 b5 b6 b7 b8 b9 b10 b11 b12 b13 b14 b15) => let tmp := b1 ^' b8 in let b1 := (tmp >>' 52) |' (tmp <<' (64 - 52)) in let b8 := b8 -' b1 in (Locals16 b0 b1 b2 b3 b4 b5 b6 b7 b8 b9 b10 b11 b12 b13 b14 b15));
  (fun '(Locals16 b0 b1 b2 b3 b4 b5 b6 b7 b8 b9 b10 b11 b12 b13 b14 b15) => let tmp := b5 ^' b14 in let b5 := (tmp >>' 23) |' (tmp <<' (64 - 23)) in let b14 := b14 -' b5 in (Locals16 b0 b1 b2 b3 b4 b5 b6 b7 b8 b9 b10 b11 b12 b13 b14 b15));
  (fun '(Locals16 b0 b1 b2 b3 b4 b5 b6 b7 b8 b9 b10 b11 b12 b13 b14 b15) => let tmp := b3 ^' b12 in let b3 := (tmp >>' 18) |' (tmp <<' (64 - 18)) in let b12 := b12 -' b3 in (Locals16 b0 b1 b2 b3 b4 b5 b6 b7 b8 b9 b10 b11 b12 b13 b14 b15));
  (fun '(Locals16 b0 b1 b2 b3 b4 b5 b6 b7 b8 b9 b10 b11 b12 b13 b14 b15) => let tmp := b7 ^' b10 in let b7 := (tmp >>' 49) |' (tmp <<' (64 - 49)) in let b10 := b10 -' b7 in (Locals16 b0 b1 b2 b3 b4 b5 b6 b7 b8 b9 b10 b11 b12 b13 b14 b15));
  (fun '(Locals16 b0 b1 b2 b3 b4 b5 b6 b7 b8 b9 b10 b11 b12 b13 b14 b15) => let tmp := b15 ^' b4 in let b15 := (tmp >>' 55) |' (tmp <<' (64 - 55)) in let b4 := b4 -' b15 in (Locals16 b0 b1 b2 b3 b4 b5 b6 b7 b8 b9 b10 b11 b12 b13 b14 b15));
  (fun '(Locals16 b0 b1 b2 b3 b4 b5 b6 b7 b8 b9 b10 b11 b12 b13 b14 b15) => let tmp := b11 ^' b6 in let b11 := (tmp >>' 10) |' (tmp <<' (64 - 10)) in let b6 := b6 -' b11 in (Locals16 b0 b1 b2 b3 b4 b5 b6 b7 b8 b9 b10 b11 b12 b13 b14 b15));
  (fun '(Locals16 b0 b1 b2 b3 b4 b5 b6 b7 b8 b9 b10 b11 b12 b13 b14 b15) => let tmp := b13 ^' b2 in let b13 := (tmp >>' 19) |' (tmp <<' (64 - 19)) in let b2 := b2 -' b13 in (Locals16 b0 b1 b2 b3 b4 b5 b6 b7 b8 b9 b10 b11 b12 b13 b14 b15));
  (fun '(Locals16 b0 b1 b2 b3 b4 b5 b6 b7 b8 b9 b10 b11 b12 b13 b14 b15) => let tmp := b9 ^' b0 in let b9 := (tmp >>' 38) |' (tmp <<' (64 - 38)) in let b0 := b0 -' b9 in (Locals16 b0 b1 b2 b3 b4 b5 b6 b7 b8 b9 b10 b11 b12 b13 b14 b15));
  (* inverse of round 64 *)
  (fun '(Locals16 b0 b1 b2 b3 b4 b5 b6 b7 b8 b9 b10 b11 b12 b13 b14 b15) => let tmp := b15 ^' b14 in let b15 := (tmp >>' 37) |' (tmp <<' (64 - 37)) in let b14 := b14 -' (b15 +' k13 +' t2) in let b15 := b15 -' (k14 +' 16) in (Locals16 b0 b1 b2 b3 b4 b5 b6 b7 b8 b9 b10 b11 b12 b13 b14 b15));
  (fun '(Locals16 b0 b1 b2 b3 b4 b5 b6 b7 b8 b9 b10 b11 b12 b13 b14 b15) => let tmp := b13 ^' b12 in let b13 := (tmp >>' 22) |' (tmp <<' (64 - 22)) in let b12 := b12 -' (b13 +' k11) in let b13 := b13 -' (k12 +' t1) in (Locals16 b0 b1 b2 b3 b4 b5 b6 b7 b8 b9 b10 b11 b12 b13 b14 b15));
  (fun '(Locals16 b0 b1 b2 b3 b4 b5 b6 b7 b8 b9 b10 b11 b12 b13 b14 b15) => let tmp := b11 ^' b10 in let b11 := (tmp >>' 17) |' (tmp <<' (64 - 17)) in let b10 := b10 -' (b11 +' k9) in let b11 := b11 -' k10 in (Locals16 b0 b1 b2 b3 b4 b5 b6 b7 b8 b9 b10 b11 b12 b13 b14 b15));
  (fun '(Locals16 b0 b1 b2 b3 b4 b5 b6 b7 b8 b9 b10 b11 b12 b13 b14 b15) => let tmp := b9 ^' b8 in let b9 := (tmp >>' 8) |' (tmp <<' (64 - 8)) in let b8 := b8 -' (b9 +' k7) in let b9 := b9 -' k8 in (Locals16 b0 b1 b2 b3 b4 b5 b6 b7 b8 b9 b10 b11 b12 b13 b14 b15));
  (fun '(Locals16 b0 b1 b2 b3 b4 b5 b6 b7 b8 b9 b10 b11 b12 b13 b14 b15) => let tmp := b7 ^' b6 in let b7 := (tmp >>' 47) |' (tmp <<' (64 - 47)) in let b6 := b6 -' (b7 +' k5) in let b7 := b7 -' k6 in (Locals16 b0 b1 b2 b3 b4 b5 b6 b7 b8 b9 b10 b11 b12 b13 b14 b15));
  (fun '(Locals16 b0 b1 b2 b3 b4 b5 b6 b7 b8 b9 b10 b11 b12 b13 b14 b15) => let tmp := b5 ^' b4 in let b5 := (tmp >>' 8) |' (tmp <<' (64 - 8)) in let b4 := b4 -' (b5 +' k3) in let b5 := b5 -' k4 in (Locals16 b0 b1 b2 b3 b4 b5 b6 b7 b8 b9 b10 b11 b12 b13 b14 b15));
  (fun '(Locals16 b0 b1 b2 b3 b4 b5 b6 b7 b8 b9 b10 b11 b12 b13 b14 b15) => let tmp := b3 ^' b2 in let b3 := (tmp >>' 13) |' (tmp <<' (64 - 13)) in let b2 := b2 -' (b3 +' k1) in let b3 := b3 -' k2 in (Locals16 b0 b1 b2 b3 b4 b5 b6 b7 b8 b9 b10 b11 b12 b13 b14 b15));
  (fun '(Locals16 b0 b1 b2 b3 b4 b5 b6 b7 b8 b9 b10 b11 b12 b13 b14 b15) => let tmp := b1 ^' b0 in let b1 := (tmp >>' 24) |' (tmp <<' (64 - 24)) in let b0 := b0 -' (b1 +' k16) in let b1 := b1 -' k0 in (Locals16 b0 b1 b2 b3 b4 b5 b6 b7 b8 b9 b10 b11 b12 b13 b14 b15));
  (* inverse of round 63 *)
  (fun '(Locals16 b0 b1 b2 b3 b4 b5 b6 b7 b8 b9 b10 b11 b12 b13 b14 b15) => let tmp := b7 ^' b12 in let b7 := (tmp >>' 20) |' (tmp <<' (64 - 20)) in let b12 := b12 -' b7 in (Locals16 b0 b1 b2 b3 b4 b5 b6 b7 b8 b9 b10 b11 b12 b13 b14 b15));
  (fun '(Locals16 b0 b1 b2 b3 b4 b5 b6 b7 b8 b9 b10 b11 b12 b13 b14 b15) => let tmp := b3 ^' b10 in let b3 := (tmp >>' 37) |' (tmp <<' (64 - 37)) in let b10 := b10 -' b3 in (Locals16 b0 b1 b2 b3 b4 b5 b6 b7 b8 b9 b10 b11 b12 b13 b14 b15));
  (fun '(Locals16 b0 b1 b2 b3 b4 b5 b6 b7 b8 b9 b10 b11 b12 b13 b14 b15) => let tmp := b5 ^' b8 in let b5 := (tmp >>' 31) |' (tmp <<' (64 - 31)) in let b8 := b8 -' b5 in (Locals16 b0 b1 b2 b3 b4 b5 b6 b7 b8 b9 b10 b11 b12 b13 b14 b15));
  (fun '(Locals16 b0 b1 b2 b3 b4 b5 b6 b7 b8 b9 b10 b11 b12 b13 b14 b15) => let tmp := b1 ^' b14 in let b1 := (tmp >>' 23) |' (tmp <<' (64 - 23)) in let b14 := b14 -' b1 in (Locals16 b0 b1 b2 b3 b4 b5 b6 b7 b8 b9 b10 b11 b12 b13 b14 b15));
  (fun '(Locals16 b0 b1 b2 b3 b4 b5 b6 b7 b8 b9 b10 b11 b12 b13 b14 b15) => let tmp := b9 ^' b4 in let b9 := (tmp >>' 52) |' (tmp <<' (64 - 52)) in let b4 := b4 -' b9 in (Locals16 b0 b1 b2 b3 b4 b5 b6 b7 b8 b9 b10 b11 b12 b13 b14 b15));
  (fun '(Locals16 b0 b1 b2 b3 b4 b5 b6 b7 b8 b9 b10 b11 b12 b13 b14 b15) => let tmp := b13 ^' b6 in let b13 := (tmp >>' 35) |' (tmp <<' (64 - 35)) in let b6 := b6 -' b13 in (Locals16 b0 b1 b2 b3 b4 b5 b6 b7 b8 b9 b10 b11 b12 b13 b14 b15));
  (fun '(Locals16 b0 b1 b2 b3 b4 b5 b6 b7 b8 b9 b10 b11 b12 b13 b14 b15) => let tmp := b11 ^' b2 in let b11 := (tmp >>' 48) |' (tmp <<' (64 - 48)) in let b2 := b2 -' b11 in (Locals16 b0 b1 b2 b3 b4 b5 b6 b7 b8 b9 b10 b11 b12 b13 b14 b15));
  (fun '(Locals16 b0 b1 b2 b3 b4 b5 b6 b7 b8 b9 b10 b11 b12 b13 b14 b15) => let tmp := b15 ^' b0 in let b15 := (tmp >>' 9) |' (tmp <<' (64 - 9)) in let b0 := b0 -' b15 in (Locals16 b0 b1 b2 b3 b4 b5 b6 b7 b8 b9 b10 b11 b12 b13 b14 b15));
  (* inverse of round 62 *)
  (fun '(Locals16 b0 b1 b2 b3 b4 b5 b6 b7 b8 b9 b10 b11 b12 b13 b14 b15) => let tmp := b9 ^' b10 in let b9 := (tmp >>' 25) |' (tmp <<' (64 - 25)) in let b10 := b10 -' b9 in (Locals16 b0 b1 b2 b3 b4 b5 b6 b7 b8 b9 b10 b11 b12 b13 b14 b15));
  (fun '(Locals16 b0 b1 b2 b3 b4 b5 b6 b7 b8 b9 b10 b11 b12 b13 b14 b15) => let tmp := b11 ^' b8 in let b11 := (tmp >>' 44) |' (tmp <<' (64 - 44)) in let b8 := b8 -' b11 in (Locals16 b0 b1 b2 b3 b4 b5 b6 b7 b8 b9 b10 b11 b12 b13 b14 b15));
  (fun '(Locals16 b0 b1 b2 b3 b4 b5 b6 b7 b8 b9 b10 b11 b12 b13 b14 b15) => let tmp := b13 ^' b14 in let b13 := (tmp >>' 42) |' (tmp <<' (64 - 42)) in let b14 := b14 -' b13 in (Locals16 b0 b1 b2 b3 b4 b5 b6 b7 b8 b9 b10 b11 b12 b13 b14 b15));
  (fun '(Locals16 b0 b1 b2 b3 b4 b5 b6 b7 b8 b9 b10 b11 b12 b13 b14 b15) => let tmp := b15 ^' b12 in let b15 := (tmp >>' 19) |' (tmp <<' (64 - 19)) in let b12 := b12 -' b15 in (Locals16 b0 b1 b2 b3 b4 b5 b6 b7 b8 b9 b10 b11 b12 b13 b14 b15));
  (fun '(Locals16 b0 b1 b2 b3 b4 b5 b6 b7 b8 b9 b10 b11 b12 b13 b14 b15) => let tmp := b1 ^' b6 in let b1 := (tmp >>' 46) |' (tmp <<' (64 - 46)) in let b6 := b6 -' b1 in (Locals16 b0 b1 b2 b3 b4 b5 b6 b7 b8 b9 b10 b11 b12 b13 b14 b15));
  (fun '(Locals16 b0 b1 b2 b3 b4 b5 b6 b7 b8 b9 b10 b11 b12 b13 b14 b15) => let tmp := b3 ^' b4 in let b3 := (tmp >>' 47) |' (tmp <<' (64 - 47)) in let b4 := b4 -' b3 in (Locals16 b0 b1 b2 b3 b4 b5 b6 b7 b8 b9 b10 b11 b12 b13 b14 b15));
  (fun '(Locals16 b0 b1 b2 b3 b4 b5 b6 b7 b8 b9 b10 b11 b12 b13 b14 b15) => let tmp := b5 ^' b2 in let b5 := (tmp >>' 44) |' (tmp <<' (64 - 44)) in let b2 := b2 -' b5 in (Locals16 b0 b1 b2 b3 b4 b5 b6 b7 b8 b9 b10 b11 b12 b13 b14 b15));
  (fun '(Locals16 b0 b1 b2 b3 b4 b5 b6 b7 b8 b9 b10 b11 b12 b13 b14 b15) => let tmp := b7 ^' b0 in let b7 := (tmp >>' 31) |' (tmp <<' (64 - 31)) in let b0 := b0 -' b7 in (Locals16 b0 b1 b2 b3 b4 b5 b6 b7 b8 b9 b10 b11 b12 b13 b14 b15));
  (* inverse of round 61 *)
  (fun '(Locals16 b0 b1 b2 b3 b4 b5 b6 b7 b8 b9 b10 b11 b12 b13 b14 b15) => let tmp := b1 ^' b8 in let b1 := (tmp >>' 41) |' (tmp <<' (64 - 41)) in let b8 := b8 -' b1 in (Locals16 b0 b1 b2 b3 b4 b5 b6 b7 b8 b9 b10 b11 b12 b13 b14 b15));
  (fun '(Locals16 b0 b1 b2 b3 b4 b5 b6 b7 b8 b9 b10 b11 b12 b13 b14 b15) => let tmp := b5 ^' b14 in let b5 := (tmp >>' 42) |' (tmp <<' (64 - 42)) in let b14 := b14 -' b5 in (Locals16 b0 b1 b2 b3 b4 b5 b6 b7 b8 b9 b10 b11 b12 b13 b14 b15));
  (fun '(Locals16 b0 b1 b2 b3 b4 b5 b6 b7 b8 b9 b10 b11 b12 b13 b14 b15) => let tmp := b3 ^' b12 in let b3 := (tmp >>' 53) |' (tmp <<' (64 - 53)) in let b12 := b12 -' b3 in (Locals16 b0 b1 b2 b3 b4 b5 b6 b7 b8 b9 b10 b11 b12 b13 b14 b15));
  (fun '(Locals16 b0 b1 b2 b3 b4 b5 b6 b7 b8 b9 b10 b11 b12 b13 b14 b15) => let tmp := b7 ^' b10 in let b7 := (tmp >>' 4) |' (tmp <<' (64 - 4)) in let b10 := b10 -' b7 in (Locals16 b0 b1 b2 b3 b4 b5 b6 b7 b8 b9 b10 b11 b12 b13 b14 b15));
  (fun '(Locals16 b0 b1 b2 b3 b4 b5 b6 b7 b8 b9 b10 b11 b12 b13 b14 b15) => let tmp := b15 ^' b4 in let b15 := (tmp >>' 51) |' (tmp <<' (64 - 51)) in let b4 := b4 -' b15 in (Locals16 b0 b1 b2 b3 b4 b5 b6 b7 b8 b9 b10 b11 b12 b13 b14 b15));
  (fun '(Locals16 b0 b1 b2 b3 b4 b5 b6 b7 b8 b9 b10 b11 b12 b13 b14 b15) => let tmp := b11 ^' b6 in let b11 := (tmp >>' 56) |' (tmp <<' (64 - 56)) in let b6 := b6 -' b11 in (Locals16 b0 b1 b2 b3 b4 b5 b6 b7 b8 b9 b10 b11 b12 b13 b14 b15));
  (fun '(Locals16 b0 b1 b2 b3 b4 b5 b6 b7 b8 b9 b10 b11 b12 b13 b14 b15) => let tmp := b13 ^' b2 in let b13 := (tmp >>' 34) |' (tmp <<' (64 - 34)) in let b2 := b2 -' b13 in (Locals16 b0 b1 b2 b3 b4 b5 b6 b7 b8 b9 b10 b11 b12 b13 b14 b15));
  (fun '(Locals16 b0 b1 b2 b3 b4 b5 b6 b7 b8 b9 b10 b11 b12 b13 b14 b15) => let tmp := b9 ^' b0 in let b9 := (tmp >>' 16) |' (tmp <<' (64 - 16)) in let b0 := b0 -' b9 in (Locals16 b0 b1 b2 b3 b4 b5 b6 b7 b8 b9 b10 b11 b12 b13 b14 b15));
  (* inverse of round 60 *)
  (fun '(Locals16 b0 b1 b2 b3 b4 b5 b6 b7 b8 b9 b10 b11 b12 b13 b14 b15) => let tmp := b15 ^' b14 in let b15 := (tmp >>' 30) |' (tmp <<' (64 - 30)) in let b14 := b14 -' (b15 +' k12 +' t1) in let b15 := b15 -' (k13 +' 15) in (Locals16 b0 b1 b2 b3 b4 b5 b6 b7 b8 b9 b10 b11 b12 b13 b14 b15));
  (fun '(Locals16 b0 b1 b2 b3 b4 b5 b6 b7 b8 b9 b10 b11 b12 b13 b14 b15) => let tmp := b13 ^' b12 in let b13 := (tmp >>' 44) |' (tmp <<' (64 - 44)) in let b12 := b12 -' (b13 +' k10) in let b13 := b13 -' (k11 +' t0) in (Locals16 b0 b1 b2 b3 b4 b5 b6 b7 b8 b9 b10 b11 b12 b13 b14 b15));
  (fun '(Locals16 b0 b1 b2 b3 b4 b5 b6 b7 b8 b9 b10 b11 b12 b13 b14 b15) => let tmp := b11 ^' b10 in let b11 := (tmp >>' 47) |' (tmp <<' (64 - 47)) in let b10 := b10 -' (b11 +' k8) in let b11 := b11 -' k9 in (Locals16 b0 b1 b2 b3 b4 b5 b6 b7 b8 b9 b10 b11 b12 b13 b14 b15));
  (fun '(Locals16 b0 b1 b2 b3 b4 b5 b6 b7 b8 b9 b10 b11 b12 b13 b14 b15) => let tmp := b9 ^' b8 in let b9 := (tmp >>' 12) |' (tmp <<' (64 - 12)) in let b8 := b8 -' (b9 +' k6) in let b9 := b9 -' k7 in (Locals16 b0 b1 b2 b3 b4 b5 b6 b7 b8 b9 b10 b11 b12 b13 b14 b15));
  (fun '(Locals16 b0 b1 b2 b3 b4 b5 b6 b7 b8 b9 b10 b11 b12 b13 b14 b15) => let tmp := b7 ^' b6 in let b7 := (tmp >>' 31) |' (tmp <<' (64 - 31)) in let b6 := b6 -' (b7 +' k4) in let b7 := b7 -' k5 in (Locals16 b0 b1 b2 b3 b4 b5 b6 b7 b8 b9 b10 b11 b12 b13 b14 b15));
  (fun '(Locals16 b0 b1 b2 b3 b4 b5 b6 b7 b8 b9 b10 b11 b12 b13 b14 b15) => let tmp := b5 ^' b4 in let b5 := (tmp >>' 37) |' (tmp <<' (64 - 37)) in let b4 := b4 -' (b5 +' k2) in let b5 := b5 -' k3 in (Locals16 b0 b1 b2 b3 b4 b5 b6 b7 b8 b9 b10 b11 b12 b13 b14 b15));
  (fun '(Locals16 b0 b1 b2 b3 b4 b5 b6 b7 b8 b9 b10 b11 b12 b13 b14 b15) => let tmp := b3 ^' b2 in let b3 := (tmp >>' 9) |' (tmp <<' (64 - 9)) in let b2 := b2 -' (b3 +' k0) in let b3 := b3 -' k1 in (Locals16 b0 b1 b2 b3 b4 b5 b6 b7 b8 b9 b10 b11 b12 b13 b14 b15));
  (fun '(Locals16 b0 b1 b2 b3 b4 b5 b6 b7 b8 b9 b10 b11 b12 b13 b14 b15) => let tmp := b1 ^' b0 in let b1 := (tmp >>' 41) |' (tmp <<' (64 - 41)) in let b0 := b0 -' (b1 +' k15) in let b1 := b1 -' k16 in (Locals16 b0 b1 b2 b3 b4 b5 b6 b7 b8 b9 b10 b11 b12 b13 b14 b15));
  (* inverse of round 59 *)
  (fun '(Locals16 b0 b1 b2 b3 b4 b5 b6 b7 b8 b9 b10 b11 b12 b13 b14 b15) => let tmp := b7 ^' b12 in let b7 := (tmp >>' 25) |' (tmp <<' (64 - 25)) in let b12 := b12 -' b7 in (Locals16 b0 b1 b2 b3 b4 b5 b6 b7 b8 b9 b10 b11 b12 b13 b14 b15));
  (fun '(Locals16 b0 b1 b2 b3 b4 b5 b6 b7 b8 b9 b10 b11 b12 b13 b14 b15) => let tmp := b3 ^' b10 in let b3 := (tmp >>' 16) |' (tmp <<' (64 - 16)) in let b10 := b10 -' b3 in (Locals16 b0 b1 b2 b3 b4 b5 b6 b7 b8 b9 b10 b11 b12 b13 b14 b15));
  (fun '(Locals16 b0 b1 b2 b3 b4 b5 b6 b7 b8 b9 b10 b11 b12 b13 b14 b15) => let tmp := b5 ^' b8 in let b5 := (tmp >>' 28) |' (tmp <<' (64 - 28)) in let b8 := b8 -' b5 in (Locals16 b0 b1 b2 b3 b4 b5 b6 b7 b8 b9 b10 b11 b12 b13 b14 b15));
  (fun '(Locals16 b0 b1 b2 b3 b4 b5 b6 b7 b8 b9 b10 b11 b12 b13 b14 b15) => let tmp := b1 ^' b14 in let b1 := (tmp >>' 47) |' (tmp <<' (64 - 47)) in let b14 := b14 -' b1 in (Locals16 b0 b1 b2 b3 b4 b5 b6 b7 b8 b9 b10 b11 b12 b13 b14 b15));
  (fun '(Locals16 b0 b1 b2 b3 b4 b5 b6 b7 b8 b9 b10 b11 b12 b13 b14 b15) => let tmp := b9 ^' b4 in let b9 := (tmp >>' 41) |' (tmp <<' (64 - 41)) in let b4 := b4 -' b9 in (Locals16 b0 b1 b2 b3 b4 b5 b6 b7 b8 b9 b10 b11 b12 b13 b14 b15));
  (fun '(Locals16 b0 b1 b2 b3 b4 b5 b6 b7 b8 b9 b10 b11 b12 b13 b14 b15) => let tmp := b13 ^' b6 in let b13 := (tmp >>' 48) |' (tmp <<' (64 - 48)) in let b6 := b6 -' b13 in (Locals16 b0 b1 b2 b3 b4 b5 b6 b7 b8 b9 b10 b11 b12 b13 b14 b15));
  (fun '(Locals16 b0 b1 b2 b3 b4 b5 b6 b7 b8 b9 b10 b11 b12 b13 b14 b15) => let tmp := b11 ^' b2 in let b11 := (tmp >>' 20) |' (tmp <<' (64 - 20)) in let b2 := b2 -' b11 in (Locals16 b0 b1 b2 b3 b4 b5 b6 b7 b8 b9 b10 b11 b12 b13 b14 b15));
  (fun '(Locals16 b0 b1 b2 b3 b4 b5 b6 b7 b8 b9 b10 b11 b12 b13 b14 b15) => let tmp := b15 ^' b0 in let b15 := (tmp >>' 5) |' (tmp <<' (64 - 5)) in let b0 := b0 -' b15 in (Locals16 b0 b1 b2 b3 b4 b5 b6 b7 b8 b9 b10 b11 b12 b13 b14 b15));
  (* inverse of round 58 *)
  (fun '(Locals16 b0 b1 b2 b3 b4 b5 b6 b7 b8 b9 b10 b11 b12 b13 b14 b15) => let tmp := b9 ^' b10 in let b9 := (tmp >>' 17) |' (tmp <<' (64 - 17)) in let b10 := b10 -' b9 in (Locals16 b0 b1 b2 b3 b4 b5 b6 b7 b8 b9 b10 b11 b12 b13 b14 b15));
  (fun '(Locals16 b0 b1 b2 b3 b4 b5 b6 b7 b8 b9 b10 b11 b12 b13 b14 b15) => let tmp := b11 ^' b8 in let b11 := (tmp >>' 59) |' (tmp <<' (64 - 59)) in let b8 := b8 -' b11 in (Locals16 b0 b1 b2 b3 b4 b5 b6 b7 b8 b9 b10 b11 b12 b13 b14 b15));
  (fun '(Locals16 b0 b1 b2 b3 b4 b5 b6 b7 b8 b9 b10 b11 b12 b13 b14 b15) => let tmp := b13 ^' b14 in let b13 := (tmp >>' 41) |' (tmp <<' (64 - 41)) in let b14 := b14 -' b13 in (Locals16 b0 b1 b2 b3 b4 b5 b6 b7 b8 b9 b10 b11 b12 b13 b14 b15));
  (fun '(Locals16 b0 b1 b2 b3 b4 b5 b6 b7 b8 b9 b10 b11 b12 b13 b14 b15) => let tmp := b15 ^' b12 in let b15 := (tmp >>' 34) |' (tmp <<' (64 - 34)) in let b12 := b12 -' b15 in (Locals16 b0 b1 b2 b3 b4 b5 b6 b7 b8 b9 b10 b11 b12 b13 b14 b15));
  (fun '(Locals16 b0 b1 b2 b3 b4 b5 b6 b7 b8 b9 b10 b11 b12 b13 b14 b15) => let tmp := b1 ^' b6 in let b1 := (tmp >>' 13) |' (tmp <<' (64 - 13)) in let b6 := b6 -' b1 in (Locals16 b0 b1 b2 b3 b4 b5 b6 b7 b8 b9 b10 b11 b12 b13 b14 b15));
  (fun '(Locals16 b0 b1 b2 b3 b4 b5 b6 b7 b8 b9 b10 b11 b12 b13 b14 b15) => let tmp := b3 ^' b4 in let b3 := (tmp >>' 51) |' (tmp <<' (64 - 51)) in let b4 := b4 -' b3 in (Locals16 b0 b1 b2 b3 b4 b5 b6 b7 b8 b9 b10 b11 b12 b13 b14 b15));
  (fun '(Locals16 b0 b1 b2 b3 b4 b5 b6 b7 b8 b9 b10 b11 b12 b13 b14 b15) => let tmp := b5 ^' b2 in let b5 := (tmp >>' 4) |' (tmp <<' (64 - 4)) in let b2 := b2 -' b5 in (Locals16 b0 b1 b2 b3 b4 b5 b6 b7 b8 b9 b10 b11 b12 b13 b14 b15));
  (fun '(Locals16 b0 b1 b2 b3 b4 b5 b6 b7 b8 b9 b10 b11 b12 b13 b14 b15) => let tmp := b7 ^' b0 in let b7 := (tmp >>' 33) |' (tmp <<' (64 - 33)) in let b0 := b0 -' b7 in (Locals16 b0 b1 b2 b3 b4 b5 b6 b7 b8 b9 b10 b11 b12 b13 b14 b15));
  (* inverse of round 57 *)
  (fun '(Locals16 b0 b1 b2 b3 b4 b5 b6 b7 b8 b9 b10 b11 b12 b13 b14 b15) => let tmp := b1 ^' b8 in let b1 := (tmp >>' 52) |' (tmp <<' (64 - 52)) in let b8 := b8 -' b1 in (Locals16 b0 b1 b2 b3 b4 b5 b6 b7 b8 b9 b10 b11 b12 b13 b14 b15));
  (fun '(Locals16 b0 b1 b2 b3 b4 b5 b6 b7 b8 b9 b10 b11 b12 b13 b14 b15) => let tmp := b5 ^' b14 in let b5 := (tmp >>' 23) |' (tmp <<' (64 - 23)) in let b14 := b14 -' b5 in (Locals16 b0 b1 b2 b3 b4 b5 b6 b7 b8 b9 b10 b11 b12 b13 b14 b15));
  (fun '(Locals16 b0 b1 b2 b3 b4 b5 b6 b7 b8 b9 b10 b11 b12 b13 b14 b15) => let tmp := b3 ^' b12 in let b3 := (tmp >>' 18) |' (tmp <<' (64 - 18)) in let b12 := b12 -' b3 in (Locals16 b0 b1 b2 b3 b4 b5 b6 b7 b8 b9 b10 b11 b12 b13 b14 b15));
  (fun '(Locals16 b0 b1 b2 b3 b4 b5 b6 b7 b8 b9 b10 b11 b12 b13 b14 b15) => let tmp := b7 ^' b10 in let b7 := (tmp >>' 49) |' (tmp <<' (64 - 49)) in let b10 := b10 -' b7 in (Locals16 b0 b1 b2 b3 b4 b5 b6 b7 b8 b9 b10 b11 b12 b13 b14 b15));
  (fun '(Locals16 b0 b1 b2 b3 b4 b5 b6 b7 b8 b9 b10 b11 b12 b13 b14 b15) => let tmp := b15 ^' b4 in let b15 := (tmp >>' 55) |' (tmp <<' (64 - 55)) in let b4 := b4 -' b15 in (Locals16 b0 b1 b2 b3 b4 b5 b6 b7 b8 b9 b10 b11 b12 b13 b14 b15));
  (fun '(Locals16 b0 b1 b2 b3 b4 b5 b6 b7 b8 b9 b10 b11 b12 b13 b14 b15) => let tmp := b11 ^' b6 in let b11 := (tmp >>' 10) |' (tmp <<' (64 - 10)) in let b6 := b6 -' b11 in (Locals16 b0 b1 b2 b3 b4 b5 b6 b7 b8 b9 b10 b11 b12 b13 b14 b15));
  (fun '(Locals16 b0 b1 b2 b3 b4 b5 b6 b7 b8 b9 b10 b11 b12 b13 b14 b15) => let tmp := b13 ^' b2 in let b13 := (tmp >>' 19) |' (tmp <<' (64 - 19)) in let b2 := b2 -' b13 in (Locals16 b0 b1 b2 b3 b4 b5 b6 b7 b8 b9 b10 b11 b12 b13 b14 b15));
  (fun '(Locals16 b0 b1 b2 b3 b4 b5 b6 b7 b8 b9 b10 b11 b12 b13 b14 b15) => let tmp := b9 ^' b0 in let b9 := (tmp >>' 38) |' (tmp <<' (64 - 38)) in let b0 := b0 -' b9 in (Locals16 b0 b1 b2 b3 b4 b5 b6 b7 b8 b9 b10 b11 b12 b13 b14 b15));
  (* inverse of round 56 *)
  (fun '(Locals16 b0 b1 b2 b3 b4 b5 b6 b7 b8 b9 b10 b11 b12 b13 b14 b15) => let tmp := b15 ^' b14 in let b15 := (tmp >>' 37) |' (tmp <<' (64 - 37)) in let b14 := b14 -' (b15 +' k11 +' t0) in let b15 := b15 -' (k12 +' 14) in (Locals16 b0 b1 b2 b3 b4 b5 b6 b7 b8 b9 b10 b11 b12 b13 b14 b15));
  (fun '(Locals16 b0 b1 b2 b3 b4 b5 b6 b7 b8 b9 b10 b11 b12 b13 b14 b15) => let tmp := b13 ^' b12 in let b13 := (tmp >>' 22) |' (tmp <<' (64 - 22)) in let b12 := b12 -' (b13 +' k9) in let b13 := b13 -' (k10 +' t2) in (Locals16 b0 b1 b2 b3 b4 b5 b6 b7 b8 b9 b10 b11 b12 b13 b14 b15));
  (fun '(Locals16 b0 b1 b2 b3 b4 b5 b6 b7 b8 b9 b10 b11 b12 b13 b14 b15) => let tmp := b11 ^' b10 in let b11 := (tmp >>' 17) |' (tmp <<' (64 - 17)) in let b10 := b10 -' (b11 +' k7) in let b11 := b11 -' k8 in (Locals16 b0 b1 b2 b3 b4 b5 b6 b7 b8 b9 b10 b11 b12 b13 b14 b15));
  (fun '(Locals16 b0 b1 b2 b3 b4 b5 b6 b7 b8 b9 b10 b11 b12 b13 b14 b15) => let tmp := b9 ^' b8 in let b9 := (tmp >>' 8) |' (tmp <<' (64 - 8)) in let b8 := b8 -' (b9 +' k5) in let b9 := b9 -' k6 in (Locals16 b0 b1 b2 b3 b4 b5 b6 b7 b8 b9 b10 b11 b12 b13 b14 b15));
  (fun '(Locals16 b0 b1 b2 b3 b4 b5 b6 b7 b8 b9 b10 b11 b12 b13 b14 b15) => let tmp := b7 ^' b6 in let b7 := (tmp >>' 47) |' (tmp <<' (64 - 47)) in let b6 := b6 -' (b7 +' k3) in let b7 := b7 -' k4 in (Locals16 b0 b1 b2 b3 b4 b5 b6 b7 b8 b9 b10 b11 b12 b13 b14 b15));
  (fun '(Locals16 b0 b1 b2 b3 b4 b5 b6 b7 b8 b9 b10 b11 b12 b13 b14 b15) => let tmp := b5 ^' b4 in let b5 := (tmp >>' 8) |' (tmp <<' (64 - 8)) in let b4 := b4 -' (b5 +' k1) in let b5 := b5 -' k2 in (Locals16 b0 b1 b2 b3 b4 b5 b6 b7 b8 b9 b10 b11 b12 b13 b14 b15));
  (fun '(Locals16 b0 b1 b2 b3 b4 b5 b6 b7 b8 b9 b10 b11 b12 b13 b14 b15) => let tmp := b3 ^' b2 in let b3 := (tmp >>' 13) |' (tmp <<' (64 - 13)) in let b2 := b2 -' (b3 +' k16) in let b3 := b3 -' k0 in (Locals16 b0 b1 b2 b3 b4 b5 b6 b7 b8 b9 b10 b11 b12 b13 b14 b15));
  (fun '(Locals16 b0 b1 b2 b3 b4 b5 b6 b7 b8 b9 b10 b11 b12 b13 b14 b15) => let tmp := b1 ^' b0 in let b1 := (tmp >>' 24) |' (tmp <<' (64 - 24)) in let b0 := b0 -' (b1 +' k14) in let b1 := b1 -' k15 in (Locals16 b0 b1 b2 b3 b4 b5 b6 b7 b8 b9 b10 b11 b12 b13 b14 b15));
  (* inverse of round 55 *)
  (fun '(Locals16 b0 b1 b2 b3 b4 b5 b6 b7 b8 b9 b10 b11 b12 b13 b14 b15) => let tmp := b7 ^' b12 in let b7 := (tmp >>' 20) |' (tmp <<' (64 - 20)) in let b12 := b12 -' b7 in (Locals16 b0 b1 b2 b3 b4 b5 b6 b7 b8 b9 b10 b11 b12 b13 b14 b15));
  (fun '(Locals16 b0 b1 b2 b3 b4 b5 b6 b7 b8 b9 b10 b11 b12 b13 b14 b15) => let tmp := b3 ^' b10 in let b3 := (tmp >>' 37) |' (tmp <<' (64 - 37)) in let b10 := b10 -' b3 in (Locals16 b0 b1 b2 b3 b4 b5 b6 b7 b8 b9 b10 b11 b12 b13 b14 b15));
  (fun '(Locals16 b0 b1 b2 b3 b4 b5 b6 b7 b8 b9 b10 b11 b12 b13 b14 b15) => let tmp := b5 ^' b8 in let b5 := (tmp >>' 31) |' (tmp <<' (64 - 31)) in let b8 := b8 -' b5 in (Locals16 b0 b1 b2 b3 b4 b5 b6 b7 b8 b9 b10 b11 b12 b13 b14 b15));
  (fun '(Locals16 b0 b1 b2 b3 b4 b5 b6 b7 b8 b9 b10 b11 b12 b13 b14 b15) => let tmp := b1 ^' b14 in let b1 := (tmp >>' 23) |' (tmp <<' (64 - 23)) in let b14 := b14 -' b1 in (Locals16 b0 b1 b2 b3 b4 b5 b6 b7 b8 b9 b10 b11 b12 b13 b14 b15));
  (fun '(Locals16 b0 b1 b2 b3 b4 b5 b6 b7 b8 b9 b10 b11 b12 b13 b14 b15) => let tmp := b9 ^' b4 in let b9 := (tmp >>' 52) |' (tmp <<' (64 - 52)) in let b4 := b4 -' b9 in (Locals16 b0 b1 b2 b3 b4 b5 b6 b7 b8 b9 b10 b11 b12 b13 b14 b15));
  (fun '(Locals16 b0 b1 b2 b3 b4 b5 b6 b7 b8 b9 b10 b11 b12 b13 b14 b15) => let tmp := b13 ^' b6 in let b13 := (tmp >>' 35) |' (tmp <<' (64 - 35)) in let b6 := b6 -' b13 in (Locals16 b0 b1 b2 b3 b4 b5 b6 b7 b8 b9 b10 b11 b12 b13 b14 b15));
  (fun '(Locals16 b0 b1 b2 b3 b4 b5 b6 b7 b8 b9 b10 b11 b12 b13 b14 b15) => let tmp := b11 ^' b2 in let b11 := (tmp >>' 48) |' (tmp <<' (64 - 48)) in let b2 := b2 -' b11 in (Locals16 b0 b1 b2 b3 b4 b5 b6 b7 b8 b9 b10 b11 b12 b13 b14 b15));
  (fun '(Locals16 b0 b1 b2 b3 b4 b5 b6 b7 b8 b9 b10 b11 b12 b13 b14 b15) => let tmp := b15 ^' b0 in let b15 := (tmp >>' 9) |' (tmp <<' (64 - 9)) in let b0 := b0 -' b15 in (Locals16 b0 b1 b2 b3 b4 b5 b6 b7 b8 b9 b10 b11 b12 b13 b14 b15));
  (* inverse of round 54 *)
  (fun '(Locals16 b0 b1 b2 b3 b4 b5 b6 b7 b8 b9 b10 b11 b12 b13 b14 b15) => let tmp := b9 ^' b10 in let b9 := (tmp >>' 25) |' (tmp <<' (64 - 25)) in let b10 := b10 -' b9 in (Locals16 b0 b1 b2 b3 b4 b5 b6 b7 b8 b9 b10 b11 b12 b13 b14 b15));
  (fun '(Locals16 b0 b1 b2 b3 b4 b5 b6 b7 b8 b9 b10 b11 b12 b13 b14 b15) => let tmp := b11 ^' b8 in let b11 := (tmp >>' 44) |' (tmp <<' (64 - 44)) in let b8 := b8 -' b11 in (Locals16 b0 b1 b2 b3 b4 b5 b6 b7 b8 b9 b10 b11 b12 b13 b14 b15));
  (fun '(Locals16 b0 b1 b2 b3 b4 b5 b6 b7 b8 b9 b10 b11 b12 b13 b14 b15) => let tmp := b13 ^' b14 in let b13 := (tmp >>' 42) |' (tmp <<' (64 - 42)) in let b14 := b14 -' b13 in (Locals16 b0 b1 b2 b3 b4 b5 b6 b7 b8 b9 b10 b11 b12 b13 b14 b15));
  (fun '(Locals16 b0 b1 b2 b3 b4 b5 b6 b7 b8 b9 b10 b11 b12 b13 b14 b15) => let tmp := b15 ^' b12 in let b15 := (tmp >>' 19) |' (tmp <<' (64 - 19)) in let b12 := b12 -' b15 in (Locals16 b0 b1 b2 b3 b4 b5 b6 b7 b8 b9 b10 b11 b12 b13 b14 b15));
  (fun '(Locals16 b0 b1 b2 b3 b4 b5 b6 b7 b8 b9 b10 b11 b12 b13 b14 b15) => let tmp := b1 ^' b6 in let b1 := (tmp >>' 46) |' (tmp <<' (64 - 46)) in let b6 := b6 -' b1 in (Locals16 b0 b1 b2 b3 b4 b5 b6 b7 b8 b9 b10 b11 b12 b13 b14 b15));
  (fun '(Locals16 b0 b1 b2 b3 b4 b5 b6 b7 b8 b9 b10 b11 b12 b13 b14 b15) => let tmp := b3 ^' b4 in let b3 := (tmp >>' 47) |' (tmp <<' (64 - 47)) in let b4 := b4 -' b3 in (Locals16 b0 b1 b2 b3 b4 b5 b6 b7 b8 b9 b10 b11 b12 b13 b14 b15));
  (fun '(Locals16 b0 b1 b2 b3 b4 b5 b6 b7 b8 b9 b10 b11 b12 b13 b14 b15) => let tmp := b5 ^' b2 in let b5 := (tmp >>' 44) |' (tmp <<' (64 - 44)) in let b2 := b2 -' b5 in (Locals16 b0 b1 b2 b3 b4 b5 b6 b7 b8 b9 b10 b11 b12 b13 b14 b15));
  (fun '(Locals16 b0 b1 b2 b3 b4 b5 b6 b7 b8 b9 b10 b11 b12 b13 b14 b15) => let tmp := b7 ^' b0 in let b7 := (tmp >>' 31) |' (tmp <<' (64 - 31)) in let b0 := b0 -' b7 in (Locals16 b0 b1 b2 b3 b4 b5 b6 b7 b8 b9 b10 b11 b12 b13 b14 b15));
  (* inverse of round 53 *)
  (fun '(Locals16 b0 b1 b2 b3 b4 b5 b6 b7 b8 b9 b10 b11 b12 b13 b14 b15) => let tmp := b1 ^' b8 in let b1 := (tmp >>' 41) |' (tmp <<' (64 - 41)) in let b8 := b8 -' b1 in (Locals16 b0 b1 b2 b3 b4 b5 b6 b7 b8 b9 b10 b11 b12 b13 b14 b15));
  (fun '(Locals16 b0 b1 b2 b3 b4 b5 b6 b7 b8 b9 b10 b11 b12 b13 b14 b15) => let tmp := b5 ^' b14 in let b5 := (tmp >>' 42) |' (tmp <<' (64 - 42)) in let b14 := b14 -' b5 in (Locals16 b0 b1 b2 b3 b4 b5 b6 b7 b8 b9 b10 b11 b12 b13 b14 b15));
  (fun '(Locals16 b0 b1 b2 b3 b4 b5 b6 b7 b8 b9 b10 b11 b12 b13 b14 b15) => let tmp := b3 ^' b12 in let b3 := (tmp >>' 53) |' (tmp <<' (64 - 53)) in let b12 := b12 -' b3 in (Locals16 b0 b1 b2 b3 b4 b5 b6 b7 b8 b9 b10 b11 b12 b13 b14 b15));
  (fun '(Locals16 b0 b1 b2 b3 b4 b5 b6 b7 b8 b9 b10 b11 b12 b13 b14 b15) => let tmp := b7 ^' b10 in let b7 := (tmp >>' 4) |' (tmp <<' (64 - 4)) in let b10 := b10 -' b7 in (Locals16 b0 b1 b2 b3 b4 b5 b6 b7 b8 b9 b10 b11 b12 b13 b14 b15));
  (fun '(Locals16 b0 b1 b2 b3 b4 b5 b6 b7 b8 b9 b10 b11 b12 b13 b14 b15) => let tmp := b15 ^' b4 in let b15 := (tmp >>' 51) |' (tmp <<' (64 - 51)) in let b4 := b4 -' b15 in (Locals16 b0 b1 b2 b3 b4 b5 b6 b7 b8 b9 b10 b11 b12 b13 b14 b15));
  (fun '(Locals16 b0 b1 b2 b3 b4 b5 b6 b7 b8 b9 b10 b11 b12 b13 b14 b15) => let tmp := b11 ^' b6 in let b11 := (tmp >>' 56) |' (tmp <<' (64 - 56)) in let b6 := b6 -' b11 in (Locals16 b0 b1 b2 b3 b4 b5 b6 b7 b8 b9 b10 b11 b12 b13 b14 b15));
  (fun '(Locals16 b0 b1 b2 b3 b4 b5 b6 b7 b8 b9 b10 b11 b12 b13 b14 b15) => let tmp := b13 ^' b2 in let b13 := (tmp >>' 34) |' (tmp <<' (64 - 34)) in let b2 := b2 -' b13 in (Locals16 b0 b1 b2 b3 b4 b5 b6 b7 b8 b9 b10 b11 b12 b13 b14 b15));
  (fun '(Locals16 b0 b1 b2 b3 b4 b5 b6 b7 b8 b9 b10 b11 b12 b13 b14 b15) => let tmp := b9 ^' b0 in let b9 := (tmp >>' 16) |' (tmp <<' (64 - 16)) in let b0 := b0 -' b9 in (Locals16 b0 b1 b2 b3 b4 b5 b6 b7 b8 b9 b10 b11 b12 b13 b14 b15));
  (* inverse of round 52 *)
  (fun '(Locals16 b0 b1 b2 b3 b4 b5 b6 b7 b8 b9 b10 b11 b12 b13 b14 b15) => let tmp := b15 ^' b14 in let b15 := (tmp >>' 30) |' (tmp <<' (64 - 30)) in let b14 := b14 -' (b15 +' k10 +' t2) in let b15 := b15 -' (k11 +' 13) in (Locals16 b0 b1 b2 b3 b4 b5 b6 b7 b8 b9 b10 b11 b12 b13 b14 b15));
  (fun '(Locals16 b0 b1 b2 b3 b4 b5 b6 b7 b8 b9 b10 b11 b12 b13 b14 b15) => let tmp := b13 ^' b12 in let b13 := (tmp >>' 44) |' (tmp <<' (64 - 44)) in let b12 := b12 -' (b13 +' k8) in let b13 := b13 -' (k9 +' t1) in (Locals16 b0 b1 b2 b3 b4 b5 b6 b7 b8 b9 b10 b11 b12 b13 b14 b15));
  (fun '(Locals16 b0 b1 b2 b3 b4 b5 b6 b7 b8 b9 b10 b11 b12 b13 b14 b15) => let tmp := b11 ^' b10 in let b11 := (tmp >>' 47) |' (tmp <<' (64 - 47)) in let b10 := b10 -' (b11 +' k6) in let b11 := b11 -' k7 in (Locals16 b0 b1 b2 b3 b4 b5 b6 b7 b8 b9 b10 b11 b12 b13 b14 b15));
  (fun '(Locals16 b0 b1 b2 b3 b4 b5 b6 b7 b8 b9 b10 b11 b12 b13 b14 b15) => let tmp := b9 ^' b8 in let b9 := (tmp >>' 12) |' (tmp <<' (64 - 12)) in let b8 := b8 -' (b9 +' k4) in let b9 := b9 -' k5 in (Locals16 b0 b1 b2 b3 b4 b5 b6 b7 b8 b9 b10 b11 b12 b13 b14 b15));
  (fun '(Locals16 b0 b1 b2 b3 b4 b5 b6 b7 b8 b9 b10 b11 b12 b13 b14 b15) => let tmp := b7 ^' b6 in let b7 := (tmp >>' 31) |' (tmp <<' (64 - 31)) in let b6 := b6 -' (b7 +' k2) in let b7 := b7 -' k3 in (Locals16 b0 b1 b2 b3 b4 b5 b6 b7 b8 b9 b10 b11 b12 b13 b14 b15));
  (fun '(Locals16 b0 b1 b2 b3 b4 b5 b6 b7 b8 b9 b10 b11 b12 b13 b14 b15) => let tmp := b5 ^' b4 in let b5 := (tmp >>' 37) |' (tmp <<' (64 - 37)) in let b4 := b4 -' (b5 +' k0) in let b5 := b5 -' k1 in (Locals16 b0 b1 b2 b3 b4 b5 b6 b7 b8 b9 b10 b11 b12 b13 b14 b15));
  (fun '(Locals16 b0 b1 b2 b3 b4 b5 b6 b7 b8 b9 b10 b11 b12 b13 b14 b15) => let tmp := b3 ^' b2 in let b3 := (tmp >>' 9) |' (tmp <<' (64 - 9)) in let b2 := b2 -' (b3 +' k15) in let b3 := b3 -' k16 in (Locals16 b0 b1 b2 b3 b4 b5 b6 b7 b8 b9 b10 b11 b12 b13 b14 b15));
  (fun '(Locals16 b0 b1 b2 b3 b4 b5 b6 b7 b8 b9 b10 b11 b12 b13 b14 b15) => let tmp := b1 ^' b0 in let b1 := (tmp >>' 41) |' (tmp <<' (64 - 41)) in let b0 := b0 -' (b1 +' k13) in let b1 := b1 -' k14 in (Locals16 b0 b1 b2 b3 b4 b5 b6 b7 b8 b9 b10 b11 b12 b13 b14 b15));
  (* inverse of round 51 *)
  (fun '(Locals16 b0 b1 b2 b3 b4 b5 b6 b7 b8 b9 b10 b11 b12 b13 b14 b15) => let tmp := b7 ^' b12 in let b7 := (tmp >>' 25) |' (tmp <<' (64 - 25)) in let b12 := b12 -' b7 in (Locals16 b0 b1 b2 b3 b4 b5 b6 b7 b8 b9 b10 b11 b12 b13 b14 b15));
  (fun '(Locals16 b0 b1 b2 b3 b4 b5 b6 b7 b8 b9 b10 b11 b12 b13 b14 b15) => let tmp := b3 ^' b10 in let b3 := (tmp >>' 16) |' (tmp <<' (64 - 16)) in let b10 := b10 -' b3 in (Locals16 b0 b1 b2 b3 b4 b5 b6 b7 b8 b9 b10 b11 b12 b13 b14 b15));
  (fun '(Locals16 b0 b1 b2 b3 b4 b5 b6 b7 b8 b9 b10 b11 b12 b13 b14 b15) => let tmp := b5 ^' b8 in let b5 := (tmp >>' 28) |' (tmp <<' (64 - 28)) in let b8 := b8 -' b5 in (Locals16 b0 b1 b2 b3 b4 b5 b6 b7 b8 b9 b10 b11 b12 b13 b14 b15));
  (fun '(Locals16 b0 b1 b2 b3 b4 b5 b6 b7 b8 b9 b10 b11 b12 b13 b14 b15) => let tmp := b1 ^' b14 in let b1 := (tmp >>' 47) |' (tmp <<' (64 - 47)) in let b14 := b14 -' b1 in (Locals16 b0 b1 b2 b3 b4 b5 b6 b7 b8 b9 b10 b11 b12 b13 b14 b15));
  (fun '(Locals16 b0 b1 b2 b3 b4 b5 b6 b7 b8 b9 b10 b11 b12 b13 b14 b15) => let tmp := b9 ^' b4 in let b9 := (tmp >>' 41) |' (tmp <<' (64 - 41)) in let b4 := b4 -' b9 in (Locals16 b0 b1 b2 b3 b4 b5 b6 b7 b8 b9 b10 b11 b12 b13 b14 b15));
  (fun '(Locals16 b0 b1 b2 b3 b4 b5 b6 b7 b8 b9 b10 b11 b12 b13 b14 b15) => let tmp := b13 ^' b6 in let b13 := (tmp >>' 48) |' (tmp <<' (64 - 48)) in let b6 := b6 -' b13 in (Locals16 b0 b1 b2 b3 b4 b5 b6 b7 b8 b9 b10 b11 b12 b13 b14 b15));
  (fun '(Locals16 b0 b1 b2 b3 b4 b5 b6 b7 b8 b9 b10 b11 b12 b13 b14 b15) => let tmp := b11 ^' b2 in let b11 := (tmp >>' 20) |' (tmp <<' (64 - 20)) in let b2 := b2 -' b11 in (Locals16 b0 b1 b2 b3 b4 b5 b6 b7 b8 b9 b10 b11 b12 b13 b14 b15));
  (fun '(Locals16 b0 b1 b2 b3 b4 b5 b6 b7 b8 b9 b10 b11 b12 b13 b14 b15) => let tmp := b15 ^' b0 in let b15 := (tmp >>' 5) |' (tmp <<' (64 - 5)) in let b0 := b0 -' b15 in (Locals16 b0 b1 b2 b3 b4 b5 b6 b7 b8 b9 b10 b11 b12 b13 b14 b15));
  (* inverse of round 50 *)
  (fun '(Locals16 b0 b1 b2 b3 b4 b5 b6 b7 b8 b9 b10 b11 b12 b13 b14 b15) => let tmp := b9 ^' b10 in let b9 := (tmp >>' 17) |' (tmp <<' (64 - 17)) in let b10 := b10 -' b9 in (Locals16 b0 b1 b2 b3 b4 b5 b6 b7 b8 b9 b10 b11 b12 b13 b14 b15));
  (fun '(Locals16 b0 b1 b2 b3 b4 b5 b6 b7 b8 b9 b10 b11 b12 b13 b14 b15) => let tmp := b11 ^' b8 in let b11 := (tmp >>' 59) |' (tmp <<' (64 - 59)) in let b8 := b8 -' b11 in (Locals16 b0 b1 b2 b3 b4 b5 b6 b7 b8 b9 b10 b11 b12 b13 b14 b15));
  (fun '(Locals16 b0 b1 b2 b3 b4 b5 b6 b7 b8 b9 b10 b11 b12 b13 b14 b15) => let tmp := b13 ^' b14 in let b13 := (tmp >>' 41) |' (tmp <<' (64 - 41)) in let b14 := b14 -' b13 in (Locals16 b0 b1 b2 b3 b4 b5 b6 b7 b8 b9 b10 b11 b12 b13 b14 b15));
  (fun '(Locals16 b0 b1 b2 b3 b4 b5 b6 b7 b8 b9 b10 b11 b12 b13 b14 b15) => let tmp := b15 ^' b12 in let b15 := (tmp >>' 34) |' (tmp <<' (64 - 34)) in let b12 := b12 -' b15 in (Locals16 b0 b1 b2 b3 b4 b5 b6 b7 b8 b9 b10 b11 b12 b13 b14 b15));
  (fun '(Locals16 b0 b1 b2 b3 b4 b5 b6 b7 b8 b9 b10 b11 b12 b13 b14 b15) => let tmp := b1 ^' b6 in let b1 := (tmp >>' 13) |' (tmp <<' (64 - 13)) in let b6 := b6 -' b1 in (Locals16 b0 b1 b2 b3 b4 b5 b6 b7 b8 b9 b10 b11 b12 b13 b14 b15));
  (fun '(Locals16 b0 b1 b2 b3 b4 b5 b6 b7 b8 b9 b10 b11 b12 b13 b14 b15) => let tmp := b3 ^' b4 in let b3 := (tmp >>' 51) |' (tmp <<' (64 - 51)) in let b4 := b4 -' b3 in (Locals16 b0 b1 b2 b3 b4 b5 b6 b7 b8 b9 b10 b11 b12 b13 b14 b15));
  (fun '(Locals16 b0 b1 b2 b3 b4 b5 b6 b7 b8 b9 b10 b11 b12 b13 b14 b15) => let tmp := b5 ^' b2 in let b5 := (tmp >>' 4) |' (tmp <<' (64 - 4)) in let b2 := b2 -' b5 in (Locals16 b0 b1 b2 b3 b4 b5 b6 b7 b8 b9 b10 b11 b12 b13 b14 b15));
  (fun '(Locals16 b0 b1 b2 b3 b4 b5 b6 b7 b8 b9 b10 b11 b12 b13 b14 b15) => let tmp := b7 ^' b0 in let b7 := (tmp >>' 33) |' (tmp <<' (64 - 33)) in let b0 := b0 -' b7 in (Locals16 b0 b1 b2 b3 b4 b5 b6 b7 b8 b9 b10 b11 b12 b13 b14 b15));
  (* inverse of round 49 *)
  (fun '(Locals16 b0 b1 b2 b3 b4 b5 b6 b7 b8 b9 b10 b11 b12 b13 b14 b15) => let tmp := b1 ^' b8 in let b1 := (tmp >>' 52) |' (tmp <<' (64 - 52)) in let b8 := b8 -' b1 in (Locals16 b0 b1 b2 b3 b4 b5 b6 b7 b8 b9 b10 b11 b12 b13 b14 b15));
  (fun '(Locals16 b0 b1 b2 b3 b4 b5 b6 b7 b8 b9 b10 b11 b12 b13 b14 b15) => let tmp := b5 ^' b14 in let b5 := (tmp >>' 23) |' (tmp <<' (64 - 23)) in let b14 := b14 -' b5 in (Locals16 b0 b1 b2 b3 b4 b5 b6 b7 b8 b9 b10 b11 b12 b13 b14 b15));
  (fun '(Locals16 b0 b1 b2 b3 b4 b5 b6 b7 b8 b9 b10 b11 b12 b13 b14 b15) => let tmp := b3 ^' b12 in let b3 := (tmp >>' 18) |' (tmp <<' (64 - 18)) in let b12 := b12 -' b3 in (Locals16 b0 b1 b2 b3 b4 b5 b6 b7 b8 b9 b10 b11 b12 b13 b14 b15));
  (fun '(Locals16 b0 b1 b2 b3 b4 b5 b6 b7 b8 b9 b10 b11 b12 b13 b14 b15) => let tmp := b7 ^' b10 in let b7 := (tmp >>' 49) |' (tmp <<' (64 - 49)) in let b10 := b10 -' b7 in (Locals16 b0 b1 b2 b3 b4 b5 b6 b7 b8 b9 b10 b11 b12 b13 b14 b15));
  (fun '(Locals16 b0 b1 b2 b3 b4 b5 b6 b7 b8 b9 b10 b11 b12 b13 b14 b15) => let tmp := b15 ^' b4 in let b15 := (tmp >>' 55) |' (tmp <<' (64 - 55)) in let b4 := b4 -' b15 in (Locals16 b0 b1 b2 b3 b4 b5 b6 b7 b8 b9 b10 b11 b12 b13 b14 b15));
  (fun '(Locals16 b0 b1 b2 b3 b4 b5 b6 b7 b8 b9 b10 b11 b12 b13 b14 b15) => let tmp := b11 ^' b6 in let b11 := (tmp >>' 10) |' (tmp <<' (64 - 10)) in let b6 := b6 -' b11 in (Locals16 b0 b1 b2 b3 b4 b5 b6 b7 b8 b9 b10 b11 b12 b13 b14 b15));
  (fun '(Locals16 b0 b1 b2 b3 b4 b5 b6 b7 b8 b9 b10 b11 b12 b13 b14 b15) => let tmp := b13 ^' b2 in let b13 := (tmp >>' 19) |' (tmp <<' (64 - 19)) in let b2 := b2 -' b13 in (Locals16 b0 b1 b2 b3 b4 b5 b6 b7 b8 b9 b10 b11 b12 b13 b14 b15));
  (fun '(Locals16 b0 b1 b2 b3 b4 b5 b6 b7 b8 b9 b10 b11 b12 b13 b14 b15) => let tmp := b9 ^' b0 in let b9 := (tmp >>' 38) |' (tmp <<' (64 - 38)) in let b0 := b0 -' b9 in (Locals16 b0 b1 b2 b3 b4 b5 b6 b7 b8 b9 b10 b11 b12 b13 b14 b15));
  (* inverse of round 48 *)
  (fun '(Locals16 b0 b1 b2 b3 b4 b5 b6 b7 b8 b9 b10 b11 b12 b13 b14 b15) => let tmp := b15 ^' b14 in let b15 := (tmp >>' 37) |' (tmp <<' (64 - 37)) in let b14 := b14 -' (b15 +' k9 +' t1) in let b15 := b15 -' (k10 +' 12) in (Locals16 b0 b1 b2 b3 b4 b5 b6 b7 b8 b9 b10 b11 b12 b13 b14 b15));
  (fun '(Locals16 b0 b1 b2 b3 b4 b5 b6 b7 b8 b9 b10 b11 b12 b13 b14 b15) => let tmp := b13 ^' b12 in let b13 := (tmp >>' 22) |' (tmp <<' (64 - 22)) in let b12 := b12 -' (b13 +' k7) in let b13 := b13 -' (k8 +' t0) in (Locals16 b0 b1 b2 b3 b4 b5 b6 b7 b8 b9 b10 b11 b12 b13 b14 b15));
  (fun '(Locals16 b0 b1 b2 b3 b4 b5 b6 b7 b8 b9 b10 b11 b12 b13 b14 b15) => let tmp := b11 ^' b10 in let b11 := (tmp >>' 17) |' (tmp <<' (64 - 17)) in let b10 := b10 -' (b11 +' k5) in let b11 := b11 -' k6 in (Locals16 b0 b1 b2 b3 b4 b5 b6 b7 b8 b9 b10 b11 b12 b13 b14 b15));
  (fun '(Locals16 b0 b1 b2 b3 b4 b5 b6 b7 b8 b9 b10 b11 b12 b13 b14 b15) => let tmp := b9 ^' b8 in let b9 := (tmp >>' 8) |' (tmp <<' (64 - 8)) in let b8 := b8 -' (b9 +' k3) in let b9 := b9 -' k4 in (Locals16 b0 b1 b2 b3 b4 b5 b6 b7 b8 b9 b10 b11 b12 b13 b14 b15));
  (fun '(Locals16 b0 b1 b2 b3 b4 b5 b6 b7 b8 b9 b10 b11 b12 b13 b14 b15) => let tmp := b7 ^' b6 in let b7 := (tmp >>' 47) |' (tmp <<' (64 - 47)) in let b6 := b6 -' (b7 +' k1) in let b7 := b7 -' k2 in (Locals16 b0 b1 b2 b3 b4 b5 b6 b7 b8 b9 b10 b11 b12 b13 b14 b15));
  (fun '(Locals16 b0 b1 b2 b3 b4 b5 b6 b7 b8 b9 b10 b11 b12 b13 b14 b15) => let tmp := b5 ^' b4 in let b5 := (tmp >>' 8) |' (tmp <<' (64 - 8)) in let b4 := b4 -' (b5 +' k16) in let b5 := b5 -' k0 in (Locals16 b0 b1 b2 b3 b4 b5 b6 b7 b8 b9 b10 b11 b12 b13 b14 b15));
  (fun '(Locals16 b0 b1 b2 b3 b4 b5 b6 b7 b8 b9 b10 b11 b12 b13 b14 b15) => let tmp := b3 ^' b2 in let b3 := (tmp >>' 13) |' (tmp <<' (64 - 13)) in let b2 := b2 -' (b3 +' k14) in let b3 := b3 -' k15 in (Locals16 b0 b1 b2 b3 b4 b5 b6 b7 b8 b9 b10 b11 b12 b13 b14 b15));
  (fun '(Locals16 b0 b1 b2 b3 b4 b5 b6 b7 b8 b9 b10 b11 b12 b13 b14 b15) => let tmp := b1 ^' b0 in let b1 := (tmp >>' 24) |' (tmp <<' (64 - 24)) in let b0 := b0 -' (b1 +' k12) in let b1 := b1 -' k13 in (Locals16 b0 b1 b2 b3 b4 b5 b6 b7 b8 b9 b10 b11 b12 b13 b14 b15));
  (* inverse of round 47 *)
  (fun '(Locals16 b0 b1 b2 b3 b4 b5 b6 b7 b8 b9 b10 b11 b12 b13 b14 b15) => let tmp := b7 ^' b12 in let b7 := (tmp >>' 20) |' (tmp <<' (64 - 20)) in let b12 := b12 -' b7 in (Locals16 b0 b1 b2 b3 b4 b5 b6 b7 b8 b9 b10 b11 b12 b13 b14 b15));
  (fun '(Locals16 b0 b1 b2 b3 b4 b5 b6 b7 b8 b9 b10 b11 b12 b13 b14 b15) => let tmp := b3 ^' b10 in let b3 := (tmp >>' 37) |' (tmp <<' (64 - 37)) in let b10 := b10 -' b3 in (Locals16 b0 b1 b2 b3 b4 b5 b6 b7 b8 b9 b10 b11 b12 b13 b14 b15));
  (fun '(Locals16 b0 b1 b2 b3 b4 b5 b6 b7 b8 b9 b10 b11 b12 b13 b14 b15) => let tmp := b5 ^' b8 in let b5 := (tmp >>' 31) |' (tmp <<' (64 - 31)) in let b8 := b8 -' b5 in (Locals16 b0 b1 b2 b3 b4 b5 b6 b7 b8 b9 b10 b11 b12 b13 b14 b15));
  (fun '(Locals16 b0 b1 b2 b3 b4 b5 b6 b7 b8 b9 b10 b11 b12 b13 b14 b15) => let tmp := b1 ^' b14 in let b1 := (tmp >>' 23) |' (tmp <<' (64 - 23)) in let b14 := b14 -' b1 in (Locals16 b0 b1 b2 b3 b4 b5 b6 b7 b8 b9 b10 b11 b12 b13 b14 b15));
  (fun '(Locals16 b0 b1 b2 b3 b4 b5 b6 b7 b8 b9 b10 b11 b12 b13 b14 b15) => let tmp := b9 ^' b4 in let b9 := (tmp >>' 52) |' (tmp <<' (64 - 52)) in let b4 := b4 -' b9 in (Locals16 b0 b1 b2 b3 b4 b5 b6 b7 b8 b9 b10 b11 b12 b13 b14 b15));
  (fun '(Locals16 b0 b1 b2 b3 b4 b5 b6 b7 b8 b9 b10 b11 b12 b13 b14 b15) => let tmp := b13 ^' b6 in let b13 := (tmp >>' 35) |' (tmp <<' (64 - 35)) in let b6 := b6 -' b13 in (Locals16 b0 b1 b2 b3 b4 b5 b6 b7 b8 b9 b10 b11 b12 b13 b14 b15));
  (fun '(Locals16 b0 b1 b2 b3 b4 b5 b6 b7 b8 b9 b10 b11 b12 b13 b14 b15) => let tmp := b11 ^' b2 in let b11 := (tmp >>' 48) |' (tmp <<' (64 - 48)) in let b2 := b2 -' b11 in (Locals16 b0 b1 b2 b3 b4 b5 b6 b7 b8 b9 b10 b11 b12 b13 b14 b15));
  (fun '(Locals16 b0 b1 b2 b3 b4 b5 b6 b7 b8 b9 b10 b11 b12 b13 b14 b15) => let tmp := b15 ^' b0 in let b15 := (tmp >>' 9) |' (tmp <<' (64 - 9)) in let b0 := b0 -' b15 in (Locals16 b0 b1 b2 b3 b4 b5 b6 b7 b8 b9 b10 b11 b12 b13 b14 b15));
  (* inverse of round 46 *)
  (fun '(Locals16 b0 b1 b2 b3 b4 b5 b6 b7 b8 b9 b10 b11 b12 b13 b14 b15) => let tmp := b9 ^' b10 in let b9 := (tmp >>' 25) |' (tmp <<' (64 - 25)) in let b10 := b10 -' b9 in (Locals16 b0 b1 b2 b3 b4 b5 b6 b7 b8 b9 b10 b11 b12 b13 b14 b15));
  (fun '(Locals16 b0 b1 b2 b3 b4 b5 b6 b7 b8 b9 b10 b11 b12 b13 b14 b15) => let tmp := b11 ^' b8 in let b11 := (tmp >>' 44) |' (tmp <<' (64 - 44)) in let b8 := b8 -' b11 in (Locals16 b0 b1 b2 b3 b4 b5 b6 b7 b8 b9 b10 b11 b12 b13 b14 b15));
  (fun '(Locals16 b0 b1 b2 b3 b4 b5 b6 b7 b8 b9 b10 b11 b12 b13 b14 b15) => let tmp := b13 ^' b14 in let b13 := (tmp >>' 42) |' (tmp <<' (64 - 42)) in let b14 := b14 -' b13 in (Locals16 b0 b1 b2 b3 b4 b5 b6 b7 b8 b9 b10 b11 b12 b13 b14 b15));
  (fun '(Locals16 b0 b1 b2 b3 b4 b5 b6 b7 b8 b9 b10 b11 b12 b13 b14 b15) => let tmp := b15 ^' b12 in let b15 := (tmp >>' 19) |' (tmp <<' (64 - 19)) in let b12 := b12 -' b15 in (Locals16 b0 b1 b2 b3 b4 b5 b6 b7 b8 b9 b10 b11 b12 b13 b14 b15));
  (fun '(Locals16 b0 b1 b2 b3 b4 b5 b6 b7 b8 b9 b10 b11 b12 b13 b14 b15) => let tmp := b1 ^' b6 in let b1 := (tmp >>' 46) |' (tmp <<' (64 - 46)) in let b6 := b6 -' b1 in (Locals16 b0 b1 b2 b3 b4 b5 b6 b7 b8 b9 b10 b11 b12 b13 b14 b15));
  (fun '(Locals16 b0 b1 b2 b3 b4 b5 b6 b7 b8 b9 b10 b11 b12 b13 b14 b15) => let tmp := b3 ^' b4 in let b3 := (tmp >>' 47) |' (tmp <<' (64 - 47)) in let b4 := b4 -' b3 in (Locals16 b0 b1 b2 b3 b4 b5 b6 b7 b8 b9 b10 b11 b12 b13 b14 b15));
  (fun '(Locals16 b0 b1 b2 b3 b4 b5 b6 b7 b8 b9 b10 b11 b12 b13 b14 b15) => let tmp := b5 ^' b2 in let b5 := (tmp >>' 44) |' (tmp <<' (64 - 44)) in let b2 := b2 -' b5 in (Locals16 b0 b1 b2 b3 b4 b5 b6 b7 b8 b9 b10 b11 b12 b13 b14 b15));
  (fun '(Locals16 b0 b1 b2 b3 b4 b5 b6 b7 b8 b9 b10 b11 b12 b13 b14 b15) => let tmp := b7 ^' b0 in let b7 := (tmp >>' 31) |' (tmp <<' (64 - 31)) in let b0 := b0 -' b7 in (Locals16 b0 b1 b2 b3 b4 b5 b6 b7 b8 b9 b10 b11 b12 b13 b14 b15));
  (* inverse of round 45 *)
  (fun '(Locals16 b0 b1 b2 b3 b4 b5 b6 b7 b8 b9 b10 b11 b12 b13 b14 b15) => let tmp := b1 ^' b8 in let b1 := (tmp >>' 41) |' (tmp <<' (64 - 41)) in let b8 := b8 -' b1 in (Locals16 b0 b1 b2 b3 b4 b5 b6 b7 b8 b9 b10 b11 b12 b13 b14 b15));
  (fun '(Locals16 b0 b1 b2 b3 b4 b5 b6 b7 b8 b9 b10 b11 b12 b13 b14 b15) => let tmp := b5 ^' b14 in let b5 := (tmp >>' 42) |' (tmp <<' (64 - 42)) in let b14 := b14 -' b5 in (Locals16 b0 b1 b2 b3 b4 b5 b6 b7 b8 b9 b10 b11 b12 b13 b14 b15));
  (fun '(Locals16 b0 b1 b2 b3 b4 b5 b6 b7 b8 b9 b10 b11 b12 b13 b14 b15) => let tmp := b3 ^' b12 in let b3 := (tmp >>' 53) |' (tmp <<' (64 - 53)) in let b12 := b12 -' b3 in (Locals16 b0 b1 b2 b3 b4 b5 b6 b7 b8 b9 b10 b11 b12 b13 b14 b15));
  (fun '(Locals16 b0 b1 b2 b3 b4 b5 b6 b7 b8 b9 b10 b11 b12 b13 b14 b15) => let tmp := b7 ^' b10 in let b7 := (tmp >>' 4) |' (tmp <<' (64 - 4)) in let b10 := b10 -' b7 in (Locals16 b0 b1 b2 b3 b4 b5 b6 b7 b8 b9 b10 b11 b12 b13 b14 b15));
  (fun '(Locals16 b0 b1 b2 b3 b4 b5 b6 b7 b8 b9 b10 b11 b12 b13 b14 b15) => let tmp := b15 ^' b4 in let b15 := (tmp >>' 51) |' (tmp <<' (64 - 51)) in let b4 := b4 -' b15 in (Locals16 b0 b1 b2 b3 b4 b5 b6 b7 b8 b9 b10 b11 b12 b13 b14 b15));
  (fun '(Locals16 b0 b1 b2 b3 b4 b5 b6 b7 b8 b9 b10 b11 b12 b13 b14 b15) => let tmp := b11 ^' b6 in let b11 := (tmp >>' 56) |' (tmp <<' (64 - 56)) in let b6 := b6 -' b11 in (Locals16 b0 b1 b2 b3 b4 b5 b6 b7 b8 b9 b10 b11 b12 b13 b14 b15));
  (fun '(Locals16 b0 b1 b2 b3 b4 b5 b6 b7 b8 b9 b10 b11 b12 b13 b14 b15) => let tmp := b13 ^' b2 in let b13 := (tmp >>' 34) |' (tmp <<' (64 - 34)) in let b2 := b2 -' b13 in (Locals16 b0 b1 b2 b3 b4 b5 b6 b7 b8 b9 b10 b11 b12 b13 b14 b15));
  (fun '(Locals16 b0 b1 b2 b3 b4 b5 b6 b7 b8 b9 b10 b11 b12 b13 b14 b15) => let tmp := b9 ^' b0 in let b9 := (tmp >>' 16) |' (tmp <<' (64 - 16)) in let b0 := b0 -' b9 in (Locals16 b0 b1 b2 b3 b4 b5 b6 b7 b8 b9 b10 b11 b12 b13 b14 b15));
  (* inverse of round 44 *)
  (fun '(Locals16 b0 b1 b2 b3 b4 b5 b6 b7 b8 b9 b10 b11 b12 b13 b14 b15) => let tmp := b15 ^' b14 in let b15 := (tmp >>' 30) |' (tmp <<' (64 - 30)) in let b14 := b14 -' (b15 +' k8 +' t0) in let b15 := b15 -' (k9 +' 11) in (Locals16 b0 b1 b2 b3 b4 b5 b6 b7 b8 b9 b10 b11 b12 b13 b14 b15));
  (fun '(Locals16 b0 b1 b2 b3 b4 b5 b6 b7 b8 b9 b10 b11 b12 b13 b14 b15) => let tmp := b13 ^' b12 in let b13 := (tmp >>' 44) |' (tmp <<' (64 - 44)) in let b12 := b12 -' (b13 +' k6) in let b13 := b13 -' (k7 +' t2) in (Locals16 b0 b1 b2 b3 b4 b5 b6 b7 b8 b9 b10 b11 b12 b13 b14 b15));
  (fun '(Locals16 b0 b1 b2 b3 b4 b5 b6 b7 b8 b9 b10 b11 b12 b13 b14 b15) => let tmp := b11 ^' b10 in let b11 := (tmp >>' 47) |' (tmp <<' (64 - 47)) in let b10 := b10 -' (b11 +' k4) in let b11 := b11 -' k5 in (Locals16 b0 b1 b2 b3 b4 b5 b6 b7 b8 b9 b10 b11 b12 b13 b14 b15));
  (fun '(Locals16 b0 b1 b2 b3 b4 b5 b6 b7 b8 b9 b10 b11 b12 b13 b14 b15) => let tmp := b9 ^' b8 in let b9 := (tmp >>' 12) |' (tmp <<' (64 - 12)) in let b8 := b8 -' (b9 +' k2) in let b9 := b9 -' k3 in (Locals16 b0 b1 b2 b3 b4 b5 b6 b7 b8 b9 b10 b11 b12 b13 b14 b15));
  (fun '(Locals16 b0 b1 b2 b3 b4 b5 b6 b7 b8 b9 b10 b11 b12 b13 b14 b15) => let tmp := b7 ^' b6 in let b7 := (tmp >>' 31) |' (tmp <<' (64 - 31)) in let b6 := b6 -' (b7 +' k0) in let b7 := b7 -' k1 in (Locals16 b0 b1 b2 b3 b4 b5 b6 b7 b8 b9 b10 b11 b12 b13 b14 b15));
  (fun '(Locals16 b0 b1 b2 b3 b4 b5 b6 b7 b8 b9 b10 b11 b12 b13 b14 b15) => let tmp := b5 ^' b4 in let b5 := (tmp >>' 37) |' (tmp <<' (64 - 37)) in let b4 := b4 -' (b5 +' k15) in let b5 := b5 -' k16 in (Locals16 b0 b1 b2 b3 b4 b5 b6 b7 b8 b9 b10 b11 b12 b13 b14 b15));
  (fun '(Locals16 b0 b1 b2 b3 b4 b5 b6 b7 b8 b9 b10 b11 b12 b13 b14 b15) => let tmp := b3 ^' b2 in let b3 := (tmp >>' 9) |' (tmp <<' (64 - 9)) in let b2 := b2 -' (b3 +' k13) in let b3 := b3 -' k14 in (Locals16 b0 b1 b2 b3 b4 b5 b6 b7 b8 b9 b10 b11 b12 b13 b14 b15));
  (fun '(Locals16 b0 b1 b2 b3 b4 b5 b6 b7 b8 b9 b10 b11 b12 b13 b14 b15) => let tmp := b1 ^' b0 in let b1 := (tmp >>' 41) |' (tmp <<' (64 - 41)) in let b0 := b0 -' (b1 +' k11) in let b1 := b1 -' k12 in (Locals16 b0 b1 b2 b3 b4 b5 b6 b7 b8 b9 b10 b11 b12 b13 b14 b15));
  (* inverse of round 43 *)
  (fun '(Locals16 b0 b1 b2 b3 b4 b5 b6 b7 b8 b9 b10 b11 b12 b13 b14 b15) => let tmp := b7 ^' b12 in let b7 := (tmp >>' 25) |' (tmp <<' (64 - 25)) in let b12 := b12 -' b7 in (Locals16 b0 b1 b2 b3 b4 b5 b6 b7 b8 b9 b10 b11 b12 b13 b14 b15));
  (fun '(Locals16 b0 b1 b2 b3 b4 b5 b6 b7 b8 b9 b10 b11 b12 b13 b14 b15) => let tmp := b3 ^' b10 in let b3 := (tmp >>' 16) |' (tmp <<' (64 - 16)) in let b10 := b10 -' b3 in (Locals16 b0 b1 b2 b3 b4 b5 b6 b7 b8 b9 b10 b11 b12 b13 b14 b15));
  (fun '(Locals16 b0 b1 b2 b3 b4 b5 b6 b7 b8 b9 b10 b11 b12 b13 b14 b15) => let tmp := b5 ^' b8 in let b5 := (tmp >>' 28) |' (tmp <<' (64 - 28)) in let b8 := b8 -' b5 in (Locals16 b0 b1 b2 b3 b4 b5 b6 b7 b8 b9 b10 b11 b12 b13 b14 b15));
  (fun '(Locals16 b0 b1 b2 b3 b4 b5 b6 b7 b8 b9 b10 b11 b12 b13 b14 b15) => let tmp := b1 ^' b14 in let b1 := (tmp >>' 47) |' (tmp <<' (64 - 47)) in let b14 := b14 -' b1 in (Locals16 b0 b1 b2 b3 b4 b5 b6 b7 b8 b9 b10 b11 b12 b13 b14 b15));
  (fun '(Locals16 b0 b1 b2 b3 b4 b5 b6 b7 b8 b9 b10 b11 b12 b13 b14 b15) => let tmp := b9 ^' b4 in let b9 := (tmp >>' 41) |' (tmp <<' (64 - 41)) in let b4 := b4 -' b9 in (Locals16 b0 b1 b2 b3 b4 b5 b6 b7 b8 b9 b10 b11 b12 b13 b14 b15));
  (fun '(Locals16 b0 b1 b2 b3 b4 b5 b6 b7 b8 b9 b10 b11 b12 b13 b14 b15) => let tmp := b13 ^' b6 in let b13 := (tmp >>' 48) |' (tmp <<' (64 - 48)) in let b6 := b6 -' b13 in (Locals16 b0 b1 b2 b3 b4 b5 b6 b7 b8 b9 b10 b11 b12 b13 b14 b15));
  (fun '(Locals16 b0 b1 b2 b3 b4 b5 b6 b7 b8 b9 b10 b11 b12 b13 b14 b15) => let tmp := b11 ^' b2 in let b11 := (tmp >>' 20) |' (tmp <<' (64 - 20)) in let b2 := b2 -' b11 in (Locals16 b0 b1 b2 b3 b4 b5 b6 b7 b8 b9 b10 b11 b12 b13 b14 b15));
  (fun '(Locals16 b0 b1 b2 b3 b4 b5 b6 b7 b8 b9 b10 b11 b12 b13 b14 b15) => let tmp := b15 ^' b0 in let b15 := (tmp >>' 5) |' (tmp <<' (64 - 5)) in let b0 := b0 -' b15 in (Locals16 b0 b1 b2 b3 b4 b5 b6 b7 b8 b9 b10 b11 b12 b13 b14 b15));
  (* inverse of round 42 *)
  (fun '(Locals16 b0 b1 b2 b3 b4 b5 b6 b7 b8 b9 b10 b11 b12 b13 b14 b15) => let tmp := b9 ^' b10 in let b9 := (tmp >>' 17) |' (tmp <<' (64 - 17)) in let b10 := b10 -' b9 in (Locals16 b0 b1 b2 b3 b4 b5 b6 b7 b8 b9 b10 b11 b12 b13 b14 b15));
  (fun '(Locals16 b0 b1 b2 b3 b4 b5 b6 b7 b8 b9 b10 b11 b12 b13 b14 b15) => let tmp := b11 ^' b8 in let b11 := (tmp >>' 59) |' (tmp <<' (64 - 59)) in let b8 := b8 -' b11 in (Locals16 b0 b1 b2 b3 b4 b5 b6 b7 b8 b9 b10 b11 b12 b13 b14 b15));
  (fun '(Locals16 b0 b1 b2 b3 b4 b5 b6 b7 b8 b9 b10 b11 b12 b13 b14 b15) => let tmp := b13 ^' b14 in let b13 := (tmp >>' 41) |' (tmp <<' (64 - 41)) in let b14 := b14 -' b13 in (Locals16 b0 b1 b2 b3 b4 b5 b6 b7 b8 b9 b10 b11 b12 b13 b14 b15));
  (fun '(Locals16 b0 b1 b2 b3 b4 b5 b6 b7 b8 b9 b10 b11 b12 b13 b14 b15) => let tmp := b15 ^' b12 in let b15 := (tmp >>' 34) |' (tmp <<' (64 - 34)) in let b12 := b12 -' b15 in (Locals16 b0 b1 b2 b3 b4 b5 b6 b7 b8 b9 b10 b11 b12 b13 b14 b15));
  (fun '(Locals16 b0 b1 b2 b3 b4 b5 b6 b7 b8 b9 b10 b11 b12 b13 b14 b15) => let tmp := b1 ^' b6 in let b1 := (tmp >>' 13) |' (tmp <<' (64 - 13)) in let b6 := b6 -' b1 in (Locals16 b0 b1 b2 b3 b4 b5 b6 b7 b8 b9 b10 b11 b12 b13 b14 b15));
  (fun '(Locals16 b0 b1 b2 b3 b4 b5 b6 b7 b8 b9 b10 b11 b12 b13 b14 b15) => let tmp := b3 ^' b4 in let b3 := (tmp >>' 51) |' (tmp <<' (64 - 51)) in let b4 := b4 -' b3 in (Locals16 b0 b1 b2 b3 b4 b5 b6 b7 b8 b9 b10 b11 b12 b13 b14 b15));
  (fun '(Locals16 b0 b1 b2 b3 b4 b5 b6 b7 b8 b9 b10 b11 b12 b13 b14 b15) => let tmp := b5 ^' b2 in let b5 := (tmp >>' 4) |' (tmp <<' (64 - 4)) in let b2 := b2 -' b5 in (Locals16 b0 b1 b2 b3 b4 b5 b6 b7 b8 b9 b10 b11 b12 b13 b14 b15));
  (fun '(Locals16 b0 b1 b2 b3 b4 b5 b6 b7 b8 b9 b10 b11 b12 b13 b14 b15) => let tmp := b7 ^' b0 in let b7 := (tmp >>' 33) |' (tmp <<' (64 - 33)) in let b0 := b0 -' b7 in (Locals16 b0 b1 b2 b3 b4 b5 b6 b7 b8 b9 b10 b11 b12 b13 b14 b15));
  (* inverse of round 41 *)
  (fun '(Locals16 b0 b1 b2 b3 b4 b5 b6 b7 b8 b9 b10 b11 b12 b13 b14 b15) => let tmp := b1 ^' b8 in let b1 := (tmp >>' 52) |' (tmp <<' (64 - 52)) in let b8 := b8 -' b1 in (Locals16 b0 b1 b2 b3 b4 b5 b6 b7 b8 b9 b10 b11 b12 b13 b14 b15));
  (fun '(Locals16 b0 b1 b2 b3 b4 b5 b6 b7 b8 b9 b10 b11 b12 b13 b14 b15) => let tmp := b5 ^' b14 in let b5 := (tmp >>' 23) |' (tmp <<' (64 - 23)) in let b14 := b14 -' b5 in (Locals16 b0 b1 b2 b3 b4 b5 b6 b7 b8 b9 b10 b11 b12 b13 b14 b15));
  (fun '(Locals16 b0 b1 b2 b3 b4 b5 b6 b7 b8 b9 b10 b11 b12 b13 b14 b15) => let tmp := b3 ^' b12 in let b3 := (tmp >>' 18) |' (tmp <<' (64 - 18)) in let b12 := b12 -' b3 in (Locals16 b0 b1 b2 b3 b4 b5 b6 b7 b8 b9 b10 b11 b12 b13 b14 b15));
  (fun '(Locals16 b0 b1 b2 b3 b4 b5 b6 b7 b8 b9 b10 b11 b12 b13 b14 b15) => let tmp := b7 ^' b10 in let b7 := (tmp >>' 49) |' (tmp <<' (64 - 49)) in let b10 := b10 -' b7 in (Locals16 b0 b1 b2 b3 b4 b5 b6 b7 b8 b9 b10 b11 b12 b13 b14 b15));
  (fun '(Locals16 b0 b1 b2 b3 b4 b5 b6 b7 b8 b9 b10 b11 b12 b13 b14 b15) => let tmp := b15 ^' b4 in let b15 := (tmp >>' 55) |' (tmp <<' (64 - 55)) in let b4 := b4 -' b15 in (Locals16 b0 b1 b2 b3 b4 b5 b6 b7 b8 b9 b10 b11 b12 b13 b14 b15));
  (fun '(Locals16 b0 b1 b2 b3 b4 b5 b6 b7 b8 b9 b10 b11 b12 b13 b14 b15) => let tmp := b11 ^' b6 in let b11 := (tmp >>' 10) |' (tmp <<' (64 - 10)) in let b6 := b6 -' b11 in (Locals16 b0 b1 b2 b3 b4 b5 b6 b7 b8 b9 b10 b11 b12 b13 b14 b15));
  (fun '(Locals16 b0 b1 b2 b3 b4 b5 b6 b7 b8 b9 b10 b11 b12 b13 b14 b15) => let tmp := b13 ^' b2 in let b13 := (tmp >>' 19) |' (tmp <<' (64 - 19)) in let b2 := b2 -' b13 in (Locals16 b0 b1 b2 b3 b4 b5 b6 b7 b8 b9 b10 b11 b12 b13 b14 b15));
  (fun '(Locals16 b0 b1 b2 b3 b4 b5 b6 b7 b8 b9 b10 b11 b12 b13 b14 b15) => let tmp := b9 ^' b0 in let b9 := (tmp >>' 38) |' (tmp <<' (64 - 38)) in let b0 := b0 -' b9 in (Locals16 b0 b1 b2 b3 b4 b5 b6 b7 b8 b9 b10 b11 b12 b13 b14 b15));
  (* inverse of round 40 *)
  (fun '(Locals16 b0 b1 b2 b3 b4 b5 b6 b7 b8 b9 b10 b11 b12 b13 b14 b15) => let tmp := b15 ^' b14 in let b15 := (tmp >>' 37) |' (tmp <<' (64 - 37)) in let b14 := b14 -' (b15 +' k7 +' t2) in let b15 := b15 -' (k8 +' 10) in (Locals16 b0 b1 b2 b3 b4 b5 b6 b7 b8 b9 b10 b11 b12 b13 b14 b15));
  (fun '(Locals16 b0 b1 b2 b3 b4 b5 b6 b7 b8 b9 b10 b11 b12 b13 b14 b15) => let tmp := b13 ^' b12 in let b13 := (tmp >>' 22) |' (tmp <<' (64 - 22)) in let b12 := b12 -' (b13 +' k5) in let b13 := b13 -' (k6 +' t1) in (Locals16 b0 b1 b2 b3 b4 b5 b6 b7 b8 b9 b10 b11 b12 b13 b14 b15));
  (fun '(Locals16 b0 b1 b2 b3 b4 b5 b6 b7 b8 b9 b10 b11 b12 b13 b14 b15) => let tmp := b11 ^' b10 in let b11 := (tmp >>' 17) |' (tmp <<' (64 - 17)) in let b10 := b10 -' (b11 +' k3) in let b11 := b11 -' k4 in (Locals16 b0 b1 b2 b3 b4 b5 b6 b7 b8 b9 b10 b11 b12 b13 b14 b15));
  (fun '(Locals16 b0 b1 b2 b3 b4 b5 b6 b7 b8 b9 b10 b11 b12 b13 b14 b15) => let tmp := b9 ^' b8 in let b9 := (tmp >>' 8) |' (tmp <<' (64 - 8)) in let b8 := b8 -' (b9 +' k1) in let b9 := b9 -' k2 in (Locals16 b0 b1 b2 b3 b4 b5 b6 b7 b8 b9 b10 b11 b12 b13 b14 b15));
  (fun '(Locals16 b0 b1 b2 b3 b4 b5 b6 b7 b8 b9 b10 b11 b12 b13 b14 b15) => let tmp := b7 ^' b6 in let b7 := (tmp >>' 47) |' (tmp <<' (64 - 47)) in let b6 := b6 -' (b7 +' k16) in let b7 := b7 -' k0 in (Locals16 b0 b1 b2 b3 b4 b5 b6 b7 b8 b9 b10 b11 b12 b13 b14 b15));
  (fun '(Locals16 b0 b1 b2 b3 b4 b5 b6 b7 b8 b9 b10 b11 b12 b13 b14 b15) => let tmp := b5 ^' b4 in let b5 := (tmp >>' 8) |' (tmp <<' (64 - 8)) in let b4 := b4 -' (b5 +' k14) in let b5 := b5 -' k15 in (Locals16 b0 b1 b2 b3 b4 b5 b6 b7 b8 b9 b10 b11 b12 b13 b14 b15));
  (fun '(Locals16 b0 b1 b2 b3 b4 b5 b6 b7 b8 b9 b10 b11 b12 b13 b14 b15) => let tmp := b3 ^' b2 in let b3 := (tmp >>' 13) |' (tmp <<' (64 - 13)) in let b2 := b2 -' (b3 +' k12) in let b3 := b3 -' k13 in (Locals16 b0 b1 b2 b3 b4 b5 b6 b7 b8 b9 b10 b11 b12 b13 b14 b15));
  (fun '(Locals16 b0 b1 b2 b3 b4 b5 b6 b7 b8 b9 b10 b11 b12 b13 b14 b15) => let tmp := b1 ^' b0 in let b1 := (tmp >>' 24) |' (tmp <<' (64 - 24)) in let b0 := b0 -' (b1 +' k10) in let b1 := b1 -' k11 in (Locals16 b0 b1 b2 b3 b4 b5 b6 b7 b8 b9 b10 b11 b12 b13 b14 b15));
  (* inverse of round 39 *)
  (fun '(Locals16 b0 b1 b2 b3 b4 b5 b6 b7 b8 b9 b10 b11 b12 b13 b14 b15) => let tmp := b7 ^' b12 in let b7 := (tmp >>' 20) |' (tmp <<' (64 - 20)) in let b12 := b12 -' b7 in (Locals16 b0 b1 b2 b3 b4 b5 b6 b7 b8 b9 b10 b11 b12 b13 b14 b15));
  (fun '(Locals16 b0 b1 b2 b3 b4 b5 b6 b7 b8 b9 b10 b11 b12 b13 b14 b15) => let tmp := b3 ^' b10 in let b3 := (tmp >>' 37) |' (tmp <<' (64 - 37)) in let b10 := b10 -' b3 in (Locals16 b0 b1 b2 b3 b4 b5 b6 b7 b8 b9 b10 b11 b12 b13 b14 b15));
  (fun '(Locals16 b0 b1 b2 b3 b4 b5 b6 b7 b8 b9 b10 b11 b12 b13 b14 b15) => let tmp := b5 ^' b8 in let b5 := (tmp >>' 31) |' (tmp <<' (64 - 31)) in let b8 := b8 -' b5 in (Locals16 b0 b1 b2 b3 b4 b5 b6 b7 b8 b9 b10 b11 b12 b13 b14 b15));
  (fun '(Locals16 b0 b1 b2 b3 b4 b5 b6 b7 b8 b9 b10 b11 b12 b13 b14 b15) => let tmp := b1 ^' b14 in let b1 := (tmp >>' 23) |' (tmp <<' (64 - 23)) in let b14 := b14 -' b1 in (Locals16 b0 b1 b2 b3 b4 b5 b6 b7 b8 b9 b10 b11 b12 b13 b14 b15));
  (fun '(Locals16 b0 b1 b2 b3 b4 b5 b6 b7 b8 b9 b10 b11 b12 b13 b14 b15) => let tmp := b9 ^' b4 in let b9 := (tmp >>' 52) |' (tmp <<' (64 - 52)) in let b4 := b4 -' b9 in (Locals16 b0 b1 b2 b3 b4 b5 b6 b7 b8 b9 b10 b11 b12 b13 b14 b15));
  (fun '(Locals16 b0 b1 b2 b3 b4 b5 b6 b7 b8 b9 b10 b11 b12 b13 b14 b15) => let tmp := b13 ^' b6 in let b13 := (tmp >>' 35) |' (tmp <<' (64 - 35)) in let b6 := b6 -' b13 in (Locals16 b0 b1 b2 b3 b4 b5 b6 b7 b8 b9 b10 b11 b12 b13 b14 b15));
  (fun '(Locals16 b0 b1 b2 b3 b4 b5 b6 b7 b8 b9 b10 b11 b12 b13 b14 b15) => let tmp := b11 ^' b2 in let b11 := (tmp >>' 48) |' (tmp <<' (64 - 48)) in let b2 := b2 -' b11 in (Locals16 b0 b1 b2 b3 b4 b5 b6 b7 b8 b9 b10 b11 b12 b13 b14 b15));
  (fun '(Locals16 b0 b1 b2 b3 b4 b5 b6 b7 b8 b9 b10 b11 b12 b13 b14 b15) => let tmp := b15 ^' b0 in let b15 := (tmp >>' 9) |' (tmp <<' (64 - 9)) in let b0 := b0 -' b15 in (Locals16 b0 b1 b2 b3 b4 b5 b6 b7 b8 b9 b10 b11 b12 b13 b14 b15));
  (* inverse of round 38 *)
  (fun '(Locals16 b0 b1 b2 b3 b4 b5 b6 b7 b8 b9 b10 b11 b12 b13 b14 b15) => let tmp := b9 ^' b10 in let b9 := (tmp >>' 25) |' (tmp <<' (64 - 25)) in let b10 := b10 -' b9 in (Locals16 b0 b1 b2 b3 b4 b5 b6 b7 b8 b9 b10 b11 b12 b13 b14 b15));
  (fun '(Locals16 b0 b1 b2 b3 b4 b5 b6 b7 b8 b9 b10 b11 b12 b13 b14 b15) => let tmp := b11 ^' b8 in let b11 := (tmp >>' 44) |' (tmp <<' (64 - 44)) in let b8 := b8 -' b11 in (Locals16 b0 b1 b2 b3 b4 b5 b6 b7 b8 b9 b10 b11 b12 b13 b14 b15));
  (fun '(Locals16 b0 b1 b2 b3 b4 b5 b6 b7 b8 b9 b10 b11 b12 b13 b14 b15) => let tmp := b13 ^' b14 in let b13 := (tmp >>' 42) |' (tmp <<' (64 - 42)) in let b14 := b14 -' b13 in (Locals16 b0 b1 b2 b3 b4 b5 b6 b7 b8 b9 b10 b11 b12 b13 b14 b15));
  (fun '(Locals16 b0 b1 b2 b3 b4 b5 b6 b7 b8 b9 b10 b11 b12 b13 b14 b15) => let tmp := b15 ^' b12 in let b15 := (tmp >>' 19) |' (tmp <<' (64 - 19)) in let b12 := b12 -' b15 in (Locals16 b0 b1 b2 b3 b4 b5 b6 b7 b8 b9 b10 b11 b12 b13 b14 b15));
  (fun '(Locals16 b0 b1 b2 b3 b4 b5 b6 b7 b8 b9 b10 b11 b12 b13 b14 b15) => let tmp := b1 ^' b6 in let b1 := (tmp >>' 46) |' (tmp <<' (64 - 46)) in let b6 := b6 -' b1 in (Locals16 b0 b1 b2 b3 b4 b5 b6 b7 b8 b9 b10 b11 b12 b13 b14 b15));
  (fun '(Locals16 b0 b1 b2 b3 b4 b5 b6 b7 b8 b9 b10 b11 b12 b13 b14 b15) => let tmp := b3 ^' b4 in let b3 := (tmp >>' 47) |' (tmp <<' (64 - 47)) in let b4 := b4 -' b3 in (Locals16 b0 b1 b2 b3 b4 b5 b6 b7 b8 b9 b10 b11 b12 b13 b14 b15));
  (fun '(Locals16 b0 b1 b2 b3 b4 b5 b6 b7 b8 b9 b10 b11 b12 b13 b14 b15) => let tmp := b5 ^' b2 in let b5 := (tmp >>' 44) |' (tmp <<' (64 - 44)) in let b2 := b2 -' b5 in (Locals16 b0 b1 b2 b3 b4 b5 b6 b7 b8 b9 b10 b11 b12 b13 b14 b15));
  (fun '(Locals16 b0 b1 b2 b3 b4 b5 b6 b7 b8 b9 b10 b11 b12 b13 b14 b15) => let tmp := b7 ^' b0 in let b7 := (tmp >>' 31) |' (tmp <<' (64 - 31)) in let b0 := b0 -' b7 in (Locals16 b0 b1 b2 b3 b4 b5 b6 b7 b8 b9 b10 b11 b12 b13 b14 b15));
  (* inverse of round 37 *)
  (fun '(Locals16 b0 b1 b2 b3 b4 b5 b6 b7 b8 b9 b10 b11 b12 b13 b14 b15) => let tmp := b1 ^' b8 in let b1 := (tmp >>' 41) |' (tmp <<' (64 - 41)) in let b8 := b8 -' b1 in (Locals16 b0 b1 b2 b3 b4 b5 b6 b7 b8 b9 b10 b11 b12 b13 b14 b15));
  (fun '(Locals16 b0 b1 b2 b3 b4 b5 b6 b7 b8 b9 b10 b11 b12 b13 b14 b15) => let tmp := b5 ^' b14 in let b5 := (tmp >>' 42) |' (tmp <<' (64 - 42)) in let b14 := b14 -' b5 in (Locals16 b0 b1 b2 b3 b4 b5 b6 b7 b8 b9 b10 b11 b12 b13 b14 b15));
  (fun '(Locals16 b0 b1 b2 b3 b4 b5 b6 b7 b8 b9 b10 b11 b12 b13 b14 b15) => let tmp := b3 ^' b12 in let b3 := (tmp >>' 53) |' (tmp <<' (64 - 53)) in let b12 := b12 -' b3 in (Locals16 b0 b1 b2 b3 b4 b5 b6 b7 b8 b9 b10 b11 b12 b13 b14 b15));
  (fun '(Locals16 b0 b1 b2 b3 b4 b5 b6 b7 b8 b9 b10 b11 b12 b13 b14 b15) => let tmp := b7 ^' b10 in let b7 := (tmp >>' 4) |' (tmp <<' (64 - 4)) in let b10 := b10 -' b7 in (Locals16 b0 b1 b2 b3 b4 b5 b6 b7 b8 b9 b10 b11 b12 b13 b14 b15));
  (fun '(Locals16 b0 b1 b2 b3 b4 b5 b6 b7 b8 b9 b10 b11 b12 b13 b14 b15) => let tmp := b15 ^' b4 in let b15 := (tmp >>' 51) |' (tmp <<' (64 - 51)) in let b4 := b4 -' b15 in (Locals16 b0 b1 b2 b3 b4 b5 b6 b7 b8 b9 b10 b11 b12 b13 b14 b15));
  (fun '(Locals16 b0 b1 b2 b3 b4 b5 b6 b7 b8 b9 b10 b11 b12 b13 b14 b15) => let tmp := b11 ^' b6 in let b11 := (tmp >>' 56) |' (tmp <<' (64 - 56)) in let b6 := b6 -' b11 in (Locals16 b0 b1 b2 b3 b4 b5 b6 b7 b8 b9 b10 b11 b12 b13 b14 b15));
  (fun '(Locals16 b0 b1 b2 b3 b4 b5 b6 b7 b8 b9 b10 b11 b12 b13 b14 b15) => let tmp := b13 ^' b2 in let b13 := (tmp >>' 34) |' (tmp <<' (64 - 34)) in let b2 := b2 -' b13 in (Locals16 b0 b1 b2 b3 b4 b5 b6 b7 b8 b9 b10 b11 b12 b13 b14 b15));
  (fun '(Locals16 b0 b1 b2 b3 b4 b5 b6 b7 b8 b9 b10 b11 b12 b13 b14 b15) => let tmp := b9 ^' b0 in let b9 := (tmp >>' 16) |' (tmp <<' (64 - 16)) in let b0 := b0 -' b9 in (Locals16 b0 b1 b2 b3 b4 b5 b6 b7 b8 b9 b10 b11 b12 b13 b14 b15));
  (* inverse of round 36 *)
  (fun '(Locals16 b0 b1 b2 b3 b4 b5 b6 b7 b8 b9 b10 b11 b12 b13 b14 b15) => let tmp := b15 ^' b14 in let b15 := (tmp >>' 30) |' (tmp <<' (64 - 30)) in let b14 := b14 -' (b15 +' k6 +' t1) in let b15 := b15 -' (k7 +' 9) in (Locals16 b0 b1 b2 b3 b4 b5 b6 b7 b8 b9 b10 b11 b12 b13 b14 b15));
  (fun '(Locals16 b0 b1 b2 b3 b4 b5 b6 b7 b8 b9 b10 b11 b12 b13 b14 b15) => let tmp := b13 ^' b12 in let b13 := (tmp >>' 44) |' (tmp <<' (64 - 44)) in let b12 := b12 -' (b13 +' k4) in let b13 := b13 -' (k5 +' t0) in (Locals16 b0 b1 b2 b3 b4 b5 b6 b7 b8 b9 b10 b11 b12 b13 b14 b15));
  (fun '(Locals16 b0 b1 b2 b3 b4 b5 b6 b7 b8 b9 b10 b11 b12 b13 b14 b15) => let tmp := b11 ^' b10 in let b11 := (tmp >>' 47) |' (tmp <<' (64 - 47)) in let b10 := b10 -' (b11 +' k2) in let b11 := b11 -' k3 in (Locals16 b0 b1 b2 b3 b4 b5 b6 b7 b8 b9 b10 b11 b12 b13 b14 b15));
  (fun '(Locals16 b0 b1 b2 b3 b4 b5 b6 b7 b8 b9 b10 b11 b12 b13 b14 b15) => let tmp := b9 ^' b8 in let b9 := (tmp >>' 12) |' (tmp <<' (64 - 12)) in let b8 := b8 -' (b9 +' k0) in let b9 := b9 -' k1 in (Locals16 b0 b1 b2 b3 b4 b5 b6 b7 b8 b9 b10 b11 b12 b13 b14 b15));
  (fun '(Locals16 b0 b1 b2 b3 b4 b5 b6 b7 b8 b9 b10 b11 b12 b13 b14 b15) => let tmp := b7 ^' b6 in let b7 := (tmp >>' 31) |' (tmp <<' (64 - 31)) in let b6 := b6 -' (b7 +' k15) in let b7 := b7 -' k16 in (Locals16 b0 b1 b2 b3 b4 b5 b6 b7 b8 b9 b10 b11 b12 b13 b14 b15));
  (fun '(Locals16 b0 b1 b2 b3 b4 b5 b6 b7 b8 b9 b10 b11 b12 b13 b14 b15) => let tmp := b5 ^' b4 in let b5 := (tmp >>' 37) |' (tmp <<' (64 - 37)) in let b4 := b4 -' (b5 +' k13) in let b5 := b5 -' k14 in (Locals16 b0 b1 b2 b3 b4 b5 b6 b7 b8 b9 b10 b11 b12 b13 b14 b15));
  (fun '(Locals16 b0 b1 b2 b3 b4 b5 b6 b7 b8 b9 b10 b11 b12 b13 b14 b15) => let tmp := b3 ^' b2 in let b3 := (tmp >>' 9) |' (tmp <<' (64 - 9)) in let b2 := b2 -' (b3 +' k11) in let b3 := b3 -' k12 in (Locals16 b0 b1 b2 b3 b4 b5 b6 b7 b8 b9 b10 b11 b12 b13 b14 b15));
  (fun '(Locals16 b0 b1 b2 b3 b4 b5 b6 b7 b8 b9 b10 b11 b12 b13 b14 b15) => let tmp := b1 ^' b0 in let b1 := (tmp >>' 41) |' (tmp <<' (64 - 41)) in let b0 := b0 -' (b1 +' k9) in let b1 := b1 -' k10 in (Locals16 b0 b1 b2 b3 b4 b5 b6 b7 b8 b9 b10 b11 b12 b13 b14 b15));
  (* inverse of round 35 *)
  (fun '(Locals16 b0 b1 b2 b3 b4 b5 b6 b7 b8 b9 b10 b11 b12 b13 b14 b15) => let tmp := b7 ^' b12 in let b7 := (tmp >>' 25) |' (tmp <<' (64 - 25)) in let b12 := b12 -' b7 in (Locals16 b0 b1 b2 b3 b4 b5 b6 b7 b8 b9 b10 b11 b12 b13 b14 b15));
  (fun '(Locals16 b0 b1 b2 b3 b4 b5 b6 b7 b8 b9 b10 b11 b12 b13 b14 b15) => let tmp := b3 ^' b10 in let b3 := (tmp >>' 16) |' (tmp <<' (64 - 16)) in let b10 := b10 -' b3 in (Locals16 b0 b1 b2 b3 b4 b5 b6 b7 b8 b9 b10 b11 b12 b13 b14 b15));
  (fun '(Locals16 b0 b1 b2 b3 b4 b5 b6 b7 b8 b9 b10 b11 b12 b13 b14 b15) => let tmp := b5 ^' b8 in let b5 := (tmp >>' 28) |' (tmp <<' (64 - 28)) in let b8 := b8 -' b5 in (Locals16 b0 b1 b2 b3 b4 b5 b6 b7 b8 b9 b10 b11 b12 b13 b14 b15));
  (fun '(Locals16 b0 b1 b2 b3 b4 b5 b6 b7 b8 b9 b10 b11 b12 b13 b14 b15) => let tmp := b1 ^' b14 in let b1 := (tmp >>' 47) |' (tmp <<' (64 - 47)) in let b14 := b14 -' b1 in (Locals16 b0 b1 b2 b3 b4 b5 b6 b7 b8 b9 b10 b11 b12 b13 b14 b15));
  (fun '(Locals16 b0 b1 b2 b3 b4 b5 b6 b7 b8 b9 b10 b11 b12 b13 b14 b15) => let tmp := b9 ^' b4 in let b9 := (tmp >>' 41) |' (tmp <<' (64 - 41)) in let b4 := b4 -' b9 in (Locals16 b0 b1 b2 b3 b4 b5 b6 b7 b8 b9 b10 b11 b12 b13 b14 b15));
  (fun '(Locals16 b0 b1 b2 b3 b4 b5 b6 b7 b8 b9 b10 b11 b12 b13 b14 b15) => let tmp := b13 ^' b6 in let b13 := (tmp >>' 48) |' (tmp <<' (64 - 48)) in let b6 := b6 -' b13 in (Locals16 b0 b1 b2 b3 b4 b5 b6 b7 b8 b9 b10 b11 b12 b13 b14 b15));
  (fun '(Locals16 b0 b1 b2 b3 b4 b5 b6 b7 b8 b9 b10 b11 b12 b13 b14 b15) => let tmp := b11 ^' b2 in let b11 := (tmp >>' 20) |' (tmp <<' (64 - 20)) in let b2 := b2 -' b11 in (Locals16 b0 b1 b2 b3 b4 b5 b6 b7 b8 b9 b10 b11 b12 b13 b14 b15));
  (fun '(Locals16 b0 b1 b2 b3 b4 b5 b6 b7 b8 b9 b10 b11 b12 b13 b14 b15) => let tmp := b15 ^' b0 in let b15 := (tmp >>' 5) |' (tmp <<' (64 - 5)) in let b0 := b0 -' b15 in (Locals16 b0 b1 b2 b3 b4 b5 b6 b7 b8 b9 b10 b11 b12 b13 b14 b15));
  (* inverse of round 34 *)
  (fun '(Locals16 b0 b1 b2 b3 b4 b5 b6 b7 b8 b9 b10 b11 b12 b13 b14 b15) => let tmp := b9 ^' b10 in let b9 := (tmp >>' 17) |' (tmp <<' (64 - 17)) in let b10 := b10 -' b9 in (Locals16 b0 b1 b2 b3 b4 b5 b6 b7 b8 b9 b10 b11 b12 b13 b14 b15));
  (fun '(Locals16 b0 b1 b2 b3 b4 b5 b6 b7 b8 b9 b10 b11 b12 b13 b14 b15) => let tmp := b11 ^' b8 in let b11 := (tmp >>' 59) |' (tmp <<' (64 - 59)) in let b8 := b8 -' b11 in (Locals16 b0 b1 b2 b3 b4 b5 b6 b7 b8 b9 b10 b11 b12 b13 b14 b15));
  (fun '(Locals16 b0 b1 b2 b3 b4 b5 b6 b7 b8 b9 b10 b11 b12 b13 b14 b15) => let tmp := b13 ^' b14 in let b13 := (tmp >>' 41) |' (tmp <<' (64 - 41)) in let b14 := b14 -' b13 in (Locals16 b0 b1 b2 b3 b4 b5 b6 b7 b8 b9 b10 b11 b12 b13 b14 b15));
  (fun '(Locals16 b0 b1 b2 b3 b4 b5 b6 b7 b8 b9 b10 b11 b12 b13 b14 b15) => let tmp := b15 ^' b12 in let b15 := (tmp >>' 34) |' (tmp <<' (64 - 34)) in let b12 := b12 -' b15 in (Locals16 b0 b1 b2 b3 b4 b5 b6 b7 b8 b9 b10 b11 b12 b13 b14 b15));
  (fun '(Locals16 b0 b1 b2 b3 b4 b5 b6 b7 b8 b9 b10 b11 b12 b13 b14 b15) => let tmp := b1 ^' b6 in let b1 := (tmp >>' 13) |' (tmp <<' (64 - 13)) in let b6 := b6 -' b1 in (Locals16 b0 b1 b2 b3 b4 b5 b6 b7 b8 b9 b10 b11 b12 b13 b14 b15));
  (fun '(Locals16 b0 b1 b2 b3 b4 b5 b6 b7 b8 b9 b10 b11 b12 b13 b14 b15) => let tmp := b3 ^' b4 in let b3 := (tmp >>' 51) |' (tmp <<' (64 - 51)) in let b4 := b4 -' b3 in (Locals16 b0 b1 b2 b3 b4 b5 b6 b7 b8 b9 b10 b11 b12 b13 b14 b15));
  (fun '(Locals16 b0 b1 b2 b3 b4 b5 b6 b7 b8 b9 b10 b11 b12 b13 b14 b15) => let tmp := b5 ^' b2 in let b5 := (tmp >>' 4) |' (tmp <<' (64 - 4)) in let b2 := b2 -' b5 in (Locals16 b0 b1 b2 b3 b4 b5 b6 b7 b8 b9 b10 b11 b12 b13 b14 b15));
  (fun '(Locals16 b0 b1 b2 b3 b4 b5 b6 b7 b8 b9 b10 b11 b12 b13 b14 b15) => let tmp := b7 ^' b0 in let b7 := (tmp >>' 33) |' (tmp <<' (64 - 33)) in let b0 := b0 -' b7 in (Locals16 b0 b1 b2 b3 b4 b5 b6 b7 b8 b9 b10 b11 b12 b13 b14 b15));
  (* inverse of round 33 *)
  (fun '(Locals16 b0 b1 b2 b3 b4 b5 b6 b7 b8 b9 b10 b11 b12 b13 b14 b15) => let tmp := b1 ^' b8 in let b1 := (tmp >>' 52) |' (tmp <<' (64 - 52)) in let b8 := b8 -' b1 in (Locals16 b0 b1 b2 b3 b4 b5 b6 b7 b8 b9 b10 b11 b12 b13 b14 b15));
  (fun '(Locals16 b0 b1 b2 b3 b4 b5 b6 b7 b8 b9 b10 b11 b12 b13 b14 b15) => let tmp := b5 ^' b14 in let b5 := (tmp >>' 23) |' (tmp <<' (64 - 23)) in let b14 := b14 -' b5 in (Locals16 b0 b1 b2 b3 b4 b5 b6 b7 b8 b9 b10 b11 b12 b13 b14 b15));
  (fun '(Locals16 b0 b1 b2 b3 b4 b5 b6 b7 b8 b9 b10 b11 b12 b13 b14 b15) => let tmp := b3 ^' b12 in let b3 := (tmp >>' 18) |' (tmp <<' (64 - 18)) in let b12 := b12 -' b3 in (Locals16 b0 b1 b2 b3 b4 b5 b6 b7 b8 b9 b10 b11 b12 b13 b14 b15));
  (fun '(Locals16 b0 b1 b2 b3 b4 b5 b6 b7 b8 b9 b10 b11 b12 b13 b14 b15) => let tmp := b7 ^' b10 in let b7 := (tmp >>' 49) |' (tmp <<' (64 - 49)) in let b10 := b10 -' b7 in (Locals16 b0 b1 b2 b3 b4 b5 b6 b7 b8 b9 b10 b11 b12 b13 b14 b15));
  (fun '(Locals16 b0 b1 b2 b3 b4 b5 b6 b7 b8 b9 b10 b11 b12 b13 b14 b15) => let tmp := b15 ^' b4 in let b15 := (tmp >>' 55) |' (tmp <<' (64 - 55)) in let b4 := b4 -' b15 in (Locals16 b0 b1 b2 b3 b4 b5 b6 b7 b8 b9 b10 b11 b12 b13 b14 b15));
  (fun '(Locals16 b0 b1 b2 b3 b4 b5 b6 b7 b8 b9 b10 b11 b12 b13 b14 b15) => let tmp := b11 ^' b6 in let b11 := (tmp >>' 10) |' (tmp <<' (64 - 10)) in let b6 := b6 -' b11 in (Locals16 b0 b1 b2 b3 b4 b5 b6 b7 b8 b9 b10 b11 b12 b13 b14 b15));
  (fun '(Locals16 b0 b1 b2 b3 b4 b5 b6 b7 b8 b9 b10 b11 b12 b13 b14 b15) => let tmp := b13 ^' b2 in let b13 := (tmp >>' 19) |' (tmp <<' (64 - 19)) in let b2 := b2 -' b13 in (Locals16 b0 b1 b2 b3 b4 b5 b6 b7 b8 b9 b10 b11 b12 b13 b14 b15));
  (fun '(Locals16 b0 b1 b2 b3 b4 b5 b6 b7 b8 b9 b10 b11 b12 b13 b14 b15) => let tmp := b9 ^' b0 in let b9 := (tmp >>' 38) |' (tmp <<' (64 - 38)) in let b0 := b0 -' b9 in (Locals16 b0 b1 b2 b3 b4 b5 b6 b7 b8 b9 b10 b11 b12 b13 b14 b15));
  (* inverse of round 32 *)
  (fun '(Locals16 b0 b1 b2 b3 b4 b5 b6 b7 b8 b9 b10 b11 b12 b13 b14 b15) => let tmp := b15 ^' b14 in let b15 := (tmp >>' 37) |' (tmp <<' (64 - 37)) in let b14 := b14 -' (b15 +' k5 +' t0) in let b15 := b15 -' (k6 +' 8) in (Locals16 b0 b1 b2 b3 b4 b5 b6 b7 b8 b9 b10 b11 b12 b13 b14 b15));
  (fun '(Locals16 b0 b1 b2 b3 b4 b5 b6 b7 b8 b9 b10 b11 b12 b13 b14 b15) => let tmp := b13 ^' b12 in let b13 := (tmp >>' 22) |' (tmp <<' (64 - 22)) in let b12 := b12 -' (b13 +' k3) in let b13 := b13 -' (k4 +' t2) in (Locals16 b0 b1 b2 b3 b4 b5 b6 b7 b8 b9 b10 b11 b12 b13 b14 b15));
  (fun '(Locals16 b0 b1 b2 b3 b4 b5 b6 b7 b8 b9 b10 b11 b12 b13 b14 b15) => let tmp := b11 ^' b10 in let b11 := (tmp >>' 17) |' (tmp <<' (64 - 17)) in let b10 := b10 -' (b11 +' k1) in let b11 := b11 -' k2 in (Locals16 b0 b1 b2 b3 b4 b5 b6 b7 b8 b9 b10 b11 b12 b13 b14 b15));
  (fun '(Locals16 b0 b1 b2 b3 b4 b5 b6 b7 b8 b9 b10 b11 b12 b13 b14 b15) => let tmp := b9 ^' b8 in let b9 := (tmp >>' 8) |' (tmp <<' (64 - 8)) in let b8 := b8 -' (b9 +' k16) in let b9 := b9 -' k0 in (Locals16 b0 b1 b2 b3 b4 b5 b6 b7 b8 b9 b10 b11 b12 b13 b14 b15));
  (fun '(Locals16 b0 b1 b2 b3 b4 b5 b6 b7 b8 b9 b10 b11 b12 b13 b14 b15) => let tmp := b7 ^' b6 in let b7 := (tmp >>' 47) |' (tmp <<' (64 - 47)) in let b6 := b6 -' (b7 +' k14) in let b7 := b7 -' k15 in (Locals16 b0 b1 b2 b3 b4 b5 b6 b7 b8 b9 b10 b11 b12 b13 b14 b15));
  (fun '(Locals16 b0 b1 b2 b3 b4 b5 b6 b7 b8 b9 b10 b11 b12 b13 b14 b15) => let tmp := b5 ^' b4 in let b5 := (tmp >>' 8) |' (tmp <<' (64 - 8)) in let b4 := b4 -' (b5 +' k12) in let b5 := b5 -' k13 in (Locals16 b0 b1 b2 b3 b4 b5 b6 b7 b8 b9 b10 b11 b12 b13 b14 b15));
  (fun '(Locals16 b0 b1 b2 b3 b4 b5 b6 b7 b8 b9 b10 b11 b12 b13 b14 b15) => let tmp := b3 ^' b2 in let b3 := (tmp >>' 13) |' (tmp <<' (64 - 13)) in let b2 := b2 -' (b3 +' k10) in let b3 := b3 -' k11 in (Locals16 b0 b1 b2 b3 b4 b5 b6 b7 b8 b9 b10 b11 b12 b13 b14 b15));
  (fun '(Locals16 b0 b1 b2 b3 b4 b5 b6 b7 b8 b9 b10 b11 b12 b13 b14 b15) => let tmp := b1 ^' b0 in let b1 := (tmp >>' 24) |' (tmp <<' (64 - 24)) in let b0 := b0 -' (b1 +' k8) in let b1 := b1 -' k9 in (Locals16 b0 b1 b2 b3 b4 b5 b6 b7 b8 b9 b10 b11 b12 b13 b14 b15));
  (* inverse of round 31 *)
  (fun '(Locals16 b0 b1 b2 b3 b4 b5 b6 b7 b8 b9 b10 b11 b12 b13 b14 b15) => let tmp := b7 ^' b12 in let b7 := (tmp >>' 20) |' (tmp <<' (64 - 20)) in let b12 := b12 -' b7 in (Locals16 b0 b1 b2 b3 b4 b5 b6 b7 b8 b9 b10 b11 b12 b13 b14 b15));
  (fun '(Locals16 b0 b1 b2 b3 b4 b5 b6 b7 b8 b9 b10 b11 b12 b13 b14 b15) => let tmp := b3 ^' b10 in let b3 := (tmp >>' 37) |' (tmp <<' (64 - 37)) in let b10 := b10 -' b3 in (Locals16 b0 b1 b2 b3 b4 b5 b6 b7 b8 b9 b10 b11 b12 b13 b14 b15));
  (fun '(Locals16 b0 b1 b2 b3 b4 b5 b6 b7 b8 b9 b10 b11 b12 b13 b14 b15) => let tmp := b5 ^' b8 in let b5 := (tmp >>' 31) |' (tmp <<' (64 - 31)) in let b8 := b8 -' b5 in (Locals16 b0 b1 b2 b3 b4 b5 b6 b7 b8 b9 b10 b11 b12 b13 b14 b15));
  (fun '(Locals16 b0 b1 b2 b3 b4 b5 b6 b7 b8 b9 b10 b11 b12 b13 b14 b15) => let tmp := b1 ^' b14 in let b1 := (tmp >>' 23) |' (tmp <<' (64 - 23)) in let b14 := b14 -' b1 in (Locals16 b0 b1 b2 b3 b4 b5 b6 b7 b8 b9 b10 b11 b12 b13 b14 b15));
  (fun '(Locals16 b0 b1 b2 b3 b4 b5 b6 b7 b8 b9 b10 b11 b12 b13 b14 b15) => let tmp := b9 ^' b4 in let b9 := (tmp >>' 52) |' (tmp <<' (64 - 52)) in let b4 := b4 -' b9 in (Locals16 b0 b1 b2 b3 b4 b5 b6 b7 b8 b9 b10 b11 b12 b13 b14 b15));
  (fun '(Locals16 b0 b1 b2 b3 b4 b5 b6 b7 b8 b9 b10 b11 b12 b13 b14 b15) => let tmp := b13 ^' b6 in let b13 := (tmp >>' 35) |' (tmp <<' (64 - 35)) in let b6 := b6 -' b13 in (Locals16 b0 b1 b2 b3 b4 b5 b6 b7 b8 b9 b10 b11 b12 b13 b14 b15));
  (fun '(Locals16 b0 b1 b2 b3 b4 b5 b6 b7 b8 b9 b10 b11 b12 b13 b14 b15) => let tmp := b11 ^' b2 in let b11 := (tmp >>' 48) |' (tmp <<' (64 - 48)) in let b2 := b2 -' b11 in (Locals16 b0 b1 b2 b3 b4 b5 b6 b7 b8 b9 b10 b11 b12 b13 b14 b15));
  (fun '(Locals16 b0 b1 b2 b3 b4 b5 b6 b7 b8 b9 b10 b11 b12 b13 b14 b15) => let tmp := b15 ^' b0 in let b15 := (tmp >>' 9) |' (tmp <<' (64 - 9)) in let b0 := b0 -' b15 in (Locals16 b0 b1 b2 b3 b4 b5 b6 b7 b8 b9 b10 b11 b12 b13 b14 b15));
  (* inverse of round 30 *)
  (fun '(Locals16 b0 b1 b2 b3 b4 b5 b6 b7 b8 b9 b10 b11 b12 b13 b14 b15) => let tmp := b9 ^' b10 in let b9 := (tmp >>' 25) |' (tmp <<' (64 - 25)) in let b10 := b10 -' b9 in (Locals16 b0 b1 b2 b3 b4 b5 b6 b7 b8 b9 b10 b11 b12 b13 b14 b15));
  (fun '(Locals16 b0 b1 b2 b3 b4 b5 b6 b7 b8 b9 b10 b11 b12 b13 b14 b15) => let tmp := b11 ^' b8 in let b11 := (tmp >>' 44) |' (tmp <<' (64 - 44)) in let b8 := b8 -' b11 in (Locals16 b0 b1 b2 b3 b4 b5 b6 b7 b8 b9 b10 b11 b12 b13 b14 b15));
  (fun '(Locals16 b0 b1 b2 b3 b4 b5 b6 b7 b8 b9 b10 b11 b12 b13 b14 b15) => let tmp := b13 ^' b14 in let b13 := (tmp >>' 42) |' (tmp <<' (64 - 42)) in let b14 := b14 -' b13 in (Locals16 b0 b1 b2 b3 b4 b5 b6 b7 b8 b9 b10 b11 b12 b13 b14 b15));
  (fun '(Locals16 b0 b1 b2 b3 b4 b5 b6 b7 b8 b9 b10 b11 b12 b13 b14 b15) => let tmp := b15 ^' b12 in let b15 := (tmp >>' 19) |' (tmp <<' (64 - 19)) in let b12 := b12 -' b15 in (Locals16 b0 b1 b2 b3 b4 b5 b6 b7 b8 b9 b10 b11 b12 b13 b14 b15));
  (fun '(Locals16 b0 b1 b2 b3 b4 b5 b6 b7 b8 b9 b10 b11 b12 b13 b14 b15) => let tmp := b1 ^' b6 in let b1 := (tmp >>' 46) |' (tmp <<' (64 - 46)) in let b6 := b6 -' b1 in (Locals16 b0 b1 b2 b3 b4 b5 b6 b7 b8 b9 b10 b11 b12 b13 b14 b15));
  (fun '(Locals16 b0 b1 b2 b3 b4 b5 b6 b7 b8 b9 b10 b11 b12 b13 b14 b15) => let tmp := b3 ^' b4 in let b3 := (tmp >>' 47) |' (tmp <<' (64 - 47)) in let b4 := b4 -' b3 in (Locals16 b0 b1 b2 b3 b4 b5 b6 b7 b8 b9 b10 b11 b12 b13 b14 b15));
  (fun '(Locals16 b0 b1 b2 b3 b4 b5 b6 b7 b8 b9 b10 b11 b12 b13 b14 b15) => let tmp := b5 ^' b2 in let b5 := (tmp >>' 44) |' (tmp <<' (64 - 44)) in let b2 := b2 -' b5 in (Locals16 b0 b1 b2 b3 b4 b5 b6 b7 b8 b9 b10 b11 b12 b13 b14 b15));
  (fun '(Locals16 b0 b1 b2 b3 b4 b5 b6 b7 b8 b9 b10 b11 b12 b13 b14 b15) => let tmp := b7 ^' b0 in let b7 := (tmp >>' 31) |' (tmp <<' (64 - 31)) in let b0 := b0 -' b7 in (Locals16 b0 b1 b2 b3 b4 b5 b6 b7 b8 b9 b10 b11 b12 b13 b14 b15));
  (* inverse of round 29 *)
  (fun '(Locals16 b0 b1 b2 b3 b4 b5 b6 b7 b8 b9 b10 b11 b12 b13 b14 b15) => let tmp := b1 ^' b8 in let b1 := (tmp >>' 41) |' (tmp <<' (64 - 41)) in let b8 := b8 -' b1 in (Locals16 b0 b1 b2 b3 b4 b5 b6 b7 b8 b9 b10 b11 b12 b13 b14 b15));
  (fun '(Locals16 b0 b1 b2 b3 b4 b5 b6 b7 b8 b9 b10 b11 b12 b13 b14 b15) => let tmp := b5 ^' b14 in let b5 := (tmp >>' 42) |' (tmp <<' (64 - 42)) in let b14 := b14 -' b5 in (Locals16 b0 b1 b2 b3 b4 b5 b6 b7 b8 b9 b10 b11 b12 b13 b14 b15));
  (fun '(Locals16 b0 b1 b2 b3 b4 b5 b6 b7 b8 b9 b10 b11 b12 b13 b14 b15) => let tmp := b3 ^' b12 in let b3 := (tmp >>' 53) |' (tmp <<' (64 - 53)) in let b12 := b12 -' b3 in (Locals16 b0 b1 b2 b3 b4 b5 b6 b7 b8 b9 b10 b11 b12 b13 b14 b15));
  (fun '(Locals16 b0 b1 b2 b3 b4 b5 b6 b7 b8 b9 b10 b11 b12 b13 b14 b15) => let tmp := b7 ^' b10 in let b7 := (tmp >>' 4) |' (tmp <<' (64 - 4)) in let b10 := b10 -' b7 in (Locals16 b0 b1 b2 b3 b4 b5 b6 b7 b8 b9 b10 b11 b12 b13 b14 b15));
  (fun '(Locals16 b0 b1 b2 b3 b4 b5 b6 b7 b8 b9 b10 b11 b12 b13 b14 b15) => let tmp := b15 ^' b4 in let b15 := (tmp >>' 51) |' (tmp <<' (64 - 51)) in let b4 := b4 -' b15 in (Locals16 b0 b1 b2 b3 b4 b5 b6 b7 b8 b9 b10 b11 b12 b13 b14 b15));
  (fun '(Locals16 b0 b1 b2 b3 b4 b5 b6 b7 b8 b9 b10 b11 b12 b13 b14 b15) => let tmp := b11 ^' b6 in let b11 := (tmp >>' 56) |' (tmp <<' (64 - 56)) in let b6 := b6 -' b11 in (Locals16 b0 b1 b2 b3 b4 b5 b6 b7 b8 b9 b10 b11 b12 b13 b14 b15));
  (fun '(Locals16 b0 b1 b2 b3 b4 b5 b6 b7 b8 b9 b10 b11 b12 b13 b14 b15) => let tmp := b13 ^' b2 in let b13 := (tmp >>' 34) |' (tmp <<' (64 - 34)) in let b2 := b2 -' b13 in (Locals16 b0 b1 b2 b3 b4 b5 b6 b7 b8 b9 b10 b11 b12 b13 b14 b15));
  (fun '(Locals16 b0 b1 b2 b3 b4 b5 b6 b7 b8 b9 b10 b11 b12 b13 b14 b15) => let tmp := b9 ^' b0 in let b9 := (tmp >>' 16) |' (tmp <<' (64 - 16)) in let b0 := b0 -' b9 in (Locals16 b0 b1 b2 b3 b4 b5 b6 b7 b8 b9 b10 b11 b12 b13 b14 b15));
  (* inverse of round 28 *)
  (fun '(Locals16 b0 b1 b2 b3 b4 b5 b6 b7 b8 b9 b10 b11 b12 b13 b14 b15) => let tmp := b15 ^' b14 in let b15 := (tmp >>' 30) |' (tmp <<' (64 - 30)) in let b14 := b14 -' (b15 +' k4 +' t2) in let b15 := b15 -' (k5 +' 7) in (Locals16 b0 b1 b2 b3 b4 b5 b6 b7 b8 b9 b10 b11 b12 b13 b14 b15));
  (fun '(Locals16 b0 b1 b2 b3 b4 b5 b6 b7 b8 b9 b10 b11 b12 b13 b14 b15) => let tmp := b13 ^' b12 in let b13 := (tmp >>' 44) |' (tmp <<' (64 - 44)) in let b12 := b12 -' (b13 +' k2) in let b13 := b13 -' (k3 +' t1) in (Locals16 b0 b1 b2 b3 b4 b5 b6 b7 b8 b9 b10 b11 b12 b13 b14 b15));
  (fun '(Locals16 b0 b1 b2 b3 b4 b5 b6 b7 b8 b9 b10 b11 b12 b13 b14 b15) => let tmp := b11 ^' b10 in let b11 := (tmp >>' 47) |' (tmp <<' (64 - 47)) in let b10 := b10 -' (b11 +' k0) in let b11 := b11 -' k1 in (Locals16 b0 b1 b2 b3 b4 b5 b6 b7 b8 b9 b10 b11 b12 b13 b14 b15));
  (fun '(Locals16 b0 b1 b2 b3 b4 b5 b6 b7 b8 b9 b10 b11 b12 b13 b14 b15) => let tmp := b9 ^' b8 in let b9 := (tmp >>' 12) |' (tmp <<' (64 - 12)) in let b8 := b8 -' (b9 +' k15) in let b9 := b9 -' k16 in (Locals16 b0 b1 b2 b3 b4 b5 b6 b7 b8 b9 b10 b11 b12 b13 b14 b15));
  (fun '(Locals16 b0 b1 b2 b3 b4 b5 b6 b7 b8 b9 b10 b11 b12 b13 b14 b15) => let tmp := b7 ^' b6 in let b7 := (tmp >>' 31) |' (tmp <<' (64 - 31)) in let b6 := b6 -' (b7 +' k13) in let b7 := b7 -' k14 in (Locals16 b0 b1 b2 b3 b4 b5 b6 b7 b8 b9 b10 b11 b12 b13 b14 b15));
  (fun '(Locals16 b0 b1 b2 b3 b4 b5 b6 b7 b8 b9 b10 b11 b12 b13 b14 b15) => let tmp := b5 ^' b4 in let b5 := (tmp >>' 37) |' (tmp <<' (64 - 37)) in let b4 := b4 -' (b5 +' k11) in let b5 := b5 -' k12 in (Locals16 b0 b1 b2 b3 b4 b5 b6 b7 b8 b9 b10 b11 b12 b13 b14 b15));
  (fun '(Locals16 b0 b1 b2 b3 b4 b5 b6 b7 b8 b9 b10 b11 b12 b13 b14 b15) => let tmp := b3 ^' b2 in let b3 := (tmp >>' 9) |' (tmp <<' (64 - 9)) in let b2 := b2 -' (b3 +' k9) in let b3 := b3 -' k10 in (Locals16 b0 b1 b2 b3 b4 b5 b6 b7 b8 b9 b10 b11 b12 b13 b14 b15));
  (fun '(Locals16 b0 b1 b2 b3 b4 b5 b6 b7 b8 b9 b10 b11 b12 b13 b14 b15) => let tmp := b1 ^' b0 in let b1 := (tmp >>' 41) |' (tmp <<' (64 - 41)) in let b0 := b0 -' (b1 +' k7) in let b1 := b1 -' k8 in (Locals16 b0 b1 b2 b3 b4 b5 b6 b7 b8 b9 b10 b11 b12 b13 b14 b15));
  (* inverse of round 27 *)
  (fun '(Locals16 b0 b1 b2 b3 b4 b5 b6 b7 b8 b9 b10 b11 b12 b13 b14 b15) => let tmp := b7 ^' b12 in let b7 := (tmp >>' 25) |' (tmp <<' (64 - 25)) in let b12 := b12 -' b7 in (Locals16 b0 b1 b2 b3 b4 b5 b6 b7 b8 b9 b10 b11 b12 b13 b14 b15));
  (fun '(Locals16 b0 b1 b2 b3 b4 b5 b6 b7 b8 b9 b10 b11 b12 b13 b14 b15) => let tmp := b3 ^' b10 in let b3 := (tmp >>' 16) |' (tmp <<' (64 - 16)) in let b10 := b10 -' b3 in (Locals16 b0 b1 b2 b3 b4 b5 b6 b7 b8 b9 b10 b11 b12 b13 b14 b15));
  (fun '(Locals16 b0 b1 b2 b3 b4 b5 b6 b7 b8 b9 b10 b11 b12 b13 b14 b15) => let tmp := b5 ^' b8 in let b5 := (tmp >>' 28) |' (tmp <<' (64 - 28)) in let b8 := b8 -' b5 in (Locals16 b0 b1 b2 b3 b4 b5 b6 b7 b8 b9 b10 b11 b12 b13 b14 b15));
  (fun '(Locals16 b0 b1 b2 b3 b4 b5 b6 b7 b8 b9 b10 b11 b12 b13 b14 b15) => let tmp := b1 ^' b14 in let b1 := (tmp >>' 47) |' (tmp <<' (64 - 47)) in let b14 := b14 -' b1 in (Locals16 b0 b1 b2 b3 b4 b5 b6 b7 b8 b9 b10 b11 b12 b13 b14 b15));
  (fun '(Locals16 b0 b1 b2 b3 b4 b5 b6 b7 b8 b9 b10 b11 b12 b13 b14 b15) => let tmp := b9 ^' b4 in let b9 := (tmp >>' 41) |' (tmp <<' (64 - 41)) in let b4 := b4 -' b9 in (Locals16 b0 b1 b2 b3 b4 b5 b6 b7 b8 b9 b10 b11 b12 b13 b14 b15));
  (fun '(Locals16 b0 b1 b2 b3 b4 b5 b6 b7 b8 b9 b10 b11 b12 b13 b14 b15) => let tmp := b13 ^' b6 in let b13 := (tmp >>' 48) |' (tmp <<' (64 - 48)) in let b6 := b6 -' b13 in (Locals16 b0 b1 b2 b3 b4 b5 b6 b7 b8 b9 b10 b11 b12 b13 b14 b15));
  (fun '(Locals16 b0 b1 b2 b3 b4 b5 b6 b7 b8 b9 b10 b11 b12 b13 b14 b15) => let tmp := b11 ^' b2 in let b11 := (tmp >>' 20) |' (tmp <<' (64 - 20)) in let b2 := b2 -' b11 in (Locals16 b0 b1 b2 b3 b4 b5 b6 b7 b8 b9 b10 b11 b12 b13 b14 b15));
  (fun '(Locals16 b0 b1 b2 b3 b4 b5 b6 b7 b8 b9 b10 b11 b12 b13 b14 b15) => let tmp := b15 ^' b0 in let b15 := (tmp >>' 5) |' (tmp <<' (64 - 5)) in let b0 := b0 -' b15 in (Locals16 b0 b1 b2 b3 b4 b5 b6 b7 b8 b9 b10 b11 b12 b13 b14 b15));
  (* inverse of round 26 *)
  (fun '(Locals16 b0 b1 b2 b3 b4 b5 b6 b7 b8 b9 b10 b11 b12 b13 b14 b15) => let tmp := b9 ^' b10 in let b9 := (tmp >>' 17) |' (tmp <<' (64 - 17)) in let b10 := b10 -' b9 in (Locals16 b0 b1 b2 b3 b4 b5 b6 b7 b8 b9 b10 b11 b12 b13 b14 b15));
  (fun '(Locals16 b0 b1 b2 b3 b4 b5 b6 b7 b8 b9 b10 b11 b12 b13 b14 b15) => let tmp := b11 ^' b8 in let b11 := (tmp >>' 59) |' (tmp <<' (64 - 59)) in let b8 := b8 -' b11 in (Locals16 b0 b1 b2 b3 b4 b5 b6 b7 b8 b9 b10 b11 b12 b13 b14 b15));
  (fun '(Locals16 b0 b1 b2 b3 b4 b5 b6 b7 b8 b9 b10 b11 b12 b13 b14 b15) => let tmp := b13 ^' b14 in let b13 := (tmp >>' 41) |' (tmp <<' (64 - 41)) in let b14 := b14 -' b13 in (Locals16 b0 b1 b2 b3 b4 b5 b6 b7 b8 b9 b10 b11 b12 b13 b14 b15));
  (fun '(Locals16 b0 b1 b2 b3 b4 b5 b6 b7 b8 b9 b10 b11 b12 b13 b14 b15) => let tmp := b15 ^' b12 in let b15 := (tmp >>' 34) |' (tmp <<' (64 - 34)) in let b12 := b12 -' b15 in (Locals16 b0 b1 b2 b3 b4 b5 b6 b7 b8 b9 b10 b11 b12 b13 b14 b15));
  (fun '(Locals16 b0 b1 b2 b3 b4 b5 b6 b7 b8 b9 b10 b11 b12 b13 b14 b15) => let tmp := b1 ^' b6 in let b1 := (tmp >>' 13) |' (tmp <<' (64 - 13)) in let b6 := b6 -' b1 in (Locals16 b0 b1 b2 b3 b4 b5 b6 b7 b8 b9 b10 b11 b12 b13 b14 b15));
  (fun '(Locals16 b0 b1 b2 b3 b4 b5 b6 b7 b8 b9 b10 b11 b12 b13 b14 b15) => let tmp := b3 ^' b4 in let b3 := (tmp >>' 51) |' (tmp <<' (64 - 51)) in let b4 := b4 -' b3 in (Locals16 b0 b1 b2 b3 b4 b5 b6 b7 b8 b9 b10 b11 b12 b13 b14 b15));
  (fun '(Locals16 b0 b1 b2 b3 b4 b5 b6 b7 b8 b9 b10 b11 b12 b13 b14 b15) => let tmp := b5 ^' b2 in let b5 := (tmp >>' 4) |' (tmp <<' (64 - 4)) in let b2 := b2 -' b5 in (Locals16 b0 b1 b2 b3 b4 b5 b6 b7 b8 b9 b10 b11 b12 b13 b14 b15));
  (fun '(Locals16 b0 b1 b2 b3 b4 b5 b6 b7 b8 b9 b10 b11 b12 b13 b14 b15) => let tmp := b7 ^' b0 in let b7 := (tmp >>' 33) |' (tmp <<' (64 - 33)) in let b0 := b0 -' b7 in (Locals16 b0 b1 b2 b3 b4 b5 b6 b7 b8 b9 b10 b11 b12 b13 b14 b15));
  (* inverse of round 25 *)
  (fun '(Locals16 b0 b1 b2 b3 b4 b5 b6 b7 b8 b9 b10 b11 b12 b13 b14 b15) => let tmp := b1 ^' b8 in let b1 := (tmp >>' 52) |' (tmp <<' (64 - 52)) in let b8 := b8 -' b1 in (Locals16 b0 b1 b2 b3 b4 b5 b6 b7 b8 b9 b10 b11 b12 b13 b14 b15));
  (fun '(Locals16 b0 b1 b2 b3 b4 b5 b6 b7 b8 b9 b10 b11 b12 b13 b14 b15) => let tmp := b5 ^' b14 in let b5 := (tmp >>' 23) |' (tmp <<' (64 - 23)) in let b14 := b14 -' b5 in (Locals16 b0 b1 b2 b3 b4 b5 b6 b7 b8 b9 b10 b11 b12 b13 b14 b15));
  (fun '(Locals16 b0 b1 b2 b3 b4 b5 b6 b7 b8 b9 b10 b11 b12 b13 b14 b15) => let tmp := b3 ^' b12 in let b3 := (tmp >>' 18) |' (tmp <<' (64 - 18)) in let b12 := b12 -' b3 in (Locals16 b0 b1 b2 b3 b4 b5 b6 b7 b8 b9 b10 b11 b12 b13 b14 b15));
  (fun '(Locals16 b0 b1 b2 b3 b4 b5 b6 b7 b8 b9 b10 b11 b12 b13 b14 b15) => let tmp := b7 ^' b10 in let b7 := (tmp >>' 49) |' (tmp <<' (64 - 49)) in let b10 := b10 -' b7 in (Locals16 b0 b1 b2 b3 b4 b5 b6 b7 b8 b9 b10 b11 b12 b13 b14 b15));
  (fun '(Locals16 b0 b1 b2 b3 b4 b5 b6 b7 b8 b9 b10 b11 b12 b13 b14 b15) => let tmp := b15 ^' b4 in let b15 := (tmp >>' 55) |' (tmp <<' (64 - 55)) in let b4 := b4 -' b15 in (Locals16 b0 b1 b2 b3 b4 b5 b6 b7 b8 b9 b10 b11 b12 b13 b14 b15));
  (fun '(Locals16 b0 b1 b2 b3 b4 b5 b6 b7 b8 b9 b10 b11 b12 b13 b14 b15) => let tmp := b11 ^' b6 in let b11 := (tmp >>' 10) |' (tmp <<' (64 - 10)) in let b6 := b6 -' b11 in (Locals16 b0 b1 b2 b3 b4 b5 b6 b7 b8 b9 b10 b11 b12 b13 b14 b15));
  (fun '(Locals16 b0 b1 b2 b3 b4 b5 b6 b7 b8 b9 b10 b11 b12 b13 b14 b15) => let tmp := b13 ^' b2 in let b13 := (tmp >>' 19) |' (tmp <<' (64 - 19)) in let b2 := b2 -' b13 in (Locals16 b0 b1 b2 b3 b4 b5 b6 b7 b8 b9 b10 b11 b12 b13 b14 b15));
  (fun '(Locals16 b0 b1 b2 b3 b4 b5 b6 b7 b8 b9 b10 b11 b12 b13 b14 b15) => let tmp := b9 ^' b0 in let b9 := (tmp >>' 38) |' (tmp <<' (64 - 38)) in let b0 := b0 -' b9 in (Locals16 b0 b1 b2 b3 b4 b5 b6 b7 b8 b9 b10 b11 b12 b13 b14 b15));
  (* inverse of round 24 *)
  (fun '(Locals16 b0 b1 b2 b3 b4 b5 b6 b7 b8 b9 b10 b11 b12 b13 b14 b15) => let tmp := b15 ^' b14 in let b15 := (tmp >>' 37) |' (tmp <<' (64 - 37)) in let b14 := b14 -' (b15 +' k3 +' t1) in let b15 := b15 -' (k4 +' 6) in (Locals16 b0 b1 b2 b3 b4 b5 b6 b7 b8 b9 b10 b11 b12 b13 b14 b15));
  (fun '(Locals16 b0 b1 b2 b3 b4 b5 b6 b7 b8 b9 b10 b11 b12 b13 b14 b15) => let tmp := b13 ^' b12 in let b13 := (tmp >>' 22) |' (tmp <<' (64 - 22)) in let b12 := b12 -' (b13 +' k1) in let b13 := b13 -' (k2 +' t0) in (Locals16 b0 b1 b2 b3 b4 b5 b6 b7 b8 b9 b10 b11 b12 b13 b14 b15));
  (fun '(Locals16 b0 b1 b2 b3 b4 b5 b6 b7 b8 b9 b10 b11 b12 b13 b14 b15) => let tmp := b11 ^' b10 in let b11 := (tmp >>' 17) |' (tmp <<' (64 - 17)) in let b10 := b10 -' (b11 +' k16) in let b11 := b11 -' k0 in (Locals16 b0 b1 b2 b3 b4 b5 b6 b7 b8 b9 b10 b11 b12 b13 b14 b15));
  (fun '(Locals16 b0 b1 b2 b3 b4 b5 b6 b7 b8 b9 b10 b11 b12 b13 b14 b15) => let tmp := b9 ^' b8 in let b9 := (tmp >>' 8) |' (tmp <<' (64 - 8)) in let b8 := b8 -' (b9 +' k14) in let b9 := b9 -' k15 in (Locals16 b0 b1 b2 b3 b4 b5 b6 b7 b8 b9 b10 b11 b12 b13 b14 b15));
  (fun '(Locals16 b0 b1 b2 b3 b4 b5 b6 b7 b8 b9 b10 b11 b12 b13 b14 b15) => let tmp := b7 ^' b6 in let b7 := (tmp >>' 47) |' (tmp <<' (64 - 47)) in let b6 := b6 -' (b7 +' k12) in let b7 := b7 -' k13 in (Locals16 b0 b1 b2 b3 b4 b5 b6 b7 b8 b9 b10 b11 b12 b13 b14 b15));
  (fun '(Locals16 b0 b1 b2 b3 b4 b5 b6 b7 b8 b9 b10 b11 b12 b13 b14 b15) => let tmp := b5 ^' b4 in let b5 := (tmp >>' 8) |' (tmp <<' (64 - 8)) in let b4 := b4 -' (b5 +' k10) in let b5 := b5 -' k11 in (Locals16 b0 b1 b2 b3 b4 b5 b6 b7 b8 b9 b10 b11 b12 b13 b14 b15));
  (fun '(Locals16 b0 b1 b2 b3 b4 b5 b6 b7 b8 b9 b10 b11 b12 b13 b14 b15) => let tmp := b3 ^' b2 in let b3 := (tmp >>' 13) |' (tmp <<' (64 - 13)) in let b2 := b2 -' (b3 +' k8) in let b3 := b3 -' k9 in (Locals16 b0 b1 b2 b3 b4 b5 b6 b7 b8 b9 b10 b11 b12 b13 b14 b15));
  (fun '(Locals16 b0 b1 b2 b3 b4 b5 b6 b7 b8 b9 b10 b11 b12 b13 b14 b15) => let tmp := b1 ^' b0 in let b1 := (tmp >>' 24) |' (tmp <<' (64 - 24)) in let b0 := b0 -' (b1 +' k6) in let b1 := b1 -' k7 in (Locals16 b0 b1 b2 b3 b4 b5 b6 b7 b8 b9 b10 b11 b12 b13 b14 b15));
  (* inverse of round 23 *)
  (fun '(Locals16 b0 b1 b2 b3 b4 b5 b6 b7 b8 b9 b10 b11 b12 b13 b14 b15) => let tmp := b7 ^' b12 in let b7 := (tmp >>' 20) |' (tmp <<' (64 - 20)) in let b12 := b12 -' b7 in (Locals16 b0 b1 b2 b3 b4 b5 b6 b7 b8 b9 b10 b11 b12 b13 b14 b15));
  (fun '(Locals16 b0 b1 b2 b3 b4 b5 b6 b7 b8 b9 b10 b11 b12 b13 b14 b15) => let tmp := b3 ^' b10 in let b3 := (tmp >>' 37) |' (tmp <<' (64 - 37)) in let b10 := b10 -' b3 in (Locals16 b0 b1 b2 b3 b4 b5 b6 b7 b8 b9 b10 b11 b12 b13 b14 b15));
  (fun '(Locals16 b0 b1 b2 b3 b4 b5 b6 b7 b8 b9 b10 b11 b12 b13 b14 b15) => let tmp := b5 ^' b8 in let b5 := (tmp >>' 31) |' (tmp <<' (64 - 31)) in let b8 := b8 -' b5 in (Locals16 b0 b1 b2 b3 b4 b5 b6 b7 b8 b9 b10 b11 b12 b13 b14 b15));
  (fun '(Locals16 b0 b1 b2 b3 b4 b5 b6 b7 b8 b9 b10 b11 b12 b13 b14 b15) => let tmp := b1 ^' b14 in let b1 := (tmp >>' 23) |' (tmp <<' (64 - 23)) in let b14 := b14 -' b1 in (Locals16 b0 b1 b2 b3 b4 b5 b6 b7 b8 b9 b10 b11 b12 b13 b14 b15));
  (fun '(Locals16 b0 b1 b2 b3 b4 b5 b6 b7 b8 b9 b10 b11 b12 b13 b14 b15) => let tmp := b9 ^' b4 in let b9 := (tmp >>' 52) |' (tmp <<' (64 - 52)) in let b4 := b4 -' b9 in (Locals16 b0 b1 b2 b3 b4 b5 b6 b7 b8 b9 b10 b11 b12 b13 b14 b15));
  (fun '(Locals16 b0 b1 b2 b3 b4 b5 b6 b7 b8 b9 b10 b11 b12 b13 b14 b15) => let tmp := b13 ^' b6 in let b13 := (tmp >>' 35) |' (tmp <<' (64 - 35)) in let b6 := b6 -' b13 in (Locals16 b0 b1 b2 b3 b4 b5 b6 b7 b8 b9 b10 b11 b12 b13 b14 b15));
  (fun '(Locals16 b0 b1 b2 b3 b4 b5 b6 b7 b8 b9 b10 b11 b12 b13 b14 b15) => let tmp := b11 ^' b2 in let b11 := (tmp >>' 48) |' (tmp <<' (64 - 48)) in let b2 := b2 -' b11 in (Locals16 b0 b1 b2 b3 b4 b5 b6 b7 b8 b9 b10 b11 b12 b13 b14 b15));
  (fun '(Locals16 b0 b1 b2 b3 b4 b5 b6 b7 b8 b9 b10 b11 b12 b13 b14 b15) => let tmp := b15 ^' b0 in let b15 := (tmp >>' 9) |' (tmp <<' (64 - 9)) in let b0 := b0 -' b15 in (Locals16 b0 b1 b2 b3 b4 b5 b6 b7 b8 b9 b10 b11 b12 b13 b14 b15));
  (* inverse of round 22 *)
  (fun '(Locals16 b0 b1 b2 b3 b4 b5 b6 b7 b8 b9 b10 b11 b12 b13 b14 b15) => let tmp := b9 ^' b10 in let b9 := (tmp >>' 25) |' (tmp <<' (64 - 25)) in let b10 := b10 -' b9 in (Locals16 b0 b1 b2 b3 b4 b5 b6 b7 b8 b9 b10 b11 b12 b13 b14 b15));
  (fun '(Locals16 b0 b1 b2 b3 b4 b5 b6 b7 b8 b9 b10 b11 b12 b13 b14 b15) => let tmp := b11 ^' b8 in let b11 := (tmp >>' 44) |' (tmp <<' (64 - 44)) in let b8 := b8 -' b11 in (Locals16 b0 b1 b2 b3 b4 b5 b6 b7 b8 b9 b10 b11 b12 b13 b14 b15));
  (fun '(Locals16 b0 b1 b2 b3 b4 b5 b6 b7 b8 b9 b10 b11 b12 b13 b14 b15) => let tmp := b13 ^' b14 in let b13 := (tmp >>' 42) |' (tmp <<' (64 - 42)) in let b14 := b14 -' b13 in (Locals16 b0 b1 b2 b3 b4 b5 b6 b7 b8 b9 b10 b11 b12 b13 b14 b15));
  (fun '(Locals16 b0 b1 b2 b3 b4 b5 b6 b7 b8 b9 b10 b11 b12 b13 b14 b15) => let tmp := b15 ^' b12 in let b15 := (tmp >>' 19) |' (tmp <<' (64 - 19)) in let b12 := b12 -' b15 in (Locals16 b0 b1 b2 b3 b4 b5 b6 b7 b8 b9 b10 b11 b12 b13 b14 b15));
  (fun '(Locals16 b0 b1 b2 b3 b4 b5 b6 b7 b8 b9 b10 b11 b12 b13 b14 b15) => let tmp := b1 ^' b6 in let b1 := (tmp >>' 46) |' (tmp <<' (64 - 46)) in let b6 := b6 -' b1 in (Locals16 b0 b1 b2 b3 b4 b5 b6 b7 b8 b9 b10 b11 b12 b13 b14 b15));
  (fun '(Locals16 b0 b1 b2 b3 b4 b5 b6 b7 b8 b9 b10 b11 b12 b13 b14 b15) => let tmp := b3 ^' b4 in let b3 := (tmp >>' 47) |' (tmp <<' (64 - 47)) in let b4 := b4 -' b3 in (Locals16 b0 b1 b2 b3 b4 b5 b6 b7 b8 b9 b10 b11 b12 b13 b14 b15));
  (fun '(Locals16 b0 b1 b2 b3 b4 b5 b6 b7 b8 b9 b10 b11 b12 b13 b14 b15) => let tmp := b5 ^' b2 in let b5 := (tmp >>' 44) |' (tmp <<' (64 - 44)) in let b2 := b2 -' b5 in (Locals16 b0 b1 b2 b3 b4 b5 b6 b7 b8 b9 b10 b11 b12 b13 b14 b15));
  (fun '(Locals16 b0 b1 b2 b3 b4 b5 b6 b7 b8 b9 b10 b11 b12 b13 b14 b15) => let tmp := b7 ^' b0 in let b7 := (tmp >>' 31) |' (tmp <<' (64 - 31)) in let b0 := b0 -' b7 in (Locals16 b0 b1 b2 b3 b4 b5 b6 b7 b8 b9 b10 b11 b12 b13 b14 b15));
  (* inverse of round 21 *)
  (fun '(Locals16 b0 b1 b2 b3 b4 b5 b6 b7 b8 b9 b10 b11 b12 b13 b14 b15) => let tmp := b1 ^' b8 in let b1 := (tmp >>' 41) |' (tmp <<' (64 - 41)) in let b8 := b8 -' b1 in (Locals16 b0 b1 b2 b3 b4 b5 b6 b7 b8 b9 b10 b11 b12 b13 b14 b15));
  (fun '(Locals16 b0 b1 b2 b3 b4 b5 b6 b7 b8 b9 b10 b11 b12 b13 b14 b15) => let tmp := b5 ^' b14 in let b5 := (tmp >>' 42) |' (tmp <<' (64 - 42)) in let b14 := b14 -' b5 in (Locals16 b0 b1 b2 b3 b4 b5 b6 b7 b8 b9 b10 b11 b12 b13 b14 b15));
  (fun '(Locals16 b0 b1 b2 b3 b4 b5 b6 b7 b8 b9 b10 b11 b12 b13 b14 b15) => let tmp := b3 ^' b12 in let b3 := (tmp >>' 53) |' (tmp <<' (64 - 53)) in let b12 := b12 -' b3 in (Locals16 b0 b1 b2 b3 b4 b5 b6 b7 b8 b9 b10 b11 b12 b13 b14 b15));
  (fun '(Locals16 b0 b1 b2 b3 b4 b5 b6 b7 b8 b9 b10 b11 b12 b13 b14 b15) => let tmp := b7 ^' b10 in let b7 := (tmp >>' 4) |' (tmp <<' (64 - 4)) in let b10 := b10 -' b7 in (Locals16 b0 b1 b2 b3 b4 b5 b6 b7 b8 b9 b10 b11 b12 b13 b14 b15));
  (fun '(Locals16 b0 b1 b2 b3 b4 b5 b6 b7 b8 b9 b10 b11 b12 b13 b14 b15) => let tmp := b15 ^' b4 in let b15 := (tmp >>' 51) |' (tmp <<' (64 - 51)) in let b4 := b4 -' b15 in (Locals16 b0 b1 b2 b3 b4 b5 b6 b7 b8 b9 b10 b11 b12 b13 b14 b15));
  (fun '(Locals16 b0 b1 b2 b3 b4 b5 b6 b7 b8 b9 b10 b11 b12 b13 b14 b15) => let tmp := b11 ^' b6 in let b11 := (tmp >>' 56) |' (tmp <<' (64 - 56)) in let b6 := b6 -' b11 in (Locals16 b0 b1 b2 b3 b4 b5 b6 b7 b8 b9 b10 b11 b12 b13 b14 b15));
  (fun '(Locals16 b0 b1 b2 b3 b4 b5 b6 b7 b8 b9 b10 b11 b12 b13 b14 b15) => let tmp := b13 ^' b2 in let b13 := (tmp >>' 34) |' (tmp <<' (64 - 34)) in let b2 := b2 -' b13 in (Locals16 b0 b1 b2 b3 b4 b5 b6 b7 b8 b9 b10 b11 b12 b13 b14 b15));
  (fun '(Locals16 b0 b1 b2 b3 b4 b5 b6 b7 b8 b9 b10 b11 b12 b13 b14 b15) => let tmp := b9 ^' b0 in let b9 := (tmp >>' 16) |' (tmp <<' (64 - 16)) in let b0 := b0 -' b9 in (Locals16 b0 b1 b2 b3 b4 b5 b6 b7 b8 b9 b10 b11 b12 b13 b14 b15));
  (* inverse of round 20 *)
  (fun '(Locals16 b0 b1 b2 b3 b4 b5 b6 b7 b8 b9 b10 b11 b12 b13 b14 b15) => let tmp := b15 ^' b14 in let b15 := (tmp >>' 30) |' (tmp <<' (64 - 30)) in let b14 := b14 -' (b15 +' k2 +' t0) in let b15 := b15 -' (k3 +' 5) in (Locals16 b0 b1 b2 b3 b4 b5 b6 b7 b8 b9 b10 b11 b12 b13 b14 b15));
  (fun '(Locals16 b0 b1 b2 b3 b4 b5 b6 b7 b8 b9 b10 b11 b12 b13 b14 b15) => let tmp := b13 ^' b12 in let b13 := (tmp >>' 44) |' (tmp <<' (64 - 44)) in let b12 := b12 -' (b13 +' k0) in let b13 := b13 -' (k1 +' t2) in (Locals16 b0 b1 b2 b3 b4 b5 b6 b7 b8 b9 b10 b11 b12 b13 b14 b15));
  (fun '(Locals16 b0 b1 b2 b3 b4 b5 b6 b7 b8 b9 b10 b11 b12 b13 b14 b15) => let tmp := b11 ^' b10 in let b11 := (tmp >>' 47) |' (tmp <<' (64 - 47)) in let b10 := b10 -' (b11 +' k15) in let b11 := b11 -' k16 in (Locals16 b0 b1 b2 b3 b4 b5 b6 b7 b8 b9 b10 b11 b12 b13 b14 b15));
  (fun '(Locals16 b0 b1 b2 b3 b4 b5 b6 b7 b8 b9 b10 b11 b12 b13 b14 b15) => let tmp := b9 ^' b8 in let b9 := (tmp >>' 12) |' (tmp <<' (64 - 12)) in let b8 := b8 -' (b9 +' k13) in let b9 := b9 -' k14 in (Locals16 b0 b1 b2 b3 b4 b5 b6 b7 b8 b9 b10 b11 b12 b13 b14 b15));
  (fun '(Locals16 b0 b1 b2 b3 b4 b5 b6 b7 b8 b9 b10 b11 b12 b13 b14 b15) => let tmp := b7 ^' b6 in let b7 := (tmp >>' 31) |' (tmp <<' (64 - 31)) in let b6 := b6 -' (b7 +' k11) in let b7 := b7 -' k12 in (Locals16 b0 b1 b2 b3 b4 b5 b6 b7 b8 b9 b10 b11 b12 b13 b14 b15));
  (fun '(Locals16 b0 b1 b2 b3 b4 b5 b6 b7 b8 b9 b10 b11 b12 b13 b14 b15) => let tmp := b5 ^' b4 in let b5 := (tmp >>' 37) |' (tmp <<' (64 - 37)) in let b4 := b4 -' (b5 +' k9) in let b5 := b5 -' k10 in (Locals16 b0 b1 b2 b3 b4 b5 b6 b7 b8 b9 b10 b11 b12 b13 b14 b15));
  (fun '(Locals16 b0 b1 b2 b3 b4 b5 b6 b7 b8 b9 b10 b11 b12 b13 b14 b15) => let tmp := b3 ^' b2 in let b3 := (tmp >>' 9) |' (tmp <<' (64 - 9)) in let b2 := b2 -' (b3 +' k7) in let b3 := b3 -' k8 in (Locals16 b0 b1 b2 b3 b4 b5 b6 b7 b8 b9 b10 b11 b12 b13 b14 b15));
  (fun '(Locals16 b0 b1 b2 b3 b4 b5 b6 b7 b8 b9 b10 b11 b12 b13 b14 b15) => let tmp := b1 ^' b0 in let b1 := (tmp >>' 41) |' (tmp <<' (64 - 41)) in let b0 := b0 -' (b1 +' k5) in let b1 := b1 -' k6 in (Locals16 b0 b1 b2 b3 b4 b5 b6 b7 b8 b9 b10 b11 b12 b13 b14 b15));
  (* inverse of round 19 *)
  (fun '(Locals16 b0 b1 b2 b3 b4 b5 b6 b7 b8 b9 b10 b11 b12 b13 b14 b15) => let tmp := b7 ^' b12 in let b7 := (tmp >>' 25) |' (tmp <<' (64 - 25)) in let b12 := b12 -' b7 in (Locals16 b0 b1 b2 b3 b4 b5 b6 b7 b8 b9 b10 b11 b12 b13 b14 b15));
  (fun '(Locals16 b0 b1 b2 b3 b4 b5 b6 b7 b8 b9 b10 b11 b12 b13 b14 b15) => let tmp := b3 ^' b10 in let b3 := (tmp >>' 16) |' (tmp <<' (64 - 16)) in let b10 := b10 -' b3 in (Locals16 b0 b1 b2 b3 b4 b5 b6 b7 b8 b9 b10 b11 b12 b13 b14 b15));
  (fun '(Locals16 b0 b1 b2 b3 b4 b5 b6 b7 b8 b9 b10 b11 b12 b13 b14 b15) => let tmp := b5 ^' b8 in let b5 := (tmp >>' 28) |' (tmp <<' (64 - 28)) in let b8 := b8 -' b5 in (Locals16 b0 b1 b2 b3 b4 b5 b6 b7 b8 b9 b10 b11 b12 b13 b14 b15));
  (fun '(Locals16 b0 b1 b2 b3 b4 b5 b6 b7 b8 b9 b10 b11 b12 b13 b14 b15) => let tmp := b1 ^' b14 in let b1 := (tmp >>' 47) |' (tmp <<' (64 - 47)) in let b14 := b14 -' b1 in (Locals16 b0 b1 b2 b3 b4 b5 b6 b7 b8 b9 b10 b11 b12 b13 b14 b15));
  (fun '(Locals16 b0 b1 b2 b3 b4 b5 b6 b7 b8 b9 b10 b11 b12 b13 b14 b15) => let tmp := b9 ^' b4 in let b9 := (tmp >>' 41) |' (tmp <<' (64 - 41)) in let b4 := b4 -' b9 in (Locals16 b0 b1 b2 b3 b4 b5 b6 b7 b8 b9 b10 b11 b12 b13 b14 b15));
  (fun '(Locals16 b0 b1 b2 b3 b4 b5 b6 b7 b8 b9 b10 b11 b12 b13 b14 b15) => let tmp := b13 ^' b6 in let b13 := (tmp >>' 48) |' (tmp <<' (64 - 48)) in let b6 := b6 -' b13 in (Locals16 b0 b1 b2 b3 b4 b5 b6 b7 b8 b9 b10 b11 b12 b13 b14 b15));
  (fun '(Locals16 b0 b1 b2 b3 b4 b5 b6 b7 b8 b9 b10 b11 b12 b13 b14 b15) => let tmp := b11 ^' b2 in let b11 := (tmp >>' 20) |' (tmp <<' (64 - 20)) in let b2 := b2 -' b11 in (Locals16 b0 b1 b2 b3 b4 b5 b6 b7 b8 b9 b10 b11 b12 b13 b14 b15));
  (fun '(Locals16 b0 b1 b2 b3 b4 b5 b6 b7 b8 b9 b10 b11 b12 b13 b14 b15) => let tmp := b15 ^' b0 in let b15 := (tmp >>' 5) |' (tmp <<' (64 - 5)) in let b0 := b0 -' b15 in (Locals16 b0 b1 b2 b3 b4 b5 b6 b7 b8 b9 b10 b11 b12 b13 b14 b15));
  (* inverse of round 18 *)
  (fun '(Locals16 b0 b1 b2 b3 b4 b5 b6 b7 b8 b9 b10 b11 b12 b13 b14 b15) => let tmp := b9 ^' b10 in let b9 := (tmp >>' 17) |' (tmp <<' (64 - 17)) in let b10 := b10 -' b9 in (Locals16 b0 b1 b2 b3 b4 b5 b6 b7 b8 b9 b10 b11 b12 b13 b14 b15));
  (fun '(Locals16 b0 b1 b2 b3 b4 b5 b6 b7 b8 b9 b10 b11 b12 b13 b14 b15) => let tmp := b11 ^' b8 in let b11 := (tmp >>' 59) |' (tmp <<' (64 - 59)) in let b8 := b8 -' b11 in (Locals16 b0 b1 b2 b3 b4 b5 b6 b7 b8 b9 b10 b11 b12 b13 b14 b15));
  (fun '(Locals16 b0 b1 b2 b3 b4 b5 b6 b7 b8 b9 b10 b11 b12 b13 b14 b15) => let tmp := b13 ^' b14 in let b13 := (tmp >>' 41) |' (tmp <<' (64 - 41)) in let b14 := b14 -' b13 in (Locals16 b0 b1 b2 b3 b4 b5 b6 b7 b8 b9 b10 b11 b12 b13 b14 b15));
  (fun '(Locals16 b0 b1 b2 b3 b4 b5 b6 b7 b8 b9 b10 b11 b12 b13 b14 b15) => let tmp := b15 ^' b12 in let b15 := (tmp >>' 34) |' (tmp <<' (64 - 34)) in let b12 := b12 -' b15 in (Locals16 b0 b1 b2 b3 b4 b5 b6 b7 b8 b9 b10 b11 b12 b13 b14 b15));
  (fun '(Locals16 b0 b1 b2 b3 b4 b5 b6 b7 b8 b9 b10 b11 b12 b13 b14 b15) => let tmp := b1 ^' b6 in let b1 := (tmp >>' 13) |' (tmp <<' (64 - 13)) in let b6 := b6 -' b1 in (Locals16 b0 b1 b2 b3 b4 b5 b6 b7 b8 b9 b10 b11 b12 b13 b14 b15));
  (fun '(Locals16 b0 b1 b2 b3 b4 b5 b6 b7 b8 b9 b10 b11 b12 b13 b14 b15) => let tmp := b3 ^' b4 in let b3 := (tmp >>' 51) |' (tmp <<' (64 - 51)) in let b4 := b4 -' b3 in (Locals16 b0 b1 b2 b3 b4 b5 b6 b7 b8 b9 b10 b11 b12 b13 b14 b15));
  (fun '(Locals16 b0 b1 b2 b3 b4 b5 b6 b7 b8 b9 b10 b11 b12 b13 b14 b15) => let tmp := b5 ^' b2 in let b5 := (tmp >>' 4) |' (tmp <<' (64 - 4)) in let b2 := b2 -' b5 in (Locals16 b0 b1 b2 b3 b4 b5 b6 b7 b8 b9 b10 b11 b12 b13 b14 b15));
  (fun '(Locals16 b0 b1 b2 b3 b4 b5 b6 b7 b8 b9 b10 b11 b12 b13 b14 b15) => let tmp := b7 ^' b0 in let b7 := (tmp >>' 33) |' (tmp <<' (64 - 33)) in let b0 := b0 -' b7 in (Locals16 b0 b1 b2 b3 b4 b5 b6 b7 b8 b9 b10 b11 b12 b13 b14 b15));
  (* inverse of round 17 *)
  (fun '(Locals16 b0 b1 b2 b3 b4 b5 b6 b7 b8 b9 b10 b11 b12 b13 b14 b15) => let tmp := b1 ^' b8 in let b1 := (tmp >>' 52) |' (tmp <<' (64 - 52)) in let b8 := b8 -' b1 in (Locals16 b0 b1 b2 b3 b4 b5 b6 b7 b8 b9 b10 b11 b12 b13 b14 b15));
  (fun '(Locals16 b0 b1 b2 b3 b4 b5 b6 b7 b8 b9 b10 b11 b12 b13 b14 b15) => let tmp := b5 ^' b14 in let b5 := (tmp >>' 23) |' (tmp <<' (64 - 23)) in let b14 := b14 -' b5 in (Locals16 b0 b1 b2 b3 b4 b5 b6 b7 b8 b9 b10 b11 b12 b13 b14 b15));
  (fun '(Locals16 b0 b1 b2 b3 b4 b5 b6 b7 b8 b9 b10 b11 b12 b13 b14 b15) => let tmp := b3 ^' b12 in let b3 := (tmp >>' 18) |' (tmp <<' (64 - 18)) in let b12 := b12 -' b3 in (Locals16 b0 b1 b2 b3 b4 b5 b6 b7 b8 b9 b10 b11 b12 b13 b14 b15));
  (fun '(Locals16 b0 b1 b2 b3 b4 b5 b6 b7 b8 b9 b10 b11 b12 b13 b14 b15) => let tmp := b7 ^' b10 in let b7 := (tmp >>' 49) |' (tmp <<' (64 - 49)) in let b10 := b10 -' b7 in (Locals16 b0 b1 b2 b3 b4 b5 b6 b7 b8 b9 b10 b11 b12 b13 b14 b15));
  (fun '(Locals16 b0 b1 b2 b3 b4 b5 b6 b7 b8 b9 b10 b11 b12 b13 b14 b15) => let tmp := b15 ^' b4 in let b15 := (tmp >>' 55) |' (tmp <<' (64 - 55)) in let b4 := b4 -' b15 in (Locals16 b0 b1 b2 b3 b4 b5 b6 b7 b8 b9 b10 b11 b12 b13 b14 b15));
  (fun '(Locals16 b0 b1 b2 b3 b4 b5 b6 b7 b8 b9 b10 b11 b12 b13 b14 b15) => let tmp := b11 ^' b6 in let b11 := (tmp >>' 10) |' (tmp <<' (64 - 10)) in let b6 := b6 -' b11 in (Locals16 b0 b1 b2 b3 b4 b5 b6 b7 b8 b9 b10 b11 b12 b13 b14 b15));
  (fun '(Locals16 b0 b1 b2 b3 b4 b5 b6 b7 b8 b9 b10 b11 b12 b13 b14 b15) => let tmp := b13 ^' b2 in let b13 := (tmp >>' 19) |' (tmp <<' (64 - 19)) in let b2 := b2 -' b13 in (Locals16 b0 b1 b2 b3 b4 b5 b6 b7 b8 b9 b10 b11 b12 b13 b14 b15));
  (fun '(Locals16 b0 b1 b2 b3 b4 b5 b6 b7 b8 b9 b10 b11 b12 b13 b14 b15) => let tmp := b9 ^' b0 in let b9 := (tmp >>' 38) |' (tmp <<' (64 - 38)) in let b0 := b0 -' b9 in (Locals16 b0 b1 b2 b3 b4 b5 b6 b7 b8 b9 b10 b11 b12 b13 b14 b15));
  (* inverse of round 16 *)
  (fun '(Locals16 b0 b1 b2 b3 b4 b5 b6 b7 b8 b9 b10 b11 b12 b13 b14 b15) => let tmp := b15 ^' b14 in let b15 := (tmp >>' 37) |' (tmp <<' (64 - 37)) in let b14 := b14 -' (b15 +' k1 +' t2) in let b15 := b15 -' (k2 +' 4) in (Locals16 b0 b1 b2 b3 b4 b5 b6 b7 b8 b9 b10 b11 b12 b13 b14 b15));
  (fun '(Locals16 b0 b1 b2 b3 b4 b5 b6 b7 b8 b9 b10 b11 b12 b13 b14 b15) => let tmp := b13 ^' b12 in let b13 := (tmp >>' 22) |' (tmp <<' (64 - 22)) in let b12 := b12 -' (b13 +' k16) in let b13 := b13 -' (k0 +' t1) in (Locals16 b0 b1 b2 b3 b4 b5 b6 b7 b8 b9 b10 b11 b12 b13 b14 b15));
  (fun '(Locals16 b0 b1 b2 b3 b4 b5 b6 b7 b8 b9 b10 b11 b12 b13 b14 b15) => let tmp := b11 ^' b10 in let b11 := (tmp >>' 17) |' (tmp <<' (64 - 17)) in let b10 := b10 -' (b11 +' k14) in let b11 := b11 -' k15 in (Locals16 b0 b1 b2 b3 b4 b5 b6 b7 b8 b9 b10 b11 b12 b13 b14 b15));
  (fun '(Locals16 b0 b1 b2 b3 b4 b5 b6 b7 b8 b9 b10 b11 b12 b13 b14 b15) => let tmp := b9 ^' b8 in let b9 := (tmp >>' 8) |' (tmp <<' (64 - 8)) in let b8 := b8 -' (b9 +' k12) in let b9 := b9 -' k13 in (Locals16 b0 b1 b2 b3 b4 b5 b6 b7 b8 b9 b10 b11 b12 b13 b14 b15));
  (fun '(Locals16 b0 b1 b2 b3 b4 b5 b6 b7 b8 b9 b10 b11 b12 b13 b14 b15) => let tmp := b7 ^' b6 in let b7 := (tmp >>' 47) |' (tmp <<' (64 - 47)) in let b6 := b6 -' (b7 +' k10) in let b7 := b7 -' k11 in (Locals16 b0 b1 b2 b3 b4 b5 b6 b7 b8 b9 b10 b11 b12 b13 b14 b15));
  (fun '(Locals16 b0 b1 b2 b3 b4 b5 b6 b7 b8 b9 b10 b11 b12 b13 b14 b15) => let tmp := b5 ^' b4 in let b5 := (tmp >>' 8) |' (tmp <<' (64 - 8)) in let b4 := b4 -' (b5 +' k8) in let b5 := b5 -' k9 in (Locals16 b0 b1 b2 b3 b4 b5 b6 b7 b8 b9 b10 b11 b12 b13 b14 b15));
  (fun '(Locals16 b0 b1 b2 b3 b4 b5 b6 b7 b8 b9 b10 b11 b12 b13 b14 b15) => let tmp := b3 ^' b2 in let b3 := (tmp >>' 13) |' (tmp <<' (64 - 13)) in let b2 := b2 -' (b3 +' k6) in let b3 := b3 -' k7 in (Locals16 b0 b1 b2 b3 b4 b5 b6 b7 b8 b9 b10 b11 b12 b13 b14 b15));
  (fun '(Locals16 b0 b1 b2 b3 b4 b5 b6 b7 b8 b9 b10 b11 b12 b13 b14 b15) => let tmp := b1 ^' b0 in let b1 := (tmp >>' 24) |' (tmp <<' (64 - 24)) in let b0 := b0 -' (b1 +' k4) in let b1 := b1 -' k5 in (Locals16 b0 b1 b2 b3 b4 b5 b6 b7 b8 b9 b10 b11 b12 b13 b14 b15));
  (* inverse of round 15 *)
  (fun '(Locals16 b0 b1 b2 b3 b4 b5 b6 b7 b8 b9 b10 b11 b12 b13 b14 b15) => let tmp := b7 ^' b12 in let b7 := (tmp >>' 20) |' (tmp <<' (64 - 20)) in let b12 := b12 -' b7 in (Locals16 b0 b1 b2 b3 b4 b5 b6 b7 b8 b9 b10 b11 b12 b13 b14 b15));
  (fun '(Locals16 b0 b1 b2 b3 b4 b5 b6 b7 b8 b9 b10 b11 b12 b13 b14 b15) => let tmp := b3 ^' b10 in let b3 := (tmp >>' 37) |' (tmp <<' (64 - 37)) in let b10 := b10 -' b3 in (Locals16 b0 b1 b2 b3 b4 b5 b6 b7 b8 b9 b10 b11 b12 b13 b14 b15));
  (fun '(Locals16 b0 b1 b2 b3 b4 b5 b6 b7 b8 b9 b10 b11 b12 b13 b14 b15) => let tmp := b5 ^' b8 in let b5 := (tmp >>' 31) |' (tmp <<' (64 - 31)) in let b8 := b8 -' b5 in (Locals16 b0 b1 b2 b3 b4 b5 b6 b7 b8 b9 b10 b11 b12 b13 b14 b15));
  (fun '(Locals16 b0 b1 b2 b3 b4 b5 b6 b7 b8 b9 b10 b11 b12 b13 b14 b15) => let tmp := b1 ^' b14 in let b1 := (tmp >>' 23) |' (tmp <<' (64 - 23)) in let b14 := b14 -' b1 in (Locals16 b0 b1 b2 b3 b4 b5 b6 b7 b8 b9 b10 b11 b12 b13 b14 b15));
  (fun '(Locals16 b0 b1 b2 b3 b4 b5 b6 b7 b8 b9 b10 b11 b12 b13 b14 b15) => let tmp := b9 ^' b4 in let b9 := (tmp >>' 52) |' (tmp <<' (64 - 52)) in let b4 := b4 -' b9 in (Locals16 b0 b1 b2 b3 b4 b5 b6 b7 b8 b9 b10 b11 b12 b13 b14 b15));
  (fun '(Locals16 b0 b1 b2 b3 b4 b5 b6 b7 b8 b9 b10 b11 b12 b13 b14 b15) => let tmp := b13 ^' b6 in let b13 := (tmp >>' 35) |' (tmp <<' (64 - 35)) in let b6 := b6 -' b13 in (Locals16 b0 b1 b2 b3 b4 b5 b6 b7 b8 b9 b10 b11 b12 b13 b14 b15));
  (fun '(Locals16 b0 b1 b2 b3 b4 b5 b6 b7 b8 b9 b10 b11 b12 b13 b14 b15) => let tmp := b11 ^' b2 in let b11 := (tmp >>' 48) |' (tmp <<' (64 - 48)) in let b2 := b2 -' b11 in (Locals16 b0 b1 b2 b3 b4 b5 b6 b7 b8 b9 b10 b11 b12 b13 b14 b15));
  (fun '(Locals16 b0 b1 b2 b3 b4 b5 b6 b7 b8 b9 b10 b11 b12 b13 b14 b15) => let tmp := b15 ^' b0 in let b15 := (tmp >>' 9) |' (tmp <<' (64 - 9)) in let b0 := b0 -' b15 in (Locals16 b0 b1 b2 b3 b4 b5 b6 b7 b8 b9 b10 b11 b12 b13 b14 b15));
  (* inverse of round 14 *)
  (fun '(Locals16 b0 b1 b2 b3 b4 b5 b6 b7 b8 b9 b10 b11 b12 b13 b14 b15) => let tmp := b9 ^' b10 in let b9 := (tmp >>' 25) |' (tmp <<' (64 - 25)) in let b10 := b10 -' b9 in (Locals16 b0 b1 b2 b3 b4 b5 b6 b7 b8 b9 b10 b11 b12 b13 b14 b15));
  (fun '(Locals16 b0 b1 b2 b3 b4 b5 b6 b7 b8 b9 b10 b11 b12 b13 b14 b15) => let tmp := b11 ^' b8 in let b11 := (tmp >>' 44) |' (tmp <<' (64 - 44)) in let b8 := b8 -' b11 in (Locals16 b0 b1 b2 b3 b4 b5 b6 b7 b8 b9 b10 b11 b12 b13 b14 b15));
  (fun '(Locals16 b0 b1 b2 b3 b4 b5 b6 b7 b8 b9 b10 b11 b12 b13 b14 b15) => let tmp := b13 ^' b14 in let b13 := (tmp >>' 42) |' (tmp <<' (64 - 42)) in let b14 := b14 -' b13 in (Locals16 b0 b1 b2 b3 b4 b5 b6 b7 b8 b9 b10 b11 b12 b13 b14 b15));
  (fun '(Locals16 b0 b1 b2 b3 b4 b5 b6 b7 b8 b9 b10 b11 b12 b13 b14 b15) => let tmp := b15 ^' b12 in let b15 := (tmp >>' 19) |' (tmp <<' (64 - 19)) in let b12 := b12 -' b15 in (Locals16 b0 b1 b2 b3 b4 b5 b6 b7 b8 b9 b10 b11 b12 b13 b14 b15));
  (fun '(Locals16 b0 b1 b2 b3 b4 b5 b6 b7 b8 b9 b10 b11 b12 b13 b14 b15) => let tmp := b1 ^' b6 in let b1 := (tmp >>' 46) |' (tmp <<' (64 - 46)) in let b6 := b6 -' b1 in (Locals16 b0 b1 b2 b3 b4 b5 b6 b7 b8 b9 b10 b11 b12 b13 b14 b15));
  (fun '(Locals16 b0 b1 b2 b3 b4 b5 b6 b7 b8 b9 b10 b11 b12 b13 b14 b15) => let tmp := b3 ^' b4 in let b3 := (tmp >>' 47) |' (tmp <<' (64 - 47)) in let b4 := b4 -' b3 in (Locals16 b0 b1 b2 b3 b4 b5 b6 b7 b8 b9 b10 b11 b12 b13 b14 b15));
  (fun '(Locals16 b0 b1 b2 b3 b4 b5 b6 b7 b8 b9 b10 b11 b12 b13 b14 b15) => let tmp := b5 ^' b2 in let b5 := (tmp >>' 44) |' (tmp <<' (64 - 44)) in let b2 := b2 -' b5 in (Locals16 b0 b1 b2 b3 b4 b5 b6 b7 b8 b9 b10 b11 b12 b13 b14 b15));
  (fun '(Locals16 b0 b1 b2 b3 b4 b5 b6 b7 b8 b9 b10 b11 b12 b13 b14 b15) => let tmp := b7 ^' b0 in let b7 := (tmp >>' 31) |' (tmp <<' (64 - 31)) in let b0 := b0 -' b7 in (Locals16 b0 b1 b2 b3 b4 b5 b6 b7 b8 b9 b10 b11 b12 b13 b14 b15));
  (* inverse of round 13 *)
  (fun '(Locals16 b0 b1 b2 b3 b4 b5 b6 b7 b8 b9 b10 b11 b12 b13 b14 b15) => let tmp := b1 ^' b8 in let b1 := (tmp >>' 41) |' (tmp <<' (64 - 41)) in let b8 := b8 -' b1 in (Locals16 b0 b1 b2 b3 b4 b5 b6 b7 b8 b9 b10 b11 b12 b13 b14 b15));
  (fun '(Locals16 b0 b1 b2 b3 b4 b5 b6 b7 b8 b9 b10 b11 b12 b13 b14 b15) => let tmp := b5 ^' b14 in let b5 := (tmp >>' 42) |' (tmp <<' (64 - 42)) in let b14 := b14 -' b5 in (Locals16 b0 b1 b2 b3 b4 b5 b6 b7 b8 b9 b10 b11 b12 b13 b14 b15));
  (fun '(Locals16 b0 b1 b2 b3 b4 b5 b6 b7 b8 b9 b10 b11 b12 b13 b14 b15) => let tmp := b3 ^' b12 in let b3 := (tmp >>' 53) |' (tmp <<' (64 - 53)) in let b12 := b12 -' b3 in (Locals16 b0 b1 b2 b3 b4 b5 b6 b7 b8 b9 b10 b11 b12 b13 b14 b15));
  (fun '(Locals16 b0 b1 b2 b3 b4 b5 b6 b7 b8 b9 b10 b11 b12 b13 b14 b15) => let tmp := b7 ^' b10 in let b7 := (tmp >>' 4) |' (tmp <<' (64 - 4)) in let b10 := b10 -' b7 in (Locals16 b0 b1 b2 b3 b4 b5 b6 b7 b8 b9 b10 b11 b12 b13 b14 b15));
  (fun '(Locals16 b0 b1 b2 b3 b4 b5 b6 b7 b8 b9 b10 b11 b12 b13 b14 b15) => let tmp := b15 ^' b4 in let b15 := (tmp >>' 51) |' (tmp <<' (64 - 51)) in let b4 := b4 -' b15 in (Locals16 b0 b1 b2 b3 b4 b5 b6 b7 b8 b9 b10 b11 b12 b13 b14 b15));
  (fun '(Locals16 b0 b1 b2 b3 b4 b5 b6 b7 b8 b9 b10 b11 b12 b13 b14 b15) => let tmp := b11 ^' b6 in let b11 := (tmp >>' 56) |' (tmp <<' (64 - 56)) in let b6 := b6 -' b11 in (Locals16 b0 b1 b2 b3 b4 b5 b6 b7 b8 b9 b10 b11 b12 b13 b14 b15));
  (fun '(Locals16 b0 b1 b2 b3 b4 b5 b6 b7 b8 b9 b10 b11 b12 b13 b14 b15) => let tmp := b13 ^' b2 in let b13 := (tmp >>' 34) |' (tmp <<' (64 - 34)) in let b2 := b2 -' b13 in (Locals16 b0 b1 b2 b3 b4 b5 b6 b7 b8 b9 b10 b11 b12 b13 b14 b15));
  (fun '(Locals16 b0 b1 b2 b3 b4 b5 b6 b7 b8 b9 b10 b11 b12 b13 b14 b15) => let tmp := b9 ^' b0 in let b9 := (tmp >>' 16) |' (tmp <<' (64 - 16)) in let b0 := b0 -' b9 in (Locals16 b0 b1 b2 b3 b4 b5 b6 b7 b8 b9 b10 b11 b12 b13 b14 b15));
  (* inverse of round 12 *)
  (fun '(Locals16 b0 b1 b2 b3 b4 b5 b6 b7 b8 b9 b10 b11 b12 b13 b14 b15) => let tmp := b15 ^' b14 in let b15 := (tmp >>' 30) |' (tmp <<' (64 - 30)) in let b14 := b14 -' (b15 +' k0 +' t1) in let b15 := b15 -' (k1 +' 3) in (Locals16 b0 b1 b2 b3 b4 b5 b6 b7 b8 b9 b10 b11 b12 b13 b14 b15));
  (fun '(Locals16 b0 b1 b2 b3 b4 b5 b6 b7 b8 b9 b10 b11 b12 b13 b14 b15) => let tmp := b13 ^' b12 in let b13 := (tmp >>' 44) |' (tmp <<' (64 - 44)) in let b12 := b12 -' (b13 +' k15) in let b13 := b13 -' (k16 +' t0) in (Locals16 b0 b1 b2 b3 b4 b5 b6 b7 b8 b9 b10 b11 b12 b13 b14 b15));
  (fun '(Locals16 b0 b1 b2 b3 b4 b5 b6 b7 b8 b9 b10 b11 b12 b13 b14 b15) => let tmp := b11 ^' b10 in let b11 := (tmp >>' 47) |' (tmp <<' (64 - 47)) in let b10 := b10 -' (b11 +' k13) in let b11 := b11 -' k14 in (Locals16 b0 b1 b2 b3 b4 b5 b6 b7 b8 b9 b10 b11 b12 b13 b14 b15));
  (fun '(Locals16 b0 b1 b2 b3 b4 b5 b6 b7 b8 b9 b10 b11 b12 b13 b14 b15) => let tmp := b9 ^' b8 in let b9 := (tmp >>' 12) |' (tmp <<' (64 - 12)) in let b8 := b8 -' (b9 +' k11) in let b9 := b9 -' k12 in (Locals16 b0 b1 b2 b3 b4 b5 b6 b7 b8 b9 b10 b11 b12 b13 b14 b15));
  (fun '(Locals16 b0 b1 b2 b3 b4 b5 b6 b7 b8 b9 b10 b11 b12 b13 b14 b15) => let tmp := b7 ^' b6 in let b7 := (tmp >>' 31) |' (tmp <<' (64 - 31)) in let b6 := b6 -' (b7 +' k9) in let b7 := b7 -' k10 in (Locals16 b0 b1 b2 b3 b4 b5 b6 b7 b8 b9 b10 b11 b12 b13 b14 b15));
  (fun '(Locals16 b0 b1 b2 b3 b4 b5 b6 b7 b8 b9 b10 b11 b12 b13 b14 b15) => let tmp := b5 ^' b4 in let b5 := (tmp >>' 37) |' (tmp <<' (64 - 37)) in let b4 := b4 -' (b5 +' k7) in let b5 := b5 -' k8 in (Locals16 b0 b1 b2 b3 b4 b5 b6 b7 b8 b9 b10 b11 b12 b13 b14 b15));
  (fun '(Locals16 b0 b1 b2 b3 b4 b5 b6 b7 b8 b9 b10 b11 b12 b13 b14 b15) => let tmp := b3 ^' b2 in let b3 := (tmp >>' 9) |' (tmp <<' (64 - 9)) in let b2 := b2 -' (b3 +' k5) in let b3 := b3 -' k6 in (Locals16 b0 b1 b2 b3 b4 b5 b6 b7 b8 b9 b10 b11 b12 b13 b14 b15));
  (fun '(Locals16 b0 b1 b2 b3 b4 b5 b6 b7 b8 b9 b10 b11 b12 b13 b14 b15) => let tmp := b1 ^' b0 in let b1 := (tmp >>' 41) |' (tmp <<' (64 - 41)) in let b0 := b0 -' (b1 +' k3) in let b1 := b1 -' k4 in (Locals16 b0 b1 b2 b3 b4 b5 b6 b7 b8 b9 b10 b11 b12 b13 b14 b15));
  (* inverse of round 11 *)
  (fun '(Locals16 b0 b1 b2 b3 b4 b5 b6 b7 b8 b9 b10 b11 b12 b13 b14 b15) => let tmp := b7 ^' b12 in let b7 := (tmp >>' 25) |' (tmp <<' (64 - 25)) in let b12 := b12 -' b7 in (Locals16 b0 b1 b2 b3 b4 b5 b6 b7 b8 b9 b10 b11 b12 b13 b14 b15));
  (fun '(Locals16 b0 b1 b2 b3 b4 b5 b6 b7 b8 b9 b10 b11 b12 b13 b14 b15) => let tmp := b3 ^' b10 in let b3 := (tmp >>' 16) |' (tmp <<' (64 - 16)) in let b10 := b10 -' b3 in (Locals16 b0 b1 b2 b3 b4 b5 b6 b7 b8 b9 b10 b11 b12 b13 b14 b15));
  (fun '(Locals16 b0 b1 b2 b3 b4 b5 b6 b7 b8 b9 b10 b11 b12 b13 b14 b15) => let tmp := b5 ^' b8 in let b5 := (tmp >>' 28) |' (tmp <<' (64 - 28)) in let b8 := b8 -' b5 in (Locals16 b0 b1 b2 b3 b4 b5 b6 b7 b8 b9 b10 b11 b12 b13 b14 b15));
  (fun '(Locals16 b0 b1 b2 b3 b4 b5 b6 b7 b8 b9 b10 b11 b12 b13 b14 b15) => let tmp := b1 ^' b14 in let b1 := (tmp >>' 47) |' (tmp <<' (64 - 47)) in let b14 := b14 -' b1 in (Locals16 b0 b1 b2 b3 b4 b5 b6 b7 b8 b9 b10 b11 b12 b13 b14 b15));
  (fun '(Locals16 b0 b1 b2 b3 b4 b5 b6 b7 b8 b9 b10 b11 b12 b13 b14 b15) => let tmp := b9 ^' b4 in let b9 := (tmp >>' 41) |' (tmp <<' (64 - 41)) in let b4 := b4 -' b9 in (Locals16 b0 b1 b2 b3 b4 b5 b6 b7 b8 b9 b10 b11 b12 b13 b14 b15));
  (fun '(Locals16 b0 b1 b2 b3 b4 b5 b6 b7 b8 b9 b10 b11 b12 b13 b14 b15) => let tmp := b13 ^' b6 in let b13 := (tmp >>' 48) |' (tmp <<' (64 - 48)) in let b6 := b6 -' b13 in (Locals16 b0 b1 b2 b3 b4 b5 b6 b7 b8 b9 b10 b11 b12 b13 b14 b15));
  (fun '(Locals16 b0 b1 b2 b3 b4 b5 b6 b7 b8 b9 b10 b11 b12 b13 b14 b15) => let tmp := b11 ^' b2 in let b11 := (tmp >>' 20) |' (tmp <<' (64 - 20)) in let b2 := b2 -' b11 in (Locals16 b0 b1 b2 b3 b4 b5 b6 b7 b8 b9 b10 b11 b12 b13 b14 b15));
  (fun '(Locals16 b0 b1 b2 b3 b4 b5 b6 b7 b8 b9 b10 b11 b12 b13 b14 b15) => let tmp := b15 ^' b0 in let b15 := (tmp >>' 5) |' (tmp <<' (64 - 5)) in let b0 := b0 -' b15 in (Locals16 b0 b1 b2 b3 b4 b5 b6 b7 b8 b9 b10 b11 b12 b13 b14 b15));
  (* inverse of round 10 *)
  (fun '(Locals16 b0 b1 b2 b3 b4 b5 b6 b7 b8 b9 b10 b11 b12 b13 b14 b15) => let tmp := b9 ^' b10 in let b9 := (tmp >>' 17) |' (tmp <<' (64 - 17)) in let b10 := b10 -' b9 in (Locals16 b0 b1 b2 b3 b4 b5 b6 b7 b8 b9 b10 b11 b12 b13 b14 b15));
  (fun '(Locals16 b0 b1 b2 b3 b4 b5 b6 b7 b8 b9 b10 b11 b12 b13 b14 b15) => let tmp := b11 ^' b8 in let b11 := (tmp >>' 59) |' (tmp <<' (64 - 59)) in let b8 := b8 -' b11 in (Locals16 b0 b1 b2 b3 b4 b5 b6 b7 b8 b9 b10 b11 b12 b13 b14 b15));
  (fun '(Locals16 b0 b1 b2 b3 b4 b5 b6 b7 b8 b9 b10 b11 b12 b13 b14 b15) => let tmp := b13 ^' b14 in let b13 := (tmp >>' 41) |' (tmp <<' (64 - 41)) in let b14 := b14 -' b13 in (Locals16 b0 b1 b2 b3 b4 b5 b6 b7 b8 b9 b10 b11 b12 b13 b14 b15));
  (fun '(Locals16 b0 b1 b2 b3 b4 b5 b6 b7 b8 b9 b10 b11 b12 b13 b14 b15) => let tmp := b15 ^' b12 in let b15 := (tmp >>' 34) |' (tmp <<' (64 - 34)) in let b12 := b12 -' b15 in (Locals16 b0 b1 b2 b3 b4 b5 b6 b7 b8 b9 b10 b11 b12 b13 b14 b15));
  (fun '(Locals16 b0 b1 b2 b3 b4 b5 b6 b7 b8 b9 b10 b11 b12 b13 b14 b15) => let tmp := b1 ^' b6 in let b1 := (tmp >>' 13) |' (tmp <<' (64 - 13)) in let b6 := b6 -' b1 in (Locals16 b0 b1 b2 b3 b4 b5 b6 b7 b8 b9 b10 b11 b12 b13 b14 b15));
  (fun '(Locals16 b0 b1 b2 b3 b4 b5 b6 b7 b8 b9 b10 b11 b12 b13 b14 b15) => let tmp := b3 ^' b4 in let b3 := (tmp >>' 51) |' (tmp <<' (64 - 51)) in let b4 := b4 -' b3 in (Locals16 b0 b1 b2 b3 b4 b5 b6 b7 b8 b9 b10 b11 b12 b13 b14 b15));
  (fun '(Locals16 b0 b1 b2 b3 b4 b5 b6 b7 b8 b9 b10 b11 b12 b13 b14 b15) => let tmp := b5 ^' b2 in let b5 := (tmp >>' 4) |' (tmp <<' (64 - 4)) in let b2 := b2 -' b5 in (Locals16 b0 b1 b2 b3 b4 b5 b6 b7 b8 b9 b10 b11 b12 b13 b14 b15));
  (fun '(Locals16 b0 b1 b2 b3 b4 b5 b6 b7 b8 b9 b10 b11 b12 b13 b14 b15) => let tmp := b7 ^' b0 in let b7 := (tmp >>' 33) |' (tmp <<' (64 - 33)) in let b0 := b0 -' b7 in (Locals16 b0 b1 b2 b3 b4 b5 b6 b7 b8 b9 b10 b11 b12 b13 b14 b15));
  (* inverse of round 9 *)
  (fun '(Locals16 b0 b1 b2 b3 b4 b5 b6 b7 b8 b9 b10 b11 b12 b13 b14 b15) => let tmp := b1 ^' b8 in let b1 := (tmp >>' 52) |' (tmp <<' (64 - 52)) in let b8 := b8 -' b1 in (Locals16 b0 b1 b2 b3 b4 b5 b6 b7 b8 b9 b10 b11 b12 b13 b14 b15));
  (fun '(Locals16 b0 b1 b2 b3 b4 b5 b6 b7 b8 b9 b10 b11 b12 b13 b14 b15) => let tmp := b5 ^' b14 in let b5 := (tmp >>' 23) |' (tmp <<' (64 - 23)) in let b14 := b14 -' b5 in (Locals16 b0 b1 b2 b3 b4 b5 b6 b7 b8 b9 b10 b11 b12 b13 b14 b15));
  (fun '(Locals16 b0 b1 b2 b3 b4 b5 b6 b7 b8 b9 b10 b11 b12 b13 b14 b15) => let tmp := b3 ^' b12 in let b3 := (tmp >>' 18) |' (tmp <<' (64 - 18)) in let b12 := b12 -' b3 in (Locals16 b0 b1 b2 b3 b4 b5 b6 b7 b8 b9 b10 b11 b12 b13 b14 b15));
  (fun '(Locals16 b0 b1 b2 b3 b4 b5 b6 b7 b8 b9 b10 b11 b12 b13 b14 b15) => let tmp := b7 ^' b10 in let b7 := (tmp >>' 49) |' (tmp <<' (64 - 49)) in let b10 := b10 -' b7 in (Locals16 b0 b1 b2 b3 b4 b5 b6 b7 b8 b9 b10 b11 b12 b13 b14 b15));
  (fun '(Locals16 b0 b1 b2 b3 b4 b5 b6 b7 b8 b9 b10 b11 b12 b13 b14 b15) => let tmp := b15 ^' b4 in let b15 := (tmp >>' 55) |' (tmp <<' (64 - 55)) in let b4 := b4 -' b15 in (Locals16 b0 b1 b2 b3 b4 b5 b6 b7 b8 b9 b10 b11 b12 b13 b14 b15));
  (fun '(Locals16 b0 b1 b2 b3 b4 b5 b6 b7 b8 b9 b10 b11 b12 b13 b14 b15) => let tmp := b11 ^' b6 in let b11 := (tmp >>' 10) |' (tmp <<' (64 - 10)) in let b6 := b6 -' b11 in (Locals16 b0 b1 b2 b3 b4 b5 b6 b7 b8 b9 b10 b11 b12 b13 b14 b15));
  (fun '(Locals16 b0 b1 b2 b3 b4 b5 b6 b7 b8 b9 b10 b11 b12 b13 b14 b15) => let tmp := b13 ^' b2 in let b13 := (tmp >>' 19) |' (tmp <<' (64 - 19)) in let b2 := b2 -' b13 in (Locals16 b0 b1 b2 b3 b4 b5 b6 b7 b8 b9 b10 b11 b12 b13 b14 b15));
  (fun '(Locals16 b0 b1 b2 b3 b4 b5 b6 b7 b8 b9 b10 b11 b12 b13 b14 b15) => let tmp := b9 ^' b0 in let b9 := (tmp >>' 38) |' (tmp <<' (64 - 38)) in let b0 := b0 -' b9 in (Locals16 b0 b1 b2 b3 b4 b5 b6 b7 b8 b9 b10 b11 b12 b13 b14 b15));
  (* inverse of round 8 *)
  (fun '(Locals16 b0 b1 b2 b3 b4 b5 b6 b7 b8 b9 b10 b11 b12 b13 b14 b15) => let tmp := b15 ^' b14 in let b15 := (tmp >>' 37) |' (tmp <<' (64 - 37)) in let b14 := b14 -' (b15 +' k16 +' t0) in let b15 := b15 -' (k0 +' 2) in (Locals16 b0 b1 b2 b3 b4 b5 b6 b7 b8 b9 b10 b11 b12 b13 b14 b15));
  (fun '(Locals16 b0 b1 b2 b3 b4 b5 b6 b7 b8 b9 b10 b11 b12 b13 b14 b15) => let tmp := b13 ^' b12 in let b13 := (tmp >>' 22) |' (tmp <<' (64 - 22)) in let b12 := b12 -' (b13 +' k14) in let b13 := b13 -' (k15 +' t2) in (Locals16 b0 b1 b2 b3 b4 b5 b6 b7 b8 b9 b10 b11 b12 b13 b14 b15));
  (fun '(Locals16 b0 b1 b2 b3 b4 b5 b6 b7 b8 b9 b10 b11 b12 b13 b14 b15) => let tmp := b11 ^' b10 in let b11 := (tmp >>' 17) |' (tmp <<' (64 - 17)) in let b10 := b10 -' (b11 +' k12) in let b11 := b11 -' k13 in (Locals16 b0 b1 b2 b3 b4 b5 b6 b7 b8 b9 b10 b11 b12 b13 b14 b15));
  (fun '(Locals16 b0 b1 b2 b3 b4 b5 b6 b7 b8 b9 b10 b11 b12 b13 b14 b15) => let tmp := b9 ^' b8 in let b9 := (tmp >>' 8) |' (tmp <<' (64 - 8)) in let b8 := b8 -' (b9 +' k10) in let b9 := b9 -' k11 in (Locals16 b0 b1 b2 b3 b4 b5 b6 b7 b8 b9 b10 b11 b12 b13 b14 b15));
  (fun '(Locals16 b0 b1 b2 b3 b4 b5 b6 b7 b8 b9 b10 b11 b12 b13 b14 b15) => let tmp := b7 ^' b6 in let b7 := (tmp >>' 47) |' (tmp <<' (64 - 47)) in let b6 := b6 -' (b7 +' k8) in let b7 := b7 -' k9 in (Locals16 b0 b1 b2 b3 b4 b5 b6 b7 b8 b9 b10 b11 b12 b13 b14 b15));
  (fun '(Locals16 b0 b1 b2 b3 b4 b5 b6 b7 b8 b9 b10 b11 b12 b13 b14 b15) => let tmp := b5 ^' b4 in let b5 := (tmp >>' 8) |' (tmp <<' (64 - 8)) in let b4 := b4 -' (b5 +' k6) in let b5 := b5 -' k7 in (Locals16 b0 b1 b2 b3 b4 b5 b6 b7 b8 b9 b10 b11 b12 b13 b14 b15));
  (fun '(Locals16 b0 b1 b2 b3 b4 b5 b6 b7 b8 b9 b10 b11 b12 b13 b14 b15) => let tmp := b3 ^' b2 in let b3 := (tmp >>' 13) |' (tmp <<' (64 - 13)) in let b2 := b2 -' (b3 +' k4) in let b3 := b3 -' k5 in (Locals16 b0 b1 b2 b3 b4 b5 b6 b7 b8 b9 b10 b11 b12 b13 b14 b15));
  (fun '(Locals16 b0 b1 b2 b3 b4 b5 b6 b7 b8 b9 b10 b11 b12 b13 b14 b15) => let tmp := b1 ^' b0 in let b1 := (tmp >>' 24) |' (tmp <<' (64 - 24)) in let b0 := b0 -' (b1 +' k2) in let b1 := b1 -' k3 in (Locals16 b0 b1 b2 b3 b4 b5 b6 b7 b8 b9 b10 b11 b12 b13 b14 b15));
  (* inverse of round 7 *)
  (fun '(Locals16 b0 b1 b2 b3 b4 b5 b6 b7 b8 b9 b10 b11 b12 b13 b14 b15) => let tmp := b7 ^' b12 in let b7 := (tmp >>' 20) |' (tmp <<' (64 - 20)) in let b12 := b12 -' b7 in (Locals16 b0 b1 b2 b3 b4 b5 b6 b7 b8 b9 b10 b11 b12 b13 b14 b15));
  (fun '(Locals16 b0 b1 b2 b3 b4 b5 b6 b7 b8 b9 b10 b11 b12 b13 b14 b15) => let tmp := b3 ^' b10 in let b3 := (tmp >>' 37) |' (tmp <<' (64 - 37)) in let b10 := b10 -' b3 in (Locals16 b0 b1 b2 b3 b4 b5 b6 b7 b8 b9 b10 b11 b12 b13 b14 b15));
  (fun '(Locals16 b0 b1 b2 b3 b4 b5 b6 b7 b8 b9 b10 b11 b12 b13 b14 b15) => let tmp := b5 ^' b8 in let b5 := (tmp >>' 31) |' (tmp <<' (64 - 31)) in let b8 := b8 -' b5 in (Locals16 b0 b1 b2 b3 b4 b5 b6 b7 b8 b9 b10 b11 b12 b13 b14 b15));
  (fun '(Locals16 b0 b1 b2 b3 b4 b5 b6 b7 b8 b9 b10 b11 b12 b13 b14 b15) => let tmp := b1 ^' b14 in let b1 := (tmp >>' 23) |' (tmp <<' (64 - 23)) in let b14 := b14 -' b1 in (Locals16 b0 b1 b2 b3 b4 b5 b6 b7 b8 b9 b10 b11 b12 b13 b14 b15));
  (fun '(Locals16 b0 b1 b2 b3 b4 b5 b6 b7 b8 b9 b10 b11 b12 b13 b14 b15) => let tmp := b9 ^' b4 in let b9 := (tmp >>' 52) |' (tmp <<' (64 - 52)) in let b4 := b4 -' b9 in (Locals16 b0 b1 b2 b3 b4 b5 b6 b7 b8 b9 b10 b11 b12 b13 b14 b15));
  (fun '(Locals16 b0 b1 b2 b3 b4 b5 b6 b7 b8 b9 b10 b11 b12 b13 b14 b15) => let tmp := b13 ^' b6 in let b13 := (tmp >>' 35) |' (tmp <<' (64 - 35)) in let b6 := b6 -' b13 in (Locals16 b0 b1 b2 b3 b4 b5 b6 b7 b8 b9 b10 b11 b12 b13 b14 b15));
  (fun '(Locals16 b0 b1 b2 b3 b4 b5 b6 b7 b8 b9 b10 b11 b12 b13 b14 b15) => let tmp := b11 ^' b2 in let b11 := (tmp >>' 48) |' (tmp <<' (64 - 48)) in let b2 := b2 -' b11 in (Locals16 b0 b1 b2 b3 b4 b5 b6 b7 b8 b9 b10 b11 b12 b13 b14 b15));
  (fun '(Locals16 b0 b1 b2 b3 b4 b5 b6 b7 b8 b9 b10 b11 b12 b13 b14 b15) => let tmp := b15 ^' b0 in let b15 := (tmp >>' 9) |' (tmp <<' (64 - 9)) in let b0 := b0 -' b15 in (Locals16 b0 b1 b2 b3 b4 b5 b6 b7 b8 b9 b10 b11 b12 b13 b14 b15));
  (* inverse of round 6 *)
  (fun '(Locals16 b0 b1 b2 b3 b4 b5 b6 b7 b8 b9 b10 b11 b12 b13 b14 b15) => let tmp := b9 ^' b10 in let b9 := (tmp >>' 25) |' (tmp <<' (64 - 25)) in let b10 := b10 -' b9 in (Locals16 b0 b1 b2 b3 b4 b5 b6 b7 b8 b9 b10 b11 b12 b13 b14 b15));
  (fun '(Locals16 b0 b1 b2 b3 b4 b5 b6 b7 b8 b9 b10 b11 b12 b13 b14 b15) => let tmp := b11 ^' b8 in let b11 := (tmp >>' 44) |' (tmp <<' (64 - 44)) in let b8 := b8 -' b11 in (Locals16 b0 b1 b2 b3 b4 b5 b6 b7 b8 b9 b10 b11 b12 b13 b14 b15));
  (fun '(Locals16 b0 b1 b2 b3 b4 b5 b6 b7 b8 b9 b10 b11 b12 b13 b14 b15) => let tmp := b13 ^' b14 in let b13 := (tmp >>' 42) |' (tmp <<' (64 - 42)) in let b14 := b14 -' b13 in (Locals16 b0 b1 b2 b3 b4 b5 b6 b7 b8 b9 b10 b11 b12 b13 b14 b15));
  (fun '(Locals16 b0 b1 b2 b3 b4 b5 b6 b7 b8 b9 b10 b11 b12 b13 b14 b15) => let tmp := b15 ^' b12 in let b15 := (tmp >>' 19) |' (tmp <<' (64 - 19)) in let b12 := b12 -' b15 in (Locals16 b0 b1 b2 b3 b4 b5 b6 b7 b8 b9 b10 b11 b12 b13 b14 b15));
  (fun '(Locals16 b0 b1 b2 b3 b4 b5 b6 b7 b8 b9 b10 b11 b12 b13 b14 b15) => let tmp := b1 ^' b6 in let b1 := (tmp >>' 46) |' (tmp <<' (64 - 46)) in let b6 := b6 -' b1 in (Locals16 b0 b1 b2 b3 b4 b5 b6 b7 b8 b9 b10 b11 b12 b13 b14 b15));
  (fun '(Locals16 b0 b1 b2 b3 b4 b5 b6 b7 b8 b9 b10 b11 b12 b13 b14 b15) => let tmp := b3 ^' b4 in let b3 := (tmp >>' 47) |' (tmp <<' (64 - 47)) in let b4 := b4 -' b3 in (Locals16 b0 b1 b2 b3 b4 b5 b6 b7 b8 b9 b10 b11 b12 b13 b14 b15));
  (fun '(Locals16 b0 b1 b2 b3 b4 b5 b6 b7 b8 b9 b10 b11 b12 b13 b14 b15) => let tmp := b5 ^' b2 in let b5 := (tmp >>' 44) |' (tmp <<' (64 - 44)) in let b2 := b2 -' b5 in (Locals16 b0 b1 b2 b3 b4 b5 b6 b7 b8 b9 b10 b11 b12 b13 b14 b15));
  (fun '(Locals16 b0 b1 b2 b3 b4 b5 b6 b7 b8 b9 b10 b11 b12 b13 b14 b15) => let tmp := b7 ^' b0 in let b7 := (tmp >>' 31) |' (tmp <<' (64 - 31)) in let b0 := b0 -' b7 in (Locals16 b0 b1 b2 b3 b4 b5 b6 b7 b8 b9 b10 b11 b12 b13 b14 b15));
  (* inverse of round 5 *)
  (fun '(Locals16 b0 b1 b2 b3 b4 b5 b6 b7 b8 b9 b10 b11 b12 b13 b14 b15) => let tmp := b1 ^' b8 in let b1 := (tmp >>' 41) |' (tmp <<' (64 - 41)) in let b8 := b8 -' b1 in (Locals16 b0 b1 b2 b3 b4 b5 b6 b7 b8 b9 b10 b11 b12 b13 b14 b15));
  (fun '(Locals16 b0 b1 b2 b3 b4 b5 b6 b7 b8 b9 b10 b11 b12 b13 b14 b15) => let tmp := b5 ^' b14 in let b5 := (tmp >>' 42) |' (tmp <<' (64 - 42)) in let b14 := b14 -' b5 in (Locals16 b0 b1 b2 b3 b4 b5 b6 b7 b8 b9 b10 b11 b12 b13 b14 b15));
  (fun '(Locals16 b0 b1 b2 b3 b4 b5 b6 b7 b8 b9 b10 b11 b12 b13 b14 b15) => let tmp := b3 ^' b12 in let b3 := (tmp >>' 53) |' (tmp <<' (64 - 53)) in let b12 := b12 -' b3 in (Locals16 b0 b1 b2 b3 b4 b5 b6 b7 b8 b9 b10 b11 b12 b13 b14 b15));
  (fun '(Locals16 b0 b1 b2 b3 b4 b5 b6 b7 b8 b9 b10 b11 b12 b13 b14 b15) => let tmp := b7 ^' b10 in let b7 := (tmp >>' 4) |' (tmp <<' (64 - 4)) in let b10 := b10 -' b7 in (Locals16 b0 b1 b2 b3 b4 b5 b6 b7 b8 b9 b10 b11 b12 b13 b14 b15));
  (fun '(Locals16 b0 b1 b2 b3 b4 b5 b6 b7 b8 b9 b10 b11 b12 b13 b14 b15) => let tmp := b15 ^' b4 in let b15 := (tmp >>' 51) |' (tmp <<' (64 - 51)) in let b4 := b4 -' b15 in (Locals16 b0 b1 b2 b3 b4 b5 b6 b7 b8 b9 b10 b11 b12 b13 b14 b15));
  (fun '(Locals16 b0 b1 b2 b3 b4 b5 b6 b7 b8 b9 b10 b11 b12 b13 b14 b15) => let tmp := b11 ^' b6 in let b11 := (tmp >>' 56) |' (tmp <<' (64 - 56)) in let b6 := b6 -' b11 in (Locals16 b0 b1 b2 b3 b4 b5 b6 b7 b8 b9 b10 b11 b12 b13 b14 b15));
  (fun '(Locals16 b0 b1 b2 b3 b4 b5 b6 b7 b8 b9 b10 b11 b12 b13 b14 b15) => let tmp := b13 ^' b2 in let b13 := (tmp >>' 34) |' (tmp <<' (64 - 34)) in let b2 := b2 -' b13 in (Locals16 b0 b1 b2 b3 b4 b5 b6 b7 b8 b9 b10 b11 b12 b13 b14 b15));
  (fun '(Locals16 b0 b1 b2 b3 b4 b5 b6 b7 b8 b9 b10 b11 b12 b13 b14 b15) => let tmp := b9 ^' b0 in let b9 := (tmp >>' 16) |' (tmp <<' (64 - 16)) in let b0 := b0 -' b9 in (Locals16 b0 b1 b2 b3 b4 b5 b6 b7 b8 b9 b10 b11 b12 b13 b14 b15));
  (* inverse of round 4 *)
  (fun '(Locals16 b0 b1 b2 b3 b4 b5 b6 b7 b8 b9 b10 b11 b12 b13 b14 b15) => let tmp := b15 ^' b14 in let b15 := (tmp >>' 30) |' (tmp <<' (64 - 30)) in let b14 := b14 -' (b15 +' k15 +' t2) in let b15 := b15 -' (k16 +' 1) in (Locals16 b0 b1 b2 b3 b4 b5 b6 b7 b8 b9 b10 b11 b12 b13 b14 b15));
  (fun '(Locals16 b0 b1 b2 b3 b4 b5 b6 b7 b8 b9 b10 b11 b12 b13 b14 b15) => let tmp := b13 ^' b12 in let b13 := (tmp >>' 44) |' (tmp <<' (64 - 44)) in let b12 := b12 -' (b13 +' k13) in let b13 := b13 -' (k14 +' t1) in (Locals16 b0 b1 b2 b3 b4 b5 b6 b7 b8 b9 b10 b11 b12 b13 b14 b15));
  (fun '(Locals16 b0 b1 b2 b3 b4 b5 b6 b7 b8 b9 b10 b11 b12 b13 b14 b15) => let tmp := b11 ^' b10 in let b11 := (tmp >>' 47) |' (tmp <<' (64 - 47)) in let b10 := b10 -' (b11 +' k11) in let b11 := b11 -' k12 in (Locals16 b0 b1 b2 b3 b4 b5 b6 b7 b8 b9 b10 b11 b12 b13 b14 b15));
  (fun '(Locals16 b0 b1 b2 b3 b4 b5 b6 b7 b8 b9 b10 b11 b12 b13 b14 b15) => let tmp := b9 ^' b8 in let b9 := (tmp >>' 12) |' (tmp <<' (64 - 12)) in let b8 := b8 -' (b9 +' k9) in let b9 := b9 -' k10 in (Locals16 b0 b1 b2 b3 b4 b5 b6 b7 b8 b9 b10 b11 b12 b13 b14 b15));
  (fun '(Locals16 b0 b1 b2 b3 b4 b5 b6 b7 b8 b9 b10 b11 b12 b13 b14 b15) => let tmp := b7 ^' b6 in let b7 := (tmp >>' 31) |' (tmp <<' (64 - 31)) in let b6 := b6 -' (b7 +' k7) in let b7 := b7 -' k8 in (Locals16 b0 b1 b2 b3 b4 b5 b6 b7 b8 b9 b10 b11 b12 b13 b14 b15));
  (fun '(Locals16 b0 b1 b2 b3 b4 b5 b6 b7 b8 b9 b10 b11 b12 b13 b14 b15) => let tmp := b5 ^' b4 in let b5 := (tmp >>' 37) |' (tmp <<' (64 - 37)) in let b4 := b4 -' (b5 +' k5) in let b5 := b5 -' k6 in (Locals16 b0 b1 b2 b3 b4 b5 b6 b7 b8 b9 b10 b11 b12 b13 b14 b15));
  (fun '(Locals16 b0 b1 b2 b3 b4 b5 b6 b7 b8 b9 b10 b11 b12 b13 b14 b15) => let tmp := b3 ^' b2 in let b3 := (tmp >>' 9) |' (tmp <<' (64 - 9)) in let b2 := b2 -' (b3 +' k3) in let b3 := b3 -' k4 in (Locals16 b0 b1 b2 b3 b4 b5 b6 b7 b8 b9 b10 b11 b12 b13 b14 b15));
  (fun '(Locals16 b0 b1 b2 b3 b4 b5 b6 b7 b8 b9 b10 b11 b12 b13 b14 b15) => let tmp := b1 ^' b0 in let b1 := (tmp >>' 41) |' (tmp <<' (64 - 41)) in let b0 := b0 -' (b1 +' k1) in let b1 := b1 -' k2 in (Locals16 b0 b1 b2 b3 b4 b5 b6 b7 b8 b9 b10 b11 b12 b13 b14 b15));
  (* inverse of round 3 *)
  (fun '(Locals16 b0 b1 b2 b3 b4 b5 b6 b7 b8 b9 b10 b11 b12 b13 b14 b15) => let tmp := b7 ^' b12 in let b7 := (tmp >>' 25) |' (tmp <<' (64 - 25)) in let b12 := b12 -' b7 in (Locals16 b0 b1 b2 b3 b4 b5 b6 b7 b8 b9 b10 b11 b12 b13 b14 b15));
  (fun '(Locals16 b0 b1 b2 b3 b4 b5 b6 b7 b8 b9 b10 b11 b12 b13 b14 b15) => let tmp := b3 ^' b10 in let b3 := (tmp >>' 16) |' (tmp <<' (64 - 16)) in let b10 := b10 -' b3 in (Locals16 b0 b1 b2 b3 b4 b5 b6 b7 b8 b9 b10 b11 b12 b13 b14 b15));
  (fun '(Locals16 b0 b1 b2 b3 b4 b5 b6 b7 b8 b9 b10 b11 b12 b13 b14 b15) => let tmp := b5 ^' b8 in let b5 := (tmp >>' 28) |' (tmp <<' (64 - 28)) in let b8 := b8 -' b5 in (Locals16 b0 b1 b2 b3 b4 b5 b6 b7 b8 b9 b10 b11 b12 b13 b14 b15));
  (fun '(Locals16 b0 b1 b2 b3 b4 b5 b6 b7 b8 b9 b10 b11 b12 b13 b14 b15) => let tmp := b1 ^' b14 in let b1 := (tmp >>' 47) |' (tmp <<' (64 - 47)) in let b14 := b14 -' b1 in (Locals16 b0 b1 b2 b3 b4 b5 b6 b7 b8 b9 b10 b11 b12 b13 b14 b15));
  (fun '(Locals16 b0 b1 b2 b3 b4 b5 b6 b7 b8 b9 b10 b11 b12 b13 b14 b15) => let tmp := b9 ^' b4 in let b9 := (tmp >>' 41) |' (tmp <<' (64 - 41)) in let b4 := b4 -' b9 in (Locals16 b0 b1 b2 b3 b4 b5 b6 b7 b8 b9 b10 b11 b12 b13 b14 b15));
  (fun '(Locals16 b0 b1 b2 b3 b4 b5 b6 b7 b8 b9 b10 b11 b12 b13 b14 b15) => let tmp := b13 ^' b6 in let b13 := (tmp >>' 48) |' (tmp <<' (64 - 48)) in let b6 := b6 -' b13 in (Locals16 b0 b1 b2 b3 b4 b5 b6 b7 b8 b9 b10 b11 b12 b13 b14 b15));
  (fun '(Locals16 b0 b1 b2 b3 b4 b5 b6 b7 b8 b9 b10 b11 b12 b13 b14 b15) => let tmp := b11 ^' b2 in let b11 := (tmp >>' 20) |' (tmp <<' (64 - 20)) in let b2 := b2 -' b11 in (Locals16 b0 b1 b2 b3 b4 b5 b6 b7 b8 b9 b10 b11 b12 b13 b14 b15));
  (fun '(Locals16 b0 b1 b2 b3 b4 b5 b6 b7 b8 b9 b10 b11 b12 b13 b14 b15) => let tmp := b15 ^' b0 in let b15 := (tmp >>' 5) |' (tmp <<' (64 - 5)) in let b0 := b0 -' b15 in (Locals16 b0 b1 b2 b3 b4 b5 b6 b7 b8 b9 b10 b11 b12 b13 b14 b15));
  (* inverse of round 2 *)
  (fun '(Locals16 b0 b1 b2 b3 b4 b5 b6 b7 b8 b9 b10 b11 b12 b13 b14 b15) => let tmp := b9 ^' b10 in let b9 := (tmp >>' 17) |' (tmp <<' (64 - 17)) in let b10 := b10 -' b9 in (Locals16 b0 b1 b2 b3 b4 b5 b6 b7 b8 b9 b10 b11 b12 b13 b14 b15));
  (fun '(Locals16 b0 b1 b2 b3 b4 b5 b6 b7 b8 b9 b10 b11 b12 b13 b14 b15) => let tmp := b11 ^' b8 in let b11 := (tmp >>' 59) |' (tmp <<' (64 - 59)) in let b8 := b8 -' b11 in (Locals16 b0 b1 b2 b3 b4 b5 b6 b7 b8 b9 b10 b11 b12 b13 b14 b15));
  (fun '(Locals16 b0 b1 b2 b3 b4 b5 b6 b7 b8 b9 b10 b11 b12 b13 b14 b15) => let tmp := b13 ^' b14 in let b13 := (tmp >>' 41) |' (tmp <<' (64 - 41)) in let b14 := b14 -' b13 in (Locals16 b0 b1 b2 b3 b4 b5 b6 b7 b8 b9 b10 b11 b12 b13 b14 b15));
  (fun '(Locals16 b0 b1 b2 b3 b4 b5 b6 b7 b8 b9 b10 b11 b12 b13 b14 b15) => let tmp := b15 ^' b12 in let b15 := (tmp >>' 34) |' (tmp <<' (64 - 34)) in let b12 := b12 -' b15 in (Locals16 b0 b1 b2 b3 b4 b5 b6 b7 b8 b9 b10 b11 b12 b13 b14 b15));
  (fun '(Locals16 b0 b1 b2 b3 b4 b5 b6 b7 b8 b9 b10 b11 b12 b13 b14 b15) => let tmp := b1 ^' b6 in let b1 := (tmp >>' 13) |' (tmp <<' (64 - 13)) in let b6 := b6 -' b1 in (Locals16 b0 b1 b2 b3 b4 b5 b6 b7 b8 b9 b10 b11 b12 b13 b14 b15));
  (fun '(Locals16 b0 b1 b2 b3 b4 b5 b6 b7 b8 b9 b10 b11 b12 b13 b14 b15) => let tmp := b3 ^' b4 in let b3 := (tmp >>' 51) |' (tmp <<' (64 - 51)) in let b4 := b4 -' b3 in (Locals16 b0 b1 b2 b3 b4 b5 b6 b7 b8 b9 b10 b11 b12 b13 b14 b15));
  (fun '(Locals16 b0 b1 b2 b3 b4 b5 b6 b7 b8 b9 b10 b11 b12 b13 b14 b15) => let tmp := b5 ^' b2 in let b5 := (tmp >>' 4) |' (tmp <<' (64 - 4)) in let b2 := b2 -' b5 in (Locals16 b0 b1 b2 b3 b4 b5 b6 b7 b8 b9 b10 b11 b12 b13 b14 b15));
  (fun '(Locals16 b0 b1 b2 b3 b4 b5 b6 b7 b8 b9 b10 b11 b12 b13 b14 b15) => let tmp := b7 ^' b0 in let b7 := (tmp >>' 33) |' (tmp <<' (64 - 33)) in let b0 := b0 -' b7 in (Locals16 b0 b1 b2 b3 b4 b5 b6 b7 b8 b9 b10 b11 b12 b13 b14 b15));
  (* inverse of round 1 *)
  (fun '(Locals16 b0 b1 b2 b3 b4 b5 b6 b7 b8 b9 b10 b11 b12 b13 b14 b15) => let tmp := b1 ^' b8 in let b1 := (tmp >>' 52) |' (tmp <<' (64 - 52)) in let b8 := b8 -' b1 in (Locals16 b0 b1 b2 b3 b4 b5 b6 b7 b8 b9 b10 b11 b12 b13 b14 b15));
  (fun '(Locals16 b0 b1 b2 b3 b4 b5 b6 b7 b8 b9 b10 b11 b12 b13 b14 b15) => let tmp := b5 ^' b14 in let b5 := (tmp >>' 23) |' (tmp <<' (64 - 23)) in let b14 := b14 -' b5 in (Locals16 b0 b1 b2 b3 b4 b5 b6 b7 b8 b9 b10 b11 b12 b13 b14 b15));
  (fun '(Locals16 b0 b1 b2 b3 b4 b5 b6 b7 b8 b9 b10 b11 b12 b13 b14 b15) => let tmp := b3 ^' b12 in let b3 := (tmp >>' 18) |' (tmp <<' (64 - 18)) in let b12 := b12 -' b3 in (Locals16 b0 b1 b2 b3 b4 b5 b6 b7 b8 b9 b10 b11 b12 b13 b14 b15));
  (fun '(Locals16 b0 b1 b2 b3 b4 b5 b6 b7 b8 b9 b10 b11 b12 b13 b14 b15) => let tmp := b7 ^' b10 in let b7 := (tmp >>' 49) |' (tmp <<' (64 - 49)) in let b10 := b10 -' b7 in (Locals16 b0 b1 b2 b3 b4 b5 b6 b7 b8 b9 b10 b11 b12 b13 b14 b15));
  (fun '(Locals16 b0 b1 b2 b3 b4 b5 b6 b7 b8 b9 b10 b11 b12 b13 b14 b15) => let tmp := b15 ^' b4 in let b15 := (tmp >>' 55) |' (tmp <<' (64 - 55)) in let b4 := b4 -' b15 in (Locals16 b0 b1 b2 b3 b4 b5 b6 b7 b8 b9 b10 b11 b12 b13 b14 b15));
  (fun '(Locals16 b0 b1 b2 b3 b4 b5 b6 b7 b8 b9 b10 b11 b12 b13 b14 b15) => let tmp := b11 ^' b6 in let b11 := (tmp >>' 10) |' (tmp <<' (64 - 10)) in let b6 := b6 -' b11 in (Locals16 b0 b1 b2 b3 b4 b5 b6 b7 b8 b9 b10 b11 b12 b13 b14 b15));
  (fun '(Locals16 b0 b1 b2 b3 b4 b5 b6 b7 b8 b9 b10 b11 b12 b13 b14 b15) => let tmp := b13 ^' b2 in let b13 := (tmp >>' 19) |' (tmp <<' (64 - 19)) in let b2 := b2 -' b13 in (Locals16 b0 b1 b2 b3 b4 b5 b6 b7 b8 b9 b10 b11 b12 b13 b14 b15));
  (fun '(Locals16 b0 b1 b2 b3 b4 b5 b6 b7 b8 b9 b10 b11 b12 b13 b14 b15) => let tmp := b9 ^' b0 in let b9 := (tmp >>' 38) |' (tmp <<' (64 - 38)) in let b0 := b0 -' b9 in (Locals16 b0 b1 b2 b3 b4 b5 b6 b7 b8 b9 b10 b11 b12 b13 b14 b15));
  (* inverse of round 0 *)
  (fun '(Locals16 b0 b1 b2 b3 b4 b5 b6 b7 b8 b9 b10 b11 b12 b13 b14 b15) => let tmp := b15 ^' b14 in let b15 := (tmp >>' 37) |' (tmp <<' (64 - 37)) in let b14 := b14 -' (b15 +' k14 +' t1) in let b15 := b15 -' k15 in (Locals16 b0 b1 b2 b3 b4 b5 b6 b7 b8 b9 b10 b11 b12 b13 b14 b15));
  (fun '(Locals16 b0 b1 b2 b3 b4 b5 b6 b7 b8 b9 b10 b11 b12 b13 b14 b15) => let tmp := b13 ^' b12 in let b13 := (tmp >>' 22) |' (tmp <<' (64 - 22)) in let b12 := b12 -' (b13 +' k12) in let b13 := b13 -' (k13 +' t0) in (Locals16 b0 b1 b2 b3 b4 b5 b6 b7 b8 b9 b10 b11 b12 b13 b14 b15));
  (fun '(Locals16 b0 b1 b2 b3 b4 b5 b6 b7 b8 b9 b10 b11 b12 b13 b14 b15) => let tmp := b11 ^' b10 in let b11 := (tmp >>' 17) |' (tmp <<' (64 - 17)) in let b10 := b10 -' (b11 +' k10) in let b11 := b11 -' k11 in (Locals16 b0 b1 b2 b3 b4 b5 b6 b7 b8 b9 b10 b11 b12 b13 b14 b15));
  (fun '(Locals16 b0 b1 b2 b3 b4 b5 b6 b7 b8 b9 b10 b11 b12 b13 b14 b15) => let tmp := b9 ^' b8 in let b9 := (tmp >>' 8) |' (tmp <<' (64 - 8)) in let b8 := b8 -' (b9 +' k8) in let b9 := b9 -' k9 in (Locals16 b0 b1 b2 b3 b4 b5 b6 b7 b8 b9 b10 b11 b12 b13 b14 b15));
  (fun '(Locals16 b0 b1 b2 b3 b4 b5 b6 b7 b8 b9 b10 b11 b12 b13 b14 b15) => let tmp := b7 ^' b6 in let b7 := (tmp >>' 47) |' (tmp <<' (64 - 47)) in let b6 := b6 -' (b7 +' k6) in let b7 := b7 -' k7 in (Locals16 b0 b1 b2 b3 b4 b5 b6 b7 b8 b9 b10 b11 b12 b13 b14 b15));
  (fun '(Locals16 b0 b1 b2 b3 b4 b5 b6 b7 b8 b9 b10 b11 b12 b13 b14 b15) => let tmp := b5 ^' b4 in let b5 := (tmp >>' 8) |' (tmp <<' (64 - 8)) in let b4 := b4 -' (b5 +' k4) in let b5 := b5 -' k5 in (Locals16 b0 b1 b2 b3 b4 b5 b6 b7 b8 b9 b10 b11 b12 b13 b14 b15));
  (fun '(Locals16 b0 b1 b2 b3 b4 b5 b6 b7 b8 b9 b10 b11 b12 b13 b14 b15) => let tmp := b3 ^' b2 in let b3 := (tmp >>' 13) |' (tmp <<' (64 - 13)) in let b2 := b2 -' (b3 +' k2) in let b3 := b3 -' k3 in (Locals16 b0 b1 b2 b3 b4 b5 b6 b7 b8 b9 b10 b11 b12 b13 b14 b15));
  (fun '(Locals16 b0 b1 b2 b3 b4 b5 b6 b7 b8 b9 b10 b11 b12 b13 b14 b15) => let tmp := b1 ^' b0 in let b1 := (tmp >>' 24) |' (tmp <<' (64 - 24)) in let b0 := b0 -' (b1 +' k0) in let b1 := b1 -' k1 in (Locals16 b0 b1 b2 b3 b4 b5 b6 b7 b8 b9 b10 b11 b12 b13 b14 b15))
].

Definition threefish1024_decrypt (tf : threefish) (input output : list Z) : outcome (list Z) :=
  b0 <- index input 0 ;;
  b1 <- index input 1 ;;
  b2 <- index input 2 ;;
  b3 <- index input 3 ;;
  b4 <- index input 4 ;;
  b5 <- index input 5 ;;
  b6 <- index input 6 ;;
  b7 <- index input 7 ;;
  b8 <- index input 8 ;;
  b9 <- index input 9 ;;
  b10 <- index input 10 ;;
  b11 <- index input 11 ;;
  b12 <- index input 12 ;;
  b13 <- index input 13 ;;
  b14 <- index input 14 ;;
  b15 <- index input 15 ;;
  let k0 := arr (expanedKey tf) 0 in
  let k1 := arr (expanedKey tf) 1 in
  let k2 := arr (expanedKey tf) 2 in
  let k3 := arr (expanedKey tf) 3 in
  let k4 := arr (expanedKey tf) 4 in
  let k5 := arr (expanedKey tf) 5 in
  let k6 := arr (expanedKey tf) 6 in
  let k7 := arr (expanedKey tf) 7 in
  let k8 := arr (expanedKey tf) 8 in
  let k9 := arr (expanedKey tf) 9 in
  let k10 := arr (expanedKey tf) 10 in
  let k11 := arr (expanedKey tf) 11 in
  let k12 := arr (expanedKey tf) 12 in
  let k13 := arr (expanedKey tf) 13 in
  let k14 := arr (expanedKey tf) 14 in
  let k15 := arr (expanedKey tf) 15 in
  let k16 := arr (expanedKey tf) 16 in
  let t0 := arr (expanedTweak tf) 0 in
  let t1 := arr (expanedTweak tf) 1 in
  let t2 := arr (expanedTweak tf) 2 in
  let b0 := b0 -' k3 in
  let b1 := b1 -' k4 in
  let b2 := b2 -' k5 in
  let b3 := b3 -' k6 in
  let b4 := b4 -' k7 in
  let b5 := b5 -' k8 in
  let b6 := b6 -' k9 in
  let b7 := b7 -' k10 in
  let b8 := b8 -' k11 in
  let b9 := b9 -' k12 in
  let b10 := b10 -' k13 in
  let b11 := b11 -' k14 in
  let b12 := b12 -' k15 in
  let b13 := b13 -' (k16 +' t2) in
  let b14 := b14 -' (k0 +' t0) in
  let b15 := b15 -' (k1 +' 20) in
  let '(Locals16 b0 b1 b2 b3 b4 b5 b6 b7 b8 b9 b10 b11 b12 b13 b14 b15) := run (threefish1024_decrypt_rounds k0 k1 k2 k3 k4 k5 k6 k7 k8 k9 k10 k11 k12 k13 k14 k15 k16 t0 t1 t2) (Locals16 b0 b1 b2 b3 b4 b5 b6 b7 b8 b9 b10 b11 b12 b13 b14 b15) in
  output <- store output 15 (b15) ;;
  output <- store output 14 (b14) ;;
  output <- store output 13 (b13) ;;
  output <- store output 12 (b12) ;;
  output <- store output 11 (b11) ;;
  output <- store output 10 (b10) ;;
  output <- store output 9 (b9) ;;
  output <- store output 8 (b8) ;;
  output <- store output 7 (b7) ;;
  output <- store output 6 (b6) ;;
  output <- store output 5 (b5) ;;
  output <- store output 4 (b4) ;;
  output <- store output 3 (b3) ;;
  output <- store output 2 (b2) ;;
  output <- store output 1 (b1) ;;
  output <- store output 0 (b0) ;;
  Done output.
(** ** Constructors of the three variants *)

(** The loop that converts the key bytes to words:
    [tmpkey[i] = binary.LittleEndian.Uint64(key[i*8:i*8+8])], for [n] more
    iterations from index [i]. *)
Fixpoint load_words (n i : nat) (src : list byte) (tmp : list Z) : outcome (list Z) :=
  match n with
  | O => Done tmp
  | S n' =>
      b <- slice src (i * 8) (i * 8 + 8) ;;
      x <- Uint64 b ;;
      tmp <- store tmp i x ;;
      load_words n' (S i) src tmp
  end.

(** [newThreefish256], [newThreefish512] and [newThreefish1024] are the same
    code up to the constant [EXPANDED_KEY_SIZE_N]; [newThreefish] is that
    code for the expanded key size [eks]. *)
Definition newThreefish (eks : nat) (key : option (list byte)) (tweak : option (list Z))
  : outcome threefish :=
  let c := new_threefish (eks - 1) in
  expTweak <- setTweak tweak (expanedTweak c) ;;
  let c := with_expanedTweak c expTweak in
  expKey <- store (expanedKey c) (eks - 1) KEY_SCHEDULE_CONST ;;
  let c := with_expanedKey c expKey in
  match key with
  | Some key =>
      let tmpkey := repeat 0 eks in
      tmpkey <- load_words (eks - 1) 0 key tmpkey ;;
      expKey <- setKey tmpkey (expanedKey c) ;;
      Done (with_expanedKey c expKey)
  | None => Done c
  end.

Definition newThreefish256 := newThreefish EXPANDED_KEY_SIZE_256.
Definition newThreefish512 := newThreefish EXPANDED_KEY_SIZE_512.
Definition newThreefish1024 := newThreefish EXPANDED_KEY_SIZE_1024.

(** Likewise [newThreefish256_64], [newThreefish512_64] and
    [newThreefish1024_64]. *)
Definition newThreefish_64 (eks : nat) (key : list Z) (tweak : option (list Z))
  : outcome threefish :=
  let c := new_threefish (eks - 1) in
  expTweak <- setTweak tweak (expanedTweak c) ;;
  let c := with_expanedTweak c expTweak in
  expKey <- store (expanedKey c) (eks - 1) KEY_SCHEDULE_CONST ;;
  let c := with_expanedKey c expKey in
  expKey <- setKey key (expanedKey c) ;;
  Done (with_expanedKey c expKey).

Definition newThreefish256_64 := newThreefish_64 EXPANDED_KEY_SIZE_256.
Definition newThreefish512_64 := newThreefish_64 EXPANDED_KEY_SIZE_512.
Definition newThreefish1024_64 := newThreefish_64 EXPANDED_KEY_SIZE_1024.

(** ** The interface [cipherInternal] and its three implementations *)

Inductive cipherInternal : Type :=
| threefish256 (tf : threefish)
| threefish512 (tf : threefish)
| threefish1024 (tf : threefish).

Definition state (ci : cipherInternal) : threefish :=
  match ci with
  | threefish256 tf | threefish512 tf | threefish1024 tf => tf
  end.

Definition with_state (ci : cipherInternal) (tf : threefish) : cipherInternal :=
  match ci with
  | threefish256 _ => threefish256 tf
  | threefish512 _ => threefish512 tf
  | threefish1024 _ => threefish1024 tf
  end.

(** Words per block of the variant. *)
Definition qwords (ci : cipherInternal) : nat :=
  match ci with
  | threefish256 _ => CIPHER_QWORDS_256
  | threefish512 _ => CIPHER_QWORDS_512
  | threefish1024 _ => CIPHER_QWORDS_1024
  end.

Definition encrypt (ci : cipherInternal) (input output : list Z) : outcome (list Z) :=
  match ci with
  | threefish256 tf => threefish256_encrypt tf input output
  | threefish512 tf => threefish512_encrypt tf input output
  | threefish1024 tf => threefish1024_encrypt tf input output
  end.

Definition decrypt (ci : cipherInternal) (input output : list Z) : outcome (list Z) :=
  match ci with
  | threefish256 tf => threefish256_decrypt tf input output
  | threefish512 tf => threefish512_decrypt tf input output
  | threefish1024 tf => threefish1024_decrypt tf input output
  end.

Definition getTempData (ci : cipherInternal) : list Z * list Z :=
  (tmpData1 (state ci), tmpData2 (state ci)).

(** The methods [setTweak] and [setKey] of the three structs. *)
Definition cipherInternal_setTweak (ci : cipherInternal) (tweak : option (list Z))
  : outcome cipherInternal :=
  expTweak <- setTweak tweak (expanedTweak (state ci)) ;;
  Done (with_state ci (with_expanedTweak (state ci) expTweak)).

Definition cipherInternal_setKey (ci : cipherInternal) (key : list Z)
  : outcome cipherInternal :=
  expKey <- setKey key (expanedKey (state ci)) ;;
  Done (with_state ci (with_expanedKey (state ci) expKey)).

(** ** The facade [Cipher] *)

Record Cipher : Type := mk_Cipher {
  stateSize : Z;
  internal : cipherInternal
}.

(** A nil [key] has length 0, as the empty slice has, and [NewCipher] hands
    a key on only when its length is 32, 64 or 128. *)
Definition NewCipher (key : list byte) (tweak : option (list Z)) : outcome Cipher :=
  match len key with
  | 32 => tf <- newThreefish256 (Some key) tweak ;;
          Done (mk_Cipher (len key * 8) (threefish256 tf))
  | 64 => tf <- newThreefish512 (Some key) tweak ;;
          Done (mk_Cipher (len key * 8) (threefish512 tf))
  | 128 => tf <- newThreefish1024 (Some key) tweak ;;
           Done (mk_Cipher (len key * 8) (threefish1024 tf))
  | _ => Failed (KeySizeError (len key))
  end.

Definition NewCipher64 (key : list Z) (tweak : option (list Z)) : outcome Cipher :=
  match len key with
  | 4 => tf <- newThreefish256_64 key tweak ;;
         Done (mk_Cipher (len key * 8) (threefish256 tf))
  | 8 => tf <- newThreefish512_64 key tweak ;;
         Done (mk_Cipher (len key * 8) (threefish512 tf))
  | 16 => tf <- newThreefish1024_64 key tweak ;;
          Done (mk_Cipher (len key * 8) (threefish1024 tf))
  | _ => Failed (KeySizeError (len key))
  end.

Definition NewCipherSize (size : Z) : outcome Cipher :=
  match size with
  | 256 => tf <- newThreefish256 None None ;;
           Done (mk_Cipher size (threefish256 tf))
  | 512 => tf <- newThreefish512 None None ;;
           Done (mk_Cipher size (threefish512 tf))
  | 1024 => tf <- newThreefish1024 None None ;;
            Done (mk_Cipher size (threefish1024 tf))
  | _ => Failed (KeySizeError size)
  end.

Definition BlockSize (c : Cipher) : Z := Z.quot (stateSize c) 8.

(** The second loop of [Encrypt] and [Decrypt]:
    [binary.LittleEndian.PutUint64(dst[i*8:i*8+8], tmpout[i])], for [n] more
    iterations from index [i]. *)
Fixpoint store_words (n i : nat) (dst : list byte) (tmp : list Z) : outcome (list byte) :=
  match n with
  | O => Done dst
  | S n' =>
      b <- slice dst (i * 8) (i * 8 + 8) ;;
      x <- index tmp i ;;
      b <- PutUint64 b x ;;
      store_words n' (S i) (write_slice dst (i * 8) (i * 8 + 8) b) tmp
  end.

(** The two scratch arrays of the struct are written, so the call returns
    the cipher with them next to the new content of [dst]. *)
Definition Encrypt (c : Cipher) (dst src : list byte) : outcome (Cipher * list byte) :=
  let uintLen := Z.to_nat (Z.quot (stateSize c) 64) in
  let '(tmpin, tmpout) := getTempData (internal c) in
  tmpin <- load_words uintLen 0 src tmpin ;;
  tmpout <- encrypt (internal c) tmpin tmpout ;;
  dst <- store_words uintLen 0 dst tmpout ;;
  Done (mk_Cipher (stateSize c)
          (with_state (internal c) (with_tmpData (state (internal c)) tmpin tmpout)),
        dst).

Definition Decrypt (c : Cipher) (dst src : list byte) : outcome (Cipher * list byte) :=
  let uintLen := Z.to_nat (Z.quot (stateSize c) 64) in
  let '(tmpin, tmpout) := getTempData (internal c) in
  tmpin <- load_words uintLen 0 src tmpin ;;
  tmpout <- decrypt (internal c) tmpin tmpout ;;
  dst <- store_words uintLen 0 dst tmpout ;;
  Done (mk_Cipher (stateSize c)
          (with_state (internal c) (with_tmpData (state (internal c)) tmpin tmpout)),
        dst).

(** The result is the new content of [dst]. *)
Definition Encrypt64 (c : Cipher) (dst src : list Z) : outcome (list Z) :=
  encrypt (internal c) src dst.

Definition Decrypt64 (c : Cipher) (dst src : list Z) : outcome (list Z) :=
  decrypt (internal c) src dst.

Definition SetTweak (c : Cipher) (tweak : option (list Z)) : outcome Cipher :=
  ci <- cipherInternal_setTweak (internal c) tweak ;;
  Done (mk_Cipher (stateSize c) ci).

Definition SetKey (c : Cipher) (key : list Z) : outcome Cipher :=
  ci <- cipherInternal_setKey (internal c) key ;;
  Done (mk_Cipher (stateSize c) ci).

(** ** The round engine as the specification describes it

    The specification gives the round engine as one loop over the rounds,
    driven by a rotation table and a word permutation, with a subkey
    injected every fourth round.  [spec_encrypt] is that loop; the subkey
    is a parameter so that the injection the code performs and the
    injection the specification words can both be tried in it.  The tables
    are those of the Threefish submission, which the unrolled code
    follows. *)

Section RoundEngine.

(** Rounds, rotation rows, permutation. *)
Variable rounds : nat.
Variable rotation : list (list Z).
Variable permutation : list nat.

(** Word [i] of the subkey of cycle [s]. *)
Variable subkey : nat -> nat -> Z.

Fixpoint inject_from (s i : nat) (v : list Z) : list Z :=
  match v with
  | [] => []
  | x :: v' => (x +' subkey s i) :: inject_from s (S i) v'
  end.

Definition inject (s : nat) (v : list Z) : list Z := inject_from s 0 v.

Definition rotate_left (x r : Z) : Z := (x <<' r) |' (x >>' (64 - r)).

(** MIX of the pairs of [v], the first of which has index [j]. *)
Fixpoint mix_from (row : list Z) (j : nat) (v : list Z) : list Z :=
  match v with
  | even :: odd :: v' =>
      let even := even +' odd in
      let odd := rotate_left odd (nth j row 0) ^' even in
      even :: odd :: mix_from row (S j) v'
  | _ => v
  end.

Definition mix (d : nat) (v : list Z) : list Z :=
  mix_from (nth (d mod 8) rotation []) 0 v.

Definition permute (v : list Z) : list Z :=
  map (fun i => nth i v 0) permutation.

Definition spec_round (v : list Z) (d : nat) : list Z :=
  let v := if (d mod 4 =? 0)%nat then inject (d / 4) v else v in
  permute (mix d v).

Definition spec_encrypt (block : list Z) : list Z :=
  inject (rounds / 4) (fold_left spec_round (seq 0 rounds) block).

End RoundEngine.

Definition key_word (N : nat) (expandedKey : list Z) (s i : nat) : Z :=
  nth ((s + i) mod (N + 1)) expandedKey 0.

Definition tweak_word (expandedTweak : list Z) (j : nat) : Z :=
  nth (j mod 3) expandedTweak 0.

(** The subkey the code injects: word [N-3] takes the tweak word [s mod 3],
    word [N-2] the tweak word [(s+1) mod 3] and word [N-1] the cycle index. *)
Definition subkey_code (N : nat) (expandedKey expandedTweak : list Z) (s i : nat) : Z :=
  let k := key_word N expandedKey s i in
  if (i =? N - 3)%nat then k +' tweak_word expandedTweak s
  else if (i =? N - 2)%nat then k +' tweak_word expandedTweak (s + 1)
  else if (i =? N - 1)%nat then k +' Z.of_nat s
  else k.

(** The subkey in the words of the specification: the tweak injection goes
    to the odd word of a pair; the second-to-last pair adds the tweak word
    [s mod 3], the last pair the tweak word [(s+1) mod 3] plus [s]. *)
Definition subkey_odd_words (N : nat) (expandedKey expandedTweak : list Z) (s i : nat) : Z :=
  let k := key_word N expandedKey s i in
  if (i =? N - 3)%nat then k +' tweak_word expandedTweak s
  else if (i =? N - 1)%nat then k +' (tweak_word expandedTweak (s + 1) +' Z.of_nat s)
  else k.

Definition rotation_256 : list (list Z) :=
  [[14; 16]; [52; 57]; [23; 40]; [5; 37]; [25; 33]; [46; 12]; [58; 22]; [32; 32]].
Definition permutation_256 : list nat := [0; 3; 2; 1]%nat.

Definition rotation_512 : list (list Z) :=
  [[46; 36; 19; 37]; [33; 27; 14; 42]; [17; 49; 36; 39]; [44; 9; 54; 56];
   [39; 30; 34; 24]; [13; 50; 10; 17]; [25; 29; 39; 43]; [8; 35; 56; 22]].
Definition permutation_512 : list nat := [2; 1; 4; 7; 6; 5; 0; 3]%nat.

Definition rotation_1024 : list (list Z) :=
  [[24; 13; 8; 47; 8; 17; 22; 37]; [38; 19; 10; 55; 49; 18; 23; 52];
   [33; 4; 51; 13; 34; 41; 59; 17]; [5; 20; 48; 41; 47; 28; 16; 25];
   [41; 9; 37; 31; 12; 47; 44; 30]; [16; 34; 56; 51; 4; 53; 42; 41];
   [31; 44; 47; 46; 19; 42; 44; 25]; [9; 48; 35; 52; 23; 31; 37; 20]].
Definition permutation_1024 : list nat :=
  [0; 9; 2; 13; 6; 11; 4; 15; 10; 7; 12; 3; 14; 5; 8; 1]%nat.

Definition rounds_of (ci : cipherInternal) : nat :=
  match ci with
  | threefish256 _ | threefish512 _ => 72
  | threefish1024 _ => 80
  end.

Definition rotation_of (ci : cipherInternal) : list (list Z) :=
  match ci with
  | threefish256 _ => rotation_256
  | threefish512 _ => rotation_512
  | threefish1024 _ => rotation_1024
  end.

Definition permutation_of (ci : cipherInternal) : list nat :=
  match ci with
  | threefish256 _ => permutation_256
  | threefish512 _ => permutation_512
  | threefish1024 _ => permutation_1024
  end.

(** The generic loop with the tables of the variant of [ci] and the
    expanded key and tweak that [ci] holds. *)
Definition spec_encrypt_with
    (subkey : nat -> list Z -> list Z -> nat -> nat -> Z)
    (ci : cipherInternal) (block : list Z) : list Z :=
  spec_encrypt (rounds_of ci) (rotation_of ci) (permutation_of ci)
    (subkey (qwords ci) (expanedKey (state ci)) (expanedTweak (state ci))) block.

(** ** Blocks of bytes and blocks of words *)

(** Little-endian decoding of consecutive 8-byte groups, for [n] words. *)
Fixpoint bytes_to_words (n : nat) (bs : list byte) : list Z :=
  match n with
  | O => []
  | S n' => le_combine (firstn 8 bs) :: bytes_to_words n' (skipn 8 bs)
  end.

(** Little-endian encoding, 8 bytes a word. *)
Definition words_to_bytes (ws : list Z) : list byte :=
  flat_map (le_split 8) ws.

(** ** Calls on a cipher *)

(** The key a cipher was given last, as words. *)
Definition key_words_of_bytes (key : list byte) : list Z :=
  bytes_to_words (length key / 8) key.

(** [xor_all key] is [key[0] XOR ... XOR key[N-1]]. *)
Definition xor_all (key : list Z) : Z := fold_right xor64 0 key.

Definition valid_tweak (tweak : option (list Z)) : Prop :=
  match tweak with
  | Some t => length t = 2%nat
  | None => True
  end.

(** [reachable c key]: the cipher [c] results from a constructor followed
    by calls with arguments of valid lengths, and [key] is the key supplied
    last (all zero if none was). *)
Inductive reachable : Cipher -> list Z -> Prop :=
| reach_NewCipher key tweak c :
    valid_tweak tweak ->
    NewCipher key tweak = Done c ->
    reachable c (key_words_of_bytes key)
| reach_NewCipher64 key tweak c :
    valid_tweak tweak ->
    NewCipher64 key tweak = Done c ->
    reachable c key
| reach_NewCipherSize size c :
    NewCipherSize size = Done c ->
    reachable c (repeat 0 (qwords (internal c)))
| reach_SetKey c key key' c' :
    reachable c key ->
    length key' = qwords (internal c) ->
    SetKey c key' = Done c' ->
    reachable c' key'
| reach_SetTweak c key tweak c' :
    reachable c key ->
    valid_tweak tweak ->
    SetTweak c tweak = Done c' ->
    reachable c' key
| reach_Encrypt64 c key dst src dst' :
    reachable c key ->
    Encrypt64 c dst src = Done dst' ->
    reachable c key
| reach_Decrypt64 c key dst src dst' :
    reachable c key ->
    Decrypt64 c dst src = Done dst' ->
    reachable c key
| reach_Encrypt c key dst src c' dst' :
    reachable c key ->
    Encrypt c dst src = Done (c', dst') ->
    reachable c' key
| reach_Decrypt c key dst src c' dst' :
    reachable c key ->
    Decrypt c dst src = Done (c', dst') ->
    reachable c' key.


(** ** Straight-line code and its inverse *)

Section Inverse.

Context {St : Type}.

(** The lines [D] undo the lines [E] on the states that satisfy [ok]. *)
Definition inverts (ok : St -> Prop) (E D : list (St -> St)) : Prop :=
  forall s, ok s -> ok (run E s) /\ run D (run E s) = s.

(** [le] and the reversed list [rd] split into [k] groups of [n] lines, and
    every group of [rd], read backwards, undoes the group of [le] at the
    same place. *)
Fixpoint paired (ok : St -> Prop) (n k : nat) (le rd : list (St -> St)) : Prop :=
  match k with
  | O => le = [] /\ rd = []
  | S k' =>
      inverts ok (firstn n le) (rev (firstn n rd)) /\
      paired ok n k' (skipn n le) (skipn n rd)
  end.

End Inverse.

Definition ok4 (s : locals4) : Prop :=
  let '(Locals4 b0 b1 b2 b3) := s in
  word b0 /\ word b1 /\ word b2 /\ word b3.

Definition ok8 (s : locals8) : Prop :=
  let '(Locals8 b0 b1 b2 b3 b4 b5 b6 b7) := s in
  word b0 /\ word b1 /\ word b2 /\ word b3 /\ word b4 /\ word b5 /\ word b6 /\ word b7.

Definition ok16 (s : locals16) : Prop :=
  let '(Locals16 b0 b1 b2 b3 b4 b5 b6 b7 b8 b9 b10 b11 b12 b13 b14 b15) := s in
  word b0 /\ word b1 /\ word b2 /\ word b3 /\ word b4 /\ word b5 /\ word b6 /\ word b7 /\
  word b8 /\ word b9 /\ word b10 /\ word b11 /\ word b12 /\ word b13 /\ word b14 /\
  word b15.

(** ** Straight-line code against the generic loop *)

Definition to_list4 (s : locals4) : list Z :=
  let '(Locals4 b0 b1 b2 b3) := s in [b0; b1; b2; b3].

Definition to_list8 (s : locals8) : list Z :=
  let '(Locals8 b0 b1 b2 b3 b4 b5 b6 b7) := s in [b0; b1; b2; b3; b4; b5; b6; b7].

Definition to_list16 (s : locals16) : list Z :=
  let '(Locals16 b0 b1 b2 b3 b4 b5 b6 b7 b8 b9 b10 b11 b12 b13 b14 b15) := s in
  [b0; b1; b2; b3; b4; b5; b6; b7; b8; b9; b10; b11; b12; b13; b14; b15].

Section Follows.

Context {St : Type}.
Variable to_list : St -> list Z.
Variable permutation : list nat.
Variable step : list Z -> nat -> list Z.

(** The unrolled code never moves a word: it renames the variables from
    round to round.  After [d] rounds the words of the generic loop are the
    local variables permuted [d] times. *)
Definition view (d : nat) (s : St) : list Z :=
  Nat.iter d (permute permutation) (to_list s).

(** [lines] splits into [k] groups of [n] lines, and the group at place [i]
    does what round [d + i] of the generic loop does. *)
Fixpoint follows (n k d : nat) (lines : list (St -> St)) : Prop :=
  match k with
  | O => lines = []
  | S k' =>
      (forall s, view (S d) (run (firstn n lines) s) = step (view d s) d) /\
      follows n k' (S d) (skipn n lines)
  end.

End Follows.

(** ** Outcomes *)

(** The call does not return an [os.Error]. *)
Definition no_error {A : Type} (o : outcome A) : Prop :=
  forall e, o <> Failed e.

(** What [setTweak] leaves in a zeroed expanded tweak. *)
Definition expand_tweak (tweak : option (list Z)) : list Z :=
  match tweak with
  | Some (t0 :: t1 :: _) => [t0; t1; t0 ^' t1]
  | _ => [0; 0; 0]
  end.

(** The expanded key of the key words [key]. *)
Definition expand_key (key : list Z) : list Z :=
  key ++ [KEY_SCHEDULE_CONST ^' xor_all key].

(** The array lengths of the struct that a cipher holds. *)
Definition wf_cipher (c : Cipher) : Prop :=
  wf_threefish (qwords (internal c)) (state (internal c)).


(** ** The error value *)

(** [strconv.Itoa]: the decimal digits of [i], without leading zeros, after
    a minus sign when [i] is negative. *)
Definition Itoa (i : Z) : String.string :=
  DecimalString.NilZero.string_of_int (Z.to_int i).

(** The method [String] of [KeySizeError]. *)
Definition KeySizeError_String (k : os_Error) : String.string :=
  match k with
  | KeySizeError k =>
      String.append "crypto/threefish: invalid key size "%string (Itoa k)
  end.
(** * Properties *)

(** ** uint64 arithmetic *)

#[local] Instance eqm64_equiv : Equivalence (eqm (2 ^ 64)) := eqm_setoid (2 ^ 64).
#[local] Instance eqm64_add :
  Proper (eqm (2 ^ 64) ==> eqm (2 ^ 64) ==> eqm (2 ^ 64)) Z.add := Zplus_eqm (2 ^ 64).
#[local] Instance eqm64_sub :
  Proper (eqm (2 ^ 64) ==> eqm (2 ^ 64) ==> eqm (2 ^ 64)) Z.sub := Zminus_eqm (2 ^ 64).

(** Equations between sums and differences modulo [2 ^ 64]. *)
Ltac mod64 :=
  unfold add64, sub64;
  lazymatch goal with
  | |- ?E mod ?M = ?F mod ?M =>
      change (eqm M E F); rewrite ?(Zmod_eqm M); unfold eqm; f_equal; ring
  | |- ?E mod ?M = ?a =>
      transitivity (a mod M);
      [ change (eqm M E a); rewrite ?(Zmod_eqm M); unfold eqm; f_equal; ring
      | apply Z.mod_small; assumption ]
  end.

Lemma word_add x y : word (x +' y).
Proof. apply Z.mod_pos_bound. reflexivity. Qed.

Lemma word_sub x y : word (x -' y).
Proof. apply Z.mod_pos_bound. reflexivity. Qed.

Lemma word_shl x n : word (x <<' n).
Proof. apply Z.mod_pos_bound. reflexivity. Qed.

Lemma word_testbit x :
  word x <-> (0 <= x /\ forall i, 64 <= i -> Z.testbit x i = false).
Proof.
  unfold word. split.
  - intros H. split; [lia|]. intros i Hi.
    rewrite <- (Z.mod_small x (2 ^ 64)) by assumption.
    apply Z.mod_pow2_bits_high. lia.
  - intros [H0 Hb]. split; [assumption|].
    destruct (Z.eq_dec x 0) as [->|Hx]; [reflexivity|].
    apply Z.log2_lt_pow2; [lia|].
    destruct (Z_lt_le_dec (Z.log2 x) 64) as [Hl|Hl]; [assumption|].
    specialize (Hb _ Hl). rewrite Z.bit_log2 in Hb by lia. discriminate.
Qed.

Lemma word_high x i : word x -> 64 <= i -> Z.testbit x i = false.
Proof. intros H. apply word_testbit in H. apply H. Qed.

Lemma word_shr x n : word x -> 0 <= n -> word (x >>' n).
Proof.
  intros Hx Hn. apply word_testbit in Hx. destruct Hx as [H0 Hb].
  apply word_testbit. unfold shr64. split.
  - apply Z.shiftr_nonneg. assumption.
  - intros i Hi. rewrite Z.shiftr_spec by lia. apply Hb. lia.
Qed.

Lemma word_or x y : word x -> word y -> word (x |' y).
Proof.
  intros Hx Hy. apply word_testbit in Hx, Hy. destruct Hx as [Hx0 Hx], Hy as [Hy0 Hy].
  apply word_testbit. unfold or64. split.
  - apply Z.lor_nonneg. split; assumption.
  - intros i Hi. rewrite Z.lor_spec, Hx, Hy by assumption. reflexivity.
Qed.

Lemma word_xor x y : word x -> word y -> word (x ^' y).
Proof.
  intros Hx Hy. apply word_testbit in Hx, Hy. destruct Hx as [Hx0 Hx], Hy as [Hy0 Hy].
  apply word_testbit. unfold xor64. split.
  - apply Z.lxor_nonneg. split; intros; assumption.
  - intros i Hi. rewrite Z.lxor_spec, Hx, Hy by assumption. reflexivity.
Qed.

Lemma xor_cancel a b : (a ^' b) ^' b = a.
Proof. unfold xor64. rewrite Z.lxor_assoc, Z.lxor_nilpotent. apply Z.lxor_0_r. Qed.

Lemma sub_add a b : word a -> (a +' b) -' b = a.
Proof. intros H. mod64. Qed.

Lemma add_sub a b : word a -> (a -' b) +' b = a.
Proof. intros H. mod64. Qed.

Lemma sub_add2 a b c : word a -> ((a +' b) +' c) -' (b +' c) = a.
Proof. intros H. mod64. Qed.

Lemma add2_sub a b c : word a -> ((a -' (b +' c)) +' b) +' c = a.
Proof. intros H. mod64. Qed.

Lemma testbit_shl x n i : 0 <= n ->
  Z.testbit (x <<' n) i = (i <? 64) && Z.testbit x (i - n).
Proof.
  intros Hn. unfold shl64. destruct (Z.ltb_spec i 64) as [Hi|Hi].
  - destruct (Z_lt_le_dec i 0) as [Hneg|Hpos].
    + rewrite !Z.testbit_neg_r by lia. reflexivity.
    + rewrite Z.mod_pow2_bits_low by lia. rewrite Z.shiftl_spec by lia. reflexivity.
  - rewrite Z.mod_pow2_bits_high by lia. reflexivity.
Qed.

Lemma testbit_shr x n i : 0 <= n ->
  Z.testbit (x >>' n) i = (0 <=? i) && Z.testbit x (i + n).
Proof.
  intros Hn. unfold shr64. destruct (Z.leb_spec 0 i) as [Hi|Hi].
  - rewrite Z.shiftr_spec by lia. reflexivity.
  - rewrite Z.testbit_neg_r by lia. reflexivity.
Qed.

Lemma testbit_or x y i : Z.testbit (x |' y) i = Z.testbit x i || Z.testbit y i.
Proof. apply Z.lor_spec. Qed.

Lemma shift_ok_range r : shift_ok r = true -> 0 < r < 64.
Proof.
  unfold shift_ok. intros H. apply andb_prop in H. destruct H as [H1 H2].
  apply Z.ltb_lt in H1, H2. lia.
Qed.

(** Rotating right undoes rotating left, as the two functions write them. *)
Lemma rotr_rotl x r : word x -> shift_ok r = true ->
  (((x <<' r) |' (x >>' (64 - r))) >>' r)
  |' (((x <<' r) |' (x >>' (64 - r))) <<' (64 - r)) = x.
Proof.
  intros Hx Hr. apply shift_ok_range in Hr.
  apply Z.bits_inj'. intros i Hi.
  rewrite testbit_or, testbit_shr, testbit_shl, !testbit_or, !testbit_shl, !testbit_shr
    by lia.
  replace (i + r - r) with i by ring.
  replace (i - (64 - r) + (64 - r)) with i by ring.
  destruct (Z.leb_spec 0 i); [|lia].
  destruct (Z.ltb_spec (i + r) 64), (Z.ltb_spec i 64), (Z.ltb_spec (i - (64 - r)) 64),
    (Z.leb_spec 0 (i + r)), (Z.leb_spec 0 (i - (64 - r)));
    try lia; cbn [andb orb];
    rewrite ?(word_high x (i + r + (64 - r))), ?(word_high x i) by (assumption || lia);
    rewrite ?(Z.testbit_neg_r x (i - (64 - r) - r)) by lia;
    rewrite ?orb_false_r, ?orb_diag; reflexivity.
Qed.

Lemma rotl_rotr x r : word x -> shift_ok r = true ->
  (((x >>' r) |' (x <<' (64 - r))) <<' r)
  |' (((x >>' r) |' (x <<' (64 - r))) >>' (64 - r)) = x.
Proof.
  intros Hx Hr. apply shift_ok_range in Hr.
  apply Z.bits_inj'. intros i Hi.
  rewrite testbit_or, testbit_shr, testbit_shl, !testbit_or, !testbit_shl, !testbit_shr
    by lia.
  replace (i - r + r) with i by ring.
  replace (i + (64 - r) - (64 - r)) with i by ring.
  destruct (Z.leb_spec 0 i); [|lia].
  destruct (Z.ltb_spec (i + (64 - r)) 64), (Z.ltb_spec i 64), (Z.ltb_spec (i - r) 64),
    (Z.leb_spec 0 (i + (64 - r))), (Z.leb_spec 0 (i - r));
    try lia; cbn [andb orb];
    rewrite ?(word_high x (i + (64 - r) + r)), ?(word_high x i) by (assumption || lia);
    rewrite ?(Z.testbit_neg_r x (i - r - (64 - r))) by lia;
    rewrite ?orb_false_r, ?orb_diag; reflexivity.
Qed.

Lemma word_rotl x r : word x -> shift_ok r = true ->
  word ((x <<' r) |' (x >>' (64 - r))).
Proof.
  intros Hx Hr. apply shift_ok_range in Hr.
  apply word_or; [apply word_shl | apply word_shr; [assumption | lia]].
Qed.

Lemma word_rotr x r : word x -> shift_ok r = true ->
  word ((x >>' r) |' (x <<' (64 - r))).
Proof.
  intros Hx Hr. apply shift_ok_range in Hr.
  apply word_or; [apply word_shr; [assumption | lia] | apply word_shl].
Qed.

(** ** Straight-line code *)

Lemma run_app {St : Type} (l1 l2 : list (St -> St)) (s : St) :
  run (l1 ++ l2) s = run l2 (run l1 s).
Proof. unfold run. apply fold_left_app. Qed.

Lemma paired_inverts {St : Type} (ok : St -> Prop) (n k : nat) :
  forall le rd : list (St -> St), paired ok n k le rd -> inverts ok le (rev rd).
Proof.
  induction k as [|k IH]; intros le rd H; cbn [paired] in H.
  - destruct H as [-> ->]. intros s Hs. split; [assumption | reflexivity].
  - destruct H as [Hhead Htail]. specialize (IH _ _ Htail).
    intros s Hs.
    rewrite <- (firstn_skipn n le), <- (firstn_skipn n rd).
    rewrite rev_app_distr, !run_app.
    destruct (Hhead s Hs) as [Hs1 Hback].
    destruct (IH _ Hs1) as [Hs2 Hmid].
    split; [assumption|].
    rewrite Hmid. exact Hback.
Qed.

(** ** The inverse law, Threefish-256 *)

Ltac word_tac :=
  repeat first
    [ assumption
    | reflexivity
    | apply word_add | apply word_sub
    | apply word_rotl | apply word_rotr
    | apply word_xor ].

Ltac cancel :=
  repeat first
    [ rewrite xor_cancel
    | rewrite rotr_rotl by word_tac
    | rewrite rotl_rotr by word_tac
    | rewrite sub_add by word_tac
    | rewrite add_sub by word_tac ].

Ltac round4 :=
  intros [b0 b1 b2 b3] (H0 & H1 & H2 & H3);
  cbv beta iota zeta delta [run fold_left ok4];
  split; [ repeat split; word_tac | cancel; reflexivity ].

Ltac all_rounds tac :=
  cbv beta iota delta [paired firstn skipn rev app];
  repeat (split; [ tac | ]); split; reflexivity.

Lemma threefish256_rounds_paired k0 k1 k2 k3 k4 t0 t1 t2 :
  paired ok4 2 72
    (threefish256_encrypt_rounds k0 k1 k2 k3 k4 t0 t1 t2)
    (rev (threefish256_decrypt_rounds k0 k1 k2 k3 k4 t0 t1 t2)).
Proof.
  unfold threefish256_encrypt_rounds, threefish256_decrypt_rounds.
  all_rounds round4.
Qed.

Lemma threefish256_rounds_paired' k0 k1 k2 k3 k4 t0 t1 t2 :
  paired ok4 2 72
    (threefish256_decrypt_rounds k0 k1 k2 k3 k4 t0 t1 t2)
    (rev (threefish256_encrypt_rounds k0 k1 k2 k3 k4 t0 t1 t2)).
Proof.
  unfold threefish256_encrypt_rounds, threefish256_decrypt_rounds.
  all_rounds round4.
Qed.

(** ** The inverse law, Threefish-512 *)

Ltac round8 :=
  intros [b0 b1 b2 b3 b4 b5 b6 b7] (H0 & H1 & H2 & H3 & H4 & H5 & H6 & H7);
  cbv beta iota zeta delta [run fold_left ok8];
  split; [ repeat split; word_tac | cancel; reflexivity ].

Lemma threefish512_rounds_paired k0 k1 k2 k3 k4 k5 k6 k7 k8 t0 t1 t2 :
  paired ok8 4 72
    (threefish512_encrypt_rounds k0 k1 k2 k3 k4 k5 k6 k7 k8 t0 t1 t2)
    (rev (threefish512_decrypt_rounds k0 k1 k2 k3 k4 k5 k6 k7 k8 t0 t1 t2)).
Proof.
  unfold threefish512_encrypt_rounds, threefish512_decrypt_rounds.
  all_rounds round8.
Qed.

Lemma threefish512_rounds_paired' k0 k1 k2 k3 k4 k5 k6 k7 k8 t0 t1 t2 :
  paired ok8 4 72
    (threefish512_decrypt_rounds k0 k1 k2 k3 k4 k5 k6 k7 k8 t0 t1 t2)
    (rev (threefish512_encrypt_rounds k0 k1 k2 k3 k4 k5 k6 k7 k8 t0 t1 t2)).
Proof.
  unfold threefish512_encrypt_rounds, threefish512_decrypt_rounds.
  all_rounds round8.
Qed.

(** ** The inverse law, Threefish-1024 *)

Ltac round16 :=
  intros [b0 b1 b2 b3 b4 b5 b6 b7 b8 b9 b10 b11 b12 b13 b14 b15]
    (H0 & H1 & H2 & H3 & H4 & H5 & H6 & H7 & H8 & H9 & H10 & H11 & H12 & H13 & H14 & H15);
  cbv beta iota zeta delta [run fold_left ok16];
  split; [ repeat split; word_tac | cancel; reflexivity ].

Lemma threefish1024_rounds_paired
    k0 k1 k2 k3 k4 k5 k6 k7 k8 k9 k10 k11 k12 k13 k14 k15 k16 t0 t1 t2 :
  paired ok16 8 80
    (threefish1024_encrypt_rounds
       k0 k1 k2 k3 k4 k5 k6 k7 k8 k9 k10 k11 k12 k13 k14 k15 k16 t0 t1 t2)
    (rev (threefish1024_decrypt_rounds
            k0 k1 k2 k3 k4 k5 k6 k7 k8 k9 k10 k11 k12 k13 k14 k15 k16 t0 t1 t2)).
Proof.
  unfold threefish1024_encrypt_rounds, threefish1024_decrypt_rounds.
  all_rounds round16.
Qed.

Lemma threefish1024_rounds_paired'
    k0 k1 k2 k3 k4 k5 k6 k7 k8 k9 k10 k11 k12 k13 k14 k15 k16 t0 t1 t2 :
  paired ok16 8 80
    (threefish1024_decrypt_rounds
       k0 k1 k2 k3 k4 k5 k6 k7 k8 k9 k10 k11 k12 k13 k14 k15 k16 t0 t1 t2)
    (rev (threefish1024_encrypt_rounds
            k0 k1 k2 k3 k4 k5 k6 k7 k8 k9 k10 k11 k12 k13 k14 k15 k16 t0 t1 t2)).
Proof.
  unfold threefish1024_encrypt_rounds, threefish1024_decrypt_rounds.
  all_rounds round16.
Qed.

(** ** The inverse law on blocks *)

Lemma threefish256_decrypt_encrypt tf b out1 out2 :
  length b = 4%nat -> Forall word b ->
  length out1 = 4%nat -> length out2 = 4%nat ->
  exists c, threefish256_encrypt tf b out1 = Done c /\ threefish256_decrypt tf c out2 = Done b.
Proof.
  intros Hb Hw Ho1 Ho2.
  destruct b as [|b0 [|b1 [|b2 [|b3 [|]]]]]; try discriminate Hb.
  destruct out1 as [|x0 [|x1 [|x2 [|x3 [|]]]]]; try discriminate Ho1.
  destruct out2 as [|y0 [|y1 [|y2 [|y3 [|]]]]]; try discriminate Ho2.
  repeat match goal with H : Forall _ (_ :: _) |- _ => inversion_clear H end.
  unfold threefish256_encrypt.
  cbn [index nth_error bind].
  match goal with
  | |- context [run _ ?s] =>
      assert (Hs : ok4 s) by (cbv [ok4]; repeat match goal with |- _ /\ _ => split end; assumption);
      destruct (paired_inverts _ _ _ _ _
        (threefish256_rounds_paired
           (arr (expanedKey tf) 0) (arr (expanedKey tf) 1) (arr (expanedKey tf) 2) (arr (expanedKey tf) 3) (arr (expanedKey tf) 4)
           (arr (expanedTweak tf) 0) (arr (expanedTweak tf) 1) (arr (expanedTweak tf) 2))
        s Hs) as [Hok Hinv];
      rewrite rev_involutive in Hinv;
      destruct (run _ s) as [c0 c1 c2 c3]
  end.
  cbn [store bind].
  eexists. split; [reflexivity|].
  unfold threefish256_decrypt.
  cbn [index nth_error bind].
  cbv [ok4] in Hok.
  rewrite ?sub_add2, ?sub_add by tauto.
  rewrite Hinv. reflexivity.
Qed.

Lemma threefish256_encrypt_decrypt tf b out1 out2 :
  length b = 4%nat -> Forall word b ->
  length out1 = 4%nat -> length out2 = 4%nat ->
  exists c, threefish256_decrypt tf b out1 = Done c /\ threefish256_encrypt tf c out2 = Done b.
Proof.
  intros Hb Hw Ho1 Ho2.
  destruct b as [|b0 [|b1 [|b2 [|b3 [|]]]]]; try discriminate Hb.
  destruct out1 as [|x0 [|x1 [|x2 [|x3 [|]]]]]; try discriminate Ho1.
  destruct out2 as [|y0 [|y1 [|y2 [|y3 [|]]]]]; try discriminate Ho2.
  repeat match goal with H : Forall _ (_ :: _) |- _ => inversion_clear H end.
  unfold threefish256_decrypt.
  cbn [index nth_error bind].
  match goal with
  | |- context [run _ ?s] =>
      assert (Hs : ok4 s) by (cbv [ok4]; repeat match goal with |- _ /\ _ => split end; apply word_sub);
      destruct (paired_inverts _ _ _ _ _
        (threefish256_rounds_paired'
           (arr (expanedKey tf) 0) (arr (expanedKey tf) 1) (arr (expanedKey tf) 2) (arr (expanedKey tf) 3) (arr (expanedKey tf) 4)
           (arr (expanedTweak tf) 0) (arr (expanedTweak tf) 1) (arr (expanedTweak tf) 2))
        s Hs) as [Hok Hinv];
      rewrite rev_involutive in Hinv;
      destruct (run _ s) as [c0 c1 c2 c3]
  end.
  cbn [store bind].
  eexists. split; [reflexivity|].
  unfold threefish256_encrypt.
  cbn [index nth_error bind].
  rewrite Hinv.
  cbn [store bind].
  rewrite ?add2_sub, ?add_sub by assumption. reflexivity.
Qed.

Lemma threefish512_decrypt_encrypt tf b out1 out2 :
  length b = 8%nat -> Forall word b ->
  length out1 = 8%nat -> length out2 = 8%nat ->
  exists c, threefish512_encrypt tf b out1 = Done c /\ threefish512_decrypt tf c out2 = Done b.
Proof.
  intros Hb Hw Ho1 Ho2.
  destruct b as [|b0 [|b1 [|b2 [|b3 [|b4 [|b5 [|b6 [|b7 [|]]]]]]]]]; try discriminate Hb.
  destruct out1 as [|x0 [|x1 [|x2 [|x3 [|x4 [|x5 [|x6 [|x7 [|]]]]]]]]]; try discriminate Ho1.
  destruct out2 as [|y0 [|y1 [|y2 [|y3 [|y4 [|y5 [|y6 [|y7 [|]]]]]]]]]; try discriminate Ho2.
  repeat match goal with H : Forall _ (_ :: _) |- _ => inversion_clear H end.
  unfold threefish512_encrypt.
  cbn [index nth_error bind].
  match goal with
  | |- context [run _ ?s] =>
      assert (Hs : ok8 s) by (cbv [ok8]; repeat match goal with |- _ /\ _ => split end; assumption);
      destruct (paired_inverts _ _ _ _ _
        (threefish512_rounds_paired
           (arr (expanedKey tf) 0) (arr (expanedKey tf) 1) (arr (expanedKey tf) 2) (arr (expanedKey tf) 3) (arr (expanedKey tf) 4) (arr (expanedKey tf) 5) (arr (expanedKey tf) 6) (arr (expanedKey tf) 7) (arr (expanedKey tf) 8)
           (arr (expanedTweak tf) 0) (arr (expanedTweak tf) 1) (arr (expanedTweak tf) 2))
        s Hs) as [Hok Hinv];
      rewrite rev_involutive in Hinv;
      destruct (run _ s) as [c0 c1 c2 c3 c4 c5 c6 c7]
  end.
  cbn [store bind].
  eexists. split; [reflexivity|].
  unfold threefish512_decrypt.
  cbn [index nth_error bind].
  cbv [ok8] in Hok.
  rewrite ?sub_add2, ?sub_add by tauto.
  rewrite Hinv. reflexivity.
Qed.

Lemma threefish512_encrypt_decrypt tf b out1 out2 :
  length b = 8%nat -> Forall word b ->
  length out1 = 8%nat -> length out2 = 8%nat ->
  exists c, threefish512_decrypt tf b out1 = Done c /\ threefish512_encrypt tf c out2 = Done b.
Proof.
  intros Hb Hw Ho1 Ho2.
  destruct b as [|b0 [|b1 [|b2 [|b3 [|b4 [|b5 [|b6 [|b7 [|]]]]]]]]]; try discriminate Hb.
  destruct out1 as [|x0 [|x1 [|x2 [|x3 [|x4 [|x5 [|x6 [|x7 [|]]]]]]]]]; try discriminate Ho1.
  destruct out2 as [|y0 [|y1 [|y2 [|y3 [|y4 [|y5 [|y6 [|y7 [|]]]]]]]]]; try discriminate Ho2.
  repeat match goal with H : Forall _ (_ :: _) |- _ => inversion_clear H end.
  unfold threefish512_decrypt.
  cbn [index nth_error bind].
  match goal with
  | |- context [run _ ?s] =>
      assert (Hs : ok8 s) by (cbv [ok8]; repeat match goal with |- _ /\ _ => split end; apply word_sub);
      destruct (paired_inverts _ _ _ _ _
        (threefish512_rounds_paired'
           (arr (expanedKey tf) 0) (arr (expanedKey tf) 1) (arr (expanedKey tf) 2) (arr (expanedKey tf) 3) (arr (expanedKey tf) 4) (arr (expanedKey tf) 5) (arr (expanedKey tf) 6) (arr (expanedKey tf) 7) (arr (expanedKey tf) 8)
           (arr (expanedTweak tf) 0) (arr (expanedTweak tf) 1) (arr (expanedTweak tf) 2))
        s Hs) as [Hok Hinv];
      rewrite rev_involutive in Hinv;
      destruct (run _ s) as [c0 c1 c2 c3 c4 c5 c6 c7]
  end.
  cbn [store bind].
  eexists. split; [reflexivity|].
  unfold threefish512_encrypt.
  cbn [index nth_error bind].
  rewrite Hinv.
  cbn [store bind].
  rewrite ?add2_sub, ?add_sub by assumption. reflexivity.
Qed.

Lemma threefish1024_decrypt_encrypt tf b out1 out2 :
  length b = 16%nat -> Forall word b ->
  length out1 = 16%nat -> length out2 = 16%nat ->
  exists c, threefish1024_encrypt tf b out1 = Done c /\ threefish1024_decrypt tf c out2 = Done b.
Proof.
  intros Hb Hw Ho1 Ho2.
  destruct b as [|b0 [|b1 [|b2 [|b3 [|b4 [|b5 [|b6 [|b7 [|b8 [|b9 [|b10 [|b11 [|b12 [|b13 [|b14 [|b15 [|]]]]]]]]]]]]]]]]]; try discriminate Hb.
  destruct out1 as [|x0 [|x1 [|x2 [|x3 [|x4 [|x5 [|x6 [|x7 [|x8 [|x9 [|x10 [|x11 [|x12 [|x13 [|x14 [|x15 [|]]]]]]]]]]]]]]]]]; try discriminate Ho1.
  destruct out2 as [|y0 [|y1 [|y2 [|y3 [|y4 [|y5 [|y6 [|y7 [|y8 [|y9 [|y10 [|y11 [|y12 [|y13 [|y14 [|y15 [|]]]]]]]]]]]]]]]]]; try discriminate Ho2.
  repeat match goal with H : Forall _ (_ :: _) |- _ => inversion_clear H end.
  unfold threefish1024_encrypt.
  cbn [index nth_error bind].
  match goal with
  | |- context [run _ ?s] =>
      assert (Hs : ok16 s) by (cbv [ok16]; repeat match goal with |- _ /\ _ => split end; assumption);
      destruct (paired_inverts _ _ _ _ _
        (threefish1024_rounds_paired
           (arr (expanedKey tf) 0) (arr (expanedKey tf) 1) (arr (expanedKey tf) 2) (arr (expanedKey tf) 3) (arr (expanedKey tf) 4) (arr (expanedKey tf) 5) (arr (expanedKey tf) 6) (arr (expanedKey tf) 7) (arr (expanedKey tf) 8) (arr (expanedKey tf) 9) (arr (expanedKey tf) 10) (arr (expanedKey tf) 11) (arr (expanedKey tf) 12) (arr (expanedKey tf) 13) (arr (expanedKey tf) 14) (arr (expanedKey tf) 15) (arr (expanedKey tf) 16)
           (arr (expanedTweak tf) 0) (arr (expanedTweak tf) 1) (arr (expanedTweak tf) 2))
        s Hs) as [Hok Hinv];
      rewrite rev_involutive in Hinv;
      destruct (run _ s) as [c0 c1 c2 c3 c4 c5 c6 c7 c8 c9 c10 c11 c12 c13 c14 c15]
  end.
  cbn [store bind].
  eexists. split; [reflexivity|].
  unfold threefish1024_decrypt.
  cbn [index nth_error bind].
  cbv [ok16] in Hok.
  rewrite ?sub_add2, ?sub_add by tauto.
  rewrite Hinv. reflexivity.
Qed.

Lemma threefish1024_encrypt_decrypt tf b out1 out2 :
  length b = 16%nat -> Forall word b ->
  length out1 = 16%nat -> length out2 = 16%nat ->
  exists c, threefish1024_decrypt tf b out1 = Done c /\ threefish1024_encrypt tf c out2 = Done b.
Proof.
  intros Hb Hw Ho1 Ho2.
  destruct b as [|b0 [|b1 [|b2 [|b3 [|b4 [|b5 [|b6 [|b7 [|b8 [|b9 [|b10 [|b11 [|b12 [|b13 [|b14 [|b15 [|]]]]]]]]]]]]]]]]]; try discriminate Hb.
  destruct out1 as [|x0 [|x1 [|x2 [|x3 [|x4 [|x5 [|x6 [|x7 [|x8 [|x9 [|x10 [|x11 [|x12 [|x13 [|x14 [|x15 [|]]]]]]]]]]]]]]]]]; try discriminate Ho1.
  destruct out2 as [|y0 [|y1 [|y2 [|y3 [|y4 [|y5 [|y6 [|y7 [|y8 [|y9 [|y10 [|y11 [|y12 [|y13 [|y14 [|y15 [|]]]]]]]]]]]]]]]]]; try discriminate Ho2.
  repeat match goal with H : Forall _ (_ :: _) |- _ => inversion_clear H end.
  unfold threefish1024_decrypt.
  cbn [index nth_error bind].
  match goal with
  | |- context [run _ ?s] =>
      assert (Hs : ok16 s) by (cbv [ok16]; repeat match goal with |- _ /\ _ => split end; apply word_sub);
      destruct (paired_inverts _ _ _ _ _
        (threefish1024_rounds_paired'
           (arr (expanedKey tf) 0) (arr (expanedKey tf) 1) (arr (expanedKey tf) 2) (arr (expanedKey tf) 3) (arr (expanedKey tf) 4) (arr (expanedKey tf) 5) (arr (expanedKey tf) 6) (arr (expanedKey tf) 7) (arr (expanedKey tf) 8) (arr (expanedKey tf) 9) (arr (expanedKey tf) 10) (arr (expanedKey tf) 11) (arr (expanedKey tf) 12) (arr (expanedKey tf) 13) (arr (expanedKey tf) 14) (arr (expanedKey tf) 15) (arr (expanedKey tf) 16)
           (arr (expanedTweak tf) 0) (arr (expanedTweak tf) 1) (arr (expanedTweak tf) 2))
        s Hs) as [Hok Hinv];
      rewrite rev_involutive in Hinv;
      destruct (run _ s) as [c0 c1 c2 c3 c4 c5 c6 c7 c8 c9 c10 c11 c12 c13 c14 c15]
  end.
  cbn [store bind].
  eexists. split; [reflexivity|].
  unfold threefish1024_encrypt.
  cbn [index nth_error bind].
  rewrite Hinv.
  cbn [store bind].
  rewrite ?add2_sub, ?add_sub by assumption. reflexivity.
Qed.

(** ** The unrolled rounds follow the generic loop *)

Lemma follows_fold {St : Type} (to_list : St -> list Z) permutation step n k :
  forall d (lines : list (St -> St)),
  follows to_list permutation step n k d lines ->
  forall s,
    view to_list permutation (d + k) (run lines s)
    = fold_left step (seq d k) (view to_list permutation d s).
Proof.
  induction k as [|k IH]; intros d lines H s; cbn [follows] in H.
  - subst lines. rewrite Nat.add_0_r. reflexivity.
  - destruct H as [Hhead Htail].
    rewrite <- (firstn_skipn n lines), run_app.
    replace (d + S k)%nat with (S d + k)%nat by lia.
    rewrite (IH _ _ Htail). cbn [seq fold_left]. rewrite Hhead. reflexivity.
Qed.

Lemma inject_mix_even a k x : a +' (x +' k) = (a +' k) +' x.
Proof. mod64. Qed.

Lemma inject_mix_even_tweak a k t x : a +' (x +' k +' t) = (a +' (k +' t)) +' x.
Proof. mod64. Qed.

Lemma add_add0 x k : x +' (k +' 0) = x +' k.
Proof. mod64. Qed.

Ltac same_word :=
  first
    [ reflexivity
    | apply inject_mix_even
    | apply inject_mix_even_tweak
    | apply (f_equal2 xor64);
      [ reflexivity | first [ apply inject_mix_even | apply inject_mix_even_tweak ] ] ].

Ltac same_words :=
  cbv -[add64 sub64 shl64 shr64 or64 xor64];
  rewrite ?add_add0;
  first [ reflexivity | repeat (apply (f_equal2 (@cons Z)); [ same_word | ]); reflexivity ].

Ltac all_follow tac :=
  cbv beta iota delta [follows firstn skipn];
  repeat (split; [ tac | ]); reflexivity.

Lemma threefish256_rounds_follow k0 k1 k2 k3 k4 t0 t1 t2 :
  follows to_list4 permutation_256
    (spec_round rotation_256 permutation_256
       (subkey_code 4 [k0; k1; k2; k3; k4] [t0; t1; t2]))
    2 72 0 (threefish256_encrypt_rounds k0 k1 k2 k3 k4 t0 t1 t2).
Proof.
  unfold threefish256_encrypt_rounds.
  all_follow ltac:(intros [b0 b1 b2 b3]; same_words).
Qed.
(** After all rounds every word is back in its place. *)
Lemma threefish256_view_full s : view to_list4 permutation_256 72 s = to_list4 s.
Proof. destruct s. reflexivity. Qed.

Lemma threefish256_rounds_spec k0 k1 k2 k3 k4 t0 t1 t2 s :
  to_list4 (run (threefish256_encrypt_rounds k0 k1 k2 k3 k4 t0 t1 t2) s)
  = fold_left
      (spec_round rotation_256 permutation_256
       (subkey_code 4 [k0; k1; k2; k3; k4] [t0; t1; t2]))
      (seq 0 72) (to_list4 s).
Proof.
  rewrite <- threefish256_view_full.
  exact (follows_fold _ _ _ _ _ 0%nat _ (threefish256_rounds_follow k0 k1 k2 k3 k4 t0 t1 t2) s).
Qed.

Lemma threefish256_encrypt_spec tf b out :
  wf_threefish 4 tf -> length b = 4%nat -> length out = 4%nat ->
  threefish256_encrypt tf b out
  = Done (spec_encrypt 72 rotation_256 permutation_256
            (subkey_code 4 (expanedKey tf) (expanedTweak tf)) b).
Proof.
  intros (Ht & Hk & _ & _) Hb Ho. destruct tf as [et ek tmp1 tmp2].
  cbn [expanedTweak expanedKey] in *.
  destruct et as [|t0 [|t1 [|t2 [|]]]]; try discriminate Ht.
  destruct ek as [|k0 [|k1 [|k2 [|k3 [|k4 [|]]]]]]; try discriminate Hk.
  destruct b as [|b0 [|b1 [|b2 [|b3 [|]]]]]; try discriminate Hb.
  destruct out as [|x0 [|x1 [|x2 [|x3 [|]]]]]; try discriminate Ho.
  unfold threefish256_encrypt, spec_encrypt.
  cbn [index nth_error bind arr nth expanedTweak expanedKey].
  change [b0; b1; b2; b3] with (to_list4 (Locals4 b0 b1 b2 b3)).
  rewrite <- threefish256_rounds_spec.
  destruct (run _ _) as [c0 c1 c2 c3].
  cbn [store bind]. f_equal.
  cbv -[add64 sub64 shl64 shr64 or64 xor64].
  repeat (apply (f_equal2 (@cons Z)); [ first [ reflexivity | mod64 ] | ]); reflexivity.
Qed.

Lemma threefish512_rounds_follow k0 k1 k2 k3 k4 k5 k6 k7 k8 t0 t1 t2 :
  follows to_list8 permutation_512
    (spec_round rotation_512 permutation_512
       (subkey_code 8 [k0; k1; k2; k3; k4; k5; k6; k7; k8] [t0; t1; t2]))
    4 72 0 (threefish512_encrypt_rounds k0 k1 k2 k3 k4 k5 k6 k7 k8 t0 t1 t2).
Proof.
  unfold threefish512_encrypt_rounds.
  all_follow ltac:(intros [b0 b1 b2 b3 b4 b5 b6 b7]; same_words).
Qed.

(** After all rounds every word is back in its place. *)
Lemma threefish512_view_full s : view to_list8 permutation_512 72 s = to_list8 s.
Proof. destruct s. reflexivity. Qed.

Lemma threefish512_rounds_spec k0 k1 k2 k3 k4 k5 k6 k7 k8 t0 t1 t2 s :
  to_list8 (run (threefish512_encrypt_rounds k0 k1 k2 k3 k4 k5 k6 k7 k8 t0 t1 t2) s)
  = fold_left
      (spec_round rotation_512 permutation_512
       (subkey_code 8 [k0; k1; k2; k3; k4; k5; k6; k7; k8] [t0; t1; t2]))
      (seq 0 72) (to_list8 s).
Proof.
  rewrite <- threefish512_view_full.
  exact (follows_fold _ _ _ _ _ 0%nat _ (threefish512_rounds_follow k0 k1 k2 k3 k4 k5 k6 k7 k8 t0 t1 t2) s).
Qed.

Lemma threefish512_encrypt_spec tf b out :
  wf_threefish 8 tf -> length b = 8%nat -> length out = 8%nat ->
  threefish512_encrypt tf b out
  = Done (spec_encrypt 72 rotation_512 permutation_512
            (subkey_code 8 (expanedKey tf) (expanedTweak tf)) b).
Proof.
  intros (Ht & Hk & _ & _) Hb Ho. destruct tf as [et ek tmp1 tmp2].
  cbn [expanedTweak expanedKey] in *.
  destruct et as [|t0 [|t1 [|t2 [|]]]]; try discriminate Ht.
  destruct ek as [|k0 [|k1 [|k2 [|k3 [|k4 [|k5 [|k6 [|k7 [|k8 [|]]]]]]]]]]; try discriminate Hk.
  destruct b as [|b0 [|b1 [|b2 [|b3 [|b4 [|b5 [|b6 [|b7 [|]]]]]]]]]; try discriminate Hb.
  destruct out as [|x0 [|x1 [|x2 [|x3 [|x4 [|x5 [|x6 [|x7 [|]]]]]]]]]; try discriminate Ho.
  unfold threefish512_encrypt, spec_encrypt.
  cbn [index nth_error bind arr nth expanedTweak expanedKey].
  change [b0; b1; b2; b3; b4; b5; b6; b7] with (to_list8 (Locals8 b0 b1 b2 b3 b4 b5 b6 b7)).
  rewrite <- threefish512_rounds_spec.
  destruct (run _ _) as [c0 c1 c2 c3 c4 c5 c6 c7].
  cbn [store bind]. f_equal.
  cbv -[add64 sub64 shl64 shr64 or64 xor64].
  repeat (apply (f_equal2 (@cons Z)); [ first [ reflexivity | mod64 ] | ]); reflexivity.
Qed.

Lemma threefish1024_rounds_follow k0 k1 k2 k3 k4 k5 k6 k7 k8 k9 k10 k11 k12 k13 k14 k15 k16 t0 t1 t2 :
  follows to_list16 permutation_1024
    (spec_round rotation_1024 permutation_1024
       (subkey_code 16 [k0; k1; k2; k3; k4; k5; k6; k7; k8; k9; k10; k11; k12; k13; k14; k15; k16] [t0; t1; t2]))
    8 80 0 (threefish1024_encrypt_rounds k0 k1 k2 k3 k4 k5 k6 k7 k8 k9 k10 k11 k12 k13 k14 k15 k16 t0 t1 t2).
Proof.
  unfold threefish1024_encrypt_rounds.
  all_follow ltac:(intros [b0 b1 b2 b3 b4 b5 b6 b7 b8 b9 b10 b11 b12 b13 b14 b15]; same_words).
Qed.

(** After all rounds every word is back in its place. *)
Lemma threefish1024_view_full s : view to_list16 permutation_1024 80 s = to_list16 s.
Proof. destruct s. reflexivity. Qed.

Lemma threefish1024_rounds_spec k0 k1 k2 k3 k4 k5 k6 k7 k8 k9 k10 k11 k12 k13 k14 k15 k16 t0 t1 t2 s :
  to_list16 (run (threefish1024_encrypt_rounds k0 k1 k2 k3 k4 k5 k6 k7 k8 k9 k10 k11 k12 k13 k14 k15 k16 t0 t1 t2) s)
  = fold_left
      (spec_round rotation_1024 permutation_1024
       (subkey_code 16 [k0; k1; k2; k3; k4; k5; k6; k7; k8; k9; k10; k11; k12; k13; k14; k15; k16] [t0; t1; t2]))
      (seq 0 80) (to_list16 s).
Proof.
  rewrite <- threefish1024_view_full.
  exact (follows_fold _ _ _ _ _ 0%nat _ (threefish1024_rounds_follow k0 k1 k2 k3 k4 k5 k6 k7 k8 k9 k10 k11 k12 k13 k14 k15 k16 t0 t1 t2) s).
Qed.

Lemma threefish1024_encrypt_spec tf b out :
  wf_threefish 16 tf -> length b = 16%nat -> length out = 16%nat ->
  threefish1024_encrypt tf b out
  = Done (spec_encrypt 80 rotation_1024 permutation_1024
            (subkey_code 16 (expanedKey tf) (expanedTweak tf)) b).
Proof.
  intros (Ht & Hk & _ & _) Hb Ho. destruct tf as [et ek tmp1 tmp2].
  cbn [expanedTweak expanedKey] in *.
  destruct et as [|t0 [|t1 [|t2 [|]]]]; try discriminate Ht.
  destruct ek as [|k0 [|k1 [|k2 [|k3 [|k4 [|k5 [|k6 [|k7 [|k8 [|k9 [|k10 [|k11 [|k12 [|k13 [|k14 [|k15 [|k16 [|]]]]]]]]]]]]]]]]]]; try discriminate Hk.
  destruct b as [|b0 [|b1 [|b2 [|b3 [|b4 [|b5 [|b6 [|b7 [|b8 [|b9 [|b10 [|b11 [|b12 [|b13 [|b14 [|b15 [|]]]]]]]]]]]]]]]]]; try discriminate Hb.
  destruct out as [|x0 [|x1 [|x2 [|x3 [|x4 [|x5 [|x6 [|x7 [|x8 [|x9 [|x10 [|x11 [|x12 [|x13 [|x14 [|x15 [|]]]]]]]]]]]]]]]]]; try discriminate Ho.
  unfold threefish1024_encrypt, spec_encrypt.
  cbn [index nth_error bind arr nth expanedTweak expanedKey].
  change [b0; b1; b2; b3; b4; b5; b6; b7; b8; b9; b10; b11; b12; b13; b14; b15] with (to_list16 (Locals16 b0 b1 b2 b3 b4 b5 b6 b7 b8 b9 b10 b11 b12 b13 b14 b15)).
  rewrite <- threefish1024_rounds_spec.
  destruct (run _ _) as [c0 c1 c2 c3 c4 c5 c6 c7 c8 c9 c10 c11 c12 c13 c14 c15].
  cbn [store bind]. f_equal.
  cbv -[add64 sub64 shl64 shr64 or64 xor64].
  repeat (apply (f_equal2 (@cons Z)); [ first [ reflexivity | mod64 ] | ]); reflexivity.
Qed.

(** ** Slices *)

Lemma index_app {A : Type} (pre : list A) x post i :
  i = length pre -> index (pre ++ x :: post) i = Done x.
Proof.
  intros ->. unfold index. rewrite nth_error_app2 by lia.
  rewrite Nat.sub_diag. reflexivity.
Qed.

Lemma index_short {A : Type} (l : list A) i : (length l <= i)%nat -> index l i = Panic.
Proof.
  intros H. unfold index. apply nth_error_None in H. rewrite H. reflexivity.
Qed.

Lemma store_app {A : Type} (pre : list A) x post v :
  store (pre ++ x :: post) (length pre) v = Done (pre ++ v :: post).
Proof.
  induction pre as [|h pre IH]; cbn [app length store bind].
  - reflexivity.
  - rewrite IH. reflexivity.
Qed.

Lemma store_length {A : Type} (l : list A) :
  forall i v l', store l i v = Done l' -> length l' = length l.
Proof.
  induction l as [|h l IH]; intros i v l' H; cbn [store] in H.
  - discriminate.
  - destruct i as [|i].
    + injection H as <-. reflexivity.
    + destruct (store l i v) as [t| |] eqn:E; cbn [bind] in H; try discriminate.
      injection H as <-. cbn [length]. f_equal. eapply IH. exact E.
Qed.

Lemma index_lt {A : Type} (l : list A) i :
  (i < length l)%nat -> exists x, index l i = Done x.
Proof.
  intros H. unfold index. destruct (nth_error l i) as [x|] eqn:E.
  - exists x. reflexivity.
  - apply nth_error_None in E. lia.
Qed.

Lemma store_lt {A : Type} (l : list A) :
  forall i v, (i < length l)%nat ->
  exists l', store l i v = Done l' /\ length l' = length l.
Proof.
  induction l as [|h l IH]; intros i v H; cbn [length] in H.
  - lia.
  - destruct i as [|i]; cbn [store].
    + eexists. split; reflexivity.
    + destruct (IH i v) as (t & Ht & Hl); [lia|].
      rewrite Ht. cbn [bind]. eexists. split; [reflexivity|].
      cbn [length]. rewrite Hl. reflexivity.
Qed.

(** Every list of length at least [n] is [n] elements followed by a rest. *)
Lemma split_at {A : Type} (n : nat) (l : list A) :
  (n <= length l)%nat -> exists a b, l = a ++ b /\ length a = n.
Proof.
  intros H. exists (firstn n l), (skipn n l). split.
  - symmetry. apply firstn_skipn.
  - apply firstn_length_le. exact H.
Qed.

(** ** Key schedule *)

Lemma xor_fold_left (l : list Z) :
  forall c, fold_left xor64 l c = c ^' fold_right xor64 0 l.
Proof.
  induction l as [|x l IH]; intros c; cbn [fold_left fold_right].
  - unfold xor64. rewrite Z.lxor_0_r. reflexivity.
  - rewrite IH. unfold xor64. rewrite Z.lxor_assoc. reflexivity.
Qed.

Lemma setKey_loop_spec (kmid : list Z) :
  forall kpre kpost pre mid post parity,
  length kpre = length pre -> length mid = length kmid ->
  setKey_loop (length kmid) (length pre) (kpre ++ kmid ++ kpost) (pre ++ mid ++ post) parity
  = Done ((length pre + length kmid)%nat, pre ++ kmid ++ post, fold_left xor64 kmid parity).
Proof.
  induction kmid as [|x kmid IH]; intros kpre kpost pre mid post parity Hpre Hmid.
  - destruct mid; [|discriminate]. cbn [length setKey_loop app fold_left].
    rewrite Nat.add_0_r. reflexivity.
  - destruct mid as [|y mid]; [discriminate|]. cbn [length] in Hmid.
    injection Hmid as Hmid.
    cbn [length setKey_loop app].
    rewrite !(index_app kpre) by (symmetry; exact Hpre). cbn [bind].
    rewrite store_app. cbn [bind].
    specialize (IH (kpre ++ [x]) kpost (pre ++ [x]) mid post (parity ^' x)).
    rewrite !length_app in IH. cbn [length] in IH.
    rewrite <- !app_assoc in IH. cbn [app] in IH.
    replace (length pre + 1)%nat with (S (length pre)) in IH by lia.
    rewrite IH by lia.
    cbn [fold_left]. do 3 f_equal. lia.
Qed.

(** [setKey] copies the first [N] words of the key and appends the parity
    word, for an expanded key of [N + 1] words. *)
Lemma setKey_spec (key rest expKey : list Z) :
  length expKey = S (length key) ->
  setKey (key ++ rest) expKey
  = Done (key ++ [KEY_SCHEDULE_CONST ^' xor_all key]).
Proof.
  intros Hlen. unfold setKey.
  destruct (split_at (length key) expKey) as (mid & post & -> & Hmid); [lia|].
  rewrite length_app in Hlen.
  destruct post as [|p [|]]; cbn [length] in Hlen; try lia.
  replace (length (mid ++ [p]) - 1)%nat with (length key)
    by (rewrite length_app; cbn [length]; lia).
  pose proof (setKey_loop_spec key [] rest [] mid [p] KEY_SCHEDULE_CONST eq_refl Hmid) as H.
  cbn [app length Nat.add] in H. rewrite H. cbn [bind].
  rewrite <- (app_nil_l (key ++ [p])) at 1.
  change (length key) with (length ([] ++ key)).
  rewrite app_nil_l. rewrite store_app.
  rewrite xor_fold_left. reflexivity.
Qed.

Lemma setKey_loop_short (n : nat) :
  forall i key expKey parity,
  (length key < i + n)%nat -> (i <= length key)%nat -> (i + n <= length expKey)%nat ->
  setKey_loop n i key expKey parity = Panic.
Proof.
  induction n as [|n IH]; intros i key expKey parity Hk Hi He.
  - lia.
  - cbn [setKey_loop].
    destruct (Nat.eq_dec i (length key)) as [->|Hne].
    + rewrite index_short by lia. reflexivity.
    + destruct (index_lt key i) as [x Hx]; [lia|]. rewrite Hx. cbn [bind].
      destruct (store_lt expKey i x) as (e & Hs & Hl); [lia|]. rewrite Hs. cbn [bind].
      apply IH; lia.
Qed.

(** A key of fewer than [N] words panics: [key[i]] is out of range. *)
Lemma setKey_short (key expKey : list Z) :
  (length key < length expKey - 1)%nat -> setKey key expKey = Panic.
Proof.
  intros Hlen. unfold setKey.
  rewrite setKey_loop_short by lia. reflexivity.
Qed.

(** ** Tweak schedule *)

Lemma setTweak_spec t0 t1 rest e0 e1 e2 :
  setTweak (Some (t0 :: t1 :: rest)) [e0; e1; e2] = Done [t0; t1; t0 ^' t1].
Proof. reflexivity. Qed.

Lemma setTweak_valid tweak expTweak :
  valid_tweak tweak -> length expTweak = EXPANDED_TWEAK_SIZE ->
  exists expTweak', setTweak tweak expTweak = Done expTweak'
                    /\ length expTweak' = EXPANDED_TWEAK_SIZE.
Proof.
  intros Hv He.
  destruct expTweak as [|e0 [|e1 [|e2 [|]]]]; try discriminate He.
  destruct tweak as [t|].
  - destruct t as [|t0 [|t1 [|]]]; try discriminate Hv.
    eexists. split; reflexivity.
  - eexists. split; reflexivity.
Qed.

(** ** Little-endian words *)

Lemma shl64_byte (b : byte) n : 0 <= n <= 56 ->
  byte.unsigned b <<' n = Z.shiftl (byte.unsigned b) n.
Proof.
  intros Hn. unfold shl64. apply Z.mod_small.
  pose proof (byte.unsigned_range b) as Hb.
  rewrite Z.shiftl_mul_pow2 by lia. split; [apply Z.mul_nonneg_nonneg; lia|].
  apply Z.lt_le_trans with (2 ^ 8 * 2 ^ n).
  - apply Z.mul_lt_mono_pos_r; [apply Z.pow_pos_nonneg|]; lia.
  - rewrite <- Z.pow_add_r by lia. apply Z.pow_le_mono_r; lia.
Qed.

(** [binary.LittleEndian.Uint64] is the little-endian value of 8 bytes. *)
Lemma Uint64_le_combine (b : list byte) :
  length b = 8%nat -> Uint64 b = Done (le_combine b).
Proof.
  intros H.
  destruct b as [|b0 [|b1 [|b2 [|b3 [|b4 [|b5 [|b6 [|b7 [|]]]]]]]]]; try discriminate H.
  unfold Uint64. f_equal. cbv [le_combine].
  rewrite !shl64_byte by lia. unfold or64.
  rewrite Z.shiftl_0_l, Z.lor_0_r.
  rewrite !Z.shiftl_lor, !Z.shiftl_shiftl by lia.
  rewrite !Z.lor_assoc. reflexivity.
Qed.

(** [binary.LittleEndian.PutUint64] writes the little-endian bytes. *)
Lemma PutUint64_le_split (b : list byte) v :
  length b = 8%nat -> PutUint64 b v = Done (le_split 8 v).
Proof.
  intros H.
  destruct b as [|b0 [|b1 [|b2 [|b3 [|b4 [|b5 [|b6 [|b7 [|]]]]]]]]]; try discriminate H.
  unfold PutUint64, shr64. cbv [le_split].
  rewrite !Z.shiftr_shiftr by lia. reflexivity.
Qed.

Lemma slice_app {A : Type} (pre body : list A) lo hi k :
  lo = length pre -> hi = (lo + k)%nat -> (k <= length body)%nat ->
  slice (pre ++ body) lo hi = Done (firstn k body).
Proof.
  intros -> -> Hk. unfold slice.
  replace ((length pre <=? length pre + k)%nat) with true
    by (symmetry; apply Nat.leb_le; lia).
  replace ((length pre + k <=? length (pre ++ body))%nat) with true
    by (symmetry; apply Nat.leb_le; rewrite length_app; lia).
  cbn [andb]. replace (length pre + k - length pre)%nat with k by lia.
  rewrite skipn_app, skipn_all, Nat.sub_diag. reflexivity.
Qed.

Lemma write_slice_app {A : Type} (pre mid post sub : list A) lo hi :
  lo = length pre -> hi = (lo + length mid)%nat ->
  write_slice (pre ++ mid ++ post) lo hi sub = pre ++ sub ++ post.
Proof.
  intros -> ->. unfold write_slice.
  rewrite firstn_app, firstn_all, Nat.sub_diag. cbn [firstn]. rewrite app_nil_r.
  f_equal. f_equal.
  rewrite app_assoc, skipn_app.
  rewrite skipn_all2 by (rewrite length_app; lia).
  rewrite length_app, Nat.sub_diag. reflexivity.
Qed.

(** The loop that loads a block of bytes computes [bytes_to_words]. *)
Lemma load_words_spec (n : nat) :
  forall pre mid post spre sbody,
  length spre = (length pre * 8)%nat -> length mid = n -> (n * 8 <= length sbody)%nat ->
  load_words n (length pre) (spre ++ sbody) (pre ++ mid ++ post)
  = Done (pre ++ bytes_to_words n sbody ++ post).
Proof.
  induction n as [|n IH]; intros pre mid post spre sbody Hs Hm Hb.
  - destruct mid; [|discriminate]. reflexivity.
  - destruct mid as [|m mid]; [discriminate|]. injection Hm as Hm.
    cbn [load_words bytes_to_words].
    rewrite (slice_app spre sbody _ _ 8) by lia. cbn [bind].
    rewrite Uint64_le_combine by (apply firstn_length_le; lia). cbn [bind].
    cbn [app]. rewrite store_app. cbn [bind].
    rewrite <- (firstn_skipn 8 sbody) at 1.
    specialize (IH (pre ++ [le_combine (firstn 8 sbody)]) mid post
                  (spre ++ firstn 8 sbody) (skipn 8 sbody)).
    rewrite !length_app in IH. cbn [length] in IH.
    rewrite <- !app_assoc in IH. cbn [app] in IH.
    replace (length pre + 1)%nat with (S (length pre)) in IH by lia.
    apply IH.
    + rewrite firstn_length_le by lia. lia.
    + exact Hm.
    + rewrite length_skipn. lia.
Qed.

Lemma firstn_exact {A : Type} (a b : list A) n :
  length a = n -> firstn n (a ++ b) = a.
Proof.
  intros <-. rewrite firstn_app, firstn_all, Nat.sub_diag. cbn [firstn].
  apply app_nil_r.
Qed.

(** The loop that stores a block of words computes [words_to_bytes]. *)
Lemma store_words_spec (tmid : list Z) :
  forall dpre dmid dpost tpre tpost,
  length dpre = (length tpre * 8)%nat -> length dmid = (length tmid * 8)%nat ->
  store_words (length tmid) (length tpre) (dpre ++ dmid ++ dpost) (tpre ++ tmid ++ tpost)
  = Done (dpre ++ words_to_bytes tmid ++ dpost).
Proof.
  induction tmid as [|x tmid IH]; intros dpre dmid dpost tpre tpost Hd Hm.
  - destruct dmid; [|discriminate]. reflexivity.
  - cbn [length] in Hm.
    destruct (split_at 8 dmid) as (d8 & drest & -> & Hd8); [lia|].
    rewrite length_app in Hm.
    cbn [length store_words]. rewrite <- app_assoc.
    rewrite (slice_app dpre (d8 ++ drest ++ dpost) _ _ 8)
      by (try rewrite length_app; lia).
    rewrite firstn_exact by exact Hd8.
    cbn [bind app]. rewrite (index_app tpre) by reflexivity. cbn [bind].
    rewrite PutUint64_le_split by exact Hd8. cbn [bind].
    rewrite (write_slice_app dpre d8 (drest ++ dpost)) by lia.
    specialize (IH (dpre ++ le_split 8 x) drest dpost (tpre ++ [x]) tpost).
    rewrite !length_app in IH. rewrite length_le_split in IH. cbn [length] in IH.
    rewrite <- !app_assoc in IH. cbn [app] in IH.
    replace (length tpre + 1)%nat with (S (length tpre)) in IH by lia.
    rewrite IH by lia.
    unfold words_to_bytes. cbn [flat_map]. rewrite <- app_assoc. reflexivity.
Qed.

Lemma bytes_to_words_length n bs : length (bytes_to_words n bs) = n.
Proof.
  revert bs. induction n as [|n IH]; intros bs; cbn [bytes_to_words length].
  - reflexivity.
  - rewrite IH. reflexivity.
Qed.

Lemma skipn_exact {A : Type} (a b : list A) n :
  length a = n -> skipn n (a ++ b) = b.
Proof.
  intros <-. rewrite skipn_app, skipn_all, Nat.sub_diag. reflexivity.
Qed.

(** [bytes_to_words n] reads the first [8 * n] bytes only. *)
Lemma bytes_to_words_app n :
  forall bs rest,
  length bs = (n * 8)%nat -> bytes_to_words n (bs ++ rest) = bytes_to_words n bs.
Proof.
  induction n as [|n IH]; intros bs rest H; cbn [bytes_to_words].
  - reflexivity.
  - destruct (split_at 8 bs) as (a & b & -> & Ha); [lia|].
    rewrite length_app in H.
    rewrite <- app_assoc, !firstn_exact, !skipn_exact by exact Ha.
    f_equal. apply IH. lia.
Qed.

Lemma word_le_combine (b : list byte) : length b = 8%nat -> word (le_combine b).
Proof.
  intros H. pose proof (le_combine_bound b) as Hb. rewrite H in Hb. exact Hb.
Qed.

Lemma bytes_to_words_word n :
  forall bs, (n * 8 <= length bs)%nat -> Forall word (bytes_to_words n bs).
Proof.
  induction n as [|n IH]; intros bs H; cbn [bytes_to_words]; constructor.
  - apply word_le_combine. apply firstn_length_le. lia.
  - apply IH. rewrite length_skipn. lia.
Qed.

(** ** Calls that return no error *)

Lemma no_error_Done {A : Type} (a : A) : no_error (Done a).
Proof. intros e H. discriminate H. Qed.

Lemma no_error_Panic {A : Type} : no_error (@Panic A).
Proof. intros e H. discriminate H. Qed.

Lemma no_error_bind {A B : Type} (m : outcome A) (f : A -> outcome B) :
  no_error m -> (forall a, no_error (f a)) -> no_error (bind m f).
Proof.
  intros Hm Hf e. destruct m as [a|e'|]; cbn [bind].
  - apply Hf.
  - exfalso. exact (Hm e' eq_refl).
  - discriminate.
Qed.

Lemma no_error_index {A : Type} (l : list A) i : no_error (index l i).
Proof. unfold index. destruct (nth_error l i); intros e H; discriminate H. Qed.

Lemma no_error_store {A : Type} (l : list A) : forall i v, no_error (store l i v).
Proof.
  induction l as [|h l IH]; intros i v; cbn [store].
  - apply no_error_Panic.
  - destruct i as [|i]; [apply no_error_Done|].
    apply no_error_bind; [apply IH | intros; apply no_error_Done].
Qed.

Lemma no_error_slice {A : Type} (l : list A) lo hi : no_error (slice l lo hi).
Proof. unfold slice. destruct (_ && _); intros e H; discriminate H. Qed.

Lemma no_error_Uint64 b : no_error (Uint64 b).
Proof.
  unfold Uint64.
  destruct b as [|b0 [|b1 [|b2 [|b3 [|b4 [|b5 [|b6 [|b7 b]]]]]]]];
    intros e H; discriminate H.
Qed.

Lemma no_error_PutUint64 b v : no_error (PutUint64 b v).
Proof.
  unfold PutUint64.
  destruct b as [|b0 [|b1 [|b2 [|b3 [|b4 [|b5 [|b6 [|b7 b]]]]]]]];
    intros e H; discriminate H.
Qed.

Ltac no_err :=
  repeat lazymatch goal with
    | |- no_error (Done _) => apply no_error_Done
    | |- no_error Panic => apply no_error_Panic
    | |- no_error (index _ _) => apply no_error_index
    | |- no_error (store _ _ _) => apply no_error_store
    | |- no_error (slice _ _ _) => apply no_error_slice
    | |- no_error (Uint64 _) => apply no_error_Uint64
    | |- no_error (PutUint64 _ _) => apply no_error_PutUint64
    | |- no_error (bind _ _) => apply no_error_bind; [ | intros ? ]
    | |- no_error (match ?p with _ => _ end) => destruct p
    end.

Lemma no_error_setTweak tweak expTweak : no_error (setTweak tweak expTweak).
Proof. unfold setTweak. destruct tweak; no_err. Qed.

Lemma no_error_setKey_loop n :
  forall i key expKey parity, no_error (setKey_loop n i key expKey parity).
Proof.
  induction n as [|n IH]; intros i key expKey parity; cbn [setKey_loop]; no_err.
  apply IH.
Qed.

Lemma no_error_setKey key expKey : no_error (setKey key expKey).
Proof.
  unfold setKey. apply no_error_bind; [apply no_error_setKey_loop|].
  intros [[i e] p]. no_err.
Qed.

Lemma no_error_load_words n :
  forall i src tmp, no_error (load_words n i src tmp).
Proof.
  induction n as [|n IH]; intros i src tmp; cbn [load_words]; no_err.
  apply IH.
Qed.

Lemma no_error_store_words n :
  forall i dst tmp, no_error (store_words n i dst tmp).
Proof.
  induction n as [|n IH]; intros i dst tmp; cbn [store_words]; no_err.
  apply IH.
Qed.

Lemma no_error_encrypt ci input output : no_error (encrypt ci input output).
Proof.
  destruct ci as [tf|tf|tf]; cbn [encrypt];
    unfold threefish256_encrypt, threefish512_encrypt, threefish1024_encrypt; no_err.
Qed.

Lemma no_error_decrypt ci input output : no_error (decrypt ci input output).
Proof.
  destruct ci as [tf|tf|tf]; cbn [decrypt];
    unfold threefish256_decrypt, threefish512_decrypt, threefish1024_decrypt;
    cbv zeta; no_err.
Qed.

Lemma no_error_newThreefish eks key tweak : no_error (newThreefish eks key tweak).
Proof.
  unfold newThreefish. cbv zeta.
  apply no_error_bind; [apply no_error_setTweak | intros ?].
  apply no_error_bind; [apply no_error_store | intros ?].
  destruct key; [|apply no_error_Done].
  apply no_error_bind; [apply no_error_load_words | intros ?].
  apply no_error_bind; [apply no_error_setKey | intros ?].
  apply no_error_Done.
Qed.

Lemma no_error_newThreefish_64 eks key tweak : no_error (newThreefish_64 eks key tweak).
Proof.
  unfold newThreefish_64. cbv zeta.
  apply no_error_bind; [apply no_error_setTweak | intros ?].
  apply no_error_bind; [apply no_error_store | intros ?].
  apply no_error_bind; [apply no_error_setKey | intros ?].
  apply no_error_Done.
Qed.

Lemma no_error_SetKey c key : no_error (SetKey c key).
Proof.
  unfold SetKey, cipherInternal_setKey. no_err. apply no_error_setKey.
Qed.

Lemma no_error_SetTweak c tweak : no_error (SetTweak c tweak).
Proof.
  unfold SetTweak, cipherInternal_setTweak. no_err. apply no_error_setTweak.
Qed.

Lemma no_error_Encrypt c dst src : no_error (Encrypt c dst src).
Proof.
  unfold Encrypt. cbv zeta. destruct (getTempData (internal c)) as [tmpin tmpout].
  apply no_error_bind; [apply no_error_load_words | intros ?].
  apply no_error_bind; [apply no_error_encrypt | intros ?].
  apply no_error_bind; [apply no_error_store_words | intros ?].
  apply no_error_Done.
Qed.

Lemma no_error_Decrypt c dst src : no_error (Decrypt c dst src).
Proof.
  unfold Decrypt. cbv zeta. destruct (getTempData (internal c)) as [tmpin tmpout].
  apply no_error_bind; [apply no_error_load_words | intros ?].
  apply no_error_bind; [apply no_error_decrypt | intros ?].
  apply no_error_bind; [apply no_error_store_words | intros ?].
  apply no_error_Done.
Qed.

(** ** Constructors *)

Lemma repeat_snoc {A : Type} (x : A) n : repeat x (S n) = repeat x n ++ [x].
Proof.
  induction n as [|n IH]; [reflexivity|].
  cbn [repeat app] in *. rewrite <- IH. reflexivity.
Qed.

Lemma xor_all_zero n : xor_all (repeat 0 n) = 0.
Proof.
  induction n as [|n IH]; [reflexivity|].
  cbn [repeat xor_all fold_right]. fold (xor_all (repeat 0 n)). rewrite IH. reflexivity.
Qed.

Lemma setTweak_expand tweak :
  valid_tweak tweak ->
  setTweak tweak (repeat 0 EXPANDED_TWEAK_SIZE) = Done (expand_tweak tweak).
Proof.
  intros Hv. destruct tweak as [t|]; [|reflexivity].
  destruct t as [|t0 [|t1 [|]]]; try discriminate Hv. reflexivity.
Qed.

Lemma store_last n :
  store (repeat 0 (S n)) n KEY_SCHEDULE_CONST = Done (repeat 0 n ++ [KEY_SCHEDULE_CONST]).
Proof.
  rewrite repeat_snoc.
  rewrite <- (repeat_length 0 n) at 2. apply store_app.
Qed.

(** The struct a constructor returns for a key of [n] words given as bytes. *)
Lemma newThreefish_bytes n key tweak :
  valid_tweak tweak -> length key = (n * 8)%nat ->
  newThreefish (S n) (Some key) tweak
  = Done (mk_threefish (expand_tweak tweak) (expand_key (bytes_to_words n key))
            (repeat 0 n) (repeat 0 n)).
Proof.
  intros Hv Hk. unfold newThreefish. cbv zeta.
  replace (S n - 1)%nat with n by lia.
  cbn [new_threefish expanedTweak expanedKey with_expanedTweak with_expanedKey
       tmpData1 tmpData2].
  rewrite setTweak_expand by exact Hv. cbn [bind].
  rewrite store_last. cbn [bind].
  pose proof (load_words_spec n [] (repeat 0 n) [0] [] key eq_refl
                (repeat_length 0 n)) as Hl.
  cbn [app length] in Hl. rewrite repeat_snoc, Hl by lia. cbn [bind].
  rewrite setKey_spec
    by (rewrite length_app, repeat_length, bytes_to_words_length; cbn [length]; lia).
  reflexivity.
Qed.

(** The struct the size-only constructor returns. *)
Lemma newThreefish_nil n :
  newThreefish (S n) None None
  = Done (mk_threefish [0; 0; 0] (repeat 0 n ++ [KEY_SCHEDULE_CONST])
            (repeat 0 n) (repeat 0 n)).
Proof.
  unfold newThreefish. cbv zeta.
  replace (S n - 1)%nat with n by lia.
  cbn [new_threefish expanedTweak expanedKey with_expanedTweak with_expanedKey
       tmpData1 tmpData2 setTweak bind].
  rewrite store_last. reflexivity.
Qed.

(** The struct a constructor returns for a key of [n] words. *)
Lemma newThreefish_64_words n key rest tweak :
  valid_tweak tweak -> length key = n ->
  newThreefish_64 (S n) (key ++ rest) tweak
  = Done (mk_threefish (expand_tweak tweak) (expand_key key) (repeat 0 n) (repeat 0 n)).
Proof.
  intros Hv Hk. unfold newThreefish_64. cbv zeta.
  replace (S n - 1)%nat with n by lia.
  cbn [new_threefish expanedTweak expanedKey with_expanedTweak with_expanedKey
       tmpData1 tmpData2].
  rewrite setTweak_expand by exact Hv. cbn [bind].
  rewrite store_last. cbn [bind].
  rewrite setKey_spec by (rewrite length_app, repeat_length; cbn [length]; lia).
  reflexivity.
Qed.

(** The [switch] of the three constructors, as comparisons. *)
Lemma switch3_bytes {A : Type} (z : Z) (a b c d : A) :
  match z with 32 => a | 64 => b | 128 => c | _ => d end
  = if z =? 32 then a else if z =? 64 then b else if z =? 128 then c else d.
Proof.
  destruct z as [|p|p]; try reflexivity.
  do 8 (try (destruct p as [p|p|]; try reflexivity)).
Qed.

Lemma switch3_words {A : Type} (z : Z) (a b c d : A) :
  match z with 4 => a | 8 => b | 16 => c | _ => d end
  = if z =? 4 then a else if z =? 8 then b else if z =? 16 then c else d.
Proof.
  destruct z as [|p|p]; try reflexivity.
  do 5 (try (destruct p as [p|p|]; try reflexivity)).
Qed.

Lemma switch3_bits {A : Type} (z : Z) (a b c d : A) :
  match z with 256 => a | 512 => b | 1024 => c | _ => d end
  = if z =? 256 then a else if z =? 512 then b else if z =? 1024 then c else d.
Proof.
  destruct z as [|p|p]; try reflexivity.
  do 11 (try (destruct p as [p|p|]; try reflexivity)).
Qed.

Lemma NewCipher_unsupported key tweak :
  ~ In (len key) [32; 64; 128] ->
  NewCipher key tweak = Failed (KeySizeError (len key)).
Proof.
  intros H. unfold NewCipher. rewrite switch3_bytes.
  destruct (Z.eqb_spec (len key) 32) as [E|_]; [exfalso; apply H; rewrite E; cbn; tauto|].
  destruct (Z.eqb_spec (len key) 64) as [E|_]; [exfalso; apply H; rewrite E; cbn; tauto|].
  destruct (Z.eqb_spec (len key) 128) as [E|_]; [exfalso; apply H; rewrite E; cbn; tauto|].
  reflexivity.
Qed.

Lemma NewCipher_supported key tweak :
  In (len key) [32; 64; 128] -> valid_tweak tweak ->
  exists ci,
    NewCipher key tweak = Done (mk_Cipher (len key * 8) ci) /\
    (qwords ci * 8)%nat = length key /\
    state ci = mk_threefish (expand_tweak tweak) (expand_key (key_words_of_bytes key))
                 (repeat 0 (qwords ci)) (repeat 0 (qwords ci)).
Proof.
  intros H Hv. unfold NewCipher, key_words_of_bytes. rewrite switch3_bytes.
  unfold len in *.
  destruct H as [H|[H|[H|[]]]].
  - assert (Hl : length key = 32%nat) by lia. rewrite Hl.
    exists (threefish256 (mk_threefish (expand_tweak tweak)
              (expand_key (bytes_to_words 4 key)) (repeat 0 4) (repeat 0 4))).
    split; [|split; reflexivity].
    change (Z.of_nat 32 =? 32) with true. cbv iota.
    unfold newThreefish256.
    change EXPANDED_KEY_SIZE_256 with 5%nat.
    rewrite (newThreefish_bytes 4) by assumption. reflexivity.
  - assert (Hl : length key = 64%nat) by lia. rewrite Hl.
    exists (threefish512 (mk_threefish (expand_tweak tweak)
              (expand_key (bytes_to_words 8 key)) (repeat 0 8) (repeat 0 8))).
    split; [|split; reflexivity].
    change (Z.of_nat 64 =? 32) with false. change (Z.of_nat 64 =? 64) with true. cbv iota.
    unfold newThreefish512.
    change EXPANDED_KEY_SIZE_512 with 9%nat.
    rewrite (newThreefish_bytes 8) by assumption. reflexivity.
  - assert (Hl : length key = 128%nat) by lia. rewrite Hl.
    exists (threefish1024 (mk_threefish (expand_tweak tweak)
              (expand_key (bytes_to_words 16 key)) (repeat 0 16) (repeat 0 16))).
    split; [|split; reflexivity].
    change (Z.of_nat 128 =? 32) with false. change (Z.of_nat 128 =? 64) with false.
    change (Z.of_nat 128 =? 128) with true. cbv iota.
    unfold newThreefish1024.
    change EXPANDED_KEY_SIZE_1024 with 17%nat.
    rewrite (newThreefish_bytes 16) by assumption. reflexivity.
Qed.

Lemma NewCipher64_unsupported key tweak :
  ~ In (len key) [4; 8; 16] ->
  NewCipher64 key tweak = Failed (KeySizeError (len key)).
Proof.
  intros H. unfold NewCipher64. rewrite switch3_words.
  destruct (Z.eqb_spec (len key) 4) as [E|_]; [exfalso; apply H; rewrite E; cbn; tauto|].
  destruct (Z.eqb_spec (len key) 8) as [E|_]; [exfalso; apply H; rewrite E; cbn; tauto|].
  destruct (Z.eqb_spec (len key) 16) as [E|_]; [exfalso; apply H; rewrite E; cbn; tauto|].
  reflexivity.
Qed.

Lemma NewCipher64_supported key tweak :
  In (len key) [4; 8; 16] -> valid_tweak tweak ->
  exists ci,
    NewCipher64 key tweak = Done (mk_Cipher (len key * 8) ci) /\
    qwords ci = length key /\
    state ci = mk_threefish (expand_tweak tweak) (expand_key key)
                 (repeat 0 (qwords ci)) (repeat 0 (qwords ci)).
Proof.
  intros H Hv. unfold NewCipher64. rewrite switch3_words.
  unfold len in *.
  destruct H as [H|[H|[H|[]]]].
  - assert (Hl : length key = 4%nat) by lia. rewrite Hl.
    exists (threefish256 (mk_threefish (expand_tweak tweak)
              (expand_key key) (repeat 0 4) (repeat 0 4))).
    split; [|split; reflexivity].
    change (Z.of_nat 4 =? 4) with true. cbv iota.
    unfold newThreefish256_64.
    change EXPANDED_KEY_SIZE_256 with 5%nat.
    rewrite <- (app_nil_r key) at 1.
    rewrite (newThreefish_64_words 4) by assumption. reflexivity.
  - assert (Hl : length key = 8%nat) by lia. rewrite Hl.
    exists (threefish512 (mk_threefish (expand_tweak tweak)
              (expand_key key) (repeat 0 8) (repeat 0 8))).
    split; [|split; reflexivity].
    change (Z.of_nat 8 =? 4) with false. change (Z.of_nat 8 =? 8) with true. cbv iota.
    unfold newThreefish512_64.
    change EXPANDED_KEY_SIZE_512 with 9%nat.
    rewrite <- (app_nil_r key) at 1.
    rewrite (newThreefish_64_words 8) by assumption. reflexivity.
  - assert (Hl : length key = 16%nat) by lia. rewrite Hl.
    exists (threefish1024 (mk_threefish (expand_tweak tweak)
              (expand_key key) (repeat 0 16) (repeat 0 16))).
    split; [|split; reflexivity].
    change (Z.of_nat 16 =? 4) with false. change (Z.of_nat 16 =? 8) with false.
    change (Z.of_nat 16 =? 16) with true. cbv iota.
    unfold newThreefish1024_64.
    change EXPANDED_KEY_SIZE_1024 with 17%nat.
    rewrite <- (app_nil_r key) at 1.
    rewrite (newThreefish_64_words 16) by assumption. reflexivity.
Qed.

Lemma NewCipherSize_unsupported size :
  ~ In size [256; 512; 1024] -> NewCipherSize size = Failed (KeySizeError size).
Proof.
  intros H. unfold NewCipherSize. rewrite switch3_bits.
  destruct (Z.eqb_spec size 256) as [E|_]; [exfalso; apply H; rewrite E; cbn; tauto|].
  destruct (Z.eqb_spec size 512) as [E|_]; [exfalso; apply H; rewrite E; cbn; tauto|].
  destruct (Z.eqb_spec size 1024) as [E|_]; [exfalso; apply H; rewrite E; cbn; tauto|].
  reflexivity.
Qed.

Lemma NewCipherSize_supported size :
  In size [256; 512; 1024] ->
  exists ci,
    NewCipherSize size = Done (mk_Cipher size ci) /\
    Z.of_nat (qwords ci) * 64 = size /\
    state ci = mk_threefish [0; 0; 0] (repeat 0 (qwords ci) ++ [KEY_SCHEDULE_CONST])
                 (repeat 0 (qwords ci)) (repeat 0 (qwords ci)).
Proof.
  intros [H|[H|[H|[]]]]; subst size.
  - eexists. split; [reflexivity|]. split; reflexivity.
  - eexists. split; [reflexivity|]. split; reflexivity.
  - eexists. split; [reflexivity|]. split; reflexivity.
Qed.

(** A constructor that returns an error was given an unsupported size. *)
Lemma NewCipher_Failed key tweak e :
  NewCipher key tweak = Failed e -> ~ In (len key) [32; 64; 128].
Proof.
  intros HF Hin. revert HF. unfold NewCipher. rewrite switch3_bytes.
  destruct Hin as [H|[H|[H|[]]]]; rewrite <- H; cbn [Z.eqb Pos.eqb];
    apply no_error_bind; try (intros; apply no_error_Done);
    apply no_error_newThreefish.
Qed.

Lemma NewCipher64_Failed key tweak e :
  NewCipher64 key tweak = Failed e -> ~ In (len key) [4; 8; 16].
Proof.
  intros HF Hin. revert HF. unfold NewCipher64. rewrite switch3_words.
  destruct Hin as [H|[H|[H|[]]]]; rewrite <- H; cbn [Z.eqb Pos.eqb];
    apply no_error_bind; try (intros; apply no_error_Done);
    apply no_error_newThreefish_64.
Qed.

Lemma NewCipherSize_Failed size e :
  NewCipherSize size = Failed e -> ~ In size [256; 512; 1024].
Proof.
  intros HF Hin. destruct Hin as [H|[H|[H|[]]]]; subst size; discriminate HF.
Qed.

(** ** The round functions return *)

Lemma threefish256_encrypt_total tf input :
  length input = 4%nat ->
  exists res, length res = 4%nat /\
    forall output, length output = 4%nat -> threefish256_encrypt tf input output = Done res.
Proof.
  intros Hi.
  destruct input as [|b0 [|b1 [|b2 [|b3 [|]]]]]; try discriminate Hi.
  unfold threefish256_encrypt. cbn [index nth_error bind]. cbv zeta.
  destruct (run _ _) as [c0 c1 c2 c3].
  eexists. split; [|intros output Ho;
    destruct output as [|x0 [|x1 [|x2 [|x3 [|]]]]]; try discriminate Ho;
    cbn [store bind]; reflexivity].
  reflexivity.
Qed.

Lemma threefish256_decrypt_total tf input :
  length input = 4%nat ->
  exists res, length res = 4%nat /\
    forall output, length output = 4%nat -> threefish256_decrypt tf input output = Done res.
Proof.
  intros Hi.
  destruct input as [|b0 [|b1 [|b2 [|b3 [|]]]]]; try discriminate Hi.
  unfold threefish256_decrypt. cbn [index nth_error bind]. cbv zeta.
  destruct (run _ _) as [c0 c1 c2 c3].
  eexists. split; [|intros output Ho;
    destruct output as [|x0 [|x1 [|x2 [|x3 [|]]]]]; try discriminate Ho;
    cbn [store bind]; reflexivity].
  reflexivity.
Qed.

Lemma threefish512_encrypt_total tf input :
  length input = 8%nat ->
  exists res, length res = 8%nat /\
    forall output, length output = 8%nat -> threefish512_encrypt tf input output = Done res.
Proof.
  intros Hi.
  destruct input as [|b0 [|b1 [|b2 [|b3 [|b4 [|b5 [|b6 [|b7 [|]]]]]]]]]; try discriminate Hi.
  unfold threefish512_encrypt. cbn [index nth_error bind]. cbv zeta.
  destruct (run _ _) as [c0 c1 c2 c3 c4 c5 c6 c7].
  eexists. split; [|intros output Ho;
    destruct output as [|x0 [|x1 [|x2 [|x3 [|x4 [|x5 [|x6 [|x7 [|]]]]]]]]]; try discriminate Ho;
    cbn [store bind]; reflexivity].
  reflexivity.
Qed.

Lemma threefish512_decrypt_total tf input :
  length input = 8%nat ->
  exists res, length res = 8%nat /\
    forall output, length output = 8%nat -> threefish512_decrypt tf input output = Done res.
Proof.
  intros Hi.
  destruct input as [|b0 [|b1 [|b2 [|b3 [|b4 [|b5 [|b6 [|b7 [|]]]]]]]]]; try discriminate Hi.
  unfold threefish512_decrypt. cbn [index nth_error bind]. cbv zeta.
  destruct (run _ _) as [c0 c1 c2 c3 c4 c5 c6 c7].
  eexists. split; [|intros output Ho;
    destruct output as [|x0 [|x1 [|x2 [|x3 [|x4 [|x5 [|x6 [|x7 [|]]]]]]]]]; try discriminate Ho;
    cbn [store bind]; reflexivity].
  reflexivity.
Qed.

Lemma threefish1024_encrypt_total tf input :
  length input = 16%nat ->
  exists res, length res = 16%nat /\
    forall output, length output = 16%nat -> threefish1024_encrypt tf input output = Done res.
Proof.
  intros Hi.
  destruct input as [|b0 [|b1 [|b2 [|b3 [|b4 [|b5 [|b6 [|b7 [|b8 [|b9 [|b10 [|b11 [|b12 [|b13 [|b14 [|b15 [|]]]]]]]]]]]]]]]]]; try discriminate Hi.
  unfold threefish1024_encrypt. cbn [index nth_error bind]. cbv zeta.
  destruct (run _ _) as [c0 c1 c2 c3 c4 c5 c6 c7 c8 c9 c10 c11 c12 c13 c14 c15].
  eexists. split; [|intros output Ho;
    destruct output as [|x0 [|x1 [|x2 [|x3 [|x4 [|x5 [|x6 [|x7 [|x8 [|x9 [|x10 [|x11 [|x12 [|x13 [|x14 [|x15 [|]]]]]]]]]]]]]]]]]; try discriminate Ho;
    cbn [store bind]; reflexivity].
  reflexivity.
Qed.

Lemma threefish1024_decrypt_total tf input :
  length input = 16%nat ->
  exists res, length res = 16%nat /\
    forall output, length output = 16%nat -> threefish1024_decrypt tf input output = Done res.
Proof.
  intros Hi.
  destruct input as [|b0 [|b1 [|b2 [|b3 [|b4 [|b5 [|b6 [|b7 [|b8 [|b9 [|b10 [|b11 [|b12 [|b13 [|b14 [|b15 [|]]]]]]]]]]]]]]]]]; try discriminate Hi.
  unfold threefish1024_decrypt. cbn [index nth_error bind]. cbv zeta.
  destruct (run _ _) as [c0 c1 c2 c3 c4 c5 c6 c7 c8 c9 c10 c11 c12 c13 c14 c15].
  eexists. split; [|intros output Ho;
    destruct output as [|x0 [|x1 [|x2 [|x3 [|x4 [|x5 [|x6 [|x7 [|x8 [|x9 [|x10 [|x11 [|x12 [|x13 [|x14 [|x15 [|]]]]]]]]]]]]]]]]]; try discriminate Ho;
    cbn [store bind]; reflexivity].
  reflexivity.
Qed.

Lemma encrypt_total ci input :
  length input = qwords ci ->
  exists res, length res = qwords ci /\
    forall output, length output = qwords ci -> encrypt ci input output = Done res.
Proof.
  destruct ci as [tf|tf|tf]; cbn [qwords encrypt].
  - apply threefish256_encrypt_total.
  - apply threefish512_encrypt_total.
  - apply threefish1024_encrypt_total.
Qed.

Lemma decrypt_total ci input :
  length input = qwords ci ->
  exists res, length res = qwords ci /\
    forall output, length output = qwords ci -> decrypt ci input output = Done res.
Proof.
  destruct ci as [tf|tf|tf]; cbn [qwords decrypt].
  - apply threefish256_decrypt_total.
  - apply threefish512_decrypt_total.
  - apply threefish1024_decrypt_total.
Qed.

(** * The claims *)

(** ** Round engine *)

(** C1. Inverse law: for each of the three variants, whatever expanded key
    and tweak the cipher holds, and for every block [b] of [N] 64-bit
    words, [encrypt] returns a block that [decrypt] takes back to [b], and
    [decrypt] returns a block that [encrypt] takes back to [b]. *)
Theorem inverse_law (ci : cipherInternal) (b out1 out2 : list Z) :
  length b = qwords ci -> Forall word b ->
  length out1 = qwords ci -> length out2 = qwords ci ->
  (exists c, encrypt ci b out1 = Done c /\ decrypt ci c out2 = Done b) /\
  (exists p, decrypt ci b out1 = Done p /\ encrypt ci p out2 = Done b).
Proof.
  destruct ci as [tf|tf|tf]; cbn [qwords encrypt decrypt]; intros Hb Hw H1 H2; split.
  - apply threefish256_decrypt_encrypt; assumption.
  - apply threefish256_encrypt_decrypt; assumption.
  - apply threefish512_decrypt_encrypt; assumption.
  - apply threefish512_encrypt_decrypt; assumption.
  - apply threefish1024_decrypt_encrypt; assumption.
  - apply threefish1024_encrypt_decrypt; assumption.
Qed.

Lemma word_small x : (0 <=? x) && (x <? 2 ^ 64) = true -> word x.
Proof.
  intros H. apply andb_prop in H. destruct H as [H1 H2].
  apply Z.leb_le in H1. apply Z.ltb_lt in H2. split; assumption.
Qed.

Lemma inverse_law_witness :
  let ci := threefish256 (mk_threefish [7; 9; 14] [1; 2; 3; 4; 5] [0; 0; 0; 0] [0; 0; 0; 0]) in
  (exists c, encrypt ci [10; 20; 30; 18446744073709551615] [0; 0; 0; 0] = Done c
             /\ decrypt ci c [0; 0; 0; 0] = Done [10; 20; 30; 18446744073709551615]) /\
  (exists p, decrypt ci [10; 20; 30; 18446744073709551615] [0; 0; 0; 0] = Done p
             /\ encrypt ci p [0; 0; 0; 0] = Done [10; 20; 30; 18446744073709551615]).
Proof.
  apply (inverse_law
           (threefish256 (mk_threefish [7; 9; 14] [1; 2; 3; 4; 5] [0; 0; 0; 0] [0; 0; 0; 0]))
           [10; 20; 30; 18446744073709551615] [0; 0; 0; 0] [0; 0; 0; 0]).
  - reflexivity.
  - repeat constructor; apply word_small; reflexivity.
  - reflexivity.
  - reflexivity.
Defined.

(** C2, as the code has it.  In [encrypt] of every variant (N = 4, 8, 16)
    the block that is returned is the one the generic loop computes when the
    subkey of cycle [s], injected before every fourth round and once after
    the last round, adds [expandedKey[(s + i) mod (N+1)]] to word [i], the
    tweak word [s mod 3] to word [N-3] (the odd word of the second-to-last
    pair), the tweak word [(s+1) mod 3] to word [N-2] (the even word of the
    last pair) and the cycle index [s] to word [N-1]. *)
Theorem encrypt_follows_spec (ci : cipherInternal) (block out : list Z) :
  wf_threefish (qwords ci) (state ci) ->
  length block = qwords ci -> length out = qwords ci ->
  encrypt ci block out = Done (spec_encrypt_with subkey_code ci block).
Proof.
  destruct ci as [tf|tf|tf]; cbn [qwords encrypt state]; intros Hwf Hb Ho.
  - apply threefish256_encrypt_spec; assumption.
  - apply threefish512_encrypt_spec; assumption.
  - apply threefish1024_encrypt_spec; assumption.
Qed.

Lemma encrypt_follows_spec_witness :
  let ci := threefish512 (mk_threefish [7; 9; 14] [1; 2; 3; 4; 5; 6; 7; 8; 9]
                            (repeat 0 8) (repeat 0 8)) in
  encrypt ci [1; 2; 3; 4; 5; 6; 7; 8] (repeat 0 8)
  = Done (spec_encrypt_with subkey_code ci [1; 2; 3; 4; 5; 6; 7; 8]).
Proof.
  apply (encrypt_follows_spec
           (threefish512 (mk_threefish [7; 9; 14] [1; 2; 3; 4; 5; 6; 7; 8; 9]
                            (repeat 0 8) (repeat 0 8)))
           [1; 2; 3; 4; 5; 6; 7; 8] (repeat 0 8)).
  - repeat split.
  - reflexivity.
  - reflexivity.
Defined.

(** C2, as the claim words it: were the tweak word [(s+1) mod 3] added to
    the odd word of the last pair together with [s], Threefish-256 with a
    zero key and the tweak (1, 2) would encrypt the zero block to another
    block than the code returns. *)
Lemma encrypt_not_odd_word_injection :
  let ci := threefish256 (mk_threefish [1; 2; 3] [0; 0; 0; 0; KEY_SCHEDULE_CONST]
                            [0; 0; 0; 0] [0; 0; 0; 0]) in
  exists c,
    encrypt ci [0; 0; 0; 0] [0; 0; 0; 0] = Done c /\
    c <> spec_encrypt_with subkey_odd_words ci [0; 0; 0; 0] /\
    c = spec_encrypt_with subkey_code ci [0; 0; 0; 0].
Proof.
  cbv zeta. eexists. split; [vm_compute; reflexivity|].
  split; [|vm_compute; reflexivity].
  vm_compute. intros H. discriminate H.
Qed.

(** ** Key and tweak schedule *)

Lemma Done_inj {A : Type} (a b : A) : Done a = Done b -> a = b.
Proof. intros H. injection H as H. exact H. Qed.

Lemma bind_Done {A B : Type} (m : outcome A) (f : A -> outcome B) b :
  bind m f = Done b -> exists a, m = Done a /\ f a = Done b.
Proof.
  destruct m as [a| |]; cbn [bind]; intros H; try discriminate H.
  exists a. split; [reflexivity | exact H].
Qed.

Lemma setTweak_length tweak expTweak expTweak' :
  setTweak tweak expTweak = Done expTweak' -> length expTweak' = length expTweak.
Proof.
  unfold setTweak. destruct tweak as [t|]; [|intros H; injection H as <-; reflexivity].
  intros H.
  repeat match goal with
         | H : bind _ _ = Done _ |- _ =>
             apply bind_Done in H; let a := fresh "a" in
             let E := fresh "E" in destruct H as (a & E & H)
         end.
  injection H as <-.
  repeat match goal with
         | E : store _ _ _ = Done _ |- _ => apply store_length in E
         end.
  congruence.
Qed.

Lemma expand_tweak_length tweak : length (expand_tweak tweak) = EXPANDED_TWEAK_SIZE.
Proof. destruct tweak as [[|t0 [|t1 t]]|]; reflexivity. Qed.

(** What every reachable cipher satisfies: the expanded key is the key
    supplied last followed by its parity word, and the expanded tweak has
    three words. *)
Lemma reachable_schedule c key :
  reachable c key ->
  length key = qwords (internal c) /\
  expanedKey (state (internal c)) = expand_key key /\
  length (expanedTweak (state (internal c))) = EXPANDED_TWEAK_SIZE.
Proof.
  induction 1 as [key tweak c Hv Hc | key tweak c Hv Hc | size c Hc
                 | c key key' c' Hr IH Hl Hc | c key tweak c' Hr IH Hv Hc
                 | c key dst src dst' Hr IH Hc | c key dst src dst' Hr IH Hc
                 | c key dst src c' dst' Hr IH Hc | c key dst src c' dst' Hr IH Hc].
  - destruct (in_dec Z.eq_dec (len key) [32; 64; 128]) as [Hin|Hout].
    + destruct (NewCipher_supported key tweak Hin Hv) as (ci & Hn & Hq & Hs).
      rewrite Hn in Hc. injection Hc as <-. cbn [internal]. rewrite Hs.
      cbn [expanedKey expanedTweak].
      assert (Hdiv : (length key / 8)%nat = qwords ci)
        by (rewrite <- Hq; apply Nat.div_mul; lia).
      split; [|split].
      * unfold key_words_of_bytes. rewrite bytes_to_words_length. exact Hdiv.
      * reflexivity.
      * apply expand_tweak_length.
    + rewrite NewCipher_unsupported in Hc by exact Hout. discriminate Hc.
  - destruct (in_dec Z.eq_dec (len key) [4; 8; 16]) as [Hin|Hout].
    + destruct (NewCipher64_supported key tweak Hin Hv) as (ci & Hn & Hq & Hs).
      rewrite Hn in Hc. injection Hc as <-. cbn [internal]. rewrite Hs.
      cbn [expanedKey expanedTweak].
      split; [|split].
      * symmetry. exact Hq.
      * reflexivity.
      * apply expand_tweak_length.
    + rewrite NewCipher64_unsupported in Hc by exact Hout. discriminate Hc.
  - destruct (in_dec Z.eq_dec size [256; 512; 1024]) as [Hin|Hout].
    + destruct (NewCipherSize_supported size Hin) as (ci & Hn & Hq & Hs).
      rewrite Hn in Hc. injection Hc as <-. cbn [internal]. rewrite Hs.
      cbn [expanedKey expanedTweak].
      split; [|split].
      * apply repeat_length.
      * unfold expand_key. rewrite xor_all_zero.
        unfold xor64. rewrite Z.lxor_0_r. reflexivity.
      * reflexivity.
    + rewrite NewCipherSize_unsupported in Hc by exact Hout. discriminate Hc.
  - destruct IH as (Hk & He & Ht).
    unfold SetKey, cipherInternal_setKey in Hc.
    rewrite He in Hc. rewrite <- (app_nil_r key') in Hc at 1.
    rewrite setKey_spec in Hc
      by (unfold expand_key; rewrite length_app; cbn [length]; lia).
    cbn [bind] in Hc. apply Done_inj in Hc. subst c'. cbn [internal].
    destruct (internal c); cbn [with_state state qwords with_expanedKey expanedKey
                                 expanedTweak] in *;
      (split; [|split]); first [assumption | reflexivity].
  - destruct IH as (Hk & He & Ht).
    unfold SetTweak, cipherInternal_setTweak in Hc.
    apply bind_Done in Hc. destruct Hc as (ci' & Hci & Hc).
    apply Done_inj in Hc. subst c'.
    apply bind_Done in Hci. destruct Hci as (et & Het & Hci).
    apply Done_inj in Hci. subst ci'.
    apply setTweak_length in Het. cbn [internal].
    destruct (internal c); cbn [with_state state qwords with_expanedTweak expanedKey
                                 expanedTweak] in *;
      (split; [|split]); congruence.
  - exact IH.
  - exact IH.
  - destruct IH as (Hk & He & Ht).
    unfold Encrypt in Hc. cbv zeta in Hc.
    destruct (getTempData (internal c)) as [tmpin tmpout].
    repeat match goal with
           | H : bind _ _ = Done _ |- _ =>
               apply bind_Done in H; let a := fresh "a" in
               let E := fresh "E" in destruct H as (a & E & H)
           end.
    apply Done_inj in Hc. apply (f_equal fst) in Hc. cbn [fst] in Hc. subst c'.
    cbn [internal].
    destruct (internal c); cbn [with_state state qwords with_tmpData expanedKey
                                 expanedTweak] in *;
      (split; [|split]); first [assumption | reflexivity].
  - destruct IH as (Hk & He & Ht).
    unfold Decrypt in Hc. cbv zeta in Hc.
    destruct (getTempData (internal c)) as [tmpin tmpout].
    repeat match goal with
           | H : bind _ _ = Done _ |- _ =>
               apply bind_Done in H; let a := fresh "a" in
               let E := fresh "E" in destruct H as (a & E & H)
           end.
    apply Done_inj in Hc. apply (f_equal fst) in Hc. cbn [fst] in Hc. subst c'.
    cbn [internal].
    destruct (internal c); cbn [with_state state qwords with_tmpData expanedKey
                                 expanedTweak] in *;
      (split; [|split]); first [assumption | reflexivity].
Qed.

(** C3. Key-schedule parity.  For every cipher reached from one of the three
    constructors by any sequence of [SetKey], [SetTweak], [Encrypt],
    [Decrypt], [Encrypt64] and [Decrypt64] calls with arguments of valid
    lengths, where [key] is the key supplied last (all zero if none was):
    [expandedKey[i] = key[i]] for [i < N], and [expandedKey[N]] is
    [0x1BD11BDAA9FC1A22 XOR (key[0] XOR ... XOR key[N-1])]. *)
Theorem key_schedule_parity (c : Cipher) (key : list Z) :
  reachable c key ->
  let N := qwords (internal c) in
  let expandedKey := expanedKey (state (internal c)) in
  length key = N /\ length expandedKey = S N /\
  (forall i, (i < N)%nat -> nth i expandedKey 0 = nth i key 0) /\
  nth N expandedKey 0 = 0x1BD11BDAA9FC1A22 ^' xor_all key.
Proof.
  intros Hr. cbv zeta. destruct (reachable_schedule c key Hr) as (Hk & He & _).
  rewrite He, <- Hk. unfold expand_key.
  split; [reflexivity|]. split; [|split].
  - rewrite length_app. cbn [length]. lia.
  - intros i Hi. apply app_nth1. exact Hi.
  - rewrite app_nth2, Nat.sub_diag by lia. reflexivity.
Qed.

Lemma key_schedule_parity_witness :
  let c := mk_Cipher 32 (threefish256 (mk_threefish [0; 0; 0]
             (expand_key [1; 2; 3; 4]) (repeat 0 4) (repeat 0 4))) in
  let N := qwords (internal c) in
  let expandedKey := expanedKey (state (internal c)) in
  length [1; 2; 3; 4] = N /\ length expandedKey = S N /\
  (forall i, (i < N)%nat -> nth i expandedKey 0 = nth i [1; 2; 3; 4] 0) /\
  nth N expandedKey 0 = 0x1BD11BDAA9FC1A22 ^' xor_all [1; 2; 3; 4].
Proof.
  apply (key_schedule_parity
           (mk_Cipher 32 (threefish256 (mk_threefish [0; 0; 0]
              (expand_key [1; 2; 3; 4]) (repeat 0 4) (repeat 0 4))))
           [1; 2; 3; 4]).
  apply (reach_NewCipher64 [1; 2; 3; 4] None); [exact I | reflexivity].
Defined.

(** C4. Tweak expansion.  For every supplied tweak of two words
    [t0], [t1] the expanded tweak is [t0], [t1], [t0 XOR t1]: in the cipher
    that [NewCipher] or [NewCipher64] returns for a key of a supported
    size, and in the cipher that [SetTweak] returns on every reachable
    cipher (whose key is left as it was). *)
Theorem tweak_expansion (t0 t1 : Z) :
  (forall key, In (len key) [32; 64; 128] ->
     exists c, NewCipher key (Some [t0; t1]) = Done c /\
               expanedTweak (state (internal c)) = [t0; t1; t0 ^' t1]) /\
  (forall key, In (len key) [4; 8; 16] ->
     exists c, NewCipher64 key (Some [t0; t1]) = Done c /\
               expanedTweak (state (internal c)) = [t0; t1; t0 ^' t1]) /\
  (forall c key, reachable c key ->
     exists c', SetTweak c (Some [t0; t1]) = Done c' /\
                expanedTweak (state (internal c')) = [t0; t1; t0 ^' t1] /\
                expanedKey (state (internal c')) = expanedKey (state (internal c))).
Proof.
  split; [|split].
  - intros key Hin.
    destruct (NewCipher_supported key (Some [t0; t1]) Hin eq_refl) as (ci & Hn & _ & Hs).
    eexists. split; [exact Hn|]. cbn [internal]. rewrite Hs. reflexivity.
  - intros key Hin.
    destruct (NewCipher64_supported key (Some [t0; t1]) Hin eq_refl) as (ci & Hn & _ & Hs).
    eexists. split; [exact Hn|]. cbn [internal]. rewrite Hs. reflexivity.
  - intros c key Hr. destruct (reachable_schedule c key Hr) as (_ & _ & Ht).
    unfold SetTweak, cipherInternal_setTweak.
    destruct (expanedTweak (state (internal c))) as [|e0 [|e1 [|e2 [|]]]];
      try discriminate Ht.
    rewrite setTweak_spec. cbn [bind]. eexists. split; [reflexivity|].
    cbn [internal]. destruct (internal c); split; reflexivity.
Qed.

Lemma tweak_expansion_witness :
  exists c', SetTweak (mk_Cipher 256 (threefish256 (mk_threefish [0; 0; 0]
                         (repeat 0 4 ++ [KEY_SCHEDULE_CONST]) (repeat 0 4) (repeat 0 4))))
               (Some [5; 6]) = Done c' /\
             expanedTweak (state (internal c')) = [5; 6; 5 ^' 6] /\
             expanedKey (state (internal c')) = repeat 0 4 ++ [KEY_SCHEDULE_CONST].
Proof.
  apply (proj2 (proj2 (tweak_expansion 5 6))
           (mk_Cipher 256 (threefish256 (mk_threefish [0; 0; 0]
              (repeat 0 4 ++ [KEY_SCHEDULE_CONST]) (repeat 0 4) (repeat 0 4))))
           (repeat 0 4)).
  apply (reach_NewCipherSize 256). reflexivity.
Defined.

(** C5, as the claim words it: [SetTweak] with a nil tweak on a cipher
    that holds the tweak (1, 2) does not leave three zero words. *)
Lemma SetTweak_nil_keeps_tweak :
  exists c c',
    NewCipher64 [0; 0; 0; 0] (Some [1; 2]) = Done c /\
    SetTweak c None = Done c' /\
    expanedTweak (state (internal c')) = [1; 2; 3] /\
    expanedTweak (state (internal c')) <> [0; 0; 0].
Proof.
  eexists. eexists. split; [reflexivity|]. split; [reflexivity|].
  split; [reflexivity|]. intros H. discriminate H.
Qed.

(** C5, as the code has it.  A constructor that is given no tweak returns a
    cipher whose expanded tweak is three zero words; [SetTweak] with a nil
    tweak returns the cipher as it was, whatever tweak it holds. *)
Theorem nil_tweak :
  (forall key, In (len key) [32; 64; 128] ->
     exists c, NewCipher key None = Done c /\
               expanedTweak (state (internal c)) = [0; 0; 0]) /\
  (forall key, In (len key) [4; 8; 16] ->
     exists c, NewCipher64 key None = Done c /\
               expanedTweak (state (internal c)) = [0; 0; 0]) /\
  (forall size, In size [256; 512; 1024] ->
     exists c, NewCipherSize size = Done c /\
               expanedTweak (state (internal c)) = [0; 0; 0]) /\
  (forall c, SetTweak c None = Done c).
Proof.
  split; [|split; [|split]].
  - intros key Hin.
    destruct (NewCipher_supported key None Hin I) as (ci & Hn & _ & Hs).
    eexists. split; [exact Hn|]. cbn [internal]. rewrite Hs. reflexivity.
  - intros key Hin.
    destruct (NewCipher64_supported key None Hin I) as (ci & Hn & _ & Hs).
    eexists. split; [exact Hn|]. cbn [internal]. rewrite Hs. reflexivity.
  - intros size Hin.
    destruct (NewCipherSize_supported size Hin) as (ci & Hn & _ & Hs).
    eexists. split; [exact Hn|]. cbn [internal]. rewrite Hs. reflexivity.
  - intros [sz [[et ek t1 t2]|[et ek t1 t2]|[et ek t1 t2]]]; reflexivity.
Qed.

Lemma nil_tweak_witness :
  exists c, NewCipherSize 512 = Done c /\ expanedTweak (state (internal c)) = [0; 0; 0].
Proof.
  apply (proj1 (proj2 (proj2 nil_tweak)) 512). cbn. tauto.
Defined.

(** ** Facade *)

(** C6. Size rejection.  [NewCipher] returns [KeySizeError] exactly for the
    keys whose byte length is not 32, 64 or 128, [NewCipher64] exactly for
    the keys whose word count is not 4, 8 or 16, and [NewCipherSize] exactly
    for the sizes other than 256, 512 and 1024; for a supported size (and a
    tweak that is nil or two words) they return a cipher and no error. *)
Theorem construction_key_size :
  (forall key tweak,
     (exists e, NewCipher key tweak = Failed e) <-> ~ In (len key) [32; 64; 128]) /\
  (forall key tweak,
     ~ In (len key) [32; 64; 128] -> NewCipher key tweak = Failed (KeySizeError (len key))) /\
  (forall key tweak,
     In (len key) [32; 64; 128] -> valid_tweak tweak ->
     exists c, NewCipher key tweak = Done c) /\
  (forall key tweak,
     (exists e, NewCipher64 key tweak = Failed e) <-> ~ In (len key) [4; 8; 16]) /\
  (forall key tweak,
     ~ In (len key) [4; 8; 16] -> NewCipher64 key tweak = Failed (KeySizeError (len key))) /\
  (forall key tweak,
     In (len key) [4; 8; 16] -> valid_tweak tweak ->
     exists c, NewCipher64 key tweak = Done c) /\
  (forall size,
     (exists e, NewCipherSize size = Failed e) <-> ~ In size [256; 512; 1024]) /\
  (forall size,
     ~ In size [256; 512; 1024] -> NewCipherSize size = Failed (KeySizeError size)) /\
  (forall size,
     In size [256; 512; 1024] -> exists c, NewCipherSize size = Done c).
Proof.
  split; [|split; [|split; [|split; [|split; [|split; [|split; [|split]]]]]]].
  - intros key tweak. split.
    + intros [e He]. exact (NewCipher_Failed key tweak e He).
    + intros H. eexists. apply NewCipher_unsupported. exact H.
  - apply NewCipher_unsupported.
  - intros key tweak Hin Hv.
    destruct (NewCipher_supported key tweak Hin Hv) as (ci & Hn & _).
    eexists. exact Hn.
  - intros key tweak. split.
    + intros [e He]. exact (NewCipher64_Failed key tweak e He).
    + intros H. eexists. apply NewCipher64_unsupported. exact H.
  - apply NewCipher64_unsupported.
  - intros key tweak Hin Hv.
    destruct (NewCipher64_supported key tweak Hin Hv) as (ci & Hn & _).
    eexists. exact Hn.
  - intros size. split.
    + intros [e He]. exact (NewCipherSize_Failed size e He).
    + intros H. eexists. apply NewCipherSize_unsupported. exact H.
  - apply NewCipherSize_unsupported.
  - intros size Hin.
    destruct (NewCipherSize_supported size Hin) as (ci & Hn & _).
    eexists. exact Hn.
Qed.

Lemma construction_key_size_witness :
  NewCipher (repeat Byte.x00 33) None = Failed (KeySizeError 33) /\
  exists c, NewCipher (repeat Byte.x00 64) (Some [1; 2]) = Done c.
Proof.
  split.
  - apply (proj1 (proj2 construction_key_size) (repeat Byte.x00 33) None).
    cbn. intros [H|[H|[H|[]]]]; discriminate H.
  - apply (proj1 (proj2 (proj2 construction_key_size)) (repeat Byte.x00 64) (Some [1; 2])).
    + cbn. tauto.
    + reflexivity.
Defined.

(** C7, as the claim words it: [SetKey] with a key of five words on a
    Threefish-256 cipher returns a cipher, not an error. *)
Lemma SetKey_long_key_accepted :
  exists c c',
    NewCipherSize 256 = Done c /\
    length [1; 2; 3; 4; 5] <> qwords (internal c) /\
    SetKey c [1; 2; 3; 4; 5] = Done c' /\
    expanedKey (state (internal c')) = expand_key [1; 2; 3; 4].
Proof.
  eexists. eexists. split; [reflexivity|].
  split; [intros H; discriminate H|]. split; reflexivity.
Qed.

(** C7, as the code has it.  [SetKey] returns no error.  On a reachable
    cipher of [N] words a key of at least [N] words is accepted and its
    first [N] words are expanded; a key of fewer words panics (an index out
    of range).  [Encrypt], [Decrypt], [Encrypt64] and [Decrypt64] return no
    error either. *)
Theorem SetKey_no_KeySizeError (c : Cipher) (k : list Z) :
  reachable c k ->
  let N := qwords (internal c) in
  (forall key e, SetKey c key <> Failed e) /\
  (forall key, (N <= length key)%nat ->
     exists c', SetKey c key = Done c' /\
                expanedKey (state (internal c')) = expand_key (firstn N key)) /\
  (forall key, (length key < N)%nat -> SetKey c key = Panic) /\
  (forall dst src e, Encrypt c dst src <> Failed e) /\
  (forall dst src e, Decrypt c dst src <> Failed e) /\
  (forall dst src e, Encrypt64 c dst src <> Failed e) /\
  (forall dst src e, Decrypt64 c dst src <> Failed e).
Proof.
  intros Hr. cbv zeta. destruct (reachable_schedule c k Hr) as (Hk & He & _).
  split; [|split; [|split; [|split; [|split; [|split]]]]].
  - intros key e. apply no_error_SetKey.
  - intros key Hlen. unfold SetKey, cipherInternal_setKey. rewrite He.
    replace (setKey key (expand_key k))
      with (setKey (firstn (qwords (internal c)) key ++ skipn (qwords (internal c)) key)
              (expand_key k))
      by (rewrite firstn_skipn; reflexivity).
    rewrite setKey_spec
      by (unfold expand_key; rewrite length_app, firstn_length_le by lia;
          cbn [length]; lia).
    cbn [bind]. eexists. split; [reflexivity|].
    cbn [internal]. destruct (internal c); reflexivity.
  - intros key Hlen. unfold SetKey, cipherInternal_setKey. rewrite He.
    rewrite setKey_short
      by (unfold expand_key; rewrite length_app; cbn [length]; lia).
    reflexivity.
  - intros dst src e. apply no_error_Encrypt.
  - intros dst src e. apply no_error_Decrypt.
  - intros dst src e. apply no_error_encrypt.
  - intros dst src e. apply no_error_decrypt.
Qed.

Lemma SetKey_no_KeySizeError_witness :
  let c := mk_Cipher 256 (threefish256 (mk_threefish [0; 0; 0]
             (repeat 0 4 ++ [KEY_SCHEDULE_CONST]) (repeat 0 4) (repeat 0 4))) in
  exists c', SetKey c [1; 2; 3; 4; 5] = Done c' /\
             expanedKey (state (internal c')) = expand_key (firstn 4 [1; 2; 3; 4; 5]).
Proof.
  apply (proj1 (proj2 (SetKey_no_KeySizeError
           (mk_Cipher 256 (threefish256 (mk_threefish [0; 0; 0]
              (repeat 0 4 ++ [KEY_SCHEDULE_CONST]) (repeat 0 4) (repeat 0 4))))
           (repeat 0 4)
           (reach_NewCipherSize 256 _ eq_refl))) [1; 2; 3; 4; 5]).
  cbn. lia.
Defined.

(** C8.  [NewCipher64] sets [stateSize] to eight times the number of key
    words, so [BlockSize] of the cipher it returns for a key of four words
    is 4, not 32; the other two constructors give 32 for Threefish-256. *)
Theorem BlockSize_NewCipher64 :
  (exists c, NewCipher64 [0; 0; 0; 0] None = Done c /\ BlockSize c = 4) /\
  (exists c, NewCipher (repeat Byte.x00 32) None = Done c /\ BlockSize c = 32) /\
  (exists c, NewCipherSize 256 = Done c /\ BlockSize c = 32).
Proof.
  split; [|split]; eexists; (split; [reflexivity|]); reflexivity.
Qed.

(** C9, as the claim words it: the expanded key of the cipher that
    [NewCipherSize 256] returns is not all zero. *)
Lemma NewCipherSize_key_not_zero :
  exists c,
    NewCipherSize 256 = Done c /\
    nth 4 (expanedKey (state (internal c))) 0 = KEY_SCHEDULE_CONST /\
    nth 4 (expanedKey (state (internal c))) 0 <> 0.
Proof.
  eexists. split; [reflexivity|]. split; [reflexivity|].
  intros H. discriminate H.
Qed.

(** C9, as the code has it.  The cipher that [NewCipherSize] returns for a
    supported size has [N = size / 64] words a block, and its expanded key
    is [N] zero words followed by [0x1BD11BDAA9FC1A22], the parity word of
    the all-zero key. *)
Theorem NewCipherSize_expanded_key (size : Z) :
  In size [256; 512; 1024] ->
  exists c,
    NewCipherSize size = Done c /\
    Z.of_nat (qwords (internal c)) = size / 64 /\
    expanedKey (state (internal c))
    = repeat 0 (qwords (internal c)) ++ [0x1BD11BDAA9FC1A22] /\
    expanedKey (state (internal c)) = expand_key (repeat 0 (qwords (internal c))).
Proof.
  intros Hin. destruct (NewCipherSize_supported size Hin) as (ci & Hn & Hq & Hs).
  eexists. split; [exact Hn|]. cbn [internal]. rewrite Hs. cbn [expanedKey].
  split; [|split].
  - rewrite <- Hq. symmetry. apply Z.div_mul. lia.
  - reflexivity.
  - unfold expand_key. rewrite xor_all_zero. unfold xor64. rewrite Z.lxor_0_r.
    reflexivity.
Qed.

Lemma NewCipherSize_expanded_key_witness :
  exists c,
    NewCipherSize 1024 = Done c /\
    Z.of_nat (qwords (internal c)) = 1024 / 64 /\
    expanedKey (state (internal c))
    = repeat 0 (qwords (internal c)) ++ [0x1BD11BDAA9FC1A22] /\
    expanedKey (state (internal c)) = expand_key (repeat 0 (qwords (internal c))).
Proof.
  apply (NewCipherSize_expanded_key 1024). cbn. tauto.
Defined.

(** The bytes of a block go through the word functions: [crypt] is
    [encrypt] or [decrypt], and [Crypt] is [Encrypt] or [Decrypt]. *)
Lemma bytes_through_words
    (crypt : cipherInternal -> list Z -> list Z -> outcome (list Z))
    (Crypt : Cipher -> list byte -> list byte -> outcome (Cipher * list byte))
    (HCrypt : forall c dst src,
       Crypt c dst src =
       (let uintLen := Z.to_nat (Z.quot (stateSize c) 64) in
        let '(tmpin, tmpout) := getTempData (internal c) in
        tmpin <- load_words uintLen 0 src tmpin ;;
        tmpout <- crypt (internal c) tmpin tmpout ;;
        dst <- store_words uintLen 0 dst tmpout ;;
        Done (mk_Cipher (stateSize c)
                (with_state (internal c) (with_tmpData (state (internal c)) tmpin tmpout)),
              dst)))
    (Htotal : forall ci input, length input = qwords ci ->
       exists res, length res = qwords ci /\
         forall output, length output = qwords ci -> crypt ci input output = Done res)
    ci tf dst src :
  let n := qwords ci in
  state ci = tf -> length (tmpData1 tf) = n -> length (tmpData2 tf) = n ->
  (n * 8 <= length src)%nat -> (n * 8 <= length dst)%nat ->
  exists res,
    length res = n /\
    (forall out, length out = n ->
       crypt ci (bytes_to_words n (firstn (n * 8) src)) out = Done res) /\
    Crypt (mk_Cipher (Z.of_nat n * 64) ci) dst src
    = Done (mk_Cipher (Z.of_nat n * 64)
              (with_state ci (with_tmpData tf (bytes_to_words n (firstn (n * 8) src)) res)),
            words_to_bytes res ++ skipn (n * 8) dst).
Proof.
  intros n Hs H1 H2 Hsrc Hdst. subst n.
  destruct (split_at (qwords ci * 8) src Hsrc) as (s1 & s2 & -> & Hs1).
  destruct (split_at (qwords ci * 8) dst Hdst) as (d1 & d2 & -> & Hd1).
  rewrite firstn_exact, skipn_exact by assumption.
  destruct (Htotal ci (bytes_to_words (qwords ci) s1)) as (res & Hres & Hcrypt);
    [apply bytes_to_words_length|].
  exists res. split; [exact Hres|]. split; [exact Hcrypt|].
  rewrite HCrypt. cbv zeta. cbn [stateSize internal].
  replace (Z.to_nat (Z.quot (Z.of_nat (qwords ci) * 64) 64)) with (qwords ci)
    by (rewrite Z.quot_mul by lia; symmetry; apply Nat2Z.id).
  unfold getTempData. rewrite Hs.
  pose proof (load_words_spec (qwords ci) [] (tmpData1 tf) [] [] (s1 ++ s2) eq_refl H1) as Hl.
  cbn [app length] in Hl. rewrite !app_nil_r in Hl.
  rewrite Hl by (rewrite length_app; lia). cbn [bind].
  rewrite bytes_to_words_app by exact Hs1.
  rewrite Hcrypt by exact H2. cbn [bind].
  pose proof (store_words_spec res [] d1 d2 [] [] eq_refl) as Hw.
  cbn [app length] in Hw. rewrite !app_nil_r in Hw. rewrite Hres in Hw.
  rewrite Hw by lia. reflexivity.
Qed.

(** C10.  For every cipher that [NewCipher] returns for a key of a
    supported size, and buffers of at least [BlockSize] bytes:
    [Encrypt(dst, src)] writes into the first [BlockSize] bytes of [dst]
    the little-endian bytes of the words that the word function
    ([Encrypt64]) returns for the little-endian words of the first
    [BlockSize] bytes of [src]; the bytes of [dst] from [BlockSize] on stay,
    and those of [src] from [BlockSize] on are not read.  [Decrypt] does the
    same with [Decrypt64].  The cipher keeps its size, key and tweak. *)
Theorem Encrypt_Decrypt_bytes (key : list byte) (tweak : option (list Z))
    (c : Cipher) (dst src : list byte) :
  NewCipher key tweak = Done c -> valid_tweak tweak ->
  BlockSize c <= len src -> BlockSize c <= len dst ->
  let n := qwords (internal c) in
  let block := firstn (Z.to_nat (BlockSize c)) src in
  BlockSize c = Z.of_nat n * 8 /\
  (exists ct c',
     length ct = n /\
     (forall out, length out = n -> Encrypt64 c out (bytes_to_words n block) = Done ct) /\
     Encrypt c dst src = Done (c', words_to_bytes ct ++ skipn (Z.to_nat (BlockSize c)) dst) /\
     stateSize c' = stateSize c /\
     expanedKey (state (internal c')) = expanedKey (state (internal c)) /\
     expanedTweak (state (internal c')) = expanedTweak (state (internal c))) /\
  (exists pt c',
     length pt = n /\
     (forall out, length out = n -> Decrypt64 c out (bytes_to_words n block) = Done pt) /\
     Decrypt c dst src = Done (c', words_to_bytes pt ++ skipn (Z.to_nat (BlockSize c)) dst) /\
     stateSize c' = stateSize c /\
     expanedKey (state (internal c')) = expanedKey (state (internal c)) /\
     expanedTweak (state (internal c')) = expanedTweak (state (internal c))).
Proof.
  intros Hc Hv Hsrc Hdst.
  destruct (in_dec Z.eq_dec (len key) [32; 64; 128]) as [Hin|Hout];
    [|rewrite NewCipher_unsupported in Hc by exact Hout; discriminate Hc].
  destruct (NewCipher_supported key tweak Hin Hv) as (ci & Hn & Hq & Hs).
  rewrite Hn in Hc. apply Done_inj in Hc. subst c.
  cbv zeta. unfold BlockSize in *. cbn [stateSize internal] in *.
  unfold len in *. rewrite <- Hq in *.
  replace (Z.of_nat (qwords ci * 8) * 8) with (Z.of_nat (qwords ci) * 64) in * by lia.
  replace (Z.quot (Z.of_nat (qwords ci) * 64) 8) with (Z.of_nat (qwords ci) * 8) in *
    by (replace (Z.of_nat (qwords ci) * 64) with (Z.of_nat (qwords ci) * 8 * 8) by lia;
        symmetry; apply Z.quot_mul; lia).
  replace (Z.to_nat (Z.of_nat (qwords ci) * 8)) with (qwords ci * 8)%nat by lia.
  split; [reflexivity|]. split.
  - destruct (bytes_through_words encrypt Encrypt (fun _ _ _ => eq_refl) encrypt_total
                ci _ dst src Hs) as (ct & Hl & H64 & HE);
      try (cbn [tmpData1 tmpData2]; apply repeat_length); try lia.
    exists ct. eexists. split; [exact Hl|]. split; [exact H64|].
    split; [exact HE|]. cbn [stateSize internal].
    split; [reflexivity|]. rewrite Hs. destruct ci; split; reflexivity.
  - destruct (bytes_through_words decrypt Decrypt (fun _ _ _ => eq_refl) decrypt_total
                ci _ dst src Hs) as (pt & Hl & H64 & HE);
      try (cbn [tmpData1 tmpData2]; apply repeat_length); try lia.
    exists pt. eexists. split; [exact Hl|]. split; [exact H64|].
    split; [exact HE|]. cbn [stateSize internal].
    split; [reflexivity|]. rewrite Hs. destruct ci; split; reflexivity.
Qed.

Lemma Encrypt_Decrypt_bytes_witness :
  let c := mk_Cipher 256 (threefish256 (mk_threefish [0; 0; 0]
             (expand_key (key_words_of_bytes (repeat Byte.x01 32)))
             (repeat 0 4) (repeat 0 4))) in
  let dst := repeat Byte.xff 40 in
  let src := repeat Byte.x02 33 in
  let n := qwords (internal c) in
  let block := firstn (Z.to_nat (BlockSize c)) src in
  BlockSize c = Z.of_nat n * 8 /\
  (exists ct c',
     length ct = n /\
     (forall out, length out = n -> Encrypt64 c out (bytes_to_words n block) = Done ct) /\
     Encrypt c dst src = Done (c', words_to_bytes ct ++ skipn (Z.to_nat (BlockSize c)) dst) /\
     stateSize c' = stateSize c /\
     expanedKey (state (internal c')) = expanedKey (state (internal c)) /\
     expanedTweak (state (internal c')) = expanedTweak (state (internal c))) /\
  (exists pt c',
     length pt = n /\
     (forall out, length out = n -> Decrypt64 c out (bytes_to_words n block) = Done pt) /\
     Decrypt c dst src = Done (c', words_to_bytes pt ++ skipn (Z.to_nat (BlockSize c)) dst) /\
     stateSize c' = stateSize c /\
     expanedKey (state (internal c')) = expanedKey (state (internal c)) /\
     expanedTweak (state (internal c')) = expanedTweak (state (internal c))).
Proof.
  apply (Encrypt_Decrypt_bytes (repeat Byte.x01 32) None
           (mk_Cipher 256 (threefish256 (mk_threefish [0; 0; 0]
              (expand_key (key_words_of_bytes (repeat Byte.x01 32)))
              (repeat 0 4) (repeat 0 4))))
           (repeat Byte.xff 40) (repeat Byte.x02 33)).
  - vm_compute. reflexivity.
  - exact I.
  - vm_compute. intros H. discriminate H.
  - vm_compute. intros H. discriminate H.
Defined.

(** * Further properties of the package *)

(** ** The round functions on buffers of any length *)

Lemma threefish256_encrypt_short_input tf input output :
  (length input < 4)%nat -> threefish256_encrypt tf input output = Panic.
Proof.
  intros Hi.
  destruct input as [|b0 [|b1 [|b2 [|b3 r]]]];
    [unfold threefish256_encrypt; cbn [index nth_error bind]; reflexivity ..
    |exfalso; cbn [length] in Hi; lia].
Qed.

Lemma threefish256_encrypt_short_output tf input output :
  (4 <= length input)%nat -> (length output < 4)%nat ->
  threefish256_encrypt tf input output = Panic.
Proof.
  intros Hi Ho.
  destruct input as [|b0 [|b1 [|b2 [|b3 r]]]];
    [exfalso; cbn [length] in Hi; lia .. |].
  unfold threefish256_encrypt. cbn [index nth_error bind]. cbv zeta.
  destruct (run _ _) as [c0 c1 c2 c3].
  destruct output as [|x0 [|x1 [|x2 [|x3 r']]]];
    [cbn [store bind]; reflexivity .. |exfalso; cbn [length] in Ho; lia].
Qed.

Lemma threefish256_encrypt_long tf b extra out rest res :
  length b = 4%nat -> length out = 4%nat ->
  threefish256_encrypt tf b out = Done res ->
  threefish256_encrypt tf (b ++ extra) (out ++ rest) = Done (res ++ rest).
Proof.
  intros Hb Ho.
  destruct b as [|b0 [|b1 [|b2 [|b3 [|]]]]]; try discriminate Hb.
  destruct out as [|x0 [|x1 [|x2 [|x3 [|]]]]]; try discriminate Ho.
  unfold threefish256_encrypt. cbn [app index nth_error bind]. cbv zeta.
  destruct (run _ _) as [c0 c1 c2 c3].
  cbn [store bind]. intros H. apply Done_inj in H. subst res. reflexivity.
Qed.

Lemma threefish256_decrypt_short_input tf input output :
  (length input < 4)%nat -> threefish256_decrypt tf input output = Panic.
Proof.
  intros Hi.
  destruct input as [|b0 [|b1 [|b2 [|b3 r]]]];
    [unfold threefish256_decrypt; cbn [index nth_error bind]; reflexivity ..
    |exfalso; cbn [length] in Hi; lia].
Qed.

Lemma threefish256_decrypt_short_output tf input output :
  (4 <= length input)%nat -> (length output < 4)%nat ->
  threefish256_decrypt tf input output = Panic.
Proof.
  intros Hi Ho.
  destruct input as [|b0 [|b1 [|b2 [|b3 r]]]];
    [exfalso; cbn [length] in Hi; lia .. |].
  unfold threefish256_decrypt. cbn [index nth_error bind]. cbv zeta.
  destruct (run _ _) as [c0 c1 c2 c3].
  destruct output as [|x0 [|x1 [|x2 [|x3 r']]]];
    [cbn [store bind]; reflexivity .. |exfalso; cbn [length] in Ho; lia].
Qed.

Lemma threefish256_decrypt_long tf b extra out rest res :
  length b = 4%nat -> length out = 4%nat ->
  threefish256_decrypt tf b out = Done res ->
  threefish256_decrypt tf (b ++ extra) (out ++ rest) = Done (res ++ rest).
Proof.
  intros Hb Ho.
  destruct b as [|b0 [|b1 [|b2 [|b3 [|]]]]]; try discriminate Hb.
  destruct out as [|x0 [|x1 [|x2 [|x3 [|]]]]]; try discriminate Ho.
  unfold threefish256_decrypt. cbn [app index nth_error bind]. cbv zeta.
  destruct (run _ _) as [c0 c1 c2 c3].
  cbn [store bind]. intros H. apply Done_inj in H. subst res. reflexivity.
Qed.

Lemma threefish256_encrypt_word tf input output res :
  length output = 4%nat -> threefish256_encrypt tf input output = Done res -> Forall word res.
Proof.
  intros Ho.
  destruct input as [|b0 [|b1 [|b2 [|b3 r]]]];
    [unfold threefish256_encrypt; cbn [index nth_error bind]; intros H; discriminate H .. |].
  destruct output as [|x0 [|x1 [|x2 [|x3 [|]]]]]; try discriminate Ho.
  unfold threefish256_encrypt. cbn [index nth_error bind]. cbv zeta.
  destruct (run _ _) as [c0 c1 c2 c3].
  cbn [store bind]. intros H. apply Done_inj in H. subst res.
  repeat constructor; apply word_add.
Qed.

Lemma threefish256_decrypt_word tf input output res :
  length output = 4%nat -> threefish256_decrypt tf input output = Done res -> Forall word res.
Proof.
  intros Ho.
  destruct input as [|b0 [|b1 [|b2 [|b3 r]]]];
    [unfold threefish256_decrypt; cbn [index nth_error bind]; intros H; discriminate H .. |].
  destruct output as [|x0 [|x1 [|x2 [|x3 [|]]]]]; try discriminate Ho.
  unfold threefish256_decrypt. cbn [index nth_error bind].
  match goal with
  | |- context [run _ ?s] =>
      assert (Hs : ok4 s)
        by (cbv [ok4]; repeat match goal with |- _ /\ _ => split end; apply word_sub);
      destruct (paired_inverts _ _ _ _ _
        (threefish256_rounds_paired'
           (arr (expanedKey tf) 0) (arr (expanedKey tf) 1) (arr (expanedKey tf) 2) (arr (expanedKey tf) 3) (arr (expanedKey tf) 4)
           (arr (expanedTweak tf) 0) (arr (expanedTweak tf) 1) (arr (expanedTweak tf) 2))
        s Hs) as [Hok _];
      destruct (run _ s) as [c0 c1 c2 c3]
  end.
  cbn [store bind]. intros H. apply Done_inj in H. subst res.
  cbv [ok4] in Hok.
  repeat apply Forall_cons; try apply Forall_nil; tauto.
Qed.

Lemma threefish512_encrypt_short_input tf input output :
  (length input < 8)%nat -> threefish512_encrypt tf input output = Panic.
Proof.
  intros Hi.
  destruct input as [|b0 [|b1 [|b2 [|b3 [|b4 [|b5 [|b6 [|b7 r]]]]]]]];
    [unfold threefish512_encrypt; cbn [index nth_error bind]; reflexivity ..
    |exfalso; cbn [length] in Hi; lia].
Qed.

Lemma threefish512_encrypt_short_output tf input output :
  (8 <= length input)%nat -> (length output < 8)%nat ->
  threefish512_encrypt tf input output = Panic.
Proof.
  intros Hi Ho.
  destruct input as [|b0 [|b1 [|b2 [|b3 [|b4 [|b5 [|b6 [|b7 r]]]]]]]];
    [exfalso; cbn [length] in Hi; lia .. |].
  unfold threefish512_encrypt. cbn [index nth_error bind]. cbv zeta.
  destruct (run _ _) as [c0 c1 c2 c3 c4 c5 c6 c7].
  destruct output as [|x0 [|x1 [|x2 [|x3 [|x4 [|x5 [|x6 [|x7 r']]]]]]]];
    [cbn [store bind]; reflexivity .. |exfalso; cbn [length] in Ho; lia].
Qed.

Lemma threefish512_encrypt_long tf b extra out rest res :
  length b = 8%nat -> length out = 8%nat ->
  threefish512_encrypt tf b out = Done res ->
  threefish512_encrypt tf (b ++ extra) (out ++ rest) = Done (res ++ rest).
Proof.
  intros Hb Ho.
  destruct b as [|b0 [|b1 [|b2 [|b3 [|b4 [|b5 [|b6 [|b7 [|]]]]]]]]]; try discriminate Hb.
  destruct out as [|x0 [|x1 [|x2 [|x3 [|x4 [|x5 [|x6 [|x7 [|]]]]]]]]]; try discriminate Ho.
  unfold threefish512_encrypt. cbn [app index nth_error bind]. cbv zeta.
  destruct (run _ _) as [c0 c1 c2 c3 c4 c5 c6 c7].
  cbn [store bind]. intros H. apply Done_inj in H. subst res. reflexivity.
Qed.

Lemma threefish512_decrypt_short_input tf input output :
  (length input < 8)%nat -> threefish512_decrypt tf input output = Panic.
Proof.
  intros Hi.
  destruct input as [|b0 [|b1 [|b2 [|b3 [|b4 [|b5 [|b6 [|b7 r]]]]]]]];
    [unfold threefish512_decrypt; cbn [index nth_error bind]; reflexivity ..
    |exfalso; cbn [length] in Hi; lia].
Qed.

Lemma threefish512_decrypt_short_output tf input output :
  (8 <= length input)%nat -> (length output < 8)%nat ->
  threefish512_decrypt tf input output = Panic.
Proof.
  intros Hi Ho.
  destruct input as [|b0 [|b1 [|b2 [|b3 [|b4 [|b5 [|b6 [|b7 r]]]]]]]];
    [exfalso; cbn [length] in Hi; lia .. |].
  unfold threefish512_decrypt. cbn [index nth_error bind]. cbv zeta.
  destruct (run _ _) as [c0 c1 c2 c3 c4 c5 c6 c7].
  destruct output as [|x0 [|x1 [|x2 [|x3 [|x4 [|x5 [|x6 [|x7 r']]]]]]]];
    [cbn [store bind]; reflexivity .. |exfalso; cbn [length] in Ho; lia].
Qed.

Lemma threefish512_decrypt_long tf b extra out rest res :
  length b = 8%nat -> length out = 8%nat ->
  threefish512_decrypt tf b out = Done res ->
  threefish512_decrypt tf (b ++ extra) (out ++ rest) = Done (res ++ rest).
Proof.
  intros Hb Ho.
  destruct b as [|b0 [|b1 [|b2 [|b3 [|b4 [|b5 [|b6 [|b7 [|]]]]]]]]]; try discriminate Hb.
  destruct out as [|x0 [|x1 [|x2 [|x3 [|x4 [|x5 [|x6 [|x7 [|]]]]]]]]]; try discriminate Ho.
  unfold threefish512_decrypt. cbn [app index nth_error bind]. cbv zeta.
  destruct (run _ _) as [c0 c1 c2 c3 c4 c5 c6 c7].
  cbn [store bind]. intros H. apply Done_inj in H. subst res. reflexivity.
Qed.

Lemma threefish512_encrypt_word tf input output res :
  length output = 8%nat -> threefish512_encrypt tf input output = Done res -> Forall word res.
Proof.
  intros Ho.
  destruct input as [|b0 [|b1 [|b2 [|b3 [|b4 [|b5 [|b6 [|b7 r]]]]]]]];
    [unfold threefish512_encrypt; cbn [index nth_error bind]; intros H; discriminate H .. |].
  destruct output as [|x0 [|x1 [|x2 [|x3 [|x4 [|x5 [|x6 [|x7 [|]]]]]]]]]; try discriminate Ho.
  unfold threefish512_encrypt. cbn [index nth_error bind]. cbv zeta.
  destruct (run _ _) as [c0 c1 c2 c3 c4 c5 c6 c7].
  cbn [store bind]. intros H. apply Done_inj in H. subst res.
  repeat constructor; apply word_add.
Qed.

Lemma threefish512_decrypt_word tf input output res :
  length output = 8%nat -> threefish512_decrypt tf input output = Done res -> Forall word res.
Proof.
  intros Ho.
  destruct input as [|b0 [|b1 [|b2 [|b3 [|b4 [|b5 [|b6 [|b7 r]]]]]]]];
    [unfold threefish512_decrypt; cbn [index nth_error bind]; intros H; discriminate H .. |].
  destruct output as [|x0 [|x1 [|x2 [|x3 [|x4 [|x5 [|x6 [|x7 [|]]]]]]]]]; try discriminate Ho.
  unfold threefish512_decrypt. cbn [index nth_error bind].
  match goal with
  | |- context [run _ ?s] =>
      assert (Hs : ok8 s)
        by (cbv [ok8]; repeat match goal with |- _ /\ _ => split end; apply word_sub);
      destruct (paired_inverts _ _ _ _ _
        (threefish512_rounds_paired'
           (arr (expanedKey tf) 0) (arr (expanedKey tf) 1) (arr (expanedKey tf) 2) (arr (expanedKey tf) 3) (arr (expanedKey tf) 4) (arr (expanedKey tf) 5) (arr (expanedKey tf) 6) (arr (expanedKey tf) 7) (arr (expanedKey tf) 8)
           (arr (expanedTweak tf) 0) (arr (expanedTweak tf) 1) (arr (expanedTweak tf) 2))
        s Hs) as [Hok _];
      destruct (run _ s) as [c0 c1 c2 c3 c4 c5 c6 c7]
  end.
  cbn [store bind]. intros H. apply Done_inj in H. subst res.
  cbv [ok8] in Hok.
  repeat apply Forall_cons; try apply Forall_nil; tauto.
Qed.

Lemma threefish1024_encrypt_short_input tf input output :
  (length input < 16)%nat -> threefish1024_encrypt tf input output = Panic.
Proof.
  intros Hi.
  destruct input as [|b0 [|b1 [|b2 [|b3 [|b4 [|b5 [|b6 [|b7 [|b8 [|b9 [|b10 [|b11 [|b12 [|b13 [|b14 [|b15 r]]]]]]]]]]]]]]]];
    [unfold threefish1024_encrypt; cbn [index nth_error bind]; reflexivity ..
    |exfalso; cbn [length] in Hi; lia].
Qed.

Lemma threefish1024_encrypt_short_output tf input output :
  (16 <= length input)%nat -> (length output < 16)%nat ->
  threefish1024_encrypt tf input output = Panic.
Proof.
  intros Hi Ho.
  destruct input as [|b0 [|b1 [|b2 [|b3 [|b4 [|b5 [|b6 [|b7 [|b8 [|b9 [|b10 [|b11 [|b12 [|b13 [|b14 [|b15 r]]]]]]]]]]]]]]]];
    [exfalso; cbn [length] in Hi; lia .. |].
  unfold threefish1024_encrypt. cbn [index nth_error bind]. cbv zeta.
  destruct (run _ _) as [c0 c1 c2 c3 c4 c5 c6 c7 c8 c9 c10 c11 c12 c13 c14 c15].
  destruct output as [|x0 [|x1 [|x2 [|x3 [|x4 [|x5 [|x6 [|x7 [|x8 [|x9 [|x10 [|x11 [|x12 [|x13 [|x14 [|x15 r']]]]]]]]]]]]]]]];
    [cbn [store bind]; reflexivity .. |exfalso; cbn [length] in Ho; lia].
Qed.

Lemma threefish1024_encrypt_long tf b extra out rest res :
  length b = 16%nat -> length out = 16%nat ->
  threefish1024_encrypt tf b out = Done res ->
  threefish1024_encrypt tf (b ++ extra) (out ++ rest) = Done (res ++ rest).
Proof.
  intros Hb Ho.
  destruct b as [|b0 [|b1 [|b2 [|b3 [|b4 [|b5 [|b6 [|b7 [|b8 [|b9 [|b10 [|b11 [|b12 [|b13 [|b14 [|b15 [|]]]]]]]]]]]]]]]]]; try discriminate Hb.
  destruct out as [|x0 [|x1 [|x2 [|x3 [|x4 [|x5 [|x6 [|x7 [|x8 [|x9 [|x10 [|x11 [|x12 [|x13 [|x14 [|x15 [|]]]]]]]]]]]]]]]]]; try discriminate Ho.
  unfold threefish1024_encrypt. cbn [app index nth_error bind]. cbv zeta.
  destruct (run _ _) as [c0 c1 c2 c3 c4 c5 c6 c7 c8 c9 c10 c11 c12 c13 c14 c15].
  cbn [store bind]. intros H. apply Done_inj in H. subst res. reflexivity.
Qed.

Lemma threefish1024_decrypt_short_input tf input output :
  (length input < 16)%nat -> threefish1024_decrypt tf input output = Panic.
Proof.
  intros Hi.
  destruct input as [|b0 [|b1 [|b2 [|b3 [|b4 [|b5 [|b6 [|b7 [|b8 [|b9 [|b10 [|b11 [|b12 [|b13 [|b14 [|b15 r]]]]]]]]]]]]]]]];
    [unfold threefish1024_decrypt; cbn [index nth_error bind]; reflexivity ..
    |exfalso; cbn [length] in Hi; lia].
Qed.

Lemma threefish1024_decrypt_short_output tf input output :
  (16 <= length input)%nat -> (length output < 16)%nat ->
  threefish1024_decrypt tf input output = Panic.
Proof.
  intros Hi Ho.
  destruct input as [|b0 [|b1 [|b2 [|b3 [|b4 [|b5 [|b6 [|b7 [|b8 [|b9 [|b10 [|b11 [|b12 [|b13 [|b14 [|b15 r]]]]]]]]]]]]]]]];
    [exfalso; cbn [length] in Hi; lia .. |].
  unfold threefish1024_decrypt. cbn [index nth_error bind]. cbv zeta.
  destruct (run _ _) as [c0 c1 c2 c3 c4 c5 c6 c7 c8 c9 c10 c11 c12 c13 c14 c15].
  destruct output as [|x0 [|x1 [|x2 [|x3 [|x4 [|x5 [|x6 [|x7 [|x8 [|x9 [|x10 [|x11 [|x12 [|x13 [|x14 [|x15 r']]]]]]]]]]]]]]]];
    [cbn [store bind]; reflexivity .. |exfalso; cbn [length] in Ho; lia].
Qed.

Lemma threefish1024_decrypt_long tf b extra out rest res :
  length b = 16%nat -> length out = 16%nat ->
  threefish1024_decrypt tf b out = Done res ->
  threefish1024_decrypt tf (b ++ extra) (out ++ rest) = Done (res ++ rest).
Proof.
  intros Hb Ho.
  destruct b as [|b0 [|b1 [|b2 [|b3 [|b4 [|b5 [|b6 [|b7 [|b8 [|b9 [|b10 [|b11 [|b12 [|b13 [|b14 [|b15 [|]]]]]]]]]]]]]]]]]; try discriminate Hb.
  destruct out as [|x0 [|x1 [|x2 [|x3 [|x4 [|x5 [|x6 [|x7 [|x8 [|x9 [|x10 [|x11 [|x12 [|x13 [|x14 [|x15 [|]]]]]]]]]]]]]]]]]; try discriminate Ho.
  unfold threefish1024_decrypt. cbn [app index nth_error bind]. cbv zeta.
  destruct (run _ _) as [c0 c1 c2 c3 c4 c5 c6 c7 c8 c9 c10 c11 c12 c13 c14 c15].
  cbn [store bind]. intros H. apply Done_inj in H. subst res. reflexivity.
Qed.

Lemma threefish1024_encrypt_word tf input output res :
  length output = 16%nat -> threefish1024_encrypt tf input output = Done res -> Forall word res.
Proof.
  intros Ho.
  destruct input as [|b0 [|b1 [|b2 [|b3 [|b4 [|b5 [|b6 [|b7 [|b8 [|b9 [|b10 [|b11 [|b12 [|b13 [|b14 [|b15 r]]]]]]]]]]]]]]]];
    [unfold threefish1024_encrypt; cbn [index nth_error bind]; intros H; discriminate H .. |].
  destruct output as [|x0 [|x1 [|x2 [|x3 [|x4 [|x5 [|x6 [|x7 [|x8 [|x9 [|x10 [|x11 [|x12 [|x13 [|x14 [|x15 [|]]]]]]]]]]]]]]]]]; try discriminate Ho.
  unfold threefish1024_encrypt. cbn [index nth_error bind]. cbv zeta.
  destruct (run _ _) as [c0 c1 c2 c3 c4 c5 c6 c7 c8 c9 c10 c11 c12 c13 c14 c15].
  cbn [store bind]. intros H. apply Done_inj in H. subst res.
  repeat constructor; apply word_add.
Qed.

Lemma threefish1024_decrypt_word tf input output res :
  length output = 16%nat -> threefish1024_decrypt tf input output = Done res -> Forall word res.
Proof.
  intros Ho.
  destruct input as [|b0 [|b1 [|b2 [|b3 [|b4 [|b5 [|b6 [|b7 [|b8 [|b9 [|b10 [|b11 [|b12 [|b13 [|b14 [|b15 r]]]]]]]]]]]]]]]];
    [unfold threefish1024_decrypt; cbn [index nth_error bind]; intros H; discriminate H .. |].
  destruct output as [|x0 [|x1 [|x2 [|x3 [|x4 [|x5 [|x6 [|x7 [|x8 [|x9 [|x10 [|x11 [|x12 [|x13 [|x14 [|x15 [|]]]]]]]]]]]]]]]]]; try discriminate Ho.
  unfold threefish1024_decrypt. cbn [index nth_error bind].
  match goal with
  | |- context [run _ ?s] =>
      assert (Hs : ok16 s)
        by (cbv [ok16]; repeat match goal with |- _ /\ _ => split end; apply word_sub);
      destruct (paired_inverts _ _ _ _ _
        (threefish1024_rounds_paired'
           (arr (expanedKey tf) 0) (arr (expanedKey tf) 1) (arr (expanedKey tf) 2) (arr (expanedKey tf) 3) (arr (expanedKey tf) 4) (arr (expanedKey tf) 5) (arr (expanedKey tf) 6) (arr (expanedKey tf) 7) (arr (expanedKey tf) 8) (arr (expanedKey tf) 9) (arr (expanedKey tf) 10) (arr (expanedKey tf) 11) (arr (expanedKey tf) 12) (arr (expanedKey tf) 13) (arr (expanedKey tf) 14) (arr (expanedKey tf) 15) (arr (expanedKey tf) 16)
           (arr (expanedTweak tf) 0) (arr (expanedTweak tf) 1) (arr (expanedTweak tf) 2))
        s Hs) as [Hok _];
      destruct (run _ s) as [c0 c1 c2 c3 c4 c5 c6 c7 c8 c9 c10 c11 c12 c13 c14 c15]
  end.
  cbn [store bind]. intros H. apply Done_inj in H. subst res.
  cbv [ok16] in Hok.
  repeat apply Forall_cons; try apply Forall_nil; tauto.
Qed.

Lemma encrypt_short_input ci input output :
  (length input < qwords ci)%nat -> encrypt ci input output = Panic.
Proof.
  destruct ci as [tf|tf|tf]; cbn [qwords encrypt].
  - apply threefish256_encrypt_short_input.
  - apply threefish512_encrypt_short_input.
  - apply threefish1024_encrypt_short_input.
Qed.

Lemma encrypt_short_output ci input output :
  (qwords ci <= length input)%nat -> (length output < qwords ci)%nat ->
  encrypt ci input output = Panic.
Proof.
  destruct ci as [tf|tf|tf]; cbn [qwords encrypt].
  - apply threefish256_encrypt_short_output.
  - apply threefish512_encrypt_short_output.
  - apply threefish1024_encrypt_short_output.
Qed.

Lemma encrypt_long ci b extra out rest res :
  length b = qwords ci -> length out = qwords ci ->
  encrypt ci b out = Done res ->
  encrypt ci (b ++ extra) (out ++ rest) = Done (res ++ rest).
Proof.
  destruct ci as [tf|tf|tf]; cbn [qwords encrypt].
  - apply threefish256_encrypt_long.
  - apply threefish512_encrypt_long.
  - apply threefish1024_encrypt_long.
Qed.

Lemma decrypt_short_input ci input output :
  (length input < qwords ci)%nat -> decrypt ci input output = Panic.
Proof.
  destruct ci as [tf|tf|tf]; cbn [qwords decrypt].
  - apply threefish256_decrypt_short_input.
  - apply threefish512_decrypt_short_input.
  - apply threefish1024_decrypt_short_input.
Qed.

Lemma decrypt_short_output ci input output :
  (qwords ci <= length input)%nat -> (length output < qwords ci)%nat ->
  decrypt ci input output = Panic.
Proof.
  destruct ci as [tf|tf|tf]; cbn [qwords decrypt].
  - apply threefish256_decrypt_short_output.
  - apply threefish512_decrypt_short_output.
  - apply threefish1024_decrypt_short_output.
Qed.

Lemma decrypt_long ci b extra out rest res :
  length b = qwords ci -> length out = qwords ci ->
  decrypt ci b out = Done res ->
  decrypt ci (b ++ extra) (out ++ rest) = Done (res ++ rest).
Proof.
  destruct ci as [tf|tf|tf]; cbn [qwords decrypt].
  - apply threefish256_decrypt_long.
  - apply threefish512_decrypt_long.
  - apply threefish1024_decrypt_long.
Qed.

(** The words that [encrypt] writes are in the [uint64] range. *)
Lemma encrypt_word ci input output res :
  length output = qwords ci -> encrypt ci input output = Done res -> Forall word res.
Proof.
  destruct ci as [tf|tf|tf]; cbn [qwords encrypt].
  - apply threefish256_encrypt_word.
  - apply threefish512_encrypt_word.
  - apply threefish1024_encrypt_word.
Qed.

(** The words that [decrypt] writes are in the [uint64] range. *)
Lemma decrypt_word ci input output res :
  length output = qwords ci -> decrypt ci input output = Done res -> Forall word res.
Proof.
  destruct ci as [tf|tf|tf]; cbn [qwords decrypt].
  - apply threefish256_decrypt_word.
  - apply threefish512_decrypt_word.
  - apply threefish1024_decrypt_word.
Qed.

(** ** Blocks of bytes and blocks of words, both ways *)

Lemma words_to_bytes_cons x ws :
  words_to_bytes (x :: ws) = le_split 8 x ++ words_to_bytes ws.
Proof. reflexivity. Qed.

Lemma words_to_bytes_length ws : length (words_to_bytes ws) = (length ws * 8)%nat.
Proof.
  induction ws as [|x ws IH]; [reflexivity|].
  rewrite words_to_bytes_cons, length_app, length_le_split, IH. cbn [length]. lia.
Qed.

(** Decoding the encoding of words in the [uint64] range gives them back. *)
Lemma bytes_to_words_of_words ws rest :
  Forall word ws -> bytes_to_words (length ws) (words_to_bytes ws ++ rest) = ws.
Proof.
  induction 1 as [|x ws Hx Hws IH]; [reflexivity|].
  rewrite words_to_bytes_cons, <- app_assoc. cbn [length bytes_to_words].
  rewrite firstn_exact, skipn_exact by apply length_le_split.
  rewrite IH, le_combine_split. f_equal.
  change (Z.of_nat 8 * 8) with 64. apply Z.mod_small. exact Hx.
Qed.

(** Encoding the decoding of [8 * n] bytes gives them back. *)
Lemma words_to_bytes_of_bytes n :
  forall bs, length bs = (n * 8)%nat -> words_to_bytes (bytes_to_words n bs) = bs.
Proof.
  induction n as [|n IH]; intros bs H.
  - destruct bs; [reflexivity|discriminate].
  - destruct (split_at 8 bs) as (a & b & -> & Ha); [lia|].
    rewrite length_app in H. cbn [bytes_to_words].
    rewrite firstn_exact, skipn_exact by exact Ha.
    rewrite words_to_bytes_cons, IH by lia.
    pose proof (split_le_combine a) as E. rewrite Ha in E. rewrite E. reflexivity.
Qed.

(** ** The loops of [Encrypt] and [Decrypt] on buffers of any length *)

Lemma slice_Done {A : Type} (l b : list A) lo hi :
  slice l lo hi = Done b ->
  (lo <= hi)%nat /\ (hi <= length l)%nat /\ length b = (hi - lo)%nat.
Proof.
  unfold slice. intros H.
  destruct (Nat.leb_spec lo hi) as [H1|H1]; cbn [andb] in H; [|discriminate H].
  destruct (Nat.leb_spec hi (length l)) as [H2|H2]; [|discriminate H].
  apply Done_inj in H. subst b.
  rewrite firstn_length_le by (rewrite length_skipn; lia). lia.
Qed.



Lemma PutUint64_length (b b' : list byte) v :
  PutUint64 b v = Done b' -> length b' = length b.
Proof.
  destruct b as [|? [|? [|? [|? [|? [|? [|? [|? r]]]]]]]]; cbn [PutUint64];
    intros H; try discriminate H.
  apply Done_inj in H. subst b'. reflexivity.
Qed.

Lemma write_slice_length {A : Type} (l sub : list A) lo hi :
  (lo <= hi)%nat -> (hi <= length l)%nat -> length sub = (hi - lo)%nat ->
  length (write_slice l lo hi sub) = length l.
Proof.
  intros H1 H2 H3. unfold write_slice.
  rewrite !length_app, length_skipn, firstn_length_le by lia. lia.
Qed.

Lemma load_words_length n :
  forall i src tmp tmp', load_words n i src tmp = Done tmp' -> length tmp' = length tmp.
Proof.
  induction n as [|n IH]; intros i src tmp tmp' H; cbn [load_words] in H.
  - apply Done_inj in H. subst tmp'. reflexivity.
  - apply bind_Done in H. destruct H as (b & Hb & H).
    apply bind_Done in H. destruct H as (x & Hx & H).
    apply bind_Done in H. destruct H as (t & Ht & H).
    apply IH in H. apply store_length in Ht. congruence.
Qed.

Lemma store_words_length n :
  forall i dst tmp dst', store_words n i dst tmp = Done dst' -> length dst' = length dst.
Proof.
  induction n as [|n IH]; intros i dst tmp dst' H; cbn [store_words] in H.
  - apply Done_inj in H. subst dst'. reflexivity.
  - apply bind_Done in H. destruct H as (b & Hb & H).
    apply bind_Done in H. destruct H as (x & Hx & H).
    apply bind_Done in H. destruct H as (b' & Hb' & H).
    apply IH in H. apply slice_Done in Hb. apply PutUint64_length in Hb'.
    rewrite H. apply write_slice_length; lia.
Qed.



(** ** The struct behind a cipher *)

Lemma state_with_state ci tf : state (with_state ci tf) = tf.
Proof. destruct ci; reflexivity. Qed.

Lemma qwords_with_state ci tf : qwords (with_state ci tf) = qwords ci.
Proof. destruct ci; reflexivity. Qed.

(** The variant and the struct determine the implementation. *)
Lemma cipherInternal_eq ci1 ci2 :
  qwords ci1 = qwords ci2 -> state ci1 = state ci2 -> ci1 = ci2.
Proof.
  destruct ci1, ci2; cbn [qwords state]; intros Hq Hs; try discriminate Hq;
    rewrite Hs; reflexivity.
Qed.

(** The round functions read the expanded key and tweak only. *)
Lemma encrypt_with_tmpData ci t1 t2 input output :
  encrypt (with_state ci (with_tmpData (state ci) t1 t2)) input output
  = encrypt ci input output.
Proof. destruct ci; reflexivity. Qed.

Lemma decrypt_with_tmpData ci t1 t2 input output :
  decrypt (with_state ci (with_tmpData (state ci) t1 t2)) input output
  = decrypt ci input output.
Proof. destruct ci; reflexivity. Qed.

Lemma expand_key_length key : length (expand_key key) = S (length key).
Proof. unfold expand_key. rewrite length_app. cbn [length]. lia. Qed.

(** Every reachable cipher holds arrays of the lengths of its variant. *)
Lemma reachable_wf c key : reachable c key -> wf_cipher c.
Proof.
  intros Hr. pose proof (reachable_schedule c key Hr) as Hsched. revert Hsched.
  induction Hr as [key tweak c Hv Hc | key tweak c Hv Hc | size c Hc
                 | c key key' c' Hr IH Hl Hc | c key tweak c' Hr IH Hv Hc
                 | c key dst src dst' Hr IH Hc | c key dst src dst' Hr IH Hc
                 | c key dst src c' dst' Hr IH Hc | c key dst src c' dst' Hr IH Hc];
    intros (Hk & He & Ht); unfold wf_cipher, wf_threefish.
  - destruct (in_dec Z.eq_dec (len key) [32; 64; 128]) as [Hin|Hout];
      [|rewrite NewCipher_unsupported in Hc by exact Hout; discriminate Hc].
    destruct (NewCipher_supported key tweak Hin Hv) as (ci & Hn & Hq & Hs).
    rewrite Hn in Hc. apply Done_inj in Hc. subst c. cbn [internal] in *.
    rewrite Hs. cbn [expanedKey expanedTweak tmpData1 tmpData2].
    rewrite expand_tweak_length, expand_key_length, !repeat_length, Hk.
    repeat split.
  - destruct (in_dec Z.eq_dec (len key) [4; 8; 16]) as [Hin|Hout];
      [|rewrite NewCipher64_unsupported in Hc by exact Hout; discriminate Hc].
    destruct (NewCipher64_supported key tweak Hin Hv) as (ci & Hn & Hq & Hs).
    rewrite Hn in Hc. apply Done_inj in Hc. subst c. cbn [internal] in *.
    rewrite Hs. cbn [expanedKey expanedTweak tmpData1 tmpData2].
    rewrite expand_tweak_length, expand_key_length, !repeat_length, Hk.
    repeat split.
  - destruct (in_dec Z.eq_dec size [256; 512; 1024]) as [Hin|Hout];
      [|rewrite NewCipherSize_unsupported in Hc by exact Hout; discriminate Hc].
    destruct (NewCipherSize_supported size Hin) as (ci & Hn & Hq & Hs).
    rewrite Hn in Hc. apply Done_inj in Hc. subst c. cbn [internal] in *.
    rewrite Hs. cbn [expanedKey expanedTweak tmpData1 tmpData2].
    rewrite length_app, !repeat_length. cbn [length].
    split; [reflexivity|]. split; [lia|]. split; reflexivity.
  - rewrite He, expand_key_length, Hk. split; [exact Ht|]. split; [reflexivity|].
    pose proof (reachable_schedule c key Hr) as Hs0.
    specialize (IH Hs0). unfold wf_cipher, wf_threefish in IH.
    destruct IH as (_ & _ & I1 & I2).
    unfold SetKey, cipherInternal_setKey in Hc.
    apply bind_Done in Hc. destruct Hc as (ci' & Hci & Hc).
    apply Done_inj in Hc. subst c'.
    apply bind_Done in Hci. destruct Hci as (ek & Hek & Hci).
    apply Done_inj in Hci. subst ci'. cbn [internal].
    rewrite state_with_state, qwords_with_state.
    cbn [with_expanedKey tmpData1 tmpData2]. split; assumption.
  - rewrite He, expand_key_length, Hk. split; [exact Ht|]. split; [reflexivity|].
    pose proof (reachable_schedule c key Hr) as Hs0.
    specialize (IH Hs0). unfold wf_cipher, wf_threefish in IH.
    destruct IH as (_ & _ & I1 & I2).
    unfold SetTweak, cipherInternal_setTweak in Hc.
    apply bind_Done in Hc. destruct Hc as (ci' & Hci & Hc).
    apply Done_inj in Hc. subst c'.
    apply bind_Done in Hci. destruct Hci as (et & Het & Hci).
    apply Done_inj in Hci. subst ci'. cbn [internal].
    rewrite state_with_state, qwords_with_state.
    cbn [with_expanedTweak tmpData1 tmpData2]. split; assumption.
  - apply IH. split; [|split]; assumption.
  - apply IH. split; [|split]; assumption.
  - rewrite He, expand_key_length, Hk. split; [exact Ht|]. split; [reflexivity|].
    pose proof (reachable_schedule c key Hr) as Hs0.
    specialize (IH Hs0). unfold wf_cipher, wf_threefish in IH.
    destruct IH as (_ & _ & I1 & I2).
    unfold Encrypt, getTempData in Hc. cbv zeta in Hc.
    apply bind_Done in Hc. destruct Hc as (tin & Hin & Hc).
    apply bind_Done in Hc. destruct Hc as (tout & Hout & Hc).
    apply bind_Done in Hc. destruct Hc as (d & Hd & Hc).
    apply Done_inj in Hc. apply (f_equal fst) in Hc. cbn [fst] in Hc. subst c'.
    cbn [internal]. rewrite state_with_state, qwords_with_state.
    cbn [with_tmpData tmpData1 tmpData2].
    apply load_words_length in Hin.
    destruct (encrypt_total (internal c) tin) as (res & Hres & Htot); [congruence|].
    rewrite Htot in Hout by exact I2. apply Done_inj in Hout. subst tout.
    split; congruence.
  - rewrite He, expand_key_length, Hk. split; [exact Ht|]. split; [reflexivity|].
    pose proof (reachable_schedule c key Hr) as Hs0.
    specialize (IH Hs0). unfold wf_cipher, wf_threefish in IH.
    destruct IH as (_ & _ & I1 & I2).
    unfold Decrypt, getTempData in Hc. cbv zeta in Hc.
    apply bind_Done in Hc. destruct Hc as (tin & Hin & Hc).
    apply bind_Done in Hc. destruct Hc as (tout & Hout & Hc).
    apply bind_Done in Hc. destruct Hc as (d & Hd & Hc).
    apply Done_inj in Hc. apply (f_equal fst) in Hc. cbn [fst] in Hc. subst c'.
    cbn [internal]. rewrite state_with_state, qwords_with_state.
    cbn [with_tmpData tmpData1 tmpData2].
    apply load_words_length in Hin.
    destruct (decrypt_total (internal c) tin) as (res & Hres & Htot); [congruence|].
    rewrite Htot in Hout by exact I2. apply Done_inj in Hout. subst tout.
    split; congruence.
Qed.

(** ** The inverse law, for every variant at once *)

Lemma decrypt_after_encrypt ci b out1 out2 :
  length b = qwords ci -> Forall word b ->
  length out1 = qwords ci -> length out2 = qwords ci ->
  exists c, encrypt ci b out1 = Done c /\ decrypt ci c out2 = Done b.
Proof.
  destruct ci as [tf|tf|tf]; cbn [qwords encrypt decrypt].
  - apply threefish256_decrypt_encrypt.
  - apply threefish512_decrypt_encrypt.
  - apply threefish1024_decrypt_encrypt.
Qed.

Lemma encrypt_after_decrypt ci b out1 out2 :
  length b = qwords ci -> Forall word b ->
  length out1 = qwords ci -> length out2 = qwords ci ->
  exists p, decrypt ci b out1 = Done p /\ encrypt ci p out2 = Done b.
Proof.
  destruct ci as [tf|tf|tf]; cbn [qwords encrypt decrypt].
  - apply threefish256_encrypt_decrypt.
  - apply threefish512_encrypt_decrypt.
  - apply threefish1024_encrypt_decrypt.
Qed.

Lemma encrypt_spec ci block out :
  wf_threefish (qwords ci) (state ci) ->
  length block = qwords ci -> length out = qwords ci ->
  encrypt ci block out = Done (spec_encrypt_with subkey_code ci block).
Proof.
  destruct ci as [tf|tf|tf]; cbn [qwords encrypt state]; intros Hwf Hb Ho.
  - apply threefish256_encrypt_spec; assumption.
  - apply threefish512_encrypt_spec; assumption.
  - apply threefish1024_encrypt_spec; assumption.
Qed.

(** ** [Encrypt] and [Decrypt] as one piece of code

    [Encrypt] and [Decrypt] are the same lines around [encrypt] and
    [decrypt]; what holds of those lines is proved once, for a call [Crypt]
    around a round function [crypt]. *)

Section ByteCalls.

Variable crypt : cipherInternal -> list Z -> list Z -> outcome (list Z).
Variable Crypt : Cipher -> list byte -> list byte -> outcome (Cipher * list byte).

Hypothesis HCrypt : forall c dst src,
  Crypt c dst src =
  (let uintLen := Z.to_nat (Z.quot (stateSize c) 64) in
   let '(tmpin, tmpout) := getTempData (internal c) in
   tmpin <- load_words uintLen 0 src tmpin ;;
   tmpout <- crypt (internal c) tmpin tmpout ;;
   dst <- store_words uintLen 0 dst tmpout ;;
   Done (mk_Cipher (stateSize c)
           (with_state (internal c) (with_tmpData (state (internal c)) tmpin tmpout)),
         dst)).

Hypothesis Htotal : forall ci input, length input = qwords ci ->
  exists res, length res = qwords ci /\
    forall output, length output = qwords ci -> crypt ci input output = Done res.



(** The cipher a call returns holds the key, the tweak and the size of the
    cipher it was made on, and the destination keeps its length. *)
Lemma Crypt_keeps c dst src c' dst' :
  Crypt c dst src = Done (c', dst') ->
  stateSize c' = stateSize c /\
  qwords (internal c') = qwords (internal c) /\
  expanedKey (state (internal c')) = expanedKey (state (internal c)) /\
  expanedTweak (state (internal c')) = expanedTweak (state (internal c)) /\
  length dst' = length dst.
Proof.
  rewrite HCrypt. cbv zeta. unfold getTempData. intros H.
  apply bind_Done in H. destruct H as (tin & Hin & H).
  apply bind_Done in H. destruct H as (tout & Hout & H).
  apply bind_Done in H. destruct H as (d & Hd & H).
  apply Done_inj in H.
  pose proof (f_equal fst H) as Hc. pose proof (f_equal snd H) as Hdst.
  cbn [fst snd] in Hc, Hdst. subst c' dst'. cbn [stateSize internal].
  rewrite state_with_state, qwords_with_state.
  apply store_words_length in Hd.
  repeat match goal with |- _ /\ _ => split end; try reflexivity. exact Hd.
Qed.

End ByteCalls.

Section RoundTrip.

Variables crypt1 crypt2 : cipherInternal -> list Z -> list Z -> outcome (list Z).
Variables Crypt1 Crypt2 : Cipher -> list byte -> list byte -> outcome (Cipher * list byte).

Hypothesis HCrypt1 : forall c dst src,
  Crypt1 c dst src =
  (let uintLen := Z.to_nat (Z.quot (stateSize c) 64) in
   let '(tmpin, tmpout) := getTempData (internal c) in
   tmpin <- load_words uintLen 0 src tmpin ;;
   tmpout <- crypt1 (internal c) tmpin tmpout ;;
   dst <- store_words uintLen 0 dst tmpout ;;
   Done (mk_Cipher (stateSize c)
           (with_state (internal c) (with_tmpData (state (internal c)) tmpin tmpout)),
         dst)).

Hypothesis HCrypt2 : forall c dst src,
  Crypt2 c dst src =
  (let uintLen := Z.to_nat (Z.quot (stateSize c) 64) in
   let '(tmpin, tmpout) := getTempData (internal c) in
   tmpin <- load_words uintLen 0 src tmpin ;;
   tmpout <- crypt2 (internal c) tmpin tmpout ;;
   dst <- store_words uintLen 0 dst tmpout ;;
   Done (mk_Cipher (stateSize c)
           (with_state (internal c) (with_tmpData (state (internal c)) tmpin tmpout)),
         dst)).

Hypothesis Htotal1 : forall ci input, length input = qwords ci ->
  exists res, length res = qwords ci /\
    forall output, length output = qwords ci -> crypt1 ci input output = Done res.

Hypothesis Htotal2 : forall ci input, length input = qwords ci ->
  exists res, length res = qwords ci /\
    forall output, length output = qwords ci -> crypt2 ci input output = Done res.

Hypothesis Hword1 : forall ci input output res,
  length output = qwords ci -> crypt1 ci input output = Done res -> Forall word res.

Hypothesis Htmp2 : forall ci t1 t2 input output,
  crypt2 (with_state ci (with_tmpData (state ci) t1 t2)) input output
  = crypt2 ci input output.

Hypothesis Hinv : forall ci b out1 out2,
  length b = qwords ci -> Forall word b ->
  length out1 = qwords ci -> length out2 = qwords ci ->
  exists c, crypt1 ci b out1 = Done c /\ crypt2 ci c out2 = Done b.

(** The second call, made on the cipher and the bytes that the first call
    returns, gives the block of the source back. *)
Lemma Crypt_round_trip ci dst dst' src :
  length (tmpData1 (state ci)) = qwords ci -> length (tmpData2 (state ci)) = qwords ci ->
  (qwords ci * 8 <= length src)%nat -> (qwords ci * 8 <= length dst)%nat ->
  (qwords ci * 8 <= length dst')%nat ->
  exists c1 e c2,
    Crypt1 (mk_Cipher (Z.of_nat (qwords ci) * 64) ci) dst src = Done (c1, e) /\
    Crypt2 c1 dst' e
    = Done (c2, firstn (qwords ci * 8) src ++ skipn (qwords ci * 8) dst').
Proof.
  intros H1 H2 Hsrc Hdst Hdst'.
  destruct (bytes_through_words crypt1 Crypt1 HCrypt1 Htotal1 ci (state ci) dst src
              eq_refl H1 H2 Hsrc Hdst) as (res & Hl & H64 & HE).
  remember (bytes_to_words (qwords ci) (firstn (qwords ci * 8) src)) as W eqn:HW.
  assert (HlW : length W = qwords ci) by (subst W; apply bytes_to_words_length).
  assert (HwW : Forall word W).
  { subst W. apply bytes_to_words_word. rewrite firstn_length_le by lia. lia. }
  assert (Hwres : Forall word res).
  { apply (Hword1 ci W (repeat 0 (qwords ci)) res); [apply repeat_length|].
    apply H64. apply repeat_length. }
  remember (with_state ci (with_tmpData (state ci) W res)) as ci' eqn:Hci'.
  assert (Hq : qwords ci' = qwords ci) by (subst ci'; apply qwords_with_state).
  assert (Hs' : state ci' = with_tmpData (state ci) W res)
    by (subst ci'; apply state_with_state).
  destruct (bytes_through_words crypt2 Crypt2 HCrypt2 Htotal2 ci'
              (with_tmpData (state ci) W res) dst'
              (words_to_bytes res ++ skipn (qwords ci * 8) dst) Hs')
    as (res2 & Hl2 & H642 & HE2).
  { cbn [with_tmpData tmpData1]. rewrite Hq. exact HlW. }
  { cbn [with_tmpData tmpData2]. rewrite Hq. exact Hl. }
  { rewrite Hq, length_app, words_to_bytes_length, Hl. lia. }
  { rewrite Hq. exact Hdst'. }
  rewrite Hq in *.
  rewrite firstn_exact in H642, HE2 by (rewrite words_to_bytes_length, Hl; reflexivity).
  assert (Hback : bytes_to_words (qwords ci) (words_to_bytes res) = res).
  { rewrite <- Hl at 1. rewrite <- (app_nil_r (words_to_bytes res)).
    apply bytes_to_words_of_words. exact Hwres. }
  rewrite Hback in H642, HE2.
  destruct (Hinv ci W (repeat 0 (qwords ci)) (repeat 0 (qwords ci)) HlW HwW
              (repeat_length _ _) (repeat_length _ _)) as (c & Hc1 & Hc2).
  rewrite H64 in Hc1 by apply repeat_length. apply Done_inj in Hc1. subst c.
  specialize (H642 (repeat 0 (qwords ci)) (repeat_length _ _)).
  rewrite Hci', Htmp2, Hc2 in H642. apply Done_inj in H642. subst res2.
  eexists. eexists. eexists. split; [exact HE|].
  rewrite HE2. f_equal. f_equal. f_equal.
  rewrite HW. apply words_to_bytes_of_bytes.
  apply firstn_length_le. exact Hsrc.
Qed.

End RoundTrip.

(** What [BlockSize] returns for a cipher whose state size is that of its
    variant. *)
Lemma BlockSize_qwords ss ci :
  ss = Z.of_nat (qwords ci) * 64 ->
  BlockSize (mk_Cipher ss ci) = Z.of_nat (qwords ci * 8).
Proof.
  intros ->. unfold BlockSize. cbn [stateSize].
  replace (Z.of_nat (qwords ci) * 64) with (Z.of_nat (qwords ci * 8) * 8) by lia.
  apply Z.quot_mul. lia.
Qed.

(** The expanded tweak of every reachable cipher is two words and their
    XOR. *)
Lemma reachable_tweak c key :
  reachable c key ->
  exists t0 t1, expanedTweak (state (internal c)) = [t0; t1; t0 ^' t1].
Proof.
  induction 1 as [key tweak c Hv Hc | key tweak c Hv Hc | size c Hc
                 | c key key' c' Hr IH Hl Hc | c key tweak c' Hr IH Hv Hc
                 | c key dst src dst' Hr IH Hc | c key dst src dst' Hr IH Hc
                 | c key dst src c' dst' Hr IH Hc | c key dst src c' dst' Hr IH Hc].
  - destruct (in_dec Z.eq_dec (len key) [32; 64; 128]) as [Hin|Hout];
      [|rewrite NewCipher_unsupported in Hc by exact Hout; discriminate Hc].
    destruct (NewCipher_supported key tweak Hin Hv) as (ci & Hn & Hq & Hs).
    rewrite Hn in Hc. apply Done_inj in Hc. subst c. cbn [internal].
    rewrite Hs. cbn [expanedTweak].
    destruct tweak as [[|t0 [|t1 [|]]]|]; try discriminate Hv.
    + exists t0, t1. reflexivity.
    + exists 0, 0. reflexivity.
  - destruct (in_dec Z.eq_dec (len key) [4; 8; 16]) as [Hin|Hout];
      [|rewrite NewCipher64_unsupported in Hc by exact Hout; discriminate Hc].
    destruct (NewCipher64_supported key tweak Hin Hv) as (ci & Hn & Hq & Hs).
    rewrite Hn in Hc. apply Done_inj in Hc. subst c. cbn [internal].
    rewrite Hs. cbn [expanedTweak].
    destruct tweak as [[|t0 [|t1 [|]]]|]; try discriminate Hv.
    + exists t0, t1. reflexivity.
    + exists 0, 0. reflexivity.
  - destruct (in_dec Z.eq_dec size [256; 512; 1024]) as [Hin|Hout];
      [|rewrite NewCipherSize_unsupported in Hc by exact Hout; discriminate Hc].
    destruct (NewCipherSize_supported size Hin) as (ci & Hn & Hq & Hs).
    rewrite Hn in Hc. apply Done_inj in Hc. subst c. cbn [internal].
    rewrite Hs. exists 0, 0. reflexivity.
  - unfold SetKey, cipherInternal_setKey in Hc.
    apply bind_Done in Hc. destruct Hc as (ci' & Hci & Hc).
    apply Done_inj in Hc. subst c'.
    apply bind_Done in Hci. destruct Hci as (ek & Hek & Hci).
    apply Done_inj in Hci. subst ci'. cbn [internal].
    rewrite state_with_state. exact IH.
  - destruct IH as (e0 & e1 & IH).
    unfold SetTweak, cipherInternal_setTweak in Hc.
    apply bind_Done in Hc. destruct Hc as (ci' & Hci & Hc).
    apply Done_inj in Hc. subst c'.
    apply bind_Done in Hci. destruct Hci as (et & Het & Hci).
    apply Done_inj in Hci. subst ci'. cbn [internal].
    rewrite state_with_state. cbn [with_expanedTweak expanedTweak].
    rewrite IH in Het.
    destruct tweak as [[|t0 [|t1 [|]]]|]; try discriminate Hv.
    + rewrite setTweak_spec in Het. apply Done_inj in Het. subst et.
      exists t0, t1. reflexivity.
    + cbn [setTweak] in Het. apply Done_inj in Het. subst et.
      exists e0, e1. reflexivity.
  - exact IH.
  - exact IH.
  - destruct (Crypt_keeps encrypt Encrypt (fun _ _ _ => eq_refl) _ _ _ _ _ Hc)
      as (_ & _ & _ & Ht & _).
    rewrite Ht. exact IH.
  - destruct (Crypt_keeps decrypt Decrypt (fun _ _ _ => eq_refl) _ _ _ _ _ Hc)
      as (_ & _ & _ & Ht & _).
    rewrite Ht. exact IH.
Qed.

Lemma xor_all_app a b : xor_all (a ++ b) = xor_all a ^' xor_all b.
Proof.
  induction a as [|x a IH]; cbn [app xor_all fold_right].
  - reflexivity.
  - fold (xor_all (a ++ b)). fold (xor_all a). rewrite IH.
    unfold xor64. rewrite Z.lxor_assoc. reflexivity.
Qed.

(** [setTweak] with a tweak of fewer than two words. *)
Lemma setTweak_short t expTweak :
  (length t < 2)%nat -> setTweak (Some t) expTweak = Panic.
Proof.
  intros H. destruct t as [|t0 [|t1 t]]; cbn [length] in H; try lia.
  - reflexivity.
  - unfold setTweak. cbn [index nth_error bind].
    destruct (store expTweak 0 t0) as [e'|e|] eqn:E; try reflexivity.
    exfalso. exact (no_error_store expTweak 0%nat t0 e E).
Qed.

Lemma with_state_with_state ci tf tf' :
  with_state (with_state ci tf) tf' = with_state ci tf'.
Proof. destruct ci; reflexivity. Qed.

(** [SetKey] on a cipher whose expanded key has one word more than the key. *)
Lemma SetKey_Done c k :
  length (expanedKey (state (internal c))) = S (length k) ->
  SetKey c k
  = Done (mk_Cipher (stateSize c)
            (with_state (internal c)
               (with_expanedKey (state (internal c)) (expand_key k)))).
Proof.
  intros H. unfold SetKey, cipherInternal_setKey.
  replace (setKey k (expanedKey (state (internal c))))
    with (setKey (k ++ []) (expanedKey (state (internal c))))
    by (rewrite app_nil_r; reflexivity).
  rewrite setKey_spec by exact H. reflexivity.
Qed.

Lemma setTweak_long t0 t1 rest expTweak :
  setTweak (Some (t0 :: t1 :: rest)) expTweak = setTweak (Some [t0; t1]) expTweak.
Proof. reflexivity. Qed.

(** * Properties of the facade and of the round functions *)

(** ** Blocks of bytes *)

(** X1.  Round trip on bytes.  For a cipher reached from a constructor
    whose state size is that of its variant (as [NewCipher] and
    [NewCipherSize] set it), and buffers of at least [BlockSize] bytes:
    [Decrypt], made on the cipher and the bytes that [Encrypt] returns,
    writes the first [BlockSize] bytes of the source of [Encrypt] into its
    destination and keeps the rest of it; and likewise [Encrypt] after
    [Decrypt]. *)
Theorem Encrypt_Decrypt_round_trip (c : Cipher) (key : list Z)
    (dst dst' src : list byte) :
  reachable c key ->
  stateSize c = Z.of_nat (qwords (internal c)) * 64 ->
  BlockSize c <= len src -> BlockSize c <= len dst -> BlockSize c <= len dst' ->
  let block := firstn (Z.to_nat (BlockSize c)) src in
  let rest := skipn (Z.to_nat (BlockSize c)) dst' in
  (exists c1 e c2,
     Encrypt c dst src = Done (c1, e) /\ Decrypt c1 dst' e = Done (c2, block ++ rest)) /\
  (exists c1 p c2,
     Decrypt c dst src = Done (c1, p) /\ Encrypt c1 dst' p = Done (c2, block ++ rest)).
Proof.
  intros Hr Hss Hsrc Hdst Hdst'.
  destruct (reachable_wf c key Hr) as (_ & _ & H1 & H2).
  destruct c as [ss ci]. cbn [stateSize internal] in *.
  cbv zeta. rewrite (BlockSize_qwords ss ci Hss) in *. unfold len in *.
  rewrite Nat2Z.id. subst ss.
  split.
  - apply (Crypt_round_trip encrypt decrypt Encrypt Decrypt
             (fun _ _ _ => eq_refl) (fun _ _ _ => eq_refl)
             encrypt_total decrypt_total encrypt_word decrypt_with_tmpData
             decrypt_after_encrypt); first [assumption | lia].
  - apply (Crypt_round_trip decrypt encrypt Decrypt Encrypt
             (fun _ _ _ => eq_refl) (fun _ _ _ => eq_refl)
             decrypt_total encrypt_total decrypt_word encrypt_with_tmpData
             encrypt_after_decrypt); first [assumption | lia].
Qed.

Lemma Encrypt_Decrypt_round_trip_witness :
  let c := mk_Cipher 256 (threefish256 (mk_threefish [0; 0; 0]
             (repeat 0 4 ++ [KEY_SCHEDULE_CONST]) (repeat 0 4) (repeat 0 4))) in
  let src := repeat Byte.x01 33 in
  let dst := repeat Byte.x00 32 in
  let dst' := repeat Byte.xff 34 in
  let block := firstn (Z.to_nat (BlockSize c)) src in
  let rest := skipn (Z.to_nat (BlockSize c)) dst' in
  (exists c1 e c2,
     Encrypt c dst src = Done (c1, e) /\ Decrypt c1 dst' e = Done (c2, block ++ rest)) /\
  (exists c1 p c2,
     Decrypt c dst src = Done (c1, p) /\ Encrypt c1 dst' p = Done (c2, block ++ rest)).
Proof.
  apply (Encrypt_Decrypt_round_trip
           (mk_Cipher 256 (threefish256 (mk_threefish [0; 0; 0]
              (repeat 0 4 ++ [KEY_SCHEDULE_CONST]) (repeat 0 4) (repeat 0 4))))
           (repeat 0 4) (repeat Byte.x00 32) (repeat Byte.xff 34) (repeat Byte.x01 33)).
  - apply (reach_NewCipherSize 256). reflexivity.
  - reflexivity.
  - vm_compute. intros H. discriminate H.
  - vm_compute. intros H. discriminate H.
  - vm_compute. intros H. discriminate H.
Defined.



(** X3.  What a call on bytes keeps.  Whatever the cipher and the buffers,
    when [Encrypt] or [Decrypt] returns, the cipher has the state size, the
    variant, the expanded key and the expanded tweak it had, and the
    destination has the length it had. *)
Theorem Encrypt_Decrypt_keep_key (c c' : Cipher) (dst src dst' : list byte) :
  Encrypt c dst src = Done (c', dst') \/ Decrypt c dst src = Done (c', dst') ->
  stateSize c' = stateSize c /\
  qwords (internal c') = qwords (internal c) /\
  expanedKey (state (internal c')) = expanedKey (state (internal c)) /\
  expanedTweak (state (internal c')) = expanedTweak (state (internal c)) /\
  length dst' = length dst.
Proof.
  intros [H|H].
  - exact (Crypt_keeps encrypt Encrypt (fun _ _ _ => eq_refl) c dst src c' dst' H).
  - exact (Crypt_keeps decrypt Decrypt (fun _ _ _ => eq_refl) c dst src c' dst' H).
Qed.

Lemma Encrypt_Decrypt_keep_key_witness :
  let c := mk_Cipher 256 (threefish256 (mk_threefish [1; 2; 3]
             (expand_key [1; 2; 3; 4]) (repeat 0 4) (repeat 0 4))) in
  let dst := repeat Byte.x00 40 in
  let src := repeat Byte.x01 32 in
  let r := match Encrypt c dst src with Done r => r | _ => (c, dst) end in
  stateSize (fst r) = stateSize c /\
  qwords (internal (fst r)) = qwords (internal c) /\
  expanedKey (state (internal (fst r))) = expanedKey (state (internal c)) /\
  expanedTweak (state (internal (fst r))) = expanedTweak (state (internal c)) /\
  length (snd r) = length dst.
Proof.
  intros c dst src r.
  apply (Encrypt_Decrypt_keep_key c (fst r) dst src (snd r)).
  left. vm_compute. reflexivity.
Defined.

(** ** Blocks of words *)

(** X4.  Short word buffers.  Whatever the cipher, [Encrypt64] and
    [Decrypt64] panic (index out of range) when the source or the
    destination has fewer words than the block of the variant. *)
Theorem Encrypt64_Decrypt64_short_buffer (c : Cipher) (dst src : list Z) :
  (length src < qwords (internal c))%nat \/ (length dst < qwords (internal c))%nat ->
  Encrypt64 c dst src = Panic /\ Decrypt64 c dst src = Panic.
Proof.
  intros Hshort. unfold Encrypt64, Decrypt64.
  destruct (Nat.lt_ge_cases (length src) (qwords (internal c))) as [Hs|Hs].
  - split; [apply encrypt_short_input | apply decrypt_short_input]; exact Hs.
  - split; [apply encrypt_short_output | apply decrypt_short_output];
      first [exact Hs | lia].
Qed.

Lemma Encrypt64_Decrypt64_short_buffer_witness :
  let c := mk_Cipher 256 (threefish256 (mk_threefish [1; 2; 3]
             (expand_key [1; 2; 3; 4]) (repeat 0 4) (repeat 0 4))) in
  Encrypt64 c [0; 0; 0] [1; 2; 3; 4] = Panic /\
  Decrypt64 c [0; 0; 0] [1; 2; 3; 4] = Panic.
Proof.
  apply (Encrypt64_Decrypt64_short_buffer
           (mk_Cipher 256 (threefish256 (mk_threefish [1; 2; 3]
              (expand_key [1; 2; 3; 4]) (repeat 0 4) (repeat 0 4))))
           [0; 0; 0] [1; 2; 3; 4]).
  right. vm_compute. lia.
Defined.

(** X5.  Long word buffers.  Whatever the cipher, for a source and a
    destination of at least [N] words, [N] the words in a block of the
    variant: [Encrypt64] and [Decrypt64] read the first [N] words of the
    source only, write the first [N] words of the destination and keep the
    others. *)
Theorem Encrypt64_Decrypt64_long_buffer (c : Cipher) (dst src : list Z) :
  let n := qwords (internal c) in
  (n <= length src)%nat -> (n <= length dst)%nat ->
  exists ct pt,
    length ct = n /\ length pt = n /\
    (forall out, length out = n ->
       Encrypt64 c out (firstn n src) = Done ct /\
       Decrypt64 c out (firstn n src) = Done pt) /\
    Encrypt64 c dst src = Done (ct ++ skipn n dst) /\
    Decrypt64 c dst src = Done (pt ++ skipn n dst).
Proof.
  intros n Hsrc Hdst. subst n. unfold Encrypt64, Decrypt64.
  destruct (split_at _ src Hsrc) as (b & extra & -> & Hb).
  destruct (split_at _ dst Hdst) as (o & rest & -> & Ho).
  rewrite firstn_exact, skipn_exact by assumption.
  destruct (encrypt_total (internal c) b Hb) as (ct & Hct & HE).
  destruct (decrypt_total (internal c) b Hb) as (pt & Hpt & HD).
  exists ct, pt. split; [exact Hct|]. split; [exact Hpt|]. split; [|split].
  - intros out Hout. split; [apply HE | apply HD]; exact Hout.
  - apply encrypt_long; try assumption. apply HE. exact Ho.
  - apply decrypt_long; try assumption. apply HD. exact Ho.
Qed.

Lemma Encrypt64_Decrypt64_long_buffer_witness :
  let c := mk_Cipher 256 (threefish256 (mk_threefish [1; 2; 3]
             (expand_key [1; 2; 3; 4]) (repeat 0 4) (repeat 0 4))) in
  let dst := [0; 0; 0; 0; 7; 8] in
  let src := [1; 2; 3; 4; 5] in
  exists ct pt,
    length ct = 4%nat /\ length pt = 4%nat /\
    (forall out, length out = 4%nat ->
       Encrypt64 c out (firstn 4 src) = Done ct /\
       Decrypt64 c out (firstn 4 src) = Done pt) /\
    Encrypt64 c dst src = Done (ct ++ skipn 4 dst) /\
    Decrypt64 c dst src = Done (pt ++ skipn 4 dst).
Proof.
  apply (Encrypt64_Decrypt64_long_buffer
           (mk_Cipher 256 (threefish256 (mk_threefish [1; 2; 3]
              (expand_key [1; 2; 3; 4]) (repeat 0 4) (repeat 0 4))))
           [0; 0; 0; 0; 7; 8] [1; 2; 3; 4; 5]).
  - vm_compute. lia.
  - vm_compute. lia.
Defined.

(** X6.  [Encrypt64] and [Decrypt64] are one-to-one.  Whatever the cipher,
    two different blocks of [N] words in the [uint64] range are encrypted
    to different blocks, and decrypted to different blocks. *)
Theorem Encrypt64_Decrypt64_injective (c : Cipher) (dst b1 b2 : list Z) :
  let n := qwords (internal c) in
  length b1 = n -> length b2 = n -> Forall word b1 -> Forall word b2 ->
  length dst = n -> b1 <> b2 ->
  (exists c1 c2,
     Encrypt64 c dst b1 = Done c1 /\ Encrypt64 c dst b2 = Done c2 /\ c1 <> c2) /\
  (exists p1 p2,
     Decrypt64 c dst b1 = Done p1 /\ Decrypt64 c dst b2 = Done p2 /\ p1 <> p2).
Proof.
  intros n H1 H2 W1 W2 Hd Hne. subst n. unfold Encrypt64, Decrypt64. split.
  - destruct (decrypt_after_encrypt (internal c) b1 dst dst H1 W1 Hd Hd) as (c1 & E1 & D1).
    destruct (decrypt_after_encrypt (internal c) b2 dst dst H2 W2 Hd Hd) as (c2 & E2 & D2).
    exists c1, c2. split; [exact E1|]. split; [exact E2|].
    intros Heq. subst c2. rewrite D1 in D2. apply Done_inj in D2. exact (Hne D2).
  - destruct (encrypt_after_decrypt (internal c) b1 dst dst H1 W1 Hd Hd) as (p1 & D1 & E1).
    destruct (encrypt_after_decrypt (internal c) b2 dst dst H2 W2 Hd Hd) as (p2 & D2 & E2).
    exists p1, p2. split; [exact D1|]. split; [exact D2|].
    intros Heq. subst p2. rewrite E1 in E2. apply Done_inj in E2. exact (Hne E2).
Qed.

Lemma Encrypt64_Decrypt64_injective_witness :
  let c := mk_Cipher 256 (threefish256 (mk_threefish [1; 2; 3]
             (expand_key [1; 2; 3; 4]) (repeat 0 4) (repeat 0 4))) in
  (exists c1 c2,
     Encrypt64 c [0; 0; 0; 0] [0; 0; 0; 0] = Done c1 /\
     Encrypt64 c [0; 0; 0; 0] [1; 0; 0; 0] = Done c2 /\ c1 <> c2) /\
  (exists p1 p2,
     Decrypt64 c [0; 0; 0; 0] [0; 0; 0; 0] = Done p1 /\
     Decrypt64 c [0; 0; 0; 0] [1; 0; 0; 0] = Done p2 /\ p1 <> p2).
Proof.
  apply (Encrypt64_Decrypt64_injective
           (mk_Cipher 256 (threefish256 (mk_threefish [1; 2; 3]
              (expand_key [1; 2; 3; 4]) (repeat 0 4) (repeat 0 4))))
           [0; 0; 0; 0] [0; 0; 0; 0] [1; 0; 0; 0]).
  - reflexivity.
  - reflexivity.
  - repeat constructor; apply word_small; reflexivity.
  - repeat constructor; apply word_small; reflexivity.
  - reflexivity.
  - intros H. discriminate H.
Defined.

(** X7.  [Decrypt64] undoes the generic loop.  For every reachable cipher
    and every block of [N] words in the [uint64] range, [Decrypt64] takes
    the block that the round loop of the Threefish design computes (with
    the subkey the code injects, and the key and tweak the cipher holds)
    back to the block. *)
Theorem Decrypt64_inverts_rounds (c : Cipher) (key block dst : list Z) :
  reachable c key ->
  length block = qwords (internal c) -> Forall word block ->
  length dst = qwords (internal c) ->
  Decrypt64 c dst (spec_encrypt_with subkey_code (internal c) block) = Done block.
Proof.
  intros Hr Hb Hw Hd. unfold Decrypt64.
  destruct (decrypt_after_encrypt (internal c) block dst dst Hb Hw Hd Hd) as (ct & E & D).
  rewrite encrypt_spec in E; [|exact (reachable_wf c key Hr)|exact Hb|exact Hd].
  apply Done_inj in E. rewrite E. exact D.
Qed.

Lemma Decrypt64_inverts_rounds_witness :
  let c := mk_Cipher 256 (threefish256 (mk_threefish [0; 0; 0]
             (repeat 0 4 ++ [KEY_SCHEDULE_CONST]) (repeat 0 4) (repeat 0 4))) in
  Decrypt64 c [0; 0; 0; 0] (spec_encrypt_with subkey_code (internal c) [1; 2; 3; 4])
  = Done [1; 2; 3; 4].
Proof.
  apply (Decrypt64_inverts_rounds
           (mk_Cipher 256 (threefish256 (mk_threefish [0; 0; 0]
              (repeat 0 4 ++ [KEY_SCHEDULE_CONST]) (repeat 0 4) (repeat 0 4))))
           (repeat 0 4) [1; 2; 3; 4] [0; 0; 0; 0]).
  - apply (reach_NewCipherSize 256). reflexivity.
  - reflexivity.
  - repeat constructor; apply word_small; reflexivity.
  - reflexivity.
Defined.

(** ** Constructors *)

(** X8.  Bytes on a cipher of [NewCipher64].  A Threefish-256 cipher that
    [NewCipher64] returns (key of 4 words) has [BlockSize] 4, and its
    [Encrypt] and [Decrypt] process no word: whatever the buffers, they
    return, and the destination is as it was. *)
Theorem Encrypt_after_NewCipher64_256 (key : list Z) (tweak : option (list Z))
    (c : Cipher) (dst src : list byte) :
  NewCipher64 key tweak = Done c -> valid_tweak tweak -> len key = 4 ->
  BlockSize c = 4 /\
  exists c1 c2, Encrypt c dst src = Done (c1, dst) /\ Decrypt c dst src = Done (c2, dst).
Proof.
  intros Hc Hv Hk.
  destruct (NewCipher64_supported key tweak) as (ci & Hn & Hq & Hs);
    [rewrite Hk; cbn [In]; tauto | exact Hv |].
  rewrite Hn in Hc. apply Done_inj in Hc. subst c. rewrite Hk.
  split; [reflexivity|].
  assert (H1 : length (tmpData1 (state ci)) = qwords ci)
    by (rewrite Hs; apply repeat_length).
  assert (H2 : length (tmpData2 (state ci)) = qwords ci)
    by (rewrite Hs; apply repeat_length).
  destruct (encrypt_total ci (tmpData1 (state ci)) H1) as (ct & _ & HE).
  destruct (decrypt_total ci (tmpData1 (state ci)) H1) as (pt & _ & HD).
  unfold Encrypt, Decrypt, getTempData. cbv zeta. cbn [stateSize internal].
  change (Z.to_nat (Z.quot (4 * 8) 64)) with 0%nat.
  cbn [load_words store_words bind].
  rewrite HE, HD by exact H2. cbn [bind].
  eexists. eexists. split; reflexivity.
Qed.

Lemma Encrypt_after_NewCipher64_256_witness :
  let c := mk_Cipher 32 (threefish256 (mk_threefish [0; 0; 0]
             (expand_key [1; 2; 3; 4]) (repeat 0 4) (repeat 0 4))) in
  let dst := repeat Byte.x00 32 in
  let src := repeat Byte.x01 32 in
  BlockSize c = 4 /\
  exists c1 c2, Encrypt c dst src = Done (c1, dst) /\ Decrypt c dst src = Done (c2, dst).
Proof.
  apply (Encrypt_after_NewCipher64_256 [1; 2; 3; 4] None
           (mk_Cipher 32 (threefish256 (mk_threefish [0; 0; 0]
              (expand_key [1; 2; 3; 4]) (repeat 0 4) (repeat 0 4))))
           (repeat Byte.x00 32) (repeat Byte.x01 32)).
  - reflexivity.
  - exact I.
  - reflexivity.
Defined.

(** X9.  [NewCipher] and [NewCipher64] build the same cipher.  For a key of
    32, 64 or 128 bytes and a tweak that is nil or two words, [NewCipher]
    on the bytes and [NewCipher64] on their little-endian words return
    ciphers with the same variant, expanded key, expanded tweak and
    scratch arrays; the state sizes differ by the factor 8. *)
Theorem NewCipher_NewCipher64_same_internal (key : list byte) (tweak : option (list Z)) :
  In (len key) [32; 64; 128] -> valid_tweak tweak ->
  exists c c64,
    NewCipher key tweak = Done c /\
    NewCipher64 (key_words_of_bytes key) tweak = Done c64 /\
    internal c64 = internal c /\
    stateSize c = 8 * stateSize c64.
Proof.
  intros Hin Hv.
  destruct (NewCipher_supported key tweak Hin Hv) as (ci & Hn & Hq & Hs).
  assert (Hdiv : (length key / 8)%nat = qwords ci)
    by (rewrite <- Hq; apply Nat.div_mul; lia).
  assert (Hlen : length (key_words_of_bytes key) = qwords ci)
    by (unfold key_words_of_bytes; rewrite bytes_to_words_length; exact Hdiv).
  destruct (NewCipher64_supported (key_words_of_bytes key) tweak)
    as (ci64 & Hn64 & Hq64 & Hs64); [|exact Hv|].
  { unfold len in *. rewrite Hlen. cbn [In] in *.
    destruct Hin as [H|[H|[H|[]]]]; lia. }
  exists (mk_Cipher (len key * 8) ci), (mk_Cipher (len (key_words_of_bytes key) * 8) ci64).
  split; [exact Hn|]. split; [exact Hn64|]. cbn [internal stateSize]. split.
  - apply cipherInternal_eq; [congruence|].
    rewrite Hs, Hs64, Hq64, Hlen. reflexivity.
  - unfold len. rewrite Hlen. lia.
Qed.

Lemma NewCipher_NewCipher64_same_internal_witness :
  exists c c64,
    NewCipher (repeat Byte.x01 32) (Some [5; 6]) = Done c /\
    NewCipher64 (key_words_of_bytes (repeat Byte.x01 32)) (Some [5; 6]) = Done c64 /\
    internal c64 = internal c /\
    stateSize c = 8 * stateSize c64.
Proof.
  apply (NewCipher_NewCipher64_same_internal (repeat Byte.x01 32) (Some [5; 6])).
  - left. reflexivity.
  - reflexivity.
Defined.

(** X10.  Size first, key and tweak later.  For a size of 256, 512 or 1024
    bits, a key of size/64 words and a tweak that is nil or two words:
    [NewCipherSize], then [SetKey], then [SetTweak] all return, and the
    cipher holds what the cipher of [NewCipher64] for the same key and
    tweak holds; its state size is the size in bits. *)
Theorem NewCipherSize_SetKey_SetTweak (size : Z) (key : list Z) (tweak : option (list Z)) :
  In size [256; 512; 1024] -> len key * 64 = size -> valid_tweak tweak ->
  exists c0 c1 c2 c64,
    NewCipherSize size = Done c0 /\
    SetKey c0 key = Done c1 /\
    SetTweak c1 tweak = Done c2 /\
    NewCipher64 key tweak = Done c64 /\
    internal c2 = internal c64 /\
    stateSize c2 = size.
Proof.
  intros Hin Hk Hv.
  destruct (NewCipherSize_supported size Hin) as (ci0 & Hn0 & Hq0 & Hs0).
  assert (Hlen : length key = qwords ci0) by (unfold len in Hk; lia).
  destruct (NewCipher64_supported key tweak) as (ci64 & Hn64 & Hq64 & Hs64); [|exact Hv|].
  { cbn [In] in *. destruct Hin as [H|[H|[H|[]]]]; lia. }
  exists (mk_Cipher size ci0).
  rewrite Hn64.
  rewrite (SetKey_Done (mk_Cipher size ci0) key)
    by (cbn [internal]; rewrite Hs0; cbn [expanedKey];
        rewrite length_app, repeat_length; cbn [length]; lia).
  cbn [stateSize internal].
  eexists. eexists. eexists.
  split; [exact Hn0|]. split; [reflexivity|].
  unfold SetTweak, cipherInternal_setTweak. cbn [stateSize internal].
  rewrite state_with_state. cbn [with_expanedKey expanedTweak].
  rewrite Hs0. cbn [expanedTweak tmpData1 tmpData2].
  change [0; 0; 0] with (repeat 0 EXPANDED_TWEAK_SIZE).
  rewrite setTweak_expand by exact Hv. cbn [bind].
  split; [reflexivity|]. split; [reflexivity|]. cbn [internal stateSize].
  split; [|reflexivity].
  apply cipherInternal_eq.
  - rewrite !qwords_with_state. congruence.
  - rewrite !state_with_state, Hs64, Hq64, Hlen. reflexivity.
Qed.

Lemma NewCipherSize_SetKey_SetTweak_witness :
  exists c0 c1 c2 c64,
    NewCipherSize 256 = Done c0 /\
    SetKey c0 [1; 2; 3; 4] = Done c1 /\
    SetTweak c1 (Some [5; 6]) = Done c2 /\
    NewCipher64 [1; 2; 3; 4] (Some [5; 6]) = Done c64 /\
    internal c2 = internal c64 /\
    stateSize c2 = 256.
Proof.
  apply (NewCipherSize_SetKey_SetTweak 256 [1; 2; 3; 4] (Some [5; 6])).
  - left. reflexivity.
  - reflexivity.
  - reflexivity.
Defined.

(** ** Rekeying and retweaking *)

(** X11.  [SetKey] and [SetTweak] commute.  On a reachable cipher, for a
    key of [N] words and a tweak that is nil or two words, the two calls
    return in either order, with the same cipher at the end. *)
Theorem SetKey_SetTweak_commute (c : Cipher) (key k : list Z) (t : option (list Z)) :
  reachable c key -> length k = qwords (internal c) -> valid_tweak t ->
  exists ck ct ckt,
    SetKey c k = Done ck /\ SetTweak c t = Done ct /\
    SetTweak ck t = Done ckt /\ SetKey ct k = Done ckt.
Proof.
  intros Hr Hk Hv.
  destruct (reachable_schedule c key Hr) as (Hlen & He & Ht).
  assert (HeS : length (expanedKey (state (internal c))) = S (length k))
    by (rewrite He, expand_key_length; lia).
  destruct (setTweak_valid t (expanedTweak (state (internal c))) Hv Ht) as (et & Het & _).
  rewrite (SetKey_Done c k HeS).
  unfold SetTweak at 1. unfold cipherInternal_setTweak. rewrite Het. cbn [bind].
  eexists. eexists. eexists.
  split; [reflexivity|]. split; [reflexivity|]. split.
  - unfold SetTweak, cipherInternal_setTweak. cbn [internal stateSize].
    rewrite state_with_state. cbn [with_expanedKey expanedTweak].
    rewrite Het. cbn [bind]. rewrite with_state_with_state. reflexivity.
  - rewrite SetKey_Done
      by (cbn [internal]; rewrite state_with_state; cbn [with_expanedTweak expanedKey];
          exact HeS).
    cbn [internal stateSize]. rewrite with_state_with_state, state_with_state.
    reflexivity.
Qed.

Lemma SetKey_SetTweak_commute_witness :
  let c := mk_Cipher 256 (threefish256 (mk_threefish [0; 0; 0]
             (repeat 0 4 ++ [KEY_SCHEDULE_CONST]) (repeat 0 4) (repeat 0 4))) in
  exists ck ct ckt,
    SetKey c [1; 2; 3; 4] = Done ck /\ SetTweak c (Some [5; 6]) = Done ct /\
    SetTweak ck (Some [5; 6]) = Done ckt /\ SetKey ct [1; 2; 3; 4] = Done ckt.
Proof.
  apply (SetKey_SetTweak_commute
           (mk_Cipher 256 (threefish256 (mk_threefish [0; 0; 0]
              (repeat 0 4 ++ [KEY_SCHEDULE_CONST]) (repeat 0 4) (repeat 0 4))))
           (repeat 0 4) [1; 2; 3; 4] (Some [5; 6])).
  - apply (reach_NewCipherSize 256). reflexivity.
  - reflexivity.
  - reflexivity.
Defined.

(** X12.  The last key counts.  On a reachable cipher, for keys [k1] and
    [k2] of [N] words, [SetKey k1] followed by [SetKey k2] returns the
    cipher that [SetKey k2] alone returns: nothing of [k1] stays. *)
Theorem SetKey_overrides (c : Cipher) (key k1 k2 : list Z) :
  reachable c key ->
  length k1 = qwords (internal c) -> length k2 = qwords (internal c) ->
  exists c1 c2,
    SetKey c k1 = Done c1 /\ SetKey c1 k2 = Done c2 /\ SetKey c k2 = Done c2.
Proof.
  intros Hr H1 H2.
  destruct (reachable_schedule c key Hr) as (Hlen & He & Ht).
  rewrite (SetKey_Done c k1) by (rewrite He, expand_key_length; lia).
  rewrite (SetKey_Done c k2) by (rewrite He, expand_key_length; lia).
  eexists. eexists. split; [reflexivity|]. split; [|reflexivity].
  rewrite SetKey_Done
    by (cbn [internal]; rewrite state_with_state; cbn [with_expanedKey expanedKey];
        rewrite expand_key_length; lia).
  cbn [internal stateSize]. rewrite with_state_with_state, state_with_state.
  reflexivity.
Qed.

Lemma SetKey_overrides_witness :
  let c := mk_Cipher 256 (threefish256 (mk_threefish [0; 0; 0]
             (repeat 0 4 ++ [KEY_SCHEDULE_CONST]) (repeat 0 4) (repeat 0 4))) in
  exists c1 c2,
    SetKey c [1; 2; 3; 4] = Done c1 /\ SetKey c1 [5; 6; 7; 8] = Done c2 /\
    SetKey c [5; 6; 7; 8] = Done c2.
Proof.
  apply (SetKey_overrides
           (mk_Cipher 256 (threefish256 (mk_threefish [0; 0; 0]
              (repeat 0 4 ++ [KEY_SCHEDULE_CONST]) (repeat 0 4) (repeat 0 4))))
           (repeat 0 4) [1; 2; 3; 4] [5; 6; 7; 8]).
  - apply (reach_NewCipherSize 256). reflexivity.
  - reflexivity.
  - reflexivity.
Defined.

(** X13.  A tweak of fewer than two words.  A non-nil tweak of no word or
    one word makes [SetTweak] panic on every cipher, and makes [NewCipher]
    and [NewCipher64] panic for every key of a supported size
    ([tweak[0]] or [tweak[1]] is out of range). *)
Theorem short_tweak_panics (t : list Z) :
  (length t < 2)%nat ->
  (forall c, SetTweak c (Some t) = Panic) /\
  (forall key, In (len key) [32; 64; 128] -> NewCipher key (Some t) = Panic) /\
  (forall key, In (len key) [4; 8; 16] -> NewCipher64 key (Some t) = Panic).
Proof.
  intros Ht. split; [|split].
  - intros c. unfold SetTweak, cipherInternal_setTweak.
    rewrite setTweak_short by exact Ht. reflexivity.
  - intros key Hin. unfold NewCipher. rewrite switch3_bytes.
    destruct Hin as [H|[H|[H|[]]]]; rewrite <- H; cbn [Z.eqb Pos.eqb];
      unfold newThreefish256, newThreefish512, newThreefish1024, newThreefish;
      cbv zeta; rewrite setTweak_short by exact Ht; reflexivity.
  - intros key Hin. unfold NewCipher64. rewrite switch3_words.
    destruct Hin as [H|[H|[H|[]]]]; rewrite <- H; cbn [Z.eqb Pos.eqb];
      unfold newThreefish256_64, newThreefish512_64, newThreefish1024_64, newThreefish_64;
      cbv zeta; rewrite setTweak_short by exact Ht; reflexivity.
Qed.

Lemma short_tweak_panics_witness :
  (forall c, SetTweak c (Some [7]) = Panic) /\
  (forall key, In (len key) [32; 64; 128] -> NewCipher key (Some [7]) = Panic) /\
  (forall key, In (len key) [4; 8; 16] -> NewCipher64 key (Some [7]) = Panic).
Proof.
  apply (short_tweak_panics [7]). cbn [length]. lia.
Defined.

(** X14.  A tweak of more than two words.  [SetTweak], [NewCipher] and
    [NewCipher64] read the first two words of the tweak only: further
    words change nothing. *)
Theorem long_tweak_truncated (t0 t1 : Z) (rest : list Z) :
  (forall c, SetTweak c (Some (t0 :: t1 :: rest)) = SetTweak c (Some [t0; t1])) /\
  (forall key, NewCipher key (Some (t0 :: t1 :: rest)) = NewCipher key (Some [t0; t1])) /\
  (forall key, NewCipher64 key (Some (t0 :: t1 :: rest)) = NewCipher64 key (Some [t0; t1])).
Proof.
  split; [|split].
  - intros c. unfold SetTweak, cipherInternal_setTweak.
    rewrite setTweak_long. reflexivity.
  - intros key. unfold NewCipher, newThreefish256, newThreefish512, newThreefish1024,
      newThreefish. cbv zeta. rewrite !(setTweak_long t0 t1 rest). reflexivity.
  - intros key. unfold NewCipher64, newThreefish256_64, newThreefish512_64,
      newThreefish1024_64, newThreefish_64. cbv zeta.
    rewrite !(setTweak_long t0 t1 rest). reflexivity.
Qed.

(** ** Schedules *)

(** X15.  XOR of the schedules.  In every reachable cipher the XOR of all
    [N + 1] words of the expanded key is the key-schedule constant, and
    the XOR of the three words of the expanded tweak is 0. *)
Theorem schedule_xor_invariant (c : Cipher) (key : list Z) :
  reachable c key ->
  xor_all (expanedKey (state (internal c))) = KEY_SCHEDULE_CONST /\
  xor_all (expanedTweak (state (internal c))) = 0.
Proof.
  intros Hr.
  destruct (reachable_schedule c key Hr) as (_ & He & _).
  destruct (reachable_tweak c key Hr) as (t0 & t1 & Ht).
  rewrite He, Ht. split.
  - unfold expand_key. rewrite xor_all_app. cbn [xor_all fold_right].
    unfold xor64. rewrite Z.lxor_0_r.
    rewrite (Z.lxor_comm KEY_SCHEDULE_CONST), <- Z.lxor_assoc, Z.lxor_nilpotent.
    apply Z.lxor_0_l.
  - cbn [xor_all fold_right]. unfold xor64.
    rewrite Z.lxor_0_r, <- Z.lxor_assoc. apply Z.lxor_nilpotent.
Qed.

Lemma schedule_xor_invariant_witness :
  let c := mk_Cipher 32 (threefish256 (mk_threefish [5; 6; 3]
             (expand_key [1; 2; 3; 4]) (repeat 0 4) (repeat 0 4))) in
  xor_all (expanedKey (state (internal c))) = KEY_SCHEDULE_CONST /\
  xor_all (expanedTweak (state (internal c))) = 0.
Proof.
  apply (schedule_xor_invariant
           (mk_Cipher 32 (threefish256 (mk_threefish [5; 6; 3]
              (expand_key [1; 2; 3; 4]) (repeat 0 4) (repeat 0 4))))
           [1; 2; 3; 4]).
  apply (reach_NewCipher64 [1; 2; 3; 4] (Some [5; 6])); [reflexivity | reflexivity].
Defined.

(** ** The error value *)

Lemma append_inj (p a b : String.string) :
  String.append p a = String.append p b -> a = b.
Proof.
  induction p as [|ch p IH]; cbn [String.append]; intros H.
  - exact H.
  - injection H as H. apply IH. exact H.
Qed.

Lemma to_int_not_nil (z : Z) :
  Z.to_int z <> Decimal.Pos Decimal.Nil /\ Z.to_int z <> Decimal.Neg Decimal.Nil.
Proof.
  destruct z as [|p|p]; cbn [Z.to_int]; split; intros H; try discriminate H;
    injection H as H; exact (DecimalPos.Unsigned.to_uint_nonnil p H).
Qed.

Lemma Itoa_inj (a b : Z) : Itoa a = Itoa b -> a = b.
Proof.
  unfold Itoa. intros H.
  apply (f_equal DecimalString.NilZero.int_of_string) in H.
  destruct (to_int_not_nil a) as [A1 A2]. destruct (to_int_not_nil b) as [B1 B2].
  rewrite !DecimalString.NilZero.isi in H by assumption.
  injection H as H. apply DecimalZ.to_int_inj. exact H.
Qed.

(** X16.  The message of a refused construction.  A constructor given an
    unsupported size returns an error whose [String] is the fixed text
    followed by the decimal digits of the size it was given: the number of
    key bytes for [NewCipher], of key words for [NewCipher64], and the size
    in bits for [NewCipherSize]. *)
Theorem construction_error_message (key : list byte) (key64 : list Z) (size : Z)
    (tweak : option (list Z)) :
  ~ In (len key) [32; 64; 128] -> ~ In (len key64) [4; 8; 16] ->
  ~ In size [256; 512; 1024] ->
  (exists e, NewCipher key tweak = Failed e /\
     KeySizeError_String e
     = String.append "crypto/threefish: invalid key size "%string (Itoa (len key))) /\
  (exists e, NewCipher64 key64 tweak = Failed e /\
     KeySizeError_String e
     = String.append "crypto/threefish: invalid key size "%string (Itoa (len key64))) /\
  (exists e, NewCipherSize size = Failed e /\
     KeySizeError_String e
     = String.append "crypto/threefish: invalid key size "%string (Itoa size)).
Proof.
  intros H1 H2 H3. split; [|split]; eexists; split.
  - apply NewCipher_unsupported. exact H1.
  - reflexivity.
  - apply NewCipher64_unsupported. exact H2.
  - reflexivity.
  - apply NewCipherSize_unsupported. exact H3.
  - reflexivity.
Qed.

Lemma construction_error_message_witness :
  (exists e, NewCipher (repeat Byte.x00 5) None = Failed e /\
     KeySizeError_String e = "crypto/threefish: invalid key size 5"%string) /\
  (exists e, NewCipher64 [1; 2; 3] None = Failed e /\
     KeySizeError_String e = "crypto/threefish: invalid key size 3"%string) /\
  (exists e, NewCipherSize (-128) = Failed e /\
     KeySizeError_String e = "crypto/threefish: invalid key size -128"%string).
Proof.
  apply (construction_error_message (repeat Byte.x00 5) [1; 2; 3] (-128) None).
  - vm_compute. intros H. repeat destruct H as [H|H]; try discriminate H. exact H.
  - vm_compute. intros H. repeat destruct H as [H|H]; try discriminate H. exact H.
  - vm_compute. intros H. repeat destruct H as [H|H]; try discriminate H. exact H.
Defined.

(** X17.  Different sizes, different messages.  The [String] of two
    [KeySizeError] values of different sizes differ. *)
Theorem KeySizeError_String_distinct (k1 k2 : Z) :
  k1 <> k2 ->
  String.eqb (KeySizeError_String (KeySizeError k1))
             (KeySizeError_String (KeySizeError k2)) = false.
Proof.
  intros Hne. apply String.eqb_neq. intros H. apply Hne.
  cbn [KeySizeError_String] in H. apply append_inj in H. apply Itoa_inj. exact H.
Qed.

Lemma KeySizeError_String_distinct_witness :
  String.eqb (KeySizeError_String (KeySizeError 32))
             (KeySizeError_String (KeySizeError 33)) = false.
Proof.
  apply (KeySizeError_String_distinct 32 33). intros H. discriminate H.
Defined.
